(* ===== verification/_CoqProject ===== *)
-Q . S2P
Prelude.v
Kernel.v
PfsTypes.v
Text.v
Version.v
Subr.v
Structure.v
VnodeLayer.v
NodeCache.v
NodeCacheInv.v
Sysctl.v
Readdir.v
Lookup.v
Note.v
Vnops.v
Ctl.v
Vfsops.v
Unmount.v
Cmdline.v
Mem.v
Map.v
Status.v
Daemon.v
Format.v
Blobs.v
Clock.v
LinuxSys.v
CpuInfo.v
Disks.v
LinuxProc.v
Qsort.v
Macho.v
KernelImage.v
Wchan.v
Locks.v
Devices.v
NetTables.v
Listings.v
Double.v
HostInfo.v
EndToEnd.v
MountHelper.v
Lifecycle.v
Service.v
