(* ===== verification/Prelude.v ===== *)
(** * Verification of the procfs kernel extension and its daemon

    The program is a /proc file system for macOS: a kernel extension
    (src/kext) that implements the VFS and vnode operations, and a user-space
    daemon (src/tools/procfsd.c) that the extension asks, over a kernel control
    socket, for what a third-party extension cannot reach by itself.

    ** The parts and where they are modelled

    - [Prelude], [Text]: fixed-width integers, bytes, C strings and decimal text,
      little-endian encoding, runs of a step function and reachability.
    - [Kernel]: what the extension uses of XNU.  errno values, credentials and
      processes are data; the process table is a record of functions, uio an
      interface with its laws ([Uio], [UioLaws]) and a concrete instance.
    - [PfsTypes]: node types, node ids and the tables over node types
      (procfs.h, procfs_subr.c).
    - [Subr]: access checks, pid, thread and descriptor lists, file ids, number
      parsing, procfs_copy_data (procfs_subr.c).  The record [bridge] is the
      interface to the daemon that every client of it is written against.
    - [Version]: the spoofed Linux releases and their order (procfs_linux.c).
    - [Structure]: the tree of structure nodes with its store, building and
      freeing (procfs_structure.c).
    - [VnodeLayer], [NodeCache], [NodeCacheInv]: procfsnode_find and
      procfs_vnop_reclaim as a machine of interleaved steps, one step per critical
      section or kernel call, over an interface to the vnode layer with a concrete
      instance; its invariant and theorems (procfs_node.c).
    - [Readdir], [Lookup], [Vnops]: the vnode operations (procfs_vnops.c), with
      the size functions of procfs_status.c and procfs_fd.c.
    - [Vfsops], [Unmount]: mounting and unmounting, the root vnode, and what is left
      of a mount in the node cache (procfs_vfsops.c).
    - [Sysctl]: /proc/sys (procfs_sysctl.c).
    - [Note]: notes and clear_refs (procfs_note.c).
    - [Ctl]: the extension's end of the control socket as a step machine: slots,
      sequence numbers, sleeping requests, replies, timeouts, connection and
      disconnection, and the clients that assemble replies (procfs_ctl.c).
    - [Cmdline], [Mem], [Map], [Status]: the files of a process: arguments and
      environment (procfs_cmdline.c), memory and page map (procfs_mem.c), memory
      maps and the smaps family (procfs_map.c, procfs_linux.c), ids, structures,
      limits and descriptors (procfs_status.c, procfs_limit.c, procfs_fd.c).
    - [Format]: printf formats, the copy of a formatted buffer, reads of a buffer at
      an offset.  [Blobs], [Clock], [LinuxSys], [CpuInfo], [LinuxProc]: the Linux
      texts of procfs_linux.c, with procfs_extensions.c, procfs_regs.c,
      procfs_fpregs.c and procfs_auxv.c: the listings relayed from the daemon and the
      masking of addresses, /proc/rtc, the files of the system, /proc/cpuinfo on x86,
      and the files of a process and its threads.
    - [Disks]: the block devices of the registry (procfs_iokit.cpp).
    - [Locks], [Wchan]: the lock table and the wait channels (procfs_kern.c).
    - [Daemon], [Double], [HostInfo]: the request loop of procfsd, its Mach handlers,
      its cached listings, and its answers from host statistics, sysctls and thread
      states (procfsd.c), over a [host] whose calls are parameters with the laws
      [TaskShows], [HostFits] and [HostInfoFits]; the load averages are doubles, scaled
      and rounded with the binary64 operations of the Standard Library's SpecFloat.
    - [Qsort]: qsort as an interface ([Qsort], [QsortLaws]) with an instance, and
      tables of rows with a key.  [KernelImage], [Macho], [Devices], [NetTables],
      [Listings]: the listings procfsd builds: kernel symbols from the image on disk,
      devices and terminals from /dev, sockets, routes and counters from the kernel's
      streams, and what IOKit, libproc and the System V tables report.
    - [EndToEnd]: the arms of the request loop that serve a listing, composed with the
      build functions, the cache, the bridge and the nodes, while the system changes
      and other readers ask between the requests of one read.
    - [Lifecycle]: loading and unloading the extension (procfs.c) and the calls of the
      daemon's start.  [Service]: the daemon's outer loop, with reconnection, and the
      thread that keeps /proc mounted.  [MountHelper]: the mount command
      (mount_procfs.c).

    A lookup goes Vnops/Lookup -> Structure, Subr -> NodeCache -> VnodeLayer; a
    read goes Vnops -> a file's data function -> Subr's bridge -> Ctl -> Daemon.
    The readers are proved against predicates on the bridge ([serves_maps],
    [serves_mem], [serves_pages], [serves_args], [serves]); Daemon proves that the
    daemon's handlers satisfy them, and Ctl that a request which succeeds returns
    the payload of the reply to that very request.

    ** State and errors

    A w-bit integer is a [Z] with its wrap-around written out ([u32], [u64],
    [i32], [i64]).  A C function returns its errno and what it changes.  [None] of
    an option result is what the code must not do: touch freed or foreign memory
    (Structure, Subr.uiomove_at, the [Fault] state of NodeCache), or run out of
    fuel.  Theorems that say a function returns are stated as such.

    ** The theorems

    - The node cache: no interleaving reads freed memory, one node per id, what a
      call returns, no lost wakeup, no deadlock ([NodeCacheInv]).
    - The control bridge: replies reach the request they answer, slots are
      accounted for on every path, no request sleeps unanswered ([Ctl]); the
      daemon's replies, from every arm of its loop, fit the payload and decode to what
      was sent ([HostInfo]), and keep the promises the readers rely on ([Daemon]).
    - Directories: a listing read in chunks is complete and parses back, every
      listed name resolves, stat agrees with readdir, dot-dot undoes lookup, in the
      fixed layout and in /proc/sys; the links resolve ([Readdir], [Lookup], [Vnops]).
    - Files: the bytes a reader gets are those of the argument region, of the
      resident memory, of the page table and of the region list; totals add up;
      every loop ends whatever the daemon answers ([Cmdline], [Mem], [Map],
      [Status], [Subr]).
    - Errors and effects: what a write does and to whom a signal goes ([Note],
      [Vnops]), what a read without access returns ([Mem]), what mounting and
      unmounting leave behind ([Vfsops], [Structure]).
    - Texts: a formatted text fits its buffer and is copied whole, totals add up, a
      stat line reads back whatever the process is called, dates are right, and
      addresses are hidden from readers that are not root ([LinuxSys], [LinuxProc],
      [Clock], [Blobs]); a wait channel is the name of the function ([Wchan]).
    - Listings: the parsers read no byte outside their input and decode what it holds
      ([Macho], [NetTables], [Listings]), the tables have one row per key in order
      ([Devices], [Listings], [Locks]), the search in the symbol table equals a scan.
    - From end to end: the numbers of the host reach the texts of their nodes
      ([HostInfo]), and a read of a listing that no other reader of the same listing
      disturbs returns one text, the one made at its first request ([EndToEnd]).
    - Service: a start is all or nothing and a stop gives everything back
      ([Lifecycle]); the daemon comes back after an error with its settings, and /proc
      is mounted once while statfs succeeds ([Service]); an unmounted file system
      leaves no node in the cache ([Unmount]).
    - Theorems without a claim number support these, or are about behaviour that looks
      unintended: offsets and numbers that wrap, shared state that is freed or replaced
      too early, names that resolve without being listed, reads past a short input, a
      thread name without a NUL, a second mount after a failing statfs.

    ** Bounds and fuel

    Loops over data are structural.  The others have fuel: vercmp and name
    scanning, the length of the text; the reads of memory, one round more than the
    bytes asked for (every round moves a byte); the region walk, 2^64 rounds for
    any daemon (the address grows) and one more than the regions for an honest
    one; the argument region, 129 chunks (it is capped at 256 KiB); the blob
    reader, one round per 2048 bytes; the daemon's memory read, 2049 rounds; the
    binary search, the length of the table; the walks over socket streams, routing
    messages and lines of a file, one round more than the bytes (every round passes
    one); the System V iteration, the code's own limit of 200000.  The theorems
    that say a function returns prove the bound sufficient.

    ** What is not modelled

    The generated table of symbol names (kallsyms_extra.h), the vendored kernel
    headers, the submodules, the graphical front ends and the tests;
    procfs_fill_socketinfo, which nothing calls; the two thread bodies of the wait
    channel's probe, which only block and exit.  The identity of a vnode is unbounded
    in [VnodeLayer], a uint32_t in the kernel.  Memory exhaustion is modelled where
    the code tests for it; the growth of an auto-extending sbuf is assumed to succeed.
    Time appears only as a timeout that may happen at any moment. *)
From Stdlib Require Import ZArith Lia String Ascii.
From stdpp Require Import base list numbers strings gmap.

#[global] Set Default Goal Selector "!".

Declare Scope procfs_scope.
Delimit Scope procfs_scope with procfs.
Open Scope Z_scope.

Create HintDb procfs.

(** ** Machine integers

    C integers are [Z] values; a conversion to a [w]-bit type is explicit. *)
Definition wrap_u (w z : Z) : Z := z mod 2 ^ w.
Definition wrap_s (w z : Z) : Z := (z + 2 ^ (w - 1)) mod 2 ^ w - 2 ^ (w - 1).

Definition u16 (z : Z) : Z := wrap_u 16 z.
Definition u32 (z : Z) : Z := wrap_u 32 z.
Definition u64 (z : Z) : Z := wrap_u 64 z.
Definition i32 (z : Z) : Z := wrap_s 32 z.
Definition i64 (z : Z) : Z := wrap_s 64 z.

(** ** Bytes, characters and C strings *)
Definition bytes := list Z.

Definition chr (c : ascii) : Z := Z.of_N (N_of_ascii c).
Definition char_of (z : Z) : ascii := ascii_of_N (Z.to_N z).

(** The bytes of a C string, without its terminating NUL. *)
Fixpoint bytes_of_string (s : string) : bytes :=
  match s with
  | EmptyString => []
  | String c s' => chr c :: bytes_of_string s'
  end.

Definition strlen (s : string) : Z := Z.of_nat (String.length s).

(** [strlcpy(dst, src, size)]: at most [size - 1] characters are kept. *)
Fixpoint str_take (n : nat) (s : string) : string :=
  match n, s with
  | S n', String c s' => String c (str_take n' s')
  | _, _ => EmptyString
  end.

Definition strlcpy (src : string) (size : Z) : string :=
  str_take (Z.to_nat (size - 1)) src.

Definition is_digit (c : ascii) : bool := (48 <=? chr c) && (chr c <=? 57).

(** [printf]'s [%d] / [%u]: decimal digits, most significant first. *)
Definition digit_char (d : Z) : ascii := char_of (48 + d).

Fixpoint print_u_loop (fuel : nat) (n : Z) (acc : string) : string :=
  match fuel with
  | O => acc
  | S f =>
      let acc' := String (digit_char (n mod 10)) acc in
      if n <? 10 then acc' else print_u_loop f (n / 10) acc'
  end.

Definition print_u (n : Z) : string := print_u_loop (S (Z.to_nat (Z.log2 n))) n EmptyString.

Definition print_d (n : Z) : string :=
  if n <? 0 then String "-" (print_u (- n)) else print_u n.

Arguments print_u : simpl never.
Arguments print_d : simpl never.
Arguments strlen : simpl never.
Arguments chr : simpl never.

(** Little-endian encoding of a [n]-byte integer, the layout of both targets
    (arm64 and x86_64). *)
Fixpoint le_bytes (n : nat) (z : Z) : bytes :=
  match n with
  | O => []
  | S n' => (z mod 256) :: le_bytes n' (z / 256)
  end.

Fixpoint le_val (bs : bytes) : Z :=
  match bs with
  | [] => 0
  | b :: bs' => b + 256 * le_val bs'
  end.

(** ** A state monad for code that threads a global state *)
Definition st (S A : Type) : Type := S -> A * S.
Definition st_ret {S A} (a : A) : st S A := fun s => (a, s).
Definition st_bind {S A B} (m : st S A) (k : A -> st S B) : st S B :=
  fun s => let '(a, s') := m s in k a s'.

Notation "x <-- m ;; k" := (st_bind m (fun x => k))
  (at level 100, m at next level, right associativity) : procfs_scope.
Notation "m ;;; k" := (st_bind m (fun _ => k))
  (at level 100, right associativity) : procfs_scope.

(** ** Reachability under a labelled executable step *)
Inductive reach {S L : Type} (step : L -> S -> option S) (init : S) : S -> Prop :=
| reach_init : reach step init init
| reach_step l s s' : reach step init s -> step l s = Some s' -> reach step init s'.

Fixpoint run {S L : Type} (step : L -> S -> option S) (ls : list L) (s : S) : option S :=
  match ls with
  | [] => Some s
  | l :: ls' => match step l s with Some s' => run step ls' s' | None => None end
  end.

(** ** Tactics *)
Ltac simpz := unfold i32, i64, u16, u32, u64, wrap_u, wrap_s in *.

(** Case analysis on every [match]/[if] scrutinee of the goal and of the
    hypotheses that are equations, keeping the equation. *)
Ltac destr_match :=
  match goal with
  | H : context [match ?x with _ => _ end] |- _ => destruct x eqn:?
  | |- context [match ?x with _ => _ end] => destruct x eqn:?
  end.

Ltac bool_to_prop :=
  repeat match goal with
  | H : (_ && _)%bool = true |- _ => apply andb_true_iff in H as [? ?]
  | H : (_ || _)%bool = false |- _ => apply orb_false_iff in H as [? ?]
  | H : (_ =? _) = true |- _ => apply Z.eqb_eq in H
  | H : (_ =? _) = false |- _ => apply Z.eqb_neq in H
  | H : (_ <? _) = true |- _ => apply Z.ltb_lt in H
  | H : (_ <? _) = false |- _ => apply Z.ltb_ge in H
  | H : (_ <=? _) = true |- _ => apply Z.leb_le in H
  | H : (_ <=? _) = false |- _ => apply Z.leb_gt in H
  | H : negb _ = true |- _ => apply negb_true_iff in H
  | H : negb _ = false |- _ => apply negb_false_iff in H
  end.

(** ** Lemmas on machine integers *)
Lemma wrap_u_small (w z : Z) : 0 <= z < 2 ^ w -> wrap_u w z = z.
Proof. intros. unfold wrap_u. by apply Z.mod_small. Qed.

Lemma wrap_u_range (w z : Z) : 0 <= w -> 0 <= wrap_u w z < 2 ^ w.
Proof. intros. unfold wrap_u. apply Z.mod_pos_bound, Z.pow_pos_nonneg; lia. Qed.

Lemma wrap_s_small (w z : Z) : 0 < w -> - 2 ^ (w - 1) <= z < 2 ^ (w - 1) -> wrap_s w z = z.
Proof.
  intros Hw Hz. unfold wrap_s.
  assert (2 ^ w = 2 * 2 ^ (w - 1)) as E.
  { replace w with (Z.succ (w - 1)) at 1 by lia. rewrite Z.pow_succ_r; lia. }
  rewrite Z.mod_small; lia.
Qed.

Lemma i32_small z : - 2147483648 <= z < 2147483648 -> i32 z = z.
Proof. intros. apply wrap_s_small; [lia|]. change (2 ^ (32 - 1)) with 2147483648. lia. Qed.

Lemma i64_small z : - 9223372036854775808 <= z < 9223372036854775808 -> i64 z = z.
Proof.
  intros. apply wrap_s_small; [lia|].
  change (2 ^ (64 - 1)) with 9223372036854775808. lia.
Qed.

Lemma u16_small z : 0 <= z < 65536 -> u16 z = z.
Proof. intros. apply wrap_u_small. lia. Qed.

Lemma u64_small z : 0 <= z < 18446744073709551616 -> u64 z = z.
Proof. intros. apply wrap_u_small. lia. Qed.

Lemma u32_small z : 0 <= z < 4294967296 -> u32 z = z.
Proof. intros. apply wrap_u_small. lia. Qed.

#[export] Hint Resolve i32_small i64_small u16_small u32_small u64_small : procfs.

(** ** Lemmas on characters and decimal printing *)
Lemma chr_char_of z : 0 <= z < 256 -> chr (char_of z) = z.
Proof.
  intros. unfold chr, char_of. rewrite N_ascii_embedding by lia. lia.
Qed.

Lemma chr_range c : 0 <= chr c < 256.
Proof. unfold chr. pose proof (N_ascii_bounded c). lia. Qed.

Lemma digit_char_val d : 0 <= d < 10 -> chr (digit_char d) = 48 + d.
Proof. intros. unfold digit_char. apply chr_char_of. lia. Qed.

Lemma digit_char_is_digit d : 0 <= d < 10 -> is_digit (digit_char d) = true.
Proof. intros. unfold is_digit. rewrite digit_char_val by lia. lia. Qed.

Lemma str_app_cons c a b : String c a +:+ b = String c (a +:+ b).
Proof. reflexivity. Qed.

Lemma str_app_assoc (a b c : string) : a +:+ b +:+ c = (a +:+ b) +:+ c.
Proof. induction a as [|x a IH]; [done|]. by rewrite !str_app_cons, IH. Qed.

Lemma strlen_app a b : strlen (a +:+ b) = strlen a + strlen b.
Proof.
  unfold strlen. rewrite <- Nat2Z.inj_add. f_equal.
  induction a as [|c a IH]; [done|]. rewrite str_app_cons. cbn [String.length].
  by rewrite IH.
Qed.

Lemma bytes_of_string_length s : Z.of_nat (length (bytes_of_string s)) = strlen s.
Proof. unfold strlen. induction s; cbn [bytes_of_string length String.length] in *; lia. Qed.

Lemma bytes_of_string_app a b :
  bytes_of_string (a +:+ b) = (bytes_of_string a ++ bytes_of_string b)%list.
Proof.
  induction a as [|c a IH]; [done|]. rewrite str_app_cons. cbn [bytes_of_string].
  by rewrite IH.
Qed.

Lemma str_take_all n s : (String.length s <= n)%nat -> str_take n s = s.
Proof.
  revert n. induction s as [|c s IH]; intros [|n] H; cbn in *; try done; try lia.
  rewrite IH; [done|lia].
Qed.

Lemma str_take_length n s : (String.length (str_take n s) <= n)%nat.
Proof. revert s. induction n; intros [|c s]; cbn; try lia. specialize (IHn s). lia. Qed.

Lemma str_app_length (a b : string) : String.length (String.append a b) = (String.length a + String.length b)%nat.
Proof.
  induction a as [|c a IH]; [done|]. change (String.append (String c a) b) with (String c (String.append a b)).
  cbn [String.length]. rewrite IH. lia.
Qed.

Lemma strlcpy_fits s size : strlen s < size -> strlcpy s size = s.
Proof. intros. apply str_take_all. unfold strlen in *. lia. Qed.

(** ** Lemmas on little-endian encodings *)
Lemma le_bytes_length n z : length (le_bytes n z) = n.
Proof. revert z. induction n; intros; cbn; [done|]. by rewrite IHn. Qed.

Lemma le_val_bytes n z : le_val (le_bytes n z) = z mod 256 ^ Z.of_nat n.
Proof.
  revert z. induction n as [|n IH]; intros z.
  - cbn. by rewrite Z.mod_1_r.
  - cbn [le_bytes le_val]. rewrite IH, Nat2Z.inj_succ, Z.pow_succ_r by lia.
    rewrite Z.rem_mul_r; lia.
Qed.

Lemma le_val_bytes_small n z : 0 <= z < 256 ^ Z.of_nat n -> le_val (le_bytes n z) = z.
Proof. intros. rewrite le_val_bytes. by apply Z.mod_small. Qed.

Lemma le_val_app a b :
  le_val (a ++ b) = le_val a + 256 ^ Z.of_nat (length a) * le_val b.
Proof.
  induction a as [|x a IH]; cbn [le_val app length].
  - change (Z.of_nat 0) with 0. lia.
  - rewrite IH, Nat2Z.inj_succ, Z.pow_succ_r by lia. lia.
Qed.

(** ** Lemmas on reachability *)
Lemma run_reach {S L} (step : L -> S -> option S) init ls s s' :
  reach step init s -> run step ls s = Some s' -> reach step init s'.
Proof.
  revert s. induction ls as [|l ls IH]; intros s Hr Hrun; cbn in Hrun.
  - by simplify_eq.
  - destruct (step l s) eqn:E; [|done]. eapply IH; [|done]. by eapply reach_step.
Qed.

Lemma run_app {S L} (step : L -> S -> option S) l1 l2 s s' :
  run step l1 s = Some s' -> run step (l1 ++ l2) s = run step l2 s'.
Proof.
  revert s. induction l1 as [|l l1 IH]; intros s H; cbn in *; [by simplify_eq|].
  destruct (step l s); [by apply IH|done].
Qed.

Lemma reach_invariant {S L} (step : L -> S -> option S) (P : S -> Prop) init s :
  P init -> (forall l s1 s2, P s1 -> step l s1 = Some s2 -> P s2) ->
  reach step init s -> P s.
Proof. intros Hi Hs. induction 1; eauto. Qed.
