(* ===== verification/Kernel.v ===== *)
(** * The kernel side of the interface

    XNU is not part of the repository.  What the extension uses of it is
    collected here as data (errno values, vnode and directory-entry types,
    credentials, processes) and as interfaces: the operations are class
    fields or record fields, and the documented behaviour the extension
    relies on is a class of laws.  A concrete instance ([ubuf]) shows that
    the laws can hold and lets the definitions be evaluated. *)
From S2P Require Import Prelude.
From stdpp Require Import base list numbers strings gmap.
Open Scope Z_scope.

(** ** errno values of the target *)
Definition EPERM : Z := 1.
Definition ENOENT : Z := 2.
Definition ESRCH : Z := 3.
Definition EIO : Z := 5.
Definition ENOMEM : Z := 12.
Definition EACCES : Z := 13.
Definition EFAULT : Z := 14.
Definition EBUSY : Z := 16.
Definition ENOTDIR : Z := 20.
Definition EISDIR : Z := 21.
Definition EINVAL : Z := 22.
Definition EROFS : Z := 30.
Definition EMSGSIZE : Z := 40.
Definition ENOTSUP : Z := 45.
Definition ENOTCONN : Z := 57.
Definition ETIMEDOUT : Z := 60.
Definition EOPNOTSUPP : Z := 102.

(** ** Vnode types and directory-entry types *)
Inductive vtype := VNON | VREG | VDIR | VBLK | VCHR | VLNK.

#[export] Instance vtype_eq_dec : EqDecision vtype.
Proof. solve_decision. Defined.

(** The numeric values of [enum vtype]. *)
Definition vtype_num (v : vtype) : Z :=
  match v with VNON => 0 | VREG => 1 | VDIR => 2 | VBLK => 3 | VCHR => 4 | VLNK => 5 end.

Definition DT_CHR : Z := 2.
Definition DT_DIR : Z := 4.
Definition DT_REG : Z := 8.
Definition DT_LNK : Z := 10.

(** ** Credentials and processes *)
Record cred := Cred { cr_uid : Z; cr_ruid : Z; cr_gid : Z; cr_rgid : Z }.

Record proc := Proc {
  p_pid : Z;
  p_ppid : Z;
  p_pgrpid : Z;
  p_sessionid : Z;
  p_cred : cred;
  p_comm : string;          (* what proc_name() reports *)
  p_start_sec : Z;
  p_start_usec : Z;
  p_zombie : bool;          (* p_stat == SZOMB *)
  p_system : bool           (* p_flag & P_SYSTEM *)
}.

(** One answer of the process table.  [proc_find] returns the process with
    the given id, or none. *)
Record kernel := Kernel {
  proc_find : Z -> option proc;
  current_pid : Z
}.

Class KernelLaws (K : kernel) := {
  proc_find_pid pid p : proc_find K pid = Some p -> p_pid p = pid;
  proc_find_neg pid : pid < 0 -> proc_find K pid = None
}.

(** ** The uio interface

    [uiomove d n u] copies up to [n] bytes of [d] to the caller's area
    described by [u]; [uiomove_in n u] copies the other way.  [uio_out u] is
    what the caller's area has received so far, [uio_in u] what is left to
    be read from it. *)
Class Uio (U : Type) := {
  uio_offset : U -> Z;
  uio_resid : U -> Z;
  uio_is_write : U -> bool;
  uio_out : U -> bytes;
  uio_in : U -> bytes;
  uio_setoffset : Z -> U -> U;
  uiomove : bytes -> Z -> U -> Z * U;
  uiomove_in : Z -> U -> Z * bytes * U
}.

Class UioLaws (U : Type) `{Uio U} := {
  (** A successful move transfers [min n resid] bytes and advances. *)
  uiomove_ok d n u u' :
    0 <= n -> 0 <= uio_resid u -> uiomove d n u = (0, u') ->
    uio_out u' = (uio_out u ++ take (Z.to_nat (Z.min n (uio_resid u))) d)%list
    /\ uio_offset u' = uio_offset u + Z.min n (uio_resid u)
    /\ uio_resid u' = uio_resid u - Z.min n (uio_resid u)
    /\ uio_is_write u' = uio_is_write u;
  (** A failing move reports a positive errno. *)
  uiomove_err d n u e u' : uiomove d n u = (e, u') -> 0 <= e;
  uio_setoffset_spec z u :
    uio_offset (uio_setoffset z u) = z
    /\ uio_resid (uio_setoffset z u) = uio_resid u
    /\ uio_out (uio_setoffset z u) = uio_out u
    /\ uio_is_write (uio_setoffset z u) = uio_is_write u;
  uiomove_in_ok n u bs u' :
    0 <= n -> n <= uio_resid u -> uiomove_in n u = (0, bs, u') ->
    bs = take (Z.to_nat n) (uio_in u)
}.

(** ** A concrete uio: one user buffer that may be unmapped *)
Record ubuf := Ubuf {
  ub_offset : Z; ub_resid : Z; ub_write : bool; ub_out : bytes; ub_in : bytes;
  ub_fault : bool
}.

Definition ubuf_move (d : bytes) (n : Z) (u : ubuf) : Z * ubuf :=
  if ub_fault u then (EFAULT, u) else
  let k := Z.min n (ub_resid u) in
  (0, Ubuf (ub_offset u + k) (ub_resid u - k) (ub_write u)
           (ub_out u ++ take (Z.to_nat k) d)%list (ub_in u) (ub_fault u)).

Definition ubuf_move_in (n : Z) (u : ubuf) : Z * bytes * ubuf :=
  if ub_fault u then (EFAULT, [], u) else
  let k := Z.min n (ub_resid u) in
  (0, take (Z.to_nat k) (ub_in u),
   Ubuf (ub_offset u + k) (ub_resid u - k) (ub_write u) (ub_out u)
        (drop (Z.to_nat k) (ub_in u)) (ub_fault u)).

#[export] Instance ubuf_uio : Uio ubuf := {|
  uio_offset := ub_offset;
  uio_resid := ub_resid;
  uio_is_write := ub_write;
  uio_out := ub_out;
  uio_in := ub_in;
  uio_setoffset z u :=
    Ubuf z (ub_resid u) (ub_write u) (ub_out u) (ub_in u) (ub_fault u);
  uiomove := ubuf_move;
  uiomove_in := ubuf_move_in
|}.

#[export] Instance ubuf_laws : UioLaws ubuf.
Proof.
  split; cbn.
  - intros d n u u' Hn Hr. unfold ubuf_move.
    destruct (ub_fault u); [done|]. intros [= <-]. by cbn.
  - intros d n u e u'. unfold ubuf_move. destruct (ub_fault u); intros [= <- _]; done.
  - done.
  - intros n u bs u' Hn Hle. unfold ubuf_move_in.
    destruct (ub_fault u); [done|]. intros [= <- _]. by rewrite Z.min_l by lia.
Qed.

(** A read of [resid] bytes at [off] into a mapped buffer. *)
Definition ubuf_read (off resid : Z) : ubuf := Ubuf off resid false [] [] false.

(** A write of the bytes [bs]. *)
Definition ubuf_writing (bs : bytes) : ubuf :=
  Ubuf 0 (Z.of_nat (length bs)) true [] bs false.

(** ** A concrete process table *)
Definition table_kernel (ps : list proc) (cur : Z) : kernel :=
  Kernel (fun pid => if pid <? 0 then None
                     else List.find (fun p => p_pid p =? pid) ps) cur.

#[export] Instance table_kernel_laws ps cur : KernelLaws (table_kernel ps cur).
Proof.
  split; cbn; intros pid.
  - intros p. destruct (pid <? 0); [done|]. intros [_ H]%List.find_some. lia.
  - intros H. apply Z.ltb_lt in H. by rewrite H.
Qed.
