(* ===== verification/PfsTypes.v ===== *)
(** * Node types, node identifiers and the tables indexed by node type
    (include/fs/procfs/procfs.h, kext/procfs_subr.c) *)
From S2P Require Import Prelude Kernel.
From stdpp Require Import base list numbers strings gmap.
Open Scope Z_scope.

(** The different types of node in a procfs file system, in the order of the
    C enumeration. *)
Inductive pfstype :=
| PFSroot | PFSproc | PFSthread | PFSdir | PFSfile | PFSdirthis | PFSdirparent
| PFScurproc | PFSprocnamedir | PFSfd | PFScpuinfo | PFSloadavg | PFSpartitions
| PFSversion | PFSmeminfo | PFSmtab | PFSstat | PFSvmstat | PFSuptime | PFSswaps
| PFSfilesystems | PFSproclink | PFSsysctl | PFSextensions | PFSmodules
| PFSdiskstats | PFSdevices | PFSnetdev | PFSallocinfo | PFSapm | PFSbootconfig
| PFSbuddyinfo | PFSpcidevices | PFSdma | PFSrtc | PFSexecdomains | PFSfb
| PFSnfsexports | PFSinterrupts | PFSirq | PFStty | PFSioports | PFSiomem
| PFSsoftirqs | PFSkcmdline | PFSide | PFSvmallocinfo | PFSisapnp | PFSscsi
| PFSsysvipc | PFSpagetypeinfo | PFSslabinfo | PFSlocks | PFSkcore | PFSkmsg
| PFSlastkmsg | PFSksyms | PFSmisc.

Definition all_pfstypes : list pfstype :=
  [ PFSroot; PFSproc; PFSthread; PFSdir; PFSfile; PFSdirthis; PFSdirparent;
    PFScurproc; PFSprocnamedir; PFSfd; PFScpuinfo; PFSloadavg; PFSpartitions;
    PFSversion; PFSmeminfo; PFSmtab; PFSstat; PFSvmstat; PFSuptime; PFSswaps;
    PFSfilesystems; PFSproclink; PFSsysctl; PFSextensions; PFSmodules;
    PFSdiskstats; PFSdevices; PFSnetdev; PFSallocinfo; PFSapm; PFSbootconfig;
    PFSbuddyinfo; PFSpcidevices; PFSdma; PFSrtc; PFSexecdomains; PFSfb;
    PFSnfsexports; PFSinterrupts; PFSirq; PFStty; PFSioports; PFSiomem;
    PFSsoftirqs; PFSkcmdline; PFSide; PFSvmallocinfo; PFSisapnp; PFSscsi;
    PFSsysvipc; PFSpagetypeinfo; PFSslabinfo; PFSlocks; PFSkcore; PFSkmsg;
    PFSlastkmsg; PFSksyms; PFSmisc ].

(** The value of the enumeration constant. *)
Definition pfstype_num (t : pfstype) : nat :=
  match t with
  | PFSroot => 0 | PFSproc => 1 | PFSthread => 2 | PFSdir => 3 | PFSfile => 4
  | PFSdirthis => 5 | PFSdirparent => 6 | PFScurproc => 7 | PFSprocnamedir => 8
  | PFSfd => 9 | PFScpuinfo => 10 | PFSloadavg => 11 | PFSpartitions => 12
  | PFSversion => 13 | PFSmeminfo => 14 | PFSmtab => 15 | PFSstat => 16
  | PFSvmstat => 17 | PFSuptime => 18 | PFSswaps => 19 | PFSfilesystems => 20
  | PFSproclink => 21 | PFSsysctl => 22 | PFSextensions => 23 | PFSmodules => 24
  | PFSdiskstats => 25 | PFSdevices => 26 | PFSnetdev => 27 | PFSallocinfo => 28
  | PFSapm => 29 | PFSbootconfig => 30 | PFSbuddyinfo => 31 | PFSpcidevices => 32
  | PFSdma => 33 | PFSrtc => 34 | PFSexecdomains => 35 | PFSfb => 36
  | PFSnfsexports => 37 | PFSinterrupts => 38 | PFSirq => 39 | PFStty => 40
  | PFSioports => 41 | PFSiomem => 42 | PFSsoftirqs => 43 | PFSkcmdline => 44
  | PFSide => 45 | PFSvmallocinfo => 46 | PFSisapnp => 47 | PFSscsi => 48
  | PFSsysvipc => 49 | PFSpagetypeinfo => 50 | PFSslabinfo => 51 | PFSlocks => 52
  | PFSkcore => 53 | PFSkmsg => 54 | PFSlastkmsg => 55 | PFSksyms => 56 | PFSmisc => 57
  end%nat.

Definition pfstype_eqb (a b : pfstype) : bool := (pfstype_num a =? pfstype_num b)%nat.

Lemma all_pfstypes_num t : all_pfstypes !! pfstype_num t = Some t.
Proof. by destruct t. Qed.

Lemma pfstype_num_inj a b : pfstype_num a = pfstype_num b -> a = b.
Proof.
  intros H. pose proof (all_pfstypes_num a) as Ha. rewrite H, all_pfstypes_num in Ha. congruence.
Qed.

Lemma pfstype_eqb_spec a b : reflect (a = b) (pfstype_eqb a b).
Proof.
  unfold pfstype_eqb. destruct (Nat.eqb_spec (pfstype_num a) (pfstype_num b)) as [E|E];
    constructor; [by apply pfstype_num_inj|congruence].
Qed.

#[export] Instance pfstype_eq_dec : EqDecision pfstype.
Proof.
  intros a b. destruct (pfstype_eqb a b) eqn:E.
  - left. by destruct (pfstype_eqb_spec a b).
  - right. by destruct (pfstype_eqb_spec a b).
Defined.

(** ** Node identifiers *)
Definition PRNODE_NO_PID : Z := -1.
Definition PRNODE_NO_OBJECTID : Z := 0.
Definition PROCFS_ROOT_NODE_BASE_ID : Z := 1.
Definition PSN_FLAG_PROCESS : Z := 1.
Definition PSN_FLAG_THREAD : Z := 2.
Definition MAX_STRUCT_NODE_NAME_LEN : Z := 32.

(** Composite identifier of a node within one mount. *)
Record pfsid := Pfsid {
  nodeid_pid : Z;        (* int *)
  nodeid_objectid : Z;   (* uint64_t *)
  nodeid_base_id : Z     (* uint16_t *)
}.

#[export] Instance pfsid_eq_dec : EqDecision pfsid.
Proof. solve_decision. Defined.

Definition PROCFS_ROOT_NODE_ID : pfsid :=
  Pfsid PRNODE_NO_PID PRNODE_NO_OBJECTID PROCFS_ROOT_NODE_BASE_ID.

(** The four field comparisons of the node lookup. *)
Definition pfsid_eqb (a b : pfsid) : bool :=
  (nodeid_pid a =? nodeid_pid b) && (nodeid_objectid a =? nodeid_objectid b)
  && (nodeid_base_id a =? nodeid_base_id b).

(** ** Tables over node types *)
(** [procfs_allocvp]: the vnode type for a structure node type. *)
Definition procfs_allocvp (t : pfstype) : vtype :=
  match t with
  | PFSroot | PFSproc | PFSthread | PFSdir | PFSdirthis | PFSdirparent | PFSfd
  | PFSsysctl => VDIR
  | PFSprocnamedir | PFScurproc | PFSproclink => VLNK
  | PFSfile | PFScpuinfo | PFSloadavg | PFSpartitions | PFSversion | PFSmeminfo
  | PFSmtab | PFSstat | PFSvmstat | PFSuptime | PFSswaps | PFSfilesystems
  | PFSextensions | PFSmodules | PFSdiskstats | PFSdevices | PFSnetdev
  | PFSallocinfo | PFSapm | PFSbootconfig | PFSbuddyinfo | PFSpcidevices | PFSdma
  | PFSrtc | PFSexecdomains | PFSfb | PFSnfsexports | PFSinterrupts | PFSirq
  | PFStty | PFSioports | PFSiomem | PFSsoftirqs | PFSkcmdline | PFSide
  | PFSvmallocinfo | PFSisapnp | PFSscsi | PFSsysvipc | PFSpagetypeinfo
  | PFSslabinfo | PFSlocks | PFSkcore | PFSkmsg | PFSlastkmsg | PFSksyms
  | PFSmisc => VREG
  end.

Definition not_in (t : pfstype) (l : list pfstype) : bool :=
  forallb (fun x => negb (pfstype_eqb t x)) l.

(** [procfs_node_type_has_pid]: whether a node of the type must have a
    process; the list is the one the C conjunction names. *)
Definition procfs_node_type_has_pid (t : pfstype) : bool :=
  not_in t
    [ PFSroot; PFScurproc; PFSdir; PFScpuinfo; PFSversion; PFSmeminfo; PFSmtab;
      PFSstat; PFSvmstat; PFSuptime; PFSswaps; PFSfilesystems; PFSsysctl;
      PFSextensions; PFSmodules; PFSdiskstats; PFSdevices; PFSnetdev; PFSallocinfo;
      PFSapm; PFSbootconfig; PFSbuddyinfo; PFSpcidevices; PFSdma; PFSrtc;
      PFSexecdomains; PFSfb; PFSnfsexports; PFSinterrupts; PFSirq; PFStty;
      PFSioports; PFSiomem; PFSsoftirqs; PFSkcmdline; PFSide; PFSvmallocinfo;
      PFSisapnp; PFSscsi; PFSsysvipc; PFSpagetypeinfo; PFSslabinfo; PFSlocks;
      PFSkcore; PFSkmsg; PFSlastkmsg; PFSksyms; PFSmisc ].

(** [procfs_is_directory_type]. *)
Definition procfs_is_directory_type (t : pfstype) : bool :=
  not_in t
    [ PFScurproc; PFSloadavg; PFSfile; PFScpuinfo; PFSpartitions; PFSversion;
      PFSmeminfo; PFSmtab; PFSstat; PFSvmstat; PFSuptime; PFSproclink; PFSswaps;
      PFSfilesystems; PFSsysctl; PFSextensions; PFSmodules; PFSdiskstats;
      PFSdevices; PFSnetdev; PFSallocinfo; PFSapm; PFSbootconfig; PFSbuddyinfo;
      PFSpcidevices; PFSdma; PFSrtc; PFSexecdomains; PFSfb; PFSnfsexports;
      PFSinterrupts; PFSirq; PFStty; PFSioports; PFSiomem; PFSsoftirqs;
      PFSkcmdline; PFSide; PFSvmallocinfo; PFSisapnp; PFSscsi; PFSsysvipc;
      PFSpagetypeinfo; PFSslabinfo; PFSlocks; PFSkcore; PFSkmsg; PFSlastkmsg;
      PFSksyms; PFSmisc ].

(** The types [procfs_vnop_getattr] does not ask a process for. *)
Definition getattr_skips_process (t : pfstype) : bool :=
  negb (not_in t
    [ PFScpuinfo; PFSloadavg; PFSpartitions; PFSversion; PFSmeminfo; PFSmtab;
      PFSstat; PFSvmstat; PFSuptime; PFSswaps; PFSfilesystems; PFSsysctl;
      PFSextensions; PFSmodules; PFSdiskstats; PFSdevices; PFSnetdev; PFSallocinfo;
      PFSapm; PFSbootconfig; PFSbuddyinfo; PFSpcidevices; PFSdma; PFSrtc;
      PFSexecdomains; PFSfb; PFSnfsexports; PFSinterrupts; PFSirq; PFStty;
      PFSioports; PFSiomem; PFSsoftirqs; PFSkcmdline; PFSide; PFSvmallocinfo;
      PFSisapnp; PFSscsi; PFSsysvipc; PFSpagetypeinfo; PFSslabinfo; PFSlocks;
      PFSkcore; PFSkmsg; PFSlastkmsg; PFSksyms; PFSmisc ]).

(** ** Lemmas *)
Lemma pfsid_eqb_spec a b : reflect (a = b) (pfsid_eqb a b).
Proof.
  unfold pfsid_eqb. destruct a as [p o bs], b as [p' o' bs']; cbn.
  destruct (Z.eqb_spec p p'), (Z.eqb_spec o o'), (Z.eqb_spec bs bs'); cbn;
    constructor; congruence.
Qed.

Lemma pfsid_eqb_refl a : pfsid_eqb a a = true.
Proof. by destruct (pfsid_eqb_spec a a). Qed.

Lemma pfstype_eqb_refl t : pfstype_eqb t t = true.
Proof. unfold pfstype_eqb. apply Nat.eqb_refl. Qed.
