(* ===== verification/Text.v ===== *)
(** * Decimal text

    The digit-scanning loop the C sources repeat
    ([value = value * 10 + (c - '0')] over an [int]) and its relation to
    [printf]'s decimal conversion. *)
From S2P Require Import Prelude.
From Stdlib Require Import ZArith Lia String Ascii.
From stdpp Require Import base list numbers strings.
Open Scope Z_scope.

(** The loop over the leading digits of a string, on a 32-bit [int]: the value
    reached and the rest of the string. *)
Fixpoint scan_digits (v : Z) (s : string) : Z * string :=
  match s with
  | EmptyString => (v, EmptyString)
  | String c s' =>
      if is_digit c then scan_digits (i32 (v * 10 + chr c - 48)) s' else (v, s)
  end.

(** The exact value of a digit string, without a machine width. *)
Fixpoint digits_val (v : Z) (s : string) : Z :=
  match s with
  | EmptyString => v
  | String c s' => digits_val (v * 10 + (chr c - 48)) s'
  end.

Fixpoint all_digits (s : string) : bool :=
  match s with
  | EmptyString => true
  | String c s' => is_digit c && all_digits s'
  end.

Definition starts_nondigit (s : string) : bool :=
  match s with EmptyString => true | String c _ => negb (is_digit c) end.

(** ** Lemmas *)
Lemma is_digit_range c : is_digit c = true -> 0 <= chr c - 48 < 10.
Proof. unfold is_digit. intros. bool_to_prop. lia. Qed.

Lemma digits_val_mono s v : 0 <= v -> all_digits s = true -> v <= digits_val v s.
Proof.
  revert v. induction s as [|c s IH]; intros v Hv H; cbn in *; [lia|].
  apply andb_true_iff in H as [Hc Hs]. apply is_digit_range in Hc.
  specialize (IH (v * 10 + (chr c - 48)) ltac:(lia) Hs). lia.
Qed.

Lemma all_digits_app a b : all_digits (a +:+ b) = all_digits a && all_digits b.
Proof.
  induction a as [|c a IH]; [done|]. rewrite str_app_cons. cbn. rewrite IH. by rewrite andb_assoc.
Qed.

Lemma digits_val_app v a b : digits_val v (a +:+ b) = digits_val (digits_val v a) b.
Proof. revert v. induction a as [|c a IH]; intros; [done|]. rewrite str_app_cons. cbn. apply IH. Qed.

(** Scanning is exact as long as the value fits an [int]. *)
Lemma scan_digits_app v s t :
  0 <= v -> all_digits s = true -> digits_val v s < 2 ^ 31 ->
  scan_digits v (s +:+ t) = scan_digits (digits_val v s) t.
Proof.
  revert v. induction s as [|c s IH]; intros v Hv Hd Hlt; [done|].
  rewrite str_app_cons. cbn in *. apply andb_true_iff in Hd as [Hc Hs]. rewrite Hc.
  pose proof (is_digit_range _ Hc) as Hr.
  pose proof (digits_val_mono s (v * 10 + (chr c - 48)) ltac:(lia) Hs) as Hm.
  rewrite i32_small by lia.
  replace (v * 10 + chr c - 48) with (v * 10 + (chr c - 48)) by lia. apply IH; [lia|done|lia].
Qed.

Lemma scan_digits_stop v s : starts_nondigit s = true -> scan_digits v s = (v, s).
Proof. destruct s as [|c s]; cbn; [done|]. intros H. bool_to_prop. by rewrite H. Qed.

Lemma digits_val_zero_acc v s :
  digits_val v s = v * 10 ^ strlen s + digits_val 0 s.
Proof.
  revert v. induction s as [|c s IH]; intros v.
  { change (10 ^ strlen EmptyString) with 1. cbn. lia. }
  cbn [digits_val]. rewrite IH, (IH (0 * 10 + _)). unfold strlen. cbn [String.length].
  rewrite Nat2Z.inj_succ, Z.pow_succ_r by lia. ring.
Qed.

Lemma print_u_loop_spec f n acc :
  (0 < f)%nat -> 0 <= n < 10 ^ Z.of_nat f ->
  exists s, print_u_loop f n acc = s +:+ acc /\ all_digits s = true
            /\ digits_val 0 s = n /\ s <> EmptyString.
Proof.
  revert n acc. induction f as [|f IH]; intros n acc Hf Hn; [lia|].
  cbn [print_u_loop].
  assert (Hd : 0 <= n mod 10 < 10) by (apply Z.mod_pos_bound; lia).
  destruct (Z.ltb_spec n 10) as [H|H].
  - exists (String (digit_char (n mod 10)) EmptyString). split_and!; [done| |  |done].
    + cbn. by rewrite digit_char_is_digit.
    + cbn. rewrite digit_char_val by lia. rewrite Z.mod_small; lia.
  - destruct (IH (n / 10) (String (digit_char (n mod 10)) acc)) as (s & E & Hs & Hv & Hne).
    + destruct f; [cbn in Hn; lia|lia].
    + rewrite Nat2Z.inj_succ, Z.pow_succ_r in Hn by lia.
      split; [apply Z.div_pos; lia|]. apply Z.div_lt_upper_bound; lia.
    + exists (s +:+ String (digit_char (n mod 10)) EmptyString). split_and!.
      * rewrite E. clear. induction s as [|c s IHs]; [done|]. rewrite !str_app_cons. by rewrite IHs.
      * rewrite all_digits_app, Hs. cbn. by rewrite digit_char_is_digit.
      * rewrite digits_val_app, Hv. cbn. rewrite digit_char_val by lia.
        pose proof (Z.div_mod n 10 ltac:(lia)). lia.
      * destruct s; done.
Qed.

Lemma log2_pow10 n : 0 <= n -> n < 10 ^ Z.of_nat (S (Z.to_nat (Z.log2 n))).
Proof.
  intros Hn. destruct (decide (n = 0)) as [->|Hz]; [done|].
  pose proof (Z.log2_spec n ltac:(lia)) as [_ H]. pose proof (Z.log2_nonneg n).
  rewrite Nat2Z.inj_succ, Z2Nat.id by lia.
  eapply Z.lt_le_trans; [exact H|]. apply Z.pow_le_mono_l. lia.
Qed.

Lemma app_empty_r s : s +:+ EmptyString = s.
Proof. induction s as [|c s IH]; [done|]. rewrite str_app_cons. by rewrite IH. Qed.

Lemma print_u_spec n :
  0 <= n -> all_digits (print_u n) = true /\ digits_val 0 (print_u n) = n
            /\ print_u n <> EmptyString.
Proof.
  intros Hn. destruct (print_u_loop_spec (S (Z.to_nat (Z.log2 n))) n EmptyString)
    as (s & E & Hs & Hv & Hne); [lia|split; [lia|by apply log2_pow10]|].
  unfold print_u. rewrite E, app_empty_r. done.
Qed.

(** The scanning loop reads back what [%u] printed. *)
Lemma scan_print_u n rest :
  0 <= n < 2 ^ 31 -> starts_nondigit rest = true ->
  scan_digits 0 (print_u n +:+ rest) = (n, rest).
Proof.
  intros Hn Hr. destruct (print_u_spec n ltac:(lia)) as (Hd & Hv & _).
  rewrite scan_digits_app by (first [done | lia]). rewrite Hv. by apply scan_digits_stop.
Qed.

Lemma print_u_inj a b : 0 <= a -> 0 <= b -> print_u a = print_u b -> a = b.
Proof.
  intros Ha Hb E. destruct (print_u_spec a Ha) as (_ & Va & _).
  destruct (print_u_spec b Hb) as (_ & Vb & _). congruence.
Qed.

Lemma print_d_nonneg n : 0 <= n -> print_d n = print_u n.
Proof. intros. unfold print_d. destruct (Z.ltb_spec n 0); [lia|done]. Qed.

Lemma print_u_loop_length f n acc :
  (String.length (print_u_loop f n acc) <= f + String.length acc)%nat.
Proof.
  revert n acc. induction f as [|f IH]; intros n acc; cbn [print_u_loop]; [lia|].
  destruct (n <? 10); [cbn; lia|]. etrans; [apply IH|]. cbn. lia.
Qed.

Lemma print_u_first n : 0 <= n -> exists c s, print_u n = String c s /\ is_digit c = true.
Proof.
  intros Hn. destruct (print_u_spec n Hn) as (Hd & _ & Hne).
  destruct (print_u n) as [|c s]; [done|]. cbn in Hd. apply andb_true_iff in Hd as [Hc _]. eauto.
Qed.

#[export] Hint Resolve print_u_inj print_d_nonneg : procfs.
