(* ===== verification/Version.v ===== *)
(** * The spoofed Linux version and the visibility of ksyms / kallsyms
    (kext/procfs_linux.c, lines 1971-2063)

    [procfs_linux_version] is a global set by the sysctl
    [procfs.linux_version]; it is an argument of the definitions here. *)
From S2P Require Import Prelude Text.
From Stdlib Require Import ZArith Lia String Ascii.
From stdpp Require Import base list numbers strings.
Open Scope Z_scope.

Definition procfs_linux_versions : list (option string) :=
  [ None; Some "6.12.0"; Some "6.6.0"; Some "6.1.0"; Some "5.15.0"; Some "5.10.0";
    Some "2.5.47" ]%string.

Definition PROCFS_LINUX_NVERSIONS : Z := Z.of_nat (length procfs_linux_versions).

Definition procfs_spoofed_release (procfs_linux_version : Z) : option string :=
  let v := procfs_linux_version in
  if (0 <? v) && (v <? PROCFS_LINUX_NVERSIONS) then
    match procfs_linux_versions !! Z.to_nat v with Some r => r | None => None end
  else None.

(** Step over one dot, if there is one. *)
Definition skip_dot (s : string) : string :=
  match s with
  | String c s' => if chr c =? 46 then s' else s
  | EmptyString => EmptyString
  end.

(** Dotted-decimal compare.  [None]: the fuel ran out, which the C loop would
    spend spinning on a character that is neither a digit nor a dot. *)
Fixpoint vercmp_loop (fuel : nat) (a b : string) : option Z :=
  match fuel with
  | O => None
  | S f =>
      match a, b with
      | EmptyString, EmptyString => Some 0
      | _, _ =>
          let '(na, a1) := scan_digits 0 a in
          let '(nb, b1) := scan_digits 0 b in
          if negb (na =? nb) then Some (i32 (na - nb))
          else vercmp_loop f (skip_dot a1) (skip_dot b1)
      end
  end.

Definition procfs_vercmp (a b : string) : option Z :=
  vercmp_loop (S (String.length a + String.length b)) a b.

(** Whether a node name is hidden under the spoofed release. *)
Definition procfs_node_version_hidden (procfs_linux_version : Z) (name : string) : bool :=
  match procfs_spoofed_release procfs_linux_version with
  | None => false
  | Some rel =>
      let is_ksyms := String.eqb name "ksyms" in
      let is_kallsyms := String.eqb name "kallsyms" in
      if negb is_ksyms && negb is_kallsyms then false
      else match procfs_vercmp rel "2.5.47" with
           | Some d => if d <=? 0 then is_kallsyms else is_ksyms
           | None => is_ksyms
           end
  end.

Definition procfs_build_linux_version (procfs_linux_version : Z) : option string :=
  match procfs_spoofed_release procfs_linux_version with
  | None => None
  | Some rel =>
      Some ("Linux version " +:+ rel +:+ " (builder@linux-build-env) "
            +:+ "(gcc version 10.3.0 (Ubuntu 10.3.0-1ubuntu1)) "
            +:+ "#1 SMP PREEMPT_DYNAMIC Sat Dec 14 12:00:00 UTC 2024"
            +:+ String (ascii_of_nat 10) EmptyString)%string
  end.

(** ** Reference: comparison of version component lists *)
Fixpoint dotted (xs : list Z) : string :=
  match xs with
  | [] => EmptyString
  | [x] => print_u x
  | x :: xs' => print_u x +:+ String "." (dotted xs')
  end.

(** The first difference, missing components counting as zero. *)
Fixpoint ver_diff (fuel : nat) (xs ys : list Z) : Z :=
  match fuel with
  | O => 0
  | S f =>
      match xs, ys with
      | [], [] => 0
      | _, _ =>
          let x := hd 0 xs in let y := hd 0 ys in
          if x =? y then ver_diff f (tl xs) (tl ys) else x - y
      end
  end.

Definition version_compare (xs ys : list Z) : Z := ver_diff (S (length xs + length ys)) xs ys.

(** ** Lemmas *)
Lemma dotted_nonempty x xs : 0 <= x -> dotted (x :: xs) <> EmptyString.
Proof.
  intros Hx. destruct (print_u_first x Hx) as (c & s & E & _).
  destruct xs; cbn [dotted]; rewrite E; [done|]. by rewrite str_app_cons.
Qed.

(** One round of the comparison loop consumes one component. *)
Lemma scan_dotted xs :
  Forall (fun x => 0 <= x < 2 ^ 31) xs ->
  exists r, scan_digits 0 (dotted xs) = (hd 0 xs, r) /\ skip_dot r = dotted (tl xs).
Proof.
  intros H. destruct H as [|x xs Hx Hxs]; [by exists EmptyString|].
  destruct Hxs as [|y ys Hy Hys].
  - exists EmptyString. cbn. split; [|done].
    rewrite <- (app_empty_r (print_u x)). by apply scan_print_u.
  - exists (String "." (dotted (y :: ys))). split; [|done].
    cbn [dotted]. by apply scan_print_u.
Qed.

Lemma dotted_empty xs : Forall (fun x => 0 <= x < 2 ^ 31) xs -> dotted xs = EmptyString -> xs = [].
Proof. intros H E. destruct H; [done|]. exfalso. eapply dotted_nonempty; [|exact E]. lia. Qed.

Lemma dotted_length xs :
  Forall (fun x => 0 <= x < 2 ^ 31) xs -> (length xs <= String.length (dotted xs))%nat.
Proof.
  induction 1 as [|x xs Hx Hxs IH]; [cbn; lia|].
  destruct (print_u_first x ltac:(lia)) as (c & s & E & _).
  destruct xs as [|y ys].
  - cbn. rewrite E. cbn. lia.
  - change (dotted (x :: y :: ys)) with (print_u x +:+ String "." (dotted (y :: ys))).
    rewrite E, str_app_cons. cbn [length String.length] in *.
    rewrite str_app_length. cbn [String.length]. lia.
Qed.

Lemma ver_diff_range f xs ys :
  Forall (fun x => 0 <= x < 2 ^ 31) xs -> Forall (fun x => 0 <= x < 2 ^ 31) ys ->
  - 2 ^ 31 < ver_diff f xs ys < 2 ^ 31.
Proof.
  revert xs ys. induction f as [|f IH]; intros xs ys Hx Hy; cbn [ver_diff]; [lia|].
  assert (Hh : forall l, Forall (fun x => 0 <= x < 2 ^ 31) l -> 0 <= hd 0 l < 2 ^ 31)
    by (intros l Hl; destruct Hl; cbn; lia).
  assert (Ht : forall l, Forall (fun x => 0 <= x < 2 ^ 31) l ->
                 Forall (fun x => 0 <= x < 2 ^ 31) (tl l))
    by (intros l Hl; by destruct Hl).
  pose proof (Hh _ Hx). pose proof (Hh _ Hy).
  pose proof (IH (tl xs) (tl ys) (Ht _ Hx) (Ht _ Hy)).
  destruct xs, ys; cbn [hd tl] in *; [lia|..];
    match goal with |- context [?a =? ?b] => destruct (Z.eqb_spec a b) end; lia.
Qed.

Lemma vercmp_loop_dotted f g xs ys :
  Forall (fun x => 0 <= x < 2 ^ 31) xs -> Forall (fun x => 0 <= x < 2 ^ 31) ys ->
  (length xs + length ys < f)%nat -> (length xs + length ys < g)%nat ->
  vercmp_loop f (dotted xs) (dotted ys) = Some (ver_diff g xs ys).
Proof.
  revert g xs ys. induction f as [|f IH]; intros g xs ys Hx Hy Hf Hg; [lia|].
  destruct g as [|g]; [lia|].
  destruct (scan_dotted xs Hx) as (ra & Ea & Sa). destruct (scan_dotted ys Hy) as (rb & Eb & Sb).
  assert (Hstep : (xs <> [] \/ ys <> []) ->
    vercmp_loop (S f) (dotted xs) (dotted ys)
    = if negb (hd 0 xs =? hd 0 ys) then Some (i32 (hd 0 xs - hd 0 ys))
      else vercmp_loop f (dotted (tl xs)) (dotted (tl ys))).
  { intros Hne. cbn [vercmp_loop]. rewrite Ea, Eb, Sa, Sb.
    destruct (dotted xs) eqn:Dx, (dotted ys) eqn:Dy; try done.
    apply dotted_empty in Dx; [|done]. apply dotted_empty in Dy; [|done]. tauto. }
  assert (Hr := ver_diff_range (S g) xs ys Hx Hy).
  assert (Hn : (length (tl xs) + length (tl ys) < f /\ length (tl xs) + length (tl ys) < g)%nat
               \/ (xs = [] /\ ys = [])).
  { destruct xs, ys; cbn [length tl] in *; [by right|left; lia..]. }
  destruct Hn as [[Hnf Hng]|[-> ->]]; [|done].
  destruct (decide (xs = [] /\ ys = [])) as [[-> ->]|Hne]; [done|].
  assert (Hv : ver_diff (S g) xs ys
               = if hd 0 xs =? hd 0 ys then ver_diff g (tl xs) (tl ys) else hd 0 xs - hd 0 ys)
    by (destruct xs, ys; [tauto|done..]).
  rewrite Hstep by (destruct xs, ys; first [by left|by right|tauto]). rewrite Hv in Hr |- *.
  destruct (hd 0 xs =? hd 0 ys); cbn [negb].
  - apply IH; [by destruct Hx|by destruct Hy|lia|lia].
  - by rewrite i32_small by lia.
Qed.

Lemma spoofed_range v rel :
  procfs_spoofed_release v = Some rel -> v = 1 \/ v = 2 \/ v = 3 \/ v = 4 \/ v = 5 \/ v = 6.
Proof.
  unfold procfs_spoofed_release. change PROCFS_LINUX_NVERSIONS with 7.
  destruct ((0 <? v) && (v <? 7)) eqn:E; [|done]. bool_to_prop. lia.
Qed.

Lemma spoofed_none v : v <= 0 \/ 7 <= v -> procfs_spoofed_release v = None.
Proof.
  intros H. unfold procfs_spoofed_release. change PROCFS_LINUX_NVERSIONS with 7.
  destruct ((0 <? v) && (v <? 7)) eqn:E; [|done]. bool_to_prop. lia.
Qed.

(** ** Properties *)

(** The comparison loop terminates on dotted-decimal versions and returns
    the first difference of their components, missing components counting as
    zero (so "6.1" equals "6.1.0").  The fuel is the number of characters plus
    one: every round of the C loop consumes at least one of them. *)
Theorem vercmp_correct xs ys :
  Forall (fun x => 0 <= x < 2 ^ 31) xs -> Forall (fun x => 0 <= x < 2 ^ 31) ys ->
  procfs_vercmp (dotted xs) (dotted ys) = Some (version_compare xs ys).
Proof.
  intros Hx Hy. apply vercmp_loop_dotted; try done; [|lia].
  pose proof (dotted_length xs Hx). pose proof (dotted_length ys Hy). lia.
Qed.

Lemma vercmp_correct_witness :
  procfs_vercmp (dotted [6; 12; 0]) (dotted [2; 5; 47]) = Some 4.
Proof. rewrite vercmp_correct; [reflexivity|repeat constructor; lia..]. Defined.

(** With no spoofed release nothing is hidden; with one, exactly one of
    "ksyms" and "kallsyms" is hidden (kallsyms for the 2.5.47 preset only) and
    every other name stays visible. *)
Theorem version_hidden_spec v name :
  procfs_node_version_hidden v name = true <->
  (v = 6 /\ name = "kallsyms"%string) \/ (1 <= v <= 5 /\ name = "ksyms"%string).
Proof.
  unfold procfs_node_version_hidden. destruct (procfs_spoofed_release v) as [rel|] eqn:E.
  - pose proof (spoofed_range _ _ E) as R.
    destruct (String.eqb_spec name "ksyms") as [->|N1]; cbn [negb andb].
    + destruct R as [->|[->|[->|[->|[->| ->]]]]]; injection E as <-; vm_compute; naive_solver lia.
    + destruct (String.eqb_spec name "kallsyms") as [->|N2]; cbn [negb andb].
      * destruct R as [->|[->|[->|[->|[->| ->]]]]]; injection E as <-; vm_compute; naive_solver lia.
      * naive_solver.
  - split; [done|]. intros H. exfalso.
    assert (v = 1 \/ v = 2 \/ v = 3 \/ v = 4 \/ v = 5 \/ v = 6) as R by lia.
    destruct R as [->|[->|[->|[->|[->| ->]]]]]; discriminate E.
Qed.
