(* ===== verification/Subr.v ===== *)
(** * Utility functions (kext/procfs_subr.c)

    File ids, the name-to-integer conversion, process enumeration, access
    checks, the thread and descriptor lists obtained from the daemon, and
    [procfs_copy_data], through which almost every node is read. *)
From S2P Require Import Prelude Kernel PfsTypes Text.
From Stdlib Require Import ZArith Lia String Ascii Sorting.Sorted.
From stdpp Require Import base list numbers strings gmap.
Open Scope Z_scope.

(** ** Process lookup for a node *)
(** [procfs_get_process_info]: the errno, or the pid and the process. *)
Definition procfs_get_process_info (K : kernel) (t : pfstype) (id : pfsid)
  : Z + (Z * option proc) :=
  let pid := nodeid_pid id in
  let p := if pid =? PRNODE_NO_PID then None else proc_find K pid in
  match p with
  | None => if procfs_node_type_has_pid t then inl ENOENT else inr (pid, None)
  | Some _ => inr (pid, p)
  end.

(** ** File ids *)
(** [id |= pid << 8] shifts an [int] and sign-extends it to 64 bits. *)
Definition procfs_get_fileid (pid objectid base_id : Z) : Z :=
  let id := base_id in
  let id := if pid =? PRNODE_NO_PID then id
            else Z.lor id (u64 (i32 (Z.shiftl pid 8))) in
  Z.lor id (u64 (Z.shiftl objectid 24)).

Definition procfs_get_node_fileid (id : pfsid) (psn_base_node_id : Z) : Z :=
  procfs_get_fileid (nodeid_pid id) (nodeid_objectid id) psn_base_node_id.

(** ** Names to integers *)
(** [procfs_atoi]: the value and what [*end_ptr] is left at; -1 when the
    first character is not a digit. *)
Definition procfs_atoi (p : string) : Z * string :=
  let '(value, rest) := scan_digits 0 p in
  (if starts_nondigit p then -1 else value, rest).

(** ** Access checks *)
Definition procfs_issuser (creds : cred) : Z := if cr_uid creds =? 0 then 0 else EPERM.

(** Effective uid against the process's effective or real uid, then effective
    gid against its effective or real gid. *)
Definition procfs_check_can_access_process (creds : cred) (p : proc) : Z :=
  let pc := p_cred p in
  let error := if (cr_uid creds =? cr_uid pc) || (cr_uid creds =? cr_ruid pc)
               then 0 else EACCES in
  if negb (error =? 0) && ((cr_gid creds =? cr_gid pc) || (cr_gid creds =? cr_rgid pc))
  then 0 else error.

Definition procfs_check_can_access_proc_pid (K : kernel) (creds : cred) (pid : Z) : Z :=
  match proc_find K pid with
  | Some p => procfs_check_can_access_process creds p
  | None => ESRCH
  end.

(** ** Process enumeration *)
Definition PROCFS_MAX_PID : Z := 99999.
Definition PROCFS_MAX_PROCS : Z := 1024.

Definition pid_visible (K : kernel) (creds : option cred) (pid : Z) : bool :=
  match proc_find K pid with
  | Some p => match creds with
              | None => true
              | Some c => procfs_check_can_access_process c p =? 0
              end
  | None => false
  end.

(** The loop over the pid space; [n] pids are left, [count] entries are used. *)
Fixpoint get_pids_loop (K : kernel) (creds : option cred) (n : nat) (pid count : Z) : list Z :=
  match n with
  | O => []
  | S n' =>
      if count <? PROCFS_MAX_PROCS then
        if pid_visible K creds pid
        then pid :: get_pids_loop K creds n' (pid + 1) (count + 1)
        else get_pids_loop K creds n' (pid + 1) count
      else []
  end.

(** [alloc]: whether the array could be allocated. *)
Definition procfs_get_pids (K : kernel) (alloc : bool) (creds : option cred) : list Z :=
  if alloc then get_pids_loop K creds (Z.to_nat (PROCFS_MAX_PID + 1)) 0 0 else [].

(** The callback form, for an iteration driven by the kernel: one process is
    offered at a time to an array of [max_procs] entries. *)
Definition procfs_get_pid (creds : option cred) (max_procs : Z) (p : proc) (pids : list Z)
  : list Z :=
  let ok := match creds with
            | None => true
            | Some c => procfs_check_can_access_process c p =? 0
            end in
  if ok then
    if max_procs <=? Z.of_nat (length pids) then pids else pids ++ [p_pid p]
  else pids.

Definition procfs_get_process_count (K : kernel) (alloc : bool) (creds : cred) : Z :=
  let is_suser := procfs_issuser creds =? 0 in
  Z.of_nat (length (procfs_get_pids K alloc (if is_suser then None else Some creds))).

(** ** Requests to the daemon

    The control bridge as its clients see it: a request type, a pid, an
    argument, a name and the capacity of the reply buffer; an errno and the
    reply.  The law is what the clients rely on: a successful reply fits. *)
Record bridge := Bridge {
  ctl_request : Z -> Z -> Z -> string -> Z -> Z * bytes
}.

Class BridgeLaws (B : bridge) := {
  ctl_request_fits ty pid arg nm cap bs :
    ctl_request B ty pid arg nm cap = (0, bs) -> Z.of_nat (length bs) <= Z.max 0 cap
}.

Definition PROCFS_CTL_MAXPAYLOAD : Z := 2048.
Definition PROCFS_REQ_THREADLIST : Z := 52.
Definition PROCFS_REQ_FDLIST : Z := 10.

(** The first [n] little-endian 64-bit words of a reply. *)
Fixpoint le_words (n : nat) (bs : bytes) : list Z :=
  match n with
  | O => []
  | S n' => le_val (take 8 bs) :: le_words n' (drop 8 bs)
  end.

(** [procfs_get_thread_ids_for_task]; [a1], [a2]: whether the bounce buffer and
    the exact-size copy could be allocated. *)
Definition procfs_get_thread_ids_for_task (B : bridge) (a1 a2 : bool) (p : option proc)
  : Z * list Z :=
  match p with
  | None => (EINVAL, [])
  | Some p =>
      let fallback derror := (if derror =? EPERM then EPERM else ENOTSUP, []) in
      if a1 then
        let '(derror, bounce) :=
          ctl_request B PROCFS_REQ_THREADLIST (p_pid p) 0 EmptyString PROCFS_CTL_MAXPAYLOAD in
        let got := Z.of_nat (length bounce) in
        if (derror =? 0) && (8 <=? got) then
          if a2 then (0, le_words (Z.to_nat (got / 8)) bounce) else (ENOMEM, [])
        else fallback derror
      else fallback ENOTSUP
  end.

Definition procfs_get_task_thread_count (B : bridge) (a1 a2 : bool) (p : option proc) : Z :=
  Z.of_nat (length (snd (procfs_get_thread_ids_for_task B a1 a2 p))).

(** [procfs_get_fd_list]: the [proc_fd] fields of the 8-byte [proc_fdinfo]
    records of the reply (the low 32 bits, an [int32_t]). *)
Definition procfs_get_fd_list (B : bridge) (a : bool) (p : option proc) : Z * list Z :=
  match p with
  | None => (EINVAL, [])
  | Some p =>
      if a then
        let '(error, dbuf) :=
          ctl_request B PROCFS_REQ_FDLIST (p_pid p) 0 EmptyString PROCFS_CTL_MAXPAYLOAD in
        if error =? 0 then
          (0, map i32 (le_words (Z.to_nat (Z.of_nat (length dbuf) / 8)) dbuf))
        else (error, [])
      else (ENOMEM, [])
  end.

(** ** Thread structures

    A process's [p_uthlist] is a list of uthread addresses; [pmap_find_phys]
    says whether a kernel address is mapped.  [size_known]/[size] are the
    globals that cache the size of the opaque [struct thread]. *)
Section Threads.
Variable pmap_find_phys : Z -> Z.

Definition PROCFS_THREAD_SIZE_MAX : Z := 262144.
Definition PROCFS_MAX_THREADS : Z := 100000.
Definition PROCFS_KPTR_MIN : Z := 18446741874686296064. (* 0xfffffe0000000000 *)

Definition procfs_kptr_ok (va : Z) : bool :=
  if va <? PROCFS_KPTR_MIN then false else negb (pmap_find_phys va =? 0).

Definition procfs_kernel_ptr_ok (va : Z) : bool := procfs_kptr_ok va.

Record thread_size := ThreadSize { g_thread_size_known : bool; g_thread_struct_size : Z }.

(** The walk for the lowest uthread above the current thread. *)
Fixpoint thread_size_loop (fuel : nat) (th : Z) (best : option Z) (l : list Z) : option Z :=
  match fuel, l with
  | S f, u :: l' =>
      if procfs_kptr_ok u then
        let best' :=
          if (th <? u) && (u - th <? PROCFS_THREAD_SIZE_MAX) then
            match best with
            | None => Some u
            | Some b => if u <? b then Some u else Some b
            end
          else best in
        thread_size_loop f th best' l'
      else best
  | _, _ => best
  end.

Definition procfs_thread_size_init (cur_uths : option (list Z)) (th : Z) (g : thread_size)
  : thread_size :=
  if g_thread_size_known g then g
  else match cur_uths with
       | None => g
       | Some l =>
           if th =? 0 then g
           else match thread_size_loop (Z.to_nat PROCFS_MAX_THREADS) th None l with
                | Some b => ThreadSize true (b - th)
                | None => g
                end
       end.

Definition procfs_get_representative_thread (g : thread_size) (uths : option (list Z))
  : option Z :=
  if negb (g_thread_size_known g) then None
  else match uths with
       | None => None
       | Some [] => None
       | Some (u :: _) =>
           if procfs_kptr_ok u then
             let t := u64 (u - g_thread_struct_size g) in
             if procfs_kptr_ok t then Some t else None
           else None
       end.

(** At most [room] more pointers are stored. *)
Fixpoint thread_ptrs_loop (g : thread_size) (room : Z) (l : list Z) : list Z :=
  match l with
  | [] => []
  | u :: l' =>
      if 0 <? room then
        if procfs_kptr_ok u then
          let t := u64 (u - g_thread_struct_size g) in
          if procfs_kptr_ok t then t :: thread_ptrs_loop g (room - 1) l'
          else thread_ptrs_loop g room l'
        else []
      else []
  end.

Definition procfs_get_thread_ptrs (g : thread_size) (uths : option (list Z)) (max : Z)
  : list Z :=
  if negb (g_thread_size_known g) || (max <=? 0) then []
  else match uths with
       | None => []
       | Some l => thread_ptrs_loop g (Z.min max PROCFS_MAX_THREADS) l
       end.
End Threads.

(** ** Copying a node's data out *)
Section CopyData.
Context {U : Type} `{Uio U}.

(** [uiomove(d + off, n, u)] on the object [d].  [None]: the call touches
    bytes that are not bytes of [d]. *)
Definition uiomove_at (d : bytes) (off n : Z) (u : U) : option (Z * U) :=
  let k := Z.min n (uio_resid u) in
  if (k <=? 0) || ((0 <=? off) && (off + k <=? Z.of_nat (length d)))
  then Some (uiomove (drop (Z.to_nat off) d) n u)
  else None.

(** [procfs_copy_data]: [data_len] is an [int] from which the 64-bit file
    offset is subtracted. *)
Definition procfs_copy_data (data : option bytes) (data_len : Z) (u : U) : option (Z * U) :=
  let start_offset := uio_offset u in
  let data_len := i32 (i64 (data_len - start_offset)) in
  match data with
  | Some d =>
      if 0 <=? data_len then uiomove_at d start_offset data_len u else Some (EIO, u)
  | None => if 0 <=? data_len then Some (EFAULT, u) else Some (ENOTSUP, u)
  end.

(** The common call: the whole of a buffer. *)
Definition copy_all (d : bytes) (u : U) : option (Z * U) :=
  procfs_copy_data (Some d) (Z.of_nat (length d)) u.
End CopyData.

(** A reader that asks for [r] bytes at a time, from [off], until a read
    returns nothing or fails. *)
Fixpoint read_chunks (fuel : nat) (d : bytes) (off r : Z) : bytes :=
  match fuel with
  | O => []
  | S f =>
      match copy_all d (ubuf_read off r) with
      | Some (0, u') =>
          match uio_out u' with
          | [] => []
          | out => out ++ read_chunks f d (uio_offset u') r
          end
      | _ => []
      end
  end.

(** ** Lemmas *)
Lemma atoi_digits n rest :
  0 <= n < 2 ^ 31 -> starts_nondigit rest = true ->
  procfs_atoi (print_u n +:+ rest) = (n, rest).
Proof.
  intros Hn Hr. unfold procfs_atoi. rewrite scan_print_u by done.
  destruct (print_u_first n ltac:(lia)) as (c & s & E & Hc).
  rewrite E, str_app_cons. cbn. by rewrite Hc.
Qed.

Lemma atoi_print_d n : 0 <= n < 2 ^ 31 -> procfs_atoi (print_d n) = (n, EmptyString).
Proof.
  intros. rewrite print_d_nonneg by lia. rewrite <- (app_empty_r (print_u n)).
  by apply atoi_digits.
Qed.

Lemma atoi_nondigit s : starts_nondigit s = true -> procfs_atoi s = (-1, s).
Proof. intros H. unfold procfs_atoi. by rewrite scan_digits_stop, H. Qed.

Lemma can_access_spec c p :
  procfs_check_can_access_process c p = 0 <->
  cr_uid c = cr_uid (p_cred p) \/ cr_uid c = cr_ruid (p_cred p)
  \/ cr_gid c = cr_gid (p_cred p) \/ cr_gid c = cr_rgid (p_cred p).
Proof.
  unfold procfs_check_can_access_process, EACCES.
  destruct (Z.eqb_spec (cr_uid c) (cr_uid (p_cred p))),
    (Z.eqb_spec (cr_uid c) (cr_ruid (p_cred p))),
    (Z.eqb_spec (cr_gid c) (cr_gid (p_cred p))),
    (Z.eqb_spec (cr_gid c) (cr_rgid (p_cred p))); cbn; split; intros; try lia; tauto.
Qed.

(** The enumeration is the ordered filter of the pid space, cut at the array
    size. *)
Lemma get_pids_loop_spec K c n pid count :
  0 <= count ->
  get_pids_loop K c n pid count
  = take (Z.to_nat (PROCFS_MAX_PROCS - count))
      (filter (fun q => pid_visible K c q = true) (seqZ pid (Z.of_nat n))).
Proof.
  revert pid count. induction n as [|n IH]; intros pid count Hc.
  - change (seqZ pid (Z.of_nat 0)) with (@nil Z). rewrite filter_nil. by rewrite take_nil.
  - cbn [get_pids_loop]. rewrite seqZ_cons by lia.
    replace (Z.pred (Z.of_nat (S n))) with (Z.of_nat n) by lia.
    rewrite filter_cons. rewrite <- Z.add_1_r.
    destruct (Z.ltb_spec count PROCFS_MAX_PROCS) as [Hlt|Hge].
    + destruct (pid_visible K c pid) eqn:V; cbn.
      * rewrite decide_True by done. rewrite IH by lia.
        replace (Z.to_nat (PROCFS_MAX_PROCS - count))
          with (S (Z.to_nat (PROCFS_MAX_PROCS - (count + 1)))) by lia. done.
      * rewrite decide_False by done. by rewrite IH.
    + replace (Z.to_nat (PROCFS_MAX_PROCS - count)) with 0%nat by lia. done.
Qed.

Lemma uiomove_at_in `{Uio U} d off n (u : U) :
  0 <= off -> off + n <= Z.of_nat (length d) ->
  uiomove_at d off n u = Some (uiomove (drop (Z.to_nat off) d) n u).
Proof.
  intros Ho Hn. unfold uiomove_at.
  destruct (Z.leb_spec (Z.min n (uio_resid u)) 0); [done|]. cbn.
  destruct (Z.leb_spec 0 off); [|lia].
  destruct (Z.leb_spec (off + Z.min n (uio_resid u)) (Z.of_nat (length d))); [done|lia].
Qed.

Lemma copy_all_at `{Uio U} d (u : U) :
  Z.of_nat (length d) < 2 ^ 31 -> 0 <= uio_offset u <= Z.of_nat (length d) ->
  copy_all d u = Some (uiomove (drop (Z.to_nat (uio_offset u)) d)
                         (Z.of_nat (length d) - uio_offset u) u).
Proof.
  intros Hl Ho. unfold copy_all, procfs_copy_data.
  rewrite (i64_small (Z.of_nat (length d) - uio_offset u)) by lia.
  rewrite i32_small by lia.
  destruct (Z.leb_spec 0 (Z.of_nat (length d) - uio_offset u)); [|lia].
  apply uiomove_at_in; lia.
Qed.

(** A read of [n] bytes at [off] of a node whose whole text is [d]. *)
Lemma copy_all_read d off n :
  Z.of_nat (length d) < 2 ^ 31 -> 0 <= off <= Z.of_nat (length d) -> 0 <= n ->
  exists u', copy_all d (ubuf_read off n) = Some (0, u')
    /\ uio_out u' = take (Z.to_nat n) (drop (Z.to_nat off) d).
Proof.
  intros Hl Ho Hn. rewrite copy_all_at by done. cbn [uiomove ubuf_uio uio_offset ub_offset ubuf_read].
  unfold ubuf_move. cbn [ub_fault ubuf_read ub_resid ub_out ub_offset]. eexists. split; [done|].
  cbn [uio_out ubuf_uio ub_out app].
  destruct (Z.min_spec (Z.of_nat (length d) - off) n) as [[Hm ->]|[Hm ->]]; [|done].
  by rewrite !take_ge by (rewrite length_drop; lia).
Qed.

Lemma le_words_concat ids :
  Forall (fun x => 0 <= x < 2 ^ 64) ids ->
  le_words (length ids) (concat (map (le_bytes 8) ids)) = ids.
Proof.
  induction 1 as [|x ids Hx _ IH]; [done|].
  cbn [length map concat le_words].
  rewrite take_app_length' by (by rewrite le_bytes_length).
  rewrite drop_app_length' by (by rewrite le_bytes_length).
  rewrite IH, le_val_bytes_small; [done|]. change (256 ^ Z.of_nat 8) with (2 ^ 64). lia.
Qed.

Lemma length_concat_le8 ids :
  Z.of_nat (length (concat (map (le_bytes 8) ids))) = 8 * Z.of_nat (length ids).
Proof.
  induction ids as [|x ids IH]; [done|].
  cbn [map concat length]. rewrite length_app, le_bytes_length, Nat2Z.inj_add, IH. lia.
Qed.

Lemma lor_disjoint_add a b k :
  0 <= k -> 0 <= a < 2 ^ k -> Z.lor a (b * 2 ^ k) = a + b * 2 ^ k.
Proof.
  intros Hk Ha. rewrite <- Z.lxor_lor, <- Z.add_nocarry_lxor; try done;
    (apply Z.bits_inj'; intros i Hi; rewrite Z.land_spec, Z.bits_0;
     destruct (Z.lt_ge_cases i k);
     [rewrite Z.mul_pow2_bits_low by lia; apply andb_false_r
     |rewrite <- (Z.mod_small a (2 ^ k)) by lia; rewrite Z.mod_pow2_bits_high by lia; done]).
Qed.

(** ** Properties *)

(** A directory name printed from a pid, thread id or descriptor number
    is read back by [procfs_atoi] to the same number, and the conversion stops
    exactly where the digits end. *)
Theorem atoi_print_roundtrip n rest :
  0 <= n < 2 ^ 31 -> starts_nondigit rest = true ->
  procfs_atoi (print_d n +:+ rest) = (n, rest).
Proof. intros Hn Hr. rewrite print_d_nonneg by lia. by apply atoi_digits. Qed.

Lemma atoi_print_roundtrip_witness :
  procfs_atoi (print_d 4711 +:+ " launchd") = (4711, " launchd"%string).
Proof. apply (atoi_print_roundtrip 4711 " launchd"); [lia|reflexivity]. Defined.

(** The conversion is not injective on digit strings: the [int]
    accumulator wraps, so the eleven-digit name 4294967297 denotes pid 1. *)
Theorem atoi_wraps :
  procfs_atoi "4294967297" = (1, EmptyString)
  /\ procfs_atoi "4294967295" = (-1, EmptyString).
Proof. split; reflexivity. Qed.

(** When [procfs_get_pids] returns fewer pids than its array holds, it has
    returned every pid below 100000 that the credentials may see. *)
Theorem get_pids_complete K c :
  Z.of_nat (length (procfs_get_pids K true c)) < PROCFS_MAX_PROCS ->
  forall pid, pid ∈ procfs_get_pids K true c
              <-> 0 <= pid <= PROCFS_MAX_PID /\ pid_visible K c pid = true.
Proof.
  unfold procfs_get_pids. rewrite get_pids_loop_spec by lia.
  rewrite Z2Nat.id by (unfold PROCFS_MAX_PID; lia).
  rewrite length_take. intros Hlt pid. rewrite take_ge by lia.
  rewrite list_elem_of_filter, elem_of_seqZ. unfold PROCFS_MAX_PID.
  split; intros [? ?]; split; (done || lia).
Qed.

Lemma get_pids_complete_witness :
  let K := table_kernel [Proc 7 1 7 7 (Cred 501 501 20 20) "sh" 0 0 false false] 7 in
  7 ∈ procfs_get_pids K true None.
Proof.
  intros K. apply (get_pids_complete K None); [|split; [unfold PROCFS_MAX_PID; lia|done]].
  vm_compute. reflexivity.
Defined.

(** The enumeration never returns more than 1024 pids, is strictly
    increasing, and never lists a process the credentials may not access. *)
Theorem get_pids_bounded K alloc c :
  Z.of_nat (length (procfs_get_pids K alloc c)) <= PROCFS_MAX_PROCS
  /\ Forall (fun q => pid_visible K c q = true) (procfs_get_pids K alloc c)
  /\ StronglySorted Z.lt (procfs_get_pids K alloc c).
Proof.
  unfold procfs_get_pids. destruct alloc; [|split_and!; [cbn; unfold PROCFS_MAX_PROCS; lia|by constructor..]].
  rewrite get_pids_loop_spec by lia. split_and!.
  - rewrite length_take. unfold PROCFS_MAX_PROCS. lia.
  - apply Forall_take. apply Forall_forall. intros x [? _]%list_elem_of_filter. done.
  - assert (Sq : forall n m, StronglySorted Z.lt (seqZ m (Z.of_nat n))).
    { induction n as [|n IH]; intros m; [constructor|].
      rewrite seqZ_cons by lia. replace (Z.pred (Z.of_nat (S n))) with (Z.of_nat n) by lia.
      constructor; [apply IH|]. apply Forall_forall. intros x Hx%elem_of_seqZ. lia. }
    specialize (Sq (Z.to_nat (PROCFS_MAX_PID + 1)) 0). revert Sq.
    generalize (seqZ 0 (Z.of_nat (Z.to_nat (PROCFS_MAX_PID + 1)))).
    generalize (Z.to_nat (PROCFS_MAX_PROCS - 0)). intros k l Sl. revert k.
    induction Sl as [|x l Sl IH Hx]; intros k; [rewrite filter_nil, take_nil; constructor|].
    rewrite filter_cons. destruct (decide _); [|apply IH].
    destruct k as [|k]; cbn; [constructor|]. constructor; [apply IH|].
    apply Forall_take, Forall_forall. intros y [_ Hy]%list_elem_of_filter.
    by eapply Forall_forall in Hx.
Qed.

(** Within the ranges the encoding has room for (base ids below 256, pids
    below 65536, object ids below 2^40) distinct nodes have distinct file ids. *)
Theorem fileid_injective p o b p' o' b' :
  0 <= b < 256 -> 0 <= b' < 256 -> 0 <= p < 65536 -> 0 <= p' < 65536 ->
  0 <= o < 2 ^ 40 -> 0 <= o' < 2 ^ 40 ->
  procfs_get_fileid p o b = procfs_get_fileid p' o' b' -> p = p' /\ o = o' /\ b = b'.
Proof.
  assert (E : forall p o b, 0 <= b < 256 -> 0 <= p < 65536 -> 0 <= o < 2 ^ 40 ->
              procfs_get_fileid p o b = b + p * 2 ^ 8 + o * 2 ^ 24).
  { clear. intros p o b Hb Hp Ho. unfold procfs_get_fileid, PRNODE_NO_PID.
    destruct (Z.eqb_spec p (-1)); [lia|].
    rewrite !Z.shiftl_mul_pow2 by lia.
    rewrite i32_small by lia. rewrite !u64_small by lia.
    rewrite (lor_disjoint_add b p 8) by lia.
    rewrite (lor_disjoint_add (b + p * 2 ^ 8) o 24) by lia. lia. }
  intros Hb Hb' Hp Hp' Ho Ho' H. rewrite !E in H by lia. lia.
Qed.

Lemma fileid_injective_witness :
  procfs_get_fileid 501 7 40 = procfs_get_fileid 501 7 40 /\ (501 = 501 /\ 7 = 7 /\ 40 = 40).
Proof. split; [reflexivity|]. apply (fileid_injective 501 7 40 501 7 40); [lia..|reflexivity]. Defined.

(** Outside those ranges the fields overlap: pid 65537 without an object
    has the file id of object 1 of pid 1, although both are in range for the
    enumeration of pids. *)
Theorem fileid_overlap base :
  procfs_get_fileid 65537 0 base = procfs_get_fileid 1 1 base.
Proof.
  unfold procfs_get_fileid, PRNODE_NO_PID. cbn -[Z.lor].
  change (u64 (i32 16777472)) with 16777472. change (u64 0) with 0.
  change (u64 (i32 256)) with 256. change (u64 16777216) with 16777216.
  rewrite Z.lor_0_r, <- Z.lor_assoc. done.
Qed.

(** The daemon's encoding of a thread list is decoded to that list, and
    the decoded list never exceeds what one payload holds. *)
Theorem thread_ids_roundtrip B p ids :
  ids <> [] -> Forall (fun x => 0 <= x < 2 ^ 64) ids ->
  ctl_request B PROCFS_REQ_THREADLIST (p_pid p) 0 EmptyString PROCFS_CTL_MAXPAYLOAD
    = (0, concat (map (le_bytes 8) ids)) ->
  procfs_get_thread_ids_for_task B true true (Some p) = (0, ids).
Proof.
  intros Hne Hr E. unfold procfs_get_thread_ids_for_task. rewrite E.
  rewrite length_concat_le8.
  replace (8 * Z.of_nat (length ids) / 8) with (Z.of_nat (length ids))
    by (rewrite Z.mul_comm, Z.div_mul; lia).
  rewrite Nat2Z.id, le_words_concat by done.
  destruct ids as [|i ids]; [done|]. cbn [length]. rewrite Z.eqb_refl.
  by destruct (Z.leb_spec 8 (8 * Z.of_nat (S (length ids)))); [|lia].
Qed.

Lemma thread_ids_roundtrip_witness :
  procfs_get_thread_ids_for_task
    (Bridge (fun _ _ _ _ _ => (0, concat (map (le_bytes 8) [1027; 99]))))
    true true (Some (Proc 7 1 7 7 (Cred 501 501 20 20) "sh" 0 0 false false))
  = (0, [1027; 99]).
Proof. apply thread_ids_roundtrip; [done|repeat constructor; lia|reflexivity]. Defined.

(** Every failure of the thread list is reported as EPERM, ENOTSUP, ENOMEM
    or EINVAL (never a raw Mach or daemon code), and with an empty list. *)
Theorem thread_ids_errors B a1 a2 p e ids :
  procfs_get_thread_ids_for_task B a1 a2 p = (e, ids) -> e <> 0 ->
  ids = [] /\ (e = EPERM \/ e = ENOTSUP \/ e = ENOMEM \/ e = EINVAL).
Proof.
  unfold procfs_get_thread_ids_for_task. intros H Hne.
  destruct p as [p|]; [|naive_solver].
  destruct a1; [|destruct (ENOTSUP =? EPERM); naive_solver].
  destruct (ctl_request _ _ _ _ _ _) as [d b].
  destruct (_ && _); [destruct a2; naive_solver|]. destruct (d =? EPERM); naive_solver.
Qed.

Lemma thread_ids_errors_witness :
  procfs_get_thread_ids_for_task (Bridge (fun _ _ _ _ _ => (ENOTCONN, []))) true true
    (Some (Proc 7 1 7 7 (Cred 501 501 20 20) "sh" 0 0 false false)) = (ENOTSUP, [])
  /\ (@nil Z = [] /\ (ENOTSUP = EPERM \/ ENOTSUP = ENOTSUP \/ ENOTSUP = ENOMEM \/ ENOTSUP = EINVAL)).
Proof.
  split; [reflexivity|].
  apply (thread_ids_errors (Bridge (fun _ _ _ _ _ => (ENOTCONN, []))) true true
    (Some (Proc 7 1 7 7 (Cred 501 501 20 20) "sh" 0 0 false false))); [reflexivity|discriminate].
Defined.

(** Every thread pointer handed out passed the kernel-address check, and
    at most [max] (and at most 100000) are handed out. *)
Theorem thread_ptrs_valid ph g uths max :
  Forall (fun t => procfs_kptr_ok ph t = true) (procfs_get_thread_ptrs ph g uths max)
  /\ Z.of_nat (length (procfs_get_thread_ptrs ph g uths max)) <= Z.max 0 (Z.min max PROCFS_MAX_THREADS).
Proof.
  unfold procfs_get_thread_ptrs. destruct (_ || _); [cbn; split; [constructor|lia]|].
  destruct uths as [l|]; [|cbn; split; [constructor|lia]].
  generalize (Z.min max PROCFS_MAX_THREADS). induction l as [|u l IH]; intros room; cbn [thread_ptrs_loop].
  { split; [constructor|cbn; lia]. }
  destruct (Z.ltb_spec 0 room); [|split; [constructor|cbn; lia]].
  destruct (procfs_kptr_ok ph u); [|split; [constructor|cbn; lia]].
  destruct (procfs_kptr_ok ph (u64 _)) eqn:E; [|apply IH].
  destruct (IH (room - 1)) as [IH1 IH2]. split; [by constructor|cbn [length]; lia].
Qed.

Section CopyProperties.
Context {U : Type} `{UioLaws U}.

(** At an offset inside (or at the end of) a buffer of less than 2^31
    bytes, [procfs_copy_data] stays within the buffer, and a successful copy
    delivers exactly the bytes from the offset on, as many as the caller asked
    for and the buffer holds, and advances the offset past them. *)
Theorem copy_data_correct d (u : U) e u' :
  Z.of_nat (length d) < 2 ^ 31 -> 0 <= uio_offset u <= Z.of_nat (length d) -> 0 <= uio_resid u ->
  copy_all d u = Some (e, u') ->
  e = 0 ->
  let k := Z.min (Z.of_nat (length d) - uio_offset u) (uio_resid u) in
  uio_out u' = (uio_out u ++ take (Z.to_nat k) (drop (Z.to_nat (uio_offset u)) d))%list
  /\ uio_offset u' = uio_offset u + k /\ uio_resid u' = uio_resid u - k.
Proof.
  intros Hl Ho Hr. rewrite copy_all_at by done. intros E ->. injection E as E.
  apply uiomove_ok in E as (E1 & E2 & E3 & _); [|lia|done]. done.
Qed.

(** A read that starts past the end of the data (by less than 2^31 bytes)
    fails with EIO and transfers nothing. *)
Theorem copy_data_past_end d (u : U) :
  Z.of_nat (length d) < uio_offset u -> uio_offset u < 2 ^ 31 ->
  copy_all d u = Some (EIO, u).
Proof.
  intros Hl Ho. unfold copy_all, procfs_copy_data.
  rewrite (i64_small (Z.of_nat (length d) - uio_offset u)) by lia.
  rewrite i32_small by lia.
  destruct (Z.leb_spec 0 (Z.of_nat (length d) - uio_offset u)); [lia|done].
Qed.
End CopyProperties.

Lemma copy_data_correct_witness :
  ub_out (snd (default (0, ubuf_read 0 0) (copy_all [10; 20; 30; 40] (ubuf_read 1 2))))
  = [20; 30].
Proof.
  destruct (copy_all [10; 20; 30; 40] (ubuf_read 1 2)) as [[e u']|] eqn:E; [|discriminate E].
  assert (e = 0) as He by (vm_compute in E; congruence).
  pose proof (copy_data_correct [10; 20; 30; 40] (ubuf_read 1 2) e u'
    ltac:(cbn; lia) ltac:(cbn; lia) ltac:(cbn; lia) E He) as (Ho & _).
  exact Ho.
Defined.

Lemma copy_data_past_end_witness :
  copy_all [10; 20; 30; 40] (ubuf_read 5 2) = Some (EIO, ubuf_read 5 2).
Proof. apply copy_data_past_end; cbn; lia. Defined.

(** The 64-bit offset is subtracted from an [int]: at offset 2^32 the
    truncated length is again the length of the data, the copy is attempted
    and reads 4 GiB past the buffer. *)
Theorem copy_data_wraps d r :
  0 < Z.of_nat (length d) < 2 ^ 31 -> 0 < r ->
  copy_all d (ubuf_read (2 ^ 32) r) = None.
Proof.
  intros Hl Hr. unfold copy_all, procfs_copy_data. cbn [uio_offset ubuf_uio ub_offset ubuf_read].
  rewrite (i64_small (Z.of_nat (length d) - 2 ^ 32)) by lia.
  replace (i32 (Z.of_nat (length d) - 2 ^ 32)) with (Z.of_nat (length d)).
  2:{ unfold i32, wrap_s. change (2 ^ (32 - 1)) with 2147483648.
      replace (Z.of_nat (length d) - 2 ^ 32 + 2147483648)
        with (Z.of_nat (length d) + 2147483648 + (-1) * 2 ^ 32) by lia.
      rewrite Z.mod_add by lia. rewrite Z.mod_small by lia. lia. }
  destruct (Z.leb_spec 0 (Z.of_nat (length d))); [|lia].
  unfold uiomove_at. cbn [uio_resid ubuf_uio ub_resid ubuf_read].
  destruct (Z.leb_spec (Z.min (Z.of_nat (length d)) r) 0); [lia|]. cbn [orb].
  destruct (Z.leb_spec 0 (2 ^ 32)); [|lia]. cbn [andb].
  destruct (Z.leb_spec (2 ^ 32 + Z.min (Z.of_nat (length d)) r) (Z.of_nat (length d))); [lia|done].
Qed.

Lemma copy_data_wraps_witness : copy_all [10; 20; 30] (ubuf_read (2 ^ 32) 4096) = None.
Proof. apply copy_data_wraps; cbn; lia. Defined.

(** Reading a node chunk by chunk, with any positive chunk size, until a
    read returns nothing yields exactly its contents. *)
Theorem read_chunks_all d r :
  Z.of_nat (length d) < 2 ^ 31 -> 0 < r ->
  read_chunks (S (length d)) d 0 r = d.
Proof.
  intros Hl Hr.
  enough (G : forall f off, 0 <= off <= Z.of_nat (length d) ->
            Z.of_nat (length d) - off < Z.of_nat f ->
            read_chunks f d off r = drop (Z.to_nat off) d).
  { rewrite G by lia. done. }
  induction f as [|f IH]; intros off Ho Hf; [lia|]. cbn [read_chunks].
  rewrite copy_all_at by (cbn; lia). cbn [uio_offset ubuf_uio ub_offset ubuf_read uiomove].
  unfold ubuf_move. cbn [ub_fault ubuf_read ub_resid ub_out ub_offset uio_out ubuf_uio app].
  set (k := Z.min (Z.of_nat (length d) - off) r).
  destruct (decide (off = Z.of_nat (length d))) as [->|Hne].
  - rewrite drop_ge by lia. by rewrite take_nil.
  - assert (0 < k) as Hk by lia.
    destruct (take (Z.to_nat k) (drop (Z.to_nat off) d)) as [|x xs] eqn:E.
    + apply (f_equal length) in E. rewrite length_take, length_drop in E. cbn in E. lia.
    + rewrite IH by lia. rewrite app_comm_cons, <- E.
      rewrite <- (take_drop (Z.to_nat k) (drop (Z.to_nat off) d)) at 2.
      rewrite drop_drop. do 2 f_equal. lia.
Qed.

Lemma read_chunks_all_witness : read_chunks 6 [1; 2; 3; 4; 5] 0 2 = [1; 2; 3; 4; 5].
Proof. apply (read_chunks_all [1; 2; 3; 4; 5] 2); cbn; lia. Defined.
