(* ===== verification/Structure.v ===== *)
(** * The file system layout (kext/procfs_structure.c)

    The layout is a tree of [pfssnode] structures linked by pointers.  It is
    modelled as a store from addresses to nodes; [next_node_id] and
    [root_node] are the two file-scope variables.  [procfs_structure_init] is
    the whole construction, cut into consecutive pieces.  A failing
    allocation panics the kernel and has no successor state. *)
From S2P Require Import Prelude Kernel PfsTypes.
From Stdlib Require Import ZArith Lia String.
From stdpp Require Import base list numbers strings gmap.
Open Scope Z_scope.
Open Scope procfs_scope.

(** Address of a structure node. *)
Abbreviation sloc := positive.

(** A C function pointer is represented by the symbol it points to. *)
Abbreviation fnptr := string.

Record pfssnode := Pfssnode {
  psn_node_type : pfstype;
  psn_name : string;
  psn_base_node_id : Z;
  psn_flags : Z;
  psn_parent : option sloc;
  psn_children : list sloc;
  psn_node_size : Z;
  psn_getsize_fn : option fnptr;
  psn_read_data_fn : option fnptr
}.

Record sstate := Sstate {
  ss_heap : gmap sloc pfssnode;
  ss_alloc : sloc;           (* next address the allocator hands out *)
  next_node_id : Z;          (* uint16_t *)
  root_node : option sloc;
  ss_log : list string       (* names add_node() logged as truncated *)
}.

Definition snode_at (s : sstate) (l : sloc) : option pfssnode := ss_heap s !! l.

(** Before the first mount. *)
Definition sstate_boot : sstate :=
  Sstate ∅ 1%positive (PROCFS_ROOT_NODE_BASE_ID + 1) None [].

Definition sizeof_proc_bsdshortinfo : Z := 64.
Definition sizeof_proc_taskinfo : Z := 96.
Definition sizeof_proc_threadinfo : Z := 112.
Definition sizeof_vnode_fdinfowithpath : Z := 1200.
Definition sizeof_socket_fdinfo : Z := 792.

(** ** Creation of structure nodes *)
(** TAILQ_INSERT_TAIL on the parent's child list. *)
Definition insert_tail (c : sloc) (n : pfssnode) : pfssnode :=
  Pfssnode (psn_node_type n) (psn_name n) (psn_base_node_id n) (psn_flags n)
    (psn_parent n) (psn_children n ++ [c]) (psn_node_size n) (psn_getsize_fn n)
    (psn_read_data_fn n).

Definition parent_flags (s : sstate) (parent : option sloc) : Z :=
  match parent with
  | None => 0
  | Some p => match snode_at s p with
              | Some pn => Z.land (psn_flags pn) (Z.lor PSN_FLAG_PROCESS PSN_FLAG_THREAD)
              | None => 0
              end
  end.

Definition add_node (parent : option sloc) (name : string) (ty : pfstype) (node_id flags size : Z)
  (node_size_fn node_read_data_fn : option fnptr) : st sstate sloc := fun s =>
  let l := ss_alloc s in
  let node :=
    Pfssnode ty (strlcpy name MAX_STRUCT_NODE_NAME_LEN) node_id
      (Z.lor flags (parent_flags s parent)) parent [] size node_size_fn node_read_data_fn in
  let log := if MAX_STRUCT_NODE_NAME_LEN <=? strlen name then ss_log s ++ [name] else ss_log s in
  let heap := <[l := node]> (ss_heap s) in
  let heap := match parent with None => heap | Some p => alter (insert_tail l) p heap end in
  (l, Sstate heap (Pos.succ l) (next_node_id s) (root_node s) log).

(** The argument expression [next_node_id++]. *)
Definition fresh_node_id : st sstate Z := fun s =>
  (next_node_id s,
   Sstate (ss_heap s) (ss_alloc s) (u16 (next_node_id s + 1)) (root_node s) (ss_log s)).

(** [add_directory(..., raw = 1, ...)]: the bare node. *)
Definition add_directory_raw (parent : option sloc) (name : string) (ty : pfstype)
  (node_id flags : Z) (node_size_fn node_read_data_fn : option fnptr) : st sstate sloc :=
  add_node parent name ty node_id flags 0 node_size_fn node_read_data_fn.

(** [add_directory]: the node and, unless [raw], its two dot entries. *)
Definition add_directory (parent : option sloc) (name : string) (ty : pfstype)
  (node_id flags : Z) (raw : bool) (node_size_fn node_read_data_fn : option fnptr)
  : st sstate sloc :=
  let dot_flags := Z.land flags (Z.lor PSN_FLAG_PROCESS PSN_FLAG_THREAD) in
  snode <-- add_node parent name ty node_id flags 0 node_size_fn node_read_data_fn ;;
  if raw then st_ret snode
  else
    id1 <-- fresh_node_id ;;
    add_directory_raw (Some snode) "." PFSdirthis id1 dot_flags None None ;;;
    id2 <-- fresh_node_id ;;
    add_directory_raw (Some snode) ".." PFSdirparent id2 dot_flags None None ;;;
    st_ret snode.

Definition add_file (parent : option sloc) (name : string) (node_id flags size : Z)
  (node_size_fn node_read_data_fn : option fnptr) : st sstate sloc :=
  add_node parent name PFSfile node_id flags size node_size_fn node_read_data_fn.

(** The three calls as [procfs_structure_init] writes them, with
    [next_node_id++] in the position of the node id. *)
Definition add_node_next (parent : sloc) (name : string) (ty : pfstype) (flags size : Z)
  (sf rf : option fnptr) : st sstate sloc :=
  id <-- fresh_node_id ;; add_node (Some parent) name ty id flags size sf rf.

Definition add_directory_next (parent : sloc) (name : string) (ty : pfstype) (flags : Z)
  (sf rf : option fnptr) : st sstate sloc :=
  id <-- fresh_node_id ;; add_directory (Some parent) name ty id flags false sf rf.

Definition add_file_next (parent : sloc) (name : string) (flags size : Z)
  (sf rf : option fnptr) : st sstate sloc :=
  id <-- fresh_node_id ;; add_file (Some parent) name id flags size sf rf.

(** ** procfs_structure_init *)
(** Files of the root directory, first part: cpuinfo to filesystems. *)
Definition init_root_files (root : sloc) : st sstate unit :=
  add_node_next root "cpuinfo" PFScpuinfo 0 0 None (Some "procfs_docpuinfo") ;;;
  add_node_next root "curproc" PFScurproc 0 0 None None ;;;
  add_node_next root "loadavg" PFSloadavg 0 0 None (Some "procfs_doloadavg") ;;;
  add_node_next root "kcore" PFSkcore 0 0 None (Some "procfs_dokcore") ;;;
  add_node_next root "kmsg" PFSkmsg 0 0 None (Some "procfs_dokmsg") ;;;
  add_node_next root "last_kmsg" PFSlastkmsg 0 0 None (Some "procfs_dolast_kmsg") ;;;
  add_node_next root "ksyms" PFSksyms 0 0 None (Some "procfs_doksyms") ;;;
  add_node_next root "kallsyms" PFSksyms 0 0 None (Some "procfs_dokallsyms") ;;;
  add_node_next root "locks" PFSlocks 0 0 None (Some "procfs_dolocks") ;;;
  add_node_next root "meminfo" PFSmeminfo 0 0 None (Some "procfs_domeminfo") ;;;
  add_node_next root "misc" PFSmisc 0 0 None (Some "procfs_domisc") ;;;
  add_node_next root "mtab" PFSmtab 0 0 None (Some "procfs_domtab") ;;;
  add_node_next root "mounts" PFSmtab 0 0 None (Some "procfs_domtab") ;;;
  add_node_next root "stat" PFSstat 0 0 None (Some "procfs_dostat") ;;;
  add_node_next root "vmstat" PFSvmstat 0 0 None (Some "procfs_dovmstat") ;;;
  add_node_next root "partitions" PFSpartitions 0 0 None (Some "procfs_dopartitions") ;;;
  add_node_next root "version" PFSversion 0 0 None (Some "procfs_doversion") ;;;
  add_node_next root "uptime" PFSuptime 0 0 None (Some "procfs_douptime") ;;;
  add_node_next root "swaps" PFSswaps 0 0 None (Some "procfs_doswaps") ;;;
  add_node_next root "filesystems" PFSfilesystems 0 0 None (Some "procfs_dofilesystems") ;;;
  st_ret tt.

(** Files of the root directory, second part: sys to interrupts. *)
Definition init_root_files2 (root : sloc) : st sstate unit :=
  add_node_next root "sys" PFSsysctl 0 0 None None ;;;
  add_node_next root "extensions" PFSextensions 0 0 None (Some "procfs_doextensions") ;;;
  add_node_next root "modules" PFSmodules 0 0 None (Some "procfs_domodules") ;;;
  add_node_next root "diskstats" PFSdiskstats 0 0 None (Some "procfs_dodiskstats") ;;;
  add_node_next root "devices" PFSdevices 0 0 None (Some "procfs_dodevices") ;;;
  add_node_next root "allocinfo" PFSallocinfo 0 0 None (Some "procfs_doallocinfo") ;;;
  add_node_next root "vmallocinfo" PFSvmallocinfo 0 0 None (Some "procfs_dovmallocinfo") ;;;
  add_node_next root "apm" PFSapm 0 0 None (Some "procfs_doapm") ;;;
  add_node_next root "bootconfig" PFSbootconfig 0 0 None (Some "procfs_dobootconfig") ;;;
  add_node_next root "buddyinfo" PFSbuddyinfo 0 0 None (Some "procfs_dobuddyinfo") ;;;
  add_node_next root "pagetypeinfo" PFSpagetypeinfo 0 0 None (Some "procfs_dopagetypeinfo") ;;;
  add_node_next root "slabinfo" PFSslabinfo 0 0 None (Some "procfs_doslabinfo") ;;;
  add_node_next root "dma" PFSdma 0 0 None (Some "procfs_dodma") ;;;
  add_node_next root "ioports" PFSioports 0 0 None (Some "procfs_doioports") ;;;
  add_node_next root "iomem" PFSiomem 0 0 None (Some "procfs_doiomem") ;;;
  add_node_next root "softirqs" PFSsoftirqs 0 0 None (Some "procfs_dosoftirqs") ;;;
  add_node_next root "rtc" PFSrtc 0 0 None (Some "procfs_dortc") ;;;
  add_node_next root "execdomains" PFSexecdomains 0 0 None (Some "procfs_doexecdomains") ;;;
  add_node_next root "fb" PFSfb 0 0 None (Some "procfs_dofb") ;;;
  add_node_next root "interrupts" PFSinterrupts 0 0 None (Some "procfs_dointerrupts") ;;;
  st_ret tt.

(** The static subdirectories irq, tty, ide, video, isapnp, scsi, sysvipc, fs,
    driver and bus. *)
Definition init_root_dirs (root : sloc) : st sstate unit :=
  irq_dir <-- add_directory_next root "irq" PFSdir 0 None None ;;
  add_node_next irq_dir "default_smp_affinity" PFSirq 0 0 None (Some "procfs_doirq_affinity") ;;;
  add_node_next irq_dir "default_smp_affinity_list" PFSirq 0 0 None (Some "procfs_doirq_affinity_list") ;;;
  tty_dir <-- add_directory_next root "tty" PFSdir 0 None None ;;
  add_node_next tty_dir "drivers" PFStty 0 0 None (Some "procfs_dotty_drivers") ;;;
  add_node_next tty_dir "ldiscs" PFStty 0 0 None (Some "procfs_dotty_ldiscs") ;;;
  ide_dir <-- add_directory_next root "ide" PFSdir 0 None None ;;
  add_node_next ide_dir "drivers" PFSide 0 0 None (Some "procfs_doide_drivers") ;;;
  video_dir <-- add_directory_next root "video" PFSdir 0 None None ;;
  add_directory_next video_dir "bttv" PFSdir 0 None None ;;;
  add_node_next root "isapnp" PFSisapnp 0 0 None (Some "procfs_doisapnp") ;;;
  scsi_dir <-- add_directory_next root "scsi" PFSdir 0 None None ;;
  add_node_next scsi_dir "scsi" PFSscsi 0 0 None (Some "procfs_doscsi") ;;;
  sysvipc_dir <-- add_directory_next root "sysvipc" PFSdir 0 None None ;;
  add_node_next sysvipc_dir "msg" PFSsysvipc 0 0 None (Some "procfs_dosysvipc_msg") ;;;
  add_node_next sysvipc_dir "sem" PFSsysvipc 0 0 None (Some "procfs_dosysvipc_sem") ;;;
  add_node_next sysvipc_dir "shm" PFSsysvipc 0 0 None (Some "procfs_dosysvipc_shm") ;;;
  fs_dir <-- add_directory_next root "fs" PFSdir 0 None None ;;
  nfs_dir <-- add_directory_next fs_dir "nfs" PFSdir 0 None None ;;
  add_node_next nfs_dir "exports" PFSnfsexports 0 0 None (Some "procfs_donfsexports") ;;;
  driver_dir <-- add_directory_next root "driver" PFSdir 0 None None ;;
  add_node_next driver_dir "rtc" PFSrtc 0 0 None (Some "procfs_dortc") ;;;
  bus_dir <-- add_directory_next root "bus" PFSdir 0 None None ;;
  pci_dir <-- add_directory_next bus_dir "pci" PFSdir 0 None None ;;
  add_node_next pci_dir "devices" PFSpcidevices 0 0 None (Some "procfs_dopcidevices") ;;;
  st_ret tt.

(** cmdline, self and the net directory. *)
Definition init_root_net (root : sloc) : st sstate unit :=
  add_node_next root "cmdline" PFSkcmdline 0 0 None (Some "procfs_dokcmdline") ;;;
  add_node_next root "self" PFScurproc 0 0 None None ;;;
  net_dir <-- add_directory_next root "net" PFSdir 0 None None ;;
  add_node_next net_dir "dev" PFSnetdev 0 0 None (Some "procfs_donetdev") ;;;
  add_node_next net_dir "tcp" PFSnetdev 0 0 None (Some "procfs_donettcp") ;;;
  add_node_next net_dir "tcp6" PFSnetdev 0 0 None (Some "procfs_donettcp6") ;;;
  add_node_next net_dir "udp" PFSnetdev 0 0 None (Some "procfs_donetudp") ;;;
  add_node_next net_dir "udp6" PFSnetdev 0 0 None (Some "procfs_donetudp6") ;;;
  add_node_next net_dir "unix" PFSnetdev 0 0 None (Some "procfs_donetunix") ;;;
  add_node_next net_dir "route" PFSnetdev 0 0 None (Some "procfs_donetroute") ;;;
  add_node_next net_dir "arp" PFSnetdev 0 0 None (Some "procfs_donetarp") ;;;
  add_node_next net_dir "netstat" PFSnetdev 0 0 None (Some "procfs_donetnetstat") ;;;
  add_node_next net_dir "snmp" PFSnetdev 0 0 None (Some "procfs_donetsnmp") ;;;
  st_ret tt.

(** The entries that stand for one process, descriptor or thread. *)
Definition init_process_dirs (root byname : sloc) : st sstate (sloc * sloc * sloc * sloc) :=
  add_directory_next byname "__Process_N__" PFSprocnamedir PSN_FLAG_PROCESS (Some "procfs_process_node_size") None ;;;
  one_proc_dir <-- add_directory_next root "__Process__" PFSproc PSN_FLAG_PROCESS (Some "procfs_process_node_size") None ;;
  fd_dir <-- add_directory_next one_proc_dir "fd" PFSdir PSN_FLAG_PROCESS None None ;;
  one_fd_dir <-- add_directory_next fd_dir "__File__" PFSfd PSN_FLAG_PROCESS (Some "procfs_fd_node_size") None ;;
  threads_dir <-- add_directory_next one_proc_dir "threads" PFSdir PSN_FLAG_PROCESS None None ;;
  one_thread_dir <-- add_directory_next threads_dir "__Thread__" PFSthread (Z.lor PSN_FLAG_PROCESS PSN_FLAG_THREAD) (Some "procfs_thread_node_size") None ;;
  task_dir <-- add_directory_next one_proc_dir "task" PFSdir PSN_FLAG_PROCESS None None ;;
  one_task_dir <-- add_directory_next task_dir "__Thread__" PFSthread (Z.lor PSN_FLAG_PROCESS PSN_FLAG_THREAD) (Some "procfs_thread_node_size") None ;;
  st_ret (one_proc_dir, one_fd_dir, one_thread_dir, one_task_dir).

(** The files of a process directory. *)
Definition init_process_files (one_proc_dir : sloc) : st sstate unit :=
  add_file_next one_proc_dir "cmdline" PSN_FLAG_PROCESS 0 None (Some "procfs_doprocargs") ;;;
  add_file_next one_proc_dir "pid" PSN_FLAG_PROCESS 0 None (Some "procfs_dopid") ;;;
  add_file_next one_proc_dir "ppid" PSN_FLAG_PROCESS 0 None (Some "procfs_doppid") ;;;
  add_file_next one_proc_dir "pgid" PSN_FLAG_PROCESS 0 None (Some "procfs_dopgid") ;;;
  add_file_next one_proc_dir "sid" PSN_FLAG_PROCESS 0 None (Some "procfs_dosid") ;;;
  add_file_next one_proc_dir "tty" PSN_FLAG_PROCESS 0 None (Some "procfs_dotty") ;;;
  add_file_next one_proc_dir "status" PSN_FLAG_PROCESS sizeof_proc_bsdshortinfo None (Some "procfs_dostatus") ;;;
  add_file_next one_proc_dir "taskinfo" PSN_FLAG_PROCESS sizeof_proc_taskinfo None (Some "procfs_dotaskinfo") ;;;
  add_file_next one_proc_dir "note" PSN_FLAG_PROCESS 0 None (Some "procfs_donote") ;;;
  add_file_next one_proc_dir "clear_refs" PSN_FLAG_PROCESS 0 None (Some "procfs_doclear_refs") ;;;
  add_file_next one_proc_dir "limit" PSN_FLAG_PROCESS 0 None (Some "procfs_dolimit") ;;;
  add_file_next one_proc_dir "mem" PSN_FLAG_PROCESS 0 None (Some "procfs_domem") ;;;
  add_file_next one_proc_dir "map" PSN_FLAG_PROCESS 0 None (Some "procfs_domap") ;;;
  add_file_next one_proc_dir "maps" PSN_FLAG_PROCESS 0 None (Some "procfs_domaps") ;;;
  add_file_next one_proc_dir "smaps" PSN_FLAG_PROCESS 0 None (Some "procfs_dosmaps") ;;;
  add_file_next one_proc_dir "smaps_rollup" PSN_FLAG_PROCESS 0 None (Some "procfs_dosmaps_rollup") ;;;
  add_file_next one_proc_dir "numa_maps" PSN_FLAG_PROCESS 0 None (Some "procfs_donuma_maps") ;;;
  add_file_next one_proc_dir "pagemap" PSN_FLAG_PROCESS 0 None (Some "procfs_dopagemap") ;;;
  add_node_next one_proc_dir "exe" PFSproclink PSN_FLAG_PROCESS 0 None None ;;;
  add_node_next one_proc_dir "cwd" PFSproclink PSN_FLAG_PROCESS 0 None None ;;;
  add_node_next one_proc_dir "root" PFSproclink PSN_FLAG_PROCESS 0 None None ;;;
  add_file_next one_proc_dir "comm" PSN_FLAG_PROCESS 0 None (Some "procfs_docomm") ;;;
  add_file_next one_proc_dir "cpu" PSN_FLAG_PROCESS 0 None (Some "procfs_docpu") ;;;
  add_file_next one_proc_dir "stat" PSN_FLAG_PROCESS 0 None (Some "procfs_doprocstat") ;;;
  add_file_next one_proc_dir "statm" PSN_FLAG_PROCESS 0 None (Some "procfs_dostatm") ;;;
  add_file_next one_proc_dir "io" PSN_FLAG_PROCESS 0 None (Some "procfs_doio") ;;;
  add_file_next one_proc_dir "environ" PSN_FLAG_PROCESS 0 None (Some "procfs_doenviron") ;;;
  add_file_next one_proc_dir "regs" PSN_FLAG_PROCESS 0 None (Some "procfs_doregs") ;;;
  add_file_next one_proc_dir "fpregs" PSN_FLAG_PROCESS 0 None (Some "procfs_dofpregs") ;;;
  add_file_next one_proc_dir "auxv" PSN_FLAG_PROCESS 0 None (Some "procfs_doauxv") ;;;
  add_file_next one_proc_dir "wchan" PSN_FLAG_PROCESS 0 None (Some "procfs_dowchan") ;;;
  add_file_next one_proc_dir "stack" PSN_FLAG_PROCESS 0 None (Some "procfs_dostack") ;;;
  st_ret tt.

(** The files of a thread and of a descriptor directory. *)
Definition init_thread_fd_files (one_fd_dir one_thread_dir one_task_dir : sloc) : st sstate unit :=
  add_file_next one_thread_dir "info" (Z.lor PSN_FLAG_PROCESS PSN_FLAG_THREAD) sizeof_proc_threadinfo None (Some "procfs_dothreadinfo") ;;;
  add_file_next one_task_dir "info" (Z.lor PSN_FLAG_PROCESS PSN_FLAG_THREAD) sizeof_proc_threadinfo None (Some "procfs_dothreadinfo") ;;;
  add_file_next one_task_dir "comm" (Z.lor PSN_FLAG_PROCESS PSN_FLAG_THREAD) 0 None (Some "procfs_dothreadcomm") ;;;
  add_file_next one_task_dir "stat" (Z.lor PSN_FLAG_PROCESS PSN_FLAG_THREAD) 0 None (Some "procfs_dothreadstat") ;;;
  add_file_next one_task_dir "status" (Z.lor PSN_FLAG_PROCESS PSN_FLAG_THREAD) 0 None (Some "procfs_dothreadstatus") ;;;
  add_file_next one_task_dir "sched" (Z.lor PSN_FLAG_PROCESS PSN_FLAG_THREAD) 0 None (Some "procfs_dothreadsched") ;;;
  add_file_next one_task_dir "maps" (Z.lor PSN_FLAG_PROCESS PSN_FLAG_THREAD) 0 None (Some "procfs_domaps") ;;;
  add_file_next one_fd_dir "details" PSN_FLAG_PROCESS sizeof_vnode_fdinfowithpath None (Some "procfs_dofd") ;;;
  add_file_next one_fd_dir "socket" PSN_FLAG_PROCESS sizeof_socket_fdinfo None (Some "procfs_dosocket") ;;;
  st_ret tt.

Definition set_root (l : option sloc) : st sstate unit := fun s =>
  (tt, Sstate (ss_heap s) (ss_alloc s) (next_node_id s) l (ss_log s)).

(** Everything below the root directory. *)
Definition structure_init_below (root : sloc) : st sstate unit :=
  byname <-- add_directory_next root "byname" PFSdir 0 None None ;;
  init_root_files root ;;;
  init_root_files2 root ;;;
  init_root_dirs root ;;;
  init_root_net root ;;;
  dirs <-- init_process_dirs root byname ;;
  let '(one_proc_dir, one_fd_dir, one_thread_dir, one_task_dir) := dirs in
  init_process_files one_proc_dir ;;;
  init_thread_fd_files one_fd_dir one_thread_dir one_task_dir.

Definition structure_init_body : st sstate unit :=
  root <-- add_directory None "/" PFSroot PROCFS_ROOT_NODE_BASE_ID 0 false None None ;;
  set_root (Some root) ;;;
  structure_init_below root.

Definition procfs_structure_init : st sstate unit := fun s =>
  match root_node s with
  | None => structure_init_body s
  | Some _ => (tt, s)
  end.

(** ** Clean up *)
(** TAILQ_REMOVE.  Removing an element that was removed before rewrites the
    same links and changes nothing. *)
Definition tailq_remove (p c : sloc) (h : gmap sloc pfssnode) : gmap sloc pfssnode :=
  alter (fun n => Pfssnode (psn_node_type n) (psn_name n) (psn_base_node_id n) (psn_flags n)
                    (psn_parent n) (List.filter (fun x => negb (Pos.eqb x c)) (psn_children n))
                    (psn_node_size n) (psn_getsize_fn n) (psn_read_data_fn n)) p h.

(** [release_node] with its loop over the children; [None] if a freed node
    would be accessed (or the fuel runs out). *)
Fixpoint release_node (fuel : nat) (l : sloc) (h : gmap sloc pfssnode)
  : option (gmap sloc pfssnode) :=
  match fuel with
  | O => None
  | S f =>
      match h !! l with
      | None => None
      | Some n =>
          match psn_parent n with
          | None => release_children f l h
          | Some p => match h !! p with
                      | None => None
                      | Some _ => release_children f l (tailq_remove p l h)
                      end
          end
      end
  end
with release_children (fuel : nat) (l : sloc) (h : gmap sloc pfssnode)
  : option (gmap sloc pfssnode) :=
  match fuel with
  | O => None
  | S f =>
      match h !! l with
      | None => None
      | Some n =>
          match psn_children n with
          | [] => Some (delete l h)
          | c :: _ =>
              match release_node f c (tailq_remove l c h) with
              | None => None
              | Some h' => release_children f l h'
              end
          end
      end
  end.

Definition procfs_structure_free (s : sstate) : option sstate :=
  match root_node s with
  | None => Some s
  | Some r =>
      match release_node (S (3 * size (ss_heap s))) r (ss_heap s) with
      | None => None
      | Some h => Some (Sstate h (ss_alloc s) (next_node_id s) None (ss_log s))
      end
  end.

(** The structure of a first mount. *)
Definition first_structure : sstate := snd (procfs_structure_init sstate_boot).

(** ** Well-formedness *)
(** [flags_inherit p n]: every process/thread flag of [p] is a flag of [n]. *)
Definition flags_inherit (p n : pfssnode) : Prop :=
  Z.land (Z.land (psn_flags p) 3) (psn_flags n) = Z.land (psn_flags p) 3.

Record structure_wf (s : sstate) : Prop := {
  wf_alloc l n : snode_at s l = Some n -> (l < ss_alloc s)%positive;
  wf_parent l n p : snode_at s l = Some n -> psn_parent n = Some p ->
    exists pn, snode_at s p = Some pn /\ l ∈ psn_children pn /\ flags_inherit pn n;
  wf_children l n c : snode_at s l = Some n -> c ∈ psn_children n ->
    exists cn, snode_at s c = Some cn /\ psn_parent cn = Some l;
  wf_nodup l n : snode_at s l = Some n -> NoDup (psn_children n);
  wf_name l n : snode_at s l = Some n -> strlen (psn_name n) < MAX_STRUCT_NODE_NAME_LEN;
  wf_base l1 l2 n1 n2 : snode_at s l1 = Some n1 -> snode_at s l2 = Some n2 ->
    psn_base_node_id n1 = psn_base_node_id n2 -> l1 = l2
}.

(** ** What the readers of the layout rely on, as executable checks *)
Definition dynamic_type (t : pfstype) : bool :=
  match t with PFSproc | PFSprocnamedir | PFSthread | PFSfd => true | _ => false end.

Definition names_of (s : sstate) (ls : list sloc) : list string :=
  omap (fun c => psn_name <$> snode_at s c) ls.

Definition types_of (s : sstate) (ls : list sloc) : list pfstype :=
  omap (fun c => psn_node_type <$> snode_at s c) ls.

(** "it is essential that the entries that expand to dynamic content be the
    last in their parent's child list": every child but the last is static. *)
Definition dynamic_last (ts : list pfstype) : bool :=
  forallb (fun t => negb (dynamic_type t)) (removelast ts).

Definition layout_ok (s : sstate) (l : sloc) (n : pfssnode) : Prop :=
  NoDup (names_of s (psn_children n))
  /\ length (names_of s (psn_children n)) = length (psn_children n)
  /\ (PFSroot ∉ types_of s (psn_children n))
  /\ (psn_node_type n = PFSroot <-> psn_parent n = None)
  /\ dynamic_last (types_of s (psn_children n)) = true.

#[export] Instance layout_ok_dec s l n : Decision (layout_ok s l n).
Proof. unfold layout_ok. apply _. Defined.

(** Unmount, then mount again. *)
Definition remount (s : sstate) : sstate :=
  match procfs_structure_free s with
  | Some s' => snd (procfs_structure_init s')
  | None => s
  end.

(** ** Lemmas *)
Lemma flags_inherit_lor pf fl :
  Z.land (Z.land pf 3) (Z.lor fl (Z.land pf 3)) = Z.land pf 3.
Proof.
  apply Z.bits_inj'. intros i Hi. rewrite !Z.land_spec, Z.lor_spec, Z.land_spec.
  destruct (Z.testbit pf i), (Z.testbit 3 i), (Z.testbit fl i); done.
Qed.

Lemma add_node_heap parent name ty id flags size sf rf s :
  let l := ss_alloc s in
  let s' := snd (add_node parent name ty id flags size sf rf s) in
  structure_wf s ->
  match parent with None => True | Some p => is_Some (snode_at s p) end ->
  fst (add_node parent name ty id flags size sf rf s) = l
  /\ snode_at s' l
     = Some (Pfssnode ty (strlcpy name MAX_STRUCT_NODE_NAME_LEN) id
               (Z.lor flags (parent_flags s parent)) parent [] size sf rf)
  /\ (forall k, k <> l -> snode_at s' k
       = if decide (parent = Some k) then insert_tail l <$> snode_at s k else snode_at s k).
Proof.
  intros l s' W Hp. split; [done|].
  assert (Hl : snode_at s l = None).
  { destruct (snode_at s l) as [n|] eqn:E; [|done]. apply (wf_alloc s W) in E. unfold l in E. lia. }
  unfold s', add_node, snode_at in *. cbn -[strlcpy]. destruct parent as [p|].
  - assert (p <> l) by (intros ->; rewrite Hl in Hp; by destruct Hp). split.
    + by rewrite lookup_alter_ne, lookup_insert_eq.
    + intros k Hk. destruct (decide (Some p = Some k)) as [[= ->]|Hne].
      * by rewrite lookup_alter_eq, lookup_insert_ne.
      * rewrite lookup_alter_ne by congruence. by rewrite lookup_insert_ne.
  - split; [by rewrite lookup_insert_eq|]. intros k Hk. by rewrite lookup_insert_ne.
Qed.

Lemma strlcpy_short name : strlen (strlcpy name MAX_STRUCT_NODE_NAME_LEN) < MAX_STRUCT_NODE_NAME_LEN.
Proof.
  unfold strlen, strlcpy, MAX_STRUCT_NODE_NAME_LEN.
  pose proof (str_take_length (Z.to_nat (32 - 1)) name). lia.
Qed.

(** A node of the extended store is the new one or an old one that kept
    everything but, for the parent, its child list. *)
Lemma add_node_inv parent name ty id flags size sf rf s k n :
  structure_wf s -> match parent with None => True | Some p => is_Some (snode_at s p) end ->
  snode_at (snd (add_node parent name ty id flags size sf rf s)) k = Some n ->
  (k = ss_alloc s /\ psn_children n = [] /\ psn_parent n = parent /\ psn_base_node_id n = id
     /\ psn_flags n = Z.lor flags (parent_flags s parent)
     /\ strlen (psn_name n) < MAX_STRUCT_NODE_NAME_LEN)
  \/ (k <> ss_alloc s /\ exists n0, snode_at s k = Some n0 /\ psn_parent n = psn_parent n0
      /\ psn_flags n = psn_flags n0 /\ psn_base_node_id n = psn_base_node_id n0
      /\ psn_name n = psn_name n0
      /\ psn_children n
         = psn_children n0 ++ (if decide (parent = Some k) then [ss_alloc s] else [])).
Proof.
  intros W Hp Hk. destruct (add_node_heap parent name ty id flags size sf rf s W Hp) as (_ & Hl & Ho).
  destruct (decide (k = ss_alloc s)) as [->|Hne].
  - left. rewrite Hl in Hk. injection Hk as <-. split_and!; try done. apply strlcpy_short.
  - right. split; [done|]. rewrite Ho in Hk by done. destruct (decide (parent = Some k)).
    + destruct (snode_at s k) as [n0|]; [|done]. injection Hk as <-. exists n0. done.
    + exists n. rewrite app_nil_r. done.
Qed.

(** Adding a node preserves the well-formedness of the layout: parent and
    child links agree, child lists have no duplicates, base ids are unique,
    names are bounded and the process/thread flags are inherited. *)
Lemma add_node_wf parent name ty id flags size sf rf s :
  structure_wf s ->
  match parent with None => True | Some p => is_Some (snode_at s p) end ->
  (forall l n, snode_at s l = Some n -> psn_base_node_id n <> id) ->
  structure_wf (snd (add_node parent name ty id flags size sf rf s)).
Proof.
  intros W Hp Hid.
  pose proof (add_node_heap parent name ty id flags size sf rf s W Hp) as (_ & Hl & Ho).
  pose proof (fun k n => add_node_inv parent name ty id flags size sf rf s k n W Hp) as I.
  assert (Hfresh : forall k n, snode_at s k = Some n -> k <> ss_alloc s)
    by (intros k n E ->; apply (wf_alloc s W) in E; lia).
  split.
  - intros k n E. apply I in E as [(-> & _)|(_ & n0 & E & _)]; cbn; [lia|].
    apply (wf_alloc s W) in E. lia.
  - intros k n p E Ep. apply I in E as [(-> & _ & Epar & _ & Efl & _)|(Hk & n0 & E & Epar & Efl & _)].
    + rewrite Ep in Epar. subst parent. destruct Hp as [pn Epn].
      exists (insert_tail (ss_alloc s) pn). rewrite Ho by (by eapply Hfresh).
      rewrite decide_True by done. rewrite Epn. split_and!; [done|cbn; set_solver|].
      unfold flags_inherit. rewrite Efl. unfold parent_flags. rewrite Epn. apply flags_inherit_lor.
    + rewrite Ep in Epar. symmetry in Epar.
      destruct (wf_parent s W _ _ _ E Epar) as (pn & Epn & Hin & Hfl).
      destruct (decide (parent = Some p)) as [->|Hne].
      * exists (insert_tail (ss_alloc s) pn). rewrite Ho by (by eapply Hfresh).
        rewrite decide_True by done. rewrite Epn. split_and!; [done|cbn; set_solver|].
        unfold flags_inherit in *. cbn. by rewrite Efl.
      * exists pn. rewrite Ho by (by eapply Hfresh). rewrite decide_False by done.
        split_and!; [done..|]. unfold flags_inherit in *. by rewrite Efl.
  - intros k n c E Hc.
    assert (Old : forall c0 cn0, snode_at s c0 = Some cn0 -> exists cn,
       snode_at (snd (add_node parent name ty id flags size sf rf s)) c0 = Some cn
       /\ psn_parent cn = psn_parent cn0).
    { intros c0 cn0 E0. rewrite Ho by (by eapply Hfresh). rewrite E0.
      destruct (decide _); eexists; split; done. }
    apply I in E as [(-> & Ech & _)|(Hk & n0 & E & _ & _ & _ & _ & Ech)]; rewrite Ech in Hc; [set_solver|].
    apply elem_of_app in Hc as [Hc|Hc].
    + destruct (wf_children s W _ _ _ E Hc) as (cn & Ecn & Epar).
      destruct (Old _ _ Ecn) as (cn' & ? & ?). exists cn'. split; congruence.
    + destruct (decide (parent = Some k)) as [->|]; [|set_solver].
      apply list_elem_of_singleton in Hc as ->. eexists. split; [exact Hl|done].
  - intros k n E. apply I in E as [(-> & -> & _)|(Hk & n0 & E & _ & _ & _ & _ & ->)]; [constructor|].
    apply NoDup_app. split_and!; [by eapply (wf_nodup s W)| |destruct (decide _); [apply NoDup_singleton|constructor]].
    intros x Hx Hx'. destruct (decide (parent = Some k)); [|set_solver].
    apply list_elem_of_singleton in Hx' as ->.
    destruct (wf_children s W _ _ _ E Hx) as (cn & Ecn & _). by eapply Hfresh in Ecn.
  - intros k n E. apply I in E as [(-> & _ & _ & _ & _ & H)|(_ & n0 & E & _ & _ & _ & -> & _)]; [done|].
    by eapply (wf_name s W).
  - intros k1 k2 n1 n2 E1 E2 Eb.
    apply I in E1 as [(-> & _ & _ & B1 & _)|(H1 & m1 & E1 & _ & _ & B1 & _)];
      apply I in E2 as [(-> & _ & _ & B2 & _)|(H2 & m2 & E2 & _ & _ & B2 & _)]; [done|..].
    + exfalso. apply (Hid _ _ E2). congruence.
    + exfalso. apply (Hid _ _ E1). congruence.
    + apply (wf_base s W _ _ _ _ E1 E2). congruence.
Qed.

(** ** A small program logic for the construction

    [builds V m k R]: run on a well-formed layout in which the nodes [V]
    exist, with at least [k] node ids left before the 16-bit counter wraps,
    [m] keeps the layout well formed, uses exactly [k] ids, keeps every
    existing node and the root pointer, and the nodes [R] of its result exist. *)
Record layout_inv (s : sstate) : Prop := {
  li_wf : structure_wf s;
  li_ids l n : snode_at s l = Some n -> psn_base_node_id n < next_node_id s;
  li_next : 0 <= next_node_id s < 65536
}.

Definition builds {A} (V : list sloc) (m : st sstate A) (k : nat) (R : A -> list sloc) : Prop :=
  forall s, layout_inv s -> Forall (fun l => is_Some (snode_at s l)) V ->
    next_node_id s + Z.of_nat k < 65536 ->
    let '(a, s') := m s in
    layout_inv s' /\ next_node_id s' = next_node_id s + Z.of_nat k /\ root_node s' = root_node s
    /\ (forall l, is_Some (snode_at s l) -> is_Some (snode_at s' l))
    /\ Forall (fun l => is_Some (snode_at s' l)) (R a).

Lemma builds_bind {A B} V m k1 k2 (R1 : A -> list sloc) (f : A -> st sstate B) (R2 : B -> list sloc) :
  builds V m k1 R1 -> (forall a, builds (R1 a ++ V) (f a) k2 R2) ->
  builds V (st_bind m f) (k1 + k2)%nat R2.
Proof.
  intros Hm Hf s I HV Hk. unfold st_bind.
  specialize (Hm s I HV ltac:(lia)). destruct (m s) as [a s1].
  destruct Hm as (I1 & N1 & R & Keep1 & Ra).
  assert (HV1 : Forall (fun l => is_Some (snode_at s1 l)) (R1 a ++ V)).
  { apply Forall_app. split; [done|]. eapply Forall_impl; [exact HV|]. auto. }
  specialize (Hf a s1 I1 HV1 ltac:(lia)). destruct (f a s1) as [b s2].
  destruct Hf as (I2 & N2 & R' & Keep2 & Rb). split_and!; [done|lia|congruence|auto|done].
Qed.

Lemma builds_ret {A} V (a : A) (R : A -> list sloc) : (R a ⊆ V) -> builds V (st_ret a) 0%nat R.
Proof.
  intros Hsub s I HV Hk. cbn. split_and!; [done|lia|done|done|].
  rewrite Forall_forall in *. auto.
Qed.

Lemma builds_seq {A B} V (m : st sstate A) k1 k2 R1 (m' : st sstate B) R2 :
  builds V m k1 R1 -> builds V m' k2 R2 -> builds V (m ;;; m') (k1 + k2)%nat R2.
Proof.
  intros Hm Hm'. eapply builds_bind; [exact Hm|]. intros a s I HV. apply Hm'; [done|].
  by apply Forall_app in HV as [_ HV].
Qed.

Lemma builds_eq {A} V (m : st sstate A) k k' R : builds V m k R -> k = k' -> builds V m k' R.
Proof. by intros H <-. Qed.

Ltac builds_elem := cbn [app]; repeat first [assumption | apply list_elem_of_here | apply list_elem_of_further].

(** [id <-- next_node_id++ ;; add_node ...]. *)
Lemma builds_node V parent name ty flags size sf rf :
  parent ∈ V -> builds V (add_node_next parent name ty flags size sf rf) 1%nat (fun l => [l]).
Proof.
  intros Hp s I HV Hk. unfold add_node_next, st_bind, fresh_node_id.
  pose proof (li_next s I) as Hn. cbn [fst snd]. rewrite (u16_small (next_node_id s + 1)) by lia.
  set (s0 := Sstate (ss_heap s) (ss_alloc s) (next_node_id s + 1) (root_node s) (ss_log s)).
  assert (W0 : structure_wf s0) by (destruct (li_wf s I); split; assumption).
  assert (Hp0 : is_Some (snode_at s0 parent)) by (rewrite Forall_forall in HV; by apply HV).
  pose proof (add_node_heap (Some parent) name ty (next_node_id s) flags size sf rf s0 W0 Hp0) as (_ & El & Eo).
  assert (Hid : forall l n, snode_at s0 l = Some n -> psn_base_node_id n <> next_node_id s).
  { intros l n E. apply (li_ids s I) in E. lia. }
  pose proof (add_node_wf (Some parent) name ty (next_node_id s) flags size sf rf s0 W0 Hp0 Hid) as W1.
  pose proof (fun k n => add_node_inv (Some parent) name ty (next_node_id s) flags size sf rf s0 k n W0 Hp0) as Inv.
  destruct (add_node (Some parent) name ty (next_node_id s) flags size sf rf s0) as [l s1] eqn:E.
  assert (l = ss_alloc s /\ next_node_id s1 = next_node_id s + 1 /\ root_node s1 = root_node s) as (-> & N1 & R1).
  { unfold add_node in E. injection E as <- <-. done. }
  cbn [snd] in *. split_and!; [|done|done| |].
  - split; [done| |lia]. intros k n Ek.
    apply Inv in Ek as [(_ & _ & _ & -> & _)|(_ & n0 & E0 & _ & _ & -> & _)]; [lia|].
    apply (li_ids s I) in E0. lia.
  - intros k [n Ek]. destruct (decide (k = ss_alloc s)) as [->|Hne]; [by eexists|].
    rewrite Eo by done. change (snode_at s0 k) with (snode_at s k). rewrite Ek.
    destruct (decide _); by eexists.
  - constructor; [by eexists|constructor].
Qed.

Lemma builds_file V parent name flags size sf rf :
  parent ∈ V -> builds V (add_file_next parent name flags size sf rf) 1%nat (fun l => [l]).
Proof. apply builds_node. Qed.

Lemma builds_dir V parent name ty flags sf rf :
  parent ∈ V -> builds V (add_directory_next parent name ty flags sf rf) 3%nat (fun l => [l]).
Proof.
  intros Hp. set (fl := Z.land flags (Z.lor PSN_FLAG_PROCESS PSN_FLAG_THREAD)).
  assert (B : builds V (snode <-- add_node_next parent name ty flags 0 sf rf ;;
                        add_node_next snode "." PFSdirthis fl 0 None None ;;;
                        add_node_next snode ".." PFSdirparent fl 0 None None ;;;
                        st_ret snode) (1 + (1 + (1 + 0)))%nat (fun l => [l])).
  { eapply builds_bind; [by apply builds_node|]. intros d.
    eapply builds_bind; [apply builds_node; builds_elem|]. intros ?.
    eapply builds_bind; [apply builds_node; builds_elem|]. intros ?.
    apply builds_ret. set_solver. }
  intros s. exact (B s).
Qed.

(** Runs the logic over a straight-line piece of [procfs_structure_init]. *)
Ltac builds_atom :=
  lazymatch goal with
  | |- builds _ (add_node_next _ _ _ _ _ _ _) _ _ => apply builds_node; builds_elem
  | |- builds _ (add_file_next _ _ _ _ _ _) _ _ => apply builds_file; builds_elem
  | |- builds _ (add_directory_next _ _ _ _ _ _) _ _ => apply builds_dir; builds_elem
  end.
Ltac builds_step :=
  lazymatch goal with
  | |- builds _ (st_bind _ (fun _ => ?k)) _ _ => eapply builds_seq; [builds_atom|]
  | |- builds _ (st_bind _ _) _ _ => eapply builds_bind; [builds_atom|intros ?; cbn [app]]
  | |- builds _ (st_ret _) _ _ => apply builds_ret
  end.

Ltac builds_sub := intros ?; rewrite ?elem_of_cons, ?elem_of_nil; tauto.

(** The pieces of [procfs_structure_init], with the number of ids each takes. *)
Ltac builds_piece := eapply builds_eq; [repeat builds_step; builds_sub | reflexivity].

Lemma builds_root_files V r : r ∈ V -> builds V (init_root_files r) 20 (fun _ => []).
Proof. intros Hr. unfold init_root_files. builds_piece. Qed.

Lemma builds_root_files2 V r : r ∈ V -> builds V (init_root_files2 r) 20 (fun _ => []).
Proof. intros Hr. unfold init_root_files2. builds_piece. Qed.

Lemma builds_root_dirs V r : r ∈ V -> builds V (init_root_dirs r) 49 (fun _ => []).
Proof. intros Hr. unfold init_root_dirs. builds_piece. Qed.

Lemma builds_root_net V r : r ∈ V -> builds V (init_root_net r) 15 (fun _ => []).
Proof. intros Hr. unfold init_root_net. builds_piece. Qed.

Lemma builds_process_dirs V r b : r ∈ V -> b ∈ V ->
  builds V (init_process_dirs r b) 24 (fun '(p, f, t, k) => [p; f; t; k]).
Proof. intros Hr Hb. unfold init_process_dirs. builds_piece. Qed.

Lemma builds_process_files V p : p ∈ V -> builds V (init_process_files p) 32 (fun _ => []).
Proof. intros Hp. unfold init_process_files. builds_piece. Qed.

Lemma builds_thread_fd_files V f t k : f ∈ V -> t ∈ V -> k ∈ V ->
  builds V (init_thread_fd_files f t k) 9 (fun _ => []).
Proof. intros Hf Ht Hk. unfold init_thread_fd_files. builds_piece. Qed.

Lemma builds_below V root : root ∈ V -> builds V (structure_init_below root) 172 (fun _ => []).
Proof.
  intros Hr. unfold structure_init_below. eapply builds_eq.
  - builds_step.
    eapply builds_seq; [apply builds_root_files; builds_elem|].
    eapply builds_seq; [apply builds_root_files2; builds_elem|].
    eapply builds_seq; [apply builds_root_dirs; builds_elem|].
    eapply builds_seq; [apply builds_root_net; builds_elem|].
    eapply builds_bind; [apply builds_process_dirs; builds_elem|].
    intros [[[p f] t] k]. cbn [app].
    eapply builds_seq; [apply builds_process_files; builds_elem|].
    apply builds_thread_fd_files; builds_elem.
  - reflexivity.
Qed.

(** The root directory on an empty store. *)
Lemma root_node_inv s :
  ss_heap s = ∅ -> 1 < next_node_id s < 65536 ->
  let s1 := snd (add_node None "/" PFSroot PROCFS_ROOT_NODE_BASE_ID 0 0 None None s) in
  layout_inv s1 /\ is_Some (snode_at s1 (ss_alloc s)) /\ next_node_id s1 = next_node_id s.
Proof.
  intros Hh Hn s1.
  assert (W : structure_wf s) by (split; unfold snode_at; rewrite Hh; intros *; rewrite lookup_empty; done).
  pose proof (add_node_heap None "/" PFSroot PROCFS_ROOT_NODE_BASE_ID 0 0 None None s W I) as (_ & El & _).
  pose proof (fun k n => add_node_inv None "/" PFSroot PROCFS_ROOT_NODE_BASE_ID 0 0 None None s k n W I) as Inv.
  split_and!; [|by eexists|done].
  split; [|intros l n E|cbn; lia].
  - apply add_node_wf; [done..|]. intros l n. unfold snode_at. by rewrite Hh, lookup_empty.
  - apply Inv in E as [(_ & _ & _ & -> & _)|(_ & n0 & E & _)];
      [cbn; unfold PROCFS_ROOT_NODE_BASE_ID; lia|].
    revert E. unfold snode_at. by rewrite Hh, lookup_empty.
Qed.

(** The dot entries of the root, the part of its [add_directory] after the node. *)
Definition root_dots (root : sloc) : st sstate sloc :=
  add_node_next root "." PFSdirthis 0 0 None None ;;;
  add_node_next root ".." PFSdirparent 0 0 None None ;;;
  st_ret root.

Lemma builds_root_dots root : builds [root] (root_dots root) 2 (fun l => [root]).
Proof. unfold root_dots. eapply builds_eq; [repeat builds_step; done | reflexivity]. Qed.

Lemma root_directory_eq {A} (below : sloc -> st sstate A) s :
  let '(root, s1) := add_node None "/" PFSroot PROCFS_ROOT_NODE_BASE_ID 0 0 None None s in
  (root <-- add_directory None "/" PFSroot PROCFS_ROOT_NODE_BASE_ID 0 false None None ;;
   set_root (Some root) ;;; below root) s
  = (let '(_, s2) := root_dots root s1 in
     below root (Sstate (ss_heap s2) (ss_alloc s2) (next_node_id s2) (Some root) (ss_log s2))).
Proof. reflexivity. Qed.

Lemma structure_init_spec s :
  ss_heap s = ∅ -> 1 < next_node_id s -> next_node_id s + 174 < 65536 ->
  layout_inv (snd (structure_init_body s))
  /\ next_node_id (snd (structure_init_body s)) = next_node_id s + 174
  /\ root_node (snd (structure_init_body s)) = Some (ss_alloc s).
Proof.
  intros Hh Hn Hk. destruct (root_node_inv s Hh ltac:(lia)) as (I1 & V1 & N1).
  unfold structure_init_body. pose proof (root_directory_eq structure_init_below s) as E.
  destruct (add_node None "/" PFSroot PROCFS_ROOT_NODE_BASE_ID 0 0 None None s) as [root s1] eqn:E1.
  assert (Er : root = ss_alloc s) by (unfold add_node in E1; by injection E1).
  cbn [snd] in *. rewrite E. rewrite <- Er in *. clear E E1.
  pose proof (builds_root_dots root s1 I1 ltac:(by constructor) ltac:(lia)) as B.
  destruct (root_dots root s1) as [r s2]. destruct B as (I2 & N2 & _ & _ & V2).
  set (s3 := Sstate (ss_heap s2) (ss_alloc s2) (next_node_id s2) (Some root) (ss_log s2)).
  assert (I3 : layout_inv s3) by (destruct I2 as [[] ? ?]; split; [split|..]; assumption).
  pose proof (builds_below [root] root ltac:(constructor) s3 I3 V2 ltac:(cbn; lia)) as B3.
  destruct (structure_init_below root s3) as [u s4]. destruct B3 as (I4 & N4 & R4 & _ & _).
  split_and!; [done|cbn in *; lia|done].
Qed.

(** A decidable check of every node, as a statement about each of them. *)
Lemma snode_forall (P : sloc -> pfssnode -> Prop) `{forall l n, Decision (P l n)} s :
  bool_decide (map_Forall P (ss_heap s)) = true ->
  forall l n, snode_at s l = Some n -> P l n.
Proof. intros HP%bool_decide_eq_true l n E. exact (map_Forall_lookup_1 _ _ _ _ HP E). Qed.

(** ** Properties *)

(** The layout of a first mount: 175 nodes, no name truncated, sibling
    names distinct, the root the only node of type PFSroot (so the entry that
    [procfs_vnop_readdir] cannot skip never occurs), and the entries that
    expand to processes, threads or descriptors last in their parent's child
    list. *)
Theorem first_structure_layout :
  size (ss_heap first_structure) = 175%nat /\ ss_log first_structure = []
  /\ root_node first_structure = Some 1%positive
  /\ forall l n, snode_at first_structure l = Some n -> layout_ok first_structure l n.
Proof.
  split_and!; [reflexivity..|].
  apply (snode_forall (layout_ok first_structure)). vm_compute. reflexivity.
Qed.

(** C25. [procfs_structure_init] on an empty store, at any mount as long as the
    16-bit id counter does not wrap, builds a well-formed layout (parent and
    child links agree, no duplicate children, unique base ids, bounded names,
    process and thread flags inherited), takes exactly 174 ids, and points
    [root_node] at the first node it allocated. *)
Theorem structure_init_wf s :
  root_node s = None -> ss_heap s = ∅ ->
  1 < next_node_id s -> next_node_id s + 174 < 65536 ->
  structure_wf (snd (procfs_structure_init s))
  /\ next_node_id (snd (procfs_structure_init s)) = next_node_id s + 174
  /\ root_node (snd (procfs_structure_init s)) = Some (ss_alloc s).
Proof.
  intros Hr Hh H1 H2. unfold procfs_structure_init. rewrite Hr.
  destruct (structure_init_spec s Hh H1 H2) as (I & N & R). exact (conj (li_wf _ I) (conj N R)).
Qed.

Lemma structure_init_wf_witness :
  structure_wf (snd (procfs_structure_init sstate_boot))
  /\ next_node_id (snd (procfs_structure_init sstate_boot)) = next_node_id sstate_boot + 174
  /\ root_node (snd (procfs_structure_init sstate_boot)) = Some (ss_alloc sstate_boot).
Proof. exact (structure_init_wf sstate_boot eq_refl eq_refl eq_refl eq_refl). Defined.

(** Unmounting after a first mount releases every node, in an order that
    never touches a freed one, and a new mount starts from an empty store
    with the id counter where the last mount left it. *)
Theorem structure_free_all :
  option_map (fun s => (bool_decide (ss_heap s = ∅), root_node s, next_node_id s))
    (procfs_structure_free first_structure) = Some (true, None, 176).
Proof. vm_compute. reflexivity. Qed.

(** The id counter is never reset: the 375th remount still has unique base
    ids, in the 376th the counter has wrapped and the entry ".." of one
    directory has the base id of the root node. *)
Theorem node_ids_wrap :
  let s375 := Nat.iter 375 remount first_structure in
  let s376 := remount s375 in
  (bool_decide (NoDup ((fun x => psn_base_node_id x.2) <$> map_to_list (ss_heap s375))),
   (fun n => (psn_name n, psn_base_node_id n)) <$> (root_node s376 ≫= snode_at s376),
   (fun n => (psn_name n, psn_base_node_id n)) <$> snode_at s376 65913)
  = (true, Some ("/"%string, PROCFS_ROOT_NODE_BASE_ID), Some (".."%string, PROCFS_ROOT_NODE_BASE_ID)).
Proof. vm_compute. reflexivity. Qed.
