(* ===== verification/VnodeLayer.v ===== *)
(** * The kernel's vnode layer, as the node cache sees it

    The vnode KPI (vnode_create, vnode_getwithvid, vnode_vid, vnode_put,
    vnode_addfsref, ...) belongs to the kernel and not to procfs.  It is an
    interface here: the operations are the members of [VnodeLayer], the
    documented behaviour procfs relies on the members of [VnodeLaws].  The
    laws speak about the observable state [vview] of each vnode.  [Vtable]
    is a concrete instance, which shows the laws can hold together and lets
    executions be computed.

    The identity of a vnode (vnode_vid) only grows in the laws.  The kernel keeps it
    in a uint32_t, as procfs does (procfs_node.c:231), so a vnode that is reclaimed
    2^32 times while one call holds its old identity is outside the model: the laws
    say that an identity is not used again, which is what vnode_getwithvid is for. *)
From S2P Require Import Prelude Kernel.
From Stdlib Require Import ZArith Lia.
From stdpp Require Import base list numbers gmap sets.
Open Scope Z_scope.

(** Thread ids, addresses of [pfsnode] structures, and [vnode_t] pointers. *)
Abbreviation tid := positive.
Abbreviation nloc := positive.
Abbreviation vptr := positive.

(** Life cycle of a vnode: free (or never used), in use, being reclaimed. *)
Inductive vstate := VSdead | VSalive | VSreclaim.

Record vview := Vview {
  vv_state : vstate;
  vv_vid : Z;                    (* identity, changed when the vnode is reclaimed *)
  vv_fsnode : option nloc;       (* v_data *)
  vv_holders : gset tid          (* the threads that hold an iocount *)
}.

(** [vnode_getwithvid] blocks ([None]) while the vnode is being reclaimed.
    The [Z] argument of [vnode_create] resolves what the caller does not
    control: whether it fails, and which vnode it hands out. *)
Class VnodeLayer (vfs : Type) := {
  vnode_view : vfs -> vptr -> vview;
  vnode_vid : vfs -> vptr -> Z;
  vnode_fsnode : vfs -> vptr -> option nloc;
  vnode_getwithvid : tid -> vptr -> Z -> vfs -> option (Z * vfs);
  vnode_create : tid -> nloc -> Z -> vfs -> (Z + vptr) * vfs;
  vnode_put : tid -> vptr -> vfs -> vfs;
  vnode_addfsref : vptr -> vfs -> vfs;
  vnode_removefsref : vptr -> vfs -> vfs;
  vnode_clearfsnode : vptr -> vfs -> vfs;
  reclaim_begin : vptr -> vfs -> option vfs;   (* before VNOP_RECLAIM *)
  reclaim_finish : vptr -> vfs -> vfs           (* after VNOP_RECLAIM *)
}.

(** Only the view of [v] changed, and it is now [x]. *)
Definition view_set `{VnodeLayer vfs} (s s' : vfs) (v : vptr) (x : vview) : Prop :=
  vnode_view s' v = x /\ forall w, w <> v -> vnode_view s' w = vnode_view s w.

Definition view_same `{VnodeLayer vfs} (s s' : vfs) : Prop :=
  forall w, vnode_view s' w = vnode_view s w.

Class VnodeLaws (vfs : Type) `{VnodeLayer vfs} := {
  vid_law s v : vnode_vid s v = vv_vid (vnode_view s v);
  fsnode_law s v : vnode_fsnode s v = vv_fsnode (vnode_view s v);
  (** An iocount is granted exactly when the vnode is in use under that id. *)
  get_ok s s' t v vid : vnode_getwithvid t v vid s = Some (0, s') ->
    let x := vnode_view s v in
    vv_state x = VSalive /\ vv_vid x = vid
    /\ view_set s s' v (Vview VSalive (vv_vid x) (vv_fsnode x) ({[t]} ∪ vv_holders x));
  get_err s s' t v vid e : vnode_getwithvid t v vid s = Some (e, s') -> e <> 0 ->
    view_same s s' /\ (vv_state (vnode_view s v) = VSalive -> vv_vid (vnode_view s v) <> vid);
  get_blocks s t v vid : vnode_getwithvid t v vid s = None ->
    vv_state (vnode_view s v) = VSreclaim;
  (** A new vnode was not in use; it carries the given fsnode, and its
      creator holds an iocount. *)
  create_ok s s' t p c v : vnode_create t p c s = (inr v, s') ->
    vv_state (vnode_view s v) = VSdead
    /\ exists vid, vv_vid (vnode_view s v) <= vid
       /\ view_set s s' v (Vview VSalive vid (Some p) {[t]});
  create_err s s' t p c e : vnode_create t p c s = (inl e, s') -> e <> 0 /\ view_same s s';
  put_law s t v :
    let x := vnode_view s v in
    view_set s (vnode_put t v s) v
      (Vview (vv_state x) (vv_vid x) (vv_fsnode x) (vv_holders x ∖ {[t]}));
  addfsref_law s v : view_same s (vnode_addfsref v s);
  removefsref_law s v : view_same s (vnode_removefsref v s);
  clearfsnode_law s v :
    let x := vnode_view s v in
    view_set s (vnode_clearfsnode v s) v (Vview (vv_state x) (vv_vid x) None (vv_holders x));
  (** Only a vnode without iocounts is reclaimed. *)
  begin_law s s' v : reclaim_begin v s = Some s' ->
    let x := vnode_view s v in
    vv_state x = VSalive /\ vv_holders x = ∅
    /\ view_set s s' v (Vview VSreclaim (vv_vid x) (vv_fsnode x) ∅);
  (** Its identity changes once it has been reclaimed. *)
  finish_law s v :
    exists vid, vv_vid (vnode_view s v) < vid
      /\ view_set s (reclaim_finish v s) v (Vview VSdead vid None ∅)
}.

(** ** A concrete vnode table *)
Module Vtable.

Record vtable := Vt { vt_map : gmap vptr vview }.

Definition dead : vview := Vview VSdead 0 None ∅.
Definition view (s : vtable) (v : vptr) : vview := default dead (vt_map s !! v).
Definition set (v : vptr) (x : vview) (s : vtable) : vtable := Vt (<[v := x]> (vt_map s)).

Definition getwithvid (t : tid) (v : vptr) (vid : Z) (s : vtable) : option (Z * vtable) :=
  let x := view s v in
  match vv_state x with
  | VSreclaim => None
  | VSdead => Some (ENOENT, s)
  | VSalive =>
      if vv_vid x =? vid
      then Some (0, set v (Vview VSalive (vv_vid x) (vv_fsnode x) ({[t]} ∪ vv_holders x)) s)
      else Some (ENOENT, s)
  end.

(** A positive choice [c] asks for vnode number [c]; anything else, or a
    vnode in use, is the failure to get one. *)
Definition create (t : tid) (p : nloc) (c : Z) (s : vtable) : (Z + vptr) * vtable :=
  match c with
  | Zpos v =>
      match vv_state (view s v) with
      | VSdead => (inr v, set v (Vview VSalive (vv_vid (view s v)) (Some p) {[t]}) s)
      | _ => (inl ENOMEM, s)
      end
  | _ => (inl ENOMEM, s)
  end.

Definition put (t : tid) (v : vptr) (s : vtable) : vtable :=
  let x := view s v in
  set v (Vview (vv_state x) (vv_vid x) (vv_fsnode x) (vv_holders x ∖ {[t]})) s.

Definition clearfsnode (v : vptr) (s : vtable) : vtable :=
  let x := view s v in set v (Vview (vv_state x) (vv_vid x) None (vv_holders x)) s.

Definition begin_reclaim (v : vptr) (s : vtable) : option vtable :=
  let x := view s v in
  match vv_state x with
  | VSalive => if decide (vv_holders x = ∅)
               then Some (set v (Vview VSreclaim (vv_vid x) (vv_fsnode x) ∅) s)
               else None
  | _ => None
  end.

Definition finish_reclaim (v : vptr) (s : vtable) : vtable :=
  set v (Vview VSdead (vv_vid (view s v) + 1) None ∅) s.

#[export] Instance vtable_layer : VnodeLayer vtable := {
  vnode_view := view;
  vnode_vid s v := vv_vid (view s v);
  vnode_fsnode s v := vv_fsnode (view s v);
  vnode_getwithvid := getwithvid;
  vnode_create := create;
  vnode_put := put;
  vnode_addfsref _ s := s;
  vnode_removefsref _ s := s;
  vnode_clearfsnode := clearfsnode;
  reclaim_begin := begin_reclaim;
  reclaim_finish := finish_reclaim
}.

Lemma set_view_set s v x : view_set s (set v x s) v x.
Proof.
  split; [cbn; unfold view, set; cbn; by rewrite lookup_insert_eq|].
  intros w Hw. cbn. unfold view, set. cbn. by rewrite lookup_insert_ne.
Qed.

#[export] Instance vtable_laws : VnodeLaws vtable.
Proof.
  split; try done; cbn -[set view]; unfold getwithvid, create, put, clearfsnode, begin_reclaim,
    finish_reclaim in *.
  - intros s s' t v vid. destruct (vv_state (view s v)); try done.
    destruct (Z.eqb_spec (vv_vid (view s v)) vid) as [E|]; [|done].
    intros [= <-]. split_and!; [done..|]. apply set_view_set.
  - intros s s' t v vid e. destruct (vv_state (view s v)); [|destruct (Z.eqb_spec (vv_vid (view s v)) vid)|];
      intros [= <- <-]; done.
  - intros s t v vid. destruct (vv_state (view s v)); [done| |done].
    by destruct (vv_vid (view s v) =? vid).
  - intros s s' t p c v. destruct c as [|w|]; try done.
    destruct (vv_state (view s w)) eqn:E; try done. intros [= <- <-]. split; [done|].
    exists (vv_vid (view s w)). split; [lia|apply set_view_set].
  - intros s s' t p c e. destruct c as [|w|]; [|destruct (vv_state (view s w))|]; by intros [= <- <-].
  - intros. apply set_view_set.
  - intros. apply set_view_set.
  - intros s s' v. destruct (vv_state (view s v)) eqn:E; try done. case_decide; [|done].
    intros [= <-]. split_and!; [done..|]. apply set_view_set.
  - intros s v. exists (vv_vid (view s v) + 1). split; [lia|apply set_view_set].
Qed.

End Vtable.
