(* ===== verification/NodeCache.v ===== *)
(** * The node cache (kext/procfs_node.c and procfs_vnop_reclaim)

    [procfsnode_find] is called by many threads at once and drops the hash
    lock to allocate memory, to sleep, to create a vnode and to take a
    reference on one.  It is modelled as a step function over a shared state:
    each thread has a program counter [pc], with a point for every place where
    the code blocks, takes or drops the lock, or calls the kernel.  The labels
    of the steps carry what the code does not decide.  An access to memory that
    is not allocated (or not initialised) leads to [Fault]. *)
From S2P Require Import Prelude Kernel PfsTypes Structure VnodeLayer.
From Stdlib Require Import ZArith Lia.
From stdpp Require Import base list numbers gmap sets.
Open Scope Z_scope.

Record pfsnode := Pfsnode {
  node_vnode : option vptr;
  node_attaching_vnode : bool;
  node_thread_waiting_attach : bool;
  node_mnt_id : Z;                 (* int32_t *)
  node_id : pfsid;
  node_structure_node : sloc
}.

(** ** The hash *)
(** HASH_FOR_MOUNT_AND_ID: the shift is done at [int], the exclusive ors at
    [uint64_t] because of the object id, and the result is cut to [int]. *)
Definition HASH_FOR_MOUNT_AND_ID (mount_id : Z) (id : pfsid) : Z :=
  i32 (Z.lxor (Z.lxor (u64 (Z.lxor (i32 (Z.shiftl mount_id 16)) (nodeid_pid id)))
                 (nodeid_objectid id)) (nodeid_base_id id)).

(** PROCFS_NODE_HASH_TO_BUCKET_HEADER: [hash & mask] at [u_long]. *)
Definition bucket_index (mask hash : Z) : Z := Z.land (u64 hash) mask.

(** ** Threads *)
(** The arguments of one call. *)
Record fargs := Fargs { fa_mnt : Z; fa_id : pfsid; fa_snode : sloc }.

(** [new] is the local variable [new_pfsnode]; [p] the target node. *)
Inductive pc :=
| FLock (a : fargs) (new : option nloc)        (* before a lck_mtx_lock that leads to the loop head *)
| FTop (a : fargs) (new : option nloc)         (* loop head, lock held *)
| FAlloc (a : fargs)                           (* in OSMalloc *)
| FSleep (a : fargs) (new : option nloc) (p : nloc)  (* in msleep on p *)
| FGet (a : fargs) (new : option nloc) (p : nloc) (v : vptr) (vid : Z)  (* vnode_getwithvid *)
| FCreate (a : fargs) (new : option nloc) (p : nloc)  (* in create_vnode_func *)
| FRelock (a : fargs) (new : option nloc) (p : nloc) (error : Z) (v : option vptr)
| FAttach (a : fargs) (new : option nloc) (p : nloc) (error : Z) (v : option vptr) (* lock held *)
| FLeave (a : fargs) (new target : option nloc) (error : Z) (v : option vptr)  (* after the loop, unlocked *)
| FDone (a : fargs) (error : Z) (target : option nloc) (v : option vptr)       (* returned *)
| RStart (v : vptr)                            (* procfs_vnop_reclaim entered *)
| RLock (v : vptr) (p : nloc)                  (* before its lck_mtx_lock *)
| RFree (v : vptr) (p : nloc)                  (* lock held *)
| RClear (v : vptr)                            (* hash lock released *)
| Fault.

Record ncache (vfs : Type) := Ncache {
  hash_mutex : option tid;                (* owner of pfsnode_hash_mutex *)
  heap : gmap nloc (option pfsnode);      (* allocated nodes; [None]: not initialised *)
  buckets : gmap Z (list nloc);           (* pfsnode_hash_buckets *)
  kern : vfs;
  threads : gmap tid pc
}.
Arguments Ncache {vfs}.
Arguments hash_mutex {vfs}.
Arguments heap {vfs}.
Arguments buckets {vfs}.
Arguments kern {vfs}.
Arguments threads {vfs}.

(** Steps: a call and its return, a reclaim started by the kernel, the result
    of an allocation, of the vnode creation, and every other step. *)
Inductive nlabel :=
| LCall (t : tid) (a : fargs)
| LReturn (t : tid)
| LReclaim (t : tid) (v : vptr)
| LAlloc (t : tid) (r : option nloc)
| LCreate (t : tid) (choice : Z)
| LRun (t : tid).

(** ** The node table *)
Definition node_matches (a : fargs) (n : pfsnode) : bool :=
  (node_mnt_id n =? fa_mnt a) && pfsid_eqb (node_id n) (fa_id a).

(** LIST_FOREACH over one bucket.  [None]: a dangling or uninitialised entry
    was read; otherwise the first match. *)
Fixpoint bucket_find (h : gmap nloc (option pfsnode)) (a : fargs) (ls : list nloc)
  : option (option (nloc * pfsnode)) :=
  match ls with
  | [] => Some None
  | p :: ls' =>
      match h !! p with
      | Some (Some n) => if node_matches a n then Some (Some (p, n)) else bucket_find h a ls'
      | _ => None
      end
  end.

(** LIST_REMOVE: unlinks the element from the list it is in. *)
Definition list_remove (p : nloc) (bs : gmap Z (list nloc)) : gmap Z (list nloc) :=
  List.filter (fun q => negb (Pos.eqb q p)) <$> bs.

(** [memset] and the three assignments for a node that is put to use. *)
Definition init_node (a : fargs) : pfsnode :=
  Pfsnode None false false (fa_mnt a) (fa_id a) (fa_snode a).

Definition set_waiting (b : bool) (n : pfsnode) : pfsnode :=
  Pfsnode (node_vnode n) (node_attaching_vnode n) b (node_mnt_id n) (node_id n)
    (node_structure_node n).
Definition set_attaching (b : bool) (n : pfsnode) : pfsnode :=
  Pfsnode (node_vnode n) b (node_thread_waiting_attach n) (node_mnt_id n) (node_id n)
    (node_structure_node n).
Definition set_vnode (v : option vptr) (n : pfsnode) : pfsnode :=
  Pfsnode v (node_attaching_vnode n) (node_thread_waiting_attach n) (node_mnt_id n) (node_id n)
    (node_structure_node n).

(** [wakeup(p)]: every thread asleep on [p] goes on to take the lock again. *)
Definition wake (p : nloc) (k : pc) : pc :=
  match k with
  | FSleep a new q => if Pos.eqb q p then FLock a new else k
  | _ => k
  end.

Section Steps.
Context {vfs : Type} `{VnodeLayer vfs}.
Variable mask : Z.    (* pfsnode_hash_to_bucket_mask *)

Definition bucket_of (a : fargs) : Z :=
  bucket_index mask (HASH_FOR_MOUNT_AND_ID (fa_mnt a) (fa_id a)).

Definition goto (t : tid) (k : pc) (s : ncache vfs) : ncache vfs :=
  Ncache (hash_mutex s) (heap s) (buckets s) (kern s) (<[t := k]> (threads s)).

Definition lck_mtx_lock (t : tid) (k : pc) (s : ncache vfs) : option (ncache vfs) :=
  match hash_mutex s with
  | None => Some (Ncache (Some t) (heap s) (buckets s) (kern s) (<[t := k]> (threads s)))
  | Some _ => None
  end.

Definition unlock (s : ncache vfs) : ncache vfs :=
  Ncache None (heap s) (buckets s) (kern s) (threads s).

Definition with_heap (h : gmap nloc (option pfsnode)) (s : ncache vfs) : ncache vfs :=
  Ncache (hash_mutex s) h (buckets s) (kern s) (threads s).
Definition with_buckets (b : gmap Z (list nloc)) (s : ncache vfs) : ncache vfs :=
  Ncache (hash_mutex s) (heap s) b (kern s) (threads s).
Definition with_kern (k : vfs) (s : ncache vfs) : ncache vfs :=
  Ncache (hash_mutex s) (heap s) (buckets s) k (threads s).
Definition with_threads (th : gmap tid pc) (s : ncache vfs) : ncache vfs :=
  Ncache (hash_mutex s) (heap s) (buckets s) (kern s) th.

Definition bucket (s : ncache vfs) (b : Z) : list nloc := default [] (buckets s !! b).

(** [procfsnode_free_node]. *)
Definition procfsnode_free_node (p : nloc) (s : ncache vfs) : ncache vfs :=
  with_heap (delete p (heap s)) (with_buckets (list_remove p (buckets s)) s).

(** The second half of the loop body: target [p] found or just inserted, lock
    held.  Sleep, or drop the lock to reference the vnode, or to create it. *)
Definition with_target (t : tid) (a : fargs) (new : option nloc) (p : nloc) (n : pfsnode)
  (s : ncache vfs) : ncache vfs :=
  if node_attaching_vnode n then
    goto t (FSleep a new p)
      (unlock (with_heap (<[p := Some (set_waiting true n)]> (heap s)) s))
  else
    match node_vnode n with
    | Some v => goto t (FGet a new p v (vnode_vid (kern s) v)) (unlock s)
    | None =>
        goto t (FCreate a new p)
          (unlock (with_heap (<[p := Some (set_attaching true n)]> (heap s)) s))
    end.

(** The loop body from its head. *)
Definition loop_head (t : tid) (a : fargs) (new : option nloc) (s : ncache vfs) : ncache vfs :=
  match bucket_find (heap s) a (bucket s (bucket_of a)) with
  | None => goto t Fault s
  | Some (Some (p, n)) => with_target t a new p n s
  | Some None =>
      match new with
      | None => goto t (FAlloc a) (unlock s)
      | Some p =>
          match heap s !! p with
          | None => goto t Fault s
          | Some _ =>
              let s1 := with_heap (<[p := Some (init_node a)]> (heap s)) s in
              let s2 := with_buckets (<[bucket_of a := p :: bucket s (bucket_of a)]> (buckets s)) s1 in
              with_target t a new p (init_node a) s2
          end
      end
  end.

(** After [create_vnode_func], lock held again. *)
Definition attach (t : tid) (a : fargs) (new : option nloc) (p : nloc) (error : Z)
  (v : option vptr) (s : ncache vfs) : ncache vfs :=
  match heap s !! p with
  | Some (Some n) =>
      let n1 := set_attaching false n in
      let waiting := node_thread_waiting_attach n1 in
      let n2 := if waiting then set_waiting false n1 else n1 in
      let s1 := with_threads (if waiting then wake p <$> threads s else threads s)
                  (with_heap (<[p := Some n2]> (heap s)) s) in
      if error =? 0 then
        let s2 := with_heap (<[p := Some (set_vnode v n2)]> (heap s1)) s1 in
        let s3 := match v with
                  | Some v' => with_kern (vnode_addfsref v' (kern s2)) s2
                  | None => s2
                  end in
        goto t (FLeave a new (Some p) 0 v) (unlock s3)
      else goto t (FLeave a None None error v) (unlock (procfsnode_free_node p s1))
  | _ => goto t Fault s
  end.

(** After the loop: free the node that was allocated and not used. *)
Definition leave (t : tid) (a : fargs) (new target : option nloc) (error : Z)
  (v : option vptr) (s : ncache vfs) : ncache vfs :=
  let result := FDone a error (if error =? 0 then target else None)
                  (if error =? 0 then v else None) in
  match new with
  | Some n =>
      if decide (target = Some n) then goto t result s
      else match heap s !! n with
           | Some _ => goto t result (with_heap (delete n (heap s)) s)
           | None => goto t Fault s
           end
  | None => goto t result s
  end.

(** The steps a thread takes by itself. *)
Definition run_thread (t : tid) (s : ncache vfs) : option (ncache vfs) :=
  match threads s !! t with
  | Some (FLock a new) => lck_mtx_lock t (FTop a new) s
  | Some (FTop a new) => Some (loop_head t a new s)
  | Some (FGet a new p v vid) =>
      match vnode_getwithvid t v vid (kern s) with
      | None => None
      | Some (error, k) =>
          Some (goto t (if error =? 0 then FLeave a new (Some p) 0 (Some v) else FLock a None)
                  (with_kern k s))
      end
  | Some (FRelock a new p error v) => lck_mtx_lock t (FAttach a new p error v) s
  | Some (FAttach a new p error v) => Some (attach t a new p error v s)
  | Some (FLeave a new target error v) => Some (leave t a new target error v s)
  | Some (RStart v) =>
      match vnode_fsnode (kern s) v with
      | Some p => Some (goto t (RLock v p) s)
      | None => Some (goto t (RClear v) s)
      end
  | Some (RLock v p) => lck_mtx_lock t (RFree v p) s
  | Some (RFree v p) =>
      match heap s !! p with
      | Some (Some _) => Some (goto t (RClear v) (unlock (procfsnode_free_node p s)))
      | _ => Some (goto t Fault s)
      end
  | Some (RClear v) =>
      let k := reclaim_finish v (vnode_clearfsnode v (vnode_removefsref v (kern s))) in
      Some (Ncache (hash_mutex s) (heap s) (buckets s) k (delete t (threads s)))
  | _ => None
  end.

Definition nstep (l : nlabel) (s : ncache vfs) : option (ncache vfs) :=
  match l with
  | LCall t a =>
      match threads s !! t with
      | None => Some (goto t (FLock a None) s)
      | Some _ => None
      end
  | LReturn t =>
      match threads s !! t with
      | Some (FDone a error target v) =>
          let k := match v with Some v' => vnode_put t v' (kern s) | None => kern s end in
          Some (Ncache (hash_mutex s) (heap s) (buckets s) k (delete t (threads s)))
      | _ => None
      end
  | LReclaim t v =>
      match threads s !! t, reclaim_begin v (kern s) with
      | None, Some k => Some (goto t (RStart v) (with_kern k s))
      | _, _ => None
      end
  | LAlloc t r =>
      match threads s !! t with
      | Some (FAlloc a) =>
          match r with
          | None => Some (goto t (FLeave a None None ENOMEM None) s)
          | Some p =>
              match heap s !! p with
              | None => Some (goto t (FLock a (Some p)) (with_heap (<[p := None]> (heap s)) s))
              | Some _ => None
              end
          end
      | _ => None
      end
  | LCreate t choice =>
      match threads s !! t with
      | Some (FCreate a new p) =>
          match heap s !! p with
          | Some (Some _) =>
              match vnode_create t p choice (kern s) with
              | (inr v, k) => Some (goto t (FRelock a new p 0 (Some v)) (with_kern k s))
              | (inl error, k) => Some (goto t (FRelock a new p error None) (with_kern k s))
              end
          | _ => Some (goto t Fault s)
          end
      | _ => None
      end
  | LRun t => run_thread t s
  end.

(** Nothing cached, no call in progress. *)
Definition ncache_init (k : vfs) : ncache vfs := Ncache None ∅ ∅ k ∅.

End Steps.
