(* ===== verification/NodeCacheInv.v ===== *)
(** * Invariant of the node cache

    The invariant of [nstep] and what it gives: memory safety, mutual
    exclusion, one node per (mount, id), correct results, no lost wakeup and
    freedom from deadlock.  Everything is proved against the vnode layer's
    laws, for any number of threads and any interleaving. *)
From S2P Require Import Prelude Kernel PfsTypes Structure VnodeLayer NodeCache.
From Stdlib Require Import ZArith Lia.
From stdpp Require Import base list numbers gmap sets.
Open Scope Z_scope.

(** ** Resources a thread holds *)
Inductive res :=
| RMutex             (* the hash lock *)
| ROwn (n : nloc)    (* an allocated node not yet in the table *)
| RAtt (p : nloc)    (* the right to attach a vnode to a node *)
| RNew (v : vptr)    (* a created vnode not yet linked from its node *)
| RRec (v : vptr).   (* the reclaim of a vnode *)

#[export] Instance res_eq_dec : EqDecision res.
Proof. solve_decision. Defined.

Definition own_res (new target : option nloc) : list res :=
  match new with
  | Some n => if decide (target = Some n) then [] else [ROwn n]
  | None => []
  end.

Definition new_res (v : option vptr) : list res :=
  match v with Some v' => [RNew v'] | None => [] end.

Definition claims (k : pc) : list res :=
  match k with
  | FLock _ new | FSleep _ new _ | FGet _ new _ _ _ => own_res new None
  | FTop _ new => RMutex :: own_res new None
  | FAlloc _ | FDone _ _ _ _ | Fault => []
  | FCreate _ new p => RAtt p :: own_res new (Some p)
  | FRelock _ new p _ v => RAtt p :: new_res v ++ own_res new (Some p)
  | FAttach _ new p _ v => RMutex :: RAtt p :: new_res v ++ own_res new (Some p)
  | FLeave _ new target _ _ => own_res new target
  | RStart v | RLock v _ | RClear v => [RRec v]
  | RFree v _ => [RMutex; RRec v]
  end.

Definition has (th : gmap tid pc) (r : res) : Prop :=
  exists t k, th !! t = Some k /\ r ∈ claims k.

(** The resources of thread [t], none if it is not in a call. *)
Definition held (th : gmap tid pc) (t : tid) : list res :=
  match th !! t with Some k => claims k | None => [] end.

(** ** Facts about the node heap *)
Abbreviation nheap := (gmap nloc (option pfsnode)).

Definition nkey (n : pfsnode) : Z * pfsid := (node_mnt_id n, node_id n).
Definition akey (a : fargs) : Z * pfsid := (fa_mnt a, fa_id a).

Definition key_at (h : nheap) (p : nloc) : option (Z * pfsid) :=
  match h !! p with Some (Some n) => Some (nkey n) | _ => None end.

Definition attaching (h : nheap) (p : nloc) (a : fargs) : Prop :=
  exists n, h !! p = Some (Some n) /\ node_attaching_vnode n = true
            /\ node_vnode n = None /\ nkey n = akey a.

Definition awaited (h : nheap) (p : nloc) : Prop :=
  exists n, h !! p = Some (Some n) /\ node_attaching_vnode n = true
            /\ node_thread_waiting_attach n = true.

(** Node [p], with content [n], is linked to vnode [v]. *)
Definition linked (h : nheap) (p : nloc) (v : vptr) (n : pfsnode) : Prop :=
  h !! p = Some (Some n) /\ node_attaching_vnode n = false /\ node_vnode n = Some v.

(** Vnode [v] is in use for node [p], referenced by thread [t]. *)
Definition referenced (w : vptr -> vview) (t : tid) (p : nloc) (v : vptr) : Prop :=
  vv_state (w v) = VSalive /\ vv_fsnode (w v) = Some p /\ t ∈ vv_holders (w v).

(** What a successful call returns. *)
Definition result_ok (h : nheap) (w : vptr -> vview) (t : tid) (a : fargs)
  (target : option nloc) (v : option vptr) : Prop :=
  exists p v' n, target = Some p /\ v = Some v' /\ referenced w t p v'
                 /\ linked h p v' n /\ nkey n = akey a.

(** What holds of a thread at each point. *)
Definition pc_ok (h : nheap) (w : vptr -> vview) (t : tid) (k : pc) : Prop :=
  match k with
  | FLock _ _ | FTop _ _ | FAlloc _ => True
  | FSleep _ _ p => awaited h p
  | FGet a _ p v vid =>
      vid <= vv_vid (w v)
      /\ (vv_vid (w v) = vid ->
          vv_state (w v) <> VSdead
          /\ (vv_state (w v) = VSalive -> vv_fsnode (w v) = Some p /\ exists n, linked h p v n /\ nkey n = akey a))
  | FCreate a _ p => attaching h p a
  | FRelock a _ p e v | FAttach a _ p e v =>
      attaching h p a
      /\ match v with Some v' => e = 0 /\ referenced w t p v' | None => e <> 0 end
  | FLeave a _ target e v | FDone a e target v => e = 0 -> result_ok h w t a target v
  | RStart v => vv_state (w v) = VSreclaim
                /\ exists p n, vv_fsnode (w v) = Some p /\ linked h p v n
  | RLock v p | RFree v p => vv_state (w v) = VSreclaim /\ exists n, linked h p v n
  | RClear v => vv_state (w v) = VSreclaim /\ forall p n, ~ linked h p v n
  | Fault => False
  end.

Definition thread_ok (h : nheap) (w : vptr -> vview) (t : tid) (k : pc) : Prop :=
  pc_ok h w t k /\ forall n, ROwn n ∈ claims k -> h !! n = Some None.

Definition node_ok (w : vptr -> vview) (th : gmap tid pc) (p : nloc) (n : pfsnode) : Prop :=
  if node_attaching_vnode n then node_vnode n = None /\ has th (RAtt p)
  else exists v, node_vnode n = Some v /\ vv_state (w v) <> VSdead /\ vv_fsnode (w v) = Some p.

(** ** The table *)
Definition bkt (b : gmap Z (list nloc)) (i : Z) : list nloc := default [] (b !! i).

Record table_inv (mask : Z) (kat : nloc -> option (Z * pfsid)) (b : gmap Z (list nloc)) : Prop := {
  tb_in i p : p ∈ bkt b i -> exists key, kat p = Some key
      /\ i = bucket_index mask (HASH_FOR_MOUNT_AND_ID key.1 key.2);
  tb_hashed p key : kat p = Some key ->
      p ∈ bkt b (bucket_index mask (HASH_FOR_MOUNT_AND_ID key.1 key.2));
  tb_unique p q key : kat p = Some key -> kat q = Some key -> p = q
}.

Definition lock_ok (m : option tid) (th : gmap tid pc) : Prop :=
  (forall t k, th !! t = Some k -> (RMutex ∈ claims k <-> m = Some t))
  /\ (forall t, m = Some t -> is_Some (th !! t)).

Definition exclusive (th : gmap tid pc) : Prop :=
  forall t1 t2 k1 k2 r, th !! t1 = Some k1 -> th !! t2 = Some k2 ->
    r ∈ claims k1 -> r ∈ claims k2 -> t1 = t2.

Section Invariant.
Context {vfs : Type} `{VnodeLaws vfs}.
Variable mask : Z.

Record ninv (s : ncache vfs) : Prop := {
  i_lock : lock_ok (hash_mutex s) (threads s);
  i_excl : exclusive (threads s);
  i_thread t k : threads s !! t = Some k -> thread_ok (heap s) (vnode_view (kern s)) t k;
  i_table : table_inv mask (key_at (heap s)) (buckets s);
  i_node p n : heap s !! p = Some (Some n) -> node_ok (vnode_view (kern s)) (threads s) p n;
  i_alive v : vv_state (vnode_view (kern s) v) = VSalive ->
    (exists p n, vv_fsnode (vnode_view (kern s) v) = Some p /\ linked (heap s) p v n)
    \/ has (threads s) (RNew v);
  i_reclaim v : vv_state (vnode_view (kern s) v) = VSreclaim -> has (threads s) (RRec v)
}.

(** ** Lemmas on resources *)
Lemma elem_own_res n new target : ROwn n ∈ own_res new target <-> new = Some n /\ target <> Some n.
Proof.
  unfold own_res. destruct new as [m|]; [|set_solver].
  destruct (decide (target = Some m)); set_solver.
Qed.

Lemma not_own_res r new target : r ∈ own_res new target -> exists n, r = ROwn n.
Proof. unfold own_res. destruct new; [case_decide|]; set_solver. Qed.

Lemma wake_claims p k : claims (wake p k) = claims k.
Proof. destruct k; try done. cbn. by destruct (Pos.eqb _ _). Qed.

Lemma has_upd (f : pc -> pc) th t k' r :
  (forall k, claims (f k) = claims k) ->
  has th r -> (r ∈ held th t -> r ∈ claims k') -> has (<[t := k']> (f <$> th)) r.
Proof.
  intros Hf (t0 & k0 & E & Hr) Hk. destruct (decide (t0 = t)) as [->|Hne].
  - exists t, k'. rewrite lookup_insert_eq. split; [done|]. apply Hk. unfold held. by rewrite E.
  - exists t0, (f k0). rewrite lookup_insert_ne, lookup_fmap, E by done. by rewrite Hf.
Qed.

Lemma has_new th t k r : r ∈ claims k -> has (<[t := k]> th) r.
Proof. intros Hr. exists t, k. by rewrite lookup_insert_eq. Qed.

Lemma has_delete th t r : has th r -> r ∉ held th t -> has (delete t th) r.
Proof.
  intros (t0 & k0 & E & Hr) Hk. destruct (decide (t0 = t)) as [->|Hne].
  - destruct Hk. unfold held. by rewrite E.
  - exists t0, k0. by rewrite lookup_delete_ne.
Qed.

Lemma held_excl th t t' k r :
  exclusive th -> th !! t' = Some k -> t' <> t -> r ∈ held th t -> r ∉ claims k.
Proof.
  unfold held. intros He E Hne Hr Hk. destruct (th !! t) as [k0|] eqn:E0; [|set_solver].
  apply Hne. by eapply He.
Qed.

(** ** How the lock moves *)
Inductive lock_move (m : option tid) (th : gmap tid pc) (t : tid) (k' : pc) : option tid -> Prop :=
| lm_same : (RMutex ∈ held th t <-> RMutex ∈ claims k') -> lock_move m th t k' m
| lm_take : m = None -> RMutex ∈ claims k' -> lock_move m th t k' (Some t)
| lm_drop : RMutex ∈ held th t -> RMutex ∉ claims k' -> lock_move m th t k' None.

Lemma lock_held m th t : lock_ok m th -> RMutex ∈ held th t -> m = Some t.
Proof.
  unfold held. intros [Hl _] Hh. destruct (th !! t) as [k|] eqn:E; [|set_solver].
  by apply (Hl t k E).
Qed.

Lemma lock_update (f : pc -> pc) m m' th t k' :
  (forall k, claims (f k) = claims k) ->
  lock_ok m th -> lock_move m th t k' m' -> lock_ok m' (<[t := k']> (f <$> th)).
Proof.
  intros Hf Hl Hm. split.
  - intros t0 k0 E. destruct (decide (t0 = t)) as [->|Hne].
    + rewrite lookup_insert_eq in E. injection E as <-. destruct Hm as [Hs|Hn Hk|Hh Hk].
      * rewrite <- Hs. split; [by apply lock_held|]. intros Em. destruct Hl as [Hl1 Hl2].
        unfold held. destruct (Hl2 t Em) as [k Ek]. rewrite Ek. by apply (Hl1 t k Ek).
      * done.
      * done.
    + rewrite lookup_insert_ne, lookup_fmap in E by done.
      destruct (th !! t0) as [k1|] eqn:E1; [|done]. injection E as <-. rewrite Hf.
      destruct Hl as [Hl1 Hl2]. rewrite (Hl1 _ _ E1). destruct Hm as [Hs|Hn Hk|Hh Hk].
      * done.
      * rewrite Hn. split; [done|]. by intros [= ->].
      * rewrite (lock_held m th t (conj Hl1 Hl2) Hh). split; [|done]. by intros [= ->].
  - intros t0 E. destruct (decide (t0 = t)) as [->|Hne]; [by rewrite lookup_insert_eq|].
    rewrite lookup_insert_ne, lookup_fmap by done. apply fmap_is_Some.
    destruct Hm as [Hs|Hn Hk|Hh Hk]; [|by injection E as ->|done]. by apply Hl.
Qed.

Lemma excl_update (f : pc -> pc) m m' th t k' :
  (forall k, claims (f k) = claims k) ->
  lock_ok m th -> lock_move m th t k' m' -> exclusive th ->
  (forall r, r ∈ claims k' -> r = RMutex \/ r ∈ held th t
     \/ forall t' k, t' <> t -> th !! t' = Some k -> r ∉ claims k) ->
  exclusive (<[t := k']> (f <$> th)).
Proof.
  intros Hf Hl Hm He Hr.
  assert (Hx : forall t0 k0 r, t0 <> t -> th !! t0 = Some k0 -> r ∈ claims k' -> r ∈ claims k0 -> False).
  { intros t0 k0 r Hne E H1 H2. destruct (Hr r H1) as [->|[Hh|Hno]].
    - apply Hl in E. apply E in H2. destruct Hm as [Hs|Hn Hk|Hh Hk].
      + apply Hs in H1. apply (lock_held m th t Hl) in H1. congruence.
      + congruence.
      + done.
    - by apply (held_excl th t t0 k0 r He E Hne).
    - by apply (Hno t0 k0). }
  intros t1 t2 k1 k2 r E1 E2 H1 H2.
  destruct (decide (t1 = t)) as [->|N1], (decide (t2 = t)) as [->|N2]; [done|..].
  - rewrite lookup_insert_eq in E1. injection E1 as <-. rewrite lookup_insert_ne, lookup_fmap in E2 by done.
    destruct (th !! t2) eqn:E; [|done]. injection E2 as <-. rewrite Hf in H2. by destruct (Hx t2 p r).
  - rewrite lookup_insert_eq in E2. injection E2 as <-. rewrite lookup_insert_ne, lookup_fmap in E1 by done.
    destruct (th !! t1) eqn:E; [|done]. injection E1 as <-. rewrite Hf in H1. by destruct (Hx t1 p r).
  - rewrite lookup_insert_ne, lookup_fmap in E1, E2 by done.
    destruct (th !! t1) eqn:F1; [|done]. destruct (th !! t2) eqn:F2; [|done].
    injection E1 as <-. injection E2 as <-. rewrite Hf in H1, H2. by eapply He.
Qed.

(** One step of thread [t] to [k'], with new heap, table and vnode state; the
    other threads may be woken ([f]). *)
Lemma inv_update (f : pc -> pc) s m' h' b' K' t k' :
  (forall k, claims (f k) = claims k) ->
  ninv s ->
  lock_move (hash_mutex s) (threads s) t k' m' ->
  (forall r, r ∈ claims k' -> r = RMutex \/ r ∈ held (threads s) t
     \/ forall t' k, t' <> t -> threads s !! t' = Some k -> r ∉ claims k) ->
  thread_ok h' (vnode_view K') t k' ->
  (forall t' k, t' <> t -> threads s !! t' = Some k ->
     thread_ok (heap s) (vnode_view (kern s)) t' k -> thread_ok h' (vnode_view K') t' (f k)) ->
  table_inv mask (key_at h') b' ->
  let th' := <[t := k']> (f <$> threads s) in
  (forall p n, h' !! p = Some (Some n) -> node_ok (vnode_view K') th' p n) ->
  (forall v, vv_state (vnode_view K' v) = VSalive ->
    (exists p n, vv_fsnode (vnode_view K' v) = Some p /\ linked h' p v n) \/ has th' (RNew v)) ->
  (forall v, vv_state (vnode_view K' v) = VSreclaim -> has th' (RRec v)) ->
  ninv (Ncache m' h' b' K' th').
Proof.
  intros Hf I Hm Hr Ht Ho Htab th' Hn Ha Hc. split; cbn; try done.
  - eapply lock_update; [done|apply I|done].
  - eapply excl_update; [done|apply I|done|apply I|done].
  - intros t0 k0 E. destruct (decide (t0 = t)) as [->|Hne].
    + unfold th' in E. rewrite lookup_insert_eq in E. by injection E as <-.
    + unfold th' in E. rewrite lookup_insert_ne, lookup_fmap in E by done.
      destruct (threads s !! t0) eqn:E0; [|done]. injection E as <-. apply Ho; [done..|]. by apply I.
Qed.

(** ** Frame lemmas for the facts of the other threads *)
(** The heap changed at [l] only. *)
Lemma frame_heap h h' w t k l :
  (forall q, q <> l -> h' !! q = h !! q) ->
  (ROwn l ∈ claims k -> h !! l = Some None -> h' !! l = Some None) ->
  (forall a, RAtt l ∈ claims k -> attaching h l a -> attaching h' l a) ->
  (awaited h l -> (exists a new, k = FSleep a new l) -> awaited h' l) ->
  (forall v n, linked h l v n -> vv_state (w v) = VSalive \/ RRec v ∈ claims k -> linked h' l v n) ->
  (forall v n, linked h' l v n -> vv_state (w v) = VSreclaim -> exists n', linked h l v n') ->
  thread_ok h w t k -> thread_ok h' w t k.
Proof.
  intros Hq Hown Hatt Haw Hlk Hneg [Hpc Ho]. split; cycle 1.
  { intros n Hn. destruct (decide (n = l)) as [->|]; [by apply Hown, Ho|]. rewrite Hq by done. by apply Ho. }
  assert (Hlk' : forall p v n, linked h p v n -> vv_state (w v) = VSalive \/ RRec v ∈ claims k -> linked h' p v n).
  { intros p v n Hl Hc. destruct (decide (p = l)) as [->|]; [by apply Hlk|].
    unfold linked in *. by rewrite Hq. }
  assert (Hatt' : forall p a, RAtt p ∈ claims k -> attaching h p a -> attaching h' p a).
  { intros p a Hc Ha. destruct (decide (p = l)) as [->|]; [by apply Hatt|].
    unfold attaching in *. by rewrite Hq. }
  destruct k; cbn in Hpc |- *; try done.
  - destruct (decide (p = l)) as [->|]; [by apply Haw; eauto|]. unfold awaited in *. by rewrite Hq.
  - destruct Hpc as [Hv Hi]. split; [done|]. intros E. destruct (Hi E) as [Hd Hl]. split; [done|].
    intros Ea. destruct (Hl Ea) as (? & n & Hn & ?). split; [done|]. exists n. split; [|done]. apply Hlk'; auto.
  - apply Hatt'; [cbn; set_solver|done].
  - destruct Hpc. split; [|done]. apply Hatt'; [cbn; set_solver|done].
  - destruct Hpc. split; [|done]. apply Hatt'; [cbn; set_solver|done].
  - intros E. destruct (Hpc E) as (p & v' & n & ? & ? & Hr & Hl & ?). exists p, v', n.
    split_and!; try done. apply Hlk'; [done|]. left. apply Hr.
  - intros E. destruct (Hpc E) as (p & v' & n & ? & ? & Hr & Hl & ?). exists p, v', n.
    split_and!; try done. apply Hlk'; [done|]. left. apply Hr.
  - destruct Hpc as (? & p & n & ? & Hl). split; [done|]. exists p, n. split; [done|].
    apply Hlk'; [done|]. right. cbn. set_solver.
  - destruct Hpc as (? & n & Hl). split; [done|]. exists n. apply Hlk'; [done|]. right. cbn. set_solver.
  - destruct Hpc as (? & n & Hl). split; [done|]. exists n. apply Hlk'; [done|]. right. cbn. set_solver.
  - destruct Hpc as [Hs Hno]. split; [done|]. intros p n Hl. destruct (decide (p = l)) as [->|].
    + destruct (Hneg _ _ Hl Hs) as [n' Hl']. by apply (Hno l n').
    + apply (Hno p n). unfold linked in *. by rewrite <- Hq.
Qed.

(** The view of vnode [v] changed only. *)
Lemma frame_view h w w' t k v :
  (forall u, u <> v -> w' u = w u) ->
  vv_vid (w v) <= vv_vid (w' v) ->
  (vv_vid (w' v) = vv_vid (w v) -> vv_state (w v) <> VSdead ->
     vv_state (w' v) <> VSdead
     /\ (vv_state (w' v) = VSalive -> vv_state (w v) = VSalive /\ vv_fsnode (w' v) = vv_fsnode (w v))) ->
  (forall p, referenced w t p v -> referenced w' t p v) ->
  (RRec v ∈ claims k -> vv_state (w v) = VSreclaim ->
     vv_state (w' v) = VSreclaim /\ vv_fsnode (w' v) = vv_fsnode (w v)) ->
  thread_ok h w t k -> thread_ok h w' t k.
Proof.
  intros Hu Hvid Hget Href Hrec [Hpc Ho]. split; [|done].
  assert (Href' : forall p u, referenced w t p u -> referenced w' t p u).
  { intros p u. destruct (decide (u = v)) as [->|]; [apply Href|]. unfold referenced. by rewrite Hu. }
  assert (Hrec' : forall u, RRec u ∈ claims k -> vv_state (w u) = VSreclaim ->
     vv_state (w' u) = VSreclaim /\ vv_fsnode (w' u) = vv_fsnode (w u)).
  { intros u. destruct (decide (u = v)) as [->|]; [apply Hrec|]. by rewrite Hu. }
  destruct k; cbn in Hpc |- *; try done.
  - destruct Hpc as [Hv Hi]. destruct (decide (v0 = v)) as [->|]; [|by rewrite Hu].
    split; [lia|]. intros E. assert (vv_vid (w v) = vid) as E0 by lia. destruct (Hi E0) as [Hd Hl].
    destruct (Hget ltac:(congruence) Hd) as [Hd' Ha]. split; [done|]. intros Ea.
    destruct (Ha Ea) as [Ea' ->]. by apply Hl.
  - destruct Hpc as [Ha Hv]. split; [done|]. destruct v0; [|done]. destruct Hv. split; [done|]. by apply Href'.
  - destruct Hpc as [Ha Hv]. split; [done|]. destruct v0; [|done]. destruct Hv. split; [done|]. by apply Href'.
  - intros E. destruct (Hpc E) as (p & v' & n & ? & ? & Hr & Hl & ?). exists p, v', n. split_and!; auto.
  - intros E. destruct (Hpc E) as (p & v' & n & ? & ? & Hr & Hl & ?). exists p, v', n. split_and!; auto.
  - destruct Hpc as (Hs & p & n & Hf & Hl). destruct (Hrec' v0 ltac:(cbn; set_solver) Hs) as [? E].
    split; [done|]. exists p, n. by rewrite E.
  - destruct Hpc as (Hs & n & Hl). destruct (Hrec' v0 ltac:(cbn; set_solver) Hs) as [? E]. by eauto.
  - destruct Hpc as (Hs & n & Hl). destruct (Hrec' v0 ltac:(cbn; set_solver) Hs) as [? E]. by eauto.
  - destruct Hpc as (Hs & Hn). destruct (Hrec' v0 ltac:(cbn; set_solver) Hs) as [? E]. by eauto.
Qed.

(** ** The table *)
Lemma matches_key a n : node_matches a n = true <-> nkey n = akey a.
Proof.
  unfold node_matches, pfsid_eqb, nkey, akey. rewrite !andb_true_iff, !Z.eqb_eq.
  destruct (node_id n), (fa_id a); cbn. split.
  - intros (-> & (-> & ->) & ->). done.
  - by intros [= -> -> -> ->].
Qed.

Lemma key_at_node h p n : h !! p = Some (Some n) -> key_at h p = Some (nkey n).
Proof. unfold key_at. by intros ->. Qed.

Lemma key_at_some h p key : key_at h p = Some key -> exists n, h !! p = Some (Some n) /\ nkey n = key.
Proof. unfold key_at. destruct (h !! p) as [[n|]|]; naive_solver. Qed.

Lemma table_same kat kat' b :
  (forall p, kat' p = kat p) -> table_inv mask kat b -> table_inv mask kat' b.
Proof.
  intros E [T1 T2 T3]. split.
  - intros i p. rewrite E. apply T1.
  - intros p key. rewrite E. apply T2.
  - intros p q key. rewrite !E. apply T3.
Qed.

(** A change at [l] that keeps its key keeps the table. *)
Lemma table_same_at h l n n' b :
  h !! l = Some (Some n) -> nkey n' = nkey n ->
  table_inv mask (key_at h) b -> table_inv mask (key_at (<[l := Some n']> h)) b.
Proof.
  intros E Ek. apply table_same. intros p. unfold key_at. destruct (decide (p = l)) as [->|].
  - by rewrite lookup_insert_eq, E, Ek.
  - by rewrite lookup_insert_ne.
Qed.

Lemma table_insert h l a n b :
  table_inv mask (key_at h) b -> h !! l = Some None -> nkey n = akey a ->
  (forall p, key_at h p <> Some (akey a)) ->
  table_inv mask (key_at (<[l := Some n]> h))
    (<[bucket_of mask a := l :: bkt b (bucket_of mask a)]> b).
Proof.
  intros [T1 T2 T3] El En Hno.
  assert (K : forall p, key_at (<[l := Some n]> h) p = if decide (p = l) then Some (akey a) else key_at h p).
  { intros p. unfold key_at. case_decide; subst; [by rewrite lookup_insert_eq, En|]. by rewrite lookup_insert_ne. }
  assert (Hl : key_at h l = None) by (unfold key_at; by rewrite El).
  assert (B : forall i p, p ∈ bkt (<[bucket_of mask a := l :: bkt b (bucket_of mask a)]> b) i
              <-> (i = bucket_of mask a /\ p = l) \/ p ∈ bkt b i).
  { intros i p. unfold bkt at 1. destruct (decide (i = bucket_of mask a)) as [->|].
    - rewrite lookup_insert_eq. cbn. rewrite elem_of_cons. tauto.
    - rewrite lookup_insert_ne by done. unfold bkt. tauto. }
  split.
  - intros i p Hp. rewrite K. apply B in Hp as [[-> ->]|Hp].
    + exists (akey a). by rewrite decide_True.
    + destruct (T1 i p Hp) as (key & E & ->). exists key. rewrite decide_False; [done|]. intros ->. congruence.
  - intros p key. rewrite K, B. case_decide; subst.
    + intros <-%(inj Some). left. split; [|reflexivity].
      unfold bucket_of, akey. cbn [fst snd]. reflexivity.
    + intros E. right. by apply T2.
  - intros p q key. rewrite !K. destruct (decide (p = l)) as [->|], (decide (q = l)) as [->|]; try done.
    + intros [= <-] E. by destruct (Hno q).
    + intros E [= <-]. by destruct (Hno p).
    + apply T3.
Qed.

Lemma bkt_list_remove p b i : bkt (list_remove p b) i = List.filter (fun q => negb (Pos.eqb q p)) (bkt b i).
Proof. unfold bkt, list_remove. rewrite lookup_fmap. by destruct (b !! i). Qed.

Lemma elem_list_remove p q b i : q ∈ bkt (list_remove p b) i <-> q <> p /\ q ∈ bkt b i.
Proof.
  rewrite bkt_list_remove, !list_elem_of_In, filter_In, negb_true_iff, Pos.eqb_neq. tauto.
Qed.

Lemma table_remove h l b :
  table_inv mask (key_at h) b -> table_inv mask (key_at (delete l h)) (list_remove l b).
Proof.
  intros [T1 T2 T3].
  assert (K : forall p, key_at (delete l h) p = if decide (p = l) then None else key_at h p).
  { intros p. unfold key_at. case_decide; subst; [by rewrite lookup_delete_eq|]. by rewrite lookup_delete_ne. }
  split.
  - intros i p [Hne Hp]%elem_list_remove. rewrite K, decide_False by done. by apply T1.
  - intros p key. rewrite K. case_decide; [done|]. intros E. apply elem_list_remove. auto.
  - intros p q key. rewrite !K. destruct (decide (p = l)), (decide (q = l)); try done. apply T3.
Qed.

(** The search: it never reads a dangling entry, finds only nodes with the
    wanted key, and misses none. *)
Lemma bucket_find_spec h a b :
  table_inv mask (key_at h) b ->
  match bucket_find h a (bkt b (bucket_of mask a)) with
  | None => False
  | Some None => forall p, key_at h p <> Some (akey a)
  | Some (Some (p, n)) => h !! p = Some (Some n) /\ nkey n = akey a
  end.
Proof.
  intros [T1 T2 T3].
  assert (Hall : forall p, p ∈ bkt b (bucket_of mask a) -> exists n, h !! p = Some (Some n)).
  { intros p Hp. destruct (T1 _ _ Hp) as (key & E & _). apply key_at_some in E as (n & ? & _). eauto. }
  assert (Hkey : forall p, key_at h p = Some (akey a) -> p ∈ bkt b (bucket_of mask a)).
  { intros p E. apply (T2 p _ E). }
  revert Hkey. generalize (bkt b (bucket_of mask a)) Hall. clear. intros ls Hall Hkey.
  assert (G : match bucket_find h a ls with
              | None => False
              | Some None => forall p, p ∈ ls -> key_at h p <> Some (akey a)
              | Some (Some (p, n)) => h !! p = Some (Some n) /\ nkey n = akey a
              end).
  { clear Hkey. induction ls as [|p ls IH]; cbn; [intros p Hp; set_solver|].
    destruct (Hall p) as [n E]; [set_solver|]. rewrite E. destruct (node_matches a n) eqn:M.
    - split; [done|]. by apply matches_key.
    - specialize (IH ltac:(set_solver)). destruct (bucket_find h a ls) as [[[q m]|]|]; [done| |done].
      intros q [->|Hq]%elem_of_cons; [|by apply IH]. rewrite (key_at_node _ _ _ E). intros E'%(inj Some).
      apply matches_key in E'. congruence. }
  destruct (bucket_find h a ls) as [[[q m]|]|]; [done| |done]. intros p E. by apply (G p); [apply Hkey|].
Qed.

(** ** Kinds of steps *)
Lemma has_upd_id th t k' r : has th r -> (r ∈ held th t -> r ∈ claims k') -> has (<[t := k']> th) r.
Proof.
  intros Hh Hk. pose proof (has_upd id th t k' r ltac:(done) Hh Hk) as G. by rewrite map_fmap_id in G.
Qed.

(** Resources that existential clauses of the invariant refer to. *)
Definition transient (r : res) : Prop := r = RMutex \/ exists n, r = ROwn n.

(** Only the program counter (and the lock) changes. *)
Lemma inv_move s m' t k' :
  ninv s -> lock_move (hash_mutex s) (threads s) t k' m' ->
  (forall r, r ∈ claims k' -> r = RMutex \/ r ∈ held (threads s) t) ->
  (forall r, r ∈ held (threads s) t -> transient r \/ r ∈ claims k') ->
  pc_ok (heap s) (vnode_view (kern s)) t k' ->
  ninv (Ncache m' (heap s) (buckets s) (kern s) (<[t := k']> (threads s))).
Proof.
  intros I Hm Hr Hk Ht.
  assert (Hkeep : forall r, has (threads s) r -> ~ transient r -> has (<[t := k']> (threads s)) r).
  { intros r Hh Hn. apply has_upd_id; [done|]. intros Hin. by destruct (Hk r Hin). }
  assert (Hto : thread_ok (heap s) (vnode_view (kern s)) t k').
  { split; [done|]. intros n Hn. destruct (Hr _ Hn) as [|Hh]; [done|]. unfold held in Hh.
    destruct (threads s !! t) as [k|] eqn:E; [|set_solver]. by apply (i_thread s I t k E). }
  replace (<[t := k']> (threads s)) with (<[t := k']> (id <$> threads s)) in * by (by rewrite map_fmap_id).
  apply inv_update; try done.
  - intros r Hin. destruct (Hr r Hin); auto.
  - apply I.
  - intros p n E. pose proof (i_node s I p n E) as Hn. unfold node_ok in *.
    destruct (node_attaching_vnode n); [|done]. destruct Hn. split; [done|]. apply Hkeep; [done|].
    unfold transient. naive_solver.
  - intros v E. destruct (i_alive s I v E) as [|Hh]; [by left|right]. apply Hkeep; [done|].
    unfold transient. naive_solver.
  - intros v E. apply Hkeep; [by apply I|]. unfold transient. naive_solver.
Qed.

(** The view of vnode [v] changes, and the program counter of [t]. *)
Lemma inv_view s K' v x t k' :
  ninv s -> view_set (kern s) K' v x ->
  lock_move (hash_mutex s) (threads s) t k' (hash_mutex s) ->
  (forall r, r ∈ claims k' -> r ∈ held (threads s) t
     \/ forall t' k, t' <> t -> threads s !! t' = Some k -> r ∉ claims k) ->
  (forall r, r ∈ held (threads s) t ->
     transient r \/ r ∈ claims k' \/ (r = RNew v /\ vv_state x <> VSalive)
     \/ (r = RRec v /\ vv_state x <> VSreclaim)) ->
  thread_ok (heap s) (vnode_view K') t k' ->
  let w := vnode_view (kern s) v in
  vv_vid w <= vv_vid x ->
  (vv_vid x = vv_vid w -> vv_state w <> VSdead -> vv_state x <> VSdead
     /\ (vv_state x = VSalive -> vv_state w = VSalive /\ vv_fsnode x = vv_fsnode w)) ->
  (forall t', t' <> t -> vv_state w = VSalive -> t' ∈ vv_holders w ->
     vv_state x = VSalive /\ vv_fsnode x = vv_fsnode w /\ t' ∈ vv_holders x) ->
  (forall t' k, t' <> t -> threads s !! t' = Some k -> RRec v ∈ claims k -> vv_state w = VSreclaim ->
     vv_state x = VSreclaim /\ vv_fsnode x = vv_fsnode w) ->
  (forall p n, linked (heap s) p v n -> vv_state x <> VSdead /\ vv_fsnode x = vv_fsnode w) ->
  (vv_state x = VSalive -> vv_state w = VSalive /\ vv_fsnode x = vv_fsnode w \/ RNew v ∈ claims k') ->
  (vv_state x = VSreclaim -> vv_state w = VSreclaim \/ RRec v ∈ claims k') ->
  ninv (Ncache (hash_mutex s) (heap s) (buckets s) K' (<[t := k']> (threads s))).
Proof.
  intros I [Ev Eu] Hm Hr Hk Ht w Hvid Hget Href Hrec Hnode Halive Hrecl. subst w.
  assert (Hkeep : forall r, has (threads s) r -> ~ transient r ->
    r <> RNew v \/ vv_state x = VSalive -> r <> RRec v \/ vv_state x = VSreclaim ->
    has (<[t := k']> (threads s)) r).
  { intros r Hh Hn H1 H2. apply has_upd_id; [done|]. intros Hin.
    destruct (Hk r Hin) as [|[|[[-> ?]|[-> ?]]]]; try done; naive_solver. }
  assert (Htr : forall u, ~ transient (RNew u) /\ ~ transient (RRec u))
    by (intros u; unfold transient; naive_solver).
  replace (<[t := k']> (threads s)) with (<[t := k']> (id <$> threads s)) in * by (by rewrite map_fmap_id).
  apply inv_update; try done.
  - intros r Hin. destruct (Hr r Hin); auto.
  - intros t' k Hne E Hok. eapply frame_view with (v := v); [| | | | |exact Hok]; rewrite ?Ev; try done.
    + intros p (H1 & H2 & H3). destruct (Href t' Hne H1 H3) as (? & E2 & ?). unfold referenced. rewrite Ev.
      split_and!; [done|congruence|done].
    + by apply (Hrec t' k).
  - apply I.
  - intros p n E. pose proof (i_node s I p n E) as Hn. unfold node_ok in *.
    destruct (node_attaching_vnode n) eqn:Ea.
    + destruct Hn. split; [done|]. apply Hkeep; [done|unfold transient; naive_solver|by left..].
    + destruct Hn as (u & E1 & E2 & E3). exists u. split; [done|]. destruct (decide (u = v)) as [->|].
      * rewrite Ev. destruct (Hnode p n) as [? ->]; [done|]. done.
      * by rewrite Eu.
  - intros u E. destruct (decide (u = v)) as [->|].
    + rewrite Ev in *. destruct (Halive E) as [[E1 ->]|Hnew]; [|right; by apply has_new].
      destruct (i_alive s I v E1) as [|Hh]; [by left|right]. apply Hkeep; [done|apply Htr|by right|by left].
    + rewrite (Eu u) in * by done. destruct (i_alive s I u E) as [|Hh]; [by left|right].
      apply Hkeep; [done|apply Htr|left; congruence|by left].
  - intros u E. destruct (decide (u = v)) as [->|].
    + rewrite Ev in *. destruct (Hrecl E) as [E1|Hnew]; [|by apply has_new].
      apply Hkeep; [by apply I|apply Htr|by left|by right].
    + rewrite (Eu u) in * by done. apply Hkeep; [by apply I|apply Htr|by left|left; congruence].
Qed.

(** The heap changes at [l], and the program counter of [t]. *)
Lemma inv_heap (f : pc -> pc) s m' h' b' l t k' :
  (forall k, claims (f k) = claims k) ->
  ninv s -> (forall q, q <> l -> h' !! q = heap s !! q) ->
  lock_move (hash_mutex s) (threads s) t k' m' ->
  (forall r, r ∈ claims k' -> r = RMutex \/ r ∈ held (threads s) t
     \/ forall t' k, t' <> t -> threads s !! t' = Some k -> r ∉ claims k) ->
  let w := vnode_view (kern s) in
  let th' := <[t := k']> (f <$> threads s) in
  (forall r, r ∈ held (threads s) t -> transient r \/ r ∈ claims k' \/ r = RAtt l
     \/ exists v n, r = RNew v /\ vv_fsnode (w v) = Some l /\ linked h' l v n) ->
  thread_ok h' w t k' ->
  (forall t' k, t' <> t -> threads s !! t' = Some k ->
     thread_ok (heap s) w t' k -> thread_ok h' w t' (f k)) ->
  table_inv mask (key_at h') b' ->
  (forall n, h' !! l = Some (Some n) -> node_ok w th' l n) ->
  (forall v n, linked (heap s) l v n -> vv_state (w v) = VSalive -> exists n', linked h' l v n') ->
  ninv (Ncache m' h' b' (kern s) th').
Proof.
  intros Hf I Hq Hm Hr w th' Hk Ht Ho Htab Hnl Hlk.
  assert (Hkeep : forall r, has (threads s) r -> ~ transient r -> r <> RAtt l ->
    (exists v n, r = RNew v /\ vv_fsnode (w v) = Some l /\ linked h' l v n) \/ has th' r).
  { intros r Hh Hn Hna. destruct (decide (r ∈ held (threads s) t)) as [Hin|Hin].
    - destruct (Hk r Hin) as [|[|[|]]]; [done| |done|by left]. right. by apply has_new.
    - right. by apply has_upd. }
  assert (Hl : forall p v n, linked (heap s) p v n -> vv_state (w v) = VSalive -> exists n', linked h' p v n').
  { intros p v n Hl Ea. destruct (decide (p = l)) as [->|]; [by eapply Hlk|].
    exists n. unfold linked in *. by rewrite Hq. }
  apply inv_update; try done.
  - intros p n E. destruct (decide (p = l)) as [->|]; [by apply Hnl|]. rewrite Hq in E by done.
    pose proof (i_node s I p n E) as Hn. unfold node_ok in *. destruct (node_attaching_vnode n); [|done].
    destruct Hn as [? Hh]. split; [done|]. destruct (Hkeep _ Hh) as [(?&?&?&_)|]; try done;
      [unfold transient; naive_solver|congruence].
  - intros v E. destruct (i_alive s I v E) as [(p & n & Ef & Hln)|Hh].
    + left. destruct (Hl _ _ _ Hln E) as [n' ?]. eauto.
    + destruct (Hkeep _ Hh) as [(v'&n&[= <-]&?&?)|]; [unfold transient; naive_solver|done|left; eauto|by right].
  - intros v E. destruct (Hkeep (RRec v)) as [(?&?&?&_)|]; try done; [by apply I|unfold transient; naive_solver].
Qed.

(** A thread without resources disappears. *)
Lemma inv_drop m h b (K : vfs) th t k :
  ninv (Ncache m h b K th) -> th !! t = Some k -> claims k = [] ->
  ninv (Ncache m h b K (delete t th)).
Proof.
  intros I E Ek.
  assert (Hkeep : forall r, has th r -> has (delete t th) r).
  { intros r Hh. apply has_delete; [done|]. unfold held. rewrite E, Ek. set_solver. }
  assert (Hsub : forall t0 k0, delete t th !! t0 = Some k0 -> th !! t0 = Some k0).
  { intros t0 k0 E0. by apply lookup_delete_Some in E0 as [_ ?]. }
  split; cbn.
  - destruct (i_lock _ I) as [L1 L2]. cbn in *. split; [by intros; apply L1, Hsub|]. intros t0 E0.
    rewrite lookup_delete_ne; [by apply L2|]. intros <-. apply (L1 t k E) in E0. rewrite Ek in E0. set_solver.
  - intros t1 t2 k1 k2 r E1 E2. eapply (i_excl _ I); by apply Hsub.
  - intros t0 k0 E0. by apply (i_thread _ I), Hsub.
  - apply (i_table _ I).
  - intros p n Ep. pose proof (i_node _ I p n Ep) as Hn. unfold node_ok in *. cbn in *.
    destruct (node_attaching_vnode n); [|done]. destruct Hn. auto.
  - intros v Ev. destruct (i_alive _ I v Ev); auto.
  - intros v Ev. apply Hkeep. by apply (i_reclaim _ I).
Qed.

(** A change of the vnode layer that no view shows. *)
Lemma inv_ext m h b (K K' : vfs) th :
  ninv (Ncache m h b K th) -> view_same K K' -> ninv (Ncache m h b K' th).
Proof.
  intros I E. split; cbn; try apply I.
  - intros t k Ek. eapply (frame_view _ _ _ _ _ 1%positive); [| | | | |by apply (i_thread _ I t k Ek)];
      cbn; unfold referenced; rewrite ?E; auto; done.
  - intros p n Ep. pose proof (i_node _ I p n Ep) as Hn. unfold node_ok in *. cbn in *.
    destruct (node_attaching_vnode n); [done|]. destruct Hn as (v & ?). exists v. by rewrite E.
  - intros v. rewrite E. apply (i_alive _ I).
  - intros v. rewrite E. apply (i_reclaim _ I).
Qed.

(** ** The steps *)
Lemma held_at th t k : th !! t = Some k -> held th t = claims k.
Proof. unfold held. by intros ->. Qed.

Lemma held_none th t : th !! t = None -> held th t = [].
Proof. unfold held. by intros ->. Qed.

Ltac claim :=
  cbn [claims new_res app] in *; unfold transient; intros;
  repeat match goal with
  | H : _ ∈ _ :: _ |- _ => apply elem_of_cons in H as [H|H]; [try discriminate H; simplify_eq|]
  | H : _ ∈ _ ++ _ |- _ => apply elem_of_app in H as [H|H]
  | H : _ ∈ [] |- _ => by apply elem_of_nil in H
  end;
  try (solve [match goal with
              | H : _ ∈ _ |- _ => clear -H; set_solver
              | |- _ => clear; set_solver
              end]).

Lemma thread_move_lock s t k k' :
  ninv s -> threads s !! t = Some k -> claims k' = RMutex :: claims k -> RMutex ∉ claims k ->
  pc_ok (heap s) (vnode_view (kern s)) t k' ->
  forall s', lck_mtx_lock t k' s = Some s' -> ninv s'.
Proof.
  intros I E Hc Hn Hok s'. unfold lck_mtx_lock. destruct (hash_mutex s) eqn:Em; [done|]. intros [= <-].
  apply inv_move; [done| | | |done].
  - rewrite Em. apply lm_take; [done|]. rewrite Hc. set_solver.
  - intros r. rewrite Hc, (held_at _ _ _ E). set_solver.
  - intros r. rewrite Hc, (held_at _ _ _ E). set_solver.
Qed.

Lemma nkey_set_waiting b n : nkey (set_waiting b n) = nkey n. Proof. done. Qed.

Lemma own_no_mutex new target : RMutex ∉ own_res new target.
Proof. intros [n Hn]%not_own_res. done. Qed.

(** A thread's facts survive a change at [l] that touches nothing it relies
    on: [l] was not linked before, and is not linked after to a vnode under
    reclaim. *)
Lemma frame_unlinked h h' w t k l :
  (forall q, q <> l -> h' !! q = h !! q) ->
  (ROwn l ∈ claims k -> h !! l = Some None -> h' !! l = Some None) ->
  (forall a, RAtt l ∈ claims k -> attaching h l a -> attaching h' l a) ->
  (awaited h l -> (exists a new, k = FSleep a new l) -> awaited h' l) ->
  (forall v n, ~ linked h l v n) ->
  (forall v n, linked h' l v n -> vv_state (w v) <> VSreclaim) ->
  thread_ok h w t k -> thread_ok h' w t k.
Proof.
  intros Hq Ho Ha Hw Hl Hl'. eapply frame_heap; try done.
  - intros v n Hn. by destruct (Hl v n).
  - intros v n Hn Hr. by destruct (Hl' v n).
Qed.

Lemma insert_other {A} (h : gmap nloc A) l x : forall q, q <> l -> <[l := x]> h !! q = h !! q.
Proof. intros q Hq. by rewrite lookup_insert_ne. Qed.

Lemma delete_other {A} (h : gmap nloc A) l : forall q, q <> l -> delete l h !! q = h !! q.
Proof. intros q Hq. by rewrite lookup_delete_ne. Qed.

(** Nothing but uninitialised memory: not linked, not attaching, not awaited. *)
Lemma raw_facts (h : nheap) l :
  (h !! l = Some None \/ h !! l = None) ->
  (forall v n, ~ linked h l v n) /\ (forall a, ~ attaching h l a) /\ ~ awaited h l.
Proof. unfold linked, attaching, awaited. naive_solver. Qed.

Lemma attaching_facts (h : nheap) l n :
  h !! l = Some (Some n) -> node_attaching_vnode n = true -> forall v m, ~ linked h l v m.
Proof. intros E Ea v m (Em & Ha & _). congruence. Qed.

(** Loop head: the node is being attached by another thread. *)
Lemma step_sleep s t a new p n :
  ninv s -> threads s !! t = Some (FTop a new) ->
  heap s !! p = Some (Some n) -> node_attaching_vnode n = true ->
  ninv (Ncache None (<[p := Some (set_waiting true n)]> (heap s)) (buckets s) (kern s)
          (<[t := FSleep a new p]> (threads s))).
Proof.
  intros I Et Ep Ea. pose proof (i_node s I p n Ep) as Hn. unfold node_ok in Hn. rewrite Ea in Hn.
  destruct Hn as [Ev Hatt].
  assert (Ht : thread_ok (heap s) (vnode_view (kern s)) t (FTop a new)) by (by apply I).
  rewrite <- (map_fmap_id (threads s)) at 1.
  apply (inv_heap id) with (l := p); rewrite ?(held_at _ _ _ Et); try done.
  - apply insert_other.
  - apply lm_drop; [rewrite (held_at _ _ _ Et); claim|]. apply own_no_mutex.
  - claim.
  - claim.
  - split.
    + exists (set_waiting true n). by rewrite lookup_insert_eq.
    + intros m Hm. destruct (decide (m = p)) as [->|].
      * destruct Ht as [_ Ho]. specialize (Ho p). rewrite Ep in Ho. cbn [claims] in *. set_solver.
      * rewrite lookup_insert_ne by done. apply Ht. claim.
  - intros t' k Hne Ek. apply frame_unlinked with (l := p).
    + apply insert_other.
    + congruence.
    + intros a' _ (m & Em & ? & ? & ?). rewrite Ep in Em. injection Em as <-.
      exists (set_waiting true n). by rewrite lookup_insert_eq.
    + intros _ _. exists (set_waiting true n). by rewrite lookup_insert_eq.
    + by eapply attaching_facts.
    + intros v m Hl. exfalso. revert Hl. apply (attaching_facts _ _ (set_waiting true n)); [|done].
      by rewrite lookup_insert_eq.
  - eapply table_same_at; [done..|]. apply I.
  - rewrite lookup_insert_eq. intros m [= <-]. unfold node_ok. cbn. rewrite Ea. split; [done|].
    apply has_upd; [done..|]. rewrite (held_at _ _ _ Et). intros Hin. exfalso. claim. by apply not_own_res in Hin as [? ?].
  - intros v m Hl. by destruct (attaching_facts _ _ _ Ep Ea v m).
Qed.

(** What the resources mean. *)
Lemma in_new_res r v : r ∈ new_res v -> exists u, v = Some u /\ r = RNew u.
Proof. destruct v as [u|]; cbn; [|set_solver]. intros ->%list_elem_of_singleton. eauto. Qed.

Lemma att_claim h w t k p : thread_ok h w t k -> RAtt p ∈ claims k -> exists a, attaching h p a.
Proof.
  intros [Hok _] Hc.
  assert (Ho : forall new target, RAtt p ∉ own_res new target) by (by intros ? ? [? ?]%not_own_res).
  assert (Hn : forall v, RAtt p ∉ new_res v) by (by intros ? (? & _ & ?)%in_new_res).
  destruct k; cbn [claims] in Hc; cbn in Hok; rewrite ?elem_of_cons, ?elem_of_app, ?elem_of_nil in Hc;
    naive_solver.
Qed.

Lemma new_claim h w t k v : thread_ok h w t k -> RNew v ∈ claims k ->
  exists p a, attaching h p a /\ referenced w t p v.
Proof.
  intros [Hok _] Hc.
  assert (Ho : forall new target, RNew v ∉ own_res new target) by (by intros ? ? [? ?]%not_own_res).
  assert (Hn : forall u, RNew v ∈ new_res u -> u = Some v).
  { intros u (u' & -> & [= ->])%in_new_res. done. }
  destruct k; cbn [claims] in Hc; cbn in Hok; rewrite ?elem_of_cons, ?elem_of_app, ?elem_of_nil in Hc;
    naive_solver.
Qed.

Lemma rec_claim h w t k v : thread_ok h w t k -> RRec v ∈ claims k -> vv_state (w v) = VSreclaim.
Proof.
  intros [Hok _] Hc.
  assert (Ho : forall new target, RRec v ∉ own_res new target) by (by intros ? ? [? ?]%not_own_res).
  assert (Hn : forall v', RRec v ∉ new_res v') by (by intros ? (? & _ & ?)%in_new_res).
  destruct k; cbn [claims] in Hc; cbn in Hok; rewrite ?elem_of_cons, ?elem_of_app, ?elem_of_nil in Hc;
    naive_solver.
Qed.

(** Loop head: the node has a vnode. *)
Lemma step_get s t a new p n v :
  ninv s -> threads s !! t = Some (FTop a new) ->
  heap s !! p = Some (Some n) -> nkey n = akey a -> node_attaching_vnode n = false ->
  node_vnode n = Some v ->
  ninv (Ncache None (heap s) (buckets s) (kern s)
          (<[t := FGet a new p v (vnode_vid (kern s) v)]> (threads s))).
Proof.
  intros I Et Ep Ek Ea Ev. pose proof (i_node s I p n Ep) as Hn. unfold node_ok in Hn. rewrite Ea in Hn.
  destruct Hn as (v' & Ev' & Hd & Hf). rewrite Ev in Ev'. injection Ev' as <-.
  apply inv_move; rewrite ?(held_at _ _ _ Et); [done| |claim..|].
  - apply lm_drop; [rewrite (held_at _ _ _ Et); claim|]. apply own_no_mutex.
  - cbn. rewrite vid_law. split; [lia|]. intros _. split; [done|]. intros _. split; [done|]. by exists n.
Qed.

(** Loop head: no node, none allocated yet. *)
Lemma step_alloc s t a :
  ninv s -> threads s !! t = Some (FTop a None) ->
  ninv (Ncache None (heap s) (buckets s) (kern s) (<[t := FAlloc a]> (threads s))).
Proof.
  intros I Et. apply inv_move; rewrite ?(held_at _ _ _ Et); [done| |claim..|done].
  apply lm_drop; [rewrite (held_at _ _ _ Et); claim|]. set_solver.
Qed.

(** Loop head: the allocated node goes into the table, and this thread
    attaches its vnode. *)
Lemma step_insert s t a p :
  ninv s -> threads s !! t = Some (FTop a (Some p)) ->
  (forall q, key_at (heap s) q <> Some (akey a)) ->
  ninv (Ncache None (<[p := Some (set_attaching true (init_node a))]> (heap s))
          (<[bucket_of mask a := p :: bkt (buckets s) (bucket_of mask a)]> (buckets s)) (kern s)
          (<[t := FCreate a (Some p) p]> (threads s))).
Proof.
  intros I Et Hno.
  assert (Ep : heap s !! p = Some None).
  { apply (i_thread s I t _ Et). cbn [claims own_res]. rewrite decide_False by done. set_solver. }
  destruct (raw_facts (heap s) p (or_introl Ep)) as (Hl & Ha & Hw).
  rewrite <- (map_fmap_id (threads s)) at 1.
  apply (inv_heap id) with (l := p); rewrite ?(held_at _ _ _ Et); try done.
  - apply insert_other.
  - apply lm_drop; [rewrite (held_at _ _ _ Et); claim|]. cbn. rewrite decide_True by done. set_solver.
  - intros r Hr. cbn [claims own_res] in Hr. rewrite decide_True in Hr by done. claim. right; right.
    intros t' k Hne Ek Hc. destruct (att_claim _ _ _ _ _ (i_thread s I t' k Ek) Hc) as [a' Hx].
    by apply (Ha a').
  - claim.
  - split; [|intros m Hm; cbn [claims own_res] in Hm; rewrite decide_True in Hm by done; claim].
    exists (set_attaching true (init_node a)). by rewrite lookup_insert_eq.
  - intros t' k Hne Ek. apply frame_unlinked with (l := p); try done.
    + apply insert_other.
    + intros Hc. destruct Hne. eapply (i_excl s I _ _ _ _ (ROwn p) Ek Et Hc). cbn [claims own_res].
      rewrite decide_False by done. set_solver.
    + intros a' _ Hx. by destruct (Ha a').
    + intros v m Hx. exfalso. revert Hx. apply (attaching_facts _ _ (set_attaching true (init_node a))); [|done].
      by rewrite lookup_insert_eq.
  - apply table_insert; [apply I|done|done|done].
  - rewrite lookup_insert_eq. intros m [= <-]. split; [done|]. apply has_new. claim.
  - intros v m Hx. by destruct (Hl v m).
Qed.

(** OSMalloc returned memory. *)
Lemma step_allocated s t a p :
  ninv s -> threads s !! t = Some (FAlloc a) -> heap s !! p = None ->
  ninv (Ncache (hash_mutex s) (<[p := None]> (heap s)) (buckets s) (kern s)
          (<[t := FLock a (Some p)]> (threads s))).
Proof.
  intros I Et Ep. destruct (raw_facts (heap s) p (or_intror Ep)) as (Hl & Ha & Hw).
  destruct (raw_facts (<[p := None]> (heap s)) p) as (Hl' & Ha' & Hw').
  { left. by rewrite lookup_insert_eq. }
  assert (Hc : claims (FLock a (Some p)) = [ROwn p]) by (cbn; by rewrite decide_False).
  rewrite <- (map_fmap_id (threads s)) at 1.
  apply (inv_heap id) with (l := p); rewrite ?(held_at _ _ _ Et), ?Hc; try done.
  - apply insert_other.
  - apply lm_same. rewrite (held_at _ _ _ Et), Hc. claim.
  - claim. right; right. intros t' k Hne Ek Hin. apply (i_thread s I t' k Ek) in Hin. congruence.
  - claim.
  - split; [done|]. rewrite Hc. claim. by rewrite lookup_insert_eq.
  - intros t' k Hne Ek. apply frame_unlinked with (l := p); try done.
    + apply insert_other.
    + congruence.
    + intros a' _ Hx. by destruct (Ha a').
    + intros v n Hx. by destruct (Hl' v n).
  - eapply table_same; [|apply I]. intros q. unfold key_at. destruct (decide (q = p)) as [->|].
    + by rewrite lookup_insert_eq, Ep.
    + by rewrite lookup_insert_ne.
  - rewrite lookup_insert_eq. done.
  - intros v n Hx. by destruct (Hl v n).
Qed.

(** The vnode was created: it is new, so no other thread refers to it. *)
Lemma step_created s t a new p v K' vid :
  ninv s -> threads s !! t = Some (FCreate a new p) ->
  vv_state (vnode_view (kern s) v) = VSdead -> vv_vid (vnode_view (kern s) v) <= vid ->
  view_set (kern s) K' v (Vview VSalive vid (Some p) {[t]}) ->
  ninv (Ncache (hash_mutex s) (heap s) (buckets s) K'
          (<[t := FRelock a new p 0 (Some v)]> (threads s))).
Proof.
  intros I Et Hd Hvid Hset. pose proof (i_thread s I t _ Et) as [Hok Ho].
  eapply inv_view; rewrite ?(held_at _ _ _ Et); cbn [vv_vid vv_state vv_fsnode vv_holders];
    [done|exact Hset|..].
  - apply lm_same. rewrite (held_at _ _ _ Et). claim.
  - claim. right.
    intros t' k Hne Ek Hc. apply (new_claim _ _ _ _ _ (i_thread s I t' k Ek)) in Hc as (? & ? & _ & Hs & _). congruence.
  - claim.
  - split.
    + cbn. split; [done|]. split; [done|]. destruct Hset as [E _]. unfold referenced. rewrite E. cbn.
      split_and!; [done..|set_solver].
    + intros n Hn. apply Ho. claim.
  - done.
  - congruence.
  - congruence.
  - congruence.
  - intros q n (En & Ea & Ev). pose proof (i_node s I q n En) as Hn. unfold node_ok in Hn. rewrite Ea in Hn. naive_solver.
  - right. claim.
  - done.
Qed.

(** vnode_getwithvid took a reference. *)
Lemma step_got s t a new p v vid K' :
  ninv s -> threads s !! t = Some (FGet a new p v vid) ->
  vnode_getwithvid t v vid (kern s) = Some (0, K') ->
  ninv (Ncache (hash_mutex s) (heap s) (buckets s) K'
          (<[t := FLeave a new (Some p) 0 (Some v)]> (threads s))).
Proof.
  intros I Et Hget. apply get_ok in Hget as (Ha & Hv & Hset).
  pose proof (i_thread s I t _ Et) as [[_ Hi] Ho]. destruct (Hi Hv) as [_ Hl]. destruct (Hl Ha) as (Hf & n & Hn & Hk).
  eapply inv_view; rewrite ?(held_at _ _ _ Et); cbn [vv_vid vv_state vv_fsnode vv_holders];
    [done|exact Hset|..].
  - apply lm_same. rewrite (held_at _ _ _ Et). cbn [claims].
    split; intros Hx; exfalso; by apply own_no_mutex in Hx.
  - intros r Hr. left. cbn [claims] in *. destruct (not_own_res _ _ _ Hr) as [m ->].
    rewrite elem_own_res in *. naive_solver.
  - intros r Hr. left. right. cbn [claims] in Hr. by apply not_own_res in Hr.
  - split.
    + intros _. exists p, v, n. destruct Hset as [E _]. unfold referenced. rewrite E. cbn. split_and!; try done. set_solver.
    + intros m Hm. apply Ho. cbn [claims] in *. rewrite elem_own_res in *. naive_solver.
  - apply Z.le_refl.
  - auto.
  - intros t' _ _ Hin. split_and!; [done..|set_solver].
  - congruence.
  - done.
  - auto.
  - done.
Qed.

(** A dangling allocation is abandoned and the search starts again. *)
Lemma step_retry s t a new p v vid e K' :
  ninv s -> threads s !! t = Some (FGet a new p v vid) ->
  vnode_getwithvid t v vid (kern s) = Some (e, K') -> e <> 0 ->
  ninv (Ncache (hash_mutex s) (heap s) (buckets s) K' (<[t := FLock a None]> (threads s))).
Proof.
  intros I Et Hget He. destruct (get_err _ _ _ _ _ _ Hget He) as [Hs _].
  apply inv_ext with (K := kern s); [|done].
  apply inv_move; rewrite ?(held_at _ _ _ Et); [done| |claim| |done].
  - apply lm_same. rewrite (held_at _ _ _ Et). cbn [claims].
    split; intros Hx; exfalso; [by apply own_no_mutex in Hx|set_solver].
  - intros r Hr. left. right. cbn [claims] in Hr. by apply not_own_res in Hr.
Qed.

(** The attaching thread of [p] is unique, so no other thread relies on [p]
    while its vnode is being linked or the node is being freed. *)
Lemma frame_attached s t k0 h' p t' k :
  ninv s -> threads s !! t = Some k0 -> RAtt p ∈ claims k0 -> t' <> t ->
  threads s !! t' = Some k ->
  (forall q, q <> p -> h' !! q = heap s !! q) ->
  (awaited (heap s) p -> (exists a new, k = FSleep a new p) -> awaited h' p) ->
  (forall v n, linked h' p v n -> vv_state (vnode_view (kern s) v) <> VSreclaim) ->
  thread_ok (heap s) (vnode_view (kern s)) t' k -> thread_ok h' (vnode_view (kern s)) t' k.
Proof.
  intros I Et Hc Hne Ek Hq Haw Hl.
  destruct (att_claim _ _ _ _ _ (i_thread s I t _ Et) Hc) as (a & n & En & Ea & Ev & _).
  apply frame_unlinked with (l := p); try done.
  - congruence.
  - intros a' Hx. destruct Hne. by eapply (i_excl s I).
  - by eapply attaching_facts.
Qed.

Lemma wake_frame h h' w t p k :
  (forall q, q <> p -> h' !! q = h !! q) -> (exists n, h !! p = Some (Some n)) ->
  thread_ok h w t k -> ((forall a new, k <> FSleep a new p) -> thread_ok h' w t k) ->
  thread_ok h' w t (wake p k).
Proof.
  intros Hq [n En] [Hok Ho] Hk. destruct k; try (apply Hk; congruence).
  cbn. destruct (Pos.eqb_spec p0 p) as [->|Hne]; [|apply Hk; congruence].
  split; [done|]. intros m Hm. destruct (decide (m = p)) as [->|]; [|rewrite Hq by done; by apply Ho].
  specialize (Ho p Hm). congruence.
Qed.

(** Waking the sleepers of [p], or having none: either way nobody sleeps on a
    node that is no longer being attached. *)
Definition waker (p : nloc) (waiting : bool) : pc -> pc := if waiting then wake p else id.

Lemma waker_claims p b k : claims (waker p b k) = claims k.
Proof. destruct b; [apply wake_claims|done]. Qed.

Lemma waker_frame s t k0 h' p n t' k :
  ninv s -> threads s !! t = Some k0 -> RAtt p ∈ claims k0 -> t' <> t ->
  threads s !! t' = Some k -> heap s !! p = Some (Some n) ->
  (forall q, q <> p -> h' !! q = heap s !! q) ->
  (forall v m, linked h' p v m -> vv_state (vnode_view (kern s) v) <> VSreclaim) ->
  thread_ok (heap s) (vnode_view (kern s)) t' k ->
  thread_ok h' (vnode_view (kern s)) t' (waker p (node_thread_waiting_attach n) k).
Proof.
  intros I Et Hc Hne Ek En Hq Hl Hok. unfold waker. destruct (node_thread_waiting_attach n) eqn:Ew.
  - eapply wake_frame; [done|by eexists|done|]. intros Hns.
    apply (frame_attached s t k0 h' p t' k); try done. intros _ (a' & new' & ->). by destruct (Hns a' new').
  - apply (frame_attached s t k0 h' p t' k); try done. intros (m & Em & _ & Hw). congruence.
Qed.

(** The vnode is linked to its node. *)
Lemma step_attached s t a new p v n :
  ninv s -> threads s !! t = Some (FAttach a new p 0 (Some v)) ->
  heap s !! p = Some (Some n) ->
  ninv (Ncache None (<[p := Some (set_vnode (Some v) (set_waiting false (set_attaching false n)))]> (heap s))
          (buckets s) (kern s)
          (<[t := FLeave a new (Some p) 0 (Some v)]>
             (waker p (node_thread_waiting_attach n) <$> threads s))).
Proof.
  intros I Et En. pose proof (i_thread s I t _ Et) as [[(n0 & En0 & Ea & Ev & Ek) [_ Hr]] Ho].
  rewrite En in En0. injection En0 as <-.
  set (n' := set_vnode (Some v) (set_waiting false (set_attaching false n))).
  assert (Hlk : linked (<[p := Some n']> (heap s)) p v n') by (split; [by rewrite lookup_insert_eq|done]).
  apply inv_heap with (l := p); rewrite ?(held_at _ _ _ Et).
  - apply waker_claims.
  - done.
  - apply insert_other.
  - apply lm_drop; [rewrite (held_at _ _ _ Et); claim|]. apply own_no_mutex.
  - claim.
  - intros r. cbn [claims new_res app]. rewrite !elem_of_cons. intros [->|[->|[->|Hin]]].
    + by left; left.
    + by right; right; left.
    + right; right; right. exists v, n'. split_and!; [done|apply Hr|done].
    + by right; left.
  - split.
    + intros _. exists p, v, n'. split_and!; try done.
    + intros m Hm. cbn [claims] in *. rewrite elem_own_res in Hm. rewrite lookup_insert_ne by naive_solver.
      apply Ho. claim. right; right; right. by apply elem_own_res.
  - intros t' k Hne Ek' Hok. apply (waker_frame s t (FAttach a new p 0 (Some v))); try done; [claim|apply insert_other|].
    intros v' m (Em & _ & Hv). rewrite lookup_insert_eq in Em. injection Em as <-. cbn in Hv. injection Hv as <-.
    destruct Hr as [Hr _]. congruence.
  - eapply table_same_at; [done..|]. apply I.
  - intros m. rewrite lookup_insert_eq. intros [= <-]. exists v. destruct Hr as (Hr1 & Hr2 & _). split_and!; [done|congruence|done].
  - intros v' m Hl. by destruct (attaching_facts _ _ _ En Ea v' m).
Qed.

(** The vnode could not be created: the node goes away. *)
Lemma step_attach_failed s t a new p e n :
  ninv s -> threads s !! t = Some (FAttach a new p e None) -> e <> 0 ->
  heap s !! p = Some (Some n) ->
  ninv (Ncache None (delete p (heap s)) (list_remove p (buckets s)) (kern s)
          (<[t := FLeave a None None e None]>
             (waker p (node_thread_waiting_attach n) <$> threads s))).
Proof.
  intros I Et He En. pose proof (i_thread s I t _ Et) as [[(n0 & En0 & Ea & Ev & Ek) _] Ho].
  rewrite En in En0. injection En0 as <-.
  destruct (raw_facts (delete p (heap s)) p) as (Hl' & _ & _). { right. by rewrite lookup_delete_eq. }
  apply inv_heap with (l := p); rewrite ?(held_at _ _ _ Et).
  - apply waker_claims.
  - done.
  - apply delete_other.
  - apply lm_drop; [rewrite (held_at _ _ _ Et); claim|]. set_solver.
  - claim.
  - intros r. cbn [claims new_res app]. rewrite !elem_of_cons. intros [->|[->|Hin]].
    + by left; left.
    + by right; right; left.
    + left; right. by apply not_own_res in Hin.
  - split; [by intros E|]. intros m Hm. cbn in Hm. set_solver.
  - intros t' k Hne Ek' Hok. apply (waker_frame s t (FAttach a new p e None)); try done; [claim|apply delete_other|].
    intros v' m Hl. by destruct (Hl' v' m).
  - apply table_remove, I.
  - intros m. by rewrite lookup_delete_eq.
  - intros v' m Hl. by destruct (attaching_facts _ _ _ En Ea v' m).
Qed.

(** The unused allocation is freed before the call returns. *)
Lemma step_free_unused s t a n target e v k' :
  ninv s -> threads s !! t = Some (FLeave a (Some n) target e v) -> target <> Some n ->
  claims k' = [] ->
  (pc_ok (heap s) (vnode_view (kern s)) t (FLeave a (Some n) target e v) ->
   pc_ok (heap s) (vnode_view (kern s)) t k') ->
  (exists a' e' tg' v', k' = FDone a' e' tg' v') ->
  ninv (Ncache (hash_mutex s) (delete n (heap s)) (buckets s) (kern s) (<[t := k']> (threads s))).
Proof.
  intros I Et Hne Hck Hpc (a' & e' & tg' & v' & Hk'). pose proof (i_thread s I t _ Et) as [Hok Ho].
  assert (Hc : ROwn n ∈ claims (FLeave a (Some n) target e v)) by (by apply elem_own_res).
  assert (En : heap s !! n = Some None) by (by apply Ho).
  destruct (raw_facts (heap s) n (or_introl En)) as (Hl & Ha & Hw).
  destruct (raw_facts (delete n (heap s)) n) as (Hl' & _ & _). { right. by rewrite lookup_delete_eq. }
  assert (Hun : forall t0 k, (ROwn n ∈ claims k -> False) -> thread_ok (heap s) (vnode_view (kern s)) t0 k ->
                thread_ok (delete n (heap s)) (vnode_view (kern s)) t0 k).
  { intros t0 k Hno. apply frame_unlinked with (l := n); try done; [apply delete_other|..].
    - intros a0 _ Hx. by destruct (Ha a0).
    - intros u m Hx. by destruct (Hl' u m). }
  rewrite <- (map_fmap_id (threads s)) at 1.
  apply (inv_heap id) with (l := n); rewrite ?(held_at _ _ _ Et), ?Hck; try done.
  - apply delete_other.
  - apply lm_same. rewrite (held_at _ _ _ Et), Hck. cbn [claims].
    split; intros Hx; exfalso; [by apply own_no_mutex in Hx|set_solver].
  - claim.
  - intros r Hr. left. right. cbn [claims] in Hr. by apply not_own_res in Hr.
  - apply Hun; [rewrite Hck; set_solver|]. split; [by apply Hpc|]. rewrite Hck. set_solver.
  - intros t' k Hne' Ek. apply Hun. intros Hx. apply Hne'. by eapply (i_excl s I).
  - eapply table_same; [|apply I]. intros q. unfold key_at. destruct (decide (q = n)) as [->|].
    + by rewrite lookup_delete_eq, En.
    + by rewrite lookup_delete_ne.
  - intros m. by rewrite lookup_delete_eq.
  - intros u m Hx. by destruct (Hl u m).
Qed.

(** A node's vnode points back to it, so at most one node is linked to a vnode. *)
Lemma linked_fsnode s p v n :
  ninv s -> linked (heap s) p v n ->
  vv_fsnode (vnode_view (kern s) v) = Some p /\ vv_state (vnode_view (kern s) v) <> VSdead.
Proof.
  intros I (En & Ea & Ev). pose proof (i_node s I p n En) as Hn. unfold node_ok in Hn.
  rewrite Ea in Hn. naive_solver.
Qed.

Lemma linked_unique s p q v n m :
  ninv s -> linked (heap s) p v n -> linked (heap s) q v m -> p = q.
Proof.
  intros I H1 H2. destruct (linked_fsnode s p v n I H1), (linked_fsnode s q v m I H2). congruence.
Qed.

(** Reclaim: the node leaves the table and is freed. *)
Lemma step_reclaim_free s t v p :
  ninv s -> threads s !! t = Some (RFree v p) ->
  ninv (Ncache None (delete p (heap s)) (list_remove p (buckets s)) (kern s)
          (<[t := RClear v]> (threads s))).
Proof.
  intros I Et. pose proof (i_thread s I t _ Et) as [[Hs [n Hn]] _].
  destruct (raw_facts (delete p (heap s)) p) as (Hl' & _ & _). { right. by rewrite lookup_delete_eq. }
  assert (Hgone : forall q m, ~ linked (delete p (heap s)) q v m).
  { intros q m Hq. destruct (decide (q = p)) as [->|Hne]; [by apply (Hl' v m)|].
    apply Hne. eapply (linked_unique s q p v m n I); [|done]. unfold linked in *.
    by rewrite lookup_delete_ne in Hq. }
  destruct Hn as (En & Ea & Ev).
  rewrite <- (map_fmap_id (threads s)) at 1.
  apply (inv_heap id) with (l := p); rewrite ?(held_at _ _ _ Et); try done.
  - apply delete_other.
  - apply lm_drop; [rewrite (held_at _ _ _ Et); claim|]. claim.
  - claim.
  - claim.
  - split; [done|]. intros m Hm. claim.
  - intros t' k Hne Ek. apply frame_heap with (l := p).
    + apply delete_other.
    + congruence.
    + intros a _ (m & Em & Ha & _). congruence.
    + intros (m & Em & Ha & _). congruence.
    + intros u m (Em & _ & Hu). assert (u = v) as -> by congruence. intros [Ha|Hc]; [congruence|].
      destruct Hne. eapply (i_excl s I); [done..|]. claim.
    + intros u m Hx. by destruct (Hl' u m).
  - apply table_remove, I.
  - intros m. by rewrite lookup_delete_eq.
  - intros u m (Em & _ & Hu). assert (u = v) as -> by congruence. congruence.
Qed.

(** The kernel picks a vnode without references. *)
Lemma step_reclaim_begin s t v K' :
  ninv s -> threads s !! t = None -> reclaim_begin v (kern s) = Some K' ->
  ninv (Ncache (hash_mutex s) (heap s) (buckets s) K' (<[t := RStart v]> (threads s))).
Proof.
  intros I Et Hb. apply begin_law in Hb as (Ha & Hh & Hset).
  eapply inv_view; rewrite ?(held_none _ _ Et); cbn [vv_vid vv_state vv_fsnode vv_holders];
    [done|exact Hset|..]; try done.
  - apply lm_same. rewrite (held_none _ _ Et). claim.
  - claim. right. intros t' k Hne Ek Hc.
    apply (rec_claim _ _ _ _ _ (i_thread s I t' k Ek)) in Hc. congruence.
  - claim.
  - split; [|claim]. cbn. destruct Hset as [-> _]. split; [done|].
    destruct (i_alive s I v Ha) as [|(t' & k & Ek & Hc)]; [done|].
    apply (new_claim _ _ _ _ _ (i_thread s I t' k Ek)) in Hc as (? & ? & _ & _ & _ & Hin). set_solver.
  - intros t' _ _ Hin. set_solver.
  - right. claim.
Qed.

Lemma view_set_trans (K1 K2 K3 : vfs) v x y : view_set K1 K2 v x -> view_set K2 K3 v y -> view_set K1 K3 v y.
Proof. intros [_ H1] [E H2]. split; [done|]. intros w Hw. rewrite H2 by done. by apply H1. Qed.

(** The reclaimed vnode gets a new identity. *)
Lemma step_reclaim_finish s t v :
  ninv s -> threads s !! t = Some (RClear v) ->
  ninv (Ncache (hash_mutex s) (heap s) (buckets s)
          (reclaim_finish v (vnode_clearfsnode v (vnode_removefsref v (kern s)))) (delete t (threads s))).
Proof.
  intros I Et. pose proof (i_thread s I t _ Et) as [[Hs Hno] _].
  set (K1 := vnode_removefsref v (kern s)). set (K2 := vnode_clearfsnode v K1).
  destruct (finish_law K2 v) as (vid & Hvid & H3).
  pose proof (clearfsnode_law K1 v) as H2. cbn zeta in H2.
  pose proof (removefsref_law (kern s) v) as H1. fold K1 in H1. fold K2 in H2.
  destruct H2 as [E2 F2]. rewrite E2 in Hvid. cbn in Hvid. rewrite H1 in Hvid.
  assert (Hset : view_set (kern s) (reclaim_finish v K2) v (Vview VSdead vid None ∅)).
  { destruct H3 as [E3 F3]. split; [done|]. intros w Hw. by rewrite F3, F2, H1. }
  set (k' := FAlloc (Fargs 0 PROCFS_ROOT_NODE_ID 1)).
  rewrite <- (delete_insert_eq (threads s) t k').
  eapply inv_drop with (k := k'); [|by rewrite lookup_insert_eq|done]. subst k'.
  eapply inv_view; rewrite ?(held_at _ _ _ Et); cbn [vv_vid vv_state vv_fsnode vv_holders];
    [done|exact Hset|..]; try done; try lia; try congruence.
  - apply lm_same. rewrite (held_at _ _ _ Et). claim.
  - claim.
  - claim.
  - split; [done|claim].
  - cbn. lia.
  - cbn. lia.
  - intros t' k Hne Ek Hc. destruct Hne. eapply (i_excl s I); [done..|]. claim.
  - intros p n Hl. by destruct (Hno p n).
Qed.

(** The caller puts the vnode it got. *)
Lemma step_return s t a e target v :
  ninv s -> threads s !! t = Some (FDone a e target v) ->
  ninv (Ncache (hash_mutex s) (heap s) (buckets s)
          (match v with Some v' => vnode_put t v' (kern s) | None => kern s end) (delete t (threads s))).
Proof.
  intros I Et. destruct v as [v|]; [|by eapply inv_drop; [destruct s|..]].
  pose proof (put_law (kern s) t v) as Hset. cbn zeta in Hset.
  set (k' := FAlloc (Fargs 0 PROCFS_ROOT_NODE_ID 1)).
  rewrite <- (delete_insert_eq (threads s) t k').
  eapply inv_drop with (k := k'); [|by rewrite lookup_insert_eq|done]. subst k'.
  eapply inv_view; rewrite ?(held_at _ _ _ Et); cbn [vv_vid vv_state vv_fsnode vv_holders];
    [done|exact Hset|..]; try done; try lia.
  - apply lm_same. rewrite (held_at _ _ _ Et). claim.
  - claim.
  - claim.
  - split; [done|claim].
  - intros t' Hne Ha Hin. cbn. split_and!; [done..|set_solver].
  - intros p n Hl. split; [|done]. by eapply linked_fsnode.
  - by left.
  - by left.
Qed.

(** ** The invariant is preserved *)
Ltac flat := unfold procfsnode_free_node, goto, unlock, with_heap, with_buckets, with_kern, with_threads;
  cbn [hash_mutex heap buckets kern threads].

Lemma mutex_at s t k : ninv s -> threads s !! t = Some k -> RMutex ∈ claims k -> hash_mutex s = Some t.
Proof. intros I E Hc. by apply (i_lock s I) in E as E'; apply E'. Qed.

Lemma loop_head_inv s t a new :
  ninv s -> threads s !! t = Some (FTop a new) -> ninv (loop_head mask t a new s).
Proof.
  intros I Et. unfold loop_head. pose proof (bucket_find_spec (heap s) a (buckets s) (i_table s I)) as Hf.
  change (bucket s (bucket_of mask a)) with (bkt (buckets s) (bucket_of mask a)).
  destruct (bucket_find _ _ _) as [[[p n]|]|]; [|destruct new as [p|]|done].
  - destruct Hf as [Ep Ek]. unfold with_target, goto, unlock, with_heap. cbn [hash_mutex heap buckets kern threads].
    destruct (node_attaching_vnode n) eqn:Ea; [by apply step_sleep|].
    destruct (node_vnode n) as [v|] eqn:Ev; [by eapply step_get|].
    pose proof (i_node s I p n Ep) as Hn. unfold node_ok in Hn. rewrite Ea in Hn. naive_solver.
  - assert (Ep : heap s !! p = Some None).
    { apply (i_thread s I t _ Et). cbn [claims own_res]. rewrite decide_False by done. set_solver. }
    rewrite Ep. unfold with_target, goto, unlock, with_heap, with_buckets.
    cbn [hash_mutex heap buckets kern threads init_node node_attaching_vnode node_vnode].
    rewrite insert_insert_eq. by apply step_insert.
  - unfold goto, unlock. cbn [hash_mutex heap buckets kern threads]. by apply step_alloc.
Qed.

Lemma attach_inv s t a new p e v :
  ninv s -> threads s !! t = Some (FAttach a new p e v) -> ninv (attach t a new p e v s).
Proof.
  intros I Et. pose proof (i_thread s I t _ Et) as [[(n & En & Ea & _) Hv] _].
  unfold attach. rewrite En.
  assert (Ew : (if node_thread_waiting_attach (set_attaching false n)
                then set_waiting false (set_attaching false n) else set_attaching false n)
               = set_waiting false (set_attaching false n)).
  { destruct n as [? ? [|] ? ? ?]; reflexivity. }
  rewrite Ew.
  assert (Eth : (if node_thread_waiting_attach (set_attaching false n)
                 then wake p <$> threads s else threads s)
                = waker p (node_thread_waiting_attach n) <$> threads s).
  { unfold waker. cbn. destruct (node_thread_waiting_attach n); [done|]. by rewrite map_fmap_id. }
  rewrite Eth.
  unfold goto, unlock, procfsnode_free_node, with_heap, with_buckets, with_kern, with_threads.
  cbn [hash_mutex heap buckets kern threads]. destruct v as [v|].
  - destruct Hv as [-> _]. cbn [hash_mutex heap buckets kern threads Z.eqb].
    rewrite insert_insert_eq. apply inv_ext with (K := kern s); [|apply addfsref_law].
    by apply step_attached.
  - rewrite (proj2 (Z.eqb_neq e 0) Hv). cbn [hash_mutex heap buckets kern threads].
    rewrite delete_insert_eq. by eapply step_attach_failed.
Qed.

Lemma leave_inv s t a new target e v :
  ninv s -> threads s !! t = Some (FLeave a new target e v) -> ninv (leave t a new target e v s).
Proof.
  intros I Et. pose proof (i_thread s I t _ Et) as [Hok Ho]. unfold leave.
  set (k' := FDone a e (if e =? 0 then target else None) (if e =? 0 then v else None)).
  assert (Hpc : pc_ok (heap s) (vnode_view (kern s)) t (FLeave a new target e v) ->
                pc_ok (heap s) (vnode_view (kern s)) t k').
  { cbn. intros Hx E. rewrite E, Z.eqb_refl. by apply Hx. }
  assert (Hmove : ninv (goto t k' s)).
  { destruct s as [m h b K th]. apply (inv_move (Ncache m h b K th)); rewrite ?(held_at _ _ _ Et); auto.
    - apply lm_same. rewrite (held_at _ _ _ Et). cbn [claims].
      split; intros Hx; exfalso; [by apply own_no_mutex in Hx|set_solver].
    - claim.
    - intros r Hr. left. right. cbn [claims] in Hr. by apply not_own_res in Hr. }
  destruct new as [n|]; [|done]. destruct (decide (target = Some n)) as [|Hne]; [done|].
  assert (En : heap s !! n = Some None) by (apply Ho; by apply elem_own_res).
  rewrite En. unfold goto, with_heap. cbn [hash_mutex heap buckets kern threads].
  eapply step_free_unused; try done. unfold k'. eauto.
Qed.

Lemma run_inv s t s' : ninv s -> run_thread mask t s = Some s' -> ninv s'.
Proof.
  intros I. unfold run_thread. destruct (threads s !! t) as [k|] eqn:Et; [|done].
  pose proof (i_thread s I t k Et) as [Hok Ho].
  destruct k as [a new|a new|a|a new p|a new p v vid|a new p|a new p e v|a new p e v|a new tg e v
                |a e tg v|v|v p|v p|v|]; try done.
  - apply (thread_move_lock s t _ _ I Et); [done|apply own_no_mutex|done].
  - intros [= <-]. by apply loop_head_inv.
  - destruct (vnode_getwithvid t v vid (kern s)) as [[e K']|] eqn:Eg; [|done]. intros [= <-].
    destruct (Z.eqb_spec e 0) as [->|He]; flat; [by eapply step_got|by eapply step_retry].
  - apply (thread_move_lock s t _ _ I Et); [done| |done]. cbn [claims]. rewrite elem_of_cons, elem_of_app.
    intros [?|[(? & _ & ?)%in_new_res|Hx]]; try done. by apply own_no_mutex in Hx.
  - intros [= <-]. by apply attach_inv.
  - intros [= <-]. by apply leave_inv.
  - destruct Hok as (Hs & p & n & Hf & Hl). rewrite fsnode_law, Hf. intros [= <-].
    destruct s as [m h b K th]. apply (inv_move (Ncache m h b K th)); rewrite ?(held_at _ _ _ Et); try claim; [done| |].
    + apply lm_same. rewrite (held_at _ _ _ Et). claim.
    + cbn. eauto.
  - apply (thread_move_lock s t _ _ I Et); [done| |done]. claim.
  - destruct Hok as (Hs & n & En & _). rewrite En. intros [= <-]. flat. by eapply step_reclaim_free.
  - intros [= <-]. by apply step_reclaim_finish.
Qed.

Lemma nstep_inv l s s' : ninv s -> nstep mask l s = Some s' -> ninv s'.
Proof.
  intros I. destruct l as [t a|t|t v|t r|t c|t]; cbn [nstep]; [..|by apply run_inv];
    destruct (threads s !! t) as [k|] eqn:Et; try done.
  - intros [= <-]. destruct s as [m h b K th].
    apply (inv_move (Ncache m h b K th)); cbn [threads hash_mutex] in *; rewrite ?(held_none _ _ Et); try claim; [done|].
    apply lm_same. rewrite (held_none _ _ Et). claim.
  - destruct k as [| | | | | | | | |a e tg v| | | | |]; try done. intros [= <-]. by eapply step_return.
  - destruct (reclaim_begin v (kern s)) as [K'|] eqn:Eb; [|done]. intros [= <-]. flat. by apply step_reclaim_begin.
  - destruct k as [| |a| | | | | | | | | | | |]; try done. destruct r as [p|].
    + destruct (heap s !! p) eqn:Ep; [done|]. intros [= <-]. flat. by apply step_allocated.
    + intros [= <-]. destruct s as [m h b K th].
      apply (inv_move (Ncache m h b K th)); cbn [threads hash_mutex] in *; rewrite ?(held_at _ _ _ Et); try claim; [done|].
      apply lm_same. rewrite (held_at _ _ _ Et). claim.
  - destruct k as [| | | | |a new p| | | | | | | | |]; try done.
    pose proof (i_thread s I t _ Et) as [(n & En & _) _]. rewrite En.
    destruct (vnode_create t p c (kern s)) as [[e|v] K'] eqn:Ec; intros [= <-].
    + apply create_err in Ec as [He Hs]. flat. apply inv_ext with (K := kern s); [|done].
      destruct s as [m h b K th]. apply (inv_move (Ncache m h b K th)); cbn [threads hash_mutex kern] in *;
        rewrite ?(held_at _ _ _ Et); try claim; [done| |].
      * apply lm_same. rewrite (held_at _ _ _ Et). claim.
      * split; [|done]. by apply (i_thread _ I t _ Et).
    + apply create_ok in Ec as (Hd & vid & Hvid & Hset). flat. by eapply step_created.
Qed.

Lemma init_inv k0 : (forall v, vv_state (vnode_view k0 v) = VSdead) -> ninv (ncache_init k0).
Proof.
  intros Hd. split; cbn.
  - split; [|done]. intros t k. by rewrite lookup_empty.
  - intros t1 t2 k1 k2 r. by rewrite lookup_empty.
  - intros t k. by rewrite lookup_empty.
  - split; unfold key_at, bkt; intros *; rewrite ?lookup_empty; cbn; [set_solver|done|done].
  - intros p n. by rewrite lookup_empty.
  - intros v. by rewrite Hd.
  - intros v. by rewrite Hd.
Qed.

(** ** Consequences for reachable states *)
Definition procfs_idle (k0 : vfs) : Prop := forall v, vv_state (vnode_view k0 v) = VSdead.

Lemma reach_inv k0 s : procfs_idle k0 -> reach (nstep mask) (ncache_init k0) s -> ninv s.
Proof.
  intros Hd. apply reach_invariant; [by apply init_inv|]. intros l s1 s2. apply nstep_inv.
Qed.

(** Steps of threads that are inside a call, other than its return. *)
Definition internal (l : nlabel) : bool :=
  match l with LAlloc _ _ | LCreate _ _ | LRun _ => true | _ => false end.

Definition can_step (s : ncache vfs) : Prop :=
  exists l s', internal l = true /\ nstep mask l s = Some s'.

Lemma holder_steps s t k : threads s !! t = Some k -> RMutex ∈ claims k -> can_step s.
Proof.
  intros Et Hc. exists (LRun t). cbn [nstep]. unfold run_thread. rewrite Et.
  assert (Ho : forall new target, RMutex ∉ own_res new target) by (by intros ? ? [? ?]%not_own_res).
  assert (Hn : forall v, RMutex ∉ new_res v) by (by intros ? (? & _ & ?)%in_new_res).
  destruct k; cbn [claims] in Hc; rewrite ?elem_of_cons, ?elem_of_app, ?elem_of_nil in Hc; try naive_solver.
  destruct (heap s !! p) as [[n|]|]; eauto.
Qed.

Lemma lock_steps s t k k' :
  hash_mutex s = None -> threads s !! t = Some k ->
  run_thread mask t s = lck_mtx_lock t k' s -> can_step s.
Proof.
  intros Em Et Hr. exists (LRun t). cbn [nstep]. rewrite Hr. unfold lck_mtx_lock. rewrite Em. eauto.
Qed.

(** The thread that attaches, or reclaims, can go on when the lock is free. *)
Lemma attacher_steps s p : hash_mutex s = None -> has (threads s) (RAtt p) -> can_step s.
Proof.
  intros Em (t & k & Et & Hc).
  assert (Ho : forall new target, RAtt p ∉ own_res new target) by (by intros ? ? [? ?]%not_own_res).
  destruct k as [a new|a new|a|a new q|a new q v vid|a new q|a new q e v|a new q e v|a new tg e v
                |a e tg v|v|v q|v q|v|]; cbn [claims] in Hc;
    try (rewrite ?elem_of_cons, ?elem_of_nil in Hc; naive_solver).
  - exists (LCreate t 0). cbn [nstep]. rewrite Et. destruct (heap s !! q) as [[n|]|]; [|eauto..].
    destruct (vnode_create t q 0 (kern s)) as [[e|v] K]; eauto.
  - eapply lock_steps; [done..|]. unfold run_thread. by rewrite Et.
  - eapply holder_steps; [done|]. cbn [claims]. set_solver.
Qed.

Lemma reclaimer_steps s v : hash_mutex s = None -> has (threads s) (RRec v) -> can_step s.
Proof.
  intros Em (t & k & Et & Hc).
  assert (Ho : forall new target, RRec v ∉ own_res new target) by (by intros ? ? [? ?]%not_own_res).
  assert (Hn : forall u, RRec v ∉ new_res u) by (by intros ? (? & _ & ?)%in_new_res).
  destruct k as [a new|a new|a|a new q|a new q u vid|a new q|a new q e u|a new q e u|a new tg e u
                |a e tg u|u|u q|u q|u|]; cbn [claims] in Hc;
    try (rewrite ?elem_of_cons, ?elem_of_app, ?elem_of_nil in Hc; naive_solver).
  - exists (LRun t). cbn [nstep]. unfold run_thread. rewrite Et. destruct (vnode_fsnode (kern s) u); eauto.
  - eapply lock_steps; [done..|]. unfold run_thread. by rewrite Et.
  - eapply holder_steps; [done|]. cbn [claims]. set_solver.
  - exists (LRun t). cbn [nstep]. unfold run_thread. rewrite Et. eauto.
Qed.

Lemma inv_can_step s t k :
  ninv s -> threads s !! t = Some k -> (forall a e tg v, k <> FDone a e tg v) -> can_step s.
Proof.
  intros I Et Hnd. destruct (hash_mutex s) as [th|] eqn:Em.
  { destruct (i_lock s I) as [L1 L2]. destruct (L2 th Em) as [kh Eh]. eapply holder_steps; [done|]. by apply (L1 th). }
  pose proof (i_thread s I t k Et) as [Hok _].
  destruct k as [a new|a new|a|a new q|a new q v vid|a new q|a new q e v|a new q e v|a new tg e v
                |a e tg v|v|v q|v q|v|].
  - eapply lock_steps; [done..|]. unfold run_thread. by rewrite Et.
  - eapply holder_steps; [done|]. cbn [claims]. set_solver.
  - exists (LAlloc t None). cbn [nstep]. rewrite Et. eauto.
  - destruct Hok as (n & En & Ea & _). pose proof (i_node s I q n En) as Hn. unfold node_ok in Hn.
    rewrite Ea in Hn. apply (attacher_steps s q); [done|apply Hn].
  - destruct (vnode_getwithvid t v vid (kern s)) as [[e K]|] eqn:Eg.
    + exists (LRun t). cbn [nstep]. unfold run_thread. rewrite Et, Eg. eauto.
    + apply get_blocks in Eg. apply (reclaimer_steps s v); [done|]. by apply (i_reclaim s I).
  - apply (attacher_steps s q); [done|]. exists t. eexists. split; [done|]. cbn [claims]. set_solver.
  - apply (attacher_steps s q); [done|]. exists t. eexists. split; [done|]. cbn [claims]. set_solver.
  - eapply holder_steps; [done|]. cbn [claims]. set_solver.
  - exists (LRun t). cbn [nstep]. unfold run_thread. rewrite Et. eauto.
  - by destruct (Hnd a e tg v).
  - apply (reclaimer_steps s v); [done|]. exists t. eexists. split; [done|]. cbn [claims]. set_solver.
  - apply (reclaimer_steps s v); [done|]. exists t. eexists. split; [done|]. cbn [claims]. set_solver.
  - eapply holder_steps; [done|]. cbn [claims]. set_solver.
  - apply (reclaimer_steps s v); [done|]. exists t. eexists. split; [done|]. cbn [claims]. set_solver.
  - done.
Qed.

End Invariant.

(** ** Properties *)
Section Properties.
Context {vfs : Type} `{VnodeLaws vfs}.

(** C1. Memory safety of the node cache: from an idle file system, under any
    interleaving of lookups and reclaims, no thread dereferences or frees a
    node that is not allocated, or walks over one that is not initialised. *)
Theorem node_cache_safe mask (k0 : vfs) s t :
  procfs_idle k0 -> reach (nstep mask) (ncache_init k0) s -> threads s !! t <> Some Fault.
Proof. intros Hi Hr E. apply (reach_inv mask) in Hr; [|done]. by apply (i_thread _ s Hr t) in E as [? _]. Qed.

(** C2. "There must only ever be one node for each unique identifier": in every
    reachable state, two nodes of the hash table with the same mount and id are one
    node; so two calls that returned for the same mount and id hold the same node and
    the same vnode. *)
Theorem one_node_per_id mask (k0 : vfs) s : procfs_idle k0 -> reach (nstep mask) (ncache_init k0) s ->
  (forall i j p q n m, p ∈ bkt (buckets s) i -> q ∈ bkt (buckets s) j -> heap s !! p = Some (Some n) -> heap s !! q = Some (Some m) ->
     node_mnt_id n = node_mnt_id m -> node_id n = node_id m -> p = q)
  /\ (forall t1 t2 a1 a2 p1 p2 v1 v2,
        threads s !! t1 = Some (FDone a1 0 p1 v1) -> threads s !! t2 = Some (FDone a2 0 p2 v2) ->
        fa_mnt a1 = fa_mnt a2 -> fa_id a1 = fa_id a2 -> p1 = p2 /\ v1 = v2).
Proof.
  intros Hi Hr. apply (reach_inv mask) in Hr as I; [|done]. split.
  - intros i j p q n m _ _ Hp Hq Em Ei. apply (tb_unique _ _ _ (i_table _ s I)) with (key := nkey n).
    + by apply key_at_node.
    + rewrite (key_at_node _ _ _ Hq). unfold nkey. congruence.
  - intros t1 t2 a1 a2 p1 p2 v1 v2 E1 E2 Em Ei. apply (i_thread _ s I) in E1 as [O1 _], E2 as [O2 _].
    destruct (O1 eq_refl) as (q1 & u1 & n1 & -> & -> & _ & (L1 & _ & V1) & K1).
    destruct (O2 eq_refl) as (q2 & u2 & n2 & -> & -> & _ & (L2 & _ & V2) & K2).
    assert (q1 = q2) as ->.
    { apply (tb_unique _ _ _ (i_table _ s I)) with (key := akey a1).
      - by rewrite (key_at_node _ _ _ L1), K1.
      - rewrite (key_at_node _ _ _ L2), K2. unfold akey. congruence. }
    split; [done|]. congruence.
Qed.

(** C3. What a successful lookup returns: a node for the requested mount and
    id, initialised and linked to the returned vnode; the vnode is in use, is
    linked back to the node, and the caller holds a reference on it. *)
Theorem find_result mask (k0 : vfs) s t a target v :
  procfs_idle k0 -> reach (nstep mask) (ncache_init k0) s ->
  threads s !! t = Some (FDone a 0 target v) ->
  exists p v' n, target = Some p /\ v = Some v' /\ heap s !! p = Some (Some n)
    /\ node_mnt_id n = fa_mnt a /\ node_id n = fa_id a /\ node_vnode n = Some v'
    /\ vv_state (vnode_view (kern s) v') = VSalive
    /\ vv_fsnode (vnode_view (kern s) v') = Some p /\ t ∈ vv_holders (vnode_view (kern s) v').
Proof.
  intros Hi Hr E. apply (reach_inv mask) in Hr as I; [|done]. apply (i_thread _ s I) in E as [O _].
  destruct (O eq_refl) as (p & v' & n & -> & -> & (R1 & R2 & R3) & (L & _ & V) & K).
  exists p, v', n. unfold nkey, akey in K. split_and!; congruence.
Qed.

(** C19. A sleeping lookup is never forgotten: the node it sleeps on exists, is
    marked as awaited, and some thread is attaching its vnode. *)
Theorem no_lost_wakeup mask (k0 : vfs) s t a new p :
  procfs_idle k0 -> reach (nstep mask) (ncache_init k0) s ->
  threads s !! t = Some (FSleep a new p) ->
  (exists n, heap s !! p = Some (Some n) /\ node_attaching_vnode n = true
             /\ node_thread_waiting_attach n = true)
  /\ exists t' k, threads s !! t' = Some k
     /\ (exists a' new', k = FCreate a' new' p
         \/ exists e v, k = FRelock a' new' p e v \/ k = FAttach a' new' p e v).
Proof.
  intros Hi Hr E. apply (reach_inv mask) in Hr as I; [|done].
  apply (i_thread _ s I) in E as [(n & En & Ea & Ew) _]. split; [by exists n|].
  pose proof (i_node _ s I p n En) as Hn. unfold node_ok in Hn. rewrite Ea in Hn.
  destruct Hn as [_ (t' & k & Ek & Hc)]. exists t', k. split; [done|].
  assert (Ho : forall x y, RAtt p ∉ own_res x y) by (by intros ? ? [? ?]%not_own_res).
  assert (Hv : forall x, RAtt p ∉ new_res x) by (by intros ? (? & _ & ?)%in_new_res).
  destruct k; cbn [claims] in Hc; rewrite ?elem_of_cons, ?elem_of_app, ?elem_of_nil in Hc; naive_solver.
Qed.

(** The attaching thread wakes every sleeper of its node, whether or not
    the vnode could be created, and releases the lock. *)
Theorem attach_wakes mask (k0 : vfs) s s' t a new p e v :
  procfs_idle k0 -> reach (nstep mask) (ncache_init k0) s ->
  threads s !! t = Some (FAttach a new p e v) -> nstep mask (LRun t) s = Some s' ->
  hash_mutex s' = None /\ forall t' a' new', threads s' !! t' <> Some (FSleep a' new' p).
Proof.
  intros Hi Hr E Hs. apply (reach_inv mask) in Hr as I; [|done].
  assert (I' : ninv mask s') by (by eapply nstep_inv).
  pose proof (i_thread _ s I t _ E) as [[(n & En & Ea & Ev & _) Hv] _].
  cbn [nstep] in Hs. unfold run_thread in Hs. rewrite E in Hs. injection Hs as <-.
  split; [unfold attach; rewrite En; destruct (e =? 0), v; reflexivity|].
  intros t' a' new' Ht'. apply (i_thread _ _ I') in Ht' as [(m & Em & Ha & _) _]. revert Em Ha.
  unfold attach. rewrite En. destruct (e =? 0), v; cbn;
    rewrite ?lookup_insert_eq, ?lookup_delete_eq; try done;
    intros [= <-]; by destruct (node_thread_waiting_attach n).
Qed.

(** C20. Freedom from deadlock: as long as some lookup or reclaim is under way,
    some thread inside a call can take a step. *)
Theorem node_cache_progress mask (k0 : vfs) s t k :
  procfs_idle k0 -> reach (nstep mask) (ncache_init k0) s ->
  threads s !! t = Some k -> (forall a e tg v, k <> FDone a e tg v) ->
  exists l s', internal l = true /\ nstep mask l s = Some s'.
Proof. intros Hi Hr. apply (reach_inv mask) in Hr as I; [|done]. by apply inv_can_step. Qed.

(** The hash lock excludes: at most one thread is at a point that works on
    the table, and it is the recorded owner of the lock. *)
Theorem hash_lock_exclusion mask (k0 : vfs) s t1 t2 k1 k2 :
  procfs_idle k0 -> reach (nstep mask) (ncache_init k0) s ->
  threads s !! t1 = Some k1 -> threads s !! t2 = Some k2 ->
  RMutex ∈ claims k1 -> RMutex ∈ claims k2 -> t1 = t2 /\ hash_mutex s = Some t1.
Proof.
  intros Hi Hr E1 E2 C1 C2. apply (reach_inv mask) in Hr as I; [|done]. split.
  - by eapply (i_excl _ s I).
  - by apply (proj1 (i_lock _ s I) t1 k1 E1).
Qed.

End Properties.

(** ** Executions on the concrete vnode table *)
Import Vtable.

Definition vt0 : vtable := Vt ∅.
Definition mask0 : Z := 63.
Definition arg_init : fargs := Fargs 1 (Pfsid 1 0 150) 1.

Lemma vt0_idle : procfs_idle vt0.
Proof. intros v. cbn. unfold view, vt0. cbn [vt_map]. by rewrite lookup_empty. Qed.

Lemma reach_run ls s : run (nstep mask0) ls (ncache_init vt0) = Some s ->
  reach (nstep mask0) (ncache_init vt0) s.
Proof. intros Hr. eapply run_reach; [apply reach_init|done]. Qed.

Definition final (ls : list nlabel) : ncache vtable :=
  default (ncache_init vt0) (run (nstep mask0) ls (ncache_init vt0)).

(** Thread 1 creates node 10 with vnode 5. *)
Definition trace_create : list nlabel :=
  [LCall 1 arg_init; LRun 1; LRun 1; LAlloc 1 (Some 10%positive); LRun 1; LRun 1; LCreate 1 5;
   LRun 1; LRun 1; LRun 1].

(** Thread 2 looks the same node up, while 1 still holds it. *)
Definition trace_two : list nlabel :=
  trace_create ++ [LCall 2 arg_init; LRun 2; LRun 2; LRun 2; LRun 2].

(** Thread 2 arrives while thread 1 is creating the vnode, and sleeps. *)
Definition trace_sleep : list nlabel :=
  [LCall 1 arg_init; LRun 1; LRun 1; LAlloc 1 (Some 10%positive); LRun 1; LRun 1;
   LCall 2 arg_init; LRun 2; LRun 2].

(** The same, up to the point where thread 1 has the vnode and the lock. *)
Definition trace_attach : list nlabel := trace_sleep ++ [LCreate 1 5; LRun 1].

Lemma trace_ok ls : is_Some (run (nstep mask0) ls (ncache_init vt0)) ->
  reach (nstep mask0) (ncache_init vt0) (final ls).
Proof. intros [s E]. unfold final. rewrite E. cbn. by apply (reach_run ls). Qed.

Lemma node_cache_safe_witness :
  procfs_idle vt0 /\ reach (nstep mask0) (ncache_init vt0) (final trace_create)
  /\ threads (final trace_create) !! 1%positive <> Some Fault.
Proof.
  assert (Hr : reach (nstep mask0) (ncache_init vt0) (final trace_create))
    by (apply trace_ok; vm_compute; eauto).
  split; [apply vt0_idle|]. split; [exact Hr|].
  exact (node_cache_safe mask0 vt0 _ 1%positive vt0_idle Hr).
Defined.

Lemma one_node_per_id_witness :
  threads (final trace_two) !! 1%positive = Some (FDone arg_init 0 (Some 10%positive) (Some 5%positive))
  /\ threads (final trace_two) !! 2%positive = Some (FDone arg_init 0 (Some 10%positive) (Some 5%positive))
  /\ Some 10%positive = Some 10%positive /\ Some 5%positive = Some 5%positive.
Proof.
  split; [vm_compute; reflexivity|]. split; [vm_compute; reflexivity|].
  apply (one_node_per_id mask0 vt0 (final trace_two) vt0_idle) with (t1 := 1%positive) (t2 := 2%positive) (a1 := arg_init) (a2 := arg_init);
    [apply trace_ok; vm_compute; eauto|vm_compute; reflexivity..].
Defined.

Lemma find_result_witness :
  exists p v' n, Some 10%positive = Some p /\ Some 5%positive = Some v'
    /\ heap (final trace_create) !! p = Some (Some n)
    /\ node_mnt_id n = fa_mnt arg_init /\ node_id n = fa_id arg_init /\ node_vnode n = Some v'
    /\ vv_state (vnode_view (kern (final trace_create)) v') = VSalive
    /\ vv_fsnode (vnode_view (kern (final trace_create)) v') = Some p
    /\ 1%positive ∈ vv_holders (vnode_view (kern (final trace_create)) v').
Proof.
  apply (find_result mask0 vt0 (final trace_create) 1);
    [apply vt0_idle|apply trace_ok; vm_compute; eauto|vm_compute; reflexivity].
Defined.

Lemma no_lost_wakeup_witness :
  threads (final trace_sleep) !! 2%positive = Some (FSleep arg_init None 10)
  /\ ((exists n, heap (final trace_sleep) !! 10%positive = Some (Some n)
         /\ node_attaching_vnode n = true /\ node_thread_waiting_attach n = true)
      /\ exists t' k, threads (final trace_sleep) !! t' = Some k
         /\ (exists a' new', k = FCreate a' new' 10
             \/ exists e v, k = FRelock a' new' 10 e v \/ k = FAttach a' new' 10 e v)).
Proof.
  split; [vm_compute; reflexivity|].
  apply (no_lost_wakeup mask0 vt0 (final trace_sleep) 2 arg_init None);
    [apply vt0_idle|apply trace_ok; vm_compute; eauto|vm_compute; reflexivity].
Defined.

Lemma attach_wakes_witness :
  exists s', nstep mask0 (LRun 1) (final trace_attach) = Some s'
    /\ hash_mutex s' = None /\ forall t' a' new', threads s' !! t' <> Some (FSleep a' new' 10).
Proof.
  destruct (nstep mask0 (LRun 1) (final trace_attach)) as [s'|] eqn:E; [|vm_compute in E; discriminate E].
  exists s'. split; [reflexivity|].
  apply (attach_wakes mask0 vt0 (final trace_attach) s' 1 arg_init (Some 10%positive) 10 0 (Some 5%positive));
    [apply vt0_idle|apply trace_ok; vm_compute; eauto|vm_compute; reflexivity|exact E].
Defined.

Lemma node_cache_progress_witness :
  exists l s', internal l = true /\ nstep mask0 l (final trace_sleep) = Some s'.
Proof.
  apply (node_cache_progress mask0 vt0 (final trace_sleep) 2 (FSleep arg_init None 10));
    [apply vt0_idle|apply trace_ok; vm_compute; eauto|vm_compute; reflexivity|discriminate].
Defined.

Lemma hash_lock_exclusion_witness :
  1%positive = 1%positive /\ hash_mutex (final trace_attach) = Some 1%positive.
Proof.
  apply (hash_lock_exclusion mask0 vt0 (final trace_attach) 1 1
           (FAttach arg_init (Some 10%positive) 10 0 (Some 5%positive))
           (FAttach arg_init (Some 10%positive) 10 0 (Some 5%positive)));
    [apply vt0_idle|apply trace_ok; vm_compute; eauto|vm_compute; reflexivity..| |]; cbn; set_solver.
Defined.

(** Thread 2 allocates node 11 while thread 1 creates the node; when 2 finds
    it, the vnode is already being reclaimed, vnode_getwithvid fails, and 2
    forgets node 11. *)
Definition trace_leak : list nlabel :=
  [LCall 1 arg_init; LRun 1; LRun 1; LCall 2 arg_init; LRun 2; LRun 2;
   LAlloc 1 (Some 10%positive); LRun 1; LRun 1; LCreate 1 5; LRun 1; LRun 1; LRun 1; LReturn 1;
   LAlloc 2 (Some 11%positive); LRun 2; LRun 2;
   LReclaim 3 5; LRun 3; LRun 3; LRun 3; LRun 3;
   LRun 2; LRun 2; LRun 2; LAlloc 2 None; LRun 2; LReturn 2].

(** The retry path leaks: in this run every call has returned and the table
    is empty, yet a node allocated by [procfsnode_find] is still there. *)
Theorem retry_leaks_node :
  option_map (fun s => (bool_decide (threads s = ∅), heap s !! 11%positive,
                        bkt (buckets s) (bucket_of mask0 arg_init)))
    (run (nstep mask0) trace_leak (ncache_init vt0))
  = Some (true, Some None, []).
Proof. vm_compute. reflexivity. Qed.

(** The bucket index is inside the table: with a mask of [2^k - 1] it is
    one of the [2^k] buckets, whatever the mount and id. *)
Theorem bucket_in_table mount_id id k :
  0 <= k -> 0 <= bucket_index (2 ^ k - 1) (HASH_FOR_MOUNT_AND_ID mount_id id) < 2 ^ k.
Proof.
  intros Hk. unfold bucket_index. replace (2 ^ k - 1) with (Z.ones k) by (rewrite Z.ones_equiv; lia).
  rewrite Z.land_ones by lia. apply Z.mod_pos_bound. by apply Z.pow_pos_nonneg.
Qed.

Lemma bucket_in_table_witness :
  0 <= bucket_index (2 ^ 6 - 1) (HASH_FOR_MOUNT_AND_ID 1 (Pfsid 501 18446744073709551615 120)) < 2 ^ 6.
Proof. apply (bucket_in_table 1 (Pfsid 501 18446744073709551615 120) 6). lia. Defined.
