(* ===== verification/Sysctl.v ===== *)
(** * The sysctl mirror behind /proc/sys (kext/procfs_sysctl.c)

    The tree of [sysctl_oid] structures belongs to the kernel; it is a
    parameter, [sysctl__children], a forest of oids with their addresses.
    An object id is the address of an oid, 0 for the root, or a small
    sentinel for the synthetic entries.  Using an object id that is not the
    address of an oid as a pointer is the result [None]. *)
From S2P Require Import Prelude Kernel PfsTypes Text Version Subr.
From Stdlib Require Import ZArith Lia String Ascii.
From stdpp Require Import base list numbers strings sets.
Open Scope Z_scope.

(** ** The kernel's oid structures *)
Inductive oid := Oid {
  oid_addr : Z;
  oid_name : option string;
  oid_kind : Z;
  oid_number : Z;
  oid_fmt : option string;
  oid_arg1 : option (list oid)   (* the child list of a CTLTYPE_NODE *)
}.

Definition CTLTYPE : Z := 15.
Definition CTLTYPE_NODE : Z := 1.
Definition CTLTYPE_INT : Z := 2.
Definition CTLTYPE_STRING : Z := 3.
Definition CTLTYPE_QUAD : Z := 4.
Definition CTLFLAG_MASKED : Z := 67108864.     (* 0x04000000 *)
Definition OID_MUTABLE_ANCHOR : Z := -2147483648.

Definition PROCFS_SYN_RANDOM : Z := 1.
Definition PROCFS_SYN_RANDOM_BOOT_ID : Z := 2.
Definition PROCFS_SYN_RANDOM_ENTROPY : Z := 3.
Definition PROCFS_SYN_RANDOM_POOLSIZE : Z := 4.
Definition PROCFS_SYN_RANDOM_UUID : Z := 5.
Definition PROCFS_SYN_MAX : Z := 6.
Definition PROCFS_SYN_IS (id : Z) : bool := (PROCFS_SYN_RANDOM <=? id) && (id <? PROCFS_SYN_MAX).

Definition procfs_random_leaves : list (string * Z) :=
  [("boot_id"%string, PROCFS_SYN_RANDOM_BOOT_ID);
   ("entropy_avail"%string, PROCFS_SYN_RANDOM_ENTROPY);
   ("poolsize"%string, PROCFS_SYN_RANDOM_POOLSIZE);
   ("uuid"%string, PROCFS_SYN_RANDOM_UUID)].

Definition PROCFS_RANDOM_POOLSIZE_BITS : Z := 256.
Definition PROCFS_REQ_SYSCTL : Z := 7.
Definition PROCFS_CTL_NAMEMAX : Z := 256.

Definition is_ctl_node (o : oid) : bool := Z.land (oid_kind o) CTLTYPE =? CTLTYPE_NODE.

(** First success of [f] along a list: the SLIST_FOREACH that returns. *)
Definition first_some {A B} (f : A -> option B) : list A -> option B :=
  fix go l := match l with
              | [] => None
              | x :: l' => match f x with Some r => Some r | None => go l' end
              end.

(** The oids below (and including) an oid, as far as the walks go. *)
Fixpoint oid_nodes (o : oid) : list oid :=
  o :: match o with
       | Oid _ _ k _ _ (Some l) => if Z.land k CTLTYPE =? CTLTYPE_NODE then flat_map oid_nodes l else []
       | _ => []
       end.

(** The children a walk descends into. *)
Definition subs (o : oid) : list oid := if is_ctl_node o then default [] (oid_arg1 o) else [].

Definition name_is (name : string) (o : oid) : bool :=
  match oid_name o with Some n => String.eqb n name | None => false end.

Section Tree.
Variable sysctl__children : list oid.

(** The oid structure at an address. *)
Definition oid_at (objectid : Z) : option oid :=
  List.find (fun o => oid_addr o =? objectid) (flat_map oid_nodes sysctl__children).

Definition procfs_sysctl_kern_objectid : Z :=
  match List.find (name_is "kern") sysctl__children with
  | Some o => oid_addr o
  | None => 0
  end.

Definition procfs_sysctl_children (objectid : Z) : option (option (list oid)) :=
  if objectid =? 0 then Some (Some sysctl__children)
  else match oid_at objectid with
       | None => None
       | Some o => if negb (is_ctl_node o) then Some None else Some (oid_arg1 o)
       end.

Definition procfs_sysctl_hidden (o : oid) : bool :=
  match oid_name o with None => true | Some _ => false end
  || negb (Z.land (oid_kind o) CTLFLAG_MASKED =? 0)
  || (oid_number o =? OID_MUTABLE_ANCHOR).

Definition procfs_sysctl_is_node (objectid : Z) : option bool :=
  if objectid =? 0 then Some true
  else if PROCFS_SYN_IS objectid then Some (objectid =? PROCFS_SYN_RANDOM)
  else is_ctl_node <$> oid_at objectid.

(** The kernel/kern alias of the /proc/sys root. *)
Definition sysctl_alias (dir_objectid : Z) (name : string) : string :=
  if (dir_objectid =? 0) && String.eqb name "kernel" then "kern"%string else name.

(** [Some None]: no such child. *)
Definition procfs_sysctl_find (dir_objectid : Z) (name : string) : option (option Z) :=
  let name := sysctl_alias dir_objectid name in
  if dir_objectid =? PROCFS_SYN_RANDOM then
    Some (snd <$> List.find (fun '(n, _) => String.eqb name n) procfs_random_leaves)
  else
    match procfs_sysctl_children dir_objectid with
    | None => None
    | Some None => Some None
    | Some (Some l) =>
        match List.find (fun o => negb (procfs_sysctl_hidden o) && name_is name o) l with
        | Some o => Some (Some (oid_addr o))
        | None =>
            if String.eqb name "random" && (dir_objectid =? procfs_sysctl_kern_objectid)
            then Some (Some PROCFS_SYN_RANDOM) else Some None
        end
    end.

(** The index walk: [inl] the child found, [inr] the count at the end. *)
Fixpoint child_walk (l : list oid) (i index : Z) : oid + Z :=
  match l with
  | [] => inr i
  | o :: l' => if procfs_sysctl_hidden o then child_walk l' i index
               else if i =? index then inl o
               else child_walk l' (i + 1) index
  end.

(** (name, is_node, objectid); [Some None]: past the end. *)
Definition procfs_sysctl_child_at (dir_objectid index : Z) : option (option (string * bool * Z)) :=
  if dir_objectid =? PROCFS_SYN_RANDOM then
    if (index <? 0) || (Z.of_nat (length procfs_random_leaves) <=? index) then Some None
    else Some ((fun '(n, id) => (n, false, id)) <$> procfs_random_leaves !! Z.to_nat index)
  else
    match procfs_sysctl_children dir_objectid with
    | None => None
    | Some None => Some None
    | Some (Some l) =>
        match child_walk l 0 index with
        | inl o => Some (Some (default ""%string (oid_name o), is_ctl_node o, oid_addr o))
        | inr i =>
            if (index =? i) && (dir_objectid =? procfs_sysctl_kern_objectid)
            then Some (Some ("random"%string, true, PROCFS_SYN_RANDOM)) else Some None
        end
    end.

(** One oid of the walk of [procfs_sysctl_build_name]. *)
Fixpoint build_name_oid (prefix : string) (target : Z) (o : oid) : option string :=
  match o with
  | Oid addr nm kind _ _ arg1 =>
      match nm with
      | None => None
      | Some nm =>
          let path := if String.eqb prefix "" then strlcpy nm 256
                      else strlcpy (prefix +:+ "." +:+ nm) 256 in
          if addr =? target then Some path
          else if Z.land kind CTLTYPE =? CTLTYPE_NODE then
            match arg1 with
            | Some l => first_some (build_name_oid path target) l
            | None => None
            end
          else None
      end
  end.

Definition procfs_sysctl_build_name (l : list oid) (prefix : string) (target outsz : Z)
  : option string :=
  (fun path => strlcpy path outsz) <$> first_some (build_name_oid prefix target) l.

(** One oid of the walk of [procfs_sysctl_find_parent]. *)
Fixpoint find_parent_oid (parent_id target : Z) (o : oid) : option Z :=
  match o with
  | Oid addr _ kind _ _ arg1 =>
      if addr =? target then Some parent_id
      else if Z.land kind CTLTYPE =? CTLTYPE_NODE then
        match arg1 with
        | Some l => first_some (find_parent_oid addr target) l
        | None => None
        end
      else None
  end.

Definition procfs_sysctl_find_parent (l : list oid) (parent_id target : Z) : option Z :=
  first_some (find_parent_oid parent_id target) l.

(** The boolean result and [*parent_objectid], which keeps its initial value
    when nothing is stored. *)
Definition procfs_sysctl_parent (objectid initial : Z) : bool * Z :=
  if objectid =? 0 then (false, 0)
  else if objectid =? PROCFS_SYN_RANDOM then (true, procfs_sysctl_kern_objectid)
  else if PROCFS_SYN_IS objectid then (true, PROCFS_SYN_RANDOM)
  else match procfs_sysctl_find_parent sysctl__children 0 objectid with
       | Some p => (true, p)
       | None => (false, initial)
       end.

End Tree.

(** ** Reading a value *)
(** [snprintf] into a buffer: its content with the NUL, and the return value. *)
Definition snprintf_buf (s : string) (outsz : Z) : bytes * Z :=
  ((bytes_of_string (strlcpy s outsz) ++ [0])%list, strlen s).

(** [%.*s] on raw bytes: up to [n] bytes, up to the first NUL. *)
Fixpoint string_of_raw (n : nat) (bs : bytes) : string :=
  match n, bs with
  | S n', b :: bs' => if b =? 0 then EmptyString else String (char_of b) (string_of_raw n' bs')
  | _, _ => EmptyString
  end.

Fixpoint drop_trailing (rev : bytes) : bytes :=
  match rev with
  | b :: r => if (b =? 0) || (b =? 10) then drop_trailing r else rev
  | [] => []
  end.

Definition lower_byte (c : Z) : Z := if (65 <=? c) && (c <=? 90) then c - 65 + 97 else c.

Definition newline : string := String (char_of 10) EmptyString.

Section Read.
Context {U : Type} `{Uio U}.
Variable sysctl__children : list oid.
Variable B : bridge.                               (* procfsd *)
Variable sysctlbyname : string -> Z -> Z * bytes.  (* the in-kernel one: error, value *)
Variable random_uuid : string.                     (* uuid_generate_random, unparsed *)
Variable procfs_linux_version : Z.

Definition procfs_random_boot_id (outsz : Z) : bytes * Z :=
  let raw :=
    match ctl_request B PROCFS_REQ_SYSCTL 0 0 "kern.bootsessionuuid" 64 with
    | (0, (_ :: _) as bs) => bs
    | _ => match sysctlbyname "kern.bootsessionuuid" 64 with
           | (0, bs) => bs
           | _ => []
           end
    end in
  let raw := rev (drop_trailing (rev raw)) in
  match raw with
  | [] => snprintf_buf (random_uuid +:+ newline) outsz
  | _ => snprintf_buf (string_of_raw (length raw) (map lower_byte raw) +:+ newline) outsz
  end.

Definition copy_buf (b : bytes * Z) (u : U) : option (Z * U) :=
  procfs_copy_data (Some (fst b)) (snd b) u.

Definition procfs_sysctl_read_synthetic (objectid : Z) (u : U) : option (Z * U) :=
  if objectid =? PROCFS_SYN_RANDOM then Some (EISDIR, u)
  else if objectid =? PROCFS_SYN_RANDOM_BOOT_ID then copy_buf (procfs_random_boot_id 64) u
  else if objectid =? PROCFS_SYN_RANDOM_UUID
  then copy_buf (snprintf_buf (random_uuid +:+ newline) 64) u
  else if (objectid =? PROCFS_SYN_RANDOM_ENTROPY) || (objectid =? PROCFS_SYN_RANDOM_POOLSIZE)
  then copy_buf (snprintf_buf (print_d PROCFS_RANDOM_POOLSIZE_BITS +:+ newline) 64) u
  else Some (ENOENT, u).

(** [fmt[0] == a && fmt[1] == b]. *)
Definition fmt_is (fmt : option string) (a b : ascii) : bool :=
  match fmt with
  | Some (String x (String y _)) => Ascii.eqb x a && Ascii.eqb y b
  | _ => false
  end.

(** The text of a value of the oid's declared type; [None]: no rendering. *)
Definition sysctl_text (o : oid) (raw : bytes) : option string :=
  let type := Z.land (oid_kind o) CTLTYPE in
  let rawlen := Z.of_nat (length raw) in
  if type =? CTLTYPE_STRING then
    let n := if last raw is Some 0 then Nat.pred (length raw) else length raw in
    Some (string_of_raw n raw +:+ newline)
  else if type =? CTLTYPE_INT then
    Some (if 4 <=? rawlen then
            let v := i32 (le_val (take 4 raw)) in
            (if fmt_is (oid_fmt o) "I" "U" then print_u (u32 v) else print_d v) +:+ newline
          else EmptyString)
  else if type =? CTLTYPE_QUAD then
    Some (if 8 <=? rawlen then
            let v := i64 (le_val (take 8 raw)) in
            (if fmt_is (oid_fmt o) "Q" "U" then print_u (u64 v) else print_d v) +:+ newline
          else EmptyString)
  else None.

Definition copy_empty (u : U) : option (Z * U) := procfs_copy_data (Some [0]) 0 u.

Definition procfs_sysctl_read (objectid : Z) (u : U) : option (Z * U) :=
  if PROCFS_SYN_IS objectid then procfs_sysctl_read_synthetic objectid u
  else
    match procfs_sysctl_is_node sysctl__children objectid, oid_at sysctl__children objectid with
    | None, _ => None
    | Some true, _ => Some (EISDIR, u)
    | Some false, None => None
    | Some false, Some o =>
        match procfs_sysctl_build_name sysctl__children "" objectid PROCFS_CTL_NAMEMAX with
        | None => Some (ENOENT, u)
        | Some name =>
            let fetch :=
              let raw :=
                match ctl_request B PROCFS_REQ_SYSCTL 0 0 name 1024 with
                | (0, bs) => bs
                | _ => match sysctlbyname name 1024 with (0, bs) => bs | _ => [] end
                end in
              match raw with
              | [] => copy_empty u
              | _ => match sysctl_text o raw with
                     | None => copy_empty u
                     | Some s => copy_buf (snprintf_buf s 1100) u
                     end
              end in
            match procfs_spoofed_release procfs_linux_version with
            | None => fetch
            | Some rel =>
                if String.eqb name "kern.ostype"
                then copy_buf (snprintf_buf ("Linux" +:+ newline) 7) u
                else if String.eqb name "kern.osrelease"
                then copy_buf (snprintf_buf (rel +:+ newline) 512) u
                else if String.eqb name "kern.version"
                then match procfs_build_linux_version procfs_linux_version with
                     | Some v => copy_buf (snprintf_buf v 512) u
                     | None => copy_buf ([0], 0) u
                     end
                else fetch
            end
        end
    end.

End Read.

(** ** Reference definitions *)
(** What a directory of /proc/sys contains, in order: visible oids, then for
    the kern node the synthetic random directory. *)
Definition visible_entry (o : oid) : string * bool * Z :=
  (default ""%string (oid_name o), is_ctl_node o, oid_addr o).

Definition sysctl_listing (roots : list oid) (dir_objectid : Z) (l : list oid)
  : list (string * bool * Z) :=
  (map visible_entry (List.filter (fun o => negb (procfs_sysctl_hidden o)) l)
   ++ if dir_objectid =? procfs_sysctl_kern_objectid roots
      then [("random"%string, true, PROCFS_SYN_RANDOM)] else [])%list.

(** Parent/child pairs of addresses, in the order of the walk. *)
Fixpoint edges (parent : Z) (o : oid) : list (Z * Z) :=
  match o with
  | Oid addr _ kind _ _ arg1 =>
      (parent, addr)
        :: (if Z.land kind CTLTYPE =? CTLTYPE_NODE then
              match arg1 with Some l => flat_map (edges addr) l | None => [] end
            else [])
  end.

Definition all_oids (roots : list oid) : list oid := flat_map oid_nodes roots.

(** Object ids are kernel addresses: distinct, and above the sentinels. *)
Definition oids_wf (roots : list oid) : Prop :=
  NoDup (map oid_addr (all_oids roots))
  /\ Forall (fun o => PROCFS_SYN_MAX <= oid_addr o) (all_oids roots).

(** ** Lemmas *)
Section oid_induction.
Variable P : oid -> Prop.
Hypothesis step : forall o, Forall P (subs o) -> P o.
Fixpoint oid_ind' (o : oid) : P o.
Proof.
  apply step. destruct o as [a nm k num fmt [l|]]; unfold subs, is_ctl_node; cbn;
    destruct (Z.land k CTLTYPE =? CTLTYPE_NODE); try constructor.
  induction l as [|c l IH]; constructor; [apply oid_ind'|exact IH].
Defined.
End oid_induction.

Lemma oid_nodes_subs o : oid_nodes o = o :: flat_map oid_nodes (subs o).
Proof.
  destruct o as [a nm k num fmt [l|]]; unfold subs, is_ctl_node; cbn;
    by destruct (Z.land k CTLTYPE =? CTLTYPE_NODE).
Qed.

Lemma edges_subs par o : edges par o = (par, oid_addr o) :: flat_map (edges (oid_addr o)) (subs o).
Proof.
  destruct o as [a nm k num fmt [l|]]; unfold subs, is_ctl_node; cbn;
    by destruct (Z.land k CTLTYPE =? CTLTYPE_NODE).
Qed.

Lemma flat_map_ext_Forall {A B} (f g : A -> list B) l :
  Forall (fun x => f x = g x) l -> flat_map f l = flat_map g l.
Proof. induction 1 as [|x l E _ IH]; cbn; [done|]. by rewrite E, IH. Qed.

Lemma map_flat_map {A B C} (f : B -> C) (g : A -> list B) l :
  map f (flat_map g l) = flat_map (fun x => map f (g x)) l.
Proof. induction l as [|x l IH]; cbn; [done|]. by rewrite map_app, IH. Qed.

Lemma edges_addrs par o : map snd (edges par o) = map oid_addr (oid_nodes o).
Proof.
  revert par. induction o as [o IH] using oid_ind'. intros par.
  rewrite edges_subs, oid_nodes_subs. cbn. f_equal. rewrite !map_flat_map.
  apply flat_map_ext_Forall. eapply Forall_impl; [exact IH|]. auto.
Qed.

Lemma find_app {A} (f : A -> bool) l1 l2 :
  List.find f (l1 ++ l2)%list = match List.find f l1 with Some x => Some x | None => List.find f l2 end.
Proof. induction l1 as [|x l1 IH]; cbn; [done|]. by destruct (f x). Qed.

(** The walk for the parent is a search among the edges. *)
Lemma first_some_edges (f : oid -> option Z) (g : oid -> list (Z * Z)) target l :
  Forall (fun o => f o = fst <$> List.find (fun e => snd e =? target) (g o)) l ->
  first_some f l = fst <$> List.find (fun e => snd e =? target) (flat_map g l).
Proof.
  induction 1 as [|o l E _ IH]; cbn; [done|]. rewrite find_app, E.
  by destruct (List.find _ (g o)) as [e|].
Qed.

Lemma find_parent_edges target par o :
  find_parent_oid par target o = fst <$> List.find (fun e => snd e =? target) (edges par o).
Proof.
  revert par. induction o as [o IH] using oid_ind'. intros par. rewrite edges_subs.
  cbn [List.find snd]. destruct o as [a nm k num fmt arg1]. cbn [find_parent_oid oid_addr] in *.
  destruct (a =? target); [done|]. unfold subs, is_ctl_node in *. cbn [oid_kind oid_arg1] in *.
  destruct (Z.land k CTLTYPE =? CTLTYPE_NODE); [|done]. destruct arg1 as [l|]; [|done].
  apply first_some_edges. eapply Forall_impl; [exact IH|]. intros o Ho. apply Ho.
Qed.

Lemma find_unique {A} (key : A -> Z) l x :
  NoDup (map key l) -> x ∈ l -> List.find (fun y => key y =? key x) l = Some x.
Proof.
  induction l as [|y l IH]; cbn; [set_solver|]. intros [Hn Hd]%NoDup_cons Hx.
  apply elem_of_cons in Hx as [->|Hx]; [by rewrite Z.eqb_refl|].
  destruct (Z.eqb_spec (key y) (key x)) as [E|]; [|by apply IH].
  destruct Hn. rewrite E. apply list_elem_of_In, in_map, list_elem_of_In. done.
Qed.

Lemma in_flat_map_elem {A B} (f : A -> list B) l y : y ∈ flat_map f l <-> exists x, x ∈ l /\ y ∈ f x.
Proof. rewrite list_elem_of_In, in_flat_map. setoid_rewrite list_elem_of_In. done. Qed.

Lemma edge_in par root o c :
  o ∈ oid_nodes root -> c ∈ subs o -> (oid_addr o, oid_addr c) ∈ edges par root.
Proof.
  revert par. induction root as [r IH] using oid_ind'. intros par. rewrite oid_nodes_subs, edges_subs.
  rewrite !elem_of_cons, !in_flat_map_elem. intros [->|(x & Hx & Ho)] Hc; right.
  - exists c. split; [done|]. rewrite edges_subs. set_solver.
  - exists x. split; [done|]. rewrite Forall_forall in IH. by apply IH.
Qed.

Lemma find_parent_unique roots p c :
  oids_wf roots -> (p, c) ∈ flat_map (edges 0) roots ->
  procfs_sysctl_find_parent roots 0 c = Some p.
Proof.
  intros [Hd _] Hin. unfold procfs_sysctl_find_parent.
  rewrite (first_some_edges _ (edges 0) c); [|apply Forall_forall; intros; apply find_parent_edges].
  rewrite (find_unique snd _ (p, c)); [done| |done].
  rewrite map_flat_map. unfold all_oids in Hd. rewrite map_flat_map in Hd.
  erewrite flat_map_ext; [exact Hd|]. intros o. apply edges_addrs.
Qed.

Lemma oid_at_spec roots id o : oid_at roots id = Some o -> o ∈ all_oids roots /\ oid_addr o = id.
Proof.
  unfold oid_at, all_oids. intros [Hin E]%List.find_some. split; [by apply list_elem_of_In|lia].
Qed.

Lemma child_walk_spec l i index :
  child_walk l i index
  = let vis := List.filter (fun o => negb (procfs_sysctl_hidden o)) l in
    if index <? i then inr (i + Z.of_nat (length vis))
    else match vis !! Z.to_nat (index - i) with
         | Some o => inl o
         | None => inr (i + Z.of_nat (length vis))
         end.
Proof.
  revert i. induction l as [|o l IH]; intros i; cbn [child_walk List.filter].
  - cbn. destruct (index <? i); f_equal; lia.
  - destruct (procfs_sysctl_hidden o) eqn:Eh; cbn [negb]; [apply IH|].
    cbn [length]. rewrite IH. destruct (Z.eqb_spec i index) as [->|Hne].
    + rewrite (proj2 (Z.ltb_ge index index)) by lia. by replace (Z.to_nat (index - index)) with 0%nat by lia.
    + destruct (Z.ltb_spec index (i + 1)), (Z.ltb_spec index i); try lia; [f_equal; lia|].
      replace (Z.to_nat (index - i)) with (S (Z.to_nat (index - (i + 1)))) by lia.
      cbn. destruct (_ !! _); [done|]. f_equal. lia.
Qed.

Lemma find_visible name l :
  List.find (fun o => negb (procfs_sysctl_hidden o) && name_is name o) l
  = List.find (name_is name) (List.filter (fun o => negb (procfs_sysctl_hidden o)) l).
Proof.
  induction l as [|o l IH]; cbn; [done|]. destruct (procfs_sysctl_hidden o); cbn; [done|].
  by destruct (name_is name o).
Qed.

Lemma find_listing name l :
  Forall (fun o => procfs_sysctl_hidden o = false) l ->
  List.find (fun e => String.eqb (fst (fst e)) name) (map visible_entry l)
  = visible_entry <$> List.find (name_is name) l.
Proof.
  induction 1 as [|o l Hh _ IH]; cbn; [done|].
  unfold name_is at 1. unfold procfs_sysctl_hidden in Hh. destruct (oid_name o) as [n|] eqn:En; [|done].
  cbn. by destruct (String.eqb n name).
Qed.

Lemma filter_all {A} (f : A -> bool) l : Forall (fun x => f x = true) (List.filter f l).
Proof. apply Forall_forall. intros x Hx. apply list_elem_of_In, filter_In in Hx. apply Hx. Qed.

(** ** Properties *)

(** Enumeration and name lookup agree in every /proc/sys directory that
    mirrors an oid list: the child at an index is that entry of the listing,
    and looking a name up finds the first listed entry of that name (after the
    kernel/kern alias at the root). *)
Theorem sysctl_lookup_matches_listing roots dir l index name :
  dir <> PROCFS_SYN_RANDOM -> procfs_sysctl_children roots dir = Some (Some l) -> 0 <= index ->
  procfs_sysctl_child_at roots dir index = Some (sysctl_listing roots dir l !! Z.to_nat index)
  /\ procfs_sysctl_find roots dir name
     = Some (snd <$> List.find (fun e => String.eqb (fst (fst e)) (sysctl_alias dir name))
                       (sysctl_listing roots dir l)).
Proof.
  intros Hd Hl Hi. rewrite <- Z.eqb_neq in Hd. split.
  - unfold procfs_sysctl_child_at, sysctl_listing. rewrite Hd, Hl, child_walk_spec. cbv zeta.
    rewrite (proj2 (Z.ltb_ge index 0)) by lia. rewrite Z.sub_0_r, Z.add_0_l.
    set (vis := List.filter _ l). destruct (vis !! Z.to_nat index) as [o|] eqn:E.
    + rewrite lookup_app_l by (rewrite length_map; by eapply lookup_lt_Some).
      by rewrite list_lookup_fmap, E.
    + apply lookup_ge_None in E. rewrite lookup_app_r by (by rewrite length_map). rewrite length_map.
      destruct (Z.eqb_spec index (Z.of_nat (length vis))) as [->|Hne]; cbn [andb].
      * rewrite Nat2Z.id, Nat.sub_diag. by destruct (dir =? procfs_sysctl_kern_objectid roots).
      * destruct (dir =? procfs_sysctl_kern_objectid roots); [|by rewrite lookup_nil].
        by destruct (Z.to_nat index - length vis)%nat eqn:En; [lia|].
  - unfold procfs_sysctl_find, sysctl_listing. rewrite Hd, Hl.
    set (name' := sysctl_alias dir name).
    rewrite find_visible, find_app, find_listing.
    2: { eapply Forall_impl; [apply (filter_all (fun o => negb (procfs_sysctl_hidden o)))|].
         intros o. by rewrite negb_true_iff. }
    destruct (List.find (name_is name') _) as [o|]; [done|].
    assert (Hsym : String.eqb "random" name' = String.eqb name' "random") by apply String.eqb_sym.
    destruct (dir =? procfs_sysctl_kern_objectid roots); cbn [andb List.find fst]; rewrite ?Hsym;
      by destruct (String.eqb name' "random").
Qed.

(** A child of a node of the tree is in the tree. *)
Lemma subs_in_nodes o c r : o ∈ oid_nodes r -> c ∈ subs o -> c ∈ oid_nodes r.
Proof.
  intros Ho Hc. induction r as [r IH] using oid_ind'. rewrite oid_nodes_subs in Ho |- *.
  apply elem_of_cons. right. apply in_flat_map_elem. apply elem_of_cons in Ho as [->|Ho].
  - exists c. split; [done|]. rewrite oid_nodes_subs. set_solver.
  - apply in_flat_map_elem in Ho as (x & Hx & Ho). exists x. split; [done|]. rewrite Forall_forall in IH. by apply IH.
Qed.

(** The children of a directory are the oids whose edge starts there. *)
Lemma children_edge roots dir l c :
  procfs_sysctl_children roots dir = Some (Some l) -> c ∈ l ->
  c ∈ all_oids roots /\ (dir, oid_addr c) ∈ flat_map (edges 0) roots.
Proof.
  unfold procfs_sysctl_children, all_oids. destruct (Z.eqb_spec dir 0) as [->|Hd].
  - intros [= <-] Hc. split; apply in_flat_map_elem; exists c; (split; [done|]).
    + rewrite oid_nodes_subs. set_solver.
    + rewrite edges_subs. set_solver.
  - destruct (oid_at roots dir) as [o|] eqn:Eo; [|done]. apply oid_at_spec in Eo as [Ho <-].
    destruct (is_ctl_node o) eqn:En; cbn [negb]; [|done]. intros [= El] Hc.
    assert (c ∈ subs o) as Hs by (unfold subs; by rewrite En, El).
    unfold all_oids in Ho. apply in_flat_map_elem in Ho as (r & Hr & Ho).
    split; apply in_flat_map_elem; exists r; (split; [done|]); [by eapply subs_in_nodes|by apply edge_in].
Qed.

(** ".." undoes a lookup below /proc/sys: the parent of any child that a
    lookup found is the directory it was found in, the root included, for real
    oids, for the grafted random directory and for its leaves. *)
Theorem sysctl_parent_of_child roots dir name child :
  oids_wf roots -> procfs_sysctl_find roots dir name = Some (Some child) ->
  child <> 0 /\ snd (procfs_sysctl_parent roots child 0) = dir.
Proof.
  intros W. unfold procfs_sysctl_find. set (nm := sysctl_alias dir name). clearbody nm.
  destruct (Z.eqb_spec dir PROCFS_SYN_RANDOM) as [->|Hr].
  { intros [= E]. revert E. repeat (destruct (String.eqb nm _); [by intros [= <-]|]). done. }
  destruct (procfs_sysctl_children roots dir) as [[l|]|] eqn:El; [|done|done].
  destruct (List.find _ l) as [c|] eqn:Ef.
  - intros [= <-]. apply List.find_some in Ef as [Hc _]. apply list_elem_of_In in Hc.
    destruct (children_edge roots dir l c El Hc) as [Hin He].
    pose proof (proj1 (Forall_forall _ _) (proj2 W) c Hin) as Wa. cbn in Wa. unfold PROCFS_SYN_MAX in Wa.
    unfold procfs_sysctl_parent, PROCFS_SYN_IS, PROCFS_SYN_MAX, PROCFS_SYN_RANDOM. split; [lia|].
    rewrite (proj2 (Z.eqb_neq _ 0)), (proj2 (Z.eqb_neq _ 1)) by lia.
    rewrite (proj2 (Z.ltb_ge (oid_addr c) 6)), andb_false_r by lia. by rewrite (find_parent_unique roots dir).
  - destruct (String.eqb nm "random"); cbn [andb]; [|done].
    destruct (Z.eqb_spec dir (procfs_sysctl_kern_objectid roots)) as [->|]; [|done]. by intros [= <-].
Qed.

(** A small sysctl tree for the examples: kern { ostype, maxproc }, net. *)
Definition ostype_oid : oid := Oid 4096 (Some "ostype"%string) (2147483648 + 3) 1 (Some "A"%string) None.
Definition maxproc_oid : oid := Oid 4160 (Some "maxproc"%string) (2147483648 + 2) 6 (Some "I"%string) None.
Definition kern_oid : oid :=
  Oid 8192 (Some "kern"%string) (2147483648 + 1) 1 (Some "N"%string) (Some [ostype_oid; maxproc_oid]).
Definition sample_roots : list oid := [kern_oid; Oid 8256 (Some "net"%string) 1 4 None (Some [])].

Lemma sample_wf : oids_wf sample_roots.
Proof. split; [apply (bool_decide_unpack _); vm_compute; exact I|]. repeat constructor; vm_compute; done. Qed.

Lemma sysctl_lookup_matches_listing_witness :
  procfs_sysctl_child_at sample_roots 8192 2 = Some (Some ("random"%string, true, PROCFS_SYN_RANDOM))
  /\ procfs_sysctl_find sample_roots 8192 "random" = Some (Some PROCFS_SYN_RANDOM).
Proof.
  apply (sysctl_lookup_matches_listing sample_roots 8192 [ostype_oid; maxproc_oid] 2 "random");
    [discriminate|reflexivity|lia].
Defined.

Lemma sysctl_parent_of_child_witness :
  4160 <> 0 /\ snd (procfs_sysctl_parent sample_roots 4160 0) = 8192.
Proof. apply (sysctl_parent_of_child sample_roots 8192 "maxproc"); [apply sample_wf|reflexivity]. Defined.

Lemma i32_of_u32 v : - 2147483648 <= v < 2147483648 -> i32 (v mod 4294967296) = v.
Proof.
  intros Hv. unfold i32, wrap_s. change (2 ^ (32 - 1)) with 2147483648. change (2 ^ 32) with 4294967296.
  rewrite Zplus_mod_idemp_l, Z.mod_small; lia.
Qed.

Lemma i64_of_u64 v :
  - 9223372036854775808 <= v < 9223372036854775808 -> i64 (v mod 18446744073709551616) = v.
Proof.
  intros Hv. unfold i64, wrap_s. change (2 ^ (64 - 1)) with 9223372036854775808.
  change (2 ^ 64) with 18446744073709551616. rewrite Zplus_mod_idemp_l, Z.mod_small; lia.
Qed.

(** Integer sysctls read as decimal text of the value the kernel stores:
    a 4-byte CTLTYPE_INT as a signed number, unless its format is "IU", and an
    8-byte CTLTYPE_QUAD likewise with "QU"; every value of the width is
    rendered exactly, negative ones and those above the signed range
    included. *)
Theorem sysctl_int_text o v :
  (Z.land (oid_kind o) CTLTYPE = CTLTYPE_INT -> fmt_is (oid_fmt o) "I" "U" = false ->
   -2147483648 <= v < 2147483648 ->
   sysctl_text o (le_bytes 4 v) = Some (print_d v +:+ newline))
  /\ (Z.land (oid_kind o) CTLTYPE = CTLTYPE_INT -> fmt_is (oid_fmt o) "I" "U" = true ->
      0 <= v < 4294967296 ->
      sysctl_text o (le_bytes 4 v) = Some (print_u v +:+ newline))
  /\ (Z.land (oid_kind o) CTLTYPE = CTLTYPE_QUAD -> fmt_is (oid_fmt o) "Q" "U" = false ->
      -9223372036854775808 <= v < 9223372036854775808 ->
      sysctl_text o (le_bytes 8 v) = Some (print_d v +:+ newline))
  /\ (Z.land (oid_kind o) CTLTYPE = CTLTYPE_QUAD -> fmt_is (oid_fmt o) "Q" "U" = true ->
      0 <= v < 18446744073709551616 ->
      sysctl_text o (le_bytes 8 v) = Some (print_u v +:+ newline)).
Proof.
  unfold sysctl_text. split_and!; intros Ht Hf Hv; rewrite Ht; cbv zeta;
    rewrite le_bytes_length, Hf; cbn [Z.eqb Pos.eqb CTLTYPE_INT CTLTYPE_QUAD CTLTYPE_STRING].
  - change (4 <=? Z.of_nat 4) with true. rewrite (take_ge (le_bytes _ v)) by (by rewrite le_bytes_length).
    rewrite le_val_bytes. change (256 ^ Z.of_nat 4) with 4294967296. by rewrite i32_of_u32.
  - change (4 <=? Z.of_nat 4) with true. rewrite (take_ge (le_bytes _ v)) by (by rewrite le_bytes_length).
    rewrite le_val_bytes_small by (change (256 ^ Z.of_nat 4) with 4294967296; lia).
    do 2 f_equal. f_equal.
    unfold i32, u32, wrap_s, wrap_u. rewrite Zminus_mod_idemp_l, Z.add_simpl_r. apply Z.mod_small. lia.
  - change (8 <=? Z.of_nat 8) with true. rewrite (take_ge (le_bytes _ v)) by (by rewrite le_bytes_length).
    rewrite le_val_bytes. change (256 ^ Z.of_nat 8) with 18446744073709551616. by rewrite i64_of_u64.
  - change (8 <=? Z.of_nat 8) with true. rewrite (take_ge (le_bytes _ v)) by (by rewrite le_bytes_length).
    rewrite le_val_bytes_small by (change (256 ^ Z.of_nat 8) with 18446744073709551616; lia).
    do 2 f_equal. f_equal.
    unfold i64, u64, wrap_s, wrap_u. rewrite Zminus_mod_idemp_l, Z.add_simpl_r. apply Z.mod_small. lia.
Qed.

Lemma sysctl_int_text_witness :
  sysctl_text maxproc_oid (le_bytes 4 (-5)) = Some (print_d (-5) +:+ newline).
Proof. destruct (sysctl_int_text maxproc_oid (-5)) as [H _]. apply H; [reflexivity|reflexivity|lia]. Defined.
