(* ===== verification/Readdir.v ===== *)
(** * Directory reading (procfs_vnop_readdir and its helpers in kext/procfs_vnops.c)

    The loops are kept as the code has them: an outer loop over the child
    structure nodes and inner loops over processes, threads or descriptors,
    with [nextpos], the caller's uio and the entry count as state.  The
    reference for them is [dir_listing], the sequence of entries of a
    directory, and [fill], which packs entries into the caller's buffer. *)
From S2P Require Import Prelude Kernel PfsTypes Text Version Subr Structure Sysctl.
From Stdlib Require Import ZArith Lia String Ascii.
From stdpp Require Import base list numbers strings gmap.
Open Scope Z_scope.

(** ** Directory entries *)
(** sizeof(struct direntry) - sizeof(d_name). *)
Definition DIRENT_FIXED : Z := 24.

Definition procfs_calc_dirent_size (name : string) : Z :=
  DIRENT_FIXED + Z.land (strlen name + 1 + 7) (Z.lnot 7).

(** The bytes of a [struct direntry] up to its record length: d_ino, d_seekoff,
    d_reclen, d_namlen, d_type, d_name and zero padding. *)
Definition dirent_bytes (type file_id : Z) (name : string) (seekoff size : Z) : bytes :=
  let body :=
    (le_bytes 8 file_id ++ le_bytes 8 seekoff ++ le_bytes 2 size ++ le_bytes 2 (strlen name)
     ++ [type mod 256] ++ bytes_of_string name)%list in
  (body ++ replicate (Z.to_nat size - length body) 0)%list.

(** One entry as the loops produce it. *)
Record entry := Entry { de_type : Z; de_fileid : Z; de_name : string }.

(** ** Parent ids (procfs_get_parent_node_id in kext/procfs_node.c) *)
(** [None]: the structure pointers dangle. *)
Definition procfs_get_parent_node_id (ss : sstate) (snode : sloc) (id : pfsid) : option pfsid :=
  match snode_at ss snode with
  | None => None
  | Some n =>
      match snode_at ss (default snode (psn_parent n)) with
      | None => None
      | Some parent =>
          let pid_node := negb (Z.land (psn_flags parent) PSN_FLAG_PROCESS =? 0) in
          let thread_node := negb (Z.land (psn_flags parent) PSN_FLAG_THREAD =? 0) in
          Some (Pfsid (if pid_node then nodeid_pid id else PRNODE_NO_PID)
                  (if thread_node then nodeid_objectid id else PRNODE_NO_OBJECTID)
                  (psn_base_node_id parent))
      end
  end.

(** What one call of a vnode operation sees: the process table, the daemon,
    whether allocations succeed, the spoofed version, and the caller. *)
Record callctx := Callctx {
  cx_kernel : kernel;
  cx_bridge : bridge;
  cx_alloc : bool;
  cx_version : Z;             (* procfs_linux_version *)
  cx_suser : bool;            (* vfs_context_suser() == 0 *)
  cx_cred : cred;
  cx_pmnt_flags : Z
}.

Definition PROCFS_MOPT_NOPROCPERMS : Z := 1.

Definition procfs_should_access_check (pmnt_flags : Z) : bool :=
  Z.land pmnt_flags PROCFS_MOPT_NOPROCPERMS =? 0.

Definition check_access (c : callctx) : bool :=
  negb (cx_suser c) && procfs_should_access_check (cx_pmnt_flags c).

Definition MAXCOMLEN : Z := 16.

Definition procfs_construct_process_dir_name (p : proc) : string :=
  print_d (p_pid p) +:+ " " +:+ strlcpy (p_comm p) (MAXCOMLEN + 1).

(** What the switch over the node type decides. *)
Inductive readdir_case :=
| RCroot                       (* structure error: the loop does not advance *)
| RCentry (type : Z)           (* an entry with the inherited ids *)
| RCdot | RCdotdot
| RCproc | RCprocname | RCthread | RCfd.

Definition readdir_switch (t : pfstype) : readdir_case :=
  match t with
  | PFSroot => RCroot
  | PFSdir | PFSsysctl => RCentry DT_DIR
  | PFSdirthis => RCdot
  | PFSdirparent => RCdotdot
  | PFScurproc | PFSproclink => RCentry DT_LNK
  | PFSproc => RCproc
  | PFSprocnamedir => RCprocname
  | PFSthread => RCthread
  | PFSfd => RCfd
  | _ => RCentry DT_REG
  end.

Section Readdir.
Context {U : Type} `{Uio U}.

(** [procfs_copyout_dirent]: error, the new [*sizep], the uio. *)
Definition procfs_copyout_dirent (type file_id : Z) (name : string) (u : U) (size seekoff : Z)
  : Z * Z * U :=
  if size <=? uio_resid u then
    let '(error, u') := uiomove (dirent_bytes type file_id name seekoff size) size u in
    (error, size, u')
  else (0, 0, u).

(** [nextpos], [uio], [numentries]. *)
Record rdstate := Rdstate { rd_next : Z; rd_uio : U; rd_num : Z }.

(** The body of every entry loop: (error, whether the loop is left, state). *)
Definition put_entry (startpos : Z) (e : entry) (s : rdstate) : Z * bool * rdstate :=
  let size := procfs_calc_dirent_size (de_name e) in
  if startpos <=? rd_next s then
    let '(error, size', u') :=
      procfs_copyout_dirent (de_type e) (de_fileid e) (de_name e) (rd_uio s) size (rd_next s + size) in
    if negb (error =? 0) || (size' =? 0)
    then (error, true, Rdstate (rd_next s) u' (rd_num s))
    else (0, false, Rdstate (rd_next s + size') u' (rd_num s + 1))
  else (0, false, Rdstate (rd_next s + size) (rd_uio s) (rd_num s)).

(** An inner loop over processes, threads or descriptors. *)
Fixpoint put_entries (startpos : Z) (es : list entry) (s : rdstate) : Z * bool * rdstate :=
  match es with
  | [] => (0, false, s)
  | e :: es' =>
      match put_entry startpos e s with
      | (error, true, s') => (error, true, s')
      | (_, false, s') => put_entries startpos es' s'
      end
  end.

Variable c : callctx.
Variable ss : sstate.
Variable dir : sloc.           (* dir_pnp->node_structure_node *)
Variable id : pfsid.           (* dir_pnp->node_id *)

(** The entries of the process list, in the two forms. *)
Definition proc_entries (byname : bool) (base : Z) : list entry :=
  omap (fun pid =>
    if byname then
      match proc_find (cx_kernel c) pid with
      | None => None
      | Some p => Some (Entry (vtype_num VDIR) (procfs_get_fileid pid PRNODE_NO_OBJECTID base)
                          (procfs_construct_process_dir_name p))
      end
    else Some (Entry (vtype_num VDIR) (procfs_get_fileid pid PRNODE_NO_OBJECTID base) (print_d pid)))
    (procfs_get_pids (cx_kernel c) (cx_alloc c) (if check_access c then Some (cx_cred c) else None)).

Definition thread_entries (pid base : Z) (ids : list Z) : list entry :=
  map (fun t => Entry (vtype_num VDIR) (procfs_get_fileid pid t base) (print_d (i64 t))) ids.

Definition fd_entries (pid base : Z) (fds : list Z) : list entry :=
  map (fun fd => Entry (vtype_num VDIR) (procfs_get_fileid pid fd base) (print_d fd)) fds.

(** The entry of a node that is listed once. *)
Definition single_entry (n : pfssnode) (k : readdir_case) : option entry :=
  match k with
  | RCentry type =>
      Some (Entry type (procfs_get_fileid (nodeid_pid id) (nodeid_objectid id) (psn_base_node_id n))
              (psn_name n))
  | RCdot =>
      Some (Entry DT_DIR (procfs_get_fileid (nodeid_pid id) (nodeid_objectid id) (nodeid_base_id id))
              (psn_name n))
  | RCdotdot =>
      match procfs_get_parent_node_id ss dir id with
      | Some pn => Some (Entry DT_DIR
                     (procfs_get_fileid (nodeid_pid pn) (nodeid_objectid pn) (nodeid_base_id pn))
                     (psn_name n))
      | None => None
      end
  | _ => None
  end.

(** "If there is a process id associated with this node, perform an access
    check if required." *)
Definition entry_allowed : bool :=
  (nodeid_pid id =? PRNODE_NO_PID) || negb (check_access c)
  || (procfs_check_can_access_proc_pid (cx_kernel c) (cx_cred c) (nodeid_pid id) =? 0).

(** The outer loop.  Result: error, [snode == NULL] at the end, state; [None]:
    the loop does not end (or a structure pointer dangles). *)
Fixpoint readdir_loop (startpos : Z) (snodes : list pfssnode) (s : rdstate)
  : option (Z * bool * rdstate) :=
  match snodes with
  | [] => Some (0, true, s)
  | n :: rest =>
      if uio_resid (rd_uio s) <=? 0 then Some (0, false, s)
      else if procfs_node_version_hidden (cx_version c) (psn_name n)
      then readdir_loop startpos rest s
      else if negb entry_allowed then readdir_loop startpos rest s
      else
        let pid := nodeid_pid id in
        let base := psn_base_node_id n in
        match readdir_switch (psn_node_type n) with
        | RCroot => None
        | (RCproc | RCprocname) as k =>
            let byname := match k with RCprocname => true | _ => false end in
            let '(error, stopped, s') := put_entries startpos (proc_entries byname base) s in
            Some (error, negb stopped && match rest with [] => true | _ => false end, s')
        | RCthread =>
            match proc_find (cx_kernel c) pid with
            | None => Some (ENOENT, false, s)
            | Some p =>
                let '(error, ids) :=
                  procfs_get_thread_ids_for_task (cx_bridge c) (cx_alloc c) (cx_alloc c) (Some p) in
                if error =? 0 then
                  let '(error, _, s') := put_entries startpos (thread_entries pid base ids) s in
                  Some (error, false, s')
                else Some (error, false, s)
            end
        | RCfd =>
            match proc_find (cx_kernel c) pid with
            | None => Some (ENOENT, false, s)
            | Some p =>
                let '(_, fds) := procfs_get_fd_list (cx_bridge c) (cx_alloc c) (Some p) in
                let '(error, _, s') := put_entries startpos (fd_entries pid base fds) s in
                Some (error, false, s')
            end
        | k =>
            match single_entry n k with
            | None => None
            | Some e =>
                match put_entry startpos e s with
                | (error, true, s') => Some (error, false, s')
                | (_, false, s') => readdir_loop startpos rest s'
                end
            end
        end
  end.

Definition children_of : list pfssnode :=
  match snode_at ss dir with Some n => omap (snode_at ss) (psn_children n) | None => [] end.

(** Result of the operation: error, [*a_eofflag], [*a_numdirent], the uio. *)
Definition readdir_finish (r : Z * bool * rdstate) : Z * bool * Z * U :=
  let '(error, eof, s) := r in
  (error, eof, rd_num s, uio_setoffset (rd_next s) (rd_uio s)).

(** ** /proc/sys directories *)
Variable roots : list oid.

(** The loop over the children; [fuel] bounds the number of oids. *)
Fixpoint sysctl_readdir_loop (fuel : nat) (startpos base index : Z) (s : rdstate)
  : option (Z * bool * rdstate) :=
  if uio_resid (rd_uio s) <=? 0 then Some (0, false, s)
  else match fuel with
       | O => None
       | S f =>
           match procfs_sysctl_child_at roots (nodeid_objectid id) index with
           | None => None
           | Some None => Some (0, true, s)
           | Some (Some (name, is_node, objid)) =>
               let e := Entry (if is_node then DT_DIR else DT_REG)
                          (procfs_get_fileid PRNODE_NO_PID objid base) name in
               match put_entry startpos e s with
               | (error, true, s') => Some (error, false, s')
               | (_, false, s') => sysctl_readdir_loop f startpos base (index + 1) s'
               end
           end
       end.

Definition procfs_sysctl_readdir (fuel : nat) (u : U) : option (Z * bool * Z * U) :=
  match snode_at ss dir with
  | None => None
  | Some n =>
      let startpos := uio_offset u in
      let self_fileid := procfs_get_node_fileid id (psn_base_node_id n) in
      let dots := [Entry DT_DIR self_fileid "."; Entry DT_DIR self_fileid ".."] in
      match put_entries startpos dots (Rdstate 0 u 0) with
      | (error, true, s) => Some (readdir_finish (error, false, s))
      | (_, false, s) =>
          match sysctl_readdir_loop fuel startpos (psn_base_node_id n) 0 s with
          | Some (error, ended, s') => Some (readdir_finish (error, (error =? 0) && ended, s'))
          | None => None
          end
      end
  end.

(** [procfs_vnop_readdir]; [vt] is the vnode's type. *)
Definition procfs_vnop_readdir (fuel : nat) (vt : vtype) (u : U) : option (Z * bool * Z * U) :=
  if negb (bool_decide (vt = VDIR)) then Some (ENOTDIR, false, 0, u)
  else match snode_at ss dir with
       | None => None
       | Some n =>
           if pfstype_eqb (psn_node_type n) PFSsysctl then procfs_sysctl_readdir fuel u
           else readdir_finish <$> readdir_loop (uio_offset u) children_of (Rdstate 0 u 0)
       end.

End Readdir.
Arguments rdstate : clear implicits.
Arguments Rdstate {U}.

(** ** Reference: the sequence of entries of a directory *)
(** How the listing ends: after the last node, before it (the loop leaves on
    a dynamic section without advancing), or with an error. *)
Inductive ending := EndEof | EndOpen | EndErr (e : Z).

Section Listing.
Variable c : callctx.
Variable ss : sstate.
Variable dir : sloc.
Variable id : pfsid.

Fixpoint dir_listing (snodes : list pfssnode) : option (list entry * ending) :=
  match snodes with
  | [] => Some ([], EndEof)
  | n :: rest =>
      if procfs_node_version_hidden (cx_version c) (psn_name n) || negb (entry_allowed c id)
      then dir_listing rest
      else
        let base := psn_base_node_id n in
        match readdir_switch (psn_node_type n) with
        | RCroot => None
        | RCproc => Some (proc_entries c false base, match rest with [] => EndEof | _ => EndOpen end)
        | RCprocname => Some (proc_entries c true base, match rest with [] => EndEof | _ => EndOpen end)
        | RCthread =>
            match proc_find (cx_kernel c) (nodeid_pid id) with
            | None => Some ([], EndErr ENOENT)
            | Some p =>
                match procfs_get_thread_ids_for_task (cx_bridge c) (cx_alloc c) (cx_alloc c) (Some p) with
                | (0, ids) => Some (thread_entries (nodeid_pid id) base ids, EndOpen)
                | (e, _) => Some ([], EndErr e)
                end
            end
        | RCfd =>
            match proc_find (cx_kernel c) (nodeid_pid id) with
            | None => Some ([], EndErr ENOENT)
            | Some p => Some (fd_entries (nodeid_pid id) base
                                (snd (procfs_get_fd_list (cx_bridge c) (cx_alloc c) (Some p))), EndOpen)
            end
        | k =>
            match single_entry ss dir id n k, dir_listing rest with
            | Some e, Some (es, fin) => Some (e :: es, fin)
            | _, _ => None
            end
        end
  end.
End Listing.

(** The sequence of entries of a directory below /proc/sys, whose id is [id]:
    the two dots, then the children of its oid (the fixed leaves of the random
    directory, the visible oids, and the random directory itself in kern). *)
Definition sysctl_entries (roots : list oid) (objectid : Z) : option (list (string * bool * Z)) :=
  if objectid =? PROCFS_SYN_RANDOM then Some (map (fun '(nm, o) => (nm, false, o)) procfs_random_leaves)
  else match procfs_sysctl_children roots objectid with
       | None => None
       | Some None => Some []
       | Some (Some l) => Some (sysctl_listing roots objectid l)
       end.

Definition sys_entry (base : Z) (x : string * bool * Z) : entry :=
  Entry (if snd (fst x) then DT_DIR else DT_REG) (procfs_get_fileid PRNODE_NO_PID (snd x) base) (fst (fst x)).

Definition sys_listing (roots : list oid) (id : pfsid) (base : Z) : option (list entry) :=
  let self := procfs_get_node_fileid id base in
  (fun l => Entry DT_DIR self "." :: Entry DT_DIR self ".." :: map (sys_entry base) l)
    <$> sysctl_entries roots (nodeid_objectid id).

Definition entry_size (e : entry) : Z := procfs_calc_dirent_size (de_name e).

(** Directory offset of the end of a run of entries. *)
Fixpoint psize (es : list entry) : Z :=
  match es with [] => 0 | e :: es' => entry_size e + psize es' end.

(** The bytes of a run of entries that starts at offset [next]. *)
Fixpoint encode (next : Z) (es : list entry) : bytes :=
  match es with
  | [] => []
  | e :: es' =>
      (dirent_bytes (de_type e) (de_fileid e) (de_name e) (next + entry_size e) (entry_size e)
       ++ encode (next + entry_size e) es')%list
  end.

(** How many entries fit into [r] bytes. *)
Fixpoint fits (r : Z) (es : list entry) : nat :=
  match es with
  | [] => O
  | e :: es' => if entry_size e <=? r then S (fits (r - entry_size e) es') else O
  end.

(** ** Lemmas *)
Lemma calc_size_bounds name :
  22 + strlen name <= procfs_calc_dirent_size name <= 32 + strlen name.
Proof.
  unfold procfs_calc_dirent_size, DIRENT_FIXED.
  replace (Z.lnot 7) with (Z.shiftl (-1) 3) by reflexivity.
  assert (E : Z.land (strlen name + 1 + 7) (Z.shiftl (-1) 3) = (strlen name + 8) / 8 * 8).
  { replace (strlen name + 1 + 7) with (strlen name + 8) by lia.
    rewrite <- Z.shiftr_div_pow2 with (n := 3), <- Z.shiftl_mul_pow2 with (n := 3) by lia.
    apply Z.bits_inj'. intros i Hi. rewrite Z.land_spec.
    destruct (Z.ltb_spec i 3).
    - rewrite !Z.shiftl_spec_low by lia. by rewrite andb_false_r.
    - rewrite !Z.shiftl_spec_high, Z.shiftr_spec, Z.bits_m1 by lia. rewrite andb_true_r. f_equal. lia. }
  rewrite E. pose proof (Z.div_mod (strlen name + 8) 8 ltac:(lia)).
  pose proof (Z.mod_pos_bound (strlen name + 8) 8 ltac:(lia)). lia.
Qed.

Lemma strlen_nonneg s : 0 <= strlen s.
Proof. unfold strlen. lia. Qed.

Lemma entry_size_pos e : 0 < entry_size e.
Proof. unfold entry_size. pose proof (calc_size_bounds (de_name e)). pose proof (strlen_nonneg (de_name e)). lia. Qed.

Lemma psize_nonneg es : 0 <= psize es.
Proof. induction es as [|e es IH]; cbn; [lia|]. pose proof (entry_size_pos e). lia. Qed.

Lemma psize_app a b : psize (a ++ b) = psize a + psize b.
Proof. induction a as [|e a IH]; cbn; lia. Qed.

Lemma dirent_bytes_length ty fid name so :
  length (dirent_bytes ty fid name so (procfs_calc_dirent_size name))
  = Z.to_nat (procfs_calc_dirent_size name).
Proof.
  unfold dirent_bytes. rewrite length_app, length_replicate. rewrite !length_app, !le_bytes_length. cbn [length].
  pose proof (bytes_of_string_length name). pose proof (calc_size_bounds name). pose proof (strlen_nonneg name). lia.
Qed.

Lemma fits_le r es : (fits r es <= length es)%nat.
Proof. revert r. induction es as [|e es IH]; intros r; cbn; [lia|]. case_match; [|lia]. specialize (IH (r - entry_size e)). lia. Qed.

(** A mapped user buffer in the middle of a call. *)
Definition ub (off r : Z) (out : bytes) : ubuf := Ubuf off r false out [] false.

(** From the start offset on, entries are packed until one does not fit. *)
Lemma put_fill startpos es next off r out num :
  startpos <= next -> 0 <= r ->
  put_entries startpos es (Rdstate next (ub off r out) num)
  = (0, negb (fits r es =? length es)%nat,
     let sent := take (fits r es) es in
     Rdstate (next + psize sent) (ub (off + psize sent) (r - psize sent) (out ++ encode next sent)%list)
       (num + Z.of_nat (fits r es))).
Proof.
  revert next off r out num. induction es as [|e es IH]; intros next off r out num Hn Hr.
  - cbn. rewrite app_nil_r, !Z.add_0_r, Z.sub_0_r. done.
  - cbn [put_entries fits length]. unfold put_entry. cbn [rd_next rd_uio rd_num].
    rewrite (proj2 (Z.leb_le startpos next)) by done.
    change (procfs_calc_dirent_size (de_name e)) with (entry_size e).
    unfold procfs_copyout_dirent. cbn [uio_resid ubuf_uio ub ub_resid].
    pose proof (entry_size_pos e) as Hp.
    destruct (Z.leb_spec (entry_size e) r) as [Hf|Hf].
    + cbn [uiomove ubuf_uio]. unfold ubuf_move. cbn [ub ub_fault ub_resid ub_offset ub_write ub_out ub_in].
      rewrite Z.min_l by lia. rewrite (proj2 (Z.eqb_neq (entry_size e) 0)) by lia. cbn [negb orb Z.eqb].
      rewrite take_ge by (unfold entry_size; rewrite dirent_bytes_length; lia).
      fold (ub (off + entry_size e) (r - entry_size e)
              (out ++ dirent_bytes (de_type e) (de_fileid e) (de_name e) (next + entry_size e) (entry_size e))%list).
      rewrite IH by lia. cbn [take psize encode]. rewrite <- app_assoc. f_equal. cbv zeta.
      f_equal; [lia|unfold ub; f_equal; lia|lia].
    + cbn. rewrite !Z.add_0_r, Z.sub_0_r, app_nil_r. done.
Qed.

(** Entries before the start offset only advance the position. *)
Lemma put_skip {U} `{Uio U} startpos es1 es2 next (u : U) num :
  next + psize es1 <= startpos ->
  put_entries startpos (es1 ++ es2) (Rdstate next u num)
  = put_entries startpos es2 (Rdstate (next + psize es1) u num).
Proof.
  revert next. induction es1 as [|e es1 IH]; intros next Hs; cbn [app psize] in *; [by rewrite Z.add_0_r|].
  pose proof (entry_size_pos e). pose proof (psize_nonneg es1). cbn [put_entries]. unfold put_entry. cbn [rd_next rd_uio rd_num].
  rewrite (proj2 (Z.leb_gt startpos next)) by lia. change (procfs_calc_dirent_size (de_name e)) with (entry_size e).
  rewrite IH by lia. do 2 f_equal. lia.
Qed.

(** A call at the offset of entry [length es1]. *)
Lemma put_resume es1 es2 r :
  0 <= r ->
  put_entries (psize es1) (es1 ++ es2) (Rdstate 0 (ub (psize es1) r []) 0)
  = (0, negb (fits r es2 =? length es2)%nat,
     let sent := take (fits r es2) es2 in
     Rdstate (psize es1 + psize sent) (ub (psize es1 + psize sent) (r - psize sent) (encode (psize es1) sent))
       (Z.of_nat (fits r es2))).
Proof. intros Hr. rewrite put_skip by lia. rewrite put_fill by lia. cbn. done. Qed.

(** On a mapped buffer an entry never fails; it is skipped, sent or refused. *)
Lemma put_entry_ub startpos e next off r out num :
  exists b s', put_entry startpos e (Rdstate next (ub off r out) num) = (0, b, s')
  /\ (exists off' r' out' num' next', s' = Rdstate next' (ub off' r' out') num'
      /\ (b = false -> next' = next + entry_size e /\ (startpos <= next -> r' = r - entry_size e)
                       /\ (next < startpos -> r' = r))
      /\ (b = true -> startpos <= next)).
Proof.
  unfold put_entry. cbn [rd_next rd_uio rd_num]. change (procfs_calc_dirent_size (de_name e)) with (entry_size e).
  pose proof (entry_size_pos e) as Hp. destruct (Z.leb_spec startpos next).
  - unfold procfs_copyout_dirent. cbn [uio_resid ubuf_uio ub ub_resid].
    destruct (Z.leb_spec (entry_size e) r).
    + cbn [uiomove ubuf_uio]. unfold ubuf_move. cbn [ub ub_fault ub_resid ub_offset ub_write ub_out ub_in].
      rewrite Z.min_l by lia. rewrite (proj2 (Z.eqb_neq (entry_size e) 0)) by lia. cbn [negb orb Z.eqb].
      eexists _, _. split; [done|]. eexists _, _, _, _, _. split; [reflexivity|]. split; [|done]. intros _. split_and!; [lia..].
    + cbn. eexists _, _. split; [done|]. eexists _, _, _, _, _. split; [reflexivity|]. split; [done|]. done.
  - eexists _, _. split; [done|]. eexists _, _, _, _, _. split; [reflexivity|]. split; [|done]. intros _. split_and!; lia.
Qed.

Lemma put_entries_ub startpos es next off r out num :
  exists b s', put_entries startpos es (Rdstate next (ub off r out) num) = (0, b, s').
Proof.
  revert next off r out num. induction es as [|e es IH]; intros; cbn [put_entries]; [eauto|].
  destruct (put_entry_ub startpos e next off r out num) as (b & s' & -> & (off' & r' & out' & num' & next' & -> & _)).
  destruct b; [eauto|apply IH].
Qed.

(** With no room left, the next entry is refused and nothing changes. *)
Lemma put_full startpos es next off r out num :
  startpos <= next -> r <= 0 -> es <> [] ->
  put_entries startpos es (Rdstate next (ub off r out) num) = (0, true, Rdstate next (ub off r out) num).
Proof.
  intros Hn Hr He. destruct es as [|e es]; [done|]. cbn [put_entries]. unfold put_entry. cbn [rd_next rd_uio rd_num].
  rewrite (proj2 (Z.leb_le startpos next)) by lia. unfold procfs_copyout_dirent. cbn [uio_resid ubuf_uio ub ub_resid].
  pose proof (entry_size_pos e). unfold entry_size in *. rewrite (proj2 (Z.leb_gt _ r)) by lia. done.
Qed.

(** The outer loop does what the packing of the listing does.  It reports
    the end of the directory only if everything was sent and the listing ends
    after the last node, and does report it then unless the buffer is full. *)
Lemma readdir_loop_put c ss dir id startpos snodes es fin next off r out num :
  dir_listing c ss dir id snodes = Some (es, fin) -> (forall e, fin <> EndErr e) ->
  0 < r \/ startpos <= next ->
  exists eof b s',
    put_entries startpos es (Rdstate next (ub off r out) num) = (0, b, s')
    /\ readdir_loop c ss dir id startpos snodes (Rdstate next (ub off r out) num) = Some (0, eof, s')
    /\ (eof = true -> b = false /\ fin = EndEof)
    /\ (b = false -> fin = EndEof -> 0 < uio_resid (rd_uio s') -> eof = true).
Proof.
  revert es next off r out num. induction snodes as [|n rest IH]; intros es next off r out num; cbn [dir_listing readdir_loop].
  { intros [= <- <-] _ _. cbn. eexists _, _, _. done. }
  intros Hl Hfin Hinv. cbn [rd_uio uio_resid ubuf_uio ub ub_resid].
  destruct (Z.leb_spec r 0) as [Hr|Hr].
  - assert (Hn : startpos <= next) by lia. destruct es as [|e es].
    + cbn. eexists false, false, _. split_and!; try done. cbn. lia.
    + rewrite put_full by done. eexists false, true, _. done.
  - destruct (procfs_node_version_hidden (cx_version c) (psn_name n)); cbn [orb] in Hl; [apply IH; auto|].
    destruct (entry_allowed c id); cbn [negb] in Hl |- *; [|apply IH; auto].
    destruct (readdir_switch (psn_node_type n)) eqn:Ek; try done.
    all: try (destruct (single_entry ss dir id n _) as [e|] eqn:Es; [|done];
      destruct (dir_listing c ss dir id rest) as [[es' fin']|] eqn:El; [|done]; injection Hl as <- <-;
      cbn [put_entries];
      destruct (put_entry_ub startpos e next off r out num) as (b & s' & -> & (off' & r' & out' & num' & next' & -> & Hcont & Hstop));
      destruct b; [by exists false, true; eexists|];
      apply IH; [done..|]; destruct (Hcont eq_refl) as (-> & H1 & H2); pose proof (entry_size_pos e);
      destruct (Z.lt_ge_cases next startpos); [left; rewrite H2; lia|right; lia]).
    + injection Hl as <- <-. destruct (put_entries_ub startpos (proc_entries c false (psn_base_node_id n)) next off r out num) as (b & s' & E).
      rewrite E. eexists _, b, s'. split_and!; [done|reflexivity|..]; by destruct b, rest.
    + injection Hl as <- <-. destruct (put_entries_ub startpos (proc_entries c true (psn_base_node_id n)) next off r out num) as (b & s' & E).
      rewrite E. eexists _, b, s'. split_and!; [done|reflexivity|..]; by destruct b, rest.
    + destruct (proc_find (cx_kernel c) (nodeid_pid id)) as [p|]; [|injection Hl as <- <-; by destruct (Hfin ENOENT)].
      destruct (procfs_get_thread_ids_for_task (cx_bridge c) (cx_alloc c) (cx_alloc c) (Some p)) as [e ids].
      destruct e as [|e|e]; injection Hl as <- <-; [|by destruct (Hfin (Zpos e))|by destruct (Hfin (Zneg e))].
      cbn [Z.eqb]. destruct (put_entries_ub startpos (thread_entries (nodeid_pid id) (psn_base_node_id n) ids) next off r out num) as (b & s' & E).
      rewrite E. by exists false, b, s'.
    + destruct (proc_find (cx_kernel c) (nodeid_pid id)) as [p|]; [|injection Hl as <- <-; by destruct (Hfin ENOENT)].
      destruct (procfs_get_fd_list (cx_bridge c) (cx_alloc c) (Some p)) as [e fds]. cbn [snd] in Hl.
      injection Hl as <- <-.
      destruct (put_entries_ub startpos (fd_entries (nodeid_pid id) (psn_base_node_id n) fds) next off r out num) as (b & s' & E).
      rewrite E. by exists false, b, s'.
Qed.

Lemma put_entries_app {U} `{Uio U} startpos a b (s : rdstate U) :
  put_entries startpos (a ++ b) s
  = match put_entries startpos a s with (e, true, s') => (e, true, s') | (_, false, s') => put_entries startpos b s' end.
Proof.
  revert s. induction a as [|e a IH]; intros s; cbn [app put_entries]; [done|].
  destruct (put_entry startpos e s) as [[er [|]] s']; [done|apply IH].
Qed.

(** Room is left, or everything up to the start offset has been passed. *)
Lemma put_entries_room startpos es next off r out num s' :
  0 < r \/ startpos <= next ->
  put_entries startpos es (Rdstate next (ub off r out) num) = (0, false, s') ->
  exists next' off' r' out' num', s' = Rdstate next' (ub off' r' out') num' /\ (0 < r' \/ startpos <= next').
Proof.
  revert next off r out num. induction es as [|e es IH]; intros next off r out num Hinv; cbn [put_entries].
  { intros [= <-]. eauto 10. }
  destruct (put_entry_ub startpos e next off r out num) as (b & s1 & -> & (off' & r' & out' & num' & next' & -> & Hcont & _)).
  destruct b; [done|]. apply IH. destruct (Hcont eq_refl) as (-> & H1 & H2). pose proof (entry_size_pos e).
  destruct (Z.lt_ge_cases next startpos); [left; rewrite H2; lia|right; lia].
Qed.

Lemma child_at_entries roots dir l index :
  sysctl_entries roots dir = Some l -> 0 <= index ->
  procfs_sysctl_child_at roots dir index = Some (l !! Z.to_nat index).
Proof.
  unfold sysctl_entries. destruct (Z.eqb_spec dir PROCFS_SYN_RANDOM) as [->|Hd].
  - intros [= <-] Hi. unfold procfs_sysctl_child_at. cbn [Z.eqb PROCFS_SYN_RANDOM Pos.eqb].
    rewrite (proj2 (Z.ltb_ge index 0)) by lia. cbn [orb].
    destruct (Z.leb_spec (Z.of_nat (length procfs_random_leaves)) index) as [Hb|Hb].
    + symmetry. f_equal. apply lookup_ge_None. change (length procfs_random_leaves) with 4%nat in Hb. cbn. lia.
    + by destruct (Z.to_nat index) as [|[|[|[|k]]]].
  - destruct (procfs_sysctl_children roots dir) as [[l'|]|] eqn:El; intros [= <-] Hi.
    + by apply (sysctl_lookup_matches_listing roots dir l' index "").
    + unfold procfs_sysctl_child_at. rewrite (proj2 (Z.eqb_neq _ _)), El by done. by rewrite lookup_nil.
Qed.

(** The /proc/sys loop does what the packing of the entries does. *)
Lemma sysctl_loop_put id roots startpos base l fuel index next off r out num :
  (forall k, procfs_sysctl_child_at roots (nodeid_objectid id) (index + Z.of_nat k) = Some (l !! k)) ->
  (length l < fuel)%nat -> 0 < r \/ startpos <= next ->
  exists ended b s',
    put_entries startpos (map (sys_entry base) l) (Rdstate next (ub off r out) num) = (0, b, s')
    /\ sysctl_readdir_loop id roots fuel startpos base index (Rdstate next (ub off r out) num) = Some (0, ended, s')
    /\ (ended = true -> b = false) /\ (b = false -> 0 < uio_resid (rd_uio s') -> ended = true).
Proof.
  revert fuel index next off r out num. induction l as [|x l IH]; intros fuel index next off r out num Hc Hf Hinv;
    (destruct fuel as [|f]; [cbn in Hf; lia|]); cbn [sysctl_readdir_loop rd_uio uio_resid ubuf_uio ub ub_resid];
    pose proof (Hc 0%nat) as H0; rewrite Z.add_0_r in H0; rewrite H0; cbn [lookup list_lookup].
  - cbn [map put_entries]. destruct (Z.leb_spec r 0); [exists false|exists true]; eexists _, _; (split_and!; [done..|]); cbn; lia.
  - cbn [map]. destruct (Z.leb_spec r 0) as [Hr|Hr].
    { rewrite put_full by (lia || done). eexists false, true, _. done. }
    cbn [put_entries]. destruct x as [[nm isn] o]. change (Entry _ _ nm) with (sys_entry base (nm, isn, o)).
    destruct (put_entry_ub startpos (sys_entry base (nm, isn, o)) next off r out num)
      as (b & s1 & -> & (off' & r' & out' & num' & next' & -> & Hcont & _)).
    destruct b; [by exists false, true; eexists|]. apply IH; [|cbn in Hf; lia|].
    + intros k. pose proof (Hc (S k)) as Hk. replace (index + Z.of_nat (S k)) with (index + 1 + Z.of_nat k) in Hk by lia. exact Hk.
    + destruct (Hcont eq_refl) as (-> & H1 & H2). pose proof (entry_size_pos (sys_entry base (nm, isn, o))).
      destruct (Z.lt_ge_cases next startpos); [left; rewrite H2; lia|right; lia].
Qed.

Lemma sysctl_readdir_put ss dir id roots fuel n es startpos r :
  snode_at ss dir = Some n -> sys_listing roots id (psn_base_node_id n) = Some es -> (length es <= fuel)%nat -> 0 < r ->
  exists eof b s',
    put_entries startpos es (Rdstate 0 (ub startpos r []) 0) = (0, b, s')
    /\ procfs_sysctl_readdir ss dir id roots fuel (ub startpos r []) = Some (readdir_finish (0, eof, s'))
    /\ (eof = true -> b = false) /\ (b = false -> 0 < uio_resid (rd_uio s') -> eof = true).
Proof.
  intros En El Hf Hr. unfold sys_listing in El. destruct (sysctl_entries roots (nodeid_objectid id)) as [l|] eqn:Ee; [|done].
  injection El as <-. unfold procfs_sysctl_readdir. rewrite En. cbv zeta. change (uio_offset (ub startpos r [])) with startpos.
  set (dots := [_; _]). change (Entry _ _ "." :: _) with (dots ++ map (sys_entry (psn_base_node_id n)) l)%list.
  rewrite put_entries_app. destruct (put_entries_ub startpos dots 0 startpos r [] 0) as (b & s1 & E). rewrite E.
  destruct b; [by exists false, true, s1|].
  destruct (put_entries_room _ _ _ _ _ _ _ _ (or_introl Hr) E) as (next' & off' & r' & out' & num' & -> & Hinv).
  destruct (sysctl_loop_put id roots startpos (psn_base_node_id n) l fuel 0 next' off' r' out' num') as (ended & b & s' & H1 & -> & H2 & H3).
  - intros k. rewrite (child_at_entries _ _ _ _ Ee) by lia. by rewrite Z.add_0_l, Nat2Z.id.
  - cbn in Hf. rewrite length_map in Hf. lia.
  - done.
  - exists ended, b, s'. split_and!; done.
Qed.

Lemma psize_firstn_fits r es : psize (take (fits r es) es) <= Z.max 0 r.
Proof.
  revert r. induction es as [|e es IH]; intros r; cbn; [lia|].
  destruct (Z.leb_spec (entry_size e) r); cbn; [|lia]. specialize (IH (r - entry_size e)).
  pose proof (entry_size_pos e). lia.
Qed.

Lemma encode_app next a b : encode next (a ++ b) = (encode next a ++ encode (next + psize a) b)%list.
Proof.
  revert next. induction a as [|e a IH]; intros next; cbn [encode app psize]; [by rewrite Z.add_0_r|].
  rewrite IH, <- app_assoc. by replace (next + entry_size e + psize a) with (next + (entry_size e + psize a)) by lia.
Qed.

(** What calls with [r] bytes can deliver: the entries before the first one
    that needs more than [r] bytes by itself. *)
Fixpoint until_big (r : Z) (es : list entry) : list entry :=
  match es with
  | [] => []
  | e :: es' => if entry_size e <=? r then e :: until_big r es' else []
  end.

Lemma until_big_all r es : Forall (fun e => entry_size e <= r) es -> until_big r es = es.
Proof. induction 1 as [|e es He _ IH]; cbn; [done|]. by rewrite (proj2 (Z.leb_le _ _) He), IH. Qed.

Lemma until_big_fits r r' es : r' <= r ->
  until_big r es = (take (fits r' es) es ++ until_big r (drop (fits r' es) es))%list.
Proof.
  revert r'. induction es as [|e es IH]; intros r' Hr; cbn [fits until_big]; [done|]. pose proof (entry_size_pos e).
  destruct (Z.leb_spec (entry_size e) r'); [|done]. rewrite (proj2 (Z.leb_le _ _)) by lia. cbn [take drop app].
  f_equal. apply IH. lia.
Qed.

Lemma until_big_stop r es : fits r es = O -> until_big r es = [].
Proof. destruct es as [|e es]; cbn; [done|]. by destruct (entry_size e <=? r). Qed.

Lemma until_big_subset (P : entry -> Prop) r es : Forall P es -> Forall P (until_big r es).
Proof. induction 1 as [|e es He _ IH]; cbn; [done|]. destruct (entry_size e <=? r); auto. Qed.

Lemma until_big_size r es : psize (until_big r es) <= psize es /\ (length (until_big r es) <= length es)%nat.
Proof.
  induction es as [|e es IH]; cbn; [lia|]. pose proof (psize_nonneg es). pose proof (entry_size_pos e).
  destruct (entry_size e <=? r); cbn; lia.
Qed.

(** Reading a whole directory with calls of [r] bytes each, until one returns
    no entry. *)
Section Client.
Variable c : callctx.
Variable ss : sstate.
Variable dir : sloc.
Variable id : pfsid.
Variable roots : list oid.
Variable oids : nat.           (* bound on the children of a /proc/sys directory *)

Fixpoint readdir_client (fuel : nat) (r off : Z) : option bytes :=
  match fuel with
  | O => None
  | S f =>
      match procfs_vnop_readdir c ss dir id roots oids VDIR (ubuf_read off r) with
      | Some (0, _, num, u) =>
          if num =? 0 then Some []
          else match readdir_client f r (uio_offset u) with
               | Some rest => Some (uio_out u ++ rest)%list
               | None => None
               end
      | _ => None
      end
  end.

(** A directory node whose listing is [es]: one of the layout, or one below
    /proc/sys. *)
Definition lists (es : list entry) (fin : ending) : Prop :=
  (exists n, snode_at ss dir = Some n
     /\ if pfstype_eqb (psn_node_type n) PFSsysctl
        then sys_listing roots id (psn_base_node_id n) = Some es /\ fin = EndEof /\ (length es <= oids)%nat
        else dir_listing c ss dir id (children_of ss dir) = Some (es, fin))
  /\ forall e, fin <> EndErr e.

Lemma readdir_call es1 es2 fin r :
  lists (es1 ++ es2) fin -> 0 < r ->
  exists eof,
    procfs_vnop_readdir c ss dir id roots oids VDIR (ubuf_read (psize es1) r)
    = Some (0, eof, Z.of_nat (fits r es2),
            let sent := take (fits r es2) es2 in
            ub (psize (es1 ++ sent)) (r - psize sent) (encode (psize es1) sent))
    /\ (eof = true -> fits r es2 = length es2 /\ fin = EndEof)
    /\ (fits r es2 = length es2 -> fin = EndEof -> psize es2 < r -> eof = true).
Proof.
  intros [(n & En & Hl) Hf] Hr. unfold procfs_vnop_readdir.
  rewrite bool_decide_eq_true_2 by done. cbn [negb]. rewrite En.
  change (uio_offset (ubuf_read (psize es1) r)) with (psize es1).
  change (ubuf_read (psize es1) r) with (ub (psize es1) r []).
  assert (exists eof b s', put_entries (psize es1) (es1 ++ es2) (Rdstate 0 (ub (psize es1) r []) 0) = (0, b, s')
    /\ (if pfstype_eqb (psn_node_type n) PFSsysctl then procfs_sysctl_readdir ss dir id roots oids (ub (psize es1) r [])
        else readdir_finish <$> readdir_loop c ss dir id (psize es1) (children_of ss dir) (Rdstate 0 (ub (psize es1) r []) 0))
       = Some (readdir_finish (0, eof, s'))
    /\ (eof = true -> b = false /\ fin = EndEof)
    /\ (b = false -> fin = EndEof -> 0 < uio_resid (rd_uio s') -> eof = true)) as (eof & b & s' & Hput & -> & H1 & H2).
  { destruct (pfstype_eqb (psn_node_type n) PFSsysctl).
    - destruct Hl as (Hl & -> & Ho).
      destruct (sysctl_readdir_put ss dir id roots oids n _ (psize es1) r En Hl Ho Hr) as (eof & b & s' & ? & ? & ? & ?).
      exists eof, b, s'. auto 10.
    - destruct (readdir_loop_put c ss dir id (psize es1) (children_of ss dir) (es1 ++ es2) fin 0 (psize es1) r [] 0 Hl Hf (or_introl Hr))
        as (eof & b & s' & H1 & -> & H2 & H3). exists eof, b, s'. auto. }
  rewrite put_resume in Hput by lia. injection Hput as Hb <-. exists eof. split_and!.
  - cbn. rewrite psize_app. done.
  - intros E. destruct (H1 E) as [-> ->]. split; [|done]. apply Nat.eqb_eq. by rewrite negb_false_iff in Hb.
  - intros Ek Ef Hlt. apply H2; [|done|].
    + by rewrite <- Hb, Ek, Nat.eqb_refl.
    + cbn. rewrite Ek, firstn_all. lia.
Qed.

Lemma readdir_client_all fuel es1 es2 fin r :
  lists (es1 ++ es2) fin -> 0 < r -> (length es2 < fuel)%nat ->
  readdir_client fuel r (psize es1) = Some (encode (psize es1) (until_big r es2)).
Proof.
  intros Hl Hr. revert es1 es2 Hl. induction fuel as [|f IH]; intros es1 es2 Hl Hf; [lia|].
  cbn [readdir_client]. destruct (readdir_call es1 es2 fin r Hl Hr) as (eof & -> & _).
  cbn zeta. destruct (Z.eqb_spec (Z.of_nat (fits r es2)) 0) as [Hz|Hz].
  { rewrite until_big_stop by lia. done. }
  rewrite (until_big_fits r r es2) by lia. set (k := fits r es2) in *. pose proof (fits_le r es2).
  cbn [uio_offset uio_out ubuf_uio ub ub_offset ub_out]. rewrite (IH (es1 ++ take k es2) (drop k es2)).
  - rewrite psize_app, encode_app. done.
  - by rewrite <- app_assoc, take_drop.
  - rewrite length_drop. lia.
Qed.

End Client.

(** ** A reader's view of the buffer *)
(** What a reader extracts by walking the records by [d_reclen]. *)
Record parsed := Parsed { pa_ino : Z; pa_seekoff : Z; pa_type : Z; pa_name : bytes }.

Fixpoint parse_dirents (fuel : nat) (bs : bytes) : list parsed :=
  match fuel, bs with
  | S f, _ :: _ =>
      let reclen := le_val (take 2 (drop 16 bs)) in
      let namlen := le_val (take 2 (drop 18 bs)) in
      Parsed (le_val (take 8 bs)) (le_val (take 8 (drop 8 bs)))
        (le_val (take 1 (drop 20 bs))) (take (Z.to_nat namlen) (drop 21 bs))
        :: parse_dirents f (drop (Z.to_nat reclen) bs)
  | _, _ => []
  end.

Fixpoint parsed_of (next : Z) (es : list entry) : list parsed :=
  match es with
  | [] => []
  | e :: es' =>
      Parsed (de_fileid e) (next + entry_size e) (de_type e) (bytes_of_string (de_name e))
        :: parsed_of (next + entry_size e) es'
  end.

(** Entries whose fields fit their [struct direntry] members. *)
Definition entry_ok (e : entry) : Prop :=
  0 <= de_type e < 256 /\ 0 <= de_fileid e < 2 ^ 64 /\ strlen (de_name e) <= 1023.

#[export] Instance entry_ok_dec e : Decision (entry_ok e).
Proof. unfold entry_ok. apply _. Defined.

Lemma take_drop_mid {A} (a b c : list A) n m :
  n = length a -> m = length b -> take m (drop n (a ++ b ++ c)) = b.
Proof. intros -> ->. by rewrite drop_app_length, take_app_length. Qed.

Lemma dirent_fields e next rest :
  entry_ok e -> 0 <= next -> next + entry_size e < 2 ^ 63 ->
  let bs := (dirent_bytes (de_type e) (de_fileid e) (de_name e) (next + entry_size e) (entry_size e) ++ rest)%list in
  le_val (take 8 bs) = de_fileid e /\ le_val (take 8 (drop 8 bs)) = next + entry_size e
  /\ le_val (take 2 (drop 16 bs)) = entry_size e
  /\ le_val (take 1 (drop 20 bs)) = de_type e
  /\ take (Z.to_nat (le_val (take 2 (drop 18 bs)))) (drop 21 bs) = bytes_of_string (de_name e)
  /\ drop (Z.to_nat (entry_size e)) bs = rest.
Proof.
  intros (Ht & Hi & Hn) H0 Hnext bs. pose proof (calc_size_bounds (de_name e)) as Hb.
  pose proof (strlen_nonneg (de_name e)) as Hsn. pose proof (entry_size_pos e) as Hp.
  assert (Hsz : entry_size e <= 1055) by (unfold entry_size; lia).
  set (L1 := le_bytes 8 (de_fileid e)). set (L2 := le_bytes 8 (next + entry_size e)).
  set (L3 := le_bytes 2 (entry_size e)). set (L4 := le_bytes 2 (strlen (de_name e))).
  set (L5 := [de_type e mod 256]). set (L6 := bytes_of_string (de_name e)).
  assert (Ebs : exists pad, bs = (L1 ++ L2 ++ L3 ++ L4 ++ L5 ++ L6 ++ pad)%list).
  { unfold bs, dirent_bytes. eexists. rewrite <- !app_assoc. reflexivity. }
  assert (N1 : length L1 = 8%nat) by apply le_bytes_length. assert (N2 : length L2 = 8%nat) by apply le_bytes_length.
  assert (N3 : length L3 = 2%nat) by apply le_bytes_length. assert (N4 : length L4 = 2%nat) by apply le_bytes_length.
  assert (N6 : Z.of_nat (length L6) = strlen (de_name e)) by apply bytes_of_string_length.
  destruct Ebs as [pad Ebs]. split_and!.
  - rewrite Ebs, take_app_length' by done. apply le_val_bytes_small. cbn. lia.
  - rewrite Ebs, (take_drop_mid L1 L2) by done. apply le_val_bytes_small. cbn. lia.
  - rewrite Ebs, (app_assoc L1 L2), (take_drop_mid (L1 ++ L2) L3) by (rewrite ?length_app; lia).
    apply le_val_bytes_small. cbn. lia.
  - rewrite Ebs, (app_assoc L1), (app_assoc _ L3), (app_assoc _ L4).
    rewrite (take_drop_mid (((L1 ++ L2) ++ L3) ++ L4) L5) by (rewrite ?length_app; cbn; lia).
    cbn. rewrite Z.mod_small by lia. lia.
  - rewrite Ebs, (app_assoc L1), (app_assoc _ L3).
    rewrite (take_drop_mid ((L1 ++ L2) ++ L3) L4 _ 18 2) by (rewrite ?length_app; lia).
    assert (V4 : le_val L4 = strlen (de_name e)) by (apply le_val_bytes_small; cbn; lia). rewrite V4.
    rewrite (app_assoc _ L4), (app_assoc _ L5).
    apply take_drop_mid; [rewrite !length_app; cbn; lia|lia].
  - unfold bs. rewrite drop_app_length'; [done|]. unfold entry_size. by rewrite dirent_bytes_length.
Qed.

Lemma parse_encode_gen fuel next es :
  Forall entry_ok es -> 0 <= next -> next + psize es < 2 ^ 63 -> (length es <= fuel)%nat ->
  parse_dirents fuel (encode next es) = parsed_of next es.
Proof.
  revert next es. induction fuel as [|f IH]; intros next es Hok H0 Hn Hf.
  { by destruct es; cbn in Hf; [|lia]. }
  destruct es as [|e es]; [done|]. cbn [psize length] in *. pose proof (psize_nonneg es). pose proof (entry_size_pos e) as Hp.
  destruct (dirent_fields e next (encode (next + entry_size e) es)) as (E1 & E2 & E3 & E4 & E5 & E6);
    [by inversion Hok|lia|lia|].
  cbn [encode parsed_of]. set (bs := (dirent_bytes _ _ _ _ _ ++ _)%list) in *.
  assert (Hbs : exists b0 bs', bs = b0 :: bs').
  { destruct bs as [|b0 bs'] eqn:Eb; [|eauto]. exfalso. apply (f_equal length) in Eb. unfold bs in Eb.
    rewrite length_app in Eb. unfold entry_size in Eb, Hp. rewrite dirent_bytes_length in Eb. cbn in Eb. lia. }
  cbn [parse_dirents]. destruct Hbs as (b0 & bs' & Eb). rewrite Eb. rewrite <- Eb.
  rewrite E1, E2, E3, E4, E5, E6. f_equal. apply IH; [by inversion Hok|lia|lia|lia].
Qed.

(** ** Properties *)

(** One readdir call at the offset of some entry, with a mapped buffer of
    [r] bytes: it sends exactly the entries from there on that fit, advances
    the offset to the next entry, counts them, and says end-of-directory only
    if nothing is left. *)
Theorem readdir_chunk c ss dir id roots oids es1 es2 fin r :
  lists c ss dir id roots oids (es1 ++ es2) fin -> 0 < r ->
  exists eof u,
    procfs_vnop_readdir c ss dir id roots oids VDIR (ubuf_read (psize es1) r)
    = Some (0, eof, Z.of_nat (fits r es2), u)
    /\ uio_out u = encode (psize es1) (take (fits r es2) es2)
    /\ uio_offset u = psize (es1 ++ take (fits r es2) es2)
    /\ uio_resid u = r - psize (take (fits r es2) es2)
    /\ (eof = true -> fits r es2 = length es2 /\ fin = EndEof)
    /\ (fits r es2 = length es2 -> fin = EndEof -> psize es2 < r -> eof = true).
Proof.
  intros Hl Hr. destruct (readdir_call c ss dir id roots oids es1 es2 fin r Hl Hr) as (eof & E & H1 & H2).
  exists eof. eexists. split; [exact E|]. split_and!; done.
Qed.

(** C5. Reading a directory, of the layout or below /proc/sys, with calls of any
    size: as long as the directory does not change between the calls and its
    listing does not end in an error, the reader gets, each exactly once and in
    order, the entries before the first one that is larger than the reader's
    buffer by itself, and the bytes parse back into them.  When every entry
    fits the buffer, that is the whole directory: no entry is lost or repeated
    at a buffer boundary. *)
Theorem readdir_complete c ss dir id roots oids es fin r :
  lists c ss dir id roots oids es fin -> 0 < r -> Forall entry_ok es -> psize es < 2 ^ 63 ->
  (exists bs, readdir_client c ss dir id roots oids (S (length es)) r 0 = Some bs
     /\ parse_dirents (length es) bs = parsed_of 0 (until_big r es))
  /\ (Forall (fun e => entry_size e <= r) es -> until_big r es = es).
Proof.
  intros Hl Hr Hok Hp. split; [|apply until_big_all]. exists (encode 0 (until_big r es)). pose proof (until_big_size r es). split.
  - apply (readdir_client_all c ss dir id roots oids (S (length es)) [] es fin r); [done..|lia].
  - apply parse_encode_gen; [by apply until_big_subset|lia..].
Qed.

(** A directory whose listing ends in a thread or descriptor section never
    reports end-of-directory, not even when everything was sent. *)
Theorem open_listing_never_eof c ss dir id roots oids es1 es2 r e eof num u :
  lists c ss dir id roots oids (es1 ++ es2) EndOpen -> 0 < r ->
  procfs_vnop_readdir c ss dir id roots oids VDIR (ubuf_read (psize es1) r) = Some (e, eof, num, u) ->
  eof = false.
Proof.
  intros Hl Hr E. destruct (readdir_call c ss dir id roots oids es1 es2 EndOpen r Hl Hr) as (eof' & E' & H1 & _).
  rewrite E in E'. injection E' as -> -> -> ->. destruct eof'; [|done]. by destruct (H1 eq_refl).
Qed.

(** The entries of processes, threads and descriptors carry the directory
    type 2, the vnode type VDIR, which readers take for a character device. *)
Theorem dynamic_entries_dtype c byname base pid ids :
  Forall (fun e => de_type e = DT_CHR) (proc_entries c byname base)
  /\ Forall (fun e => de_type e = DT_CHR) (thread_entries pid base ids)
  /\ Forall (fun e => de_type e = DT_CHR) (fd_entries pid base ids).
Proof.
  split_and!.
  - unfold proc_entries. apply Forall_forall. intros e (x & _ & Hx)%list_elem_of_omap.
    destruct byname; [|by injection Hx as <-]. destruct (proc_find _ x); [by injection Hx as <-|done].
  - apply Forall_map, Forall_forall. done.
  - apply Forall_map, Forall_forall. done.
Qed.

(** ** A sample system: two processes, one daemon *)
Definition sample_procs : list proc :=
  [Proc 1 0 1 1 (Cred 0 0 0 0) "launchd" 0 0 false false;
   Proc 77 1 77 77 (Cred 501 501 20 20) "sh" 0 0 false false].
(** The daemon reports threads 1027 and 99, or descriptors 0 and 5. *)
Definition sample_bridge : bridge :=
  Bridge (fun ty _ _ _ _ =>
    if ty =? PROCFS_REQ_THREADLIST then (0, concat (map (le_bytes 8) [1027; 99]))
    else if ty =? PROCFS_REQ_FDLIST then (0, concat (map (le_bytes 8) [0; 5]))
    else (ENOTSUP, [])).
Definition sample_ctx : callctx :=
  Callctx (table_kernel sample_procs 77) sample_bridge true 0 false (Cred 501 501 20 20) 0.

Definition sysvipc_dir : sloc := 72%positive.
Definition sysvipc_id : pfsid := Pfsid (-1) 0 72.
Definition fd_dir : sloc := 117%positive.
Definition fd_dir_id : pfsid := Pfsid 77 0 117.

Definition listing_of (dir : sloc) (id : pfsid) : list entry :=
  match dir_listing sample_ctx first_structure dir id (children_of first_structure dir) with
  | Some (es, _) => es
  | None => []
  end.

Lemma sysvipc_lists : lists sample_ctx first_structure sysvipc_dir sysvipc_id [] 0 (listing_of sysvipc_dir sysvipc_id) EndEof.
Proof. split; [eexists; split; vm_compute; reflexivity|discriminate]. Qed.

Lemma fd_lists : lists sample_ctx first_structure fd_dir fd_dir_id [] 0 (listing_of fd_dir fd_dir_id) EndOpen.
Proof. split; [eexists; split; vm_compute; reflexivity|discriminate]. Qed.

(** /proc/sys/kern of the sample tree: the dots, ostype, maxproc, random. *)
Definition sys_loc : sloc := 27%positive.
Definition sys_node : pfssnode :=
  default (Pfssnode PFSroot "" 0 0 None [] 0 None None) (snode_at first_structure sys_loc).
Definition kern_id : pfsid := Pfsid PRNODE_NO_PID 8192 (psn_base_node_id sys_node).
Definition kern_listing : list entry := default [] (sys_listing sample_roots kern_id (psn_base_node_id sys_node)).

Lemma kern_lists : lists sample_ctx first_structure sys_loc kern_id sample_roots 8 kern_listing EndEof.
Proof.
  split; [|discriminate]. exists sys_node. split; [vm_compute; reflexivity|].
  replace (pfstype_eqb (psn_node_type sys_node) PFSsysctl) with true by (vm_compute; reflexivity).
  split_and!; [vm_compute; reflexivity|done|]. apply (bool_decide_unpack _). vm_compute. exact I.
Qed.

Lemma readdir_chunk_witness :
  exists eof u,
    procfs_vnop_readdir sample_ctx first_structure sysvipc_dir sysvipc_id [] 0 VDIR (ubuf_read 0 100)
    = Some (0, eof, 3, u).
Proof.
  destruct (readdir_chunk sample_ctx first_structure sysvipc_dir sysvipc_id [] 0 []
              (listing_of sysvipc_dir sysvipc_id) EndEof 100 sysvipc_lists ltac:(lia)) as (eof & u & E & _).
  exists eof, u. exact E.
Defined.

Lemma readdir_complete_witness :
  (exists bs, readdir_client sample_ctx first_structure sysvipc_dir sysvipc_id [] 0
               (S (length (listing_of sysvipc_dir sysvipc_id))) 40 0 = Some bs
    /\ parse_dirents (length (listing_of sysvipc_dir sysvipc_id)) bs = parsed_of 0 (listing_of sysvipc_dir sysvipc_id))
  /\ exists bs, readdir_client sample_ctx first_structure sys_loc kern_id sample_roots 8
               (S (length kern_listing)) 40 0 = Some bs
    /\ parse_dirents (length kern_listing) bs = parsed_of 0 kern_listing.
Proof.
  split.
  - destruct (readdir_complete sample_ctx first_structure sysvipc_dir sysvipc_id [] 0 _ EndEof 40 sysvipc_lists) as [H1 H2].
    + lia.
    + refine (bool_decide_unpack _ _). vm_compute. exact I.
    + vm_compute. reflexivity.
    + rewrite H2 in H1; [exact H1|]. refine (bool_decide_unpack _ _). vm_compute. exact I.
  - destruct (readdir_complete sample_ctx first_structure sys_loc kern_id sample_roots 8 _ EndEof 40 kern_lists) as [H1 H2].
    + lia.
    + refine (bool_decide_unpack _ _). vm_compute. exact I.
    + vm_compute. reflexivity.
    + rewrite H2 in H1; [exact H1|]. refine (bool_decide_unpack _ _). vm_compute. exact I.
Defined.

Lemma open_listing_never_eof_witness :
  exists e num u, procfs_vnop_readdir sample_ctx first_structure fd_dir fd_dir_id [] 0 VDIR (ubuf_read 0 4096)
    = Some (e, false, num, u).
Proof.
  destruct (procfs_vnop_readdir sample_ctx first_structure fd_dir fd_dir_id [] 0 VDIR (ubuf_read 0 4096))
    as [[[[e eof] num] u]|] eqn:E; [|vm_compute in E; discriminate E].
  assert (eof = false) as ->.
  { exact (open_listing_never_eof sample_ctx first_structure fd_dir fd_dir_id [] 0 []
             (listing_of fd_dir fd_dir_id) 4096 e eof num u fd_lists ltac:(lia) E). }
  exists e, num, u. reflexivity.
Defined.
