(* ===== verification/Lookup.v ===== *)
(** * Name lookup (procfs_vnop_lookup in kext/procfs_vnops.c)

    The operation decides which node a path component names and then asks the
    node cache for it: its outcome here is an error, the directory itself, or
    the arguments of the call of [procfsnode_find]. *)
From S2P Require Import Prelude Kernel PfsTypes Text Version Subr Structure Sysctl Readdir.
From Stdlib Require Import ZArith Lia String Ascii.
From stdpp Require Import base list numbers strings gmap.
Open Scope Z_scope.

Inductive lookup_result :=
| LkErr (error : Z)
| LkSelf                                        (* dvp, with an iocount *)
| LkFind (id : pfsid) (snode : option sloc).    (* procfsnode_find(mp, id, snode, ...) *)

Definition NAME_MAX : Z := 255.

Section Lookup.
Variable c : callctx.
Variable ss : sstate.
Variable roots : list oid.
Variable dir : sloc.           (* dir_pnp->node_structure_node *)
Variable id : pfsid.           (* dir_pnp->node_id *)

(** The branch for a descriptor directory. *)
Definition lookup_fd (name : string) (m : sloc) (base : Z) : lookup_result :=
  let fd := fst (procfs_atoi name) in
  let valid :=
    if fd =? -1 then false
    else match proc_find (cx_kernel c) (nodeid_pid id) with
         | None => false
         | Some p =>
             let '(error, fds) := procfs_get_fd_list (cx_bridge c) (cx_alloc c) (Some p) in
             if error =? 0 then existsb (fun k => k =? fd) fds else false
         end in
  if valid then LkFind (Pfsid (nodeid_pid id) (u64 fd) base) (Some m) else LkErr ENOENT.

(** The branch for a process or thread directory, once the name is known to
    start with the integer [n]. *)
Definition lookup_numeric (name : string) (m : sloc) (base : Z) (node_type : pfstype) (n : Z)
  : lookup_result :=
  let is_proc := pfstype_eqb node_type PFSproc || pfstype_eqb node_type PFSprocnamedir in
  let is_thread := pfstype_eqb node_type PFSthread in
  let nid := Pfsid (if is_proc then n else nodeid_pid id)
               (if is_thread then u64 n else nodeid_objectid id) base in
  match proc_find (cx_kernel c) (nodeid_pid nid) with
  | None => LkErr ENOENT
  | Some p =>
      if pfstype_eqb node_type PFSprocnamedir
         && negb (String.eqb name (procfs_construct_process_dir_name p))
      then LkErr ENOENT
      else if check_access c && negb (procfs_check_can_access_process (cx_cred c) p =? 0)
      then LkErr ENOENT
      else if is_thread then
        let '(result, ids) :=
          procfs_get_thread_ids_for_task (cx_bridge c) (cx_alloc c) (cx_alloc c) (Some p) in
        if result =? 0 then
          if existsb (fun t => t =? nodeid_objectid nid) ids then LkFind nid (Some m) else LkErr ENOENT
        else LkErr ENOENT
      else LkFind nid (Some m)
  end.

(** The loop over the children; [None]: a structure pointer dangles. *)
Fixpoint lookup_loop (name : string) (ms : list sloc) : option lookup_result :=
  match ms with
  | [] => Some (LkErr ENOENT)
  | m :: rest =>
      match snode_at ss m with
      | None => None
      | Some n =>
          let node_type := psn_node_type n in
          if procfs_node_version_hidden (cx_version c) (psn_name n) then lookup_loop name rest
          else if String.eqb name (psn_name n)
          then Some (LkFind (Pfsid (nodeid_pid id) (nodeid_objectid id) (psn_base_node_id n)) (Some m))
          else if pfstype_eqb node_type PFSfd then Some (lookup_fd name m (psn_base_node_id n))
          else if pfstype_eqb node_type PFSproc || pfstype_eqb node_type PFSprocnamedir
                  || pfstype_eqb node_type PFSthread then
            let '(num, endp) := procfs_atoi name in
            if negb (pfstype_eqb node_type PFSprocnamedir) && negb (String.eqb endp "")
            then lookup_loop name rest
            else if negb (num =? -1)
            then Some (lookup_numeric name m (psn_base_node_id n) node_type num)
            else lookup_loop name rest
          else lookup_loop name rest
      end
  end.

(** The ".." branch. *)
Definition lookup_dotdot (dn : pfssnode) : option lookup_result :=
  if pfstype_eqb (psn_node_type dn) PFSsysctl && negb (nodeid_objectid id =? 0) then
    let '(_, parent_oid) := procfs_sysctl_parent roots (nodeid_objectid id) 0 in
    Some (LkFind (Pfsid PRNODE_NO_PID parent_oid (psn_base_node_id dn)) (Some dir))
  else
    match procfs_get_parent_node_id ss dir id with
    | None => None
    | Some pid => Some (LkFind pid (psn_parent dn))
    end.

(** [vt]: type of the directory vnode, none for NULLVP; [has_fsnode]: whether
    it has a pfsnode; [get_error]: what vnode_get(dvp) returns. *)
Definition procfs_vnop_lookup (vt : option vtype) (has_fsnode : bool) (cn_nameptr : string)
  (cn_namelen : Z) (isdotdot : bool) (get_error : Z) : option lookup_result :=
  if negb (bool_decide (vt = Some VDIR)) || (cn_namelen <? 1) || negb has_fsnode
  then Some (LkErr EINVAL)
  else
    let name := strlcpy cn_nameptr (Z.min (NAME_MAX + 1) (cn_namelen + 1)) in
    match snode_at ss dir with
    | None => None
    | Some dn =>
        if isdotdot then lookup_dotdot dn
        else if (cn_namelen =? 1) && match name with String "." _ => true | _ => false end
        then Some (if get_error =? 0 then LkSelf else LkErr get_error)
        else if pfstype_eqb (psn_node_type dn) PFSsysctl then
          match procfs_sysctl_find roots (nodeid_objectid id) name with
          | None => None
          | Some None => Some (LkErr ENOENT)
          | Some (Some child) =>
              Some (LkFind (Pfsid PRNODE_NO_PID child (psn_base_node_id dn)) (Some dir))
          end
        else lookup_loop name (psn_children dn)
    end.

(** A lookup of a plain component in a directory. *)
Definition lookup_name (name : string) : option lookup_result :=
  procfs_vnop_lookup (Some VDIR) true name (strlen name) false 0.

End Lookup.

#[local] Arguments procfs_get_thread_ids_for_task : simpl never.
#[local] Arguments procfs_get_fd_list : simpl never.
#[local] Arguments procfs_atoi : simpl never.

(** ** What a directory must satisfy for its entries to resolve *)
(** Checked for the layout the code builds by [first_structure_dirs]. *)
Record dir_ok (ss : sstate) (ms : list sloc) : Prop := {
  do_nodes m : m ∈ ms -> is_Some (snode_at ss m);
  do_names : NoDup (names_of ss ms);
  do_dynamic : dynamic_last (types_of ss ms) = true;
  do_text m n : m ∈ ms -> snode_at ss m = Some n -> starts_nondigit (psn_name n) = true;
  do_dots m n : m ∈ ms -> snode_at ss m = Some n ->
    (psn_node_type n = PFSdirthis -> psn_name n = "."%string)
    /\ (psn_node_type n = PFSdirparent -> psn_name n = ".."%string)
}.

(** The daemon reports thread ids and descriptors that fit an [int]. *)
Definition small_ids (c : callctx) : Prop :=
  (forall p e ids, procfs_get_thread_ids_for_task (cx_bridge c) (cx_alloc c) (cx_alloc c) (Some p) = (e, ids) ->
     Forall (fun t => 0 <= t < 2 ^ 31) ids)
  /\ (forall p e fds, procfs_get_fd_list (cx_bridge c) (cx_alloc c) (Some p) = (e, fds) ->
     Forall (fun t => 0 <= t < 2 ^ 31) fds).

(** ** Lemmas *)
Lemma starts_digit_print_u n rest : 0 <= n -> starts_nondigit (print_u n +:+ rest) = false.
Proof.
  intros Hn. destruct (print_u_first n Hn) as (x & s & -> & Hx). rewrite str_app_cons. cbn. by rewrite Hx.
Qed.

Lemma starts_digit_print_d n : 0 <= n -> starts_nondigit (print_d n) = false.
Proof. intros Hn. rewrite print_d_nonneg, <- (app_empty_r (print_u n)) by done. by apply starts_digit_print_u. Qed.

Lemma get_pids_elem K a c pid :
  pid ∈ procfs_get_pids K a c -> 0 <= pid < 2 ^ 31 /\ pid_visible K c pid = true.
Proof.
  unfold procfs_get_pids. destruct a; [|set_solver]. rewrite get_pids_loop_spec by lia.
  intros Hin%subseteq_take. apply list_elem_of_filter in Hin as [Hv Hin]. apply elem_of_seqZ in Hin.
  unfold PROCFS_MAX_PID in Hin. split; [lia|done].
Qed.

Section Agreement.
Variable c : callctx.
Context `{KernelLaws (cx_kernel c)}.
Variable ss : sstate.
Variable dir : sloc.
Variable id : pfsid.

Lemma names_of_cons m ms n : snode_at ss m = Some n -> names_of ss (m :: ms) = psn_name n :: names_of ss ms.
Proof. intros E. unfold names_of. cbn. by rewrite E. Qed.

Lemma types_of_cons m ms n : snode_at ss m = Some n -> types_of ss (m :: ms) = psn_node_type n :: types_of ss ms.
Proof. intros E. unfold types_of. cbn. by rewrite E. Qed.

Lemma dir_ok_tail m ms : dir_ok ss (m :: ms) -> dir_ok ss ms.
Proof.
  intros [D1 D2 D3 D4 D5]. destruct (D1 m) as [n En]; [set_solver|].
  rewrite (names_of_cons m ms n En) in D2. rewrite (types_of_cons m ms n En) in D3. split.
  - intros k Hk. apply D1. set_solver.
  - by apply NoDup_cons in D2 as [_ ?].
  - unfold dynamic_last in *. destruct (types_of ss ms); [done|]. cbn in D3. by apply andb_true_iff in D3 as [_ ?].
  - intros k n' Hk. apply D4. set_solver.
  - intros k n' Hk. apply D5. set_solver.
Qed.

(** With siblings after it, a node is static. *)
Lemma dir_ok_static m ms n :
  dir_ok ss (m :: ms) -> snode_at ss m = Some n -> ms <> [] -> dynamic_type (psn_node_type n) = false.
Proof.
  intros [D1 _ D3 _ _] En Hms. rewrite (types_of_cons m ms n En) in D3. destruct ms as [|m' ms]; [done|].
  destruct (D1 m') as [n' En']; [set_solver|]. rewrite (types_of_cons m' ms n' En') in D3.
  unfold dynamic_last in D3. cbn [removelast forallb] in D3. apply andb_true_iff in D3 as [D3 _].
  by apply negb_true_iff in D3.
Qed.

(** Siblings before the wanted one are passed over. *)
Lemma lookup_pass name m ms n :
  snode_at ss m = Some n ->
  procfs_node_version_hidden (cx_version c) (psn_name n) = true
  \/ (psn_name n <> name /\ dynamic_type (psn_node_type n) = false) ->
  lookup_loop c ss id name (m :: ms) = lookup_loop c ss id name ms.
Proof.
  intros En Hp. cbn [lookup_loop]. rewrite En. destruct (procfs_node_version_hidden _ _); [done|].
  destruct Hp as [|[Hne Hd]]; [done|]. destruct (String.eqb_spec name (psn_name n)); [congruence|].
  unfold dynamic_type in Hd. destruct (psn_node_type n); try done; by cbn in Hd.
Qed.

(** The numeric entries of a directory resolve to the node they stand for. *)
Definition resolves (m : sloc) (e : entry) (r : lookup_result) : Prop :=
  exists nid, r = LkFind nid (Some m)
    /\ procfs_get_fileid (nodeid_pid nid) (nodeid_objectid nid) (nodeid_base_id nid) = de_fileid e.

Lemma resolve_proc byname m base e :
  nodeid_objectid id = PRNODE_NO_OBJECTID -> e ∈ proc_entries c byname base ->
  exists pid, starts_nondigit (de_name e) = false /\ 0 <= pid < 2 ^ 31
    /\ (exists rest, procfs_atoi (de_name e) = (pid, rest) /\ (byname = false -> rest = ""%string))
    /\ resolves m e (lookup_numeric c id (de_name e) m base (if byname then PFSprocnamedir else PFSproc) pid).
Proof.
  intros Hoid. unfold proc_entries. intros (pid & Hpid & He)%list_elem_of_omap.
  apply get_pids_elem in Hpid as [Hr Hv]. exists pid.
  assert (Hp : exists p, proc_find (cx_kernel c) pid = Some p
     /\ check_access c && negb (procfs_check_can_access_process (cx_cred c) p =? 0) = false).
  { unfold pid_visible in Hv. destruct (proc_find (cx_kernel c) pid) as [p|]; [|done]. exists p. split; [done|].
    destruct (check_access c); [|done]. by rewrite Hv. }
  destruct Hp as (p & Ep & Ha). destruct byname.
  - rewrite Ep in He. injection He as <-. cbn [de_name].
    unfold procfs_construct_process_dir_name. rewrite (proc_find_pid pid p Ep), print_d_nonneg by lia.
    split_and!; [apply starts_digit_print_u; lia|lia|lia|..].
    + eexists. split; [apply atoi_digits; [lia|reflexivity]|done].
    + eexists. unfold lookup_numeric. cbn. rewrite Ep, Ha. cbn.
      unfold procfs_construct_process_dir_name. rewrite (proc_find_pid pid p Ep), print_d_nonneg by lia.
      rewrite String.eqb_refl. cbn. split; [done|]. cbn. by rewrite Hoid.
  - injection He as <-. cbn [de_name]. split_and!; [apply starts_digit_print_d; lia|lia|lia|..].
    + eexists. split; [by apply atoi_print_d|done].
    + eexists. unfold lookup_numeric. cbn. rewrite Ep, Ha. cbn. split; [done|]. cbn. by rewrite Hoid.
Qed.

Lemma u64_int t : 0 <= t < 2 ^ 31 -> u64 t = t.
Proof. intros. apply u64_small. lia. Qed.

Lemma existsb_elem t ls : t ∈ ls -> existsb (fun k => k =? t) ls = true.
Proof. intros Hin. apply existsb_exists. exists t. split; [by apply list_elem_of_In|apply Z.eqb_refl]. Qed.

Lemma resolve_thread m base e p ids :
  small_ids c -> entry_allowed c id = true ->
  proc_find (cx_kernel c) (nodeid_pid id) = Some p ->
  procfs_get_thread_ids_for_task (cx_bridge c) (cx_alloc c) (cx_alloc c) (Some p) = (0, ids) ->
  e ∈ thread_entries (nodeid_pid id) base ids ->
  exists t, starts_nondigit (de_name e) = false /\ 0 <= t < 2 ^ 31
    /\ procfs_atoi (de_name e) = (t, ""%string)
    /\ resolves m e (lookup_numeric c id (de_name e) m base PFSthread t).
Proof.
  intros [Hs _] Hal Ep Et He. pose proof (Hs p 0 ids Et) as Hb. unfold thread_entries in He.
  apply list_elem_of_In, in_map_iff in He as (t & <- & Ht). apply list_elem_of_In in Ht.
  rewrite Forall_forall in Hb. pose proof (Hb t Ht) as Hr. exists t. cbn [de_name].
  rewrite (i64_small t) by lia. split_and!; [apply starts_digit_print_d; lia|lia|lia|by apply atoi_print_d|].
  eexists. unfold lookup_numeric. cbn. rewrite Ep.
  assert (Ha : check_access c && negb (procfs_check_can_access_process (cx_cred c) p =? 0) = false).
  { unfold entry_allowed in Hal. destruct (check_access c); [|done]. cbn in *.
    destruct (Z.eqb_spec (nodeid_pid id) PRNODE_NO_PID) as [E|_].
    - rewrite E in Ep. rewrite (proc_find_neg (K := cx_kernel c)) in Ep by (unfold PRNODE_NO_PID; lia). done.
    - cbn in Hal. unfold procfs_check_can_access_proc_pid in Hal. rewrite Ep in Hal. by rewrite Hal. }
  rewrite Ha, Et. cbn. rewrite u64_int, existsb_elem by done. split; [done|]. done.
Qed.

Lemma resolve_fd m base e p :
  small_ids c -> proc_find (cx_kernel c) (nodeid_pid id) = Some p ->
  e ∈ fd_entries (nodeid_pid id) base (snd (procfs_get_fd_list (cx_bridge c) (cx_alloc c) (Some p))) ->
  starts_nondigit (de_name e) = false /\ resolves m e (lookup_fd c id (de_name e) m base).
Proof.
  intros [_ Hs] Ep He. destruct (procfs_get_fd_list (cx_bridge c) (cx_alloc c) (Some p)) as [er fds] eqn:El.
  pose proof (Hs p er fds El) as Hb. cbn [snd] in He. unfold fd_entries in He.
  apply list_elem_of_In, in_map_iff in He as (t & <- & Ht). apply list_elem_of_In in Ht.
  rewrite Forall_forall in Hb. pose proof (Hb t Ht) as Hr. cbn [de_name].
  split; [apply starts_digit_print_d; lia|]. eexists. unfold lookup_fd. rewrite atoi_print_d by lia. cbn [fst].
  rewrite (proj2 (Z.eqb_neq t (-1))) by lia. rewrite Ep, El.
  assert (er = 0) as ->.
  { unfold procfs_get_fd_list in El. destruct (cx_alloc c); [|by injection El as <- <-; set_solver].
    destruct (ctl_request _ _ _ _ _ _) as [e0 b0]. destruct (Z.eqb_spec e0 0); injection El as <- <-; [done|set_solver]. }
  cbn [Z.eqb]. rewrite existsb_elem by done. split; [done|]. cbn. by rewrite u64_int.
Qed.

End Agreement.

Section Agreement2.
Variable c : callctx.
Context `{KernelLaws (cx_kernel c)}.
Variable ss : sstate.
Variable dir : sloc.
Variable id : pfsid.

(** Process lists occur only in directories that are not thread specific. *)
Definition proc_lists_global (ms : list sloc) : Prop :=
  forall m n, m ∈ ms -> snode_at ss m = Some n ->
    psn_node_type n = PFSproc \/ psn_node_type n = PFSprocnamedir ->
    nodeid_objectid id = PRNODE_NO_OBJECTID.

Lemma not_allowed_empty snodes es fin :
  entry_allowed c id = false -> dir_listing c ss dir id snodes = Some (es, fin) -> es = [].
Proof.
  intros Ha. induction snodes as [|n rest IH]; cbn [dir_listing]; [by intros [= <- _]|].
  by rewrite Ha, orb_true_r.
Qed.

Lemma switch_single t k :
  readdir_switch t = k -> (exists ty, k = RCentry ty) \/ k = RCdot \/ k = RCdotdot ->
  dynamic_type t = false.
Proof. intros <-. destruct t; cbn; try done; intros [[ty Hk]|[Hk|Hk]]; discriminate Hk. Qed.

Lemma single_name n k e : single_entry ss dir id n k = Some e -> de_name e = psn_name n.
Proof. destruct k; cbn; try done; [by intros [= <-]..|]. destruct (procfs_get_parent_node_id _ _ _); [|done]. by intros [= <-]. Qed.

(** The name of a listed entry is a number or the name of one of the nodes. *)
Lemma listed_name ms es fin e :
  small_ids c -> dir_ok ss ms -> proc_lists_global ms ->
  dir_listing c ss dir id (omap (snode_at ss) ms) = Some (es, fin) -> e ∈ es ->
  starts_nondigit (de_name e) = false \/ de_name e ∈ names_of ss ms.
Proof.
  intros Hsm. revert es. induction ms as [|m ms IH]; intros es Hd Hg Hl He.
  { injection Hl as <- _. set_solver. }
  destruct (do_nodes _ _ Hd m) as [n En]; [set_solver|].
  cbn [omap list_omap] in Hl. rewrite En in Hl. rewrite (names_of_cons _ _ _ _ En).
  assert (Hrec : forall es', dir_listing c ss dir id (omap (snode_at ss) ms) = Some (es', fin) -> e ∈ es' ->
    starts_nondigit (de_name e) = false \/ de_name e ∈ psn_name n :: names_of ss ms).
  { intros es' Hl' He'. destruct (IH es') as [|Hin]; [by eapply dir_ok_tail| |done|done|by left|right; set_solver].
    intros m' n' Hm'. apply Hg. set_solver. }
  cbn [dir_listing] in Hl. destruct (_ || _) eqn:Eh; [by apply (Hrec es)|].
  apply orb_false_iff in Eh as [_ Hal%negb_false_iff].
  destruct (readdir_switch (psn_node_type n)) eqn:Ek; try done.
  all: try (destruct (single_entry ss dir id n _) as [e0|] eqn:Es; [|done];
    destruct (dir_listing c ss dir id (omap (snode_at ss) ms)) as [[es' fin']|] eqn:El; [|done];
    injection Hl as <- <-; apply elem_of_cons in He as [->|He]; [|by apply (Hrec es')];
    apply single_name in Es; rewrite Es; right; set_solver).
  - injection Hl as <- _. left. apply (resolve_proc c id false m) in He as (? & ? & _); [done|].
    apply (Hg m n); [set_solver|done|]. destruct (psn_node_type n); try done; auto.
  - injection Hl as <- _. left. apply (resolve_proc c id true m) in He as (? & ? & _); [done|].
    apply (Hg m n); [set_solver|done|]. destruct (psn_node_type n); try done; auto.
  - destruct (proc_find (cx_kernel c) (nodeid_pid id)) as [p|] eqn:Ep; [|injection Hl as <- _; set_solver].
    destruct (procfs_get_thread_ids_for_task _ _ _ _) as [er ids] eqn:Et.
    destruct er; injection Hl as <- _; [|set_solver|set_solver].
    left. eapply (resolve_thread c id m) in He as (? & ? & _); done.
  - destruct (proc_find (cx_kernel c) (nodeid_pid id)) as [p|] eqn:Ep; [|injection Hl as <- _; set_solver].
    injection Hl as <- _. left. eapply (resolve_fd c id m) in He as (? & _); done.
Qed.

Lemma listed_resolves ms es fin e :
  small_ids c -> dir_ok ss ms -> proc_lists_global ms ->
  dir_listing c ss dir id (omap (snode_at ss) ms) = Some (es, fin) -> e ∈ es ->
  de_name e <> "."%string -> de_name e <> ".."%string ->
  exists m r, lookup_loop c ss id (de_name e) ms = Some r /\ resolves m e r.
Proof.
  intros Hsm. revert es. induction ms as [|m ms IH]; intros es Hd Hg Hl He Hn1 Hn2.
  { injection Hl as <- _. set_solver. }
  destruct (do_nodes _ _ Hd m) as [n En]; [set_solver|].
  cbn [omap list_omap] in Hl. rewrite En in Hl.
  assert (Hg' : proc_lists_global ms) by (intros m' n' Hm'; apply Hg; set_solver).
  assert (Hd' : dir_ok ss ms) by (by eapply dir_ok_tail).
  cbn [dir_listing] in Hl. destruct (entry_allowed c id) eqn:Hal; cycle 1.
  { rewrite orb_true_r in Hl. apply not_allowed_empty in Hl; [|done]. subst. set_solver. }
  rewrite orb_false_r in Hl. destruct (procfs_node_version_hidden _ _) eqn:Eh.
  { destruct (IH es) as (m' & r & Hr & Hres); [done..|]. exists m', r. split; [|done].
    rewrite (lookup_pass c ss id _ _ _ n) by auto. done. }
  assert (Htext : starts_nondigit (psn_name n) = true) by (apply (do_text _ _ Hd m); [set_solver|done]).
  (* a numeric entry of this node *)
  assert (Hnum : starts_nondigit (de_name e) = false -> String.eqb (de_name e) (psn_name n) = false).
  { intros Hx. destruct (String.eqb_spec (de_name e) (psn_name n)); congruence. }
  destruct (readdir_switch (psn_node_type n)) eqn:Ek; try done.
  all: try (destruct (single_entry ss dir id n _) as [e0|] eqn:Es; [|done];
    destruct (dir_listing c ss dir id (omap (snode_at ss) ms)) as [[es' fin']|] eqn:El; [|done];
    injection Hl as <- <-; pose proof (single_name _ _ _ Es) as Enm;
    assert (Hst : dynamic_type (psn_node_type n) = false)
      by (eapply switch_single; [exact Ek|naive_solver]);
    apply elem_of_cons in He as [->|He];
    [|destruct (IH es') as (m' & r & Hr & Hres); [done..|]; exists m', r; split; [|done];
      rewrite (lookup_pass c ss id _ _ _ n); [done|done|right; split; [|done]];
      destruct (listed_name ms es' fin' e) as [Hx|Hx]; [done..|congruence|];
      intros Exn; rewrite <- Exn in Hx; pose proof (do_names _ _ Hd) as Hnd; rewrite (names_of_cons _ _ _ _ En) in Hnd;
      by apply NoDup_cons in Hnd as [? _]]).
  - exists m. eexists. cbn [lookup_loop]. rewrite En, Eh, Enm, String.eqb_refl. split; [done|].
    eexists. split; [done|]. cbn in Es. by injection Es as <-.
  - destruct (do_dots _ _ Hd m n) as [Hdot _]; [set_solver|done|]. rewrite Enm in Hn1. destruct Hn1. apply Hdot.
    destruct (psn_node_type n); done.
  - destruct (do_dots _ _ Hd m n) as [_ Hdot]; [set_solver|done|]. rewrite Enm in Hn2. destruct Hn2. apply Hdot.
    destruct (psn_node_type n); done.
  - injection Hl as <- _. assert (Et : psn_node_type n = PFSproc) by (destruct (psn_node_type n); done).
    apply (resolve_proc c id false m) in He as (pid & Hs & Hr & (rest & Ea & Hrest) & Hres);
      [|apply (Hg m n); [set_solver|done|auto]].
    exists m. eexists. cbn [lookup_loop]. rewrite En, Eh, Hnum, Et, Ea, (Hrest eq_refl) by done. cbn.
    rewrite (proj2 (Z.eqb_neq pid (-1))) by lia. cbn. done.
  - injection Hl as <- _. assert (Et : psn_node_type n = PFSprocnamedir) by (destruct (psn_node_type n); done).
    apply (resolve_proc c id true m) in He as (pid & Hs & Hr & (rest & Ea & _) & Hres);
      [|apply (Hg m n); [set_solver|done|auto]].
    exists m. eexists. cbn [lookup_loop]. rewrite En, Eh, Hnum, Et, Ea by done. cbn.
    rewrite (proj2 (Z.eqb_neq pid (-1))) by lia. cbn. done.
  - assert (Et : psn_node_type n = PFSthread) by (destruct (psn_node_type n); done).
    destruct (proc_find (cx_kernel c) (nodeid_pid id)) as [p|] eqn:Ep; [|injection Hl as <- _; set_solver].
    destruct (procfs_get_thread_ids_for_task _ _ _ _) as [er ids] eqn:Eids.
    destruct er; injection Hl as <- _; [|set_solver|set_solver].
    apply (resolve_thread c id m _ _ p ids) in He as (t & Hs & Hr & Ea & Hres); [|done..].
    exists m. eexists. cbn [lookup_loop]. rewrite En, Eh, Hnum, Et, Ea by done. cbn.
    rewrite (proj2 (Z.eqb_neq t (-1))) by lia. cbn. done.
  - assert (Et : psn_node_type n = PFSfd) by (destruct (psn_node_type n); done).
    destruct (proc_find (cx_kernel c) (nodeid_pid id)) as [p|] eqn:Ep; [|injection Hl as <- _; set_solver].
    injection Hl as <- _. apply (resolve_fd c id m _ _ p) in He as (Hs & Hres); [|done..].
    exists m. eexists. cbn [lookup_loop]. rewrite En, Eh, Hnum, Et by done. cbn. done.
Qed.
End Agreement2.

(** ** Lookup and ".." *)
(** The id of a directory node agrees with its structure node: it carries a
    pid only if the structure node is process specific, an object id only if
    it is thread specific. *)
Record id_ok (dn : pfssnode) (id : pfsid) : Prop := {
  ido_base : nodeid_base_id id = psn_base_node_id dn;
  ido_pid : Z.land (psn_flags dn) PSN_FLAG_PROCESS = 0 -> nodeid_pid id = PRNODE_NO_PID;
  ido_oid : Z.land (psn_flags dn) PSN_FLAG_THREAD = 0 -> nodeid_objectid id = PRNODE_NO_OBJECTID
}.

(** Where the dynamic sections may occur. *)
Definition sections_ok (ss : sstate) (dn : pfssnode) : Prop :=
  forall m n, m ∈ psn_children dn -> snode_at ss m = Some n ->
    ((psn_node_type n = PFSproc \/ psn_node_type n = PFSprocnamedir) -> Z.land (psn_flags dn) PSN_FLAG_PROCESS = 0)
    /\ ((psn_node_type n = PFSthread \/ psn_node_type n = PFSfd) -> Z.land (psn_flags dn) PSN_FLAG_THREAD = 0)
    /\ (psn_node_type n = PFSsysctl -> Z.land (psn_flags dn) PSN_FLAG_THREAD = 0).

(** What a lookup among [ms] may find: a node of the list, with its base id
    and (unless it stands for many names) its name, and the ids of the directory where the node does not carry its own. *)
Definition found_at (ss : sstate) (id : pfsid) (name : string) (ms : list sloc) (nid : pfsid) (m : sloc) : Prop :=
  exists n, m ∈ ms /\ snode_at ss m = Some n /\ nodeid_base_id nid = psn_base_node_id n
    /\ (name = psn_name n \/ dynamic_type (psn_node_type n) = true)
    /\ (nodeid_pid nid = nodeid_pid id \/ psn_node_type n = PFSproc \/ psn_node_type n = PFSprocnamedir)
    /\ (nodeid_objectid nid = nodeid_objectid id \/ psn_node_type n = PFSthread \/ psn_node_type n = PFSfd).

Lemma lookup_loop_found c ss id name ms nid m :
  lookup_loop c ss id name ms = Some (LkFind nid (Some m)) -> found_at ss id name ms nid m.
Proof.
  induction ms as [|k ms IH]; cbn [lookup_loop]; [done|].
  destruct (snode_at ss k) as [n|] eqn:En; [|done].
  assert (Hrec : lookup_loop c ss id name ms = Some (LkFind nid (Some m)) -> found_at ss id name (k :: ms) nid m).
  { intros Hl. destruct (IH Hl) as (n0 & ? & ?). exists n0. split; [set_solver|done]. }
  destruct (procfs_node_version_hidden _ _); [done|]. destruct (String.eqb_spec name (psn_name n)).
  { intros [= <- <-]. exists n. split; [set_solver|]. cbn. split_and!; auto. }
  destruct (pfstype_eqb_spec (psn_node_type n) PFSfd) as [Ef|_].
  { unfold lookup_fd. cbv zeta.
    match goal with |- Some (if ?b then _ else _) = _ -> _ => destruct b end; [|done]. intros [= <- <-].
    exists n. split; [set_solver|]. cbn. rewrite Ef. split_and!; auto. }
  destruct (_ || _) eqn:Et; [|done]. destruct (procfs_atoi name) as [num endp].
  destruct (_ && _); [done|]. destruct (num =? -1); cbn [negb]; [done|].
  unfold lookup_numeric. destruct (proc_find _ _) as [p|]; [|done].
  destruct (_ && negb (String.eqb _ _)); [done|]. destruct (_ && negb (_ =? 0)); [done|].
  assert (Hfin : Some (LkFind (Pfsid
       (if pfstype_eqb (psn_node_type n) PFSproc || pfstype_eqb (psn_node_type n) PFSprocnamedir then num else nodeid_pid id)
       (if pfstype_eqb (psn_node_type n) PFSthread then u64 num else nodeid_objectid id) (psn_base_node_id n)) (Some k))
     = Some (LkFind nid (Some m)) -> found_at ss id name (k :: ms) nid m).
  { intros [= <- <-]. exists n. split; [set_solver|]. do 2 (split; [done|]). cbn.
    assert (Hd : dynamic_type (psn_node_type n) = true) by (destruct (psn_node_type n); done). destruct (pfstype_eqb_spec (psn_node_type n) PFSproc), (pfstype_eqb_spec (psn_node_type n) PFSprocnamedir),
      (pfstype_eqb_spec (psn_node_type n) PFSthread); cbn; auto. }
  destruct (pfstype_eqb (psn_node_type n) PFSthread); [|exact Hfin].
  destruct (procfs_get_thread_ids_for_task _ _ _ _) as [er ids]. destruct (er =? 0); [|done].
  destruct (existsb _ _); [exact Hfin|done].
Qed.

Lemma flag_test f k : negb (Z.land f k =? 0) = true <-> Z.land f k <> 0.
Proof. rewrite negb_true_iff, Z.eqb_neq. done. Qed.

Lemma parent_id_of_child c ss id name dir dn nid m :
  structure_wf ss -> snode_at ss dir = Some dn -> id_ok dn id -> sections_ok ss dn ->
  lookup_loop c ss id name (psn_children dn) = Some (LkFind nid (Some m)) ->
  procfs_get_parent_node_id ss m nid = Some id /\ exists n, snode_at ss m = Some n /\ psn_parent n = Some dir.
Proof.
  intros W Ed [B P O] Hs Hl. apply lookup_loop_found in Hl as (n & Hm & En & _ & _ & Hpid & Hoid).
  destruct (wf_children ss W dir dn m Ed Hm) as (n' & En' & Epar). rewrite En in En'. injection En' as <-.
  split; [|eauto]. unfold procfs_get_parent_node_id. rewrite En, Epar. change (default m (Some dir)) with dir. rewrite Ed.
  destruct (Hs m n Hm En) as (S1 & S2 & _). destruct id as [pid oid base]. cbn in *. do 2 f_equal.
  - destruct (Z.eqb_spec (Z.land (psn_flags dn) PSN_FLAG_PROCESS) 0) as [E|E]; cbn.
    + symmetry. by apply P.
    + destruct Hpid as [|Ht]; [done|]. destruct E. by apply S1.
  - destruct (Z.eqb_spec (Z.land (psn_flags dn) PSN_FLAG_THREAD) 0) as [E|E]; cbn.
    + symmetry. by apply O.
    + destruct Hoid as [|Ht]; [done|]. destruct E. by apply S2.
  - done.
Qed.

(** The id of a directory node.  A directory below /proc/sys shares the one
    PFSsysctl structure node and has its oid as the object id. *)
Definition dir_id_ok (dn : pfssnode) (id : pfsid) : Prop :=
  nodeid_base_id id = psn_base_node_id dn
  /\ (psn_node_type dn = PFSsysctl -> nodeid_pid id = PRNODE_NO_PID)
  /\ (psn_node_type dn <> PFSsysctl -> id_ok dn id).

Lemma dir_id_plain dn id : dir_id_ok dn id -> psn_node_type dn <> PFSsysctl -> id_ok dn id.
Proof. intros (_ & _ & H). exact H. Qed.

(** A lookup by name searches the children or the sysctl tree. *)
Lemma lookup_name_cases c ss roots dir id dn name nid m :
  snode_at ss dir = Some dn -> lookup_name c ss roots dir id name = Some (LkFind nid (Some m)) ->
  (psn_node_type dn <> PFSsysctl /\ exists nm, lookup_loop c ss id nm (psn_children dn) = Some (LkFind nid (Some m)))
  \/ (psn_node_type dn = PFSsysctl /\ m = dir /\ exists ch nm,
        procfs_sysctl_find roots (nodeid_objectid id) nm = Some (Some ch)
        /\ nid = Pfsid PRNODE_NO_PID ch (psn_base_node_id dn)).
Proof.
  intros Ed. unfold lookup_name, procfs_vnop_lookup. destruct (_ || _); [done|]. rewrite Ed. cbv iota.
  destruct (_ && _); [done|]. destruct (pfstype_eqb_spec (psn_node_type dn) PFSsysctl) as [Et|Et]; [|eauto].
  destruct (procfs_sysctl_find _ _ _) as [[ch|]|] eqn:Ef; try done. intros [= <- <-]. eauto 10.
Qed.

Lemma dotdot_of c ss roots m nid n : snode_at ss m = Some n ->
  procfs_vnop_lookup c ss roots m nid (Some VDIR) true ".." 2 true 0 = lookup_dotdot ss roots m nid n.
Proof. intros En. unfold procfs_vnop_lookup. rewrite bool_decide_eq_true_2 by done. cbn. by rewrite En. Qed.

(** The root of /proc/sys is found with object id 0. *)
Lemma sysctl_root_oid c ss id name dn nid m n :
  id_ok dn id -> sections_ok ss dn -> lookup_loop c ss id name (psn_children dn) = Some (LkFind nid (Some m)) ->
  snode_at ss m = Some n ->
  pfstype_eqb (psn_node_type n) PFSsysctl && negb (nodeid_objectid nid =? 0) = false.
Proof.
  intros Hid Hs Hl En. destruct (pfstype_eqb_spec (psn_node_type n) PFSsysctl) as [Et|]; [|done]. cbn [andb].
  apply lookup_loop_found in Hl as (n' & Hm & En' & _ & _ & _ & Hoid). rewrite En in En'. injection En' as <-.
  destruct (Hs m n Hm En) as (_ & _ & S3). destruct Hoid as [->|[E|E]]; [|congruence..].
  by rewrite (ido_oid _ _ Hid (S3 Et)).
Qed.

(** ** The layout the code builds satisfies these conditions *)
Definition child_okb (dn n : pfssnode) : bool :=
  let ty t := pfstype_eqb (psn_node_type n) t in
  let free k := Z.land (psn_flags dn) k =? 0 in
  starts_nondigit (psn_name n)
  && implb (ty PFSdirthis) (String.eqb (psn_name n) ".")
  && implb (ty PFSdirparent) (String.eqb (psn_name n) "..")
  && implb (ty PFSproc || ty PFSprocnamedir) (free PSN_FLAG_PROCESS && free PSN_FLAG_THREAD)
  && implb (ty PFSthread || ty PFSfd) (free PSN_FLAG_THREAD)
  && implb (ty PFSsysctl) (free PSN_FLAG_THREAD).

Lemma child_okb_spec dn n :
  child_okb dn n = true ->
  starts_nondigit (psn_name n) = true
  /\ (psn_node_type n = PFSdirthis -> psn_name n = "."%string)
  /\ (psn_node_type n = PFSdirparent -> psn_name n = ".."%string)
  /\ (psn_node_type n = PFSproc \/ psn_node_type n = PFSprocnamedir ->
      Z.land (psn_flags dn) PSN_FLAG_PROCESS = 0 /\ Z.land (psn_flags dn) PSN_FLAG_THREAD = 0)
  /\ (psn_node_type n = PFSthread \/ psn_node_type n = PFSfd -> Z.land (psn_flags dn) PSN_FLAG_THREAD = 0)
  /\ (psn_node_type n = PFSsysctl -> Z.land (psn_flags dn) PSN_FLAG_THREAD = 0).
Proof.
  unfold child_okb. rewrite !andb_true_iff, !implb_true_iff, !orb_true_iff, !andb_true_iff, !Z.eqb_eq, !String.eqb_eq.
  intros (((((H1 & H2) & H3) & H4) & H5) & H6).
  assert (Ht : forall u, psn_node_type n = u -> pfstype_eqb (psn_node_type n) u = true)
    by (intros u ->; apply pfstype_eqb_refl).
  split_and!; auto.
  - intros E. apply H4. destruct E; auto.
  - intros E. apply H5. destruct E; auto.
Qed.

Definition dir_okb (ss : sstate) (dn : pfssnode) : bool :=
  let ms := psn_children dn in
  bool_decide (NoDup (names_of ss ms)) && dynamic_last (types_of ss ms)
  && forallb (fun m => match snode_at ss m with None => false | Some n => child_okb dn n end) ms.

Lemma dir_okb_spec ss dn :
  dir_okb ss dn = true ->
  dir_ok ss (psn_children dn) /\ sections_ok ss dn
  /\ forall id, id_ok dn id -> proc_lists_global ss id (psn_children dn).
Proof.
  unfold dir_okb. rewrite !andb_true_iff, bool_decide_eq_true, forallb_forall. intros [[Hn Hd] Hf].
  assert (Hm : forall m n, m ∈ psn_children dn -> snode_at ss m = Some n -> child_okb dn n = true).
  { intros m n Hin En. specialize (Hf m (proj1 (list_elem_of_In _ _) Hin)). by rewrite En in Hf. }
  split_and!.
  - split; [|done|done|..].
    + intros m Hin. specialize (Hf m (proj1 (list_elem_of_In _ _) Hin)). by destruct (snode_at ss m).
    + intros m n Hin En. by apply (child_okb_spec dn n), (Hm m n).
    + intros m n Hin En. by destruct (child_okb_spec dn n (Hm m n Hin En)) as (_ & ? & ? & _).
  - intros m n Hin En. destruct (child_okb_spec dn n (Hm m n Hin En)) as (_ & _ & _ & H4 & H5 & H6).
    split_and!; [|done|done]. intros E. by apply H4.
  - intros id Hid m n Hin En E. destruct (child_okb_spec dn n (Hm m n Hin En)) as (_ & _ & _ & H4 & _).
    apply (ido_oid _ _ Hid). by apply H4.
Qed.

Definition dir_okP (ss : sstate) (l : sloc) (n : pfssnode) : Prop := dir_okb ss n = true.
#[export] Instance dir_okP_dec ss l n : Decision (dir_okP ss l n).
Proof. unfold dir_okP. apply _. Defined.

Lemma first_structure_dirs l n : snode_at first_structure l = Some n -> dir_okb first_structure n = true.
Proof. apply (snode_forall (dir_okP first_structure)). vm_compute. reflexivity. Qed.

(** A plain component reaches the child loop unchanged. *)
Lemma lookup_name_loop c ss roots dir id dn name :
  snode_at ss dir = Some dn -> psn_node_type dn <> PFSsysctl ->
  name <> ""%string -> name <> "."%string -> strlen name <= NAME_MAX ->
  lookup_name c ss roots dir id name = lookup_loop c ss id name (psn_children dn).
Proof.
  intros Ed Ht Hne Hnd Hlen. unfold lookup_name, procfs_vnop_lookup.
  rewrite bool_decide_eq_true_2 by done. cbn [negb orb].
  assert (1 <= strlen name) as H1 by (destruct name; [done|]; unfold strlen; cbn; lia).
  rewrite (proj2 (Z.ltb_ge (strlen name) 1)) by done. cbn [orb].
  rewrite Z.min_r by lia. rewrite (strlcpy_fits name) by lia. rewrite Ed.
  assert (Hdot : (strlen name =? 1) && match name with String "." _ => true | _ => false end = false).
  { destruct (Z.eqb_spec (strlen name) 1) as [E|]; [|done]. destruct name as [|x [|y s]]; [done| |unfold strlen in E; cbn in E; lia].
    cbn. destruct x as [[] [] [] [] [] [] [] []]; done. }
  rewrite Hdot. destruct (pfstype_eqb_spec (psn_node_type dn) PFSsysctl); done.
Qed.

Lemma listed_nonempty c ss id ms es fin e `{KernelLaws (cx_kernel c)} dir :
  small_ids c -> dir_ok ss ms -> proc_lists_global ss id ms ->
  dir_listing c ss dir id (omap (snode_at ss) ms) = Some (es, fin) -> e ∈ es ->
  (forall m n, m ∈ ms -> snode_at ss m = Some n -> psn_name n <> ""%string) ->
  de_name e <> ""%string.
Proof.
  intros Hs Hd Hg Hl He Hne. destruct (listed_name c ss dir id ms es fin e) as [Hx|Hx]; [done..| |].
  - intros E. by rewrite E in Hx.
  - unfold names_of in Hx. apply list_elem_of_omap in Hx as (m & Hm & En).
    destruct (snode_at ss m) as [n|] eqn:E; [|done]. injection En as <-. by apply (Hne m n).
Qed.

Lemma entry_resolves c ss dir dn id roots es fin e :
  KernelLaws (cx_kernel c) -> small_ids c ->
  snode_at ss dir = Some dn -> psn_node_type dn <> PFSsysctl -> id_ok dn id ->
  dir_okb ss dn = true ->
  (forall m n, snode_at ss m = Some n -> psn_name n <> ""%string) ->
  dir_listing c ss dir id (children_of ss dir) = Some (es, fin) ->
  e ∈ es -> de_name e <> "."%string -> de_name e <> ".."%string -> strlen (de_name e) <= NAME_MAX ->
  exists nid m,
    lookup_name c ss roots dir id (de_name e) = Some (LkFind nid (Some m))
    /\ procfs_get_fileid (nodeid_pid nid) (nodeid_objectid nid) (nodeid_base_id nid) = de_fileid e
    /\ found_at ss id (de_name e) (psn_children dn) nid m.
Proof.
  intros HK Hsm Ed Ht Hid Hok Hnm Hl He H1 H2 Hlen. unfold children_of in Hl. rewrite Ed in Hl.
  destruct (dir_okb_spec _ _ Hok) as (Hd & _ & Hg). specialize (Hg id Hid).
  assert (Hne : de_name e <> ""%string).
  { eapply (listed_nonempty c ss id (psn_children dn)); try done. intros m n _. apply Hnm. }
  rewrite (lookup_name_loop _ _ _ _ _ dn) by done.
  destruct (listed_resolves c ss dir id _ es fin e Hsm Hd Hg Hl He H1 H2) as (m & r & El & nid & -> & E).
  exists nid, m. rewrite El. split_and!; [done..|]. by eapply lookup_loop_found.
Qed.

Definition named_ok (l : sloc) (n : pfssnode) : Prop := psn_name n <> ""%string.
#[export] Instance named_ok_dec l n : Decision (named_ok l n).
Proof. unfold named_ok. apply _. Defined.

Lemma first_structure_named l n : snode_at first_structure l = Some n -> psn_name n <> ""%string.
Proof. apply (snode_forall named_ok). vm_compute. reflexivity. Qed.

Lemma print_d_short n : 0 <= n < 2 ^ 31 -> strlen (print_d n) <= NAME_MAX.
Proof.
  intros Hn. rewrite print_d_nonneg by lia. unfold strlen, print_u, NAME_MAX.
  pose proof (print_u_loop_length (S (Z.to_nat (Z.log2 n))) n "") as Hl. cbn [String.length] in Hl.
  assert (Hlog : Z.log2 n < 31).
  { destruct (decide (n = 0)) as [->|]; [done|]. apply Z.log2_lt_pow2; lia. }
  pose proof (Z.log2_nonneg n). rewrite Nat.add_0_r in Hl. apply Nat2Z.inj_le in Hl.
  rewrite Nat2Z.inj_succ, Z2Nat.id in Hl by done. etrans; [exact Hl|lia].
Qed.

(** Children that a number cannot name. *)
Definition textual (ss : sstate) (m : sloc) : bool :=
  match snode_at ss m with
  | Some n => starts_nondigit (psn_name n) && negb (dynamic_type (psn_node_type n))
  | None => false
  end.

Lemma lookup_skip_textual c ss id name pre post :
  forallb (textual ss) pre = true -> starts_nondigit name = false ->
  lookup_loop c ss id name (pre ++ post) = lookup_loop c ss id name post.
Proof.
  intros Hp Hn. induction pre as [|m pre IH]; [done|]. cbn [forallb] in Hp. apply andb_true_iff in Hp as [Hm Hp].
  unfold textual in Hm. destruct (snode_at ss m) as [n|] eqn:En; [|done].
  apply andb_true_iff in Hm as [H1 H2%negb_true_iff]. cbn [app].
  rewrite (lookup_pass c ss id name m (pre ++ post) n En); [by apply IH|].
  right. split; [congruence|done].
Qed.

Definition root_loc : sloc := 1%positive.
Definition process_loc : sloc := 114%positive.

(** The process directory is the last child of the root and the only one a
    number can name. *)
Definition root_shape (ss : sstate) : bool :=
  match snode_at ss root_loc, snode_at ss process_loc with
  | Some dn, Some n =>
      let pre := removelast (psn_children dn) in
      bool_decide (psn_node_type dn = PFSroot) && bool_decide (psn_children dn = (pre ++ [process_loc])%list)
      && forallb (textual ss) pre
      && bool_decide (psn_name n = "__Process__"%string) && bool_decide (psn_node_type n = PFSproc)
      && bool_decide (psn_base_node_id n = 114)
  | _, _ => false
  end.

Lemma first_structure_root_shape : root_shape first_structure = true.
Proof. vm_compute. reflexivity. Qed.

Lemma process_template_shown v : procfs_node_version_hidden v "__Process__" = false.
Proof. unfold procfs_node_version_hidden. by destruct (procfs_spoofed_release _). Qed.

Lemma lookup_pid c ss roots pid :
  root_shape ss = true -> 0 <= pid < 2 ^ 31 ->
  lookup_name c ss roots root_loc PROCFS_ROOT_NODE_ID (print_d pid)
  = Some (match proc_find (cx_kernel c) pid with
          | None => LkErr ENOENT
          | Some p =>
              if check_access c && negb (procfs_check_can_access_process (cx_cred c) p =? 0)
              then LkErr ENOENT
              else LkFind (Pfsid pid PRNODE_NO_OBJECTID 114) (Some process_loc)
          end).
Proof.
  unfold root_shape. intros Hb Hp. destruct (snode_at ss root_loc) as [dn|] eqn:Ed; [|done].
  destruct (snode_at ss process_loc) as [n|] eqn:En; [|done].
  repeat match goal with H : _ && _ = true |- _ => apply andb_true_iff in H as [? ?] end.
  repeat match goal with H : bool_decide _ = true |- _ => apply bool_decide_eq_true in H end.
  rename H into Et, H4 into Ech, H3 into Hpre, H2 into Enm, H1 into Ent, H0 into Enb.
  pose proof (starts_digit_print_d pid ltac:(lia)) as Hs.
  rewrite (lookup_name_loop c ss roots root_loc _ dn (print_d pid) Ed);
    [|by rewrite Et|intros E; by rewrite E in Hs|intros E; by rewrite E in Hs|apply print_d_short; lia].
  rewrite Ech, lookup_skip_textual by done. cbn [lookup_loop].
  rewrite En, Enm, Ent, Enb, process_template_shown.
  destruct (String.eqb_spec (print_d pid) "__Process__") as [E|_]; [by rewrite E in Hs|].
  cbn [pfstype_eqb pfstype_num Nat.eqb orb]. rewrite atoi_print_d by done. cbn [negb andb String.eqb].
  rewrite (proj2 (Z.eqb_neq pid (-1))) by lia. reflexivity.
Qed.

(** The first child that bears a name answers for it. *)
Lemma lookup_template c ss roots :
  root_shape ss = true ->
  (forall dn, snode_at ss root_loc = Some dn -> dir_okb ss dn = true) ->
  lookup_name c ss roots root_loc PROCFS_ROOT_NODE_ID "__Process__"
  = Some (LkFind (Pfsid PRNODE_NO_PID PRNODE_NO_OBJECTID 114) (Some process_loc)).
Proof.
  unfold root_shape. intros Hb Hok. destruct (snode_at ss root_loc) as [dn|] eqn:Ed; [|done].
  destruct (snode_at ss process_loc) as [n|] eqn:En; [|done].
  repeat match goal with H : _ && _ = true |- _ => apply andb_true_iff in H as [? ?] end.
  repeat match goal with H : bool_decide _ = true |- _ => apply bool_decide_eq_true in H end.
  rename H into Et, H4 into Ech, H3 into Hpre, H2 into Enm, H1 into Ent, H0 into Enb.
  destruct (dir_okb_spec _ _ (Hok dn eq_refl)) as ([Dn Dd _ _ _] & _ & _).
  rewrite (lookup_name_loop c ss roots root_loc _ dn _ Ed); [|by rewrite Et|done..].
  rewrite Ech in Dd |- *. set (pre := removelast (psn_children dn)) in *. clearbody pre. clear Ech Hok Dn.
  induction pre as [|m pre IH].
  - cbn [app lookup_loop]. by rewrite En, Enm, Enb, process_template_shown.
  - cbn [forallb] in Hpre. apply andb_true_iff in Hpre as [Hm Hpre]. unfold textual in Hm.
    destruct (snode_at ss m) as [n'|] eqn:Em; [|done]. apply andb_true_iff in Hm as [_ Hd%negb_true_iff].
    cbn [app] in Dd |- *. rewrite (names_of_cons _ _ _ _ Em) in Dd. apply NoDup_cons in Dd as [Hni Dd].
    rewrite (lookup_pass c ss _ _ m _ n' Em); [by apply IH|]. right. split; [|done]. intros E. apply Hni.
    unfold names_of. apply list_elem_of_omap. exists process_loc. rewrite En, E, <- Enm. split; [set_solver|done].
Qed.

Lemma first_structure_wf : structure_wf first_structure.
Proof. exact (li_wf _ (proj1 (structure_init_spec sstate_boot eq_refl eq_refl eq_refl))). Qed.

(** ** Properties *)

(** What readdir lists, lookup finds: in every directory of the layout
    (other than /proc/sys), each listed name but the two dots resolves to a
    node, and the file id of that node is the d_ino of the entry.  This covers
    fixed names, pids, "pid name" links, thread ids and descriptors, under the
    caller's permissions. *)
Theorem listed_entry_resolves c dir dn id roots es fin e :
  KernelLaws (cx_kernel c) -> small_ids c ->
  snode_at first_structure dir = Some dn -> psn_node_type dn <> PFSsysctl -> id_ok dn id ->
  dir_listing c first_structure dir id (children_of first_structure dir) = Some (es, fin) ->
  e ∈ es -> de_name e <> "."%string -> de_name e <> ".."%string -> strlen (de_name e) <= NAME_MAX ->
  exists nid m,
    lookup_name c first_structure roots dir id (de_name e) = Some (LkFind nid (Some m))
    /\ procfs_get_fileid (nodeid_pid nid) (nodeid_objectid nid) (nodeid_base_id nid) = de_fileid e.
Proof.
  intros HK Hsm Ed Ht Hid Hl He H1 H2 Hlen.
  destruct (entry_resolves c first_structure dir dn id roots es fin e HK Hsm Ed Ht Hid (first_structure_dirs _ _ Ed)
              first_structure_named Hl He H1 H2 Hlen) as (nid & m & E1 & E2 & _).
  exists nid, m. exact (conj E1 E2).
Qed.

(** C14. ".." undoes lookup: in a well-formed layout, ".." of any node a lookup
    by name found in a directory is that directory, with its id: for the fixed
    files and directories, for processes, threads and descriptors, and below
    /proc/sys for the sysctl oids, the grafted random directory and its leaves,
    whose parent is found by searching the sysctl tree (oids have distinct
    addresses above the sentinels).  [dir_okb] is a check of the directory's
    children (distinct names, dynamic sections last) that every directory of the
    real layout passes ([first_structure_dirs]); [dir_id_ok] says that the id is one
    the directory can have. *)
Theorem dotdot_undoes_lookup c ss roots dir dn id name nid m :
  structure_wf ss -> snode_at ss dir = Some dn -> dir_okb ss dn = true -> dir_id_ok dn id -> oids_wf roots ->
  lookup_name c ss roots dir id name = Some (LkFind nid (Some m)) ->
  procfs_vnop_lookup c ss roots m nid (Some VDIR) true ".." 2 true 0 = Some (LkFind id (Some dir)).
Proof.
  intros W Ed Hok Hid Hw Hl. destruct (lookup_name_cases _ _ _ _ _ _ _ _ _ Ed Hl) as [(Ht & nm & Hl')|(Ht & -> & ch & nm & Hf & ->)].
  - apply dir_id_plain in Hid; [|done]. destruct (dir_okb_spec _ _ Hok) as (_ & Hs & _).
    destruct (parent_id_of_child c ss id nm dir dn nid m W Ed Hid Hs Hl') as (Hp & n & En & Epar).
    rewrite (dotdot_of c ss roots m nid n En). unfold lookup_dotdot. rewrite Hp, Epar.
    by rewrite (sysctl_root_oid c ss id nm dn nid m n Hid Hs Hl' En).
  - destruct (sysctl_parent_of_child roots _ nm ch Hw Hf) as [Hz Hp]. destruct Hid as (Hb & Hsys & _).
    rewrite (dotdot_of c ss roots dir _ dn Ed). unfold lookup_dotdot. rewrite Ht. cbn [pfstype_eqb andb nodeid_objectid].
    rewrite (proj2 (Z.eqb_neq ch 0)) by done. cbn [negb]. destruct (procfs_sysctl_parent roots ch 0) as [ok p].
    cbn [snd] in Hp. subst p. rewrite <- (Hsys Ht), <- Hb. by destruct id.
Qed.

(** C24. /proc/<pid> for a decimal pid: it exists exactly when the process does
    and the caller may see it (any process for the superuser or without
    permission checks); otherwise the answer is ENOENT. *)
Theorem lookup_process c roots pid :
  0 <= pid < 2 ^ 31 ->
  lookup_name c first_structure roots root_loc PROCFS_ROOT_NODE_ID (print_d pid)
  = Some (match proc_find (cx_kernel c) pid with
          | None => LkErr ENOENT
          | Some p =>
              if check_access c && negb (procfs_check_can_access_process (cx_cred c) p =? 0)
              then LkErr ENOENT
              else LkFind (Pfsid pid PRNODE_NO_OBJECTID 114) (Some process_loc)
          end).
Proof. exact (lookup_pid c first_structure roots pid first_structure_root_shape). Qed.

(** A descriptor name is parsed by its leading digits only: "0abc" in
    /proc/<pid>/fd resolves to descriptor 0, although no listing shows that
    name. *)
Theorem fd_suffix_resolves :
  lookup_name sample_ctx first_structure [] fd_dir fd_dir_id "0abc"
  = lookup_name sample_ctx first_structure [] fd_dir fd_dir_id "0"
  /\ lookup_name sample_ctx first_structure [] fd_dir fd_dir_id "0abc"
     = Some (LkFind (Pfsid 77 0 120) (Some 120%positive))
  /\ existsb (fun e => String.eqb (de_name e) "0abc") (listing_of fd_dir fd_dir_id) = false.
Proof. split_and!; vm_compute; reflexivity. Qed.

(** The template node of the process directories is reachable by its own
    name: /proc/__Process__ resolves to a process directory with no process,
    for every caller. *)
Theorem template_name_resolves c roots :
  lookup_name c first_structure roots root_loc PROCFS_ROOT_NODE_ID "__Process__"
  = Some (LkFind (Pfsid PRNODE_NO_PID PRNODE_NO_OBJECTID 114) (Some process_loc)).
Proof. exact (lookup_template c first_structure roots first_structure_root_shape (first_structure_dirs _)). Qed.

(** ** Witnesses *)
Lemma sample_small_ids : small_ids sample_ctx.
Proof.
  split; intros p e l E.
  - assert (El : procfs_get_thread_ids_for_task (cx_bridge sample_ctx) (cx_alloc sample_ctx) (cx_alloc sample_ctx) (Some p)
                 = (0, [1027; 99])) by (vm_compute; reflexivity).
    rewrite El in E. injection E as <- <-. repeat constructor; lia.
  - assert (El : procfs_get_fd_list (cx_bridge sample_ctx) (cx_alloc sample_ctx) (Some p) = (0, [0; 5]))
      by (vm_compute; reflexivity).
    rewrite El in E. injection E as <- <-. repeat constructor; lia.
Qed.

Definition fd_dir_node : pfssnode :=
  default (Pfssnode PFSroot "" 0 0 None [] 0 None None) (snode_at first_structure fd_dir).

Lemma fd_dir_facts :
  snode_at first_structure fd_dir = Some fd_dir_node /\ psn_node_type fd_dir_node <> PFSsysctl
  /\ id_ok fd_dir_node fd_dir_id.
Proof.
  split_and!; [vm_compute; reflexivity|intros E; vm_compute in E; discriminate E|].
  split; [vm_compute; reflexivity|intros E; vm_compute in E; discriminate E|vm_compute; reflexivity].
Qed.

Definition fd5_entry : entry := nth 3 (listing_of fd_dir fd_dir_id) (Entry 0 0 "").

Lemma listed_entry_resolves_witness :
  exists nid m,
    lookup_name sample_ctx first_structure [] fd_dir fd_dir_id "5" = Some (LkFind nid (Some m))
    /\ procfs_get_fileid (nodeid_pid nid) (nodeid_objectid nid) (nodeid_base_id nid) = de_fileid fd5_entry.
Proof.
  destruct fd_dir_facts as (E & Ht & Hid).
  apply (listed_entry_resolves sample_ctx fd_dir fd_dir_node fd_dir_id [] (listing_of fd_dir fd_dir_id) EndOpen fd5_entry
           (table_kernel_laws _ _) sample_small_ids E Ht Hid).
  - vm_compute. reflexivity.
  - apply (list_elem_of_lookup_2 _ 3). vm_compute. reflexivity.
  - intros X. vm_compute in X. discriminate X.
  - intros X. vm_compute in X. discriminate X.
  - intros X. vm_compute in X. discriminate X.
Defined.

Lemma dotdot_undoes_lookup_witness :
  procfs_vnop_lookup sample_ctx first_structure sample_roots 120%positive (Pfsid 77 5 120) (Some VDIR) true ".." 2 true 0
  = Some (LkFind fd_dir_id (Some fd_dir))
  /\ procfs_vnop_lookup sample_ctx first_structure sample_roots sys_loc (Pfsid PRNODE_NO_PID PROCFS_SYN_RANDOM (psn_base_node_id sys_node))
       (Some VDIR) true ".." 2 true 0
     = Some (LkFind (Pfsid PRNODE_NO_PID 8192 (psn_base_node_id sys_node)) (Some sys_loc)).
Proof.
  destruct fd_dir_facts as (E & Ht & Hid). split.
  - apply (dotdot_undoes_lookup sample_ctx first_structure sample_roots fd_dir fd_dir_node fd_dir_id "5" (Pfsid 77 5 120)
             120%positive first_structure_wf E (first_structure_dirs _ _ E)); [|exact sample_wf|].
    + split; [exact (ido_base _ _ Hid)|]. split; [intros X; by destruct (Ht X)|auto].
    + vm_compute. reflexivity.
  - assert (snode_at first_structure sys_loc = Some sys_node) as Es by (vm_compute; reflexivity).
    apply (dotdot_undoes_lookup sample_ctx first_structure sample_roots sys_loc sys_node
             (Pfsid PRNODE_NO_PID 8192 (psn_base_node_id sys_node)) "random" _ sys_loc first_structure_wf Es
             (first_structure_dirs _ _ Es)); [|exact sample_wf|].
    + split; [reflexivity|]. split; [reflexivity|]. intros X. destruct X. vm_compute. reflexivity.
    + vm_compute. reflexivity.
Defined.

Lemma lookup_process_witness :
  0 <= 77 < 2 ^ 31
  /\ lookup_name sample_ctx first_structure [] root_loc PROCFS_ROOT_NODE_ID "77"
     = Some (LkFind (Pfsid 77 PRNODE_NO_OBJECTID 114) (Some process_loc)).
Proof. split; [lia|]. exact (lookup_process sample_ctx [] 77 ltac:(lia)). Defined.
