(* ===== verification/Note.v ===== *)
(** * Notes and clear_refs (kext/procfs_note.c)

    The two writable nodes.  A note is a signal for the process of the node;
    what the write asks the kernel to post is part of the result. *)
From S2P Require Import Prelude Kernel PfsTypes Text.
From Stdlib Require Import ZArith Lia String Ascii.
From stdpp Require Import base list numbers strings sets.
Open Scope Z_scope.

Definition PROCFS_NOTELEN : Z := 64.
Definition NSIG : Z := 32.

(** ** Operations *)
(** The characters before the first NUL: a buffer read as a C string. *)
Fixpoint c_string (bs : bytes) : bytes :=
  match bs with
  | [] => []
  | b :: bs' => if b =? 0 then [] else b :: c_string bs'
  end.

(** [while (xlen > 0 && buf[xlen - 1] == '\n') buf[--xlen] = '\0'], on the
    reversed contents. *)
Fixpoint strip_rev (rbs : bytes) : bytes :=
  match rbs with
  | b :: rbs' => if b =? 10 then strip_rev rbs' else rbs
  | [] => []
  end.
Definition strip_newlines (bs : bytes) : bytes := rev (strip_rev (rev bs)).

Section Note.
Context {U : Type} `{Uio U}.

(** The errno and the contents of [buf] up to the length left in buflenp. *)
Definition procfs_getuserstr (u : U) (buflen : Z) : Z * bytes * U :=
  let xlen := uio_resid u in
  if buflen <? xlen then (EMSGSIZE, [], u)
  else
    let '(error, bs, u') := uiomove_in xlen u in
    if error =? 0 then (0, strip_newlines bs, u') else (error, [], u').

Definition note_table : list (string * Z) :=
  [("hup", 1); ("hangup", 1); ("int", 2); ("interrupt", 2); ("quit", 3); ("kill", 9);
   ("term", 15); ("terminate", 15); ("stop", 17); ("cont", 19); ("usr1", 30); ("usr2", 31)]%string.

Definition is_dec (b : Z) : bool := (48 <=? b) && (b <=? 57).

(** The loop over the digits. *)
Fixpoint note_number (sig : Z) (p : bytes) : Z :=
  match p with
  | [] => if 1 <=? sig then sig else -1
  | b :: p' =>
      if negb (is_dec b) then -1
      else
        let sig := i32 (sig * 10 + (b - 48)) in
        if NSIG <=? sig then -1 else note_number sig p'
  end.

Fixpoint note_lookup (note : bytes) (tbl : list (string * Z)) : Z :=
  match tbl with
  | [] => -1
  | (name, sig) :: tbl' =>
      if bool_decide (note = bytes_of_string name) then sig else note_lookup note tbl'
  end.

Definition procfs_note_to_signal (note : bytes) : Z :=
  match note with
  | b :: _ => if is_dec b then note_number 0 note else note_lookup note note_table
  | [] => note_lookup note note_table
  end.

(** The errno, the signals posted (pid and number), and the uio. *)
Definition procfs_donote (pid : Z) (u : U) : Z * list (Z * Z) * U :=
  if negb (uio_is_write u) then (EINVAL, [], u)
  else
    let '(error, note, u') := procfs_getuserstr u PROCFS_NOTELEN in
    if error =? 0 then
      let sig := procfs_note_to_signal (c_string note) in
      if sig <? 0 then (EINVAL, [], u') else (0, [(pid, sig)], u')
    else (error, [], u').

Definition procfs_doclear_refs (u : U) : Z * U :=
  if negb (uio_is_write u) then (EINVAL, u)
  else
    let '(error, note, u') := procfs_getuserstr u PROCFS_NOTELEN in
    if error =? 0 then
      let c := nth 0 note 0 in
      if negb (Z.of_nat (length note) =? 1) || (c <? 49) || (52 <? c) then (EINVAL, u') else (0, u')
    else (error, u').

End Note.

(** ** Specification *)
(** The value of a string of decimal digits. *)
Definition dec_value (bs : bytes) : Z := fold_left (fun n b => 10 * n + (b - 48)) bs 0.

(** The names of the signals, after signal.h: SIGHUP is 1, SIGINT 2, SIGQUIT 3,
    SIGKILL 9, SIGTERM 15, SIGSTOP 17, SIGCONT 19, SIGUSR1 30, SIGUSR2 31. *)
Definition signal_name (name : string) (sig : Z) : Prop :=
  (sig = 1 /\ (name = "hup" \/ name = "hangup")) \/ (sig = 2 /\ (name = "int" \/ name = "interrupt"))
  \/ (sig = 3 /\ name = "quit") \/ (sig = 9 /\ name = "kill") \/ (sig = 15 /\ (name = "term" \/ name = "terminate"))
  \/ (sig = 17 /\ name = "stop") \/ (sig = 19 /\ name = "cont") \/ (sig = 30 /\ name = "usr1") \/ (sig = 31 /\ name = "usr2").

(** Which notes stand for which signals. *)
Inductive note_means : bytes -> Z -> Prop :=
| note_num bs sig : bs <> [] -> Forall (fun b => 48 <= b <= 57) bs -> dec_value bs = sig -> 1 <= sig < 32 ->
    note_means bs sig
| note_name name sig : signal_name name sig -> note_means (bytes_of_string name) sig.

(** ** Lemmas *)
Lemma is_dec_spec b : is_dec b = true <-> 48 <= b <= 57.
Proof. unfold is_dec. lia. Qed.

Lemma dec_fold_mono bs n : Forall (fun b => 48 <= b <= 57) bs -> 0 <= n ->
  n <= fold_left (fun n b => 10 * n + (b - 48)) bs n.
Proof.
  intros H. revert n. induction H as [|b bs Hb _ IH]; intros n Hn; cbn; [lia|].
  specialize (IH (10 * n + (b - 48)) ltac:(lia)). lia.
Qed.

Lemma note_number_spec bs n : 0 <= n < 32 ->
  note_number n bs =
  if forallb is_dec bs
     && (1 <=? fold_left (fun n b => 10 * n + (b - 48)) bs n)
     && (fold_left (fun n b => 10 * n + (b - 48)) bs n <? 32)
  then fold_left (fun n b => 10 * n + (b - 48)) bs n else -1.
Proof.
  revert n. induction bs as [|b bs IH]; intros n Hn; cbn [note_number forallb fold_left].
  - cbn [andb]. destruct (Z.leb_spec 1 n); [|done]. by rewrite (proj2 (Z.ltb_lt n 32)) by lia.
  - destruct (is_dec b) eqn:Eb; [|done]. cbn [negb andb]. apply is_dec_spec in Eb.
    rewrite i32_small by lia. replace (n * 10 + (b - 48)) with (10 * n + (b - 48)) by lia.
    unfold NSIG. destruct (Z.leb_spec 32 (10 * n + (b - 48))) as [Hb|Hb].
    + destruct (forallb is_dec bs) eqn:Ef; [|done]. cbn [andb].
      assert (Hbs : Forall (fun b => 48 <= b <= 57) bs).
      { apply Forall_forall. intros x Hx%list_elem_of_In. rewrite forallb_forall in Ef. by apply is_dec_spec, Ef. }
      pose proof (dec_fold_mono bs (10 * n + (b - 48)) Hbs ltac:(lia)).
      by rewrite (proj2 (Z.ltb_ge _ 32)), andb_false_r by lia.
    + by rewrite IH by lia.
Qed.

Lemma note_lookup_spec note tbl sig :
  Forall (fun e => 0 <= snd e) tbl -> 0 <= sig ->
  NoDup (fst <$> tbl) -> (forall e1 e2, e1 ∈ tbl -> e2 ∈ tbl -> bytes_of_string (fst e1) = bytes_of_string (fst e2) -> fst e1 = fst e2) ->
  note_lookup note tbl = sig <-> exists name, (name, sig) ∈ tbl /\ note = bytes_of_string name.
Proof.
  intros Hp Hs. induction tbl as [|[name s] tbl IH]; intros Hn Hi; cbn [note_lookup].
  - split; [lia|]. intros (? & H & _). set_solver.
  - apply NoDup_cons in Hn as [Hni Hn]. destruct (bool_decide_reflect (note = bytes_of_string name)) as [->|Hne].
    + split; [intros <-; exists name; set_solver|]. intros (n' & [E|Hin]%elem_of_cons & E'); [congruence|].
      destruct Hni. rewrite (Hi (name, s) (n', sig)); [|set_solver|set_solver|done]. apply list_elem_of_fmap. by exists (n', sig).
    + rewrite IH; [|by inversion Hp|done|intros; apply Hi; set_solver]. split.
      * intros (n' & ? & ?). exists n'. set_solver.
      * intros (n' & [E|Hin]%elem_of_cons & E'); [|eauto]. injection E as -> ->. done.
Qed.

Lemma bytes_of_string_inj a b : bytes_of_string a = bytes_of_string b -> a = b.
Proof.
  revert b. induction a as [|x a IH]; intros [|y b] E; try done. cbn in E. injection E as Ex Ea.
  rewrite (IH b Ea). f_equal. unfold chr in Ex. rewrite <- (ascii_N_embedding x), <- (ascii_N_embedding y). f_equal. lia.
Qed.

Lemma table_lookup note sig : 0 <= sig ->
  note_lookup note note_table = sig <-> exists name, (name, sig) ∈ note_table /\ note = bytes_of_string name.
Proof.
  intros Hs. apply note_lookup_spec; [|done| |].
  - repeat constructor; cbn; lia.
  - refine (bool_decide_unpack _ _). vm_compute. exact I.
  - intros e1 e2 _ _. apply bytes_of_string_inj.
Qed.

Lemma signal_table_names name sig : (name, sig) ∈ note_table <-> signal_name name sig.
Proof.
  unfold signal_name, note_table. split.
  - intros H. repeat (apply elem_of_cons in H as [[= -> ->]|H]; [tauto|]). set_solver.
  - intros H. rewrite !elem_of_cons.
    repeat match goal with H : _ \/ _ |- _ => destruct H as [H|H] | H : _ /\ _ |- _ => destruct H as [-> H] end; subst; tauto.
Qed.

Lemma table_sig name sig : (name, sig) ∈ note_table -> 1 <= sig < 32.
Proof. intros H. unfold note_table in H. repeat (apply elem_of_cons in H as [[= -> ->]|H]; [lia|]). set_solver. Qed.

Lemma table_not_dec name sig : (name, sig) ∈ note_table ->
  match bytes_of_string name with b :: _ => is_dec b = false | [] => True end.
Proof. intros H. unfold note_table in H. repeat (apply elem_of_cons in H as [[= -> ->]|H]; [done|]). set_solver. Qed.

Lemma forallb_dec bs : forallb is_dec bs = true <-> Forall (fun b => 48 <= b <= 57) bs.
Proof.
  rewrite forallb_forall, Forall_forall. split.
  - intros H x Hx%list_elem_of_In. by apply is_dec_spec, H.
  - intros H x Hx. apply is_dec_spec, H. by apply list_elem_of_In.
Qed.

Lemma note_to_signal_means bs sig : 0 <= sig -> procfs_note_to_signal bs = sig <-> note_means bs sig.
Proof.
  intros Hs. unfold procfs_note_to_signal. split.
  - destruct bs as [|b bs]; [intros (nm & Hin & ->)%table_lookup; [by apply note_name, signal_table_names|done]|].
    destruct (is_dec b) eqn:Eb; [|intros (nm & Hin & ->)%table_lookup; [by apply note_name, signal_table_names|done]].
    rewrite note_number_spec by lia. destruct (_ && _) eqn:E; [|lia]. intros <-.
    apply andb_true_iff in E as [[E1 E2]%andb_true_iff E3]. apply forallb_dec in E1.
    apply note_num; [done|done|done|]. unfold dec_value. lia.
  - intros [bs' sg Hne Hd Hv Hr|name sg Hin%signal_table_names].
    + destruct bs' as [|b bs']; [done|]. inversion Hd as [|? ? Hb Hd']; subst. rewrite (proj2 (is_dec_spec b)) by lia.
      rewrite note_number_spec by lia. unfold dec_value in *. rewrite (proj2 (forallb_dec (b :: bs'))) by done.
      by rewrite (proj2 (Z.leb_le _ _)), (proj2 (Z.ltb_lt _ _)) by lia.
    + clear Hs. assert (0 <= sg) as Hs by (pose proof (table_sig _ _ Hin); lia).
      pose proof (table_not_dec name sg Hin) as Hn. pose proof (proj2 (table_lookup (bytes_of_string name) sg Hs)) as Ht.
      specialize (Ht (ex_intro _ name (conj Hin eq_refl))).
      destruct (bytes_of_string name) as [|b bs']; [exact Ht|]. rewrite Hn. exact Ht.
Qed.

Lemma note_means_range bs sig : note_means bs sig -> 1 <= sig < 32.
Proof. intros [| name sg Hin%signal_table_names]; [done|]. by eapply table_sig. Qed.

Lemma strip_rev_idem bs : strip_rev (strip_rev bs) = strip_rev bs.
Proof. induction bs as [|b bs IH]; [done|]. cbn. destruct (Z.eqb_spec b 10) as [|Hb]; [done|]. cbn. by rewrite (proj2 (Z.eqb_neq b 10) Hb). Qed.

Lemma strip_newlines_app bs n : strip_newlines (bs ++ repeat 10 n) = strip_newlines bs.
Proof.
  unfold strip_newlines. f_equal. rewrite rev_app_distr. induction n as [|n IH]; [done|].
  replace (repeat 10 (S n)) with (repeat 10 n ++ [10])%list by (by rewrite <- repeat_cons). by rewrite rev_app_distr.
Qed.

Lemma strip_newlines_id bs : match rev bs with b :: _ => b <> 10 | [] => True end -> strip_newlines bs = bs.
Proof.
  unfold strip_newlines. destruct (rev bs) as [|b r] eqn:E; cbn.
  - intros _. by rewrite <- (rev_involutive bs), E.
  - intros Hb. rewrite (proj2 (Z.eqb_neq b 10) Hb), <- E. apply rev_involutive.
Qed.

Lemma digits_bytes s : all_digits s = true -> Forall (fun b => 48 <= b <= 57) (bytes_of_string s).
Proof.
  induction s as [|c s IH]; cbn; [constructor|]. intros [H1 H2]%andb_true_iff. constructor; [|auto].
  unfold is_digit in H1. lia.
Qed.

Lemma digits_val_bytes s v :
  all_digits s = true -> digits_val v s = fold_left (fun n b => 10 * n + (b - 48)) (bytes_of_string s) v.
Proof.
  revert v. induction s as [|c s IH]; intros v; [done|]. cbn [all_digits bytes_of_string fold_left digits_val].
  intros [_ Hs]%andb_true_iff. rewrite <- IH by done. f_equal. lia.
Qed.

(** A printed number as a note. *)
Lemma print_u_note n : 0 <= n < 2 ^ 31 ->
  Forall (fun b => 48 <= b <= 57) (bytes_of_string (print_u n)) /\ dec_value (bytes_of_string (print_u n)) = n
  /\ bytes_of_string (print_u n) <> [] /\ (length (bytes_of_string (print_u n)) <= 32)%nat.
Proof.
  intros Hn. destruct (print_u_spec n ltac:(lia)) as (Hd & Hv & Hne). split_and!.
  - by apply digits_bytes.
  - unfold dec_value. by rewrite <- digits_val_bytes.
  - by destruct (print_u n).
  - pose proof (bytes_of_string_length (print_u n)) as El. unfold strlen, print_u in El.
    pose proof (print_u_loop_length (S (Z.to_nat (Z.log2 n))) n "") as Hl. cbn [String.length] in Hl.
    assert (Z.log2 n < 31).
    { destruct (decide (n = 0)) as [->|]; [done|]. apply Z.log2_lt_pow2; lia. }
    unfold print_u. lia.
Qed.

Lemma c_string_digits bs : Forall (fun b => 48 <= b <= 57) bs -> c_string bs = bs.
Proof.
  induction 1 as [|b bs Hb _ IH]; [done|]. cbn. rewrite (proj2 (Z.eqb_neq b 0)) by lia. by rewrite IH.
Qed.

Lemma digits_last bs : Forall (fun b => 48 <= b <= 57) bs -> match rev bs with b :: _ => b <> 10 | [] => True end.
Proof.
  intros H%Forall_rev. destruct (rev bs) as [|b r]; [done|]. apply Forall_cons_1 in H as [H _]. lia.
Qed.

Lemma getuserstr_writing bs : Z.of_nat (length bs) <= PROCFS_NOTELEN ->
  exists u', procfs_getuserstr (ubuf_writing bs) PROCFS_NOTELEN = (0, strip_newlines bs, u').
Proof.
  intros Hl. unfold procfs_getuserstr, ubuf_writing. cbn. rewrite (proj2 (Z.ltb_ge _ _)) by lia.
  unfold ubuf_move_in. cbn. rewrite Z.min_id, Nat2Z.id, take_ge by done. eauto.
Qed.

(** ** Properties *)

(** C39. What a write to /proc/<pid>/note does, on every branch: a read is
    EINVAL; more than 64 bytes are EMSGSIZE and leave the buffer alone; a faulting
    buffer reports its own error; otherwise the text, without trailing newlines and
    up to the first NUL, posts exactly one signal to the node's process if it means
    that signal (a decimal number from 1 to 31 or one of the names), and is EINVAL
    if it means none.  Nothing is posted on any error path. *)
Theorem donote_spec {U} `{UioLaws U} pid (u : U) :
  0 <= uio_resid u ->
  (uio_is_write u = false -> procfs_donote pid u = (EINVAL, [], u))
  /\ (uio_is_write u = true -> 64 < uio_resid u -> procfs_donote pid u = (EMSGSIZE, [], u))
  /\ (forall e bs u', uio_is_write u = true -> uio_resid u <= 64 -> uiomove_in (uio_resid u) u = (e, bs, u') -> e <> 0 ->
        procfs_donote pid u = (e, [], u'))
  /\ (forall bs u' sig, uio_is_write u = true -> uio_resid u <= 64 -> uiomove_in (uio_resid u) u = (0, bs, u') ->
        note_means (c_string (strip_newlines bs)) sig -> procfs_donote pid u = (0, [(pid, sig)], u') /\ 1 <= sig < NSIG)
  /\ (forall bs u', uio_is_write u = true -> uio_resid u <= 64 -> uiomove_in (uio_resid u) u = (0, bs, u') ->
        (forall sig, ~ note_means (c_string (strip_newlines bs)) sig) -> procfs_donote pid u = (EINVAL, [], u')).
Proof.
  intros Hr. unfold procfs_donote, procfs_getuserstr, PROCFS_NOTELEN. split_and!.
  - by intros ->.
  - intros -> Hl. cbn [negb]. by destruct (Z.ltb_spec 64 (uio_resid u)); [|lia].
  - intros e bs u' -> Hl Em He. cbn [negb]. destruct (Z.ltb_spec 64 (uio_resid u)); [lia|]. rewrite Em.
    rewrite (proj2 (Z.eqb_neq e 0) He). cbn iota. by rewrite (proj2 (Z.eqb_neq e 0) He).
  - intros bs u' sig -> Hl Em Hm. pose proof (note_means_range _ _ Hm) as Hs. split; [|exact Hs]. cbn [negb].
    destruct (Z.ltb_spec 64 (uio_resid u)); [lia|]. rewrite Em. cbn [Z.eqb]. apply note_to_signal_means in Hm; [|lia]. rewrite Hm.
    by destruct (Z.ltb_spec sig 0); [lia|].
  - intros bs u' -> Hl Em Hm. cbn [negb]. destruct (Z.ltb_spec 64 (uio_resid u)); [lia|]. rewrite Em. cbn [Z.eqb].
    destruct (Z.ltb_spec (procfs_note_to_signal (c_string (strip_newlines bs))) 0) as [Hs|Hs]; [done|].
    by destruct (Hm _ (proj1 (note_to_signal_means _ _ Hs) eq_refl)).
Qed.

(** "echo kill > /proc/77/note". *)
Definition kill_note : bytes := (bytes_of_string "kill" ++ [10])%list.

Lemma donote_spec_witness :
  procfs_donote 77 (ubuf_writing kill_note) = (0, [(77, 9)], Ubuf 5 0 true [] [] false)
  /\ procfs_donote 77 (ubuf_writing [63]) = (EINVAL, [], Ubuf 1 0 true [] [] false).
Proof.
  assert (0 <= uio_resid (ubuf_writing kill_note)) as H1 by (cbn; lia).
  assert (0 <= uio_resid (ubuf_writing [63])) as H2 by (cbn; lia).
  destruct (donote_spec 77 _ H1) as (_ & _ & _ & Hm & _).
  destruct (donote_spec 77 _ H2) as (_ & _ & _ & _ & Hn).
  split.
  - refine (proj1 (Hm kill_note _ 9 eq_refl ltac:(vm_compute; discriminate) ltac:(vm_compute; reflexivity) _)).
    change (c_string (strip_newlines kill_note)) with (bytes_of_string "kill"). apply note_name. unfold signal_name. tauto.
  - refine (Hn [63] _ eq_refl ltac:(vm_compute; discriminate) ltac:(vm_compute; reflexivity) _).
    intros sig Hs. apply note_to_signal_means in Hs as Hv; [|pose proof (note_means_range _ _ Hs); lia].
    pose proof (note_means_range _ _ Hs). vm_compute in Hv. lia.
Defined.

(** A decimal number is the signal it prints, with or without newlines:
    writing "<n>" posts signal [n] for every valid [n], and posts nothing for
    any other number. *)
Theorem donote_numeric n k pid :
  0 <= n < 2 ^ 31 -> (k <= 32)%nat ->
  exists u', procfs_donote pid (ubuf_writing (bytes_of_string (print_d n) ++ repeat 10 k))
             = (if (1 <=? n) && (n <? NSIG) then (0, [(pid, n)], u') else (EINVAL, [], u')).
Proof.
  intros Hn Hk. destruct (print_u_note n ltac:(lia)) as (Hd & Hv & Hne & Hlen). rewrite print_d_nonneg by lia.
  set (bs := bytes_of_string (print_u n)) in *.
  destruct (getuserstr_writing (bs ++ repeat 10 k)) as [u' Eu]; [rewrite length_app, repeat_length; unfold PROCFS_NOTELEN; lia|].
  exists u'. unfold procfs_donote. rewrite Eu. change (uio_is_write (ubuf_writing (bs ++ repeat 10 k))) with true.
  cbn [negb Z.eqb]. rewrite strip_newlines_app, (strip_newlines_id bs), (c_string_digits bs) by (done || by apply digits_last).
  assert (Es : procfs_note_to_signal bs = if (1 <=? n) && (n <? NSIG) then n else -1).
  { destruct bs as [|b bs']; [done|]. unfold procfs_note_to_signal. pose proof (Forall_cons_1 _ _ _ Hd) as [Hb _].
    rewrite (proj2 (is_dec_spec b)), note_number_spec by lia. rewrite (proj2 (forallb_dec _)) by done.
    unfold dec_value in Hv. by rewrite Hv. }
  rewrite Es. unfold NSIG. destruct (Z.leb_spec 1 n), (Z.ltb_spec n 32); cbn [andb Z.ltb Z.compare]; try done.
  by rewrite (proj2 (Z.ltb_ge n 0)) by lia.
Qed.

Lemma donote_numeric_witness :
  exists u', procfs_donote 77 (ubuf_writing (bytes_of_string "15" ++ [10])) = (0, [(77, 15)], u').
Proof. exact (donote_numeric 15 1 77 ltac:(lia) ltac:(lia)). Defined.
