(* ===== verification/Vnops.v ===== *)
(** * Attributes, links, reading and writing (kext/procfs_vnops.c)

    The vnode operations on a node once it is found: getattr (with the size
    functions of kext/procfs_status.c and procfs_fd.c), readlink, read, write,
    setattr, and the vnode type chosen when a vnode is created. *)
From S2P Require Import Prelude Kernel PfsTypes Text Version Subr Structure Sysctl Readdir Lookup Note.
From Stdlib Require Import ZArith Lia String Ascii.
From stdpp Require Import base list numbers strings gmap.
Open Scope Z_scope.

(** ** File modes *)
Definition S_IWUSR : Z := 128.
Definition S_IWGRP : Z := 16.
Definition READ_EXECUTE_ALL : Z := 365.    (* 0555 *)
Definition READ_ALL : Z := 292.            (* 0444 *)
Definition ALL_ACCESS_ALL : Z := 511.      (* 0777 *)
Definition RW_OWNER_GROUP : Z := 432.      (* 0660 *)

Record vnode_attr := Vattr {
  va_mode : Z; va_type : vtype; va_fsid : Z; va_fileid : Z; va_data_size : Z;
  va_access_time : Z * Z; va_change_time : Z * Z; va_create_time : Z * Z; va_modify_time : Z * Z;
  va_uid : Z; va_gid : Z
}.

(** The vnodes a process keeps: p_textvp, fd_cdir, fd_rdir; none for NULLVP. *)
Record proc_vnodes := ProcVnodes { p_textvp : option Z; fd_cdir : option Z; fd_rdir : option Z }.

Definition MAXPATHLEN : Z := 1024.
Definition PROCESS_NAME_SIZE : Z := MAXCOMLEN + 16 + 8.

(** [node_size_fn == procfs_donote] and the like. *)
Definition fn_is (f : option fnptr) (name : string) : bool :=
  match f with Some g => String.eqb g name | None => false end.

Section Vnops.
Context {U : Type} `{Uio U}.
Variable c : callctx.
Variable ss : sstate.
Variable roots : list oid.
Variable sysctlbyname : string -> Z -> Z * bytes.
Variable random_uuid : string.
Variable nanotime : Z * Z.
Variable pmnt_id : Z.
Variable vnodes_of : proc -> proc_vnodes.
Variable vnode_get : Z -> Z.                      (* errno *)
Variable vn_getpath : Z -> Z -> Z * string.       (* vnode, buffer size *)
(** The data functions of the other nodes, by name. *)
Variable read_fns : fnptr -> pfsid -> U -> Z * U.

(** ** Sizes *)
(** sizeof of a call is the size of its type, [int]. *)
Definition procfs_process_node_size (id : pfsid) : Z :=
  match proc_find (cx_kernel c) (nodeid_pid id) with Some _ => 4 | None => 0 end.

Definition procfs_thread_node_size (id : pfsid) : Z :=
  match proc_find (cx_kernel c) (nodeid_pid id) with
  | Some p =>
      let tcount := procfs_get_task_thread_count (cx_bridge c) (cx_alloc c) (cx_alloc c) (Some p) in
      if 0 <? tcount then tcount else 1
  | None => 0
  end.

Definition procfs_fd_node_size (id : pfsid) : Z :=
  match proc_find (cx_kernel c) (nodeid_pid id) with
  | Some p =>
      let '(error, fds) := procfs_get_fd_list (cx_bridge c) (cx_alloc c) (Some p) in
      if error =? 0 then Z.of_nat (length fds) else 0
  | None => 0
  end.

(** The functions the layout installs. *)
Definition node_size_fn (f : fnptr) (id : pfsid) : option Z :=
  if String.eqb f "procfs_process_node_size" then Some (procfs_process_node_size id)
  else if String.eqb f "procfs_thread_node_size" then Some (procfs_thread_node_size id)
  else if String.eqb f "procfs_fd_node_size" then Some (procfs_fd_node_size id)
  else None.

(** TAILQ_FOREACH over the children. *)
Fixpoint size_of_children (id : pfsid) (ms : list sloc) (size : Z) : option Z :=
  match ms with
  | [] => Some size
  | m :: ms' =>
      match snode_at ss m with
      | None => None
      | Some n =>
          match psn_getsize_fn n with
          | None => size_of_children id ms' (u64 (size + 1))
          | Some f =>
              match node_size_fn f id with
              | Some k => size_of_children id ms' (u64 (size + k))
              | None => None
              end
          end
      end
  end.

(** [None]: a dangling or null structure node. *)
Definition procfs_get_node_size_attr (snode : sloc) (id : pfsid) : option Z :=
  match snode_at ss snode with
  | None => None
  | Some n0 =>
      let node_type := psn_node_type n0 in
      let up l := match l with Some p => snode_at ss p | None => None end in
      let target :=
        if pfstype_eqb node_type PFSdirthis then up (psn_parent n0)
        else if pfstype_eqb node_type PFSdirparent then
          match up (psn_parent n0) with
          | Some q => if negb (pfstype_eqb (psn_node_type q) PFSroot) then up (psn_parent q) else Some q
          | None => None
          end
        else Some n0 in
      match target with
      | None => None
      | Some n =>
          if procfs_is_directory_type node_type then size_of_children id (psn_children n) 0
          else match psn_getsize_fn n with
               | None => Some (psn_node_size n)
               | Some f => node_size_fn f id
               end
      end
  end.

(** ** Attributes *)
(** The vnode type, as procfs_create_vnode and getattr choose it. *)
Definition node_vtype (t : pfstype) (id : pfsid) : option vtype :=
  if pfstype_eqb t PFSsysctl then
    match procfs_sysctl_is_node roots (nodeid_objectid id) with
    | Some b => Some (if b then VDIR else VREG)
    | None => None
    end
  else Some (procfs_allocvp t).

Definition node_mode (n : pfssnode) (id : pfsid) : option Z :=
  let t := psn_node_type n in
  let base :=
    match t with
    | PFScurproc | PFSprocnamedir | PFSproclink => Some ALL_ACCESS_ALL
    | PFSsysctl =>
        match procfs_sysctl_is_node roots (nodeid_objectid id) with
        | Some b => Some (if b then READ_EXECUTE_ALL else READ_ALL)
        | None => None
        end
    | _ => Some (if procfs_is_directory_type t then READ_EXECUTE_ALL else READ_ALL)
    end in
  let mode := if fn_is (psn_read_data_fn n) "procfs_donote" then Some RW_OWNER_GROUP else base in
  if fn_is (psn_read_data_fn n) "procfs_doclear_refs" then Some (Z.lor S_IWUSR S_IWGRP) else mode.

(** [inl]: the errno. *)
Definition procfs_vnop_getattr (snode : sloc) (id : pfsid) : option (Z + vnode_attr) :=
  match snode_at ss snode with
  | None => None
  | Some n =>
      let t := psn_node_type n in
      let info := if getattr_skips_process t then inr (PRNODE_NO_PID, None)
                  else procfs_get_process_info (cx_kernel c) t id in
      match info with
      | inl error => Some (inl error)
      | inr (_, p) =>
          match node_mode n id, node_vtype t id, procfs_get_node_size_attr snode id with
          | Some mode, Some vt, Some size =>
              let create_time :=
                match p with Some p => (p_start_sec p, i32 (p_start_usec p * 1000)) | None => nanotime end in
              let '(uid, gid) :=
                match p with Some p => (cr_ruid (p_cred p), cr_rgid (p_cred p)) | None => (0, 0) end in
              Some (inr (Vattr mode vt pmnt_id (procfs_get_node_fileid id (psn_base_node_id n)) size
                           create_time create_time create_time create_time uid gid))
          | _, _, _ => None
          end
      end
  end.

(** ** Links *)
Definition procfs_proclink_path (pid : Z) (name : string) (buflen : Z) : Z * string :=
  match proc_find (cx_kernel c) pid with
  | None => (ESRCH, ""%string)
  | Some p =>
      let vs := vnodes_of p in
      let is_root := negb (String.eqb name "exe") && negb (String.eqb name "cwd") && String.eqb name "root" in
      let vp := if String.eqb name "exe" then p_textvp vs
                else if String.eqb name "cwd" then fd_cdir vs
                else if String.eqb name "root" then fd_rdir vs else None in
      let fallback := if is_root then (0, strlcpy "/" buflen) else (ENOENT, ""%string) in
      match vp with
      | Some v =>
          if vnode_get v =? 0 then
            let '(error, path) := vn_getpath v buflen in
            if error =? 0 then (0, path) else (ENOENT, ""%string)
          else fallback
      | None => fallback
      end
  end.

Definition procfs_vnop_readlink (snode : sloc) (id : pfsid) (u : U) : option (Z * U) :=
  match snode_at ss snode with
  | None => None
  | Some n =>
      let send s := Some (uiomove (bytes_of_string s) (strlen s) u) in
      match psn_node_type n with
      | PFScurproc => send (strlcpy (print_d (current_pid (cx_kernel c))) PROCESS_NAME_SIZE)
      | PFSprocnamedir => send (strlcpy ("../" +:+ print_d (nodeid_pid id)) PROCESS_NAME_SIZE)
      | PFSproclink =>
          let '(error, path) := procfs_proclink_path (nodeid_pid id) (psn_name n) MAXPATHLEN in
          if error =? 0 then send path else Some (error, u)
      | _ => Some (EINVAL, u)
      end
  end.

(** ** Reading and writing *)
Definition procfs_vnop_read (snode : sloc) (id : pfsid) (u : U) : option (Z * U) :=
  match snode_at ss snode with
  | None => None
  | Some n =>
      if pfstype_eqb (psn_node_type n) PFSsysctl then
        procfs_sysctl_read roots (cx_bridge c) sysctlbyname random_uuid (cx_version c) (nodeid_objectid id) u
      else if procfs_is_directory_type (psn_node_type n) then Some (EISDIR, u)
      else match psn_read_data_fn n with
           | Some f => Some (read_fns f id u)
           | None => Some (EINVAL, u)
           end
  end.

(** The errno and the signals posted. *)
Definition procfs_vnop_write (snode : sloc) (id : pfsid) (u : U) : option (Z * list (Z * Z) * U) :=
  match snode_at ss snode with
  | None => None
  | Some n =>
      if procfs_is_directory_type (psn_node_type n) then Some (EISDIR, [], u)
      else if fn_is (psn_read_data_fn n) "procfs_donote" then Some (procfs_donote (nodeid_pid id) u)
      else if fn_is (psn_read_data_fn n) "procfs_doclear_refs" then
        let '(error, u') := procfs_doclear_refs u in Some (error, [], u')
      else Some (EROFS, [], u)
  end.

(** [size_active]: VATTR_IS_ACTIVE(va_data_size); the errno, and whether
    va_data_size is marked supported. *)
Definition procfs_vnop_setattr (snode : sloc) (size_active : bool) : option (Z * bool) :=
  match snode_at ss snode with
  | None => None
  | Some n =>
      if fn_is (psn_read_data_fn n) "procfs_donote" || fn_is (psn_read_data_fn n) "procfs_doclear_refs"
      then Some (0, size_active) else Some (ENOTSUP, false)
  end.

(** Operations that always succeed, and one that is never supported. *)
Definition procfs_vnop_open : Z := 0.
Definition procfs_vnop_access : Z := 0.
Definition procfs_vnop_close : Z := 0.
Definition procfs_vnop_inactive : Z := 0.
Definition procfs_vnop_default : Z := 0.
Definition procfs_vnop_getattrlistbulk : Z := ENOTSUP.

End Vnops.

(** ** Lemmas *)
#[local] Arguments procfs_get_thread_ids_for_task : simpl never.
#[local] Arguments procfs_get_fd_list : simpl never.

Definition known_size_fn (f : option fnptr) : bool :=
  match f with
  | None => true
  | Some f => String.eqb f "procfs_process_node_size" || String.eqb f "procfs_thread_node_size"
              || String.eqb f "procfs_fd_node_size"
  end.

Lemma known_size_fn_some c f id : known_size_fn (Some f) = true -> is_Some (node_size_fn c f id).
Proof.
  cbn. unfold node_size_fn. destruct (String.eqb f "procfs_process_node_size"); [eauto|].
  destruct (String.eqb f "procfs_thread_node_size"); [eauto|]. destruct (String.eqb f "procfs_fd_node_size"); [eauto|done].
Qed.

(** The parts of a layout the attributes of a node depend on. *)
Definition child_size_okb (ss : sstate) (m : sloc) : bool :=
  match snode_at ss m with Some n => known_size_fn (psn_getsize_fn n) | None => false end.

Definition attr_okb (ss : sstate) (n : pfssnode) : bool :=
  known_size_fn (psn_getsize_fn n) && forallb (child_size_okb ss) (psn_children n)
  && forallb (fun m => match snode_at ss m with
                       | Some k => implb (pfstype_eqb (psn_node_type k) PFSsysctl) (Z.land (psn_flags n) PSN_FLAG_THREAD =? 0)
                       | None => false
                       end) (psn_children n).

Lemma size_of_children_some c ss id ms size :
  forallb (child_size_okb ss) ms = true -> is_Some (size_of_children c ss id ms size).
Proof.
  revert size. induction ms as [|m ms IH]; intros size; cbn; [eauto|]. intros [Hm Hms]%andb_true_iff.
  unfold child_size_okb in Hm. destruct (snode_at ss m) as [n|]; [|done].
  destruct (psn_getsize_fn n) as [f|]; [|by apply IH].
  destruct (known_size_fn_some c f id Hm) as [k ->]. by apply IH.
Qed.

Lemma node_size_attr_some c ss l n id :
  snode_at ss l = Some n -> psn_node_type n <> PFSdirthis -> psn_node_type n <> PFSdirparent ->
  attr_okb ss n = true -> is_Some (procfs_get_node_size_attr c ss l id).
Proof.
  intros El H1 H2 Hok. unfold attr_okb in Hok. apply andb_true_iff in Hok as [[Hs Hc]%andb_true_iff _].
  unfold procfs_get_node_size_attr. rewrite El.
  destruct (pfstype_eqb_spec (psn_node_type n) PFSdirthis); [done|].
  destruct (pfstype_eqb_spec (psn_node_type n) PFSdirparent); [done|].
  destruct (procfs_is_directory_type _); [by apply size_of_children_some|].
  destruct (psn_getsize_fn n) as [f|]; [by apply known_size_fn_some|eauto].
Qed.

Lemma node_mode_some roots n id :
  (psn_node_type n = PFSsysctl -> is_Some (procfs_sysctl_is_node roots (nodeid_objectid id))) -> is_Some (node_mode roots n id).
Proof.
  intros Hs. unfold node_mode. destruct (fn_is _ "procfs_doclear_refs"); [eauto|].
  destruct (fn_is _ "procfs_donote"); [eauto|]. destruct (psn_node_type n); try by eexists.
  destruct (Hs eq_refl) as [b ->]. eauto.
Qed.

Lemma node_vtype_some roots t id :
  (t = PFSsysctl -> is_Some (procfs_sysctl_is_node roots (nodeid_objectid id))) -> is_Some (node_vtype roots t id).
Proof.
  intros Hs. unfold node_vtype. destruct (pfstype_eqb_spec t PFSsysctl) as [E|]; [|eauto]. destruct (Hs E) as [b ->]. eauto.
Qed.

(** getattr on a node of a sound layout: the attributes, with the file id of
    the node, or ENOENT when the node needs a process and there is none. *)
Lemma getattr_cases c ss roots now pmnt m n id :
  snode_at ss m = Some n -> attr_okb ss n = true ->
  psn_node_type n <> PFSdirthis -> psn_node_type n <> PFSdirparent ->
  (psn_node_type n = PFSsysctl -> is_Some (procfs_sysctl_is_node roots (nodeid_objectid id))) ->
  (exists va, procfs_vnop_getattr c ss roots now pmnt m id = Some (inr va)
     /\ va_fileid va = procfs_get_node_fileid id (psn_base_node_id n))
  \/ (procfs_vnop_getattr c ss roots now pmnt m id = Some (inl ENOENT)
      /\ procfs_node_type_has_pid (psn_node_type n) = true /\ getattr_skips_process (psn_node_type n) = false
      /\ (nodeid_pid id = PRNODE_NO_PID \/ proc_find (cx_kernel c) (nodeid_pid id) = None)).
Proof.
  intros Em Hok H1 H2 Hs. unfold procfs_vnop_getattr. rewrite Em.
  destruct (node_mode_some roots n id Hs) as [mode ->]. destruct (node_vtype_some roots (psn_node_type n) id Hs) as [vt ->].
  destruct (node_size_attr_some c ss m n id Em H1 H2 Hok) as [size ->].
  destruct (getattr_skips_process (psn_node_type n)); [left; eexists; done|].
  unfold procfs_get_process_info. destruct (Z.eqb_spec (nodeid_pid id) PRNODE_NO_PID) as [E|E].
  - destruct (procfs_node_type_has_pid (psn_node_type n)); [right; auto|left; eexists; done].
  - destruct (proc_find (cx_kernel c) (nodeid_pid id)) as [p|]; [left; eexists; done|].
    destruct (procfs_node_type_has_pid (psn_node_type n)); [right; auto|left; eexists; done].
Qed.

Definition attr_okP (ss : sstate) (l : sloc) (n : pfssnode) : Prop := attr_okb ss n = true.
#[export] Instance attr_okP_dec ss l n : Decision (attr_okP ss l n).
Proof. unfold attr_okP. apply _. Defined.

Lemma first_structure_attrs l n : snode_at first_structure l = Some n -> attr_okb first_structure n = true.
Proof. apply (snode_forall (attr_okP first_structure)). vm_compute. reflexivity. Qed.

(** Nodes that are not process specific need no process. *)
Definition system_okP (l : sloc) (n : pfssnode) : Prop :=
  Z.land (psn_flags n) PSN_FLAG_PROCESS = 0 ->
  psn_node_type n = PFSdirthis \/ psn_node_type n = PFSdirparent
  \/ getattr_skips_process (psn_node_type n) = true \/ procfs_node_type_has_pid (psn_node_type n) = false.
#[export] Instance system_okP_dec l n : Decision (system_okP l n).
Proof. unfold system_okP. apply _. Defined.

Lemma first_structure_system l n : snode_at first_structure l = Some n -> system_okP l n.
Proof. apply (snode_forall system_okP). vm_compute. reflexivity. Qed.

(** Only the two writable nodes have the write functions, and they are files. *)
Definition write_okP (l : sloc) (n : pfssnode) : Prop :=
  fn_is (psn_read_data_fn n) "procfs_donote" || fn_is (psn_read_data_fn n) "procfs_doclear_refs" = true ->
  psn_node_type n = PFSfile.
#[export] Instance write_okP_dec l n : Decision (write_okP l n).
Proof. unfold write_okP. apply _. Defined.

Lemma first_structure_write l n : snode_at first_structure l = Some n -> write_okP l n.
Proof. apply (snode_forall write_okP). vm_compute. reflexivity. Qed.

(** A listed entry, looked up and stat'ed, in any sound layout. *)
Lemma entry_stat c ss dir dn id roots now pmnt es fin e :
  KernelLaws (cx_kernel c) -> small_ids c ->
  snode_at ss dir = Some dn -> psn_node_type dn <> PFSsysctl -> id_ok dn id ->
  (forall l n, snode_at ss l = Some n -> dir_okb ss n = true /\ attr_okb ss n = true /\ psn_name n <> ""%string) ->
  dir_listing c ss dir id (children_of ss dir) = Some (es, fin) ->
  e ∈ es -> de_name e <> "."%string -> de_name e <> ".."%string -> strlen (de_name e) <= NAME_MAX ->
  exists nid m n, lookup_name c ss roots dir id (de_name e) = Some (LkFind nid (Some m)) /\ snode_at ss m = Some n
    /\ ((exists va, procfs_vnop_getattr c ss roots now pmnt m nid = Some (inr va) /\ va_fileid va = de_fileid e)
        \/ (procfs_vnop_getattr c ss roots now pmnt m nid = Some (inl ENOENT)
            /\ procfs_node_type_has_pid (psn_node_type n) = true
            /\ proc_find (cx_kernel c) (nodeid_pid nid) = None)).
Proof.
  intros HK Hsm Ed Ht Hid Hall Hl He H1 H2 Hlen. destruct (Hall dir dn Ed) as (Hdn & Han & _).
  destruct (entry_resolves c ss dir dn id roots es fin e HK Hsm Ed Ht Hid Hdn (fun m n E => proj2 (proj2 (Hall m n E)))
              Hl He H1 H2 Hlen) as (nid & m & E1 & E2 & n & Hm & En & Hb & Hnm & _ & Ho).
  exists nid, m, n. split_and!; [done..|]. destruct (Hall m n En) as (_ & Ha & _).
  destruct (dir_okb_spec _ _ Hdn) as (Hdir & _ & _).
  assert (Hdots : psn_node_type n <> PFSdirthis /\ psn_node_type n <> PFSdirparent).
  { destruct (do_dots _ _ Hdir m n Hm En) as [D1 D2].
    split; intros E; rewrite E in Hnm; (destruct Hnm as [Hnm|Hnm]; [|done]); [apply H1|apply H2]; rewrite Hnm; auto. }
  assert (Hsys : psn_node_type n = PFSsysctl -> is_Some (procfs_sysctl_is_node roots (nodeid_objectid nid))).
  { intros E. destruct Ho as [Ho|[Ho|Ho]]; [|congruence..]. cut (nodeid_objectid nid = 0); [intros ->; cbn; eauto|].
    rewrite Ho. apply (ido_oid _ _ Hid).
    unfold attr_okb in Han. apply andb_true_iff in Han as [_ Hf]. rewrite forallb_forall in Hf.
    specialize (Hf m (proj1 (list_elem_of_In _ _) Hm)). rewrite En, E in Hf. cbn in Hf. by apply Z.eqb_eq in Hf. }
  destruct Hdots as [D1 D2]. destruct (getattr_cases c ss roots now pmnt m n nid En Ha D1 D2 Hsys) as [(va & Eg & Ef)|(Eg & Hp & _ & Hg)].
  - left. exists va. split; [done|]. rewrite Ef, <- E2, Hb. done.
  - right. split_and!; [done..|]. destruct Hg as [Hg|Hg]; [|done]. rewrite Hg. by apply proc_find_neg.
Qed.

(** The entries of a directory, of the layout or below /proc/sys. *)
Definition dir_entries (c : callctx) (ss : sstate) (roots : list oid) (dir : sloc) (dn : pfssnode) (id : pfsid)
  : option (list entry) :=
  if pfstype_eqb (psn_node_type dn) PFSsysctl then sys_listing roots id (psn_base_node_id dn)
  else fst <$> dir_listing c ss dir id (children_of ss dir).

(** The names of the sysctl tree tell siblings apart: no two visible oids of
    a node have one name, none is empty, and none at the top is "kernel", which
    stands for "kern". *)
Definition sysctl_names_ok (roots : list oid) (objectid : Z) : Prop :=
  match sysctl_entries roots objectid with
  | Some l => NoDup (map (fun x => fst (fst x)) l) /\ Forall (fun x => fst (fst x) <> ""%string) l
              /\ (objectid = 0 -> Forall (fun x => fst (fst x) <> "kernel"%string) l)
  | None => True
  end.

Lemma find_by_name (l : list (string * bool * Z)) x :
  NoDup (map (fun x => fst (fst x)) l) -> x ∈ l -> List.find (fun e => String.eqb (fst (fst e)) (fst (fst x))) l = Some x.
Proof.
  induction l as [|y l IH]; [set_solver|]. cbn [map List.find]. intros [Hn Hd]%NoDup_cons Hx.
  apply elem_of_cons in Hx as [->|Hx]; [by rewrite String.eqb_refl|].
  destruct (String.eqb_spec (fst (fst y)) (fst (fst x))) as [E|]; [|by apply IH].
  destruct Hn. rewrite E. by apply (list_elem_of_fmap_2 (fun x => fst (fst x))).
Qed.

Lemma is_node_oid roots l o dir :
  oids_wf roots -> procfs_sysctl_children roots dir = Some (Some l) -> o ∈ l -> is_Some (procfs_sysctl_is_node roots (oid_addr o)).
Proof.
  intros [Hd Ha] El Ho. destruct (children_edge roots dir l o El Ho) as [Hin _]. unfold procfs_sysctl_is_node.
  pose proof (proj1 (Forall_forall _ _) Ha o Hin) as Hb. cbn in Hb. unfold PROCFS_SYN_IS. unfold PROCFS_SYN_MAX in *.
  rewrite (proj2 (Z.eqb_neq _ 0)), (proj2 (Z.ltb_ge _ 6)), andb_false_r by lia.
  unfold oid_at. change (flat_map oid_nodes roots) with (all_oids roots). rewrite (find_unique oid_addr _ o Hd Hin). eauto.
Qed.

(** A listed child of a sysctl directory is found by its name. *)
Lemma sysctl_listed_found roots dir l x :
  oids_wf roots -> sysctl_names_ok roots dir -> sysctl_entries roots dir = Some l -> x ∈ l ->
  procfs_sysctl_find roots dir (fst (fst x)) = Some (Some (snd x)) /\ fst (fst x) <> ""%string
  /\ is_Some (procfs_sysctl_is_node roots (snd x)).
Proof.
  intros Hw Hn El Hx. unfold sysctl_names_ok in Hn. rewrite El in Hn. destruct Hn as (Hd & He & Hk).
  pose proof (proj1 (Forall_forall _ _) He x Hx) as Hne. cbn in Hne. unfold sysctl_entries in El.
  destruct (Z.eqb_spec dir PROCFS_SYN_RANDOM) as [->|Hr].
  { injection El as <-. cbn in Hx. repeat (apply elem_of_cons in Hx as [->|Hx]; [cbn; eauto|]). set_solver. }
  destruct (procfs_sysctl_children roots dir) as [[l'|]|] eqn:Ec; [|injection El as <-; set_solver|done]. injection El as <-.
  destruct (sysctl_lookup_matches_listing roots dir l' 0 (fst (fst x)) Hr Ec ltac:(lia)) as [_ ->].
  assert (sysctl_alias dir (fst (fst x)) = fst (fst x)) as ->.
  { unfold sysctl_alias. destruct (Z.eqb_spec dir 0) as [E|]; [|done]. cbn [andb].
    destruct (String.eqb_spec (fst (fst x)) "kernel") as [E'|]; [|done].
    by destruct (proj1 (Forall_forall _ _) (Hk E) x Hx). }
  rewrite (find_by_name _ _ Hd Hx). split_and!; [done..|]. unfold sysctl_listing in Hx. apply elem_of_app in Hx as [Hx|Hx].
  - apply list_elem_of_In, in_map_iff in Hx as (o & <- & [Ho _]%filter_In). cbn.
    apply (is_node_oid roots l' o dir Hw Ec). by apply list_elem_of_In.
  - destruct (dir =? _); [|set_solver]. apply list_elem_of_singleton in Hx as ->. cbn. eauto.
Qed.

Lemma not_dot_guard nm : nm <> "."%string ->
  (strlen nm =? 1) && match nm with String "." _ => true | _ => false end = false.
Proof.
  intros H. destruct (Z.eqb_spec (strlen nm) 1) as [E|]; [|done]. cbn [andb].
  destruct nm as [|a [|b nm]]; [done| |unfold strlen in E; cbn in E; lia].
  destruct a as [[] [] [] [] [] [] [] []]; done.
Qed.

Lemma sys_entry_stat c ss dir dn id roots now pmnt es e :
  oids_wf roots -> sysctl_names_ok roots (nodeid_objectid id) ->
  snode_at ss dir = Some dn -> psn_node_type dn = PFSsysctl -> attr_okb ss dn = true ->
  sys_listing roots id (psn_base_node_id dn) = Some es ->
  e ∈ es -> de_name e <> "."%string -> de_name e <> ".."%string -> strlen (de_name e) <= NAME_MAX ->
  exists nid va, lookup_name c ss roots dir id (de_name e) = Some (LkFind nid (Some dir))
    /\ procfs_vnop_getattr c ss roots now pmnt dir nid = Some (inr va) /\ va_fileid va = de_fileid e.
Proof.
  intros Hw Hn Ed Et Ha Hl He H1 H2 Hlen. unfold sys_listing in Hl.
  destruct (sysctl_entries roots (nodeid_objectid id)) as [l|] eqn:El; [|done]. injection Hl as <-.
  apply elem_of_cons in He as [->|He]; [done|]. apply elem_of_cons in He as [->|He]; [done|].
  apply list_elem_of_In, in_map_iff in He as (x & <- & Hx%list_elem_of_In). cbn [de_name sys_entry] in *.
  destruct (sysctl_listed_found roots _ l x Hw Hn El Hx) as (Ef & Hne & Hi).
  exists (Pfsid PRNODE_NO_PID (snd x) (psn_base_node_id dn)).
  destruct (getattr_cases c ss roots now pmnt dir dn (Pfsid PRNODE_NO_PID (snd x) (psn_base_node_id dn)) Ed Ha)
    as [(va & Eg & Ev)|(_ & Hp & _)]; [by rewrite Et..|done| |by rewrite Et in Hp].
  exists va. split_and!; [|done|by rewrite Ev]. unfold lookup_name, procfs_vnop_lookup.
  rewrite bool_decide_eq_true_2 by done. cbn [negb orb].
  assert (1 <= strlen (fst (fst x))) as Hl1 by (destruct (fst (fst x)); [done|]; unfold strlen; cbn; lia).
  rewrite (proj2 (Z.ltb_ge _ 1)) by done. cbn [orb]. rewrite Z.min_r by lia. rewrite strlcpy_fits by lia.
  rewrite Ed, Et, Ef. cbn [pfstype_eqb]. rewrite (not_dot_guard _ H1). done.
Qed.

(** A node without write functions. *)
Lemma plain_mode roots n id mode :
  match psn_node_type n with
  | PFScurproc | PFSprocnamedir | PFSproclink => Some ALL_ACCESS_ALL
  | PFSsysctl =>
      match procfs_sysctl_is_node roots (nodeid_objectid id) with
      | Some b => Some (if b then READ_EXECUTE_ALL else READ_ALL)
      | None => None
      end
  | _ => Some (if procfs_is_directory_type (psn_node_type n) then READ_EXECUTE_ALL else READ_ALL)
  end = Some mode ->
  procfs_allocvp (psn_node_type n) <> VLNK -> (Z.land mode 146 =? 0) = true.
Proof.
  intros Em Hl. assert (Hm : mode = READ_EXECUTE_ALL \/ mode = READ_ALL); [|by destruct Hm as [-> | ->]].
  destruct (psn_node_type n); try (by destruct Hl); try (injection Em as <-; vm_compute; by auto).
  destruct (procfs_sysctl_is_node _ _) as [[]|]; [injection Em as <-; auto..|done].
Qed.

Lemma rejected_write {U} (d : bool) (u : U) :
  exists e, (if d then Some (EISDIR, [], u) else Some (EROFS, [], u)) = Some (e, @nil (Z * Z), u) /\ (e = EROFS \/ e = EISDIR).
Proof. destruct d; eexists; (split; [done|auto]). Qed.

Lemma readlink_send c ss vnodes get path l n id u :
  snode_at ss l = Some n -> psn_node_type n = PFScurproc -> 0 <= current_pid (cx_kernel c) < 2 ^ 31 ->
  ub_fault u = false -> 40 <= ub_resid u -> ub_out u = [] ->
  exists u', procfs_vnop_readlink c ss vnodes get path l id u = Some (0, u')
    /\ ub_out u' = bytes_of_string (print_d (current_pid (cx_kernel c))).
Proof.
  intros El Et Hp Hf Hr Ho. unfold procfs_vnop_readlink. rewrite El, Et. set (s := print_d _).
  assert (Hs : strlen s <= 32).
  { destruct (print_u_note (current_pid (cx_kernel c)) Hp) as (_ & _ & _ & Hl). unfold s. rewrite print_d_nonneg by lia.
    rewrite <- bytes_of_string_length. lia. }
  rewrite strlcpy_fits by (unfold PROCESS_NAME_SIZE, MAXCOMLEN; lia). cbn. unfold ubuf_move. rewrite Hf.
  eexists. split; [done|]. cbn. rewrite Ho. cbn. pose proof (bytes_of_string_length s).
  by rewrite take_ge by lia.
Qed.

(** ** Properties *)

(** C6. stat agrees with readdir: in every directory, of the layout or below
    /proc/sys, each listed name but the two dots can be looked up, and getattr
    on the node found either reports the d_ino of the entry as its file id, or
    answers ENOENT because the node needs a process and that process is gone.
    There is no other outcome.  The thread ids and descriptors the daemon
    reports have to fit an int, the type the lookup parses names into, names
    have at most NAME_MAX bytes, and sibling oids have distinct names. *)
Theorem stat_agrees_with_readdir c dir dn id roots now pmnt es e :
  KernelLaws (cx_kernel c) -> small_ids c -> oids_wf roots -> sysctl_names_ok roots (nodeid_objectid id) ->
  snode_at first_structure dir = Some dn -> dir_id_ok dn id ->
  dir_entries c first_structure roots dir dn id = Some es ->
  e ∈ es -> de_name e <> "."%string -> de_name e <> ".."%string -> strlen (de_name e) <= NAME_MAX ->
  exists nid m n,
    lookup_name c first_structure roots dir id (de_name e) = Some (LkFind nid (Some m))
    /\ snode_at first_structure m = Some n
    /\ ((exists va, procfs_vnop_getattr c first_structure roots now pmnt m nid = Some (inr va)
           /\ va_fileid va = de_fileid e)
        \/ (procfs_vnop_getattr c first_structure roots now pmnt m nid = Some (inl ENOENT)
            /\ procfs_node_type_has_pid (psn_node_type n) = true
            /\ proc_find (cx_kernel c) (nodeid_pid nid) = None)).
Proof.
  intros HK Hsm Hw Hn Ed Hid Hl. unfold dir_entries in Hl. destruct (pfstype_eqb_spec (psn_node_type dn) PFSsysctl) as [Et|Et].
  - intros He H1 H2 Hlen. pose proof (first_structure_attrs dir dn Ed) as Ha.
    destruct (sys_entry_stat c first_structure dir dn id roots now pmnt es e Hw Hn Ed Et Ha Hl He H1 H2 Hlen) as (nid & va & ? & ? & ?).
    exists nid, dir, dn. eauto 10.
  - destruct (dir_listing _ _ _ _ _) as [[es' fin]|] eqn:El; [|done]. injection Hl as <-.
    apply (entry_stat c first_structure dir dn id roots now pmnt es' fin e HK Hsm Ed Et (dir_id_plain _ _ Hid Et)); [|exact El].
    intros l n Eln.
    exact (conj (first_structure_dirs l n Eln) (conj (first_structure_attrs l n Eln) (first_structure_named l n Eln))).
Qed.

(** stat never fails on a system-wide node (one below no process directory),
    and reports it as owned by root and created now. *)
Theorem getattr_system_node c roots now pmnt l n id :
  snode_at first_structure l = Some n -> Z.land (psn_flags n) PSN_FLAG_PROCESS = 0 ->
  psn_node_type n <> PFSdirthis -> psn_node_type n <> PFSdirparent -> psn_node_type n <> PFSsysctl ->
  nodeid_pid id = PRNODE_NO_PID ->
  exists va, procfs_vnop_getattr c first_structure roots now pmnt l id = Some (inr va)
    /\ va_uid va = 0 /\ va_gid va = 0 /\ va_create_time va = now /\ va_fsid va = pmnt
    /\ va_type va = procfs_allocvp (psn_node_type n).
Proof.
  intros El Hf H1 H2 H3 Hpid. pose proof (first_structure_attrs l n El) as Ha. pose proof (first_structure_system l n El Hf) as Hs.
  revert El Ha. generalize first_structure. intros ss El Ha.
  assert (Hs3 : psn_node_type n = PFSsysctl -> is_Some (procfs_sysctl_is_node roots (nodeid_objectid id))) by done.
  destruct (node_mode_some roots n id Hs3) as [mode Em]. destruct (node_size_attr_some c ss l n id El H1 H2 Ha) as [size Esz].
  unfold procfs_vnop_getattr. rewrite El, Em, Esz. unfold node_vtype.
  destruct (pfstype_eqb_spec (psn_node_type n) PFSsysctl); [done|].
  destruct (getattr_skips_process (psn_node_type n)); [by eexists|].
  destruct Hs as [Hs|[Hs|[Hs|Hs]]]; [done..|]. unfold procfs_get_process_info. rewrite Hpid, Hs. by eexists.
Qed.

(** Mode bits and writes agree: on a node that is not a symbolic link, a
    mode without write bits means every write is rejected (EROFS, or EISDIR
    for a directory) without posting a signal or touching the uio, and
    truncation too; a mode with write bits means the node is "note" or
    "clear_refs" and truncation is accepted. *)
Theorem write_bits_match {U} `{Uio U} roots l n id mode :
  snode_at first_structure l = Some n -> node_mode roots n id = Some mode ->
  procfs_allocvp (psn_node_type n) <> VLNK ->
  if Z.land mode 146 =? 0 then
    (forall u : U, exists e, procfs_vnop_write first_structure l id u = Some (e, [], u) /\ (e = EROFS \/ e = EISDIR))
    /\ forall b, procfs_vnop_setattr first_structure l b = Some (ENOTSUP, false)
  else
    (psn_read_data_fn n = Some "procfs_donote"%string \/ psn_read_data_fn n = Some "procfs_doclear_refs"%string)
    /\ forall b, procfs_vnop_setattr first_structure l b = Some (0, b).
Proof.
  intros El Em Hl. pose proof (first_structure_write l n El) as Hw. revert El. generalize first_structure. intros ss El.
  unfold write_okP in Hw. unfold node_mode in Em. unfold procfs_vnop_write, procfs_vnop_setattr. rewrite El.
  destruct (psn_read_data_fn n) as [f|]; cbn [fn_is] in *.
  - destruct (String.eqb f "procfs_doclear_refs") eqn:E1.
    { apply String.eqb_eq in E1. injection Em as <-. rewrite orb_true_r. cbn. split; [right; congruence|done]. }
    destruct (String.eqb f "procfs_donote") eqn:E2.
    { apply String.eqb_eq in E2. injection Em as <-. cbn. split; [left; congruence|done]. }
    cbn [orb]. rewrite (plain_mode _ _ _ _ Em Hl). split; [|done]. intros u. apply rejected_write.
  - cbn [orb]. rewrite (plain_mode _ _ _ _ Em Hl). split; [|done]. intros u. apply rejected_write.
Qed.

(** /proc/self names the caller: reading the link gives a decimal name, and
    looking that name up in /proc finds the directory of the calling process,
    whenever the caller may see itself. *)
Theorem self_link_resolves c roots vnodes get path l n id p u :
  KernelLaws (cx_kernel c) -> snode_at first_structure l = Some n -> psn_node_type n = PFScurproc ->
  0 <= current_pid (cx_kernel c) < 2 ^ 31 -> proc_find (cx_kernel c) (current_pid (cx_kernel c)) = Some p ->
  procfs_check_can_access_process (cx_cred c) p = 0 ->
  ub_fault u = false -> 40 <= ub_resid u -> ub_out u = [] ->
  exists name u', procfs_vnop_readlink c first_structure vnodes get path l id u = Some (0, u')
    /\ ub_out u' = bytes_of_string name
    /\ lookup_name c first_structure roots root_loc PROCFS_ROOT_NODE_ID name
       = Some (LkFind (Pfsid (p_pid p) PRNODE_NO_OBJECTID 114) (Some process_loc)).
Proof.
  intros HK El Et Hp Ep Ha Hf Hr Ho. pose proof first_structure_root_shape as Hs. revert El Hs. generalize first_structure.
  intros ss El Hs. exists (print_d (current_pid (cx_kernel c))).
  destruct (readlink_send c ss vnodes get path l n id u El Et Hp Hf Hr Ho) as (u' & E1 & E2).
  exists u'. split_and!; [done..|]. rewrite (lookup_pid c ss roots _ Hs Hp), Ep, Ha, (proc_find_pid _ _ Ep).
  cbn [Z.eqb negb]. by rewrite andb_false_r.
Qed.

(** ** Witnesses *)
Lemma sample_names_ok dir : dir = 0 \/ dir = 8192 -> sysctl_names_ok sample_roots dir.
Proof.
  intros [-> | ->]; unfold sysctl_names_ok; cbn; split_and!; try (refine (bool_decide_unpack _ _); vm_compute; exact I); done.
Qed.

(** Descriptor 5 of process 77, and /proc/sys/kern/maxproc. *)
Definition maxproc_entry : entry := nth 3 kern_listing (Entry 0 0 "").

Lemma stat_agrees_with_readdir_witness :
  (exists nid m n,
    lookup_name sample_ctx first_structure sample_roots fd_dir fd_dir_id (de_name fd5_entry) = Some (LkFind nid (Some m))
    /\ snode_at first_structure m = Some n
    /\ ((exists va, procfs_vnop_getattr sample_ctx first_structure sample_roots (0, 0) 1 m nid = Some (inr va)
           /\ va_fileid va = de_fileid fd5_entry)
        \/ (procfs_vnop_getattr sample_ctx first_structure sample_roots (0, 0) 1 m nid = Some (inl ENOENT)
            /\ procfs_node_type_has_pid (psn_node_type n) = true
            /\ proc_find (cx_kernel sample_ctx) (nodeid_pid nid) = None)))
  /\ exists nid m n,
    lookup_name sample_ctx first_structure sample_roots sys_loc kern_id (de_name maxproc_entry) = Some (LkFind nid (Some m))
    /\ snode_at first_structure m = Some n
    /\ ((exists va, procfs_vnop_getattr sample_ctx first_structure sample_roots (0, 0) 1 m nid = Some (inr va)
           /\ va_fileid va = de_fileid maxproc_entry)
        \/ (procfs_vnop_getattr sample_ctx first_structure sample_roots (0, 0) 1 m nid = Some (inl ENOENT)
            /\ procfs_node_type_has_pid (psn_node_type n) = true
            /\ proc_find (cx_kernel sample_ctx) (nodeid_pid nid) = None)).
Proof.
  split.
  - destruct fd_dir_facts as (E & Ht & Hid).
    apply (stat_agrees_with_readdir sample_ctx fd_dir fd_dir_node fd_dir_id sample_roots (0, 0) 1 (listing_of fd_dir fd_dir_id)
             fd5_entry (table_kernel_laws _ _) sample_small_ids sample_wf (sample_names_ok 0 (or_introl eq_refl)) E).
    + split; [exact (ido_base _ _ Hid)|]. split; [intros X; by destruct (Ht X)|auto].
    + vm_compute. reflexivity.
    + apply (list_elem_of_lookup_2 _ 3). vm_compute. reflexivity.
    + intros X. vm_compute in X. discriminate X.
    + intros X. vm_compute in X. discriminate X.
    + intros X. vm_compute in X. discriminate X.
  - assert (snode_at first_structure sys_loc = Some sys_node) as E by (vm_compute; reflexivity).
    apply (stat_agrees_with_readdir sample_ctx sys_loc sys_node kern_id sample_roots (0, 0) 1 kern_listing
             maxproc_entry (table_kernel_laws _ _) sample_small_ids sample_wf (sample_names_ok 8192 (or_intror eq_refl)) E).
    + split; [reflexivity|]. split; [reflexivity|]. intros X. destruct X. vm_compute. reflexivity.
    + vm_compute. reflexivity.
    + apply (list_elem_of_lookup_2 _ 3). vm_compute. reflexivity.
    + intros X. vm_compute in X. discriminate X.
    + intros X. vm_compute in X. discriminate X.
    + intros X. vm_compute in X. discriminate X.
Defined.

Definition node_at (l : sloc) : pfssnode :=
  default (Pfssnode PFSroot "" 0 0 None [] 0 None None) (snode_at first_structure l).

(** /proc/sysvipc. *)
Lemma getattr_system_node_witness :
  exists va, procfs_vnop_getattr sample_ctx first_structure [] (100, 0) 1 sysvipc_dir sysvipc_id = Some (inr va)
    /\ va_uid va = 0 /\ va_gid va = 0 /\ va_create_time va = (100, 0) /\ va_fsid va = 1
    /\ va_type va = procfs_allocvp (psn_node_type (node_at sysvipc_dir)).
Proof.
  apply (getattr_system_node sample_ctx [] (100, 0) 1 sysvipc_dir (node_at sysvipc_dir) sysvipc_id).
  - vm_compute. reflexivity.
  - vm_compute. reflexivity.
  - intros X. vm_compute in X. discriminate X.
  - intros X. vm_compute in X. discriminate X.
  - intros X. vm_compute in X. discriminate X.
  - vm_compute. reflexivity.
Defined.

Lemma write_bits_match_witness :
  exists e, procfs_vnop_write first_structure sysvipc_dir sysvipc_id (ubuf_writing [1]) = Some (e, [], ubuf_writing [1])
    /\ (e = EROFS \/ e = EISDIR).
Proof.
  apply (write_bits_match (U := ubuf) [] sysvipc_dir (node_at sysvipc_dir) sysvipc_id READ_EXECUTE_ALL).
  - vm_compute. reflexivity.
  - vm_compute. reflexivity.
  - intros X. vm_compute in X. discriminate X.
Defined.

Definition self_loc : sloc := 97%positive.

Lemma self_link_resolves_witness :
  exists name u', procfs_vnop_readlink sample_ctx first_structure (fun _ => ProcVnodes None None None) (fun _ => 0)
      (fun _ _ => (0, ""%string)) self_loc (Pfsid (-1) 0 97) (ubuf_read 0 100) = Some (0, u')
    /\ ub_out u' = bytes_of_string name
    /\ lookup_name sample_ctx first_structure [] root_loc PROCFS_ROOT_NODE_ID name
       = Some (LkFind (Pfsid 77 PRNODE_NO_OBJECTID 114) (Some process_loc)).
Proof.
  apply (self_link_resolves sample_ctx [] (fun _ => ProcVnodes None None None) (fun _ => 0) (fun _ _ => (0, ""%string))
           self_loc (node_at self_loc) (Pfsid (-1) 0 97) (Proc 77 1 77 77 (Cred 501 501 20 20) "sh" 0 0 false false)
           (ubuf_read 0 100) (table_kernel_laws _ _)).
  - vm_compute. reflexivity.
  - vm_compute. reflexivity.
  - cbn. lia.
  - vm_compute. reflexivity.
  - vm_compute. reflexivity.
  - reflexivity.
  - cbn. lia.
  - reflexivity.
Defined.
