(* ===== verification/Ctl.v ===== *)
(** * The control bridge to the daemon (kext/procfs_ctl.c)

    A fixed table of slots matches the replies of the user-space daemon to the
    requests that are waiting for them.  Many threads request at once, the
    daemon replies, connects and disconnects at any time, and a waiting thread
    may time out.  The code works on the shared state in critical sections of
    one mutex; each of them is one step of [cstep], and a thread's program
    counter [cpc] says before which section it stands.  Below it the clients
    that assemble replies: the blob reader and the per-CPU counters. *)
From S2P Require Import Prelude Kernel Subr.
From Stdlib Require Import ZArith Lia String.
From stdpp Require Import base list numbers strings gmap.
Open Scope Z_scope.

Definition PROCFS_CTL_SLOTS : nat := 16.
Definition PROCFS_CTL_MAGIC : Z := 1347571523.     (* 0x50524F43 *)
Definition PROCFS_CTL_NAMEMAX : Z := 256.

Abbreviation tid := positive.

(** ** State *)
Record ctl_slot := CtlSlot {
  in_use : bool; done : bool;
  sl_seq : Z;          (* uint32_t *)
  sl_error : Z;        (* int *)
  sl_len : Z;          (* uint32_t *)
  sl_buf : bytes       (* uint8_t[PROCFS_CTL_MAXPAYLOAD] *)
}.

(** The arguments of procfs_ctl_request_impl; [rq_name]: none for NULL. *)
Record creq := Creq {
  rq_type : Z; rq_pid : Z; rq_arg : Z; rq_name : option string; rq_outcap : Z
}.

(** struct procfs_ctl_req. *)
Record procfs_ctl_req := CtlReq {
  q_magic : Z; q_seq : Z; q_type : Z; q_pid : Z; q_arg : Z; q_name : string
}.

(** Where a thread stands in procfs_ctl_request_impl. *)
Inductive cpc :=
| CStart (r : creq)                                   (* entry *)
| CPick (r : creq)                                    (* connected; before the lock *)
| CEnqueue (r : creq) (slot : nat) (seq unit : Z)     (* in ctl_enqueuedata *)
| CWait (r : creq) (slot : nat) (seq : Z)             (* before testing [done] under the lock *)
| CSleep (r : creq) (slot : nat) (seq : Z)            (* in msleep *)
| CBroke (r : creq) (slot : nat) (seq : Z)            (* msleep failed; before it has the lock again *)
| CRelease (r : creq) (slot : nat) (seq error : Z) (out : bytes) (* before the last lock *)
| CDone (r : creq) (seq : option Z) (error : Z) (out : bytes).

(** The last three fields are history: what went over the socket in either
    direction, and how many sequence numbers were handed out. *)
Record cstate := Cstate {
  g_ctl_ref : bool;            (* g_ctl_ref != NULL *)
  g_ctl_unit : Z;
  g_ctl_connected : bool;
  g_ctl_seq : Z;
  g_ctl_slots : list ctl_slot;
  cthreads : gmap tid cpc;
  to_daemon : list procfs_ctl_req;
  from_daemon : list bytes;
  issued : Z
}.

Inductive clabel :=
| CLcall (t : tid) (r : creq)
| CLreturn (t : tid)
| CLconnect (unit : Z)
| CLdisconnect (unit : Z)
| CLreply (m : bytes)                 (* procfs_ctl_send with the packet m *)
| CLenqueue (t : tid) (e : Z)         (* ctl_enqueuedata returns e *)
| CLtimeout (t : tid)                 (* msleep returns non-zero *)
| CLrun (t : tid).

(** ** Operations *)
Definition with_slots (ls : list ctl_slot) (th : gmap tid cpc) (s : cstate) : cstate :=
  Cstate (g_ctl_ref s) (g_ctl_unit s) (g_ctl_connected s) (g_ctl_seq s) ls th
    (to_daemon s) (from_daemon s) (issued s).

Definition cgoto (t : tid) (k : cpc) (s : cstate) : cstate :=
  with_slots (g_ctl_slots s) (<[t := k]> (cthreads s)) s.

(** [wakeup(&g_ctl_slots[i])]. *)
Definition cwake (i : nat) (k : cpc) : cpc :=
  match k with
  | CSleep r j seq => if Nat.eqb i j then CWait r j seq else k
  | _ => k
  end.

(** The first slot with the property. *)
Fixpoint slot_find (P : ctl_slot -> bool) (ls : list ctl_slot) : option nat :=
  match ls with
  | [] => None
  | sl :: ls' => if P sl then Some O else option_map S (slot_find P ls')
  end.

Definition procfs_ctl_connect (sc_unit : Z) (s : cstate) : cstate :=
  Cstate (g_ctl_ref s) sc_unit true (g_ctl_seq s) (g_ctl_slots s) (cthreads s)
    (to_daemon s) (from_daemon s) (issued s).

Definition pending (sl : ctl_slot) : bool := in_use sl && negb (done sl).

Definition slot_fail (sl : ctl_slot) : ctl_slot :=
  if pending sl then CtlSlot (in_use sl) true (sl_seq sl) ENOTCONN (sl_len sl) (sl_buf sl) else sl.

(** The threads asleep on a slot the loop marks are woken. *)
Definition wake_pending (ls : list ctl_slot) (k : cpc) : cpc :=
  match k with
  | CSleep r j seq =>
      match ls !! j with
      | Some sl => if pending sl then CWait r j seq else k
      | None => k
      end
  | _ => k
  end.

Definition procfs_ctl_disconnect (unit : Z) (s : cstate) : cstate :=
  Cstate (g_ctl_ref s) (g_ctl_unit s) false (g_ctl_seq s) (map slot_fail (g_ctl_slots s))
    (wake_pending (g_ctl_slots s) <$> cthreads s) (to_daemon s) (from_daemon s) (issued s).

(** struct procfs_ctl_resp at the head of a packet. *)
Definition resp_magic (m : bytes) : Z := le_val (take 4 m).
Definition resp_seq (m : bytes) : Z := le_val (take 4 (drop 4 m)).
Definition resp_error (m : bytes) : Z := i32 (le_val (take 4 (drop 8 m))).
Definition resp_len (m : bytes) : Z := le_val (take 4 (drop 12 m)).
Definition resp_size : Z := 16.

(** The payload length the code uses, and whether the packet holds as much. *)
Definition resp_plen (m : bytes) : Z :=
  if PROCFS_CTL_MAXPAYLOAD <? resp_len m then PROCFS_CTL_MAXPAYLOAD else resp_len m.
Definition resp_whole (m : bytes) : bool :=
  (0 <? resp_plen m) && (resp_size + resp_plen m <=? Z.of_nat (length m)).
Definition resp_payload (m : bytes) : bytes := take (Z.to_nat (resp_plen m)) (drop 16 m).

(** mbuf_copydata into the head of a buffer. *)
Definition copy_into (src buf : bytes) : bytes := (src ++ drop (length src) buf)%list.

Definition procfs_ctl_send (m : bytes) (s : cstate) : cstate :=
  let s := Cstate (g_ctl_ref s) (g_ctl_unit s) (g_ctl_connected s) (g_ctl_seq s) (g_ctl_slots s)
             (cthreads s) (to_daemon s) (from_daemon s ++ [m]) (issued s) in
  if (resp_size <=? Z.of_nat (length m)) && (resp_magic m =? PROCFS_CTL_MAGIC) then
    match slot_find (fun sl => pending sl && (sl_seq sl =? resp_seq m)) (g_ctl_slots s) with
    | Some i =>
        let complete sl :=
          CtlSlot (in_use sl) true (sl_seq sl) (resp_error m) (resp_plen m)
            (if resp_whole m then copy_into (resp_payload m) (sl_buf sl) else sl_buf sl) in
        with_slots (alter complete i (g_ctl_slots s)) (cwake i <$> cthreads s) s
    | None => s
    end
  else s.

(** [++g_ctl_seq], skipping zero. *)
Definition next_seq (g : Z) : Z :=
  let seq := u32 (g + 1) in
  if seq =? 0 then u32 (seq + 1) else seq.

(** The critical section that takes a slot. *)
Definition pick_slot (t : tid) (r : creq) (s : cstate) : cstate :=
  match slot_find (fun sl => negb (in_use sl)) (g_ctl_slots s) with
  | None => cgoto t (CDone r None EBUSY []) s
  | Some i =>
      let seq := next_seq (g_ctl_seq s) in
      let take_it sl := CtlSlot true false seq 0 0 (sl_buf sl) in
      Cstate (g_ctl_ref s) (g_ctl_unit s) (g_ctl_connected s) seq
        (alter take_it i (g_ctl_slots s))
        (<[t := CEnqueue r i seq (g_ctl_unit s)]> (cthreads s))
        (to_daemon s) (from_daemon s) (issued s + 1)
  end.

Definition make_req (r : creq) (seq : Z) : procfs_ctl_req :=
  CtlReq PROCFS_CTL_MAGIC seq (rq_type r) (rq_pid r) (rq_arg r)
    (match rq_name r with Some n => strlcpy n PROCFS_CTL_NAMEMAX | None => EmptyString end).

(** What the caller gets from a slot that is done. *)
Definition take_result (r : creq) (sl : ctl_slot) : Z * bytes :=
  if sl_error sl =? 0 then
    let n := if rq_outcap r <? sl_len sl then rq_outcap r else sl_len sl in
    (0, take (Z.to_nat n) (sl_buf sl))
  else (sl_error sl, []).

(** The critical section around the wait loop: [broke] if msleep failed. *)
Definition wait_section (t : tid) (r : creq) (i : nat) (seq : Z) (broke : bool) (s : cstate)
  : option cstate :=
  match g_ctl_slots s !! i with
  | None => None
  | Some sl =>
      if done sl then
        let '(error, out) := take_result r sl in Some (cgoto t (CRelease r i seq error out) s)
      else if broke then Some (cgoto t (CRelease r i seq ETIMEDOUT []) s)
      else Some (cgoto t (CSleep r i seq) s)
  end.

Definition free_slot (sl : ctl_slot) : ctl_slot :=
  CtlSlot false (done sl) (sl_seq sl) (sl_error sl) (sl_len sl) (sl_buf sl).

(** procfs_ctl_request_impl, section by section. *)
Definition ctl_run (t : tid) (s : cstate) : option cstate :=
  match cthreads s !! t with
  | Some (CStart r) =>
      Some (cgoto t (if negb (g_ctl_connected s) || negb (g_ctl_ref s)
                     then CDone r None ENOTCONN [] else CPick r) s)
  | Some (CPick r) => Some (pick_slot t r s)
  | Some (CWait r i seq) => wait_section t r i seq false s
  | Some (CBroke r i seq) => wait_section t r i seq true s
  | Some (CRelease r i seq error out) =>
      Some (with_slots (alter free_slot i (g_ctl_slots s))
              (<[t := CDone r (Some seq) error out]> (cthreads s)) s)
  | _ => None
  end.

Definition cstep (l : clabel) (s : cstate) : option cstate :=
  match l with
  | CLcall t r =>
      match cthreads s !! t with None => Some (cgoto t (CStart r) s) | Some _ => None end
  | CLreturn t =>
      match cthreads s !! t with
      | Some (CDone _ _ _ _) => Some (with_slots (g_ctl_slots s) (delete t (cthreads s)) s)
      | _ => None
      end
  | CLconnect unit => Some (procfs_ctl_connect unit s)
  | CLdisconnect unit => Some (procfs_ctl_disconnect unit s)
  | CLreply m => Some (procfs_ctl_send m s)
  | CLenqueue t e =>
      match cthreads s !! t with
      | Some (CEnqueue r i seq unit) =>
          if e =? 0 then
            Some (Cstate (g_ctl_ref s) (g_ctl_unit s) (g_ctl_connected s) (g_ctl_seq s) (g_ctl_slots s)
                    (<[t := CWait r i seq]> (cthreads s))
                    (to_daemon s ++ [make_req r seq]) (from_daemon s) (issued s))
          else Some (cgoto t (CRelease r i seq e []) s)
      | _ => None
      end
  | CLtimeout t =>
      match cthreads s !! t with
      | Some (CSleep r i seq) => Some (cgoto t (CBroke r i seq) s)
      | _ => None
      end
  | CLrun t => ctl_run t s
  end.

(** After procfs_ctl_register: static storage, nobody connected. *)
Definition slot_init : ctl_slot := CtlSlot false false 0 0 0 (repeat 0 (Z.to_nat PROCFS_CTL_MAXPAYLOAD)).
Definition ctl_init : cstate :=
  Cstate true 0 false 0 (repeat slot_init PROCFS_CTL_SLOTS) ∅ [] [] 0.

(** ** Clients of the bridge *)
(** procfs_ctl_request_blob: chunks at increasing offsets until a short one.
    [fuel] bounds the iterations; [None]: not enough of it. *)
Fixpoint request_blob_loop (B : bridge) (ty : Z) (fuel : nat) (offset : Z) (sb : bytes)
  : option (Z * bytes) :=
  match fuel with
  | O => None
  | S f =>
      let '(e, chunk) := ctl_request B ty 0 offset EmptyString PROCFS_CTL_MAXPAYLOAD in
      if e =? 0 then
        let got := u32 (Z.of_nat (length chunk)) in
        let sb := if 0 <? got then (sb ++ chunk)%list else sb in
        if got <? PROCFS_CTL_MAXPAYLOAD then Some (0, sb)
        else request_blob_loop B ty f (u64 (offset + got)) sb
      else Some (e, sb)
  end.

Definition procfs_ctl_request_blob (B : bridge) (ty : Z) (fuel : nat) (sb : bytes) : option (Z * bytes) :=
  request_blob_loop B ty fuel 0 sb.

Definition PROCFS_REQ_CPUSTAT : Z := 22.
Definition PROCFS_REQ_CPUCLUSTERS : Z := 23.

Record procfs_cpu_stat := CpuStat { hwirq : Z; ipi : Z; timer : Z }.
Definition cpu_stat_size : Z := 24.

Fixpoint cpu_stats (n : nat) (bs : bytes) : list procfs_cpu_stat :=
  match n with
  | O => []
  | S n' => CpuStat (le_val (take 8 bs)) (le_val (take 8 (drop 8 bs))) (le_val (take 8 (drop 16 bs)))
            :: cpu_stats n' (drop 24 bs)
  end.

(** The caller's array is overwritten from its head; it has [ncpu] entries. *)
Definition procfs_cpu_stat_all (B : bridge) (ncpu : Z) : Z * list procfs_cpu_stat :=
  let out := repeat (CpuStat 0 0 0) (Z.to_nat ncpu) in
  let '(error, buf) :=
    ctl_request B PROCFS_REQ_CPUSTAT 0 0 EmptyString (PROCFS_CTL_MAXPAYLOAD / cpu_stat_size * cpu_stat_size) in
  if error =? 0 then
    let have := Z.of_nat (length buf) / cpu_stat_size in
    let n := Z.to_nat (if have <? ncpu then have else ncpu) in
    (0, (cpu_stats n buf ++ drop n out)%list)
  else (error, out).

Definition procfs_cpu_softirq_map (st : procfs_cpu_stat) : list Z :=
  [0; timer st; 0; 0; 0; 0; 0; ipi st; timer st; 0].

Definition procfs_cpu_clusters (B : bridge) (ncpu : Z) : Z * bytes :=
  let out := repeat 63 (Z.to_nat ncpu) in
  let '(error, buf) := ctl_request B PROCFS_REQ_CPUCLUSTERS 0 0 EmptyString 256 in
  if error =? 0 then
    let got := Z.of_nat (length buf) in
    let n := Z.to_nat (if got <? ncpu then got else ncpu) in
    (0, (take n buf ++ drop n out)%list)
  else (error, out).


(** ** Invariant *)
(** The slot a thread holds, with the sequence number of its request. *)
Definition owns (k : cpc) : option (nat * Z) :=
  match k with
  | CEnqueue _ i q _ | CWait _ i q | CSleep _ i q | CBroke _ i q | CRelease _ i q _ _ => Some (i, q)
  | _ => None
  end.

(** [m] is a well-formed successful reply to the request numbered [q]. *)
Definition good_reply (fd : list bytes) (q : Z) (m : bytes) : Prop :=
  m ∈ fd /\ resp_size <= Z.of_nat (length m) /\ resp_magic m = PROCFS_CTL_MAGIC
  /\ resp_seq m = q /\ resp_error m = 0.

Definition resp_complete (m : bytes) : Prop := resp_size + resp_plen m <= Z.of_nat (length m).

(** [out] is what a caller with room for [rq_outcap r] bytes gets of a reply. *)
Definition answered (fd : list bytes) (r : creq) (q : Z) (out : bytes) : Prop :=
  Z.of_nat (length out) <= Z.max 0 (rq_outcap r)
  /\ exists m, good_reply fd q m
     /\ (resp_complete m -> out = take (Z.to_nat (rq_outcap r)) (resp_payload m)).

Definition slot_ok (fd : list bytes) (sl : ctl_slot) : Prop :=
  in_use sl = true -> done sl = true -> sl_error sl = 0 ->
  exists m, good_reply fd (sl_seq sl) m /\ sl_len sl = resp_plen m
    /\ (resp_complete m -> take (Z.to_nat (resp_plen m)) (sl_buf sl) = resp_payload m).

(** The thread holds its slot, and what the point it stands at implies. *)
Definition pc_holds (ls : list ctl_slot) (k : cpc) : Prop :=
  match owns k with
  | Some (i, q) => exists sl, ls !! i = Some sl /\ in_use sl = true /\ sl_seq sl = q
                   /\ match k with CSleep _ _ _ => done sl = false | _ => True end
  | None => True
  end.

Definition pc_said (td : list procfs_ctl_req) (fd : list bytes) (k : cpc) : Prop :=
  match k with
  | CWait r i q | CSleep r i q | CBroke r i q => make_req r q ∈ td
  | CRelease r i q e out => e = 0 -> make_req r q ∈ td /\ answered fd r q out
  | CDone r (Some q) e out => e = 0 -> make_req r q ∈ td /\ answered fd r q out
  | CDone r None e out => e <> 0
  | _ => True
  end.

Record cinv (s : cstate) : Prop := {
  ci_len : length (g_ctl_slots s) = PROCFS_CTL_SLOTS;
  ci_holds t k : cthreads s !! t = Some k -> pc_holds (g_ctl_slots s) k;
  ci_said t k : cthreads s !! t = Some k -> pc_said (to_daemon s) (from_daemon s) k;
  ci_slot i sl : g_ctl_slots s !! i = Some sl -> slot_ok (from_daemon s) sl;
  ci_one t1 t2 k1 k2 i q1 q2 :
    cthreads s !! t1 = Some k1 -> cthreads s !! t2 = Some k2 ->
    owns k1 = Some (i, q1) -> owns k2 = Some (i, q2) -> t1 = t2;
  ci_held i sl : g_ctl_slots s !! i = Some sl -> in_use sl = true ->
    exists t k q, cthreads s !! t = Some k /\ owns k = Some (i, q)
}.

(** Sequence numbers, as long as the 32-bit counter has not wrapped. *)
Definition pc_seq (k : cpc) : option Z :=
  match k with CDone _ q _ _ => q | _ => snd <$> owns k end.

Record cseq (s : cstate) : Prop := {
  cs_count : g_ctl_seq s = issued s /\ 0 <= issued s;
  cs_range t k q : cthreads s !! t = Some k -> pc_seq k = Some q -> 0 < q <= g_ctl_seq s;
  cs_td req : req ∈ to_daemon s -> 0 < q_seq req <= g_ctl_seq s;
  cs_new t r i q u : cthreads s !! t = Some (CEnqueue r i q u) ->
    forall req, req ∈ to_daemon s -> q_seq req <> q;
  cs_one t1 t2 k1 k2 q : cthreads s !! t1 = Some k1 -> cthreads s !! t2 = Some k2 ->
    pc_seq k1 = Some q -> pc_seq k2 = Some q -> t1 = t2;
  cs_uniq req1 req2 : req1 ∈ to_daemon s -> req2 ∈ to_daemon s -> q_seq req1 = q_seq req2 -> req1 = req2
}.

(** ** Lemmas on the slot table *)
Lemma slot_find_spec P ls i :
  slot_find P ls = Some i -> exists sl, ls !! i = Some sl /\ P sl = true.
Proof.
  revert i. induction ls as [|sl ls IH]; intros i; cbn; [done|]. destruct (P sl) eqn:E.
  - intros [= <-]. eauto.
  - destruct (slot_find P ls) as [j|]; [|done]. intros [= <-]. by apply IH.
Qed.

Lemma slot_find_none P ls : slot_find P ls = None -> Forall (fun sl => P sl = false) ls.
Proof.
  induction ls as [|sl ls IH]; cbn; [by constructor|]. destruct (P sl) eqn:E; [done|].
  destruct (slot_find P ls); [done|]. constructor; auto.
Qed.

Lemma cwake_owns i k : owns (cwake i k) = owns k.
Proof. destruct k; cbn; try done. by destruct (Nat.eqb _ _). Qed.
Lemma cwake_seq i k : pc_seq (cwake i k) = pc_seq k.
Proof. destruct k; cbn; try done. by destruct (Nat.eqb _ _). Qed.
Lemma cwake_said i td fd k : pc_said td fd k -> pc_said td fd (cwake i k).
Proof. destruct k; cbn; try done. by destruct (Nat.eqb _ _). Qed.

Lemma wake_pending_owns ls k : owns (wake_pending ls k) = owns k.
Proof. destruct k; cbn; try done. destruct (ls !! _) as [sl|]; [|done]. by destruct (pending sl). Qed.
Lemma wake_pending_seq ls k : pc_seq (wake_pending ls k) = pc_seq k.
Proof. destruct k; cbn; try done. destruct (ls !! _) as [sl|]; [|done]. by destruct (pending sl). Qed.
Lemma wake_pending_said ls td fd k : pc_said td fd k -> pc_said td fd (wake_pending ls k).
Proof. destruct k; cbn; try done. destruct (ls !! _) as [sl|]; [|done]. by destruct (pending sl). Qed.

Lemma good_reply_mono fd fd' q m : fd ⊆ fd' -> good_reply fd q m -> good_reply fd' q m.
Proof. intros Hs (H & ?). split; [by apply Hs|done]. Qed.

Lemma answered_mono fd fd' r q out : fd ⊆ fd' -> answered fd r q out -> answered fd' r q out.
Proof. intros Hs (H1 & m & H2 & H3). split; [done|]. exists m. eauto using good_reply_mono. Qed.

Lemma slot_ok_mono fd fd' sl : fd ⊆ fd' -> slot_ok fd sl -> slot_ok fd' sl.
Proof. intros Hs H H1 H2 H3. destruct (H H1 H2 H3) as (m & ? & ?). exists m. eauto using good_reply_mono. Qed.

Lemma pc_said_mono td td' fd fd' k : td ⊆ td' -> fd ⊆ fd' -> pc_said td fd k -> pc_said td' fd' k.
Proof.
  intros H1 H2. destruct k as [| | | | | |r i q e out|r [q|] e out]; cbn; try done; try apply H1;
    intros H E; destruct (H E); eauto using answered_mono.
Qed.

#[local] Hint Resolve good_reply_mono answered_mono slot_ok_mono pc_said_mono cwake_said wake_pending_said : procfs.

(** What a slot update must keep for the threads that hold slots. *)
Definition same_holder (f : ctl_slot -> ctl_slot) : Prop :=
  forall sl, in_use (f sl) = in_use sl /\ sl_seq (f sl) = sl_seq sl.

Lemma copy_into_take src buf : take (length src) (copy_into src buf) = src.
Proof. unfold copy_into. by rewrite take_app_length. Qed.

Lemma resp_payload_length m : resp_complete m -> length (resp_payload m) = Z.to_nat (resp_plen m).
Proof.
  intros Hc. unfold resp_payload. rewrite length_take, length_drop. unfold resp_complete, resp_size in Hc. lia.
Qed.

(** A slot completed by a reply holds that reply. *)
Lemma complete_slot_ok fd m sl :
  m ∈ fd -> resp_size <= Z.of_nat (length m) -> resp_magic m = PROCFS_CTL_MAGIC -> sl_seq sl = resp_seq m ->
  slot_ok fd (CtlSlot (in_use sl) true (sl_seq sl) (resp_error m) (resp_plen m)
    (if resp_whole m then copy_into (resp_payload m) (sl_buf sl) else sl_buf sl)).
Proof.
  intros Hm Hl Hg Hq _ _ He. cbn in *. exists m. split; [by repeat split|]. split; [done|]. intros Hc.
  pose proof (resp_payload_length m Hc) as Hp. unfold resp_whole. destruct (Z.ltb_spec 0 (resp_plen m)) as [H0|H0].
  - unfold resp_complete in Hc. rewrite (proj2 (Z.leb_le _ _) Hc). cbn. rewrite <- Hp. apply copy_into_take.
  - cbn. rewrite Z2Nat.nonpos in * by done. cbn. by destruct (resp_payload m).
Qed.

(** What the caller takes out of a slot is an answer. *)
Lemma take_result_answered fd r sl out :
  slot_ok fd sl -> in_use sl = true -> done sl = true -> take_result r sl = (0, out) ->
  answered fd r (sl_seq sl) out.
Proof.
  unfold take_result. intros Hok H1 H2. destruct (Z.eqb_spec (sl_error sl) 0) as [E|]; [|by intros [= ? _]].
  intros [= <-]. destruct (Hok H1 H2 E) as (m & Hm & Hl & Hc). split.
  - rewrite length_take. destruct (Z.ltb_spec (rq_outcap r) (sl_len sl)); lia.
  - exists m. split; [done|]. intros C. specialize (Hc C). pose proof (resp_payload_length m C) as Hp.
    rewrite <- Hc, Hl, take_take. f_equal. destruct (Z.ltb_spec (rq_outcap r) (resp_plen m)); lia.
Qed.

(** ** Preservation *)
Definition thread_owns (s : cstate) (t : tid) : option (nat * Z) := cthreads s !! t ≫= owns.

(** One thread moves on, keeping what it holds. *)
Lemma cinv_goto s t k' td' u c q n :
  cinv s -> owns k' = thread_owns s t -> pc_holds (g_ctl_slots s) k' ->
  pc_said td' (from_daemon s) k' -> to_daemon s ⊆ td' ->
  cinv (Cstate (g_ctl_ref s) u c q (g_ctl_slots s) (<[t := k']> (cthreads s)) td' (from_daemon s) n).
Proof.
  intros [I1 I2 I3 I4 I5 I6] Ho Hh Hs Htd. unfold thread_owns in Ho.
  assert (Hown : forall t1 k1 i q1, <[t := k']> (cthreads s) !! t1 = Some k1 -> owns k1 = Some (i, q1) ->
            exists k0, cthreads s !! t1 = Some k0 /\ owns k0 = Some (i, q1)).
  { intros t1 k1 i q1 E1 E2. destruct (decide (t1 = t)) as [->|].
    - rewrite lookup_insert_eq in E1. injection E1 as <-. rewrite E2 in Ho.
      destruct (cthreads s !! t) as [k0|]; [|done]. exists k0. done.
    - rewrite lookup_insert_ne in E1 by done. eauto. }
  split; cbn; [done|..|done| |].
  - intros t1 k1 [[<- <-]|[_ E]]%lookup_insert_Some; eauto.
  - intros t1 k1 [[<- <-]|[_ E]]%lookup_insert_Some; [done|]. apply (pc_said_mono (to_daemon s) _ (from_daemon s)); eauto.
  - intros t1 t2 k1 k2 i q1 q2 E1 E2 O1 O2.
    destruct (Hown _ _ _ _ E1 O1) as (k1' & ? & ?), (Hown _ _ _ _ E2 O2) as (k2' & ? & ?). eauto.
  - intros i sl E1 E2. destruct (I6 i sl E1 E2) as (t1 & k1 & q1 & E3 & E4).
    destruct (decide (t1 = t)) as [->|].
    + exists t, k', q1. rewrite lookup_insert_eq. rewrite E3 in Ho. cbn in Ho. by rewrite Ho.
    + exists t1, k1, q1. by rewrite lookup_insert_ne.
Qed.

(** Slots are completed and their sleepers woken. *)
Lemma cinv_wake s ls' w fd' c :
  cinv s -> length ls' = length (g_ctl_slots s) ->
  (forall i sl', ls' !! i = Some sl' ->
     exists sl, g_ctl_slots s !! i = Some sl /\ in_use sl = in_use sl' /\ sl_seq sl = sl_seq sl'
       /\ slot_ok fd' sl' /\ (done sl' = done sl \/ forall r q, w (CSleep r i q) = CWait r i q)) ->
  (forall k, w k = k \/ exists r i q, k = CSleep r i q /\ w k = CWait r i q) ->
  from_daemon s ⊆ fd' ->
  cinv (Cstate (g_ctl_ref s) (g_ctl_unit s) c (g_ctl_seq s) ls' (w <$> cthreads s) (to_daemon s) fd' (issued s)).
Proof.
  intros [I1 I2 I3 I4 I5 I6] Hlen Hls Hw Hfd.
  assert (Hown : forall k, owns (w k) = owns k).
  { intros k. destruct (Hw k) as [->|(r & i & q & -> & ->)]; done. }
  assert (Hth : forall t k', (w <$> cthreads s) !! t = Some k' -> exists k, cthreads s !! t = Some k /\ k' = w k).
  { intros t k' E. rewrite lookup_fmap in E. destruct (cthreads s !! t) as [k|]; [|done]. injection E as <-. eauto. }
  split; cbn; [congruence|..].
  - intros t k' (k & E & ->)%Hth. specialize (I2 t k E). unfold pc_holds in *. rewrite Hown.
    destruct (owns k) as [[i q]|] eqn:Eo; [|done]. destruct I2 as (sl & E1 & E2 & E3 & E4).
    destruct (lookup_lt_is_Some_2 ls' i) as [sl' Esl']; [rewrite Hlen; by eapply lookup_lt_Some|].
    destruct (Hls i sl' Esl') as (sl0 & E0 & H1 & H2 & _ & H4). rewrite E1 in E0. injection E0 as <-.
    exists sl'. split_and!; [done|congruence|congruence|].
    destruct (Hw k) as [Ewk|(r' & i' & q' & -> & ->)]; [|done]. rewrite Ewk. destruct k; try done.
    cbn in Eo. injection Eo as -> ->. destruct H4 as [->|H4]; [done|]. rewrite H4 in Ewk. done.
  - intros t k' (k & E & ->)%Hth. specialize (I3 t k E). destruct (Hw k) as [->|(r & i & q & -> & ->)].
    + eapply pc_said_mono; [done|exact Hfd|exact I3].
    + exact I3.
  - intros i sl' E. by destruct (Hls i sl' E) as (? & ? & ? & ? & ? & ?).
  - intros t1 t2 k1 k2 i q1 q2 (k1' & E1 & ->)%Hth (k2' & E2 & ->)%Hth. rewrite !Hown. eauto.
  - intros i sl' E Hu. destruct (Hls i sl' E) as (sl & E1 & E2 & _). rewrite Hu in E2.
    destruct (I6 i sl E1 E2) as (t & k & q & E3 & E4). exists t, (w k), q. by rewrite lookup_fmap, E3, Hown.
Qed.

(** A thread takes a free slot. *)
Lemma cinv_pick s t r i q sl u n :
  cinv s -> thread_owns s t = None -> g_ctl_slots s !! i = Some sl -> in_use sl = false ->
  cinv (Cstate (g_ctl_ref s) (g_ctl_unit s) (g_ctl_connected s) q
    (alter (fun sl => CtlSlot true false q 0 0 (sl_buf sl)) i (g_ctl_slots s))
    (<[t := CEnqueue r i q u]> (cthreads s)) (to_daemon s) (from_daemon s) n).
Proof.
  intros [I1 I2 I3 I4 I5 I6] Hno Hi Hf. set (f := fun sl => CtlSlot true false q 0 0 (sl_buf sl)).
  assert (Hfree : forall t k q1, cthreads s !! t = Some k -> owns k = Some (i, q1) -> False).
  { intros t1 k q1 E1 E2. specialize (I2 t1 k E1). unfold pc_holds in I2. rewrite E2 in I2.
    destruct I2 as (sl' & E & ? & _). rewrite Hi in E. injection E as <-. congruence. }
  split; cbn; [by rewrite length_alter|..].
  - intros t1 k [[<- <-]|[Hne E]]%lookup_insert_Some.
    + eexists. cbn. rewrite list_lookup_alter_eq, Hi. cbn. split; [done|]. done.
    + specialize (I2 t1 k E). unfold pc_holds in *. destruct (owns k) as [[j q1]|] eqn:Eo; [|done].
      destruct (decide (i = j)) as [<-|]; [by destruct (Hfree t1 k q1)|]. by rewrite list_lookup_alter_ne.
  - intros t1 k [[<- <-]|[Hne E]]%lookup_insert_Some; [done|eauto].
  - intros j sl' E. destruct (decide (i = j)) as [<-|].
    + rewrite list_lookup_alter_eq, Hi in E. injection E as <-. intros _ [=].
    + rewrite list_lookup_alter_ne in E by done. eauto.
  - intros t1 t2 k1 k2 j q1 q2 [[<- <-]|[H1 E1]]%lookup_insert_Some [[<- <-]|[H2 E2]]%lookup_insert_Some O1 O2;
      cbn in *; simplify_eq; [done|by destruct (Hfree t2 k2 q2)|by destruct (Hfree t1 k1 q1)|eauto].
  - intros j sl' E Hu. destruct (decide (i = j)) as [<-|].
    + exists t, (CEnqueue r i q u), q. by rewrite lookup_insert_eq.
    + rewrite list_lookup_alter_ne in E by done. destruct (I6 j sl' E Hu) as (t1 & k & q1 & E1 & E2).
      exists t1, k, q1. rewrite lookup_insert_ne; [done|]. intros <-. unfold thread_owns in Hno.
      rewrite E1 in Hno. cbn in Hno. congruence.
Qed.

(** A thread gives its slot back. *)
Lemma cinv_release s t r i q e out :
  cinv s -> cthreads s !! t = Some (CRelease r i q e out) ->
  cinv (with_slots (alter free_slot i (g_ctl_slots s)) (<[t := CDone r (Some q) e out]> (cthreads s)) s).
Proof.
  intros [I1 I2 I3 I4 I5 I6] Et.
  assert (Hother : forall t1 k j q1, t1 <> t -> cthreads s !! t1 = Some k -> owns k = Some (j, q1) -> i <> j).
  { intros t1 k j q1 Hne E O <-. apply Hne. by eapply I5. }
  split; cbn; [by rewrite length_alter|..].
  - intros t1 k [[<- <-]|[Hne E]]%lookup_insert_Some; [done|].
    specialize (I2 t1 k E). unfold pc_holds in *. destruct (owns k) as [[j q1]|] eqn:Eo; [|done].
    rewrite list_lookup_alter_ne; [done|]. eapply Hother; eauto.
  - intros t1 k [[<- <-]|[Hne E]]%lookup_insert_Some; [exact (I3 t _ Et)|eauto].
  - intros j sl' E. destruct (decide (i = j)) as [<-|].
    + rewrite list_lookup_alter_eq in E. destruct (g_ctl_slots s !! i); [|done]. injection E as <-. intros [=].
    + rewrite list_lookup_alter_ne in E by done. eauto.
  - intros t1 t2 k1 k2 j q1 q2 [[<- <-]|[H1 E1]]%lookup_insert_Some [[<- <-]|[H2 E2]]%lookup_insert_Some O1 O2;
      cbn in *; try done. eauto.
  - intros j sl' E Hu. destruct (decide (i = j)) as [<-|].
    + rewrite list_lookup_alter_eq in E. destruct (g_ctl_slots s !! i); [|done]. by injection E as <-.
    + rewrite list_lookup_alter_ne in E by done. destruct (I6 j sl' E Hu) as (t1 & k & q1 & E1 & E2).
      exists t1, k, q1. rewrite lookup_insert_ne; [done|]. intros <-. rewrite Et in E1. injection E1 as <-.
      cbn in E2. congruence.
Qed.

Lemma cinv_return s t r q e out :
  cinv s -> cthreads s !! t = Some (CDone r q e out) -> cinv (with_slots (g_ctl_slots s) (delete t (cthreads s)) s).
Proof.
  intros [I1 I2 I3 I4 I5 I6] Et. split; cbn; [done|..|done| |].
  - intros t1 k [_ E]%lookup_delete_Some. eauto.
  - intros t1 k [_ E]%lookup_delete_Some. eauto.
  - intros t1 t2 k1 k2 i q1 q2 [_ E1]%lookup_delete_Some [_ E2]%lookup_delete_Some. eauto.
  - intros i sl E Hu. destruct (I6 i sl E Hu) as (t1 & k & q1 & E1 & E2). exists t1, k, q1.
    rewrite lookup_delete_ne; [done|]. intros <-. rewrite Et in E1. by injection E1 as <-.
Qed.

Lemma cinv_same s u c n fd' :
  cinv s -> from_daemon s ⊆ fd' ->
  cinv (Cstate (g_ctl_ref s) u c (g_ctl_seq s) (g_ctl_slots s) (cthreads s) (to_daemon s) fd' n).
Proof.
  intros [I1 I2 I3 I4 I5 I6] Hfd. split; cbn; eauto with procfs.
Qed.

Lemma cinv_send m s : cinv s -> cinv (procfs_ctl_send m s).
Proof.
  intros I. unfold procfs_ctl_send. set (s1 := Cstate _ _ _ _ _ _ _ (from_daemon s ++ [m]) _).
  assert (I1 : cinv s1) by (apply cinv_same; [done|set_solver]).
  destruct (Z.leb_spec resp_size (Z.of_nat (length m))) as [Hl|]; [|done].
  destruct (Z.eqb_spec (resp_magic m) PROCFS_CTL_MAGIC) as [Hg|]; [|done]. cbn [andb].
  destruct (slot_find _ _) as [i|] eqn:E; [|done]. apply slot_find_spec in E as (sl & E & Hp).
  apply andb_true_iff in Hp as [_ Hq%Z.eqb_eq].
  apply cinv_wake; [done|by rewrite length_alter| | |done].
  - intros j sl' Ej. destruct (decide (i = j)) as [<-|].
    + rewrite list_lookup_alter_eq, E in Ej. injection Ej as <-. exists sl. cbn. split_and!; try done.
      * apply complete_slot_ok; [set_solver|done..].
      * right. intros. by rewrite Nat.eqb_refl.
    + rewrite list_lookup_alter_ne in Ej by done. exists sl'. split_and!; try done; [|by left].
      by apply (ci_slot s1 I1 j).
  - intros k. destruct k; try by left. cbn. destruct (Nat.eqb_spec i slot) as [->|]; [right; eauto|by left].
Qed.

Lemma cinv_disconnect u s : cinv s -> cinv (procfs_ctl_disconnect u s).
Proof.
  intros I. unfold procfs_ctl_disconnect. apply cinv_wake; [done|by rewrite length_map| | |done].
  - intros i sl' E. rewrite list_lookup_fmap in E. destruct (g_ctl_slots s !! i) as [sl|] eqn:Es; [|done].
    injection E as <-. exists sl. unfold slot_fail. destruct (pending sl) eqn:Ep.
    + split_and!; try done. right. intros. cbn. by rewrite Es, Ep.
    + split_and!; try done; [|by left]. by apply (ci_slot s I i).
  - intros k. destruct k; try by left. cbn. destruct (g_ctl_slots s !! slot) as [sl|]; [|by left].
    destruct (pending sl); [right; eauto|by left].
Qed.

Lemma cinv_wait s t r i q b s' :
  cinv s -> cthreads s !! t = Some (CWait r i q) \/ cthreads s !! t = Some (CBroke r i q) ->
  wait_section t r i q b s = Some s' -> cinv s'.
Proof.
  intros I Ht. assert (Hk : pc_holds (g_ctl_slots s) (CWait r i q) /\ make_req r q ∈ to_daemon s
     /\ thread_owns s t = Some (i, q)).
  { unfold thread_owns. destruct Ht as [Ht|Ht]; rewrite Ht; pose proof (ci_holds s I _ _ Ht);
      pose proof (ci_said s I _ _ Ht); done. }
  destruct Hk as ((sl & E1 & E2 & E3 & _) & Hm & Ho). unfold wait_section. rewrite E1.
  assert (Hgo : forall k, owns k = Some (i, q) -> pc_said (to_daemon s) (from_daemon s) k ->
     match k with CSleep _ _ _ => done sl = false | _ => True end ->
     cinv (cgoto t k s)).
  { intros k Ek Hs Hd. apply cinv_goto; [done|congruence| |done|done]. unfold pc_holds. rewrite Ek.
    exists sl. done. }
  destruct (done sl) eqn:Ed.
  - destruct (take_result r sl) as [e out] eqn:Er. intros [= <-]. apply Hgo; [done| |done].
    intros ->. split; [done|]. rewrite <- E3. eapply take_result_answered; eauto. by apply (ci_slot s I i).
  - destruct b; intros [= <-]; by apply Hgo.
Qed.

Lemma thread_owns_eq s t k : cthreads s !! t = Some k -> thread_owns s t = owns k.
Proof. intros E. unfold thread_owns. by rewrite E. Qed.

(** Moves that keep the point's obligations. *)
Lemma cinv_move s t k k' :
  cinv s -> cthreads s !! t = Some k -> owns k' = owns k ->
  pc_holds (g_ctl_slots s) k' -> pc_said (to_daemon s) (from_daemon s) k' -> cinv (cgoto t k' s).
Proof. intros I E Ho H1 H2. apply cinv_goto; [done|by rewrite (thread_owns_eq s t k E)|done..]. Qed.

Lemma cinv_run t s s' : cinv s -> ctl_run t s = Some s' -> cinv s'.
Proof.
  intros I. unfold ctl_run. destruct (cthreads s !! t) as [k|] eqn:E; [|done]. destruct k; try done.
  - intros [= <-]. eapply cinv_move; [done|exact E|..]; by destruct (_ || _).
  - intros [= <-]. unfold pick_slot. destruct (slot_find _ _) as [i|] eqn:Ef.
    + apply slot_find_spec in Ef as (sl & Ei & Hf%negb_true_iff). eapply cinv_pick; [done| |exact Ei|done].
      by rewrite (thread_owns_eq _ _ _ E).
    + eapply cinv_move; [done|exact E|done..].
  - intros Hw. eapply cinv_wait; [done|by left|exact Hw].
  - intros Hw. eapply cinv_wait; [done|by right|exact Hw].
  - intros [= <-]. by apply cinv_release.
Qed.

Lemma cstep_inv l s s' : cinv s -> cstep l s = Some s' -> cinv s'.
Proof.
  intros I. destruct l as [t r|t|u|u|m|t e|t|t]; cbn [cstep].
  - destruct (cthreads s !! t) eqn:E; [done|]. intros [= <-].
    apply cinv_goto; [done|by unfold thread_owns; rewrite E|done..].
  - destruct (cthreads s !! t) as [k|] eqn:E; [|done]. destruct k; try done. intros [= <-]. by eapply cinv_return.
  - intros [= <-]. by apply cinv_same.
  - intros [= <-]. by apply cinv_disconnect.
  - intros [= <-]. by apply cinv_send.
  - destruct (cthreads s !! t) as [k|] eqn:E; [|done]. destruct k as [| |r i q u| | | | |]; try done.
    pose proof (ci_holds s I t _ E) as Hh. destruct (Z.eqb_spec e 0) as [|He]; intros [= <-].
    + apply cinv_goto; [done|by rewrite (thread_owns_eq _ _ _ E)|done| |set_solver]. cbn. set_solver.
    + eapply cinv_move; [done|exact E|done|done|]. cbn. done.
  - destruct (cthreads s !! t) as [k|] eqn:E; [|done]. destruct k; try done. intros [= <-].
    eapply cinv_move; [done|exact E|done| |by apply (ci_said s I t _ E)].
    destruct (ci_holds s I t _ E) as (sl & ? & ? & ? & _). exists sl. done.
  - by apply cinv_run.
Qed.

Lemma slot_init_lookup i sl : repeat slot_init PROCFS_CTL_SLOTS !! i = Some sl -> sl = slot_init.
Proof. intros H%list_elem_of_lookup_2%list_elem_of_In. by apply repeat_spec in H. Qed.

Lemma ctl_init_inv : cinv ctl_init.
Proof.
  split; cbn [ctl_init g_ctl_slots cthreads]; try (intros *; rewrite lookup_empty; done).
  - reflexivity.
  - intros i sl ->%slot_init_lookup. intros [=].
  - intros i sl ->%slot_init_lookup. intros [=].
Qed.

Lemma ctl_reach_inv s : reach cstep ctl_init s -> cinv s.
Proof. apply (reach_invariant cstep cinv); [apply ctl_init_inv|]. intros l s1 s2. apply cstep_inv. Qed.

(** ** Sequence numbers *)
Definition no_enqueue (k : cpc) : Prop := match k with CEnqueue _ _ _ _ => False | _ => True end.

(** A thread moves on with the number it has, or without one. *)
Lemma cseq_goto s t k' u c ls :
  cseq s -> no_enqueue k' -> pc_seq k' = None \/ pc_seq k' = (cthreads s !! t ≫= pc_seq) ->
  cseq (Cstate (g_ctl_ref s) u c (g_ctl_seq s) ls (<[t := k']> (cthreads s)) (to_daemon s) (from_daemon s) (issued s)).
Proof.
  intros [S1 S2 S3 S4 S5 S6] Hne Hq.
  assert (Hold : forall t1 k1 q, <[t := k']> (cthreads s) !! t1 = Some k1 -> pc_seq k1 = Some q ->
            exists k0, cthreads s !! t1 = Some k0 /\ pc_seq k0 = Some q).
  { intros t1 k1 q [[<- <-]|[_ E]]%lookup_insert_Some Hk; [|eauto].
    destruct Hq as [Hq|Hq]; [congruence|]. rewrite Hk in Hq. destruct (cthreads s !! t) as [k0|]; [|done]. eauto. }
  split; cbn; [done| |done| | |done].
  - intros t1 k1 q E Hk. destruct (Hold _ _ _ E Hk) as (k0 & ? & ?). eauto.
  - intros t1 r i q u' [[<- ->]|[_ E]]%lookup_insert_Some; [done|eauto].
  - intros t1 t2 k1 k2 q E1 E2 H1 H2. destruct (Hold _ _ _ E1 H1) as (? & ? & ?), (Hold _ _ _ E2 H2) as (? & ? & ?). eauto.
Qed.

Lemma cseq_map s w u c ls fd :
  cseq s -> (forall k, pc_seq (w k) = pc_seq k) ->
  (forall k, match w k with CEnqueue _ _ _ _ => w k = k | _ => True end) ->
  cseq (Cstate (g_ctl_ref s) u c (g_ctl_seq s) ls (w <$> cthreads s) (to_daemon s) fd (issued s)).
Proof.
  intros [S1 S2 S3 S4 S5 S6] Hw He.
  assert (Hth : forall t k', (w <$> cthreads s) !! t = Some k' -> exists k, cthreads s !! t = Some k /\ k' = w k).
  { intros t k' E. rewrite lookup_fmap in E. destruct (cthreads s !! t) as [k|]; [|done]. injection E as <-. eauto. }
  split; cbn; [done| |done| | |done].
  - intros t1 k1 q (k & E & ->)%Hth. rewrite Hw. eauto.
  - intros t1 r i q u' (k & E & Ek)%Hth. specialize (He k). rewrite <- Ek in He. rewrite <- He in E. eauto.
  - intros t1 t2 k1 k2 q (k1' & E1 & ->)%Hth (k2' & E2 & ->)%Hth. rewrite !Hw. eauto.
Qed.

Lemma cseq_id s u c fd :
  cseq s -> cseq (Cstate (g_ctl_ref s) u c (g_ctl_seq s) (g_ctl_slots s) (cthreads s) (to_daemon s) fd (issued s)).
Proof. intros [S1 S2 S3 S4 S5 S6]. split; cbn; eauto. Qed.

Lemma next_seq_small g : 0 <= g -> g + 1 < 2 ^ 32 -> next_seq g = g + 1.
Proof. intros. unfold next_seq. rewrite u32_small by lia. destruct (Z.eqb_spec (g + 1) 0); [lia|done]. Qed.

Lemma cseq_pick s t r i u c ls :
  cseq s -> issued s + 1 < 2 ^ 32 -> 
  cseq (Cstate (g_ctl_ref s) u c (next_seq (g_ctl_seq s)) ls
    (<[t := CEnqueue r i (next_seq (g_ctl_seq s)) u]> (cthreads s)) (to_daemon s) (from_daemon s) (issued s + 1)).
Proof.
  intros [[S0 S1] S2 S3 S4 S5 S6] Hb. rewrite next_seq_small by lia.
  assert (Hlt : forall t k q, cthreads s !! t = Some k -> pc_seq k = Some q -> 0 < q < g_ctl_seq s + 1).
  { intros t1 k q E1 E2. pose proof (S2 t1 k q E1 E2). lia. }
  split; cbn; [lia|..|done].
  - intros t1 k q [[<- <-]|[_ E]]%lookup_insert_Some; cbn; [intros [= <-]; lia|].
    intros Hk. pose proof (Hlt t1 k q E Hk). lia.
  - intros req H. specialize (S3 req H). lia.
  - intros t1 r' j q u' [[<- E]|[_ E]]%lookup_insert_Some req Hr; [|by eapply S4].
    injection E as _ _ <- _. specialize (S3 req Hr). lia.
  - intros t1 t2 k1 k2 q [[<- <-]|[H1 E1]]%lookup_insert_Some [[<- <-]|[H2 E2]]%lookup_insert_Some Q1 Q2; cbn in *;
      [done|injection Q1 as <-; pose proof (Hlt _ _ _ E2 Q2); lia|injection Q2 as <-; pose proof (Hlt _ _ _ E1 Q1); lia|eauto].
Qed.

Lemma cseq_enqueue s t r i q u :
  cseq s -> cthreads s !! t = Some (CEnqueue r i q u) ->
  cseq (Cstate (g_ctl_ref s) (g_ctl_unit s) (g_ctl_connected s) (g_ctl_seq s) (g_ctl_slots s)
    (<[t := CWait r i q]> (cthreads s)) (to_daemon s ++ [make_req r q]) (from_daemon s) (issued s)).
Proof.
  intros Hs Et. pose proof (cseq_goto s t (CWait r i q) (g_ctl_unit s) (g_ctl_connected s) (g_ctl_slots s) Hs I) as G.
  destruct G as [G1 G2 G3 G4 G5 G6]; [right; by rewrite Et|]. cbn in *. destruct Hs as [S1 S2 S3 S4 S5 S6].
  split; cbn; [done|done| | |done|].
  - intros req [H|H]%elem_of_app; [by apply G3|]. apply list_elem_of_singleton in H as ->. cbn. by eapply (S2 t _ q Et).
  - intros t1 r' j q' u' E req [H|H]%elem_of_app; [by eapply G4|]. apply list_elem_of_singleton in H as ->. cbn. intros ->.
    apply lookup_insert_Some in E as [[_ E]|[Hne E]]; [done|]. apply Hne. by eapply (S5 t t1).
  - intros r1 r2 [H1|H1]%elem_of_app [H2|H2]%elem_of_app E; [by apply S6|..];
      [apply list_elem_of_singleton in H2 as ->|apply list_elem_of_singleton in H1 as ->|].
    + by destruct (S4 t r i q u Et r1 H1).
    + by destruct (S4 t r i q u Et r2 H2).
    + apply list_elem_of_singleton in H1 as ->, H2 as ->. done.
Qed.

Lemma cseq_return s t : cseq s -> cseq (with_slots (g_ctl_slots s) (delete t (cthreads s)) s).
Proof.
  intros [S1 S2 S3 S4 S5 S6]. split; cbn; [done| |done| | |done].
  - intros t1 k q [_ E]%lookup_delete_Some. eauto.
  - intros t1 r i q u [_ E]%lookup_delete_Some. eauto.
  - intros t1 t2 k1 k2 q [_ E1]%lookup_delete_Some [_ E2]%lookup_delete_Some. eauto.
Qed.

Lemma cseq_wait s t r i q b s' :
  cseq s -> (cthreads s !! t ≫= pc_seq) = Some q -> wait_section t r i q b s = Some s' -> cseq s' /\ issued s' = issued s.
Proof.
  intros Hs Hq. unfold wait_section. destruct (g_ctl_slots s !! i) as [sl|]; [|done].
  assert (Hgo : forall k, no_enqueue k -> pc_seq k = Some q -> cseq (cgoto t k s)).
  { intros k H1 H2. apply cseq_goto; [done|done|right; congruence]. }
  destruct (done sl); [destruct (take_result r sl)|destruct b]; intros [= <-]; (split; [by apply Hgo|done]).
Qed.

Lemma cstep_issued l s s' : cstep l s = Some s' -> issued s <= issued s'.
Proof.
  destruct l as [t r|t|u|u|m|t e|t|t]; cbn [cstep].
  - destruct (cthreads s !! t); [done|]. intros [= <-]. cbn. lia.
  - destruct (cthreads s !! t) as [k|]; [|done]. destruct k; try done. intros [= <-]. cbn. lia.
  - intros [= <-]. cbn. lia.
  - intros [= <-]. cbn. lia.
  - intros [= <-]. unfold procfs_ctl_send. destruct (_ && _); [|cbn; lia]. destruct (slot_find _ _); cbn; lia.
  - destruct (cthreads s !! t) as [k|]; [|done]. destruct k; try done. destruct (e =? 0); intros [= <-]; cbn; lia.
  - destruct (cthreads s !! t) as [k|]; [|done]. destruct k; try done. intros [= <-]. cbn. lia.
  - unfold ctl_run, wait_section. destruct (cthreads s !! t) as [k|]; [|done]. destruct k; try done.
    + intros [= <-]. cbn. lia.
    + intros [= <-]. unfold pick_slot. destruct (slot_find _ _); cbn; lia.
    + destruct (g_ctl_slots s !! slot) as [sl|]; [|done]. destruct (done sl); [destruct (take_result r sl)|]; intros [= <-]; cbn; lia.
    + destruct (g_ctl_slots s !! slot) as [sl|]; [|done]. destruct (done sl); [destruct (take_result r sl)|]; intros [= <-]; cbn; lia.
    + intros [= <-]. cbn. lia.
Qed.

Lemma cseq_send m s : cseq s -> cseq (procfs_ctl_send m s).
Proof.
  intros Hs. unfold procfs_ctl_send. destruct (_ && _); [|by apply cseq_id]. destruct (slot_find _ _) as [i|]; [|by apply cseq_id].
  apply (cseq_map s); [done|apply cwake_seq|]. intros k. destruct k; try done. cbn. by destruct (Nat.eqb i slot).
Qed.

Lemma cseq_disconnect u s : cseq s -> cseq (procfs_ctl_disconnect u s).
Proof.
  intros Hs. apply cseq_map; [done|apply wake_pending_seq|]. intros k. destruct k; try done. cbn.
  destruct (g_ctl_slots s !! slot) as [sl|]; [|done]. by destruct (pending sl).
Qed.

Lemma cseq_run t s s' : cseq s -> issued s' < 2 ^ 32 -> ctl_run t s = Some s' -> cseq s'.
Proof.
  intros Hs Hb. unfold ctl_run. destruct (cthreads s !! t) as [k|] eqn:E; [|done]. destruct k; try done.
  - intros [= <-]. apply cseq_goto; [done|by destruct (_ || _)|left; by destruct (_ || _)].
  - intros [= <-]. unfold pick_slot in *. destruct (slot_find _ _) as [i|]; [by apply cseq_pick|].
    apply cseq_goto; [done|done|by left].
  - intros Hw. eapply cseq_wait; [done| |exact Hw]. by rewrite E.
  - intros Hw. eapply cseq_wait; [done| |exact Hw]. by rewrite E.
  - intros [= <-]. apply cseq_goto; [done|done|right; by rewrite E].
Qed.

Lemma cstep_seq l s s' : cseq s -> issued s' < 2 ^ 32 -> cstep l s = Some s' -> cseq s'.
Proof.
  intros Hs Hb. destruct l as [t r|t|u|u|m|t e|t|t]; cbn [cstep].
  - destruct (cthreads s !! t) eqn:E; [done|]. intros [= <-]. apply cseq_goto; [done|done|by left].
  - destruct (cthreads s !! t) as [k|]; [|done]. destruct k; try done. intros [= <-]. by apply cseq_return.
  - intros [= <-]. by apply cseq_id.
  - intros [= <-]. by apply cseq_disconnect.
  - intros [= <-]. by apply cseq_send.
  - destruct (cthreads s !! t) as [k|] eqn:E; [|done]. destruct k as [| |r i q u| | | | |]; try done.
    destruct (Z.eqb_spec e 0); intros [= <-]; [by eapply cseq_enqueue|].
    apply cseq_goto; [done|done|right; by rewrite E].
  - destruct (cthreads s !! t) as [k|] eqn:E; [|done]. destruct k; try done. intros [= <-].
    apply cseq_goto; [done|done|right; by rewrite E].
  - by apply cseq_run.
Qed.

Lemma ctl_reach_seq s : reach cstep ctl_init s -> issued s < 2 ^ 32 -> cseq s.
Proof.
  induction 1 as [|l s s' Hr IH E]; intros Hb.
  - split; cbn; try (intros *; rewrite lookup_empty; done); [lia|set_solver|set_solver].
  - eapply cstep_seq; [|done|exact E]. apply IH. pose proof (cstep_issued l s s' E). lia.
Qed.

(** A daemon that serves the text [T] in chunks. *)
Definition serves (B : bridge) (ty : Z) (T : bytes) : Prop :=
  forall off, 0 <= off ->
    ctl_request B ty 0 off EmptyString PROCFS_CTL_MAXPAYLOAD
    = (0, take (Z.to_nat PROCFS_CTL_MAXPAYLOAD) (drop (Z.to_nat off) T)).

Lemma request_blob_loop_all B ty T fuel off sb :
  serves B ty T -> 0 <= off -> Z.of_nat (length T) < 2 ^ 63 -> off <= Z.of_nat (length T) ->
  (length T - Z.to_nat off < 2048 * fuel)%nat ->
  request_blob_loop B ty fuel off sb = Some (0, sb ++ drop (Z.to_nat off) T)%list.
Proof.
  intros Hs. revert off sb. induction fuel as [|f IH]; intros off sb H0 HT Ho Hf; [lia|].
  cbn [request_blob_loop]. rewrite (Hs off H0). cbn [Z.eqb]. set (rest := drop (Z.to_nat off) T) in *.
  assert (Hr : length rest = (length T - Z.to_nat off)%nat) by (unfold rest; by rewrite length_drop).
  assert (Hsb : forall c : bytes, (if 0 <? Z.of_nat (length c) then (sb ++ c)%list else sb) = (sb ++ c)%list).
  { intros c. destruct c; [by rewrite app_nil_r|]. by destruct (Z.ltb_spec 0 (Z.of_nat (length (z :: c)))); cbn in *; [|lia]. }
  rewrite u32_small by (rewrite length_take; unfold PROCFS_CTL_MAXPAYLOAD; lia). rewrite Hsb.
  rewrite length_take. destruct (Z.ltb_spec (Z.of_nat (Nat.min (Z.to_nat PROCFS_CTL_MAXPAYLOAD) (length rest))) PROCFS_CTL_MAXPAYLOAD) as [Hl|Hl];
    unfold PROCFS_CTL_MAXPAYLOAD in *.
  - by rewrite take_ge by lia.
  - rewrite Nat.min_l by lia. change (Z.of_nat (Z.to_nat 2048)) with 2048. rewrite u64_small by lia.
    rewrite IH by lia. f_equal. f_equal. rewrite <- app_assoc. f_equal.
    rewrite <- (take_drop (Z.to_nat 2048) rest) at 2. f_equal. unfold rest. rewrite drop_drop. f_equal. lia.
Qed.

Lemma cpu_stats_length n bs : length (cpu_stats n bs) = n.
Proof. revert bs. induction n as [|n IH]; intros bs; cbn; [done|]. by rewrite IH. Qed.

Lemma cpu_stats_lookup n bs i : (i < n)%nat ->
  cpu_stats n bs !! i = Some (CpuStat (le_val (take 8 (drop (24 * i) bs)))
    (le_val (take 8 (drop (24 * i + 8) bs))) (le_val (take 8 (drop (24 * i + 16) bs)))).
Proof.
  revert bs i. induction n as [|n IH]; intros bs i Hi; [lia|]. cbn [cpu_stats]. destruct i as [|i]; [done|].
  rewrite lookup_cons_ne_0 by done. cbn [pred]. rewrite IH by lia. rewrite !drop_drop.
  replace (24 + 24 * i)%nat with (24 * S i)%nat by lia. replace (24 + (24 * i + 8))%nat with (24 * S i + 8)%nat by lia.
  by replace (24 + (24 * i + 16))%nat with (24 * S i + 16)%nat by lia.
Qed.

Lemma repeat_lookup {A} (x : A) n i : (i < n)%nat -> repeat x n !! i = Some x.
Proof. revert i. induction n as [|n IH]; intros [|i] H; cbn; try lia; [done|]. apply IH. lia. Qed.

(** A reply packet as the daemon builds it. *)
Definition mk_reply (seq error : Z) (payload : bytes) : bytes :=
  (le_bytes 4 PROCFS_CTL_MAGIC ++ le_bytes 4 seq ++ le_bytes 4 error
   ++ le_bytes 4 (Z.of_nat (length payload)) ++ payload)%list.

Lemma take4 (z : Z) (l : bytes) : take 4 (le_bytes 4 z ++ l) = le_bytes 4 z.
Proof. reflexivity. Qed.
Lemma drop4 n (z : Z) (l : bytes) : drop (4 + n) (le_bytes 4 z ++ l) = drop n l.
Proof. reflexivity. Qed.

Lemma mk_reply_fields seq error pl :
  0 <= seq < 2 ^ 32 -> 0 <= error < 2 ^ 31 -> Z.of_nat (length pl) <= PROCFS_CTL_MAXPAYLOAD ->
  let m := mk_reply seq error pl in
  Z.of_nat (length m) = resp_size + Z.of_nat (length pl) /\ resp_magic m = PROCFS_CTL_MAGIC
  /\ resp_seq m = seq /\ resp_error m = error /\ resp_plen m = Z.of_nat (length pl) /\ resp_payload m = pl.
Proof.
  intros Hs He Hp. unfold PROCFS_CTL_MAXPAYLOAD in Hp.
  assert (Hlen : resp_plen (mk_reply seq error pl) = Z.of_nat (length pl)).
  { assert (El : resp_len (mk_reply seq error pl) = Z.of_nat (length pl)).
    { unfold resp_len, mk_reply. change 12%nat with (4 + (4 + (4 + 0)))%nat. rewrite !drop4, drop_0, take4.
      apply le_val_bytes_small. lia. }
    unfold resp_plen, PROCFS_CTL_MAXPAYLOAD. rewrite El. by destruct (Z.ltb_spec 2048 (Z.of_nat (length pl))); [lia|]. }
  cbv zeta. split_and!; [..|done|].
  - unfold mk_reply, resp_size. rewrite !length_app, !le_bytes_length. lia.
  - unfold resp_magic, mk_reply. rewrite take4. apply le_val_bytes_small. done.
  - unfold resp_seq, mk_reply. change 4%nat with (4 + 0)%nat at 2. rewrite drop4, drop_0, take4. by apply le_val_bytes_small.
  - unfold resp_error, mk_reply. change 8%nat with (4 + (4 + 0))%nat. rewrite !drop4, drop_0, take4.
    rewrite le_val_bytes_small by (change (256 ^ Z.of_nat 4) with (2 ^ 32); lia). apply i32_small. lia.
  - unfold resp_payload. rewrite Hlen. unfold mk_reply. change 16%nat with (4 + (4 + (4 + (4 + 0))))%nat.
    rewrite !drop4, drop_0, take_ge by lia. done.
Qed.

Lemma slot_find_some P ls i sl : ls !! i = Some sl -> P sl = true -> is_Some (slot_find P ls).
Proof.
  intros E HP. destruct (slot_find P ls) eqn:Ef; [done|]. apply slot_find_none in Ef.
  rewrite Forall_lookup in Ef. specialize (Ef i sl E). congruence.
Qed.

Lemma owns_seq k i q : owns k = Some (i, q) -> pc_seq k = Some q.
Proof. destruct k; cbn; intros H; congruence. Qed.

(** A sequence number identifies the slot that waits for it. *)
Lemma seq_slot s t k i q :
  cinv s -> cseq s -> cthreads s !! t = Some k -> owns k = Some (i, q) ->
  match k with CSleep _ _ _ => True | _ => False end ->
  slot_find (fun sl => pending sl && (sl_seq sl =? q)) (g_ctl_slots s) = Some i.
Proof.
  intros I S Et Eo Hsl. pose proof (ci_holds s I t k Et) as Hh. unfold pc_holds in Hh. rewrite Eo in Hh.
  destruct Hh as (sl & E1 & E2 & E3 & E4). destruct k; try done. cbn in Eo. injection Eo as -> ->.
  destruct (slot_find_some (fun sl => pending sl && (sl_seq sl =? q)) (g_ctl_slots s) i sl E1) as [j Ej].
  { unfold pending. rewrite E2, E4, E3. cbn. apply Z.eqb_refl. }
  rewrite Ej. f_equal. apply slot_find_spec in Ej as (sl' & Ej & Hp). apply andb_true_iff in Hp as [Hp Hq%Z.eqb_eq].
  apply andb_true_iff in Hp as [Hu _]. destruct (ci_held s I j sl' Ej Hu) as (t2 & k2 & q2 & Et2 & Eo2).
  pose proof (ci_holds s I t2 k2 Et2) as Hh2. unfold pc_holds in Hh2. rewrite Eo2 in Hh2.
  destruct Hh2 as (sl2 & F1 & _ & F3 & _). rewrite Ej in F1. injection F1 as <-.
  assert (t2 = t) as ->.
  { eapply (cs_one s S t2 t k2 _ q Et2 Et); [|done]. rewrite <- Hq, F3. by eapply owns_seq. }
  rewrite Et in Et2. injection Et2 as <-. cbn in Eo2. by injection Eo2.
Qed.

(** ** Properties *)

(** C22. Every slot in use is held by exactly one request in progress, and every
    request past the slot allocation holds a slot that is in use and carries
    its number: slots are neither shared nor leaked, on no error path. *)
Theorem ctl_slots_accounted s i sl :
  reach cstep ctl_init s -> g_ctl_slots s !! i = Some sl ->
  (in_use sl = true <-> exists t k q, cthreads s !! t = Some k /\ owns k = Some (i, q))
  /\ forall t1 t2 k1 k2 q1 q2, cthreads s !! t1 = Some k1 -> cthreads s !! t2 = Some k2 ->
       owns k1 = Some (i, q1) -> owns k2 = Some (i, q2) -> t1 = t2 /\ q1 = sl_seq sl.
Proof.
  intros Hr E. pose proof (ctl_reach_inv s Hr) as I. split; [split|].
  - by apply (ci_held s I).
  - intros (t & k & q & Et & Eo). pose proof (ci_holds s I t k Et) as Hh. unfold pc_holds in Hh. rewrite Eo in Hh.
    destruct Hh as (sl' & E' & ? & _). by simplify_eq.
  - intros t1 t2 k1 k2 q1 q2 E1 E2 O1 O2. split; [by eapply (ci_one s I)|].
    pose proof (ci_holds s I t1 k1 E1) as Hh. unfold pc_holds in Hh. rewrite O1 in Hh.
    destruct Hh as (sl' & E' & _ & ? & _). by simplify_eq.
Qed.

(** C4. Replies are matched to requests.  A successful request returns at most
    the bytes the caller has room for; they come from a well-formed reply that
    carries the number of this request, and are that reply's payload, cut to that
    room, provided the packet is as long as its header says (a shorter packet leaves
    bytes of an earlier reply: [short_reply_stale]); and as long as fewer than 2^32
    requests were issued, the one packet with that number sent to the daemon is the
    one made from this request. *)
Theorem ctl_reply_matches s t r q out :
  reach cstep ctl_init s -> cthreads s !! t = Some (CDone r q 0 out) -> issued s < 2 ^ 32 ->
  exists n, q = Some n /\ answered (from_daemon s) r n out /\ make_req r n ∈ to_daemon s
    /\ forall req, req ∈ to_daemon s -> q_seq req = n -> req = make_req r n.
Proof.
  intros Hr Et Hb. pose proof (ctl_reach_inv s Hr) as I. pose proof (ctl_reach_seq s Hr Hb) as S.
  pose proof (ci_said s I t _ Et) as Hs. destruct q as [n|]; [|done]. destruct (Hs eq_refl) as [H1 H2].
  exists n. split_and!; [done..|]. intros req Hq E. by apply (cs_uniq s S).
Qed.

(** C23. A reply in time is delivered: when the daemon answers a request that is
    asleep, with any payload that fits, the thread wakes up and returns
    that payload, cut to the room it has. *)
Theorem ctl_reply_delivered s t r i q payload :
  reach cstep ctl_init s -> issued s < 2 ^ 32 -> cthreads s !! t = Some (CSleep r i q) ->
  Z.of_nat (length payload) <= PROCFS_CTL_MAXPAYLOAD ->
  exists s', run cstep [CLreply (mk_reply q 0 payload); CLrun t; CLrun t] s = Some s'
    /\ cthreads s' !! t = Some (CDone r (Some q) 0 (take (Z.to_nat (rq_outcap r)) payload)).
Proof.
  intros Hr Hb Et Hp. pose proof (ctl_reach_inv s Hr) as I. pose proof (ctl_reach_seq s Hr Hb) as S.
  pose proof (cs_range s S t _ q Et eq_refl) as Hq. pose proof (cs_count s S) as [Hc _].
  destruct (mk_reply_fields q 0 payload ltac:(lia) ltac:(lia) Hp) as (F1 & F2 & F3 & F4 & F5 & F6).
  set (m := mk_reply q 0 payload) in *. destruct (ci_holds s I t _ Et) as (sl & E1 & E2 & E3 & E4).
  cbn [run cstep]. set (s1 := procfs_ctl_send m s).
  assert (Es1 : cthreads s1 !! t = Some (CWait r i q) /\ exists sl1, g_ctl_slots s1 !! i = Some sl1
            /\ done sl1 = true /\ take_result r sl1 = (0, take (Z.to_nat (rq_outcap r)) payload)).
  { unfold s1, procfs_ctl_send. rewrite F2, Z.eqb_refl. rewrite (proj2 (Z.leb_le _ _)) by lia. cbn [andb g_ctl_slots].
    rewrite F3, (seq_slot s t _ i q I S Et eq_refl Logic.I). cbn [with_slots cthreads g_ctl_slots]. rewrite lookup_fmap, Et. cbn [fmap option_fmap option_map cwake].
    rewrite Nat.eqb_refl.
    split; [done|]. rewrite list_lookup_alter_eq, E1. eexists. split; [done|]. split; [done|].
    unfold take_result. cbn [sl_error sl_len sl_buf]. rewrite F4, F5, F6. cbn [Z.eqb]. f_equal. unfold resp_whole. rewrite F5.
    destruct (Z.ltb_spec 0 (Z.of_nat (length payload))) as [H0|H0].
    - rewrite (proj2 (Z.leb_le _ _)) by (rewrite F1; done). cbn [andb]. unfold copy_into.
      destruct (Z.ltb_spec (rq_outcap r) (Z.of_nat (length payload))) as [Hl|Hl].
      + by rewrite take_app_le by lia.
      + by rewrite take_app_length', take_ge by lia.
    - assert (payload = []) as -> by (destruct payload; [done|cbn [length] in H0; lia]). rewrite take_nil.
      by destruct (Z.ltb_spec (rq_outcap r) (Z.of_nat (length (@nil Z)))); rewrite Z2Nat.nonpos by lia. }
  destruct Es1 as (Ew & sl1 & Ei & Ed & Etr). clearbody s1. unfold ctl_run at 1. rewrite Ew. unfold wait_section.
  rewrite Ei, Ed, Etr. unfold ctl_run. cbn [cgoto with_slots cthreads]. rewrite lookup_insert_eq. eexists. split; [done|].
  cbn. by rewrite lookup_insert_eq.
Qed.

(** No lost wakeup, and no waiting for a daemon that is gone: a thread is
    asleep only while its slot is unanswered, and a disconnect leaves no
    thread asleep. *)
Theorem ctl_no_lost_wakeup s t r i q unit :
  reach cstep ctl_init s -> cthreads s !! t = Some (CSleep r i q) ->
  (exists sl, g_ctl_slots s !! i = Some sl /\ done sl = false /\ in_use sl = true)
  /\ cthreads (procfs_ctl_disconnect unit s) !! t = Some (CWait r i q).
Proof.
  intros Hr Et. pose proof (ctl_reach_inv s Hr) as I. destruct (ci_holds s I t _ Et) as (sl & E1 & E2 & E3 & E4).
  split; [by exists sl|]. cbn. rewrite lookup_fmap, Et. cbn. rewrite E1. unfold pending. by rewrite E2, E4.
Qed.

(** The blob reader terminates and returns the whole text a daemon serves
    in chunks, whatever its length: [length T / 2048 + 1] rounds are enough. *)
Theorem request_blob_complete B ty T sb fuel :
  serves B ty T -> Z.of_nat (length T) < 2 ^ 63 -> (length T / 2048 < fuel)%nat ->
  procfs_ctl_request_blob B ty fuel sb = Some (0, sb ++ T)%list.
Proof.
  intros Hs HT Hf. unfold procfs_ctl_request_blob.
  rewrite (request_blob_loop_all B ty T fuel 0 sb Hs); [by rewrite drop_0|lia|done|lia|].
  change (Z.to_nat 0) with 0%nat. pose proof (Nat.div_mod_eq (length T) 2048). pose proof (Nat.mod_upper_bound (length T) 2048). lia.
Qed.

(** Per-CPU counters: the array always has one entry per CPU; the entries
    the daemon reported come first, decoded in order, and the others (all of
    them when the bridge fails) are zero. *)
Theorem cpu_stat_all_spec B ncpu e stats :
  0 <= ncpu -> procfs_cpu_stat_all B ncpu = (e, stats) ->
  length stats = Z.to_nat ncpu
  /\ (e <> 0 -> stats = repeat (CpuStat 0 0 0) (Z.to_nat ncpu))
  /\ (e = 0 -> exists buf, ctl_request B PROCFS_REQ_CPUSTAT 0 0 EmptyString 2040 = (0, buf)
        /\ forall i, (i < Z.to_nat ncpu)%nat ->
             stats !! i = Some (if decide (Z.of_nat i < Z.of_nat (length buf) / 24)
                                then CpuStat (le_val (take 8 (drop (24 * i) buf)))
                                       (le_val (take 8 (drop (24 * i + 8) buf)))
                                       (le_val (take 8 (drop (24 * i + 16) buf)))
                                else CpuStat 0 0 0)).
Proof.
  intros Hn. unfold procfs_cpu_stat_all. change (PROCFS_CTL_MAXPAYLOAD / cpu_stat_size * cpu_stat_size) with 2040.
  destruct (ctl_request B PROCFS_REQ_CPUSTAT 0 0 EmptyString 2040) as [err buf] eqn:E.
  destruct (Z.eqb_spec err 0) as [->|He]; intros [= <- <-].
  - unfold cpu_stat_size. set (have := Z.of_nat (length buf) / 24).
    assert (0 <= have) by (unfold have; apply Z.div_pos; lia).
    set (n := Z.to_nat (if have <? ncpu then have else ncpu)).
    assert (Hnn : (n <= Z.to_nat ncpu)%nat) by (unfold n; destruct (Z.ltb_spec have ncpu); lia).
    assert (Hln : length (cpu_stats n buf) = n) by apply cpu_stats_length.
    split_and!; [|done|].
    + rewrite length_app, length_drop, repeat_length, Hln. lia.
    + intros _. exists buf. split; [done|]. intros i Hi. destruct (decide (i < n)%nat) as [Hin|Hin].
      * rewrite lookup_app_l, cpu_stats_lookup by lia. rewrite decide_True; [done|].
        unfold n in Hin. destruct (Z.ltb_spec have ncpu); lia.
      * rewrite lookup_app_r, Hln by lia. rewrite decide_False by (unfold n in Hin; destruct (Z.ltb_spec have ncpu); lia).
        rewrite lookup_drop. apply repeat_lookup. lia.
  - rewrite repeat_length. split_and!; [done|done|by intros ->].
Qed.

(** ** A trace *)
Definition ask (ty : Z) : creq := Creq ty 77 0 None 2048.

(** A daemon connects; thread 1 asks and sleeps. *)
Definition ask_trace (t : tid) : list clabel := [CLcall t (ask 3); CLrun t; CLrun t; CLenqueue t 0; CLrun t].
Definition asleep_trace : list clabel := CLconnect 1 :: ask_trace 1.

Definition after (ls : list clabel) : cstate := default ctl_init (run cstep ls ctl_init).

Lemma after_reach ls : is_Some (run cstep ls ctl_init) -> reach cstep ctl_init (after ls).
Proof.
  intros [s E]. unfold after. rewrite E. eapply run_reach; [apply reach_init|exact E].
Qed.

(** A reply shorter than it claims is accepted with the claimed length:
    the request of thread 2 succeeds and returns the bytes an earlier request
    of thread 1 left in the slot, although its own reply carried none. *)
Theorem short_reply_stale :
  let tr := (CLconnect 1 :: ask_trace 1 ++ [CLreply (mk_reply 1 0 [83; 69; 67]); CLrun 1; CLrun 1]
             ++ ask_trace 2 ++ [CLreply (take 16 (mk_reply 2 0 [0; 0; 0])); CLrun 2; CLrun 2])%list in
  cthreads (after tr) !! 2%positive = Some (CDone (ask 3) (Some 2) 0 [83; 69; 67]).
Proof. vm_compute. reflexivity. Qed.

(** A disconnect is not checked against the connected unit: when a second
    daemon has taken over, the end of the first one turns the bridge off, and
    requests fail with ENOTCONN although unit 2 is still there. *)
Theorem stale_disconnect :
  let s := after [CLconnect 1; CLconnect 2; CLdisconnect 1; CLcall 1 (ask 3); CLrun 1] in
  g_ctl_unit s = 2 /\ cthreads s !! 1%positive = Some (CDone (ask 3) None ENOTCONN []).
Proof. split; vm_compute; reflexivity. Qed.

(** ** Witnesses *)
Lemma asleep_reach : reach cstep ctl_init (after asleep_trace).
Proof. apply after_reach. vm_compute. eauto. Qed.

Lemma asleep_thread : cthreads (after asleep_trace) !! 1%positive = Some (CSleep (ask 3) 0 1).
Proof. vm_compute. reflexivity. Qed.

Lemma ctl_slots_accounted_witness :
  exists sl, g_ctl_slots (after asleep_trace) !! 0%nat = Some sl
    /\ (in_use sl = true <-> exists t k q, cthreads (after asleep_trace) !! t = Some k /\ owns k = Some (0%nat, q)).
Proof.
  destruct (g_ctl_slots (after asleep_trace) !! 0%nat) as [sl|] eqn:E.
  - exists sl. split; [reflexivity|]. exact (proj1 (ctl_slots_accounted (after asleep_trace) 0 sl asleep_reach E)).
  - vm_compute in E. discriminate E.
Defined.

Definition answered_trace : list clabel := (asleep_trace ++ [CLreply (mk_reply 1 0 [7; 8]); CLrun 1; CLrun 1])%list.

Lemma ctl_reply_matches_witness :
  exists n, Some 1 = Some n /\ answered (from_daemon (after answered_trace)) (ask 3) n [7; 8]
    /\ make_req (ask 3) n ∈ to_daemon (after answered_trace)
    /\ forall req, req ∈ to_daemon (after answered_trace) -> q_seq req = n -> req = make_req (ask 3) n.
Proof.
  apply (ctl_reply_matches (after answered_trace) 1 (ask 3) (Some 1) [7; 8]).
  - apply after_reach. vm_compute. eauto.
  - vm_compute. reflexivity.
  - vm_compute. reflexivity.
Defined.

Lemma ctl_reply_delivered_witness :
  exists s', run cstep [CLreply (mk_reply 1 0 [7; 8]); CLrun 1; CLrun 1] (after asleep_trace) = Some s'
    /\ cthreads s' !! 1%positive = Some (CDone (ask 3) (Some 1) 0 (take (Z.to_nat (rq_outcap (ask 3))) [7; 8])).
Proof.
  apply (ctl_reply_delivered (after asleep_trace) 1 (ask 3) 0 1 [7; 8] asleep_reach); [vm_compute; reflexivity|exact asleep_thread|].
  vm_compute. discriminate.
Defined.

Lemma ctl_no_lost_wakeup_witness :
  cthreads (procfs_ctl_disconnect 1 (after asleep_trace)) !! 1%positive = Some (CWait (ask 3) 0 1).
Proof. exact (proj2 (ctl_no_lost_wakeup (after asleep_trace) 1 (ask 3) 0 1 1 asleep_reach asleep_thread)). Defined.

Definition chunk_server (T : bytes) : bridge :=
  Bridge (fun _ _ off _ cap => (0, take (Z.to_nat cap) (drop (Z.to_nat off) T))).

Lemma request_blob_complete_witness :
  procfs_ctl_request_blob (chunk_server (repeat 65 3000)) 9 2 [] = Some (0, [] ++ repeat 65 3000)%list.
Proof.
  apply (request_blob_complete (chunk_server (repeat 65 3000)) 9 (repeat 65 3000) [] 2).
  - intros off _. reflexivity.
  - vm_compute. reflexivity.
  - apply Nat.ltb_lt. vm_compute. reflexivity.
Defined.

Lemma cpu_stat_all_spec_witness :
  procfs_cpu_stat_all (chunk_server (concat (map (le_bytes 8) [5; 6; 7]))) 2 = (0, [CpuStat 5 6 7; CpuStat 0 0 0])
  /\ length [CpuStat 5 6 7; CpuStat 0 0 0] = 2%nat.
Proof.
  split; [vm_compute; reflexivity|].
  apply (cpu_stat_all_spec (chunk_server (concat (map (le_bytes 8) [5; 6; 7]))) 2 0 _ ltac:(lia)).
  vm_compute. reflexivity.
Defined.
