(* ===== verification/Vfsops.v ===== *)
(** * Mounting and unmounting (kext/procfs_vfsops.c)

    The state the file system keeps across mounts: the private data of each
    mount, the two counters, the node structure all mounts share and the hash
    table.  Mounts and unmounts are serialized by the VFS layer, so they are
    steps of one sequence. *)
From S2P Require Import Prelude Kernel PfsTypes Text Structure.
From Stdlib Require Import ZArith Lia String.
From stdpp Require Import base list numbers strings gmap.
Open Scope Z_scope.

Definition BLOCK_SIZE : Z := 4096.
Definition MOUNTED_DEVICE_NAME : string := "proc".
Definition HASH_BUCKET_COUNT : Z := 64.
Definition MNAMELEN : Z := 1024.

Abbreviation mptr := positive.      (* struct mount * *)

Record pfsmount := Pfsmount {
  pmnt_id : Z;                (* int32_t *)
  pmnt_flags : Z;
  pmnt_mp : mptr;
  pmnt_mount_time : Z * Z
}.

Record vfsstatfs := Vfsstatfs {
  f_bsize : Z; f_iosize : Z; f_blocks : Z; f_bfree : Z; f_bavail : Z; f_bused : Z;
  f_files : Z; f_ffree : Z;
  f_fsid : Z * Z;
  f_mntfromname : string
}.

Record vfsstate := Vfsstate {
  mounts : gmap mptr pfsmount;        (* MPTOPMP(mp), when not NULL *)
  statfs : gmap mptr vfsstatfs;       (* vfs_statfs(mp) *)
  procfs_mount_id : Z;
  mounted_instance_count : Z;
  structure : sstate;
  hash_mask : option Z                (* pfsnode_hash_buckets: none for NULL, else its mask *)
}.

(** ** Operations *)
Definition populate_statfs_info (id typenum count : Z) : vfsstatfs :=
  Vfsstatfs BLOCK_SIZE BLOCK_SIZE 0 0 0 0 0 0 (id, typenum)
    (if count =? 1 then MOUNTED_DEVICE_NAME
     else strlcpy (MOUNTED_DEVICE_NAME +:+ print_d count) (MNAMELEN - 1)).

(** [data]: none for a null address, the errno of the copyin, or the options;
    [mem]: what OSMalloc returns, as the contents of the pmnt_flags field of
    the (not cleared) block, or none if it fails. *)
Definition procfs_mount (mp : mptr) (data : option (Z + Z)) (mem : option Z) (nanotime : Z * Z)
  (typenum : Z) (s : vfsstate) : Z * vfsstate :=
  match mounts s !! mp with
  | Some _ => (0, s)
  | None =>
      let mnt_options := match data with Some (inr o) => o | _ => 0 end in
      match mem with
      | None => (ENOMEM, s)
      | Some flags =>
          let id := i32 (procfs_mount_id s + 1) in
          let count := i32 (mounted_instance_count s + 1) in
          (0, Vfsstate (<[mp := Pfsmount id flags mp nanotime]> (mounts s))
                (<[mp := populate_statfs_info id typenum count]> (statfs s))
                id count (snd (procfs_structure_init (structure s)))
                (match hash_mask s with None => Some (HASH_BUCKET_COUNT - 1) | m => m end))
      end
  end.

(** [None]: a freed structure node is accessed. *)
Definition procfs_unmount (mp : mptr) (s : vfsstate) : option (Z * vfsstate) :=
  let '(ms, sf, count) :=
    match mounts s !! mp with
    | Some _ => (delete mp (mounts s), delete mp (statfs s), i32 (mounted_instance_count s - 1))
    | None => (mounts s, statfs s, mounted_instance_count s)
    end in
  match procfs_structure_free (structure s) with
  | None => None
  | Some st => Some (0, Vfsstate ms sf (procfs_mount_id s) count st (hash_mask s))
  end.

(** The arguments procfs_root passes to procfsnode_find: the mount's id, the
    root's node id, and the structure node (none for NULL). *)
Definition procfs_root (mp : mptr) (s : vfsstate) : option (Z * pfsid * option sloc) :=
  match mounts s !! mp with
  | Some m => Some (pmnt_id m, PROCFS_ROOT_NODE_ID, root_node (structure s))
  | None => None
  end.

Record vfs_attr := VfsAttr {
  fa_objcount : Z; fa_filecount : Z; fa_dircount : Z; fa_maxobjcount : Z;
  fa_bsize : Z; fa_iosize : Z; fa_blocks : Z; fa_bfree : Z; fa_bavail : Z; fa_bused : Z;
  fa_files : Z; fa_ffree : Z; fa_fsid : Z * Z;
  fa_create_time : Z * Z; fa_modify_time : Z * Z; fa_access_time : Z * Z
}.

Definition populate_vfs_attr (mp : mptr) (s : vfsstate) : option vfs_attr :=
  match statfs s !! mp, mounts s !! mp with
  | Some sf, Some m =>
      Some (VfsAttr 0 0 0 0 BLOCK_SIZE BLOCK_SIZE 0 0 0 0 0 0 (f_fsid sf)
              (pmnt_mount_time m) (pmnt_mount_time m) (pmnt_mount_time m))
  | _, _ => None
  end.

Definition procfs_getattr (mp : mptr) (s : vfsstate) : Z * option vfs_attr := (0, populate_vfs_attr mp s).

(** ** Steps *)
Inductive vlabel :=
| VMount (mp : mptr) (data : option (Z + Z)) (mem : option Z) (now : Z * Z) (typenum : Z)
| VUnmount (mp : mptr).

Definition vstep (l : vlabel) (s : vfsstate) : option vfsstate :=
  match l with
  | VMount mp data mem now ty => Some (snd (procfs_mount mp data mem now ty s))
  | VUnmount mp => snd <$> procfs_unmount mp s
  end.

Definition vfs_boot : vfsstate := Vfsstate ∅ ∅ 0 0 sstate_boot None.

(** ** Invariant *)
Record vinv (s : vfsstate) : Prop := {
  vi_count : mounted_instance_count s = Z.of_nat (size (mounts s));
  vi_dom mp : is_Some (statfs s !! mp) <-> is_Some (mounts s !! mp);
  vi_mp mp m : mounts s !! mp = Some m -> pmnt_mp m = mp;
  vi_ids mp m : mounts s !! mp = Some m -> 0 < pmnt_id m <= procfs_mount_id s;
  vi_uniq mp1 mp2 m1 m2 : mounts s !! mp1 = Some m1 -> mounts s !! mp2 = Some m2 -> pmnt_id m1 = pmnt_id m2 -> mp1 = mp2;
  vi_fsid mp m sf : mounts s !! mp = Some m -> statfs s !! mp = Some sf -> fst (f_fsid sf) = pmnt_id m;
  vi_next : Z.of_nat (size (mounts s)) <= procfs_mount_id s;
  vi_hash m : hash_mask s = Some m -> m = 63;
  vi_mounted : mounts s <> ∅ -> is_Some (hash_mask s)
}.

Lemma mount_inv mp data mem now ty s :
  vinv s -> procfs_mount_id s < 2 ^ 31 - 1 -> vinv (snd (procfs_mount mp data mem now ty s)).
Proof.
  intros [V1 V2 V3 V4 V5 V6 V7 V8 V9] Hb. unfold procfs_mount.
  destruct (mounts s !! mp) as [m0|] eqn:E; [by split|]. destruct mem as [flags|]; [|by split]. cbn [snd].
  rewrite !i32_small by lia. assert (Hsz : size (<[mp := Pfsmount (procfs_mount_id s + 1) flags mp now]> (mounts s)) = S (size (mounts s)))
    by (by apply map_size_insert_None). split; cbn.
  - rewrite Hsz. lia.
  - intros k. destruct (decide (k = mp)) as [->|]; [rewrite !lookup_insert_eq; split; eauto|]. by rewrite !lookup_insert_ne.
  - intros k m [[<- <-]|[_ Hk]]%lookup_insert_Some; [done|eauto].
  - intros k m [[<- <-]|[_ Hk]]%lookup_insert_Some; cbn; [lia|]. specialize (V4 k m Hk). lia.
  - intros k1 k2 m1 m2 [[<- <-]|[N1 K1]]%lookup_insert_Some [[<- <-]|[N2 K2]]%lookup_insert_Some Eid; cbn in *;
      [done|specialize (V4 _ _ K2); lia|specialize (V4 _ _ K1); lia|eauto].
  - intros k m sf Hm Hs. apply lookup_insert_Some in Hm as [[<- <-]|[N Hm]].
    + rewrite lookup_insert_eq in Hs. by injection Hs as <-.
    + rewrite lookup_insert_ne in Hs by done. eauto.
  - rewrite Hsz. lia.
  - destruct (hash_mask s); [eauto|]. by intros m [= <-].
  - intros _. destruct (hash_mask s); eauto.
Qed.

Lemma unmount_inv mp s e s' : vinv s -> procfs_mount_id s < 2 ^ 31 -> procfs_unmount mp s = Some (e, s') -> vinv s'.
Proof.
  intros [V1 V2 V3 V4 V5 V6 V7 V8 V9] Hb. unfold procfs_unmount. destruct (mounts s !! mp) as [m0|] eqn:E.
  - destruct (procfs_structure_free (structure s)) as [st|]; [|done]. intros [= <- <-].
    assert (Hsz : size (mounts s) = S (size (delete mp (mounts s)))).
    { rewrite map_size_delete_Some by (by eexists). assert (size (mounts s) <> 0%nat); [|lia].
      intros H0%map_size_empty_inv. by rewrite H0 in E. }
    rewrite i32_small by lia. split; cbn.
    + lia.
    + intros k. destruct (decide (k = mp)) as [->|]; [rewrite !lookup_delete_eq; done|]. by rewrite !lookup_delete_ne.
    + intros k m [_ Hk]%lookup_delete_Some. eauto.
    + intros k m [_ Hk]%lookup_delete_Some. eauto.
    + intros k1 k2 m1 m2 [_ K1]%lookup_delete_Some [_ K2]%lookup_delete_Some. eauto.
    + intros k m sf [_ Hm]%lookup_delete_Some [_ Hs]%lookup_delete_Some. eauto.
    + lia.
    + done.
    + intros _. apply V9. intros H0. by rewrite H0 in E.
  - destruct (procfs_structure_free (structure s)) as [st|]; [|done]. intros [= <- <-]. by split.
Qed.

Lemma vstep_id_mono l s s' : vinv s -> procfs_mount_id s < 2 ^ 31 - 1 -> vstep l s = Some s' ->
  procfs_mount_id s <= procfs_mount_id s' <= procfs_mount_id s + 1.
Proof.
  intros V Hb. pose proof (vi_next s V). destruct l as [mp data mem now ty|mp]; cbn [vstep].
  - intros [= <-]. unfold procfs_mount. destruct (mounts s !! mp); [cbn; lia|]. destruct mem; [|cbn; lia].
    cbn. rewrite i32_small by lia. lia.
  - unfold procfs_unmount. destruct (mounts s !! mp); destruct (procfs_structure_free (structure s)); cbn;
      intros H1; try done; injection H1 as <-; cbn; lia.
Qed.

Lemma vrun_inv ls s s' :
  vinv s -> procfs_mount_id s + Z.of_nat (length ls) < 2 ^ 31 - 1 -> run vstep ls s = Some s' -> vinv s'.
Proof.
  revert s. induction ls as [|l ls IH]; intros s V Hb; cbn [run length]; [by intros [= <-]|].
  destruct (vstep l s) as [s1|] eqn:E; [|done]. cbn [length] in Hb.
  pose proof (vstep_id_mono l s s1 V ltac:(lia) E). apply IH; [|lia].
  destruct l as [mp data mem now ty|mp]; cbn [vstep] in E.
  - injection E as <-. apply mount_inv; [done|lia].
  - destruct (procfs_unmount mp s) as [[e s2]|] eqn:Eu; [|done]. injection E as <-. eapply unmount_inv; [done| |exact Eu]. lia.
Qed.

Lemma vfs_boot_inv : vinv vfs_boot.
Proof.
  split; cbn; try (intros *; rewrite lookup_empty; done); try done.
  intros mp. rewrite !lookup_empty. done.
Qed.

(** ** Properties *)

(** After any sequence of fewer than 2^31 - 1 mounts and unmounts, failed
    ones included: the instance count is the number of mounts, every mount has
    private data that points back to it, distinct mounts have distinct ids and
    file system ids (as every node's identity relies on), and the hash table
    exists, with 64 buckets, as soon as something is mounted. *)
Theorem mounts_accounted ls s :
  run vstep ls vfs_boot = Some s -> Z.of_nat (length ls) < 2 ^ 31 - 1 ->
  mounted_instance_count s = Z.of_nat (size (mounts s))
  /\ (forall mp m, mounts s !! mp = Some m -> pmnt_mp m = mp /\ hash_mask s = Some 63)
  /\ (forall mp1 mp2 m1 m2 f1 f2, mounts s !! mp1 = Some m1 -> mounts s !! mp2 = Some m2 ->
       statfs s !! mp1 = Some f1 -> statfs s !! mp2 = Some f2 -> mp1 <> mp2 ->
       pmnt_id m1 <> pmnt_id m2 /\ f_fsid f1 <> f_fsid f2).
Proof.
  intros Hr Hl. destruct (vrun_inv ls vfs_boot s vfs_boot_inv ltac:(cbn; lia) Hr) as [V1 V2 V3 V4 V5 V6 V7 V8 V9].
  split; [done|]. split.
  - intros mp m E. split; [eauto|]. destruct V9 as [k Ek]; [intros H0; by rewrite H0 in E|].
    rewrite Ek. f_equal. eauto.
  - intros mp1 mp2 m1 m2 f1 f2 E1 E2 S1 S2 Hne.
    assert (Hid : pmnt_id m1 <> pmnt_id m2) by eauto. split; [done|]. intros Ef. apply Hid.
    rewrite <- (V6 mp1 m1 f1), <- (V6 mp2 m2 f2) by done. by rewrite Ef.
Qed.

(** Mounting fails only for lack of memory, and then changes nothing;
    mounting what is mounted changes nothing either. *)
Theorem mount_errors mp data mem now ty s e s' :
  procfs_mount mp data mem now ty s = (e, s') ->
  (e = ENOMEM /\ mem = None /\ mounts s !! mp = None /\ s' = s)
  \/ (e = 0 /\ is_Some (mounts s !! mp) /\ s' = s)
  \/ (e = 0 /\ mounts s !! mp = None /\ is_Some (mounts s' !! mp)
      /\ structure s' = snd (procfs_structure_init (structure s))
      /\ forall k, k <> mp -> mounts s' !! k = mounts s !! k).
Proof.
  unfold procfs_mount. destruct (mounts s !! mp) as [m|] eqn:E.
  - intros [= <- <-]. right; left. split_and!; eauto.
  - destruct mem as [f|]; intros [= <- <-]; [right; right|by left]. cbn. rewrite lookup_insert_eq.
    split_and!; eauto. intros k Hk. by rewrite lookup_insert_ne.
Qed.

(** The mount options have no effect: pmnt_flags is never assigned, so
    whether access checks apply depends on what the allocated block held. *)
Theorem mount_options_ignored mp data1 data2 mem now ty s :
  procfs_mount mp data1 mem now ty s = procfs_mount mp data2 mem now ty s
  /\ forall f, mem = Some f -> mounts s !! mp = None ->
       pmnt_flags <$> mounts (snd (procfs_mount mp data1 mem now ty s)) !! mp = Some f.
Proof.
  split; [done|]. intros f -> E. unfold procfs_mount. rewrite E. cbn. by rewrite lookup_insert_eq.
Qed.

(** A state after a sequence of steps. *)
Definition vafter (ls : list vlabel) : vfsstate := default vfs_boot (run vstep ls vfs_boot).

(** Unmounting one of two mounts frees the structure both share: the other
    mount is still there, every structure node it may have cached is freed,
    and its root lookup passes a null structure node. *)
Theorem unmount_frees_shared :
  let s := vafter [VMount 1 None (Some 0) (0, 0) 9; VMount 2 None (Some 0) (0, 0) 9; VUnmount 1] in
  size (mounts s) = 1%nat /\ ss_heap (structure s) = ∅
  /\ procfs_root 2 s = Some (2, PROCFS_ROOT_NODE_ID, None).
Proof. split_and!; vm_compute; reflexivity. Qed.

(** Device names are not unique: after mounting A and B, unmounting A and
    mounting C, both B and C are called "proc2". *)
Theorem device_name_repeats :
  let s := vafter [VMount 1 None (Some 0) (0, 0) 9; VMount 2 None (Some 0) (0, 0) 9; VUnmount 1;
                   VMount 3 None (Some 0) (0, 0) 9] in
  f_mntfromname <$> statfs s !! 2%positive = Some "proc2"%string
  /\ f_mntfromname <$> statfs s !! 3%positive = Some "proc2"%string.
Proof. split; vm_compute; reflexivity. Qed.

(** ** Witnesses *)
Definition two_mounts : list vlabel :=
  [VMount 1 None (Some 0) (0, 0) 9; VMount 2 (Some (inr 1)) (Some 0) (0, 0) 9].

Lemma mounts_accounted_witness : mounted_instance_count (vafter two_mounts) = Z.of_nat (size (mounts (vafter two_mounts))).
Proof.
  destruct (run vstep two_mounts vfs_boot) as [s|] eqn:E.
  - assert (Hs : vafter two_mounts = s) by (unfold vafter; rewrite E; reflexivity). rewrite Hs.
    exact (proj1 (mounts_accounted two_mounts s E ltac:(cbn; lia))).
  - vm_compute in E. discriminate E.
Defined.

Lemma mount_errors_witness :
  procfs_mount 1 None None (0, 0) 9 vfs_boot = (ENOMEM, vfs_boot)
  /\ ((ENOMEM = ENOMEM /\ @None Z = None /\ mounts vfs_boot !! 1%positive = None /\ vfs_boot = vfs_boot)
      \/ (ENOMEM = 0 /\ is_Some (mounts vfs_boot !! 1%positive) /\ vfs_boot = vfs_boot)
      \/ (ENOMEM = 0 /\ mounts vfs_boot !! 1%positive = None /\ is_Some (mounts vfs_boot !! 1%positive)
          /\ structure vfs_boot = snd (procfs_structure_init (structure vfs_boot))
          /\ forall k, k <> 1%positive -> mounts vfs_boot !! k = mounts vfs_boot !! k)).
Proof.
  split; [reflexivity|]. exact (mount_errors 1 None None (0, 0) 9 vfs_boot ENOMEM vfs_boot eq_refl).
Defined.
