(* ===== verification/Unmount.v ===== *)
(** * The root vnode and the end of a mount (kext/procfs_vfsops.c with kext/procfs_node.c)

    procfs_root asks the node cache for the root node and gives it the function that
    creates the root vnode; procfs_unmount flushes the vnodes of the mount, each of
    which is reclaimed by the node cache's own procedure. *)
From S2P Require Import Prelude Kernel PfsTypes Structure VnodeLayer NodeCache NodeCacheInv Vfsops.
From Stdlib Require Import ZArith Lia String.
From stdpp Require Import base list numbers gmap sets.
Open Scope Z_scope.

(** struct vnode_fsparam, as far as it is filled; [None] for NULLVP. *)
Inductive vtype := VNON | VREG | VDIR | VLNK.
Record vnode_fsparam := VnodeParam {
  vnfs_mp : mptr; vnfs_vtype : vtype; vnfs_str : string; vnfs_dvp : option vptr; vnfs_fsnode : nloc; vnfs_markroot : bool; vnfs_flags : Z
}.
Definition VNFS_CANTCACHE : Z := 8.

(** [vnode_create]: zero and the vnode, or an errno and what is in the variable. *)
Definition procfs_create_root_vnode (vnode_create : vnode_fsparam -> Z * option vptr) (mp : mptr) (pnp : nloc) : Z * option vptr :=
  let '(error, root_vnode) := vnode_create (VnodeParam mp VDIR "procfs root vnode" None pnp true VNFS_CANTCACHE) in
  (error, if error =? 0 then root_vnode else None).

(** The flags that procfs_mount adds to the mount's. *)
Definition MNT_NOEXEC : Z := 4.
Definition MNT_NOSUID : Z := 8.
Definition MNT_NODEV : Z := 16.
Definition MNT_LOCAL : Z := 4096.
Definition MNT_NOATIME : Z := 268435456.
Definition vfs_setflags (flags old : Z) : Z := Z.lor old flags.
Definition mount_flags (old : Z) : Z := vfs_setflags (Z.lor MNT_NOSUID (Z.lor MNT_NOEXEC (Z.lor MNT_NODEV (Z.lor MNT_NOATIME MNT_LOCAL)))) old.

(** A mount stays writable unless the caller asked for a read-only one, and nothing on
    it can be executed, gain privileges or be a device. *)
Theorem mount_flags_right old : Z.testbit (mount_flags old) 0 = Z.testbit old 0
  /\ Forall (fun b => Z.testbit (mount_flags old) b = true) [2; 3; 4; 12; 28].
Proof.
  assert (E : forall b, 0 <= b -> Z.testbit (mount_flags old) b = Z.testbit old b || Z.testbit 268439580 b).
  { intros b Hb. unfold mount_flags, vfs_setflags. rewrite Z.lor_spec. done. }
  split; [rewrite E by lia; by rewrite orb_false_r|]. repeat constructor; rewrite E by lia; apply orb_true_r.
Qed.

(** ** After vflush *)
Section Flush.
Context {vfs : Type} `{VnodeLaws vfs}.

(** The vnodes of a mount that are alive. *)
Definition alive_on (m : Z) (s : ncache vfs) (v : vptr) : Prop :=
  vv_state (vnode_view (kern s) v) = VSalive /\ exists p n, linked (heap s) p v n /\ node_mnt_id n = m.

(** C21. Unmounting leaves no node behind: once no call is in progress and every vnode of the
    mount has been reclaimed, which is what vflush with FORCECLOSE does, the hash table
    has no node of that mount, however the calls before interleaved; so no node refers to
    the pfsmount structure that is freed next. *)
Theorem flush_empties_cache mask (k0 : vfs) s m : procfs_idle k0 -> reach (nstep mask) (ncache_init k0) s ->
  threads s = ∅ -> (forall v, ~ alive_on m s v) ->
  forall i p, p ∈ bkt (buckets s) i -> exists n, heap s !! p = Some (Some n) /\ node_mnt_id n <> m.
Proof.
  intros Hi Hr Ht Ha i p Hp. apply (reach_inv mask) in Hr as I; [|done].
  destruct (tb_in _ _ _ (i_table _ s I) i p Hp) as (key & Hk & _). unfold key_at in Hk.
  destruct (heap s !! p) as [[n|]|] eqn:Eh; [|done..]. exists n. split; [done|]. intros Hm.
  assert (Hno : forall r, ~ has (threads s) r) by (intros r (t & k & Hk' & _); rewrite Ht, lookup_empty in Hk'; done).
  pose proof (i_node _ s I p n Eh) as Hn. unfold node_ok in Hn. destruct (node_attaching_vnode n) eqn:Ea; [by destruct (Hno (RAtt p)); destruct Hn|].
  destruct Hn as (v & Hv & Hd & _). destruct (vv_state (vnode_view (kern s) v)) eqn:Es; [done| |by apply (Hno (RRec v)), (i_reclaim _ s I)].
  apply (Ha v). split; [done|]. exists p, n. done.
Qed.
End Flush.

Import Vtable.

(** Two mounts each have a node; the vnode of the first is reclaimed. *)
Definition arg_two : fargs := Fargs 2 (fa_id arg_init) (fa_snode arg_init).
Definition trace_flush : list nlabel :=
  [LCall 1 arg_init; LRun 1; LRun 1; LAlloc 1 (Some 10%positive); LRun 1; LRun 1; LCreate 1 5; LRun 1; LRun 1; LRun 1; LReturn 1;
   LCall 2 arg_two; LRun 2; LRun 2; LAlloc 2 (Some 11%positive); LRun 2; LRun 2; LCreate 2 6; LRun 2; LRun 2; LRun 2; LReturn 2;
   LReclaim 3 5; LRun 3; LRun 3; LRun 3; LRun 3].

(** Whether no node of the heap is of the mount [m]. *)
Definition mount_gone (m : Z) (s : ncache Vtable.vtable) : bool :=
  forallb (fun x => match snd x with Some n => negb (node_mnt_id n =? m) | None => true end) (map_to_list (heap s)).

Lemma mount_gone_not_alive m s v : mount_gone m s = true -> ~ alive_on m s v.
Proof.
  intros Hg (_ & p & n & (Hp & _) & Hm). unfold mount_gone in Hg. rewrite forallb_forall in Hg.
  specialize (Hg (p, Some n)). rewrite <- list_elem_of_In, elem_of_map_to_list in Hg. specialize (Hg Hp). cbn in Hg. by rewrite Hm, Z.eqb_refl in Hg.
Qed.

Lemma flush_empties_cache_witness :
  bkt (buckets (final trace_flush)) (bucket_of mask0 arg_two) = [11%positive]
  /\ exists n, heap (final trace_flush) !! 11%positive = Some (Some n) /\ node_mnt_id n <> 1.
Proof.
  split; [vm_compute; reflexivity|].
  apply (flush_empties_cache mask0 vt0 (final trace_flush) 1 vt0_idle) with (i := bucket_of mask0 arg_two);
    [apply trace_ok; vm_compute; eauto|vm_compute; reflexivity| |vm_compute; constructor].
  intros v. apply mount_gone_not_alive. vm_compute. reflexivity.
Defined.

Example flush_keeps_other : node_mnt_id <$> (heap (final trace_flush) !! 11%positive ≫= id) = Some 2.
Proof. vm_compute. reflexivity. Qed.
