(* ===== verification/Cmdline.v ===== *)
(** * Process arguments (kext/procfs_cmdline.c)

    /proc/<pid>/cmdline and environ: the argument region of a process is
    fetched from the daemon slice by slice into a buffer that grows, and its
    sections (exec path, argv, environment, apple strings) are located.
    Positions are [nat]: a region has at most 256 KiB.  A write past the end of
    the buffer would be [None]. *)
From S2P Require Import Prelude Kernel PfsTypes Text Subr.
From Stdlib Require Import ZArith Lia String.
From stdpp Require Import base list numbers strings sets.
Open Scope Z_scope.

Definition PROCFS_REQ_PROCARGS : Z := 28.
Definition PROCFS_CMDLINE_MAX : Z := 256 * 1024.
Definition PROCFS_EXEC_KEY : string := "executable_path=".
Definition SLICE : nat := 2048.               (* PROCFS_CTL_MAXPAYLOAD *)

(** [strnlen(p, n)] on the bytes [p] (all [n] of them). *)
Fixpoint strnlen (p : bytes) : nat :=
  match p with
  | [] => O
  | b :: p' => if b =? 0 then O else S (strnlen p')
  end.

(** [while (pos < n && buf[pos] == 0) pos++]: how many. *)
Fixpoint count_nuls (p : bytes) : nat :=
  match p with
  | b :: p' => if b =? 0 then S (count_nuls p') else O
  | [] => O
  end.

Section Cmdline.
Variable B : bridge.
Variable malloc_ok : Z -> bool.       (* whether an allocation of that size succeeds *)

(** The capacity the next slice needs: the old one, the grown one, or none at
    the limit.  [inl]: an errno. *)
Definition grow (cap total : Z) : Z + option Z :=
  if cap <? total + PROCFS_CTL_MAXPAYLOAD then
    let ncap := cap * 2 in
    let ncap := if PROCFS_CMDLINE_MAX <? ncap then PROCFS_CMDLINE_MAX else ncap in
    if ncap <=? total then inr None
    else if malloc_ok ncap then inr (Some ncap) else inl ENOMEM
  else inr (Some cap).

(** The loop; [buf] holds the [total] bytes fetched so far.  [None]: a slice
    does not fit the buffer, or the fuel is used up. *)
Fixpoint fetch_loop (pid : Z) (fuel : nat) (cap : Z) (buf : bytes) : option (Z * bytes) :=
  match fuel with
  | O => None
  | S f =>
      let total := Z.of_nat (length buf) in
      match grow cap total with
      | inl e => Some (e, [])
      | inr None => Some (0, buf)
      | inr (Some cap) =>
          let '(rc, slice) := ctl_request B PROCFS_REQ_PROCARGS pid total EmptyString PROCFS_CTL_MAXPAYLOAD in
          if rc =? 0 then
            let buf := (buf ++ slice)%list in
            if cap <? Z.of_nat (length buf) then None
            else if Z.of_nat (length slice) <? PROCFS_CTL_MAXPAYLOAD then Some (0, buf)
            else fetch_loop pid f cap buf
          else if total =? 0
          then Some (if (rc =? ENOTCONN) || (rc =? ETIMEDOUT) then ENOTSUP else rc, [])
          else Some (0, buf)
      end
  end.

(** At most 128 full slices fit the limit, and one more round ends the loop. *)
Definition fetch_fuel : nat := 130.

Definition procfs_fetch_procargs (pid : Z) : option (Z * bytes) :=
  if malloc_ok PROCFS_CTL_MAXPAYLOAD then
    match fetch_loop pid fetch_fuel PROCFS_CTL_MAXPAYLOAD [] with
    | None => None
    | Some (0, buf) => if Z.of_nat (length buf) =? 0 then Some (EIO, []) else Some (0, buf)
    | r => r
    end
  else Some (ENOMEM, []).

(** Where argv starts: after the exec path, its NUL and the padding. *)
Definition argv_start (buf : bytes) : nat :=
  let pos := (4 + strnlen (drop 4 buf))%nat in
  if (pos <? length buf)%nat then S pos + count_nuls (drop (S pos) buf) else pos.

(** Skipping one string: its bytes and, if there is one, its NUL. *)
Definition skip_string (buf : bytes) (pos : nat) : nat :=
  let remaining := (length buf - pos)%nat in
  let arglen := strnlen (drop pos buf) in
  (pos + if (arglen <? remaining)%nat then S arglen else arglen)%nat.

(** The loop over argc strings.  Every round advances, so [length buf] rounds
    are enough. *)
Fixpoint skip_argv (fuel : nat) (argc : Z) (buf : bytes) (pos : nat) : nat :=
  match fuel with
  | O => pos
  | S f =>
      if (0 <? argc) && (pos <? length buf)%nat
      then skip_argv f (argc - 1) buf (skip_string buf pos) else pos
  end.

Definition at_key (buf : bytes) (scan : nat) : bool :=
  bool_decide (take (String.length PROCFS_EXEC_KEY) (drop scan buf) = bytes_of_string PROCFS_EXEC_KEY).

(** The search for the first apple string. *)
Fixpoint find_apple (fuel : nat) (buf : bytes) (scan : nat) : nat :=
  match fuel with
  | O => length buf
  | S f =>
      if (scan <? length buf)%nat then
        let remaining := (length buf - scan)%nat in
        if at_key buf scan then scan
        else
          let slen := strnlen (drop scan buf) in
          if (slen =? remaining)%nat then length buf else find_apple f buf (scan + S slen)
      else length buf
  end.

(** The buffer and the three offsets. *)
Definition procfs_read_procargs (p : proc) : option (Z + bytes * nat * nat * nat) :=
  match procfs_fetch_procargs (p_pid p) with
  | None => None
  | Some (rc, buf) =>
      if rc =? 0 then
        let n := length buf in
        if (n <? 4)%nat then Some (inl EINVAL)
        else
          let argc := i32 (le_val (take 4 buf)) in
          if argc <=? 0 then Some (inl EINVAL)
          else
            let argv_off := argv_start buf in
            let env_off := skip_argv n argc buf argv_off in
            Some (inr (buf, argv_off, env_off, find_apple (S n) buf env_off))
      else Some (inl rc)
  end.

Section Read.
Context {U : Type} `{Uio U}.
Variable K : kernel.

(** "(comm)" through an 20-byte buffer. *)
Definition comm_text (p : proc) : string :=
  let comm := strlcpy (p_comm p) 17 in
  "(" +:+ (match comm with EmptyString => "unknown"%string | _ => comm end) +:+ ")".

Definition procfs_cmdline_comm (p : proc) (u : U) : option (Z * U) :=
  procfs_copy_data (Some (bytes_of_string (strlcpy (comm_text p) 20) ++ [0])%list) (strlen (comm_text p)) u.

Definition procfs_doprocargs_helper (p : proc) (u : U) : option (Z * U) :=
  match procfs_read_procargs p with
  | None => None
  | Some (inl _) => procfs_cmdline_comm p u
  | Some (inr (buf, argv_off, env_off, _)) =>
      procfs_copy_data (Some (drop argv_off buf)) (i32 (Z.of_nat env_off - Z.of_nat argv_off)) u
  end.

Definition procfs_doprocargs (id : pfsid) (u : U) : option (Z * U) :=
  match proc_find K (nodeid_pid id) with
  | None => Some (ESRCH, u)
  | Some p =>
      if uio_is_write u then Some (EOPNOTSUPP, u)
      else if p_zombie p || p_system p then procfs_cmdline_comm p u
      else procfs_doprocargs_helper p u
  end.

Definition procfs_doenviron (id : pfsid) (u : U) : option (Z * U) :=
  if uio_is_write u then Some (EOPNOTSUPP, u)
  else
    match proc_find K (nodeid_pid id) with
    | None => Some (ESRCH, u)
    | Some p =>
        if p_zombie p || p_system p then procfs_copy_data (Some [0]) 0 u
        else match procfs_read_procargs p with
             | None => None
             | Some (inl _) => procfs_copy_data (Some [0]) 0 u
             | Some (inr (buf, _, env_off, apple_off)) =>
                 procfs_copy_data (Some (drop env_off buf)) (i32 (Z.of_nat apple_off - Z.of_nat env_off)) u
             end
    end.
End Read.
End Cmdline.

(** ** Fetching *)
Definition cap_ok (cap : Z) : Prop :=
  cap = 2048 \/ cap = 4096 \/ cap = 8192 \/ cap = 16384 \/ cap = 32768 \/ cap = 65536 \/ cap = 131072 \/ cap = 262144.

Lemma grow_ok m cap k :
  cap_ok cap -> 2048 * k <= cap ->
  grow m cap (2048 * k) = inl ENOMEM
  \/ (grow m cap (2048 * k) = inr None /\ 2048 * k = PROCFS_CMDLINE_MAX)
  \/ exists cap', grow m cap (2048 * k) = inr (Some cap') /\ cap_ok cap' /\ 2048 * k + 2048 <= cap'.
Proof.
  unfold grow, PROCFS_CTL_MAXPAYLOAD, PROCFS_CMDLINE_MAX. intros Hc Hk.
  destruct (Z.ltb_spec cap (2048 * k + 2048)) as [Hl|Hl]; [|right; right; exists cap; split_and!; [done..|lia]].
  assert (Hnew : forall ncap, (cap = 131072 \/ cap < 131072) -> ncap = cap * 2 -> cap_ok ncap) by (unfold cap_ok in *; lia).
  destruct (Z.ltb_spec (256 * 1024) (cap * 2)).
  - destruct (Z.leb_spec (256 * 1024) (2048 * k)); [right; left; unfold cap_ok in *; split; [done|lia]|]. unfold cap_ok in *. lia.
  - destruct (Z.leb_spec (cap * 2) (2048 * k)); [unfold cap_ok in *; lia|].
    destruct (m (cap * 2)); [|by left]. right; right. exists (cap * 2). split; [done|]. split; [apply Hnew; unfold cap_ok in *; lia|].
    unfold cap_ok in *. lia.
Qed.

(** The loop ends, stays within the buffer and within the limit. *)
Lemma fetch_loop_total B `{BridgeLaws B} m pid fuel cap buf k :
  cap_ok cap -> Z.of_nat (length buf) = 2048 * k -> 2048 * k <= cap -> 0 <= k -> 129 - k <= Z.of_nat fuel ->
  exists e out, fetch_loop B m pid fuel cap buf = Some (e, out) /\ Z.of_nat (length out) <= PROCFS_CMDLINE_MAX.
Proof.
  revert cap buf k. induction fuel as [|f IH]; intros cap buf k Hc Hb Hk H0 Hf.
  { unfold cap_ok in Hc. lia. }
  cbn [fetch_loop]. rewrite Hb. destruct (grow_ok m cap k Hc Hk) as [->|[[-> Hm]|(cap' & -> & Hc' & Hr)]].
  - exists ENOMEM, []. split; [done|]. cbn. unfold PROCFS_CMDLINE_MAX. lia.
  - exists 0, buf. split; [done|]. lia.
  - assert (Hcm : cap' <= PROCFS_CMDLINE_MAX) by (unfold cap_ok, PROCFS_CMDLINE_MAX in *; lia).
    destruct (ctl_request B PROCFS_REQ_PROCARGS pid (2048 * k) EmptyString PROCFS_CTL_MAXPAYLOAD) as [rc slice] eqn:Er.
    destruct (Z.eqb_spec rc 0) as [->|_].
    + pose proof (ctl_request_fits _ _ _ _ _ _ Er) as Hs. unfold PROCFS_CTL_MAXPAYLOAD in *. rewrite length_app.
      destruct (Z.ltb_spec cap' (Z.of_nat (length buf + length slice))); [lia|].
      destruct (Z.ltb_spec (Z.of_nat (length slice)) 2048).
      * eexists _, _. split; [done|]. rewrite length_app. lia.
      * apply (IH cap' _ (k + 1)); [done|rewrite length_app; lia|lia|lia|lia].
    + destruct (Z.eqb_spec (2048 * k) 0); eexists _, _; (split; [done|]); [cbn; unfold PROCFS_CMDLINE_MAX; lia|lia].
Qed.

(** A daemon that serves the region [T] in slices. *)
Definition serves_args (B : bridge) (pid : Z) (T : bytes) : Prop :=
  forall off, 0 <= off -> ctl_request B PROCFS_REQ_PROCARGS pid off EmptyString PROCFS_CTL_MAXPAYLOAD
                          = (0, take 2048 (drop (Z.to_nat off) T)).

Lemma fetch_loop_serves B m pid T fuel cap k :
  serves_args B pid T -> (forall z, m z = true) ->
  cap_ok cap -> 2048 * k <= cap -> 0 <= k -> 129 - k <= Z.of_nat fuel -> 2048 * k <= Z.of_nat (length T) ->
  fetch_loop B m pid fuel cap (take (Z.to_nat (2048 * k)) T) = Some (0, take (Z.to_nat PROCFS_CMDLINE_MAX) T).
Proof.
  intros Hs Hm. revert cap k. induction fuel as [|f IH]; intros cap k Hc Hk H0 Hf HT.
  { unfold cap_ok in Hc. lia. }
  assert (Hb : Z.of_nat (length (take (Z.to_nat (2048 * k)) T)) = 2048 * k) by (rewrite length_take; lia).
  cbn [fetch_loop]. rewrite Hb. destruct (grow_ok m cap k Hc Hk) as [Hg|[[-> Hmx]|(cap' & -> & Hc' & Hr)]].
  - exfalso. revert Hg. unfold grow. rewrite Hm. repeat case_match; done.
  - by rewrite Hmx.
  - rewrite Hs by lia. cbn [Z.eqb]. unfold PROCFS_CTL_MAXPAYLOAD. set (slice := take 2048 (drop (Z.to_nat (2048 * k)) T)).
    assert (Hsl : length slice = Nat.min 2048 (length T - Z.to_nat (2048 * k))) by (unfold slice; by rewrite length_take, length_drop).
    assert (Happ : (take (Z.to_nat (2048 * k)) T ++ slice)%list = take (Z.to_nat (2048 * (k + 1))) T).
    { unfold slice. replace (Z.to_nat (2048 * (k + 1))) with (Z.to_nat (2048 * k) + 2048)%nat by lia.
      by rewrite take_take_drop. }
    rewrite Happ. assert (Hcm : cap' <= 262144) by (unfold cap_ok in Hc'; lia).
    destruct (Z.ltb_spec cap' (Z.of_nat (length (take (Z.to_nat (2048 * (k + 1))) T)))) as [Hx|_]; [rewrite length_take in Hx; lia|].
    destruct (Z.ltb_spec (Z.of_nat (length slice)) 2048) as [Hx|Hx].
    + unfold PROCFS_CMDLINE_MAX. rewrite !take_ge by lia. done.
    + apply IH; [done|lia|lia|lia|lia].
Qed.

(** ** Locating the sections *)
Lemma strnlen_le p : (strnlen p <= length p)%nat.
Proof. induction p as [|b p IH]; cbn; [lia|]. destruct (b =? 0); lia. Qed.

Lemma count_nuls_le p : (count_nuls p <= length p)%nat.
Proof. induction p as [|b p IH]; cbn; [lia|]. destruct (b =? 0); lia. Qed.

Lemma skip_string_spec buf pos : (pos < length buf)%nat -> (pos < skip_string buf pos <= length buf)%nat.
Proof.
  intros Hp. unfold skip_string. pose proof (strnlen_le (drop pos buf)) as Hl. rewrite length_drop in Hl.
  destruct (Nat.ltb_spec (strnlen (drop pos buf)) (length buf - pos)); lia.
Qed.

Lemma argv_start_le buf : (4 <= length buf)%nat -> (4 <= argv_start buf <= length buf)%nat.
Proof.
  intros Hn. unfold argv_start. pose proof (strnlen_le (drop 4 buf)) as Hl. rewrite length_drop in Hl.
  destruct (Nat.ltb_spec (4 + strnlen (drop 4 buf)) (length buf)) as [H|H]; [|lia].
  pose proof (count_nuls_le (drop (S (4 + strnlen (drop 4 buf))) buf)) as Hc. rewrite length_drop in Hc. lia.
Qed.

Lemma skip_argv_bounds fuel argc buf pos :
  (pos <= length buf)%nat -> (pos <= skip_argv fuel argc buf pos <= length buf)%nat.
Proof.
  revert argc pos. induction fuel as [|f IH]; intros argc pos Hp; cbn [skip_argv]; [lia|].
  destruct (0 <? argc); cbn [andb]; [|lia]. destruct (Nat.ltb_spec pos (length buf)); [|lia].
  pose proof (skip_string_spec buf pos). specialize (IH (argc - 1) (skip_string buf pos)). lia.
Qed.

Lemma find_apple_bounds fuel buf scan :
  (scan <= length buf)%nat -> (scan <= find_apple fuel buf scan <= length buf)%nat.
Proof.
  revert scan. induction fuel as [|f IH]; intros scan Hs; cbn [find_apple]; [lia|].
  destruct (Nat.ltb_spec scan (length buf)); [|lia]. destruct (at_key buf scan); [lia|].
  pose proof (strnlen_le (drop scan buf)) as Hl. rewrite length_drop in Hl.
  destruct (Nat.eqb_spec (strnlen (drop scan buf)) (length buf - scan)); [lia|].
  specialize (IH (scan + S (strnlen (drop scan buf)))%nat). lia.
Qed.

(** ** The layout of a region *)
Definition cstr (s : bytes) : bytes := (s ++ [0])%list.
Definition strings (ss : list bytes) : bytes := concat (map cstr ss).
Definition no_nul (s : bytes) : Prop := Forall (fun b => b <> 0) s.
Definition key : bytes := bytes_of_string PROCFS_EXEC_KEY.

(** What KERN_PROCARGS2 returns for a process. *)
Record procargs := Procargs {
  pa_path : bytes; pa_pad : nat; pa_argv : list bytes; pa_env : list bytes; pa_apple : list bytes
}.

Definition region (a : procargs) : bytes :=
  (le_bytes 4 (Z.of_nat (length (pa_argv a))) ++ cstr (pa_path a) ++ repeat 0 (pa_pad a)
   ++ strings (pa_argv a) ++ strings (pa_env a) ++ strings (pa_apple a))%list.

(** Strings without NUL, a first argument that is not empty, and the key
    exactly where the apple strings start. *)
Record procargs_ok (a : procargs) : Prop := {
  pk_path : no_nul (pa_path a);
  pk_argv : Forall no_nul (pa_argv a);
  pk_env : Forall (fun s => no_nul s /\ take 16 s <> key) (pa_env a);
  pk_first : exists s ss, pa_argv a = s :: ss /\ s <> [];
  pk_apple : pa_apple a = [] \/ exists s ss, pa_apple a = s :: ss /\ take 16 s = key;
  pk_size : Z.of_nat (length (region a)) <= PROCFS_CMDLINE_MAX
}.

Lemma strnlen_cstr s r : no_nul s -> strnlen (s ++ 0 :: r) = length s.
Proof. induction 1 as [|b s Hb _ IH]; cbn; [done|]. by rewrite (proj2 (Z.eqb_neq b 0) Hb), IH. Qed.

Lemma count_nuls_pad n r : match r with b :: _ => b <> 0 | [] => True end -> count_nuls (repeat 0 n ++ r) = n.
Proof.
  intros Hr. induction n as [|n IH]; cbn; [|by rewrite IH]. destruct r as [|b r]; [done|]. cbn.
  by rewrite (proj2 (Z.eqb_neq b 0) Hr).
Qed.

Lemma strings_cons s ss r : (strings (s :: ss) ++ r)%list = (s ++ 0 :: (strings ss ++ r))%list.
Proof. unfold strings, cstr. cbn. by rewrite <- !app_assoc. Qed.

Lemma skip_cstr buf pos s r :
  drop pos buf = (s ++ 0 :: r)%list -> no_nul s ->
  skip_string buf pos = (pos + S (length s))%nat /\ drop (pos + S (length s)) buf = r.
Proof.
  intros Hd Hs. unfold skip_string. rewrite Hd, strnlen_cstr by done.
  assert (Hl : (length buf - pos)%nat = (length s + S (length r))%nat).
  { rewrite <- length_drop, Hd, length_app. done. }
  destruct (Nat.ltb_spec (length s) (length buf - pos)); [|lia]. split; [done|].
  rewrite <- drop_drop, Hd. replace (S (length s)) with (length (s ++ [0])) by (rewrite length_app; cbn; lia).
  rewrite (cons_middle 0 s r), app_assoc. apply drop_app_length.
Qed.

Lemma skip_argv_strings fuel buf pos ss r :
  Forall no_nul ss -> drop pos buf = (strings ss ++ r)%list -> (length ss <= fuel)%nat ->
  skip_argv fuel (Z.of_nat (length ss)) buf pos = (pos + length (strings ss))%nat
  /\ drop (pos + length (strings ss)) buf = r.
Proof.
  revert pos ss. induction fuel as [|f IH]; intros pos ss Hs Hd Hf.
  - destruct ss; [|cbn in Hf; lia]. cbn. by rewrite Nat.add_0_r.
  - destruct ss as [|s ss]; [cbn; by rewrite Nat.add_0_r|]. cbn [skip_argv length] in *.
    apply Forall_cons_1 in Hs as [Hs Hss]. rewrite strings_cons in Hd.
    destruct (skip_cstr buf pos s _ Hd Hs) as [Esk Edr].
    assert (Hp : (pos < length buf)%nat).
    { assert (H0 : (0 < length (drop pos buf))%nat) by (rewrite Hd, length_app; cbn; lia). rewrite length_drop in H0. lia. }
    rewrite (proj2 (Nat.ltb_lt _ _) Hp), (proj2 (Z.ltb_lt 0 _)) by lia. cbn [andb]. rewrite Esk.
    replace (Z.of_nat (S (length ss)) - 1) with (Z.of_nat (length ss)) by lia.
    destruct (IH (pos + S (length s))%nat ss Hss Edr ltac:(lia)) as [E1 E2].
    assert (Hl : length (strings (s :: ss)) = (S (length s) + length (strings ss))%nat).
    { pose proof (f_equal length (strings_cons s ss [])) as E. rewrite !app_nil_r, length_app in E. cbn [length] in E. lia. }
    rewrite Hl. split; [rewrite E1; lia|]. etrans; [|exact E2]. f_equal. lia.
Qed.

Lemma key_in_cstr s r : take 16 (s ++ 0 :: r) = key -> take 16 s = key.
Proof.
  intros E. destruct (decide (16 <= length s)%nat) as [Hl|Hl]; [by rewrite take_app_le in E|]. exfalso.
  rewrite take_app_ge in E by lia. replace (16 - length s)%nat with (S (15 - length s)) in E by lia. cbn [take firstn] in E.
  assert (H0 : 0 ∈ key) by (rewrite <- E; set_solver).
  assert (Hk : Forall (fun b => (b =? 0) = false) key) by (vm_compute; repeat constructor).
  rewrite Forall_forall in Hk. discriminate (Hk 0 H0).
Qed.

Lemma find_apple_strings fuel buf pos ss r :
  Forall (fun s => no_nul s /\ take 16 s <> key) ss -> drop pos buf = (strings ss ++ r)%list ->
  (pos <= length buf)%nat -> r = [] \/ take 16 r = key -> (length ss < fuel)%nat ->
  find_apple fuel buf pos = (pos + length (strings ss))%nat.
Proof.
  revert pos ss. induction fuel as [|f IH]; intros pos ss Hs Hd Hle Hr Hf; [lia|]. cbn [find_apple].
  destruct ss as [|s ss].
  - change (strings []) with (@nil Z) in *. cbn [app length] in *. rewrite Nat.add_0_r.
    assert (Hl : length r = (length buf - pos)%nat) by (by rewrite <- Hd, length_drop).
    destruct Hr as [->|Hr].
    + cbn in Hl. destruct (Nat.ltb_spec pos (length buf)); lia.
    + assert (Hl16 : (16 <= length r)%nat) by (assert (length (take 16 r) = 16%nat) as E by (by rewrite Hr); rewrite length_take in E; lia).
      rewrite (proj2 (Nat.ltb_lt _ _)) by lia. unfold at_key. change (String.length PROCFS_EXEC_KEY) with 16%nat.
      by rewrite Hd, bool_decide_eq_true_2.
  - apply Forall_cons_1 in Hs as [[Hs Hk] Hss]. rewrite strings_cons in Hd.
    destruct (skip_cstr buf pos s _ Hd Hs) as [_ Edr].
    assert (Hl : (length buf - pos)%nat = (length s + S (length (strings ss ++ r)))%nat).
    { rewrite <- length_drop, Hd, length_app. done. }
    rewrite (proj2 (Nat.ltb_lt _ _)) by lia. unfold at_key. change (String.length PROCFS_EXEC_KEY) with 16%nat.
    rewrite Hd, bool_decide_eq_false_2 by (intros E; by apply Hk, (key_in_cstr s _ E)).
    rewrite strnlen_cstr by done. destruct (Nat.eqb_spec (length s) (length buf - pos)); [lia|].
    rewrite (IH (pos + S (length s))%nat ss Hss Edr ltac:(lia) Hr ltac:(cbn [length] in Hf; lia)).
    pose proof (f_equal length (strings_cons s ss [])) as E. rewrite !app_nil_r, length_app in E. cbn [length] in E. lia.
Qed.

Lemma region_split a :
  region a = (le_bytes 4 (Z.of_nat (length (pa_argv a))) ++ (pa_path a ++ 0 :: (repeat 0 (pa_pad a)
              ++ strings (pa_argv a) ++ strings (pa_env a) ++ strings (pa_apple a))))%list.
Proof. unfold region, cstr. by rewrite <- !app_assoc. Qed.

Lemma strings_length ss : (length ss <= length (strings ss))%nat.
Proof.
  unfold strings. induction ss as [|s ss IH]; cbn [map concat length]; [lia|].
  rewrite length_app. unfold cstr at 1. rewrite length_app. cbn [length]. lia.
Qed.

(** The sections of a well-formed region are found where they are. *)
Lemma region_sections a :
  procargs_ok a ->
  let buf := region a in
  let argv_off := argv_start buf in
  let env_off := skip_argv (length buf) (i32 (le_val (take 4 buf))) buf argv_off in
  0 < i32 (le_val (take 4 buf))
  /\ drop argv_off buf = (strings (pa_argv a) ++ strings (pa_env a) ++ strings (pa_apple a))%list
  /\ env_off = (argv_off + length (strings (pa_argv a)))%nat
  /\ drop env_off buf = (strings (pa_env a) ++ strings (pa_apple a))%list
  /\ find_apple (S (length buf)) buf env_off = (env_off + length (strings (pa_env a)))%nat.
Proof.
  intros [Hp Ha He Hf Hap Hsz]. cbv zeta. set (buf := region a) in *.
  assert (Hargc : i32 (le_val (take 4 buf)) = Z.of_nat (length (pa_argv a)) /\ 0 < Z.of_nat (length (pa_argv a))).
  { destruct Hf as (s & ss & Ef & _). pose proof (strings_length (pa_argv a)) as Hsl.
    assert (Hle : (length (strings (pa_argv a)) <= length buf)%nat) by (unfold buf, region; rewrite !length_app; lia).
    unfold PROCFS_CMDLINE_MAX in Hsz. split; [|rewrite Ef; cbn; lia]. unfold buf. rewrite region_split.
    rewrite (take_app_length' (le_bytes 4 _)) by (by rewrite le_bytes_length).
    rewrite le_val_bytes_small by (change (256 ^ Z.of_nat 4) with (2 ^ 32); lia). apply i32_small. lia. }
  destruct Hargc as [Eargc Hargc]. rewrite Eargc.
  set (rest := (strings (pa_argv a) ++ strings (pa_env a) ++ strings (pa_apple a))%list) in *.
  assert (Hd4 : drop 4 buf = (pa_path a ++ 0 :: (repeat 0 (pa_pad a) ++ rest))%list).
  { unfold buf. rewrite region_split. apply drop_app_length'. by rewrite le_bytes_length. }
  assert (Hlen : length buf = (4 + length (pa_path a) + 1 + pa_pad a + length rest)%nat).
  { unfold buf. rewrite region_split, !length_app, le_bytes_length. cbn [length]. rewrite length_app, repeat_length. unfold rest. lia. }
  assert (Hrest : match rest with b :: _ => b <> 0 | [] => True end).
  { destruct Hf as (s & ss & Ef & Hs). unfold rest. rewrite Ef, strings_cons. destruct s as [|b s]; [done|].
    rewrite Ef in Ha. apply Forall_cons_1 in Ha as [Ha _]. by apply Forall_cons_1 in Ha as [Hb _]. }
  assert (Hd5 : drop (S (4 + length (pa_path a))) buf = (repeat 0 (pa_pad a) ++ rest)%list).
  { replace (S (4 + length (pa_path a))) with (4 + S (length (pa_path a)))%nat by lia. rewrite <- drop_drop, Hd4.
    rewrite (cons_middle 0 (pa_path a)), app_assoc. apply drop_app_length'. rewrite length_app. cbn. lia. }
  assert (Eav : argv_start buf = (S (4 + length (pa_path a)) + pa_pad a)%nat).
  { unfold argv_start. rewrite Hd4, strnlen_cstr by done. rewrite (proj2 (Nat.ltb_lt _ _)) by lia.
    by rewrite Hd5, count_nuls_pad. }
  assert (Hdav : drop (argv_start buf) buf = rest).
  { rewrite Eav, <- drop_drop, Hd5. apply drop_app_length'. by rewrite repeat_length. }
  split_and!; [done|done|..].
  all: destruct (skip_argv_strings (length buf) buf (argv_start buf) (pa_argv a) _ Ha Hdav) as [E1 E2];
    [pose proof (strings_length (pa_argv a)); assert (length (strings (pa_argv a)) <= length rest)%nat by (unfold rest; rewrite length_app; lia); lia|].
  - exact E1.
  - rewrite E1. exact E2.
  - rewrite E1. apply (find_apple_strings _ _ _ _ (strings (pa_apple a)) He E2).
    + rewrite Eav, Hlen. unfold rest. rewrite length_app. lia.
    + destruct Hap as [->|(s & ss & -> & Hk)]; [by left|]. right.
      pose proof (strings_cons s ss []) as E. rewrite !app_nil_r in E. rewrite E, take_app_le; [done|].
      assert (length (take 16 s) = 16%nat) as El by (by rewrite Hk). rewrite length_take in El. lia.
    + pose proof (strings_length (pa_env a)). rewrite Hlen. unfold rest. rewrite !length_app. lia.
Qed.

(** A read of the first part [d] of an object. *)
Lemma copy_prefix d r off n :
  0 <= off <= Z.of_nat (length d) -> Z.of_nat (length d) < 2 ^ 31 -> 0 <= n ->
  exists u', procfs_copy_data (Some (d ++ r)%list) (i32 (Z.of_nat (length d))) (ubuf_read off n) = Some (0, u')
    /\ uio_out u' = take (Z.to_nat n) (drop (Z.to_nat off) d).
Proof.
  intros Ho Hl Hn. unfold procfs_copy_data. cbn [uio_offset ubuf_uio ub_offset ubuf_read].
  rewrite (i32_small (Z.of_nat (length d))), (i64_small (Z.of_nat (length d) - off)) by lia. rewrite i32_small by lia.
  rewrite (proj2 (Z.leb_le _ _)) by lia. unfold uiomove_at. cbn [uio_resid ubuf_uio ub_resid ubuf_read].
  rewrite length_app, (proj2 (Z.leb_le 0 off)) by lia.
  rewrite (proj2 (Z.leb_le (off + Z.min (Z.of_nat (length d) - off) n) _)) by lia. cbn [andb]. rewrite orb_true_r.
  cbn [uiomove ubuf_uio]. unfold ubuf_move. cbn [ub_fault ubuf_read ub_resid ub_out ub_offset].
  eexists. split; [done|]. cbn [uio_out ubuf_uio ub_out app].
  rewrite drop_app_le, take_app_le by (rewrite ?length_drop; lia).
  destruct (Z.min_spec (Z.of_nat (length d) - off) n) as [[Hm ->]|[Hm ->]]; [|done].
  rewrite !take_ge by (rewrite length_drop; lia). done.
Qed.

Lemma read_procargs_region B m p a :
  serves_args B (p_pid p) (region a) -> (forall z, m z = true) -> procargs_ok a ->
  exists ao eo, procfs_read_procargs B m p = Some (inr (region a, ao, eo, (eo + length (strings (pa_env a)))%nat))
    /\ eo = (ao + length (strings (pa_argv a)))%nat
    /\ drop ao (region a) = (strings (pa_argv a) ++ strings (pa_env a) ++ strings (pa_apple a))%list
    /\ drop eo (region a) = (strings (pa_env a) ++ strings (pa_apple a))%list.
Proof.
  intros Hs Hm Hok. destruct (region_sections a Hok) as (S1 & S2 & S3 & S4 & S5). pose proof (pk_size a Hok) as Hsz.
  assert (Hl4 : (4 <= length (region a))%nat) by (rewrite region_split, length_app, le_bytes_length; lia).
  assert (Ef : procfs_fetch_procargs B m (p_pid p) = Some (0, region a)).
  { unfold procfs_fetch_procargs. rewrite Hm.
    pose proof (fetch_loop_serves B m (p_pid p) (region a) fetch_fuel PROCFS_CTL_MAXPAYLOAD 0 Hs Hm
      ltac:(by left) ltac:(by vm_compute) ltac:(lia) ltac:(by vm_compute) ltac:(lia)) as E.
    change (take (Z.to_nat (2048 * 0)) (region a)) with (@nil Z) in E. rewrite E.
    rewrite take_ge by lia. by destruct (Z.eqb_spec (Z.of_nat (length (region a))) 0); [lia|]. }
  unfold procfs_read_procargs. rewrite Ef. cbn [Z.eqb]. rewrite (proj2 (Nat.ltb_ge _ _)) by lia.
  rewrite (proj2 (Z.leb_gt _ _)) by done. rewrite S5. eexists _, _. split_and!; [reflexivity|exact S3|exact S2|exact S4].
Qed.

(** ** Properties *)

(** The argument region is fetched safely from any daemon: the loop ends
    within 130 rounds, no slice is written past the buffer, at most 256 KiB
    are kept, and the section offsets are in order and inside the region
    whatever its bytes are. *)
Theorem procargs_bounds B m p :
  BridgeLaws B ->
  exists r, procfs_read_procargs B m p = Some r
    /\ forall buf argv_off env_off apple_off, r = inr (buf, argv_off, env_off, apple_off) ->
         (4 <= argv_off)%nat /\ (argv_off <= env_off)%nat /\ (env_off <= apple_off)%nat
         /\ (apple_off <= length buf)%nat /\ Z.of_nat (length buf) <= PROCFS_CMDLINE_MAX.
Proof.
  intros HB. unfold procfs_read_procargs, procfs_fetch_procargs. destruct (m PROCFS_CTL_MAXPAYLOAD).
  2: { eexists. split; [reflexivity|]. discriminate. }
  destruct (fetch_loop_total B m (p_pid p) fetch_fuel PROCFS_CTL_MAXPAYLOAD [] 0) as (e & out & -> & Hout);
    [by left|done|by vm_compute|lia|by vm_compute|].
  destruct e as [|e|e]; [|eexists; split; [reflexivity|discriminate]..].
  destruct (Z.of_nat (length out) =? 0); [eexists; split; [reflexivity|discriminate]|]. cbn [Z.eqb].
  destruct (Nat.ltb_spec (length out) 4); [eexists; split; [reflexivity|discriminate]|].
  destruct (_ <=? 0); [eexists; split; [reflexivity|discriminate]|]. eexists. split; [reflexivity|].
  intros buf ao eo po [= <- <- <- <-]. pose proof (argv_start_le out ltac:(lia)) as A.
  pose proof (skip_argv_bounds (length out) (i32 (le_val (take 4 out))) out (argv_start out) (proj2 A)) as Sk.
  pose proof (find_apple_bounds (S (length out)) out _ (proj2 Sk)) as P.
  split_and!; [apply A|apply Sk|apply P|apply P|exact Hout].
Qed.

(** C10. cmdline is the argument vector: for a live process that is not a system
    process, given memory and a region of at most 256 KiB that the daemon serves and
    whose first argument is not empty and no environment string begins with
    executable_path= (the conditions of [procargs_ok]), a read of [n] bytes at an
    offset within the section returns that part of the NUL-terminated arguments, and
    environ that part of the environment, with nothing of the neighbouring sections. *)
Theorem cmdline_roundtrip B m K id p a off n :
  proc_find K (nodeid_pid id) = Some p -> p_zombie p = false -> p_system p = false ->
  serves_args B (p_pid p) (region a) -> (forall z, m z = true) -> procargs_ok a -> 0 <= n ->
  (0 <= off <= Z.of_nat (length (strings (pa_argv a))) ->
   exists u', procfs_doprocargs B m K id (ubuf_read off n) = Some (0, u')
     /\ uio_out u' = take (Z.to_nat n) (drop (Z.to_nat off) (strings (pa_argv a))))
  /\ (0 <= off <= Z.of_nat (length (strings (pa_env a))) ->
      exists u', procfs_doenviron B m K id (ubuf_read off n) = Some (0, u')
        /\ uio_out u' = take (Z.to_nat n) (drop (Z.to_nat off) (strings (pa_env a)))).
Proof.
  intros Ep Hz Hsys Hs Hm Hok Hn. destruct (read_procargs_region B m p a Hs Hm Hok) as (ao & eo & Er & Eeo & Da & De).
  pose proof (pk_size a Hok) as Hsz. unfold PROCFS_CMDLINE_MAX in Hsz.
  assert (Hsz2 : (length (strings (pa_argv a)) + length (strings (pa_env a)) <= length (region a))%nat)
    by (unfold region; rewrite !length_app; lia).
  split; intros Ho; unfold procfs_doprocargs, procfs_doprocargs_helper, procfs_doenviron;
    rewrite Ep, Hz, Hsys, Er; cbn [orb uio_is_write ubuf_uio ub_write ubuf_read].
  - rewrite Da. replace (Z.of_nat eo - Z.of_nat ao) with (Z.of_nat (length (strings (pa_argv a)))) by lia.
    apply copy_prefix; [done|lia|done].
  - rewrite De. rewrite Nat2Z.inj_add.
    replace (Z.of_nat eo + Z.of_nat (length (strings (pa_env a))) - Z.of_nat eo)
      with (Z.of_nat (length (strings (pa_env a)))) by lia.
    apply copy_prefix; [done|lia|done].
Qed.

(** ** Witnesses *)
Definition args_bridge (T : bytes) : bridge :=
  Bridge (fun _ _ off _ cap => (0, take (Z.to_nat cap) (drop (Z.to_nat off) T))).

#[export] Instance args_bridge_laws T : BridgeLaws (args_bridge T).
Proof. split. intros ty pid arg nm cap bs [= <-]. rewrite length_take. lia. Qed.

Definition sample_args : procargs :=
  Procargs (bytes_of_string "/bin/ls") 3 [bytes_of_string "ls"; bytes_of_string "-l"]
    [bytes_of_string "HOME=/"] [bytes_of_string "executable_path=/bin/ls"].

Lemma sample_args_ok : procargs_ok sample_args.
Proof.
  split.
  - repeat constructor; discriminate.
  - repeat constructor; discriminate.
  - repeat constructor; try discriminate; intros E; vm_compute in E; discriminate E.
  - eexists _, _. split; [reflexivity|]. discriminate.
  - right. eexists _, _. split; reflexivity.
  - vm_compute. discriminate.
Qed.

Definition ls_proc : proc := Proc 42 1 42 42 (Cred 501 501 20 20) "ls" 0 0 false false.

Lemma procargs_bounds_witness :
  exists r, procfs_read_procargs (args_bridge (region sample_args)) (fun _ => true) ls_proc = Some r.
Proof.
  destruct (procargs_bounds (args_bridge (region sample_args)) (fun _ => true) ls_proc (args_bridge_laws _)) as (r & E & _).
  exists r. exact E.
Defined.

Lemma cmdline_roundtrip_witness :
  exists u', procfs_doprocargs (args_bridge (region sample_args)) (fun _ => true) (table_kernel [ls_proc] 42)
               (Pfsid 42 0 125) (ubuf_read 0 100) = Some (0, u')
    /\ uio_out u' = take (Z.to_nat 100) (drop (Z.to_nat 0) (strings (pa_argv sample_args))).
Proof.
  apply (cmdline_roundtrip (args_bridge (region sample_args)) (fun _ => true) (table_kernel [ls_proc] 42)
           (Pfsid 42 0 125) ls_proc sample_args 0 100); [reflexivity..| |reflexivity|exact sample_args_ok|lia|].
  - intros off _. reflexivity.
  - vm_compute. split; discriminate.
Defined.
