(* ===== verification/Mem.v ===== *)
(** * Process memory and the page map (kext/procfs_mem.c)

    Reads of /proc/<pid>/mem, with the offset as the virtual address, and of
    /proc/<pid>/pagemap, with eight bytes per page.  Both ask the daemon for as
    much as one payload holds, again and again, until the request is filled or
    there is nothing more.  The loops have a fuel argument; [None] is a loop
    that used it up. *)
From S2P Require Import Prelude Kernel PfsTypes Subr.
From Stdlib Require Import ZArith Lia String.
From stdpp Require Import base list numbers sets.
Open Scope Z_scope.

Definition PROCFS_REQ_MEMREAD : Z := 27.
Definition PROCFS_REQ_PAGEMAP : Z := 42.

Definition daemon_errno (rc : Z) : Z := if (rc =? ENOTCONN) || (rc =? ETIMEDOUT) then ENOTSUP else rc.

Section Mem.
Context {U : Type} `{Uio U}.
Variable B : bridge.
Variable K : kernel.
Variable creds : cred.
Variable malloc_ok : bool.
Variable PAGE_SIZE : Z.

Fixpoint mem_loop (fuel : nat) (pid : Z) (any : bool) (error : Z) (u : U) : option (Z * U) :=
  match fuel with
  | O => None
  | S f =>
      if 0 <? uio_resid u then
        let va := u64 (uio_offset u) in
        let '(rc, buf) := ctl_request B PROCFS_REQ_MEMREAD pid va EmptyString PROCFS_CTL_MAXPAYLOAD in
        let got := Z.of_nat (length buf) in
        if negb (rc =? 0) then Some (if any then error else daemon_errno rc, u)
        else if got =? 0 then Some (if any then error else EIO, u)
        else
          let move := if got <? uio_resid u then got else uio_resid u in
          let '(error, u) := uiomove buf move u in
          if negb (error =? 0) then Some (error, u)
          else if got <? PROCFS_CTL_MAXPAYLOAD then Some (error, u)
          else mem_loop f pid true error u
      else Some (error, u)
  end.

(** The guards both nodes share, and then the loop. *)
Definition guarded_read (id : pfsid) (u : U) (loop : option (Z * U)) : option (Z * U) :=
  if uio_is_write u then Some (EOPNOTSUPP, u)
  else
    match proc_find K (nodeid_pid id) with
    | None => Some (ESRCH, u)
    | Some p =>
        let error := procfs_check_can_access_process creds p in
        if negb (error =? 0) then Some (error, u)
        else if malloc_ok then loop else Some (ENOMEM, u)
    end.

Definition procfs_domem (fuel : nat) (id : pfsid) (u : U) : option (Z * U) :=
  guarded_read id u (mem_loop fuel (nodeid_pid id) false 0 u).

Fixpoint pagemap_loop (fuel : nat) (pid : Z) (any : bool) (error : Z) (u : U) : option (Z * U) :=
  match fuel with
  | O => None
  | S f =>
      if 0 <? uio_resid u then
        let off := u64 (uio_offset u) in
        let start_va := u64 (off / 8 * PAGE_SIZE) in
        let byte_in := off mod 8 in
        let '(rc, buf) := ctl_request B PROCFS_REQ_PAGEMAP pid start_va EmptyString PROCFS_CTL_MAXPAYLOAD in
        let got := Z.of_nat (length buf) in
        if negb (rc =? 0) then Some (if any then error else daemon_errno rc, u)
        else if got <=? byte_in then Some (error, u)
        else
          let avail := got - byte_in in
          let move := if avail <? uio_resid u then avail else uio_resid u in
          let '(error, u) := uiomove (drop (Z.to_nat byte_in) buf) move u in
          if negb (error =? 0) then Some (error, u) else pagemap_loop f pid true error u
      else Some (error, u)
  end.

Definition procfs_dopagemap (fuel : nat) (id : pfsid) (u : U) : option (Z * U) :=
  guarded_read id u (pagemap_loop fuel (nodeid_pid id) false 0 u).

End Mem.

(** ** Specification *)
(** The bytes from [va] on, at most [n], up to the first hole. *)
Fixpoint resident (mem : Z -> option Z) (va : Z) (n : nat) : bytes :=
  match n with
  | O => []
  | S n' => match mem va with Some b => b :: resident mem (va + 1) n' | None => [] end
  end.

(** A daemon that reads the memory [mem] of the process. *)
Definition serves_mem (B : bridge) (pid : Z) (mem : Z -> option Z) : Prop :=
  forall va, 0 <= va < 2 ^ 63 ->
    ctl_request B PROCFS_REQ_MEMREAD pid va EmptyString PROCFS_CTL_MAXPAYLOAD = (0, resident mem va 2048).

(** The bytes [off], ..., [off + n - 1] of an endless file. *)
Definition span (f : Z -> Z) (off : Z) (n : nat) : bytes := resident (fun a => Some (f a)) off n.

(** The page map as a file: byte [i] belongs to the entry of page [i / 8]. *)
Definition pagemap_byte (entry : Z -> Z) (i : Z) : Z := nth (Z.to_nat (i mod 8)) (le_bytes 8 (entry (i / 8))) 0.

(** A daemon for a process whose mappings end before page [npages]: it answers a
    page below the end with 256 entries and any other with none. *)
Definition serves_pages (B : bridge) (pid page : Z) (entry : Z -> Z) (npages : Z) : Prop :=
  forall k, 0 <= k -> k * page < 2 ^ 64 ->
    ctl_request B PROCFS_REQ_PAGEMAP pid (k * page) EmptyString PROCFS_CTL_MAXPAYLOAD
    = (0, if k <? npages then concat (map (le_bytes 8 ∘ entry) (seqZ k 256)) else []).

(** ** Lemmas *)
Lemma resident_length mem va n : (length (resident mem va n) <= n)%nat.
Proof. revert va. induction n as [|n IH]; intros va; cbn; [lia|]. destruct (mem va); cbn; [specialize (IH (va + 1))|]; lia. Qed.

Lemma resident_take mem va n k : (n <= k)%nat -> take n (resident mem va k) = resident mem va n.
Proof.
  revert va k. induction n as [|n IH]; intros va k Hk; [done|]. destruct k as [|k]; [lia|]. cbn.
  destruct (mem va); [|done]. cbn. f_equal. apply IH. lia.
Qed.

Lemma resident_full mem va n k :
  length (resident mem va n) = n -> resident mem va (n + k) = (resident mem va n ++ resident mem (va + Z.of_nat n) k)%list.
Proof.
  revert va. induction n as [|n IH]; intros va Hl.
  { change (Z.of_nat 0) with 0. by rewrite Z.add_0_r. }
  cbn in *. destruct (mem va); [|done]. cbn in *. f_equal. rewrite IH by lia. do 2 f_equal. lia.
Qed.

Lemma resident_short mem va n k : (n <= k)%nat -> (length (resident mem va n) < n)%nat -> resident mem va k = resident mem va n.
Proof.
  revert va k. induction n as [|n IH]; intros va k Hk Hl; cbn in *; [lia|]. destruct k as [|k]; [lia|]. cbn.
  destruct (mem va); [|done]. f_equal. cbn in Hl. apply IH; lia.
Qed.

Lemma resident_empty mem va n k : (0 < n)%nat -> (0 < k)%nat ->
  length (resident mem va n) = 0%nat <-> length (resident mem va k) = 0%nat.
Proof. destruct n, k; [lia..|]. intros _ _. cbn. by destruct (mem va). Qed.

Lemma mem_loop_spec B pid mem fuel any va n out :
  serves_mem B pid mem -> 0 <= va -> 0 <= n -> va + n < 2 ^ 63 -> n + 2048 <= 2048 * Z.of_nat fuel ->
  mem_loop B fuel pid any 0 (Ubuf va n false out [] false)
  = Some (if any then 0 else if (0 <? n) && (Z.of_nat (length (resident mem va (Z.to_nat n))) =? 0) then EIO else 0,
          Ubuf (va + Z.of_nat (length (resident mem va (Z.to_nat n))))
               (n - Z.of_nat (length (resident mem va (Z.to_nat n)))) false
               (out ++ resident mem va (Z.to_nat n)) [] false).
Proof.
  intros Hs. revert any va n out. induction fuel as [|f IH]; intros any va n out H0 Hn Hb Hf; [lia|].
  cbn [mem_loop uio_resid ubuf_uio ub_resid uio_offset ub_offset].
  destruct (Z.ltb_spec 0 n) as [Hp|Hp].
  2: { assert (n = 0) as -> by lia. change (Z.to_nat 0) with O. cbn [resident length]. rewrite app_nil_r.
       change (Z.of_nat 0) with 0. rewrite Z.add_0_r. by destruct any. }
  rewrite u64_small, Hs by lia. cbn [Z.eqb negb andb].
  pose proof (resident_length mem va 2048) as Hl.
  set (buf := resident mem va 2048) in *. destruct (Z.eqb_spec (Z.of_nat (length buf)) 0) as [Hz|Hz].
  { assert (Er : resident mem va (Z.to_nat n) = []).
    { apply nil_length_inv, (resident_empty mem va (Z.to_nat n) 2048); [lia|lia|]. fold buf. lia. }
    rewrite Er. cbn [length]. rewrite app_nil_r. change (Z.of_nat 0) with 0. rewrite Z.add_0_r, Z.sub_0_r.
    cbn. by destruct any. }
  cbn [uiomove ubuf_uio]. unfold ubuf_move. cbn [ub_fault ub_resid ub_offset ub_out ub_in ub_write].
  set (k := Z.min (if Z.of_nat (length buf) <? n then Z.of_nat (length buf) else n) n).
  assert (Hk : k = Z.min (Z.of_nat (length buf)) n) by (unfold k; destruct (Z.ltb_spec (Z.of_nat (length buf)) n); lia).
  cbn [Z.eqb negb].
  assert (Hne : (Z.of_nat (length (resident mem va (Z.to_nat n))) =? 0) = false).
  { apply Z.eqb_neq. intros E. apply Hz.
    enough (length buf = 0%nat) by lia. apply (resident_empty mem va 2048 (Z.to_nat n)); lia. }
  rewrite Hne. destruct (Z.ltb_spec (Z.of_nat (length buf)) PROCFS_CTL_MAXPAYLOAD) as [Hsh|Hsh]; unfold PROCFS_CTL_MAXPAYLOAD in Hsh.
  - assert (Er : resident mem va (Z.to_nat n) = take (Z.to_nat k) buf).
    { destruct (decide (n <= 2048)) as [Hle|Hle].
      - rewrite <- (resident_take mem va (Z.to_nat n) 2048) by lia. fold buf. rewrite Hk.
        destruct (Z.min_spec (Z.of_nat (length buf)) n) as [[? ->]|[? ->]]; [|done]. by rewrite !take_ge by lia.
      - rewrite (resident_short mem va 2048) by (fold buf; lia). fold buf. by rewrite take_ge by lia. }
    assert (El : Z.of_nat (length (resident mem va (Z.to_nat n))) = k) by (rewrite Er, length_take; lia).
    rewrite El, Er. by destruct any.
  - rewrite IH by lia. assert (Hfull : length buf = 2048%nat) by lia.
    assert (Er : resident mem va (Z.to_nat n) = (take (Z.to_nat k) buf ++ resident mem (va + k) (Z.to_nat (n - k)))%list).
    { destruct (decide (n <= 2048)) as [Hle|Hle].
      - replace k with n by lia. replace (n - n) with 0 by lia. cbn [Z.to_nat resident]. rewrite app_nil_r.
        by rewrite <- (resident_take mem va (Z.to_nat n) 2048) by lia.
      - replace k with 2048 by lia. replace (Z.to_nat n) with (2048 + Z.to_nat (n - 2048))%nat at 1 by lia.
        rewrite resident_full by done. fold buf. by rewrite (take_ge buf) by (change (Z.to_nat 2048) with 2048%nat; lia). }
    assert (El : Z.of_nat (length (resident mem va (Z.to_nat n))) = k + Z.of_nat (length (resident mem (va + k) (Z.to_nat (n - k))))).
    { rewrite Er, length_app, length_take. lia. }
    rewrite El, Er, app_assoc. f_equal. f_equal; [by destruct any|]. f_equal; lia.
Qed.

Lemma span_length f off n : length (span f off n) = n.
Proof. unfold span. revert off. induction n as [|n IH]; intros off; cbn; [done|]. by rewrite IH. Qed.

Lemma span_app f off n k : span f off (n + k) = (span f off n ++ span f (off + Z.of_nat n) k)%list.
Proof. apply resident_full, span_length. Qed.

Lemma span_take f off n k : (n <= k)%nat -> take n (span f off k) = span f off n.
Proof. apply resident_take. Qed.

Lemma span_drop f off n k : (n <= k)%nat -> drop n (span f off k) = span f (off + Z.of_nat n) (k - n).
Proof.
  intros Hn. replace k with (n + (k - n))%nat at 1 by lia. rewrite span_app, drop_app_length'; [done|by rewrite span_length].
Qed.

Lemma span_seq f off n : span f off n = map (fun i => f (off + Z.of_nat i)) (seq 0 n).
Proof.
  revert off. induction n as [|n IH]; intros off; [done|]. rewrite <- cons_seq, <- fmap_S_seq. unfold span in *. cbn [resident map].
  rewrite IH, Z.add_0_r. f_equal. rewrite <- list_fmap_compose. apply list_fmap_ext. intros i x _. unfold compose. f_equal. lia.
Qed.

Lemma pagemap_bytes entry k n : 0 <= k ->
  concat (map (le_bytes 8 ∘ entry) (seqZ k (Z.of_nat n))) = span (pagemap_byte entry) (8 * k) (8 * n).
Proof.
  revert k. induction n as [|n IH]; intros k Hk; [done|].
  rewrite seqZ_cons by lia. cbn [map concat]. replace (Z.pred (Z.of_nat (S n))) with (Z.of_nat n) by lia.
  rewrite IH by lia. replace (8 * S n)%nat with (8 + 8 * n)%nat by lia. rewrite span_app. f_equal; [|f_equal; lia].
  assert (Hb : forall i, 0 <= i < 8 -> pagemap_byte entry (8 * k + i) = nth (Z.to_nat i) (le_bytes 8 (entry k)) 0).
  { intros i Hi. unfold pagemap_byte.
    by rewrite (Z.mul_comm 8 k), (Z.add_comm (k * 8)), Z.div_add, Z.mod_add, Z.div_small, Z.mod_small by lia. }
  rewrite span_seq. cbn [seq map]. rewrite !Hb by lia. reflexivity.
Qed.

Lemma pagemap_loop_spec B pid page entry npages fuel any off n out :
  serves_pages B pid page entry npages -> 0 < page -> 0 <= off -> 0 <= n -> off + n < 2 ^ 63 ->
  (off + n) / 8 * page < 2 ^ 64 -> n < Z.of_nat fuel ->
  exists m, 0 <= m <= n /\ (m < n -> 8 * npages <= off + m) /\ (8 * npages <= off -> m = 0)
    /\ pagemap_loop B page fuel pid any 0 (Ubuf off n false out [] false)
       = Some (0, Ubuf (off + m) (n - m) false (out ++ span (pagemap_byte entry) off (Z.to_nat m)) [] false).
Proof.
  intros Hs Hpage. revert any off n out. induction fuel as [|f IH]; intros any off n out H0 Hn Hb Hw Hf; [lia|].
  cbn [pagemap_loop uio_resid ubuf_uio ub_resid uio_offset ub_offset]. destruct (Z.ltb_spec 0 n) as [Hp|Hp].
  2: { exists 0. split_and!; [lia..|]. change (Z.to_nat 0) with O. unfold span. cbn [resident]. by rewrite app_nil_r, Z.add_0_r, Z.sub_0_r. }
  pose proof (Z.div_mod off 8 ltac:(lia)) as Hdm. pose proof (Z.mod_pos_bound off 8 ltac:(lia)) as Hm.
  assert (H8 : 0 <= off / 8) by (apply Z.div_pos; lia).
  assert (Hva : off / 8 * page < 2 ^ 64).
  { eapply Z.le_lt_trans; [|exact Hw]. apply Z.mul_le_mono_nonneg_r; [lia|]. apply Z.div_le_mono; lia. }
  assert (Hva0 : 0 <= off / 8 * page) by (apply Z.mul_nonneg_nonneg; lia).
  rewrite (u64_small off), u64_small, Hs by lia. cbn [Z.eqb negb]. destruct (Z.ltb_spec (off / 8) npages) as [Hlt|Hge].
  2: { cbn [length]. destruct (Z.leb_spec (Z.of_nat 0) (off mod 8)) as [_|]; [|lia]. exists 0. split_and!; [lia..|].
       change (Z.to_nat 0) with O. unfold span. cbn [resident]. by rewrite app_nil_r, Z.add_0_r, Z.sub_0_r. }
  change 256 with (Z.of_nat 256). rewrite pagemap_bytes by done. change (8 * 256)%nat with 2048%nat. rewrite span_length, span_drop by lia.
  destruct (Z.leb_spec (Z.of_nat 2048) (off mod 8)) as [|_]; [lia|].
  replace (8 * (off / 8) + Z.of_nat (Z.to_nat (off mod 8))) with off by lia.
  cbn [uiomove ubuf_uio]. unfold ubuf_move. cbn [ub_fault ub_resid ub_offset ub_out ub_in ub_write].
  set (k := Z.min (if Z.of_nat 2048 - off mod 8 <? n then Z.of_nat 2048 - off mod 8 else n) n).
  assert (Hk : k = Z.min (2048 - off mod 8) n) by (unfold k; destruct (Z.ltb_spec (Z.of_nat 2048 - off mod 8) n); lia).
  rewrite span_take by lia. cbn [Z.eqb negb].
  destruct (IH true (off + k) (n - k) (out ++ span (pagemap_byte entry) off (Z.to_nat k))%list) as (m & Hm1 & Hm2 & Hm3 & E);
    [lia|lia|lia|by replace (off + k + (n - k)) with (off + n) by lia|lia|].
  exists (k + m). split_and!; [lia..|lia|]. rewrite E. rewrite <- app_assoc.
  replace (Z.to_nat (k + m)) with (Z.to_nat k + Z.to_nat m)%nat by lia. rewrite span_app.
  do 2 f_equal. f_equal; [lia|lia|]. do 3 f_equal. lia.
Qed.

Lemma mem_loop_returns {U} `{UioLaws U} B pid fuel any e (u : U) :
  uio_resid u < Z.of_nat fuel -> 0 <= uio_resid u -> exists r, mem_loop B fuel pid any e u = Some r.
Proof.
  revert any e u. induction fuel as [|f IH]; intros any e u Hf H0'; [lia|]. cbn [mem_loop].
  destruct (Z.ltb_spec 0 (uio_resid u)) as [Hp|]; [|by eexists].
  destruct (ctl_request B _ _ _ _ _) as [rc buf]. destruct (negb (rc =? 0)); [by eexists|].
  destruct (Z.eqb_spec (Z.of_nat (length buf)) 0) as [|Hz]; [by eexists|].
  destruct (uiomove buf _ u) as [err u'] eqn:E. destruct (Z.eqb_spec err 0) as [->|]; [|by eexists]. cbn [negb].
  destruct (_ <? PROCFS_CTL_MAXPAYLOAD); [by eexists|].
  set (k := if _ <? _ then _ else _) in E. assert (Hk : 0 < k) by (unfold k; destruct (_ <? _); lia).
  destruct (uiomove_ok _ _ _ _ (Z.lt_le_incl _ _ Hk) H0' E) as (_ & _ & Er & _). apply IH; lia.
Qed.

Lemma pagemap_loop_returns {U} `{UioLaws U} B page pid fuel any e (u : U) :
  uio_resid u < Z.of_nat fuel -> 0 <= uio_resid u -> exists r, pagemap_loop B page fuel pid any e u = Some r.
Proof.
  revert any e u. induction fuel as [|f IH]; intros any e u Hf H0'; [lia|]. cbn [pagemap_loop].
  destruct (Z.ltb_spec 0 (uio_resid u)) as [Hp|]; [|by eexists].
  destruct (ctl_request B _ _ _ _ _) as [rc buf]. destruct (negb (rc =? 0)); [by eexists|].
  destruct (Z.leb_spec (Z.of_nat (length buf)) (u64 (uio_offset u) mod 8)) as [|Hz]; [by eexists|].
  destruct (uiomove _ _ u) as [err u'] eqn:E. destruct (Z.eqb_spec err 0) as [->|]; [|by eexists]. cbn [negb].
  set (k := if _ <? _ then _ else _) in E. assert (Hk : 0 < k) by (unfold k; destruct (_ <? _); lia).
  destruct (uiomove_ok _ _ _ _ (Z.lt_le_incl _ _ Hk) H0' E) as (_ & _ & Er & _). apply IH; lia.
Qed.

Lemma guarded_read_passes {U} `{Uio U} K creds id p (u : U) loop :
  uio_is_write u = false -> proc_find K (nodeid_pid id) = Some p -> procfs_check_can_access_process creds p = 0 ->
  guarded_read K creds true id u loop = loop.
Proof. intros Hw Ep Ea. unfold guarded_read. by rewrite Hw, Ep, Ea. Qed.

(** ** Theorems *)
(** Reads of mem and of pagemap always return, whatever the daemon
    answers and whenever the caller's buffer faults: every round but the last
    moves at least one byte, so one round more than there are bytes asked for is
    enough. *)
Theorem memory_reads_return {U} `{UioLaws U} B K creds malloc_ok page id fuel (u : U) :
  0 <= uio_resid u < Z.of_nat fuel ->
  (exists r, procfs_domem B K creds malloc_ok fuel id u = Some r)
  /\ (exists r, procfs_dopagemap B K creds malloc_ok page fuel id u = Some r).
Proof.
  intros Hf. unfold procfs_domem, procfs_dopagemap, guarded_read.
  destruct (uio_is_write u); [split; by eexists|]. destruct (proc_find K _); [|split; by eexists].
  destruct (negb _); [split; by eexists|]. destruct malloc_ok; [|split; by eexists].
  split; [apply mem_loop_returns|apply pagemap_loop_returns]; lia.
Qed.

(** C9. A permitted read of mem returns exactly the resident bytes from the
    address on, up to the number asked for or to the first hole, whichever comes
    first, across any number of daemon replies; it fails, with EIO, exactly when
    bytes were asked for and the first one is not resident. *)
Theorem domem_reads B K creds id p mem va n fuel :
  proc_find K (nodeid_pid id) = Some p -> procfs_check_can_access_process creds p = 0 ->
  serves_mem B (nodeid_pid id) mem -> 0 <= va -> 0 <= n -> va + n < 2 ^ 63 -> n + 2048 <= 2048 * Z.of_nat fuel ->
  exists u', procfs_domem B K creds true fuel id (ubuf_read va n)
             = Some (if (0 <? n) && negb (bool_decide (is_Some (mem va))) then EIO else 0, u')
    /\ uio_out u' = resident mem va (Z.to_nat n)
    /\ uio_offset u' = va + Z.of_nat (length (resident mem va (Z.to_nat n))).
Proof.
  intros Ep Ea Hs H0 Hn Hb Hf. unfold procfs_domem. rewrite (guarded_read_passes K creds id p) by done.
  assert (Ee : (0 <? n) && (Z.of_nat (length (resident mem va (Z.to_nat n))) =? 0) = (0 <? n) && negb (bool_decide (is_Some (mem va)))).
  { destruct (Z.ltb_spec 0 n) as [Hp|]; [|done]. cbn [andb].
    destruct (Z.to_nat n) as [|k] eqn:Ek; [lia|]. cbn [resident]. destruct (mem va); [|done].
    by rewrite bool_decide_true by (by eexists). }
  unfold ubuf_read. rewrite (mem_loop_spec B _ mem), Ee by done. eexists. split; [reflexivity|split; reflexivity].
Qed.

(** C40. A permitted read of pagemap returns a prefix of the table of
    eight-byte entries, from the offset on, also when the offset or the length is
    not a multiple of eight and when the table takes many daemon replies: it is
    short only when it reached the last mapped page, and empty past it. *)
Theorem pagemap_reads B K creds id p page entry npages off n fuel :
  proc_find K (nodeid_pid id) = Some p -> procfs_check_can_access_process creds p = 0 ->
  serves_pages B (nodeid_pid id) page entry npages -> 0 < page -> 0 <= off -> 0 <= n -> off + n < 2 ^ 63 ->
  (off + n) / 8 * page < 2 ^ 64 -> n < Z.of_nat fuel ->
  exists u' m, procfs_dopagemap B K creds true page fuel id (ubuf_read off n) = Some (0, u')
    /\ uio_out u' = span (pagemap_byte entry) off (Z.to_nat m)
    /\ 0 <= m <= n /\ (m < n -> 8 * npages <= off + m) /\ (8 * npages <= off -> m = 0).
Proof.
  intros Ep Ea Hs Hp H0 Hn Hb Hw Hf. unfold procfs_dopagemap. rewrite (guarded_read_passes K creds id p) by done.
  destruct (pagemap_loop_spec B (nodeid_pid id) page entry npages fuel false off n [] Hs Hp H0 Hn Hb Hw Hf) as (m & H1 & H2 & H3 & E).
  unfold ubuf_read. rewrite E. eexists _, m. split_and!; [reflexivity|reflexivity|lia..|done|done].
Qed.

(** C38. Nobody reads the memory of a process without access to it, and every refusal
    has its errno: a write is EOPNOTSUPP, a process that is gone ESRCH, one of another
    user and group EACCES, a lack of memory ENOMEM, in this order; the caller's buffer is
    left as it was, and the daemon is asked nothing: the result is the same for every
    daemon. *)
Theorem memory_guards {U} `{Uio U} K creds malloc_ok page id fuel (u : U) :
  let refused e := forall B, procfs_domem B K creds malloc_ok fuel id u = Some (e, u)
                             /\ procfs_dopagemap B K creds malloc_ok page fuel id u = Some (e, u) in
  (uio_is_write u = true -> refused EOPNOTSUPP)
  /\ (uio_is_write u = false -> proc_find K (nodeid_pid id) = None -> refused ESRCH)
  /\ (forall p, uio_is_write u = false -> proc_find K (nodeid_pid id) = Some p ->
        cr_uid creds <> cr_uid (p_cred p) -> cr_uid creds <> cr_ruid (p_cred p) ->
        cr_gid creds <> cr_gid (p_cred p) -> cr_gid creds <> cr_rgid (p_cred p) -> refused EACCES)
  /\ (forall p, uio_is_write u = false -> proc_find K (nodeid_pid id) = Some p -> malloc_ok = false ->
        cr_uid creds = cr_uid (p_cred p) \/ cr_uid creds = cr_ruid (p_cred p)
        \/ cr_gid creds = cr_gid (p_cred p) \/ cr_gid creds = cr_rgid (p_cred p) -> refused ENOMEM).
Proof.
  cbv zeta. unfold procfs_domem, procfs_dopagemap, guarded_read. split_and!.
  - by intros ->.
  - by intros -> ->.
  - intros p -> -> H1 H2 H3 H4 B. unfold procfs_check_can_access_process.
    by rewrite (proj2 (Z.eqb_neq _ _) H1), (proj2 (Z.eqb_neq _ _) H2), (proj2 (Z.eqb_neq _ _) H3), (proj2 (Z.eqb_neq _ _) H4).
  - intros p -> -> -> Ha B.
    assert (E : procfs_check_can_access_process creds p = 0).
    { unfold procfs_check_can_access_process.
      destruct (Z.eqb_spec (cr_uid creds) (cr_uid (p_cred p))), (Z.eqb_spec (cr_uid creds) (cr_ruid (p_cred p))),
        (Z.eqb_spec (cr_gid creds) (cr_gid (p_cred p))), (Z.eqb_spec (cr_gid creds) (cr_rgid (p_cred p))); try done. by destruct Ha as [|[|[|]]]. }
    by rewrite E.
Qed.

(** The address of the page is computed in 64 bits: with 16 KiB pages the
    offset 2^53 asks the daemon for page 0, so that a read which lies far past the
    last page returns the first entries instead of nothing. *)
Theorem pagemap_offset_wraps B K creds id p entry npages n fuel :
  proc_find K (nodeid_pid id) = Some p -> procfs_check_can_access_process creds p = 0 ->
  serves_pages B (nodeid_pid id) 16384 entry npages -> 0 < npages -> 0 < n <= 8 -> n < Z.of_nat fuel ->
  exists u', procfs_dopagemap B K creds true 16384 fuel id (ubuf_read (2 ^ 53) n) = Some (0, u')
    /\ uio_out u' = span (pagemap_byte entry) 0 (Z.to_nat n).
Proof.
  intros Ep Ea Hs Hnp Hn Hf. unfold procfs_dopagemap. rewrite (guarded_read_passes K creds id p) by done.
  destruct fuel as [|f]; [lia|]. cbn [pagemap_loop ubuf_read uio_resid uio_offset ubuf_uio ub_resid ub_offset].
  destruct (Z.ltb_spec 0 n) as [_|]; [|lia]. change (u64 (2 ^ 53) mod 8) with 0.
  change (u64 (u64 (2 ^ 53) / 8 * 16384)) with (0 * 16384). rewrite Hs by done.
  destruct (Z.ltb_spec 0 npages) as [_|]; [|lia]. change 256 with (Z.of_nat 256). rewrite pagemap_bytes by done.
  change (8 * 256)%nat with 2048%nat. change (8 * 0) with 0. change (drop (Z.to_nat 0) ?l) with l. rewrite span_length.
  cbn [Z.eqb negb]. destruct (Z.leb_spec (Z.of_nat 2048) 0) as [|_]; [lia|].
  cbn [uiomove ubuf_uio]. unfold ubuf_move. cbn [ub_fault ub_resid ub_offset ub_out ub_in ub_write].
  set (k := if _ <? n then _ else n). assert (k = n) as -> by (unfold k; destruct (Z.ltb_spec (Z.of_nat 2048 - 0) n); lia).
  rewrite Z.min_id. cbn [ubuf_read ub_resid]. rewrite span_take by lia. rewrite Z.sub_diag. cbn [Z.eqb negb].
  destruct f as [|f]; [lia|]. cbn [pagemap_loop uio_resid ubuf_uio ub_resid Z.ltb Z.compare]. eexists. split; reflexivity.
Qed.

(** ** Witnesses *)
Definition mem_proc : proc := Proc 42 1 42 42 (Cred 501 501 20 20) "cat" 0 0 false false.
Definition mem_kernel : kernel := table_kernel [mem_proc] 42.
Definition mem_id : pfsid := Pfsid 42 0 0.

(** 3000 resident bytes from address 4096 on. *)
Definition sample_mem (va : Z) : option Z := if (4096 <=? va) && (va <? 7096) then Some (va mod 256) else None.

Definition mem_bridge (mem : Z -> option Z) : bridge :=
  Bridge (fun _ _ va _ cap => (0, resident mem va (Z.to_nat cap))).

Definition page_bridge (page : Z) (entry : Z -> Z) (npages : Z) : bridge :=
  Bridge (fun _ _ va _ _ =>
    (0, if va / page <? npages then concat (map (le_bytes 8 ∘ entry) (seqZ (va / page) 256)) else [])).

Lemma page_bridge_serves pid page entry npages : 0 < page -> serves_pages (page_bridge page entry npages) pid page entry npages.
Proof. intros Hp k Hk Hw. cbn [ctl_request page_bridge]. by rewrite Z.div_mul by lia. Qed.

Definition sample_pages : bridge := page_bridge 16384 (fun k => k + 5) 300.

Lemma memory_reads_return_witness :
  exists r, procfs_domem (mem_bridge sample_mem) mem_kernel (p_cred mem_proc) true 51 mem_id (ubuf_read 4096 50) = Some r.
Proof.
  pose proof (memory_reads_return (mem_bridge sample_mem) mem_kernel (p_cred mem_proc) true 16384 mem_id 51 (ubuf_read 4096 50)
    ltac:(split; [discriminate|reflexivity])) as [E _].
  exact E.
Defined.

Lemma domem_reads_witness :
  exists u', procfs_domem (mem_bridge sample_mem) mem_kernel (p_cred mem_proc) true 4 mem_id (ubuf_read 4096 5000) = Some (0, u')
    /\ length (uio_out u') = 3000%nat.
Proof.
  destruct (domem_reads (mem_bridge sample_mem) mem_kernel (p_cred mem_proc) mem_id mem_proc sample_mem 4096 5000 4)
    as (u' & E & Eo & _); [reflexivity|reflexivity|intros va _; reflexivity|lia|lia|lia|lia|].
  exists u'. split; [exact E|]. rewrite Eo. vm_compute. reflexivity.
Defined.

Lemma pagemap_reads_witness :
  exists u', procfs_dopagemap sample_pages mem_kernel (p_cred mem_proc) true 16384 21 mem_id (ubuf_read 9 20) = Some (0, u')
    /\ uio_out u' = [0; 0; 0; 0; 0; 0; 0; 7; 0; 0; 0; 0; 0; 0; 0; 8; 0; 0; 0; 0].
Proof.
  destruct (pagemap_reads sample_pages mem_kernel (p_cred mem_proc) mem_id mem_proc 16384 (fun k => k + 5) 300 9 20 21)
    as (u' & m & E & Eo & Hm & Hs & _); [reflexivity|reflexivity|by apply page_bridge_serves|lia|lia|lia|lia|by vm_compute|lia|].
  exists u'. split; [exact E|]. assert (m = 20) as -> by lia. rewrite Eo. vm_compute. reflexivity.
Defined.

Lemma memory_guards_witness :
  procfs_domem (mem_bridge sample_mem) mem_kernel (Cred 502 502 21 21) true 4 mem_id (ubuf_read 4096 5000) = Some (EACCES, ubuf_read 4096 5000)
  /\ procfs_domem (mem_bridge sample_mem) mem_kernel (p_cred mem_proc) false 4 mem_id (ubuf_read 4096 5000) = Some (ENOMEM, ubuf_read 4096 5000).
Proof.
  destruct (memory_guards mem_kernel (Cred 502 502 21 21) true 16384 mem_id 4 (ubuf_read 4096 5000)) as (_ & _ & Ha & _).
  destruct (memory_guards mem_kernel (p_cred mem_proc) false 16384 mem_id 4 (ubuf_read 4096 5000)) as (_ & _ & _ & Hm).
  split.
  - exact (proj1 (Ha mem_proc eq_refl eq_refl ltac:(vm_compute; discriminate) ltac:(vm_compute; discriminate)
      ltac:(vm_compute; discriminate) ltac:(vm_compute; discriminate) (mem_bridge sample_mem))).
  - exact (proj1 (Hm mem_proc eq_refl eq_refl eq_refl (or_introl eq_refl) (mem_bridge sample_mem))).
Defined.

Lemma pagemap_offset_wraps_witness :
  exists u', procfs_dopagemap sample_pages mem_kernel (p_cred mem_proc) true 16384 9 mem_id (ubuf_read (2 ^ 53) 8)
             = Some (0, u') /\ uio_out u' = [5; 0; 0; 0; 0; 0; 0; 0].
Proof.
  destruct (pagemap_offset_wraps sample_pages mem_kernel (p_cred mem_proc) mem_id mem_proc (fun k => k + 5) 300 8 9)
    as (u' & E & Eo); [reflexivity|reflexivity|by apply page_bridge_serves|lia|lia|lia|].
  exists u'. split; [exact E|]. rewrite Eo. vm_compute. reflexivity.
Defined.
