(* ===== verification/Map.v ===== *)
(** * Memory maps (kext/procfs_map.c and the smaps family of
    kext/procfs_linux.c)

    The walk over a process's VM regions, which asks the daemon for one payload
    of region records after the other, and the nodes built on it: map, maps,
    smaps, smaps_rollup, numa_maps and the memory sizes of taskinfo.  Text is kept
    as bytes, the way an auto-extending sbuf holds it.  The walk has a fuel
    argument; [None] is a walk that used it up, and [map_walk_returns] shows how
    much is enough for any daemon. *)
From S2P Require Import Prelude Kernel PfsTypes Text Subr.
From Stdlib Require Import ZArith Lia String Sorted.
From stdpp Require Import base list numbers sets.
Open Scope Z_scope.

(** ** Text *)
Definition hex_char (d : Z) : Z := if d <? 10 then 48 + d else 87 + d.

(** [%0<n>llx] of a value of at most [n] digits. *)
Fixpoint hex_fixed (n : nat) (v : Z) : bytes :=
  match n with
  | O => []
  | S n' => (hex_fixed n' (v / 16) ++ [hex_char (v mod 16)])%list
  end.

Fixpoint strip_zeros (l : bytes) : bytes :=
  match l with
  | c :: ((_ :: _) as l') => if c =? 48 then strip_zeros l' else l
  | _ => l
  end.

(** [%llx]. *)
Definition print_x (v : Z) : bytes := strip_zeros (hex_fixed 16 v).

(** [%#018llx]: the prefix is written only for a value that is not zero. *)
Definition hex_alt (v : Z) : bytes :=
  if v =? 0 then repeat 48 18 else (bytes_of_string "0x" ++ hex_fixed 16 v)%list.

(** [%u] and [%8llu]. *)
Definition dec (v : Z) : bytes := bytes_of_string (print_u v).
Definition dec8 (v : Z) : bytes := (repeat 32 (8 - length (dec v)) ++ dec v)%list.

Definition lit (s : string) : bytes := bytes_of_string s.

(** ** Region records *)
Record procfs_map_region := MapRegion {
  mr_start : Z; mr_size : Z; mr_offset : Z;                        (* uint64_t *)
  mr_prot : Z; mr_max_prot : Z; mr_user_wired : Z; mr_share_mode : Z;
  mr_resident_pages : Z; mr_dirty_pages : Z; mr_swapped_pages : Z;
  mr_external_pager : Z; mr_shared : Z                             (* uint32_t *)
}.

(** sizeof(struct procfs_map_region): 60 bytes and 4 of padding. *)
Definition map_region_size : Z := 64.

Definition field (off n : nat) (bs : bytes) : Z := le_val (take n (drop off bs)).

Definition map_region_of (bs : bytes) : procfs_map_region :=
  MapRegion (field 0 8 bs) (field 8 8 bs) (field 16 8 bs)
    (field 24 4 bs) (field 28 4 bs) (field 32 4 bs) (field 36 4 bs)
    (field 40 4 bs) (field 44 4 bs) (field 48 4 bs) (field 52 4 bs) (field 56 4 bs).

Fixpoint map_regions_of (n : nat) (bs : bytes) : list procfs_map_region :=
  match n with
  | O => []
  | S n' => map_region_of bs :: map_regions_of n' (drop 64 bs)
  end.

Definition PROCFS_REQ_MAPS : Z := 26.

(** ** The walk *)
Section Walk.
Context {A : Type}.
Variable cb : procfs_map_region -> A -> A.
Variable B : bridge.

Fixpoint map_walk (fuel : nat) (pid addr : Z) (first : bool) (arg : A) : option (Z * A) :=
  match fuel with
  | O => None
  | S f =>
      let '(rc, buf) := ctl_request B PROCFS_REQ_MAPS pid addr EmptyString
                          (PROCFS_CTL_MAXPAYLOAD / map_region_size * map_region_size) in
      if negb (rc =? 0) then
        Some (if negb first then 0
              else if (rc =? ENOTCONN) || (rc =? ETIMEDOUT) then ENOTSUP else rc, arg)
      else
        let n := Z.of_nat (length buf) / map_region_size in
        let regs := map_regions_of (Z.to_nat n) buf in
        match last regs with
        | None => Some (0, arg)
        | Some r =>
            let arg := fold_left (fun a r => cb r a) regs arg in
            let last_end := u64 (mr_start r + mr_size r) in
            if last_end <=? addr then Some (0, arg)
            else map_walk f pid last_end false arg
        end
  end.

Definition procfs_map_walk (fuel : nat) (pid : Z) (arg : A) : option (Z * A) := map_walk fuel pid 0 true arg.
End Walk.

(** ** map and maps *)
Record procfs_region := Region {
  pr_start : Z; pr_end : Z; pr_offset : Z; pr_prot : Z; pr_max_prot : Z; pr_shared : Z; pr_wired : Z
}.

Definition VM_PROT_READ : Z := 1.
Definition VM_PROT_WRITE : Z := 2.
Definition VM_PROT_EXECUTE : Z := 4.

Definition region_of (mr : procfs_map_region) : procfs_region :=
  Region (mr_start mr) (u64 (mr_start mr + mr_size mr)) (mr_offset mr)
    (i32 (mr_prot mr)) (i32 (mr_max_prot mr)) (i32 (mr_shared mr)) (mr_user_wired mr).

Definition procfs_map_render_cb (fmt : procfs_region -> bytes) (mr : procfs_map_region) (sb : bytes) : bytes :=
  (sb ++ fmt (region_of mr))%list.

(** One protection column. *)
Definition prot_char (prot bit : Z) (c : string) : bytes := lit (if negb (Z.land prot bit =? 0) then c else "-").
Definition prot_chars (prot : Z) : bytes :=
  (prot_char prot VM_PROT_READ "r" ++ prot_char prot VM_PROT_WRITE "w" ++ prot_char prot VM_PROT_EXECUTE "x")%list.

Definition procfs_map_fmt_netbsd (r : procfs_region) : bytes :=
  (hex_alt (pr_start r) ++ lit " " ++ hex_alt (pr_end r) ++ lit " " ++ prot_chars (pr_prot r) ++ lit " "
   ++ prot_chars (pr_max_prot r) ++ lit " " ++ lit (if negb (pr_shared r =? 0) then "share" else "priv") ++ lit " "
   ++ dec (pr_wired r) ++ [10])%list.

(** The header line of a region in maps and smaps. *)
Definition maps_line (start end_ prot : Z) (shared : bool) (offset : Z) : bytes :=
  (hex_fixed 16 start ++ lit "-" ++ hex_fixed 16 end_ ++ lit " " ++ prot_chars prot ++ lit (if shared then "s" else "p")
   ++ lit " " ++ hex_fixed 16 offset ++ lit " 00:00 0 " ++ [10])%list.

Definition procfs_maps_fmt_linux (r : procfs_region) : bytes :=
  maps_line (pr_start r) (pr_end r) (pr_prot r) (negb (pr_shared r =? 0)) (pr_offset r).

(** ** The extended records of the smaps family *)
Record procfs_ext_region := ExtRegion {
  er_start : Z; er_end : Z; er_prot : Z; er_resident_pages : Z; er_dirty_pages : Z; er_swapped_pages : Z;
  er_shared : bool; er_anonymous : bool
}.

Definition SM_SHARED : Z := 4.
Definition SM_TRUESHARED : Z := 5.
Definition SM_SHARED_ALIASED : Z := 7.

Definition share_mode_shared (m : Z) : bool := (m =? SM_SHARED) || (m =? SM_TRUESHARED) || (m =? SM_SHARED_ALIASED).

Definition ext_region_of (mr : procfs_map_region) : procfs_ext_region :=
  ExtRegion (mr_start mr) (u64 (mr_start mr + mr_size mr)) (i32 (mr_prot mr))
    (mr_resident_pages mr) (mr_dirty_pages mr) (mr_swapped_pages mr)
    (share_mode_shared (mr_share_mode mr)) (mr_external_pager mr =? 0).

Definition procfs_map_ext_cb {A} (cb : procfs_ext_region -> A -> A) (mr : procfs_map_region) (arg : A) : A :=
  cb (ext_region_of mr) arg.

Section Nodes.
Context {U : Type} `{Uio U}.
Variable B : bridge.
Variable K : kernel.
Variable creds : cred.
Variable malloc_ok : bool.
Variable PAGE_SIZE : Z.
Variable fuel : nat.

(** The process must exist and the caller must have access to it. *)
Definition with_process {R} (id : pfsid) (err : Z -> R) (body : R) : R :=
  match proc_find K (nodeid_pid id) with
  | None => err ESRCH
  | Some p =>
      let error := procfs_check_can_access_process creds p in
      if negb (error =? 0) then err error else body
  end.

Definition procfs_map_render (fmt : procfs_region -> bytes) (id : pfsid) (u : U) : option (Z * U) :=
  with_process id (fun e => Some (e, u))
    (if malloc_ok then
       match procfs_map_walk (procfs_map_render_cb fmt) B fuel (nodeid_pid id) [] with
       | None => None
       | Some (error, sb) => if negb (error =? 0) then Some (error, u) else copy_all sb u
       end
     else Some (ENOMEM, u)).

Definition procfs_domap (id : pfsid) (u : U) : option (Z * U) := procfs_map_render procfs_map_fmt_netbsd id u.
Definition procfs_domaps (id : pfsid) (u : U) : option (Z * U) := procfs_map_render procfs_maps_fmt_linux id u.

Definition procfs_map_foreach_ext {A} (cb : procfs_ext_region -> A -> A) (id : pfsid) (arg : A) : option (Z * A) :=
  with_process id (fun e => Some (e, arg)) (procfs_map_walk (procfs_map_ext_cb cb) B fuel (nodeid_pid id) arg).

(** *** taskinfo's sizes *)
Definition procfs_map_sizes_cb (mr : procfs_map_region) (c : Z * Z) : Z * Z :=
  (u64 (fst c + mr_size mr),
   if share_mode_shared (mr_share_mode mr) then snd c
   else u64 (snd c + u64 (mr_resident_pages mr * PAGE_SIZE))).

Definition procfs_task_vm_sizes (p : proc) : option (Z * (Z * Z)) :=
  match procfs_map_walk procfs_map_sizes_cb B fuel (p_pid p) (0, 0) with
  | None => None
  | Some (error, c) => Some (error, if negb (error =? 0) then (0, 0) else c)
  end.

(** *** smaps *)
Definition PROCFS_PAGE_KB : Z := PAGE_SIZE / 1024.

Definition rss_kb (r : procfs_ext_region) : Z := u64 (er_resident_pages r * PROCFS_PAGE_KB).
Definition dirty_kb (r : procfs_ext_region) : Z :=
  let d := u64 (er_dirty_pages r * PROCFS_PAGE_KB) in if rss_kb r <? d then rss_kb r else d.
Definition clean_kb (r : procfs_ext_region) : Z := u64 (rss_kb r - dirty_kb r).
Definition swap_kb (r : procfs_ext_region) : Z := u64 (er_swapped_pages r * PROCFS_PAGE_KB).

(** One line of the detail. *)
Definition kb_line (name : string) (v : Z) : bytes := (lit name ++ dec8 v ++ lit " kB" ++ [10])%list.

Definition procfs_smaps_cb (r : procfs_ext_region) (sb : bytes) : bytes :=
  let size_kb := u64 (er_end r - er_start r) / 1024 in
  let anon_kb := if er_anonymous r then rss_kb r else 0 in
  (sb ++ maps_line (er_start r) (er_end r) (er_prot r) (er_shared r) 0
   ++ kb_line "Size:           " size_kb
   ++ kb_line "KernelPageSize: " PROCFS_PAGE_KB
   ++ kb_line "MMUPageSize:    " PROCFS_PAGE_KB
   ++ kb_line "Rss:            " (rss_kb r)
   ++ kb_line "Pss:            " (rss_kb r)
   ++ kb_line "Shared_Clean:   " (if er_shared r then clean_kb r else 0)
   ++ kb_line "Shared_Dirty:   " (if er_shared r then dirty_kb r else 0)
   ++ kb_line "Private_Clean:  " (if er_shared r then 0 else clean_kb r)
   ++ kb_line "Private_Dirty:  " (if er_shared r then 0 else dirty_kb r)
   ++ kb_line "Referenced:     " (rss_kb r)
   ++ kb_line "Anonymous:      " anon_kb
   ++ kb_line "Swap:           " (swap_kb r)
   ++ lit "VmFlags:"
   ++ lit (if negb (Z.land (er_prot r) VM_PROT_READ =? 0) then " rd" else "")
   ++ lit (if negb (Z.land (er_prot r) VM_PROT_WRITE =? 0) then " wr" else "")
   ++ lit (if negb (Z.land (er_prot r) VM_PROT_EXECUTE =? 0) then " ex" else "")
   ++ lit (if er_shared r then " sh" else "") ++ [10])%list.

(** The text nodes: a fresh sbuf, the walk, and the copy. *)
Definition ext_text_node (cb : procfs_ext_region -> bytes -> bytes) (id : pfsid) (u : U) : option (Z * U) :=
  if malloc_ok then
    match procfs_map_foreach_ext cb id [] with
    | None => None
    | Some (error, sb) => if negb (error =? 0) then Some (error, u) else copy_all sb u
    end
  else Some (ENOMEM, u).

Definition procfs_dosmaps (id : pfsid) (u : U) : option (Z * U) := ext_text_node procfs_smaps_cb id u.

(** *** smaps_rollup *)
Record procfs_rollup := Rollup {
  ro_first : Z; ro_last : Z; ro_rss : Z; ro_shared_clean : Z; ro_shared_dirty : Z;
  ro_private_clean : Z; ro_private_dirty : Z; ro_anon : Z; ro_swap : Z; ro_seen : bool
}.

Definition rollup_zero : procfs_rollup := Rollup 0 0 0 0 0 0 0 0 0 false.

Definition procfs_rollup_cb (r : procfs_ext_region) (t : procfs_rollup) : procfs_rollup :=
  Rollup (if ro_seen t then ro_first t else er_start r) (er_end r)
    (u64 (ro_rss t + rss_kb r))
    (if er_shared r then u64 (ro_shared_clean t + clean_kb r) else ro_shared_clean t)
    (if er_shared r then u64 (ro_shared_dirty t + dirty_kb r) else ro_shared_dirty t)
    (if er_shared r then ro_private_clean t else u64 (ro_private_clean t + clean_kb r))
    (if er_shared r then ro_private_dirty t else u64 (ro_private_dirty t + dirty_kb r))
    (if er_anonymous r then u64 (ro_anon t + rss_kb r) else ro_anon t)
    (u64 (ro_swap t + swap_kb r)) true.

Definition rollup_text (t : procfs_rollup) : bytes :=
  (hex_fixed 16 (ro_first t) ++ lit "-" ++ hex_fixed 16 (ro_last t) ++ lit " ---p 00000000 00:00 0 [rollup]" ++ [10]
   ++ kb_line "Rss:            " (ro_rss t)
   ++ kb_line "Pss:            " (ro_rss t)
   ++ kb_line "Shared_Clean:   " (ro_shared_clean t)
   ++ kb_line "Shared_Dirty:   " (ro_shared_dirty t)
   ++ kb_line "Private_Clean:  " (ro_private_clean t)
   ++ kb_line "Private_Dirty:  " (ro_private_dirty t)
   ++ kb_line "Referenced:     " (ro_rss t)
   ++ kb_line "Anonymous:      " (ro_anon t)
   ++ kb_line "Swap:           " (ro_swap t))%list.

Definition procfs_dosmaps_rollup (id : pfsid) (u : U) : option (Z * U) :=
  match procfs_map_foreach_ext procfs_rollup_cb id rollup_zero with
  | None => None
  | Some (error, t) =>
      if negb (error =? 0) then Some (error, u)
      else if malloc_ok then copy_all (rollup_text t) u else Some (ENOMEM, u)
  end.

(** *** numa_maps *)
Definition procfs_numa_cb (r : procfs_ext_region) (sb : bytes) : bytes :=
  (sb ++ print_x (er_start r) ++ lit " default"
   ++ (if er_anonymous r && (0 <? er_resident_pages r) then lit " anon=" ++ dec (er_resident_pages r) else [])
   ++ (if 0 <? er_dirty_pages r then lit " dirty=" ++ dec (er_dirty_pages r) else [])
   ++ (if 0 <? er_swapped_pages r then lit " swapcache=" ++ dec (er_swapped_pages r) else [])
   ++ (if 0 <? er_resident_pages r then lit " N0=" ++ dec (er_resident_pages r) else [])
   ++ lit " kernelpagesize_kB=" ++ dec PROCFS_PAGE_KB ++ [10])%list.

Definition procfs_donuma_maps (id : pfsid) (u : U) : option (Z * U) := ext_text_node procfs_numa_cb id u.
End Nodes.

(** ** Specification *)
Definition mr_end (r : procfs_map_region) : Z := mr_start r + mr_size r.

(** The record as it is laid out in memory; the value of the padding does not
    matter. *)
Definition region_bytes (pad : bytes) (r : procfs_map_region) : bytes :=
  (le_bytes 8 (mr_start r) ++ le_bytes 8 (mr_size r) ++ le_bytes 8 (mr_offset r)
   ++ le_bytes 4 (mr_prot r) ++ le_bytes 4 (mr_max_prot r) ++ le_bytes 4 (mr_user_wired r) ++ le_bytes 4 (mr_share_mode r)
   ++ le_bytes 4 (mr_resident_pages r) ++ le_bytes 4 (mr_dirty_pages r) ++ le_bytes 4 (mr_swapped_pages r)
   ++ le_bytes 4 (mr_external_pager r) ++ le_bytes 4 (mr_shared r) ++ pad)%list.

Fixpoint regions_bytes (pad : nat -> bytes) (rs : list procfs_map_region) : bytes :=
  match rs with
  | [] => []
  | r :: rs' => (region_bytes (pad 0%nat) r ++ regions_bytes (fun i => pad (S i)) rs')%list
  end.

Record region_ok (r : procfs_map_region) : Prop := {
  rk_start : 0 <= mr_start r; rk_size : 0 < mr_size r < 2 ^ 64; rk_end : mr_end r <= 2 ^ 64;
  rk_offset : 0 <= mr_offset r < 2 ^ 64;
  rk_words : Forall (fun v => 0 <= v < 2 ^ 32)
    [mr_prot r; mr_max_prot r; mr_user_wired r; mr_share_mode r; mr_resident_pages r; mr_dirty_pages r;
     mr_swapped_pages r; mr_external_pager r; mr_shared r]
}.

(** An address space: regions that do not overlap, in the order of addresses. *)
Record vm_map_ok (rs : list procfs_map_region) : Prop := {
  vk_regions : Forall region_ok rs;
  vk_sorted : StronglySorted (fun a b => mr_end a <= mr_start b) rs
}.

(** What lies at or above an address. *)
Definition above (addr : Z) (rs : list procfs_map_region) : list procfs_map_region :=
  List.filter (fun r => addr <? mr_end r) rs.

(** A daemon that knows the address space [rs] of the process: it answers with
    the first regions at or above the address, as many as fit. *)
Definition serves_maps (B : bridge) (pid : Z) (rs : list procfs_map_region) : Prop :=
  forall addr, 0 <= addr < 2 ^ 64 ->
    exists pad, (forall i, length (pad i) = 4%nat)
      /\ ctl_request B PROCFS_REQ_MAPS pid addr EmptyString 2048 = (0, regions_bytes pad (take 32 (above addr rs))).

(** ** Lemmas on the records *)
Lemma field_skip off n a b : (length a <= off)%nat -> field off n (a ++ b)%list = field (off - length a) n b.
Proof. intros Hl. unfold field. by rewrite drop_app, (drop_ge a) by lia. Qed.

Lemma field_here n v b : 0 <= v < 256 ^ Z.of_nat n -> field 0 n (le_bytes n v ++ b)%list = v.
Proof.
  intros Hv. unfold field. rewrite drop_0, take_app_length' by (by rewrite le_bytes_length). by apply le_val_bytes_small.
Qed.

Lemma map_region_roundtrip pad r rest : region_ok r -> map_region_of (region_bytes pad r ++ rest)%list = r.
Proof.
  intros [H1 H2 H3 H4 H5]. unfold mr_end in H3. rewrite !Forall_cons in H5.
  destruct r as [a b c d e f g h i j k l]. cbn [mr_start mr_size mr_offset mr_prot mr_max_prot mr_user_wired mr_share_mode
    mr_resident_pages mr_dirty_pages mr_swapped_pages mr_external_pager mr_shared] in *. destruct_and! H5.
  unfold map_region_of, region_bytes.
  cbn [mr_start mr_size mr_offset mr_prot mr_max_prot mr_user_wired mr_share_mode
    mr_resident_pages mr_dirty_pages mr_swapped_pages mr_external_pager mr_shared].
  rewrite <- !app_assoc.
  f_equal; repeat (rewrite field_skip by (rewrite le_bytes_length; lia); rewrite le_bytes_length; cbn [Nat.sub]);
    apply field_here; first [change (256 ^ Z.of_nat 8) with (2 ^ 64)|change (256 ^ Z.of_nat 4) with (2 ^ 32)]; lia.
Qed.

Lemma region_bytes_length pad r : length pad = 4%nat -> length (region_bytes pad r) = 64%nat.
Proof. intros Hp. unfold region_bytes. rewrite !length_app, !le_bytes_length, Hp. done. Qed.

Lemma regions_bytes_length pad rs : (forall i, length (pad i) = 4%nat) -> length (regions_bytes pad rs) = (64 * length rs)%nat.
Proof.
  revert pad. induction rs as [|r rs IH]; intros pad Hp; [done|].
  cbn [regions_bytes length]. rewrite length_app, region_bytes_length, IH by (intros; apply Hp). lia.
Qed.

Lemma map_regions_roundtrip pad rs rest : (forall i, length (pad i) = 4%nat) -> Forall region_ok rs ->
  map_regions_of (length rs) (regions_bytes pad rs ++ rest)%list = rs.
Proof.
  revert pad. induction rs as [|r rs IH]; intros pad Hp Hf; [done|].
  apply Forall_cons in Hf as [Hr Hf]. cbn [length map_regions_of regions_bytes]. rewrite <- app_assoc, map_region_roundtrip by done.
  rewrite drop_app_length' by (by rewrite region_bytes_length). f_equal. apply IH; [intros; apply Hp|done].
Qed.

Lemma map_regions_of_length n bs : length (map_regions_of n bs) = n.
Proof. revert bs. induction n as [|n IH]; intros bs; cbn; [done|]. by rewrite IH. Qed.

(** ** Lemmas on the walk *)
Lemma above_app addr a b : above addr (a ++ b)%list = (above addr a ++ above addr b)%list.
Proof. apply List.filter_app. Qed.

Lemma above_all addr rs : Forall (fun r => addr < mr_end r) rs -> above addr rs = rs.
Proof.
  induction 1 as [|r rs Hr _ IH]; [done|]. unfold above in *. cbn [List.filter].
  destruct (Z.ltb_spec addr (mr_end r)); [by rewrite IH|lia].
Qed.

Lemma above_none addr rs : Forall (fun r => mr_end r <= addr) rs -> above addr rs = [].
Proof.
  induction 1 as [|r rs Hr _ IH]; [done|]. unfold above in *. cbn [List.filter]. destruct (Z.ltb_spec addr (mr_end r)); [lia|done].
Qed.

Lemma sorted_ends rs : vm_map_ok rs -> forall l r r2, rs = (l ++ r :: r2)%list ->
  Forall (fun q => mr_end q <= mr_start r) l /\ Forall (fun q => mr_end r < mr_end q) r2.
Proof.
  intros [Hok Hs] l r r2 ->. rewrite Forall_app, Forall_cons in Hok. destruct Hok as (Hl & Hr & H2). split.
  - clear Hl. induction l as [|q l IH]; [done|]. cbn in Hs. inversion_clear Hs as [|? ? Hs' Hq].
    apply Forall_app in Hq as [_ Hq]. apply Forall_cons in Hq as [Hq _]. constructor; [done|by apply IH].
  - assert (Hs2 : StronglySorted (fun a b => mr_end a <= mr_start b) (r :: r2)).
    { clear Hl. induction l as [|q l IH]; [done|]. cbn in Hs. inversion_clear Hs. by apply IH. }
    inversion_clear Hs2 as [|? ? _ Hq]. rewrite Forall_forall in *. intros q Hin. specialize (Hq q Hin).
    pose proof (rk_size q (H2 q Hin)). unfold mr_end in *. lia.
Qed.

(** The next request starts at the end of the last region of a reply and gets
    what comes after it. *)
Lemma above_next rs pre a r post :
  vm_map_ok rs -> rs = (pre ++ (a ++ [r]) ++ post)%list -> above (mr_end r) rs = post.
Proof.
  intros Hok E. rewrite <- app_assoc, app_assoc in E. cbn in E.
  destruct (sorted_ends rs Hok (pre ++ a) r post E) as [H1 H2].
  pose proof (vk_regions rs Hok) as Hr. rewrite E, Forall_app, Forall_cons in Hr. destruct Hr as (_ & Hr & _).
  rewrite E, above_app, above_none.
  - cbn [app]. unfold above. cbn [List.filter]. rewrite Z.ltb_irrefl. by apply above_all.
  - eapply Forall_impl; [exact H1|]. intros q Hq. cbn beta in Hq. pose proof (rk_size r Hr). unfold mr_end in *. lia.
Qed.

Lemma map_walk_all {A} (cb : procfs_map_region -> A -> A) B pid rs fuel addr first arg pre rem :
  vm_map_ok rs -> serves_maps B pid rs -> 0 <= addr < 2 ^ 64 ->
  rs = (pre ++ rem)%list -> above addr rs = rem -> (length rem < fuel)%nat ->
  map_walk cb B fuel pid addr first arg = Some (0, fold_left (fun a r => cb r a) rem arg).
Proof.
  intros Hok Hs. revert addr first arg pre rem. induction fuel as [|f IH]; intros addr first arg pre rem Ha Ers Eab Hf; [lia|].
  cbn [map_walk]. change (PROCFS_CTL_MAXPAYLOAD / map_region_size * map_region_size) with 2048.
  destruct (Hs addr Ha) as (pad & Hp & Er). rewrite Er, Eab. cbn [Z.eqb negb].
  pose proof (vk_regions rs Hok) as Hrk. rewrite Ers, Forall_app in Hrk. destruct Hrk as [_ Hrk].
  rewrite regions_bytes_length by done.
  replace (Z.of_nat (64 * length (take 32 rem)) / map_region_size) with (Z.of_nat (length (take 32 rem)))
    by (unfold map_region_size; rewrite Nat2Z.inj_mul, Z.mul_comm, Z.div_mul; lia).
  rewrite Nat2Z.id, <- (app_nil_r (regions_bytes pad _)), map_regions_roundtrip by (try done; by apply Forall_take).
  destruct rem as [|r0 rem'] eqn:Erem; [done|]. rewrite <- Erem in *.
  destruct (exists_last (l := take 32 rem)) as (a & r & Et). { by rewrite Erem. }
  rewrite Et, last_snoc, <- Et.
  assert (Esp : rem = ((a ++ [r]) ++ drop 32 rem)%list) by (by rewrite <- Et, take_drop).
  assert (Hr : region_ok r /\ addr < mr_end r).
  { assert (Hin : r ∈ rem) by (rewrite Esp; set_solver). split.
    - by apply (proj1 (Forall_forall _ _) Hrk).
    - rewrite <- Eab in Hin. unfold above in Hin. apply list_elem_of_In, List.filter_In in Hin as [_ Hin]. lia. }
  destruct Hr as [Hr Hgt]. fold (mr_end r).
  assert (Enext : above (mr_end r) rs = drop 32 rem).
  { apply (above_next rs pre a r (drop 32 rem) Hok). by rewrite <- Esp. }
  set (g := fun a r => cb r a). replace (fold_left g rem arg) with (fold_left g (drop 32 rem) (fold_left g (take 32 rem) arg))
    by (by rewrite <- fold_left_app, take_drop).
  set (arg' := fold_left g (take 32 rem) arg).
  destruct (decide (mr_end r = 2 ^ 64)) as [E64|E64].
  - rewrite E64. change (u64 (2 ^ 64)) with 0. destruct (Z.leb_spec 0 addr); [|lia].
    replace (drop 32 rem) with (@nil procfs_map_region); [done|]. rewrite <- Enext, E64. symmetry. apply above_none.
    eapply Forall_impl; [exact (vk_regions rs Hok)|]. intros q Hq. apply (rk_end q Hq).
  - pose proof (rk_end r Hr). pose proof (rk_start r Hr). pose proof (rk_size r Hr).
    rewrite u64_small by (unfold mr_end in *; lia). destruct (Z.leb_spec (mr_end r) addr); [lia|].
    apply (IH (mr_end r) false arg' (pre ++ take 32 rem)%list (drop 32 rem)); [unfold mr_end in *; lia| |done|].
    + by rewrite <- app_assoc, take_drop.
    + rewrite length_drop. rewrite Esp in Hf. rewrite !length_app in Hf. cbn in Hf. rewrite length_drop in Hf. lia.
Qed.

(** Any daemon, a hostile one included, ends the walk: each round but the last
    raises the address. *)
Lemma map_walk_returns {A} (cb : procfs_map_region -> A -> A) B pid fuel addr first arg :
  0 <= addr -> 2 ^ 64 <= addr + Z.of_nat fuel -> (0 < fuel)%nat -> exists r, map_walk cb B fuel pid addr first arg = Some r.
Proof.
  revert addr first arg. induction fuel as [|f IH]; intros addr first arg H0 Hf Hp; [lia|]. cbn [map_walk].
  destruct (ctl_request B _ _ _ _ _) as [rc buf]. destruct (negb (rc =? 0)); [by eexists|].
  destruct (last _) as [r|]; [|by eexists]. pose proof (wrap_u_range 64 (mr_start r + mr_size r) ltac:(lia)) as Hw.
  fold (u64 (mr_start r + mr_size r)) in Hw. destruct (Z.leb_spec (u64 (mr_start r + mr_size r)) addr) as [|Hgt]; [by eexists|].
  apply IH; lia.
Qed.

Lemma walk_served {A} (cb : procfs_map_region -> A -> A) B pid rs fuel arg :
  vm_map_ok rs -> serves_maps B pid rs -> (length rs < fuel)%nat ->
  procfs_map_walk cb B fuel pid arg = Some (0, fold_left (fun a r => cb r a) rs arg).
Proof.
  intros Hok Hs Hf. apply (map_walk_all cb B pid rs fuel 0 true arg [] rs Hok Hs); [lia|done| |done].
  apply above_all. eapply Forall_impl; [exact (vk_regions rs Hok)|]. intros q Hq.
  pose proof (rk_start q Hq). pose proof (rk_size q Hq). unfold mr_end. lia.
Qed.

(** ** Lemmas on the text *)
Definition hex_digit_val (c : Z) : Z := if c <? 58 then c - 48 else c - 87.
Definition hex_val (l : bytes) : Z := fold_left (fun a c => 16 * a + hex_digit_val c) l 0.

Lemma hex_fixed_length n v : length (hex_fixed n v) = n.
Proof. revert v. induction n as [|n IH]; intros v; [done|]. cbn [hex_fixed]. rewrite length_app, IH. cbn. lia. Qed.

Lemma hex_fixed_val n v : 0 <= v < 16 ^ Z.of_nat n -> hex_val (hex_fixed n v) = v.
Proof.
  unfold hex_val. revert v. induction n as [|n IH]; intros v Hv; [cbn in *; lia|]. cbn [hex_fixed].
  rewrite fold_left_app. rewrite Nat2Z.inj_succ, Z.pow_succ_r in Hv by lia.
  rewrite IH by (split; [apply Z.div_pos; lia|apply Z.div_lt_upper_bound; lia]). cbn [fold_left].
  pose proof (Z.mod_pos_bound v 16 ltac:(lia)) as Hm. pose proof (Z.div_mod v 16 ltac:(lia)) as Hd.
  assert (hex_digit_val (hex_char (v mod 16)) = v mod 16) as ->; [|lia].
  unfold hex_digit_val, hex_char. destruct (Z.ltb_spec (v mod 16) 10).
  - destruct (Z.ltb_spec (48 + v mod 16) 58); lia.
  - destruct (Z.ltb_spec (87 + v mod 16) 58); lia.
Qed.

Lemma land_pow2 x k : 0 <= k -> negb (Z.land x (2 ^ k) =? 0) = Z.testbit x k.
Proof.
  intros Hk. assert (E : Z.testbit (Z.land x (2 ^ k)) k = Z.testbit x k) by (by rewrite Z.land_spec, Z.pow2_bits_true, andb_true_r).
  destruct (Z.eqb_spec (Z.land x (2 ^ k)) 0) as [E0|E0]; cbn.
  - by rewrite <- E, E0, Z.bits_0.
  - symmetry. destruct (Z.testbit x k) eqn:Et; [done|]. exfalso. apply E0, Z.bits_inj'. intros n Hn.
    rewrite Z.land_spec, Z.bits_0, Z.pow2_bits_eqb by done. destruct (Z.eqb_spec k n) as [->|]; [by rewrite Et|by rewrite andb_false_r].
Qed.

Lemma i32_testbit x k : 0 <= k < 32 -> Z.testbit (i32 x) k = Z.testbit x k.
Proof.
  intros Hk. rewrite <- (Z.mod_pow2_bits_low (i32 x) 32 k), <- (Z.mod_pow2_bits_low x 32 k) by lia. f_equal.
  unfold i32, wrap_s. rewrite Zminus_mod_idemp_l. f_equal. lia.
Qed.

(** What a line of maps says. *)
Record maps_entry := MapsEntry {
  me_start : Z; me_end : Z; me_read : bool; me_write : bool; me_exec : bool; me_shared : bool; me_offset : Z
}.

Definition entry_of (r : procfs_map_region) : maps_entry :=
  MapsEntry (mr_start r) (mr_end r mod 2 ^ 64) (Z.testbit (mr_prot r) 0) (Z.testbit (mr_prot r) 1) (Z.testbit (mr_prot r) 2)
    (negb (mr_shared r =? 0)) (mr_offset r).

(** A reader of maps, by the columns of proc(5). *)
Definition char_at (i : nat) (l : bytes) : Z := nth i l 0.
Definition parse_line (l : bytes) : maps_entry :=
  MapsEntry (hex_val (take 16 l)) (hex_val (take 16 (drop 17 l))) (char_at 34 l =? 114) (char_at 35 l =? 119)
    (char_at 36 l =? 120) (char_at 37 l =? 115) (hex_val (take 16 (drop 39 l))).
Fixpoint parse_maps (n : nat) (l : bytes) : list maps_entry :=
  match n with
  | O => []
  | S n' => parse_line (take 65 l) :: parse_maps n' (drop 65 l)
  end.

Definition maps_text (rs : list procfs_map_region) : bytes := concat (map (procfs_maps_fmt_linux ∘ region_of) rs).

Lemma prot_chars_length p : length (prot_chars p) = 3%nat.
Proof. unfold prot_chars, prot_char. by repeat case_match. Qed.

Lemma maps_line_length a b p sh o : length (maps_line a b p sh o) = 65%nat.
Proof. unfold maps_line. rewrite !length_app, !hex_fixed_length, prot_chars_length. by destruct sh. Qed.

Lemma parse_fmt r : region_ok r -> parse_line (procfs_maps_fmt_linux (region_of r)) = entry_of r.
Proof.
  intros [H1 H2 H3 H4 H5]. unfold procfs_maps_fmt_linux, maps_line, entry_of, region_of.
  cbn [pr_start pr_end pr_prot pr_shared pr_offset]. fold (mr_end r). unfold u64, wrap_u.
  assert (Hs : 0 <= mr_start r < 16 ^ Z.of_nat 16) by (change (16 ^ Z.of_nat 16) with (2 ^ 64); unfold mr_end in *; lia).
  assert (He : 0 <= mr_end r mod 2 ^ 64 < 16 ^ Z.of_nat 16) by (change (16 ^ Z.of_nat 16) with (2 ^ 64); apply Z.mod_pos_bound; lia).
  assert (Ho : 0 <= mr_offset r < 16 ^ Z.of_nat 16) by (change (16 ^ Z.of_nat 16) with (2 ^ 64); lia).
  assert (Hsh : (i32 (mr_shared r) =? 0) = (mr_shared r =? 0)).
  { rewrite !Forall_cons in H5. destruct H5 as (_ & _ & _ & _ & _ & _ & _ & _ & H5 & _).
    apply eq_true_iff_eq. rewrite !Z.eqb_eq. unfold i32, wrap_s. change (2 ^ (32 - 1)) with 2147483648.
    split; intros E; [|by rewrite E]. destruct (Z.lt_ge_cases (mr_shared r) 2147483648).
    - rewrite Z.mod_small in E by lia. lia.
    - rewrite <- (Z.mod_add _ (-1)), Z.mod_small in E by lia. lia. }
  rewrite Hsh. set (s := hex_fixed 16 (mr_start r)). set (e := hex_fixed 16 (mr_end r mod 2 ^ 64)). set (o := hex_fixed 16 (mr_offset r)).
  unfold prot_chars, prot_char, VM_PROT_READ, VM_PROT_WRITE, VM_PROT_EXECUTE.
  rewrite (land_pow2 _ 0), (land_pow2 _ 1), (land_pow2 _ 2), !i32_testbit by lia.
  pose proof (hex_fixed_length 16 (mr_start r)) as Ls. fold s in Ls. pose proof (hex_fixed_length 16 (mr_end r mod 2 ^ 64)) as Le. fold e in Le.
  pose proof (hex_fixed_length 16 (mr_offset r)) as Lo. fold o in Lo.
  pose proof (hex_fixed_val 16 _ Hs) as Vs. fold s in Vs. pose proof (hex_fixed_val 16 _ He) as Ve. fold e in Ve.
  pose proof (hex_fixed_val 16 _ Ho) as Vo. fold o in Vo. rewrite <- Vs, <- Ve, <- Vo.
  clearbody s e o. do 17 (destruct s as [|? s]; try discriminate Ls). do 17 (destruct e as [|? e]; try discriminate Le).
  do 17 (destruct o as [|? o]; try discriminate Lo).
  destruct (Z.testbit (mr_prot r) 0), (Z.testbit (mr_prot r) 1), (Z.testbit (mr_prot r) 2), (mr_shared r =? 0); reflexivity.
Qed.

Lemma parse_maps_text rs : Forall region_ok rs -> parse_maps (length rs) (maps_text rs) = map entry_of rs.
Proof.
  unfold maps_text. induction 1 as [|r rs Hr _ IH]; [done|]. cbn [length parse_maps map concat]. unfold compose at 1 3.
  assert (L : length (procfs_maps_fmt_linux (region_of r)) = 65%nat) by (unfold procfs_maps_fmt_linux; apply maps_line_length).
  rewrite take_app_length', drop_app_length' by (symmetry; exact L). rewrite parse_fmt by exact Hr. f_equal. exact IH.
Qed.

Lemma maps_text_length rs : length (maps_text rs) = (65 * length rs)%nat.
Proof.
  unfold maps_text. induction rs as [|r rs IH]; [done|]. cbn [map concat length]. rewrite length_app, IH. unfold compose at 1.
  unfold procfs_maps_fmt_linux. rewrite maps_line_length. lia.
Qed.

Lemma render_fold fmt rs sb :
  fold_left (fun a r => procfs_map_render_cb fmt r a) rs sb = (sb ++ concat (map (fmt ∘ region_of) rs))%list.
Proof.
  revert sb. induction rs as [|r rs IH]; intros sb; cbn [fold_left map concat]; [by rewrite app_nil_r|].
  rewrite IH. unfold procfs_map_render_cb, compose at 2. by rewrite <- app_assoc.
Qed.

(** ** Lemmas on the sums *)
Definition sum_of {A} (f : A -> Z) (l : list A) : Z := foldr (fun x a => f x + a) 0 l.

Lemma sum_of_snoc {A} (f : A -> Z) l x : sum_of f (l ++ [x])%list = sum_of f l + f x.
Proof. induction l as [|y l IH]; cbn [sum_of foldr app]; [lia|]. unfold sum_of in IH. rewrite IH. lia. Qed.

Lemma sum_of_plus {A} (f g : A -> Z) l : sum_of (fun x => f x + g x) l = sum_of f l + sum_of g l.
Proof. induction l as [|y l IH]; cbn [sum_of foldr]; [lia|]. unfold sum_of in IH. rewrite IH. lia. Qed.

Lemma sum_of_nonneg {A} (f : A -> Z) l : (forall x, 0 <= f x) -> 0 <= sum_of f l.
Proof. intros Hf. induction l as [|y l IH]; cbn [sum_of foldr]; [lia|]. specialize (Hf y). unfold sum_of in IH. lia. Qed.

Lemma u64_acc a b : u64 (u64 a + b) = u64 (a + b).
Proof. unfold u64, wrap_u. by rewrite Zplus_mod_idemp_l. Qed.

Lemma u64_acc_if (c : bool) a b : (if c then u64 (u64 a + b) else u64 a) = u64 (a + (if c then b else 0)).
Proof. destruct c; [apply u64_acc|by rewrite Z.add_0_r]. Qed.

Section Sums.
Variable PAGE_SIZE : Z.

(** The columns of a region's block in smaps. *)
Definition shared_clean (r : procfs_ext_region) : Z := if er_shared r then clean_kb PAGE_SIZE r else 0.
Definition shared_dirty (r : procfs_ext_region) : Z := if er_shared r then dirty_kb PAGE_SIZE r else 0.
Definition private_clean (r : procfs_ext_region) : Z := if er_shared r then 0 else clean_kb PAGE_SIZE r.
Definition private_dirty (r : procfs_ext_region) : Z := if er_shared r then 0 else dirty_kb PAGE_SIZE r.
Definition anon (r : procfs_ext_region) : Z := if er_anonymous r then rss_kb PAGE_SIZE r else 0.

Lemma columns_range r :
  0 <= rss_kb PAGE_SIZE r < 2 ^ 64 /\ 0 <= dirty_kb PAGE_SIZE r /\ 0 <= clean_kb PAGE_SIZE r
  /\ clean_kb PAGE_SIZE r + dirty_kb PAGE_SIZE r = rss_kb PAGE_SIZE r.
Proof.
  assert (Hr : 0 <= rss_kb PAGE_SIZE r < 2 ^ 64) by (apply wrap_u_range; lia). unfold clean_kb, dirty_kb.
  pose proof (wrap_u_range 64 (er_dirty_pages r * PROCFS_PAGE_KB PAGE_SIZE) ltac:(lia)) as Hd. fold (u64 (er_dirty_pages r * PROCFS_PAGE_KB PAGE_SIZE)) in Hd.
  destruct (Z.ltb_spec (rss_kb PAGE_SIZE r) (u64 (er_dirty_pages r * PROCFS_PAGE_KB PAGE_SIZE))); rewrite (u64_small (rss_kb PAGE_SIZE r - _)) by lia; lia.
Qed.

Lemma columns_sum r : shared_clean r + shared_dirty r + (private_clean r + private_dirty r) = rss_kb PAGE_SIZE r.
Proof.
  pose proof (columns_range r) as (_ & _ & _ & E). unfold shared_clean, shared_dirty, private_clean, private_dirty.
  destruct (er_shared r); lia.
Qed.

(** The totals of smaps_rollup over the regions [es]. *)
Definition rollup_of (es : list procfs_ext_region) : procfs_rollup :=
  fold_left (fun t r => procfs_rollup_cb PAGE_SIZE r t) es rollup_zero.

Lemma rollup_of_spec es :
  let t := rollup_of es in
  ro_rss t = u64 (sum_of (rss_kb PAGE_SIZE) es)
  /\ ro_shared_clean t = u64 (sum_of shared_clean es) /\ ro_shared_dirty t = u64 (sum_of shared_dirty es)
  /\ ro_private_clean t = u64 (sum_of private_clean es) /\ ro_private_dirty t = u64 (sum_of private_dirty es)
  /\ ro_anon t = u64 (sum_of anon es) /\ ro_swap t = u64 (sum_of (swap_kb PAGE_SIZE) es)
  /\ ro_first t = from_option er_start 0 (head es) /\ ro_last t = from_option er_end 0 (last es)
  /\ ro_seen t = bool_decide (es <> []).
Proof.
  cbv zeta. unfold rollup_of. induction es as [|r es IH] using rev_ind; [by vm_compute|].
  rewrite fold_left_app. cbn [fold_left]. set (t := fold_left _ es rollup_zero) in *.
  destruct IH as (E1 & E2 & E3 & E4 & E5 & E6 & E7 & E8 & E9 & E10).
  cbn [procfs_rollup_cb ro_first ro_last ro_rss ro_shared_clean ro_shared_dirty ro_private_clean ro_private_dirty ro_anon ro_swap ro_seen].
  rewrite !sum_of_snoc, E1, E2, E3, E4, E5, E6, E7, E8, E10, last_snoc.
  unfold shared_clean, shared_dirty, private_clean, private_dirty, anon.
  split_and!; [apply u64_acc| | | | | |apply u64_acc| |done|].
  1-2,5: apply u64_acc_if.
  - destruct (er_shared r); [by rewrite Z.add_0_r|apply u64_acc].
  - destruct (er_shared r); [by rewrite Z.add_0_r|apply u64_acc].
  - by destruct es.
  - symmetry. apply bool_decide_true. by destruct es.
Qed.
End Sums.

(** ** Theorems *)
Section Theorems.
Variables (B : bridge) (K : kernel) (creds : cred) (id : pfsid) (p : proc) (rs : list procfs_map_region) (fuel : nat).
Hypothesis Hproc : proc_find K (nodeid_pid id) = Some p.
Hypothesis Haccess : procfs_check_can_access_process creds p = 0.
Hypothesis Hmap : vm_map_ok rs.
Hypothesis Hserves : serves_maps B (nodeid_pid id) rs.
Hypothesis Hfuel : (length rs < fuel)%nat.

Lemma with_process_passes {R} (err : Z -> R) body : with_process K creds id err body = body.
Proof. unfold with_process. by rewrite Hproc, Haccess. Qed.

Lemma foreach_ext_all {A} (cb : procfs_ext_region -> A -> A) arg :
  procfs_map_foreach_ext B K creds fuel cb id arg
  = Some (0, fold_left (fun a r => cb r a) (map ext_region_of rs) arg).
Proof.
  unfold procfs_map_foreach_ext. rewrite with_process_passes, (walk_served _ B _ rs) by done. do 2 f_equal.
  clear. revert arg. induction rs as [|r l IH]; intros arg; [done|]. cbn. by rewrite IH.
Qed.

(** C8. A read of /proc/<pid>/maps lists the address space: through any number
    of daemon replies, a read of [n] bytes at [off] returns that part of a text
    with one 65-byte line per region, and the lines parse back to every region's
    bounds, protection, sharing and offset, in the order of addresses. *)
Theorem maps_roundtrip off n :
  Z.of_nat (length rs) < 2 ^ 24 -> 0 <= off <= 65 * Z.of_nat (length rs) -> 0 <= n ->
  exists T u', procfs_domaps B K creds true fuel id (ubuf_read off n) = Some (0, u')
    /\ uio_out u' = take (Z.to_nat n) (drop (Z.to_nat off) T)
    /\ length T = (65 * length rs)%nat /\ parse_maps (length rs) T = map entry_of rs.
Proof.
  intros Hl Ho Hn. exists (maps_text rs). unfold procfs_domaps, procfs_map_render.
  rewrite with_process_passes, (walk_served _ B _ rs), render_fold by done. cbn [Z.eqb negb app]. fold (maps_text rs).
  destruct (copy_all_read (maps_text rs) off n) as (u' & E & Eo); [rewrite maps_text_length; lia..|done|].
  exists u'. split_and!; [done|done|apply maps_text_length|apply parse_maps_text, Hmap].
Qed.

(** smaps_rollup is the sum of smaps: its totals are, modulo 2^64, the sums
    of the columns of the regions' blocks, its bounds are those of the first and
    the last region, and while the resident total fits 64 bits the clean and dirty,
    shared and private parts add up to it. *)
Theorem smaps_rollup_adds_up {U} `{Uio U} page (u : U) :
  exists t, procfs_dosmaps_rollup B K creds true page fuel id u = copy_all (rollup_text t) u
    /\ ro_first t = from_option mr_start 0 (head rs) /\ ro_last t = from_option (u64 ∘ mr_end) 0 (last rs)
    /\ let es := map ext_region_of rs in
       ro_rss t = u64 (sum_of (rss_kb page) es) /\ ro_swap t = u64 (sum_of (swap_kb page) es)
       /\ ro_anon t = u64 (sum_of (anon page) es)
       /\ (sum_of (rss_kb page) es < 2 ^ 64 ->
           ro_shared_clean t + ro_shared_dirty t + (ro_private_clean t + ro_private_dirty t) = ro_rss t).
Proof.
  exists (rollup_of page (map ext_region_of rs)).
  destruct (rollup_of_spec page (map ext_region_of rs)) as (E1 & E2 & E3 & E4 & E5 & E6 & E7 & E8 & E9 & _).
  cbv zeta. split_and!; [unfold procfs_dosmaps_rollup; by rewrite foreach_ext_all| | |done|done|done|].
  - rewrite E8. by destruct rs.
  - rewrite E9, fmap_last. by destruct (last rs).
  - intros Hs. rewrite E1, E2, E3, E4, E5. set (es := map ext_region_of rs) in *.
    assert (Hn : forall c : procfs_ext_region -> Z, (forall r, 0 <= c r) -> 0 <= sum_of c es) by (intros; by apply sum_of_nonneg).
    assert (Es : sum_of (shared_clean page) es + sum_of (shared_dirty page) es
                 + (sum_of (private_clean page) es + sum_of (private_dirty page) es) = sum_of (rss_kb page) es).
    { rewrite <- !sum_of_plus. unfold sum_of. clear. induction es as [|e es IH]; [done|]. cbn [foldr].
      rewrite IH. pose proof (columns_sum page e). lia. }
    assert (Hc : forall r, 0 <= shared_clean page r /\ 0 <= shared_dirty page r /\ 0 <= private_clean page r /\ 0 <= private_dirty page r).
    { intros r. pose proof (columns_range page r) as (_ & ? & ? & _). unfold shared_clean, shared_dirty, private_clean, private_dirty.
      destruct (er_shared r); lia. }
    pose proof (Hn (shared_clean page) ltac:(apply Hc)). pose proof (Hn (shared_dirty page) ltac:(apply Hc)).
    pose proof (Hn (private_clean page) ltac:(apply Hc)). pose proof (Hn (private_dirty page) ltac:(apply Hc)).
    rewrite !u64_small by lia. lia.
Qed.
End Theorems.

(** The sizes in taskinfo: the virtual size is the sum of the region sizes,
    and the resident size that of the resident pages of the regions that are not
    shared with other tasks, modulo 2^64. *)
Theorem vm_sizes_sum B page p rs fuel :
  vm_map_ok rs -> serves_maps B (p_pid p) rs -> (length rs < fuel)%nat ->
  procfs_task_vm_sizes B page fuel p
  = Some (0, (u64 (sum_of mr_size rs),
              u64 (sum_of (fun r => mr_resident_pages r * page)
                     (List.filter (fun r => negb (share_mode_shared (mr_share_mode r))) rs)))).
Proof.
  intros Hok Hs Hf. unfold procfs_task_vm_sizes. rewrite (walk_served _ B _ rs) by done. cbn [Z.eqb negb]. do 2 f_equal.
  clear. induction rs as [|r l IH] using rev_ind; [done|]. rewrite fold_left_app, IH, List.filter_app. cbn [fold_left]. unfold procfs_map_sizes_cb. cbn [fst snd].
  rewrite sum_of_snoc, u64_acc. f_equal. cbn [List.filter]. destruct (share_mode_shared _); cbn [negb]; [by rewrite app_nil_r|].
  rewrite sum_of_snoc. unfold u64, wrap_u. by rewrite Zplus_mod_idemp_l, Zplus_mod_idemp_r.
Qed.

(** A node that ended: it failed, or it copies a finished text out. *)
Definition ends {U} `{Uio U} (r : option (Z * U)) (u : U) : Prop :=
  (exists e, e <> 0 /\ r = Some (e, u)) \/ (exists T, r = copy_all T u).

(** C33. Every node built on the region walk ends, whatever the daemon answers,
    records that go backwards, overlap or wrap around 2^64 included: each round of
    the walk but the last raises a 64-bit address. *)
Theorem map_nodes_return {U} `{Uio U} B K creds malloc_ok page id fuel (u : U) :
  2 ^ 64 <= Z.of_nat fuel ->
  ends (procfs_domap B K creds malloc_ok fuel id u) u
  /\ ends (procfs_domaps B K creds malloc_ok fuel id u) u
  /\ ends (procfs_dosmaps B K creds malloc_ok page fuel id u) u
  /\ ends (procfs_dosmaps_rollup B K creds malloc_ok page fuel id u) u
  /\ ends (procfs_donuma_maps B K creds malloc_ok page fuel id u) u
  /\ forall p, exists r, procfs_task_vm_sizes B page fuel p = Some r.
Proof.
  intros Hf. assert (Hw : forall A (cb : procfs_map_region -> A -> A) pid arg, exists r, procfs_map_walk cb B fuel pid arg = Some r)
    by (intros; apply map_walk_returns; lia).
  assert (Hr : forall fmt, ends (procfs_map_render B K creds malloc_ok fuel fmt id u) u).
  { intros fmt. unfold procfs_map_render, with_process. destruct (proc_find K _) as [p|]; [|left; by exists ESRCH].
    destruct (Z.eqb_spec (procfs_check_can_access_process creds p) 0); cbn [negb]; [|left; by eexists].
    destruct malloc_ok; [|left; by exists ENOMEM]. destruct (Hw _ (procfs_map_render_cb fmt) (nodeid_pid id) []) as ([err sb] & ->).
    match goal with |- context [Z.eqb ?x 0] => destruct (Z.eqb_spec x 0); [right|left]; by eexists end. }
  assert (He : forall A (cb : procfs_ext_region -> A -> A) arg, exists e t, procfs_map_foreach_ext B K creds fuel cb id arg = Some (e, t)).
  { intros A cb arg. unfold procfs_map_foreach_ext, with_process. destruct (proc_find K _); [|by eexists _, _].
    destruct (negb _); [by eexists _, _|]. destruct (Hw _ (procfs_map_ext_cb cb) (nodeid_pid id) arg) as ([e t] & ->). by eexists _, _. }
  assert (Ht : forall cb, ends (ext_text_node B K creds malloc_ok fuel cb id u) u).
  { intros cb. unfold ext_text_node. destruct malloc_ok; [|left; by exists ENOMEM]. destruct (He _ cb []) as (e & sb & ->).
    match goal with |- context [Z.eqb ?x 0] => destruct (Z.eqb_spec x 0); [right|left]; by eexists end. }
  split_and!; [apply Hr|apply Hr|apply Ht| |apply Ht|].
  - unfold procfs_dosmaps_rollup. destruct (He _ (procfs_rollup_cb page) rollup_zero) as (e & t & ->).
    destruct (Z.eqb_spec e 0); cbn [negb]; [|left; by eexists]. destruct malloc_ok; [right; by eexists|left; by exists ENOMEM].
  - intros p. unfold procfs_task_vm_sizes. destruct (Hw _ (procfs_map_sizes_cb page) (p_pid p) (0, 0)) as ([e c] & ->). by eexists.
Qed.

(** A failure of the walk: on the first request the node reports it, with
    ENOTSUP for a missing daemon, and produces no text; on a later one the regions
    already received are kept. *)
Theorem walk_errors {A} (cb : procfs_map_region -> A -> A) B pid fuel addr first arg rc bs :
  ctl_request B PROCFS_REQ_MAPS pid addr EmptyString 2048 = (rc, bs) -> rc <> 0 ->
  map_walk cb B (S fuel) pid addr first arg
  = Some (if first then (if decide (rc = ENOTCONN \/ rc = ETIMEDOUT) then ENOTSUP else rc) else 0, arg).
Proof.
  intros E Hrc. cbn [map_walk]. change (PROCFS_CTL_MAXPAYLOAD / map_region_size * map_region_size) with 2048. rewrite E.
  destruct (Z.eqb_spec rc 0) as [|_]; [done|]. cbn [negb]. destruct first; [|done]. cbn [negb]. do 2 f_equal.
  destruct (decide _) as [[-> | ->]|Hn]; [done|done|]. destruct (Z.eqb_spec rc ENOTCONN); [tauto|].
  by destruct (Z.eqb_spec rc ETIMEDOUT); [tauto|].
Qed.

(** ** Witnesses *)
Definition map_bridge (rs : list procfs_map_region) : bridge :=
  Bridge (fun _ _ addr _ _ => (0, regions_bytes (fun _ => [0; 0; 0; 0]) (take 32 (above addr rs)))).

Lemma map_bridge_serves pid rs : serves_maps (map_bridge rs) pid rs.
Proof. intros addr _. exists (fun _ => [0; 0; 0; 0]). split; [done|reflexivity]. Qed.

(** A private text region, a shared one, and one that ends at 2^64. *)
Definition sample_regions : list procfs_map_region :=
  [MapRegion 4294967296 16384 0 5 7 0 2 1 0 0 1 0;
   MapRegion 4295000064 32768 0 3 3 0 4 2 2 0 0 1;
   MapRegion 18446744073709535232 16384 8192 1 1 0 2 1 1 3 0 0].

Lemma sample_regions_ok : vm_map_ok sample_regions.
Proof.
  split.
  - repeat constructor; try discriminate; vm_compute; discriminate.
  - repeat constructor; vm_compute; discriminate.
Qed.

Definition map_proc : proc := Proc 42 1 42 42 (Cred 501 501 20 20) "cat" 0 0 false false.
Definition map_kernel : kernel := table_kernel [map_proc] 42.
Definition map_id : pfsid := Pfsid 42 0 0.

Lemma maps_roundtrip_witness :
  exists T u', procfs_domaps (map_bridge sample_regions) map_kernel (p_cred map_proc) true 4 map_id (ubuf_read 0 4096) = Some (0, u')
    /\ uio_out u' = take (Z.to_nat 4096) (drop (Z.to_nat 0) T)
    /\ length T = (65 * length sample_regions)%nat
    /\ parse_maps (length sample_regions) T = map entry_of sample_regions.
Proof.
  apply (maps_roundtrip (map_bridge sample_regions) map_kernel (p_cred map_proc) map_id map_proc sample_regions 4);
    [reflexivity|reflexivity|exact sample_regions_ok|exact (map_bridge_serves _ _)|cbn; lia..].
Defined.

Lemma smaps_rollup_adds_up_witness :
  exists t, procfs_dosmaps_rollup (map_bridge sample_regions) map_kernel (p_cred map_proc) true 16384 4 map_id (ubuf_read 0 4096)
            = copy_all (rollup_text t) (ubuf_read 0 4096)
    /\ ro_rss t = u64 (sum_of (rss_kb 16384) (map ext_region_of sample_regions)).
Proof.
  destruct (smaps_rollup_adds_up (map_bridge sample_regions) map_kernel (p_cred map_proc) map_id map_proc sample_regions 4
    eq_refl eq_refl sample_regions_ok (map_bridge_serves _ _) ltac:(cbn; lia) 16384 (ubuf_read 0 4096)) as (t & E & _ & _ & Er & _).
  exists t. split; [exact E|exact Er].
Defined.

Lemma vm_sizes_sum_witness :
  procfs_task_vm_sizes (map_bridge sample_regions) 16384 4 map_proc = Some (0, (65536, 32768)).
Proof.
  rewrite (vm_sizes_sum (map_bridge sample_regions) 16384 map_proc sample_regions 4 sample_regions_ok (map_bridge_serves _ _) ltac:(cbn; lia)).
  vm_compute. reflexivity.
Defined.

Lemma map_nodes_return_witness :
  exists fuel, ends (procfs_domaps (map_bridge sample_regions) map_kernel (p_cred map_proc) true fuel map_id (ubuf_read 0 4096)) (ubuf_read 0 4096).
Proof.
  exists (Z.to_nat (2 ^ 64)).
  refine (proj1 (proj2 (map_nodes_return (map_bridge sample_regions) map_kernel (p_cred map_proc) true 16384 map_id
            (Z.to_nat (2 ^ 64)) (ubuf_read 0 4096) _))).
  rewrite Z2Nat.id; lia.
Defined.

Lemma walk_errors_witness :
  map_walk (fun r n => n + 1) (Bridge (fun _ _ _ _ _ => (ENOTCONN, []))) 1 42 0 true 0 = Some (ENOTSUP, 0).
Proof.
  rewrite (walk_errors (fun r n => n + 1) (Bridge (fun _ _ _ _ _ => (ENOTCONN, []))) 42 0 0 true 0 ENOTCONN [] eq_refl ltac:(done)).
  reflexivity.
Defined.
