(* ===== verification/Status.v ===== *)
(** * The binary status nodes, limits and descriptors (kext/procfs_status.c,
    kext/procfs_limit.c, kext/procfs_fd.c)

    The nodes that copy one small structure out: the process ids, the
    controlling terminal, proc_bsdshortinfo, proc_taskinfo, proc_threadinfo, the
    descriptor and socket information, and the text of the resource limits, which
    is written into a buffer of a fixed size. *)
From S2P Require Import Prelude Kernel PfsTypes Text Subr Map.
From Stdlib Require Import ZArith Lia String.
From stdpp Require Import base list numbers.
Open Scope Z_scope.

Definition PROCFS_REQ_TASKINFO : Z := 1.
Definition PROCFS_REQ_THREADINFO : Z := 2.
Definition PROCFS_REQ_FDINFO : Z := 11.
Definition PROCFS_REQ_FDSOCKET : Z := 12.
Definition PROCFS_REQ_TTY : Z := 24.
Definition PROCFS_REQ_SHORTBSDINFO : Z := 53.
Definition MAXPATHLEN : Z := 1024.
Definition POLICY_TIMESHARE : Z := 1.

(** An [int] as it lies in memory. *)
Definition int_bytes (z : Z) : bytes := le_bytes 4 (u32 z).

(** Writing a field of a structure. *)
Definition set_field (off n : nat) (v : Z) (bs : bytes) : bytes :=
  (take off bs ++ le_bytes n v ++ drop (off + n) bs)%list.

Section Nodes.
Context {U : Type} `{Uio U}.
Variable B : bridge.
Variable K : kernel.

Definition procfs_dopid (id : pfsid) (u : U) : option (Z * U) := copy_all (int_bytes (nodeid_pid id)) u.

(** The nodes that need the process: ESRCH without it. *)
Definition proc_int (f : proc -> Z) (id : pfsid) (u : U) : option (Z * U) :=
  match proc_find K (nodeid_pid id) with
  | Some p => copy_all (int_bytes (f p)) u
  | None => Some (ESRCH, u)
  end.

Definition procfs_doppid : pfsid -> U -> option (Z * U) := proc_int p_ppid.
Definition procfs_dopgid : pfsid -> U -> option (Z * U) := proc_int p_pgrpid.
Definition procfs_dosid : pfsid -> U -> option (Z * U) := proc_int p_sessionid.

Definition procfs_dotty (id : pfsid) (u : U) : option (Z * U) :=
  let '(rc, path) := ctl_request B PROCFS_REQ_TTY (nodeid_pid id) 0 EmptyString MAXPATHLEN in
  if rc =? ESRCH then Some (ESRCH, u)
  else if negb (rc =? 0) then Some (ENOTSUP, u)
  else copy_all path u.

(** [linux]: the text node of Linux mode, when it is on. *)
Definition procfs_dostatus (linux : option (pfsid -> U -> option (Z * U))) (id : pfsid) (u : U) : option (Z * U) :=
  match linux with
  | Some f => f id u
  | None =>
      let '(error, info) := ctl_request B PROCFS_REQ_SHORTBSDINFO (nodeid_pid id) 0 EmptyString 64 in
      if negb (error =? 0) then Some (error, u)
      else if negb (Z.of_nat (length info) =? 64) then Some (ESRCH, u)
      else copy_all info u
  end.

(** struct proc_taskinfo: 96 bytes; sizes at 0 and 8, the policy at 48, the
    number of threads at 84.  [pidtaskinfo] is the kernel's own, with its error. *)
Section TaskInfo.
Variable pidtaskinfo : proc -> Z * bytes.
Variable PAGE_SIZE : Z.
Variable fuel : nat.

Definition taskinfo_fallback (p : proc) (info : bytes) : option bytes :=
  match procfs_task_vm_sizes B PAGE_SIZE fuel p with
  | None => None
  | Some (error, (vsize, rsize)) =>
      let info := if error =? 0 then set_field 8 8 rsize (set_field 0 8 vsize info) else info in
      let tcount := procfs_get_task_thread_count B true true (Some p) in
      let info := if 0 <? tcount then set_field 84 4 (u32 tcount) info else info in
      Some (if i32 (field 48 4 info) =? 0 then set_field 48 4 POLICY_TIMESHARE info else info)
  end.

Definition procfs_dotaskinfo (id : pfsid) (u : U) : option (Z * U) :=
  match proc_find K (nodeid_pid id) with
  | Some p =>
      let '(rc, info) := ctl_request B PROCFS_REQ_TASKINFO (nodeid_pid id) 0 EmptyString 96 in
      if (rc =? 0) && (Z.of_nat (length info) =? 96) then copy_all info u
      else
        let '(error, info) := pidtaskinfo p in
        if error =? 0 then
          match taskinfo_fallback p info with
          | None => None
          | Some info => copy_all info u
          end
        else Some (ESRCH, u)
  | None => Some (0, u)
  end.
End TaskInfo.

Definition procfs_dothreadinfo (pidthreadinfo : proc -> Z -> Z * bytes) (id : pfsid) (u : U) : option (Z * U) :=
  match proc_find K (nodeid_pid id) with
  | Some p =>
      let threadid := nodeid_objectid id in
      let '(rc, info) := ctl_request B PROCFS_REQ_THREADINFO (nodeid_pid id) threadid EmptyString 112 in
      if (rc =? 0) && (Z.of_nat (length info) =? 112) then copy_all info u
      else
        let '(error, info) := pidthreadinfo p threadid in
        if error =? 0 then copy_all info u else Some (ESRCH, u)
  | None => Some (0, u)
  end.

(** The descriptor nodes; the descriptor is an [int] taken from the object id. *)
Definition fd_struct (ty size : Z) (id : pfsid) (u : U) : option (Z * U) :=
  let fd := i32 (nodeid_objectid id) in
  let '(error, info) := ctl_request B ty (nodeid_pid id) (u64 fd) EmptyString size in
  if negb (error =? 0) then Some (error, u)
  else if negb (Z.of_nat (length info) =? size) then Some (EIO, u)
  else copy_all info u.

Definition procfs_dofd : pfsid -> U -> option (Z * U) := fd_struct PROCFS_REQ_FDINFO 1200.
Definition procfs_dosocket : pfsid -> U -> option (Z * U) := fd_struct PROCFS_REQ_FDSOCKET 792.

(** ** Resource limits *)
Definition RLIM_INFINITY : Z := 9223372036854775807.
Definition rlimit_ident : list string :=
  ["cpu"; "fsize"; "data"; "stack"; "core"; "rss"; "memlock"; "nproc"; "nofile"]%string.

(** A fixed-length sbuf of [cap] bytes keeps a NUL and drops what does not fit. *)
Definition sbuf_add (cap : nat) (sb s : bytes) : bytes := take (cap - 1) (sb ++ s)%list.

Definition limit_value (v : Z) (inf : bytes) (sep : Z) : bytes :=
  if v =? RLIM_INFINITY then inf else (dec v ++ [sep])%list.

Definition limit_line (sb : bytes) (l : string * (Z * Z)) : bytes :=
  let '(name, (cur, max)) := l in
  let sb := sbuf_add 1024 sb (lit name ++ [32])%list in
  let sb := sbuf_add 1024 sb (limit_value cur (lit "-1 ") 32) in
  sbuf_add 1024 sb (limit_value max (lit "-1" ++ [10])%list 10).

(** [limits]: what p_limit points at, none for a pointer that is null or not
    mapped. *)
Definition procfs_dolimit (limits : proc -> option (list (Z * Z))) (id : pfsid) (u : U) : option (Z * U) :=
  match proc_find K (nodeid_pid id) with
  | None => Some (ESRCH, u)
  | Some p =>
      match limits p with
      | None => Some (EIO, u)
      | Some rl => copy_all (fold_left limit_line (zip rlimit_ident rl) []) u
      end
  end.
End Nodes.

(** ** Specification *)
(** One line of limit. *)
Definition limit_num (v : Z) : bytes := if v =? RLIM_INFINITY then lit "-1" else dec v.
Definition limit_text (l : string * (Z * Z)) : bytes :=
  (lit (fst l) ++ [32] ++ limit_num (fst (snd l)) ++ [32] ++ limit_num (snd (snd l)) ++ [10])%list.

(** ** Lemmas *)
Lemma print_u_loop_digits f n acc d :
  (0 < d)%nat -> 0 <= n < 10 ^ Z.of_nat d -> (String.length (print_u_loop f n acc) <= d + String.length acc)%nat.
Proof.
  revert n acc d. induction f as [|f IH]; intros n acc d Hd Hn; cbn [print_u_loop]; [lia|].
  destruct (Z.ltb_spec n 10); [cbn; lia|]. destruct d as [|[|d]]; [lia|cbn in Hn; lia|].
  etrans; [apply (IH _ _ (S d))|cbn; lia]; [lia|]. rewrite (Nat2Z.inj_succ (S d)), Z.pow_succ_r in Hn by lia.
  split; [apply Z.div_pos; lia|apply Z.div_lt_upper_bound; lia].
Qed.

Lemma dec_length v : 0 <= v < 2 ^ 64 -> (length (dec v) <= 20)%nat.
Proof.
  intros Hv. pose proof (print_u_loop_digits (S (Z.to_nat (Z.log2 v))) v EmptyString 20 ltac:(lia)
    ltac:(change (10 ^ Z.of_nat 20) with 100000000000000000000; lia)) as Hl.
  pose proof (bytes_of_string_length (print_u v)) as Hb. unfold strlen in Hb. cbn [String.length] in Hl. unfold dec.
  change (print_u v) with (print_u_loop (S (Z.to_nat (Z.log2 v))) v EmptyString) in *. lia.
Qed.

Lemma limit_text_length l :
  (String.length (fst l) <= 7)%nat -> 0 <= fst (snd l) < 2 ^ 64 -> 0 <= snd (snd l) < 2 ^ 64 -> (length (limit_text l) <= 50)%nat.
Proof.
  intros Hn Hc Hm. unfold limit_text, limit_num. pose proof (bytes_of_string_length (fst l)) as Hb. unfold strlen in Hb. fold (lit (fst l)) in Hb.
  pose proof (dec_length _ Hc). pose proof (dec_length _ Hm). rewrite !length_app. cbn [length].
  destruct (fst (snd l) =? RLIM_INFINITY), (snd (snd l) =? RLIM_INFINITY); cbn [lit bytes_of_string length]; lia.
Qed.

Lemma sbuf_add_fits sb s : (length sb + length s <= 1023)%nat -> sbuf_add 1024 sb s = (sb ++ s)%list.
Proof. intros Hl. apply take_ge. rewrite length_app. lia. Qed.

(** A line is written whole while there is room for it. *)
Lemma limit_line_fits sb l : (length sb + length (limit_text l) <= 1023)%nat -> limit_line sb l = (sb ++ limit_text l)%list.
Proof.
  destruct l as [name [cur max]]. unfold limit_line, limit_text. cbn [fst snd].
  replace (limit_value cur (lit "-1 ") 32) with (limit_num cur ++ [32])%list
    by (unfold limit_value, limit_num; by destruct (cur =? RLIM_INFINITY)).
  replace (limit_value max (lit "-1" ++ [10])%list 10) with (limit_num max ++ [10])%list
    by (unfold limit_value, limit_num; by destruct (max =? RLIM_INFINITY)).
  generalize (limit_num cur) as vc, (limit_num max) as vm.
  intros vc vm Hl. rewrite !length_app in Hl. cbn [length] in Hl.
  rewrite (sbuf_add_fits sb) by (rewrite length_app; cbn [length]; lia).
  rewrite (sbuf_add_fits (sb ++ _)) by (rewrite !length_app; cbn [length]; lia).
  rewrite sbuf_add_fits by (rewrite !length_app; cbn [length]; lia). by rewrite <- !app_assoc.
Qed.

Lemma limit_lines_fit ls sb :
  Forall (fun l => length (limit_text l) <= 50)%nat ls -> (length sb + 50 * length ls <= 1023)%nat ->
  fold_left limit_line ls sb = (sb ++ concat (map limit_text ls))%list.
Proof.
  revert sb. induction ls as [|l ls IH]; intros sb Hf Hl; cbn [fold_left map concat]; [by rewrite app_nil_r|].
  apply Forall_cons_1 in Hf as [H1 Hf]. cbn [length] in Hl. rewrite limit_line_fits by lia.
  rewrite IH by (done || rewrite length_app; lia). by rewrite <- app_assoc.
Qed.

Lemma limit_lines_short rl :
  Forall (fun l => 0 <= fst l < 2 ^ 64 /\ 0 <= snd l < 2 ^ 64) rl ->
  Forall (fun l => length (limit_text l) <= 50)%nat (zip rlimit_ident rl).
Proof.
  assert (Hn : Forall (fun s => String.length s <= 7)%nat rlimit_ident) by (repeat constructor).
  intros Hr. revert Hr. generalize rlimit_ident as ids, Hn. clear Hn. intros ids Hn. revert rl.
  induction Hn as [|s ids Hs _ IH]; intros [|v rl] Hr; [constructor..|]. inversion_clear Hr as [|? ? [H1 H2] Hr'].
  constructor; [|by apply IH]. by apply limit_text_length.
Qed.

Lemma concat_short ls : Forall (fun l => length (limit_text l) <= 50)%nat ls -> (length (concat (map limit_text ls)) <= 50 * length ls)%nat.
Proof. induction 1 as [|l ls Hl _ IH]; [done|]. cbn [map concat length]. rewrite length_app. lia. Qed.

Lemma int_node_decodes v : - 2 ^ 31 <= v < 2 ^ 31 ->
  exists u', copy_all (int_bytes v) (ubuf_read 0 4) = Some (0, u') /\ i32 (le_val (uio_out u')) = v.
Proof.
  intros Hv. destruct (copy_all_read (int_bytes v) 0 4) as (u' & E & Eo); [unfold int_bytes; rewrite ?le_bytes_length; lia..|].
  exists u'. split; [exact E|]. rewrite Eo. change (drop (Z.to_nat 0) ?l) with l. rewrite take_ge by (unfold int_bytes; by rewrite le_bytes_length).
  unfold int_bytes, u32, wrap_u. rewrite le_val_bytes. change (256 ^ Z.of_nat 4) with (2 ^ 32). rewrite Z.mod_mod by lia.
  unfold i32, wrap_s. rewrite Zplus_mod_idemp_l, Z.mod_small by lia. lia.
Qed.

(** ** Theorems *)
(** The limit file is never cut off: its nine lines, whatever the limits,
    fit the fixed 1024-byte buffer, so that a read of [n] bytes at [off] returns
    that part of "<name> <cur> <max>" lines with -1 for an infinite limit. *)
Theorem limit_reads K id p limits rl off n :
  proc_find K (nodeid_pid id) = Some p -> limits p = Some rl -> length rl = 9%nat ->
  Forall (fun l => 0 <= fst l < 2 ^ 64 /\ 0 <= snd l < 2 ^ 64) rl ->
  let T := concat (map limit_text (zip rlimit_ident rl)) in
  0 <= off <= Z.of_nat (length T) -> 0 <= n ->
  (length T <= 450)%nat
  /\ exists u', procfs_dolimit K limits id (ubuf_read off n) = Some (0, u')
       /\ uio_out u' = take (Z.to_nat n) (drop (Z.to_nat off) T).
Proof.
  intros Ep El Hl Hr T Ho Hn. pose proof (limit_lines_short rl Hr) as Hf.
  assert (Hz : length (zip rlimit_ident rl) = 9%nat) by (rewrite length_zip_with; cbn [length rlimit_ident]; lia).
  assert (HT : (length T <= 450)%nat) by (unfold T; pose proof (concat_short _ Hf); lia).
  split; [exact HT|]. unfold procfs_dolimit. rewrite Ep, El, limit_lines_fit by (done || cbn [length]; lia). cbn [app]. fold T.
  apply copy_all_read; lia.
Qed.

(** The id nodes hold one [int]: a read of pid, ppid, pgid or sid returns the
    four bytes that decode to the process's id, and ESRCH when it is gone (pid
    alone needs no process). *)
Theorem id_nodes_decode K id p :
  proc_find K (nodeid_pid id) = Some p ->
  let reads (node : ubuf -> option (Z * ubuf)) (v : Z) :=
    - 2 ^ 31 <= v < 2 ^ 31 -> exists u', node (ubuf_read 0 4) = Some (0, u') /\ i32 (le_val (uio_out u')) = v in
  reads (procfs_dopid id) (nodeid_pid id) /\ reads (procfs_doppid K id) (p_ppid p)
  /\ reads (procfs_dopgid K id) (p_pgrpid p) /\ reads (procfs_dosid K id) (p_sessionid p).
Proof.
  intros Ep. cbv zeta. unfold procfs_dopid, procfs_doppid, procfs_dopgid, procfs_dosid, proc_int. rewrite Ep.
  split_and!; intros Hv; by apply int_node_decodes.
Qed.

(** A node that relays a structure never relays a part of one: status, the
    descriptor and the socket nodes copy the daemon's reply out only when it has
    the size of the structure, and otherwise fail and leave the caller's buffer
    alone. *)
Theorem structs_whole {U} `{Uio U} B id (u : U) :
  (forall ty size,
     let '(e, info) := ctl_request B ty (nodeid_pid id) (u64 (i32 (nodeid_objectid id))) EmptyString size in
     if decide (e = 0 /\ Z.of_nat (length info) = size) then fd_struct B ty size id u = copy_all info u
     else exists e', e' <> 0 /\ fd_struct B ty size id u = Some (e', u))
  /\ (let '(e, info) := ctl_request B PROCFS_REQ_SHORTBSDINFO (nodeid_pid id) 0 EmptyString 64 in
      if decide (e = 0 /\ Z.of_nat (length info) = 64) then procfs_dostatus B None id u = copy_all info u
      else exists e', e' <> 0 /\ procfs_dostatus B None id u = Some (e', u)).
Proof.
  split.
  - intros ty size. unfold fd_struct. destruct (ctl_request B ty _ _ _ _) as [e info].
    destruct (Z.eqb_spec e 0) as [->|He]; cbn [negb]; [|rewrite decide_False by tauto; by exists e].
    destruct (Z.eqb_spec (Z.of_nat (length info)) size) as [Es|Es]; cbn [negb]; [by rewrite decide_True|].
    rewrite decide_False by tauto. by exists EIO.
  - unfold procfs_dostatus. destruct (ctl_request B _ _ _ _ _) as [e info].
    destruct (Z.eqb_spec e 0) as [->|He]; cbn [negb]; [|rewrite decide_False by tauto; by exists e].
    destruct (Z.eqb_spec (Z.of_nat (length info)) 64) as [Es|Es]; cbn [negb]; [by rewrite decide_True|].
    rewrite decide_False by tauto. by exists ESRCH.
Qed.

(** taskinfo and threadinfo succeed without a byte when the process is gone,
    where the other nodes of a process fail with ESRCH. *)
Theorem taskinfo_gone {U} `{Uio U} B K pti pthi page fuel id (u : U) :
  proc_find K (nodeid_pid id) = None ->
  procfs_dotaskinfo B K pti page fuel id u = Some (0, u) /\ procfs_dothreadinfo B K pthi id u = Some (0, u)
  /\ procfs_doppid K id u = Some (ESRCH, u).
Proof. intros E. unfold procfs_dotaskinfo, procfs_dothreadinfo, procfs_doppid, proc_int. by rewrite E. Qed.

(** ** Witnesses *)
Definition st_proc : proc := Proc 42 1 40 39 (Cred 501 501 20 20) "cat" 0 0 false false.
Definition st_kernel : kernel := table_kernel [st_proc] 42.
Definition st_id : pfsid := Pfsid 42 0 0.
Definition st_limits : list (Z * Z) := (7, 8) :: repeat (100, RLIM_INFINITY) 8.

Lemma limit_reads_witness :
  exists u', procfs_dolimit st_kernel (fun _ => Some st_limits) st_id (ubuf_read 0 8) = Some (0, u') /\ uio_out u' = lit "cpu 7 8" ++ [10].
Proof.
  destruct (limit_reads st_kernel st_id st_proc (fun _ => Some st_limits) st_limits 0 8) as (_ & u' & E & Eo);
    [reflexivity..|repeat constructor; vm_compute; discriminate|vm_compute; split; discriminate|lia|].
  exists u'. split; [exact E|]. rewrite Eo. vm_compute. reflexivity.
Defined.

Lemma id_nodes_decode_witness :
  exists u', procfs_doppid st_kernel st_id (ubuf_read 0 4) = Some (0, u') /\ i32 (le_val (uio_out u')) = 1.
Proof.
  destruct (id_nodes_decode st_kernel st_id st_proc eq_refl) as (_ & E & _). apply E. cbn. lia.
Defined.

Lemma structs_whole_witness :
  procfs_dostatus (Bridge (fun _ _ _ _ _ => (0, repeat 7 64))) None st_id (ubuf_read 0 64)
  = copy_all (repeat 7 64) (ubuf_read 0 64).
Proof.
  destruct (structs_whole (Bridge (fun _ _ _ _ _ => (0, repeat 7 64))) st_id (ubuf_read 0 64)) as [_ E]. exact E.
Defined.

Lemma taskinfo_gone_witness :
  procfs_doppid st_kernel (Pfsid 43 0 0) (ubuf_read 0 4) = Some (ESRCH, ubuf_read 0 4).
Proof.
  apply (taskinfo_gone (Bridge (fun _ _ _ _ _ => (0, []))) st_kernel (fun _ => (0, [])) (fun _ _ => (0, [])) 16384 1 (Pfsid 43 0 0)
    (ubuf_read 0 4)). reflexivity.
Defined.
