(* ===== verification/Daemon.v ===== *)
(** * The user-space daemon (tools/procfsd.c)

    The other end of the control socket: the handlers that read a task's
    regions, page dispositions, memory, arguments and threads through Mach calls,
    the cached listings that are sent slice by slice, and the request loop.  The
    Mach and sysctl calls are operations of a [host]; what the handlers rely on is
    the class [HostShows].  The handlers discharge the promises that the theorems
    of the extension's readers (Mem, Map, Cmdline, Subr) assume of their bridge. *)
From S2P Require Import Prelude Kernel PfsTypes Text Subr Ctl Cmdline Mem Map.
From Stdlib Require Import ZArith Lia String Sorted.
From stdpp Require Import base list numbers sets gmap.
Open Scope Z_scope.

Definition EBADF : Z := 9.

(** ** What the daemon asks the system *)
Record vm_basic := VmBasic {
  vb_start : Z; vb_size : Z; vb_offset : Z; vb_protection : Z; vb_max_protection : Z;
  vb_user_wired_count : Z; vb_shared : Z
}.
Record vm_extended := VmExtended {
  ve_share_mode : Z; ve_pages_resident : Z; ve_pages_dirtied : Z; ve_pages_swapped_out : Z; ve_external_pager : Z
}.

(** A task port. *)
Record task := Task {
  vm_region_basic : Z -> option vm_basic;       (* mach_vm_region, VM_REGION_BASIC_INFO_64 *)
  vm_region_extended : Z -> option vm_extended; (* mach_vm_region, VM_REGION_EXTENDED_INFO *)
  vm_page_query : Z -> option Z;                (* mach_vm_page_query: the disposition *)
  vm_read : Z -> Z -> option bytes;             (* mach_vm_read_overwrite *)
  task_threads : option (list (option Z))       (* task_threads and each thread's thread_info *)
}.

(** The system: task ports, the KERN_PROCARGS2 sysctl (return value, errno and
    value, for a buffer of the size given) and the proc_pidinfo family (return value, errno and
    what was written, for a request type, a process, an argument and a size). *)
Record host := Host {
  task_for_pid : Z -> option task;
  sysctl_procargs2 : Z -> Z -> Z * Z * bytes;
  pidinfo : Z -> Z -> Z -> Z -> Z * Z * bytes;
  page_size : Z
}.

Definition ext_zero : vm_extended := VmExtended 0 0 0 0 0.

(** ** The handlers: the error and the payload of the response *)
Section Handlers.
Variable H : host.

Definition procfsd_handle_threadlist (pid : Z) : Z * bytes :=
  match task_for_pid H pid with
  | None => (EPERM, [])
  | Some t =>
      match task_threads t with
      | None | Some [] => (ESRCH, [])
      | Some ths =>
          let ids := take (Z.to_nat (PROCFS_CTL_MAXPAYLOAD / 8)) (omap id ths) in
          match ids with
          | [] => (ESRCH, [])
          | _ => (0, concat (map (le_bytes 8) ids))
          end
      end
  end.

(** One record, from the two probes of a region. *)
Definition map_record (b : vm_basic) (e : vm_extended) : procfs_map_region :=
  MapRegion (vb_start b) (vb_size b) (vb_offset b) (u32 (vb_protection b)) (u32 (vb_max_protection b))
    (vb_user_wired_count b) (ve_share_mode e) (ve_pages_resident e) (ve_pages_dirtied e) (ve_pages_swapped_out e)
    (ve_external_pager e) (u32 (vb_shared b)).

(** The loop; [room] records still fit. *)
Fixpoint maps_loop (t : task) (room : nat) (addr : Z) : list procfs_map_region :=
  match room with
  | O => []
  | S room' =>
      match vm_region_basic t addr with
      | None => []
      | Some b =>
          let addr := vb_start b in
          let ei := default ext_zero (vm_region_extended t addr) in
          let next := u64 (addr + vb_size b) in
          map_record b ei :: (if next <=? addr then [] else maps_loop t room' next)
      end
  end.

(** [pad]: what the padding of the records on the stack holds. *)
Definition procfsd_handle_maps (pad : nat -> bytes) (pid arg : Z) : Z * bytes :=
  match task_for_pid H pid with
  | None => (EPERM, [])
  | Some t => (0, regions_bytes pad (maps_loop t (Z.to_nat (PROCFS_CTL_MAXPAYLOAD / map_region_size)) arg))
  end.

Definition VM_PAGE_QUERY_PAGE_PRESENT : Z := 1.
Definition VM_PAGE_QUERY_PAGE_DIRTY : Z := 8.
Definition VM_PAGE_QUERY_PAGE_PAGED_OUT : Z := 16.
Definition VM_PAGE_QUERY_PAGE_EXTERNAL : Z := 128.

Definition flag (disp bit : Z) (k : Z) : Z := if negb (Z.land disp bit =? 0) then Z.shiftl 1 k else 0.

Definition page_entry (disp : Z) : Z :=
  if negb (disp =? 0) then
    Z.lor (Z.lor (Z.lor (flag disp VM_PAGE_QUERY_PAGE_PRESENT 63) (flag disp VM_PAGE_QUERY_PAGE_PAGED_OUT 62))
      (flag disp VM_PAGE_QUERY_PAGE_EXTERNAL 61)) (flag disp VM_PAGE_QUERY_PAGE_DIRTY 55)
  else 0.

Definition procfsd_handle_pagemap (pid arg : Z) : Z * bytes :=
  match task_for_pid H pid with
  | None => (EPERM, [])
  | Some t =>
      match vm_region_basic t arg with
      | None => (0, [])
      | Some b =>
          let entry i :=
            let va := u64 (arg + i * page_size H) in
            if vb_start b <=? va then
              match vm_page_query t va with Some disp => page_entry disp | None => 0 end
            else 0 in
          (0, concat (map (fun i => le_bytes 8 (entry i)) (seqZ 0 (PROCFS_CTL_MAXPAYLOAD / 8))))
      end
  end.

(** Every round but the last reads at least a byte; [None]: out of fuel. *)
Fixpoint memread_loop (t : task) (fuel : nat) (base : Z) (out : bytes) : option bytes :=
  match fuel with
  | O => None
  | S f =>
      let total := Z.of_nat (length out) in
      if total <? PROCFS_CTL_MAXPAYLOAD then
        let cur := u64 (base + total) in
        let pgoff := Z.land cur (page_size H - 1) in
        let chunk := page_size H - pgoff in
        let chunk := if PROCFS_CTL_MAXPAYLOAD - total <? chunk then PROCFS_CTL_MAXPAYLOAD - total else chunk in
        match vm_read t cur chunk with
        | None | Some [] => Some out
        | Some bs => if Z.of_nat (length bs) <? chunk then Some (out ++ bs)%list else memread_loop t f base (out ++ bs)%list
        end
      else Some out
  end.

Definition procfsd_handle_memread (pid arg : Z) : option (Z * bytes) :=
  match task_for_pid H pid with
  | None => Some (EPERM, [])
  | Some t => (fun out => (0, out)) <$> memread_loop t 2049 arg []
  end.

Definition slice (T : bytes) (off : Z) : bytes :=
  if off <? Z.of_nat (length T) then
    let avail := Z.of_nat (length T) - off in
    let n := if avail <? PROCFS_CTL_MAXPAYLOAD then avail else PROCFS_CTL_MAXPAYLOAD in
    take (Z.to_nat n) (drop (Z.to_nat off) T)
  else [].

Definition procfsd_handle_procargs (argmax : Z) (malloc_ok : bool) (pid arg : Z) : Z * bytes :=
  if malloc_ok then
    let '(r, errno, buf) := sysctl_procargs2 H argmax pid in
    if negb (r =? 0) then (if negb (errno =? 0) then errno else EINVAL, []) else (0, slice buf arg)
  else (ENOMEM, []).

(** The requests that are one proc_pidinfo call with a reply of a fixed size. *)
Definition fixed_info (ty pid arg size dflt : Z) : Z * bytes :=
  let '(r, errno, bs) := pidinfo H ty pid arg size in
  if r =? size then (0, bs) else (if r <? 0 then errno else dflt, []).

Definition fdlist_info (pid : Z) : Z * bytes :=
  let '(r, errno, bs) := pidinfo H PROCFS_REQ_FDLIST pid 0 PROCFS_CTL_MAXPAYLOAD in
  if 0 <=? r then (0, take (Z.to_nat r) bs) else (errno, []).
End Handlers.

(** ** The cached listings *)
Definition blob_types : list Z :=
  [8; 9; 13; 39; 15; 29; 17; 30; 31; 32; 33; 43; 44; 45; 46; 47; 48; 49; 50; 51; 34; 35; 36; 37; 38; 18; 19; 20; 21].

(** The globals [g_*_blob]; a listing that was never built is absent. *)
Record dstate := Dstate { g_blobs : gmap Z bytes }.

(** One request for a listing; [built] is what its build function leaves now,
    none for a failure. *)
Definition blob_request (ty : Z) (built : option bytes) (arg : Z) (s : dstate) : bytes * dstate :=
  let s := if arg =? 0 then Dstate (match built with Some T => <[ty := T]> (g_blobs s) | None => delete ty (g_blobs s) end)
           else s in
  (match g_blobs s !! ty with Some T => slice T arg | None => [] end, s).

(** ** The request loop *)
Definition PROCFS_REQ_TASKINFO : Z := 1.
Definition PROCFS_REQ_THREADINFO : Z := 2.
Definition PROCFS_REQ_FDINFO : Z := 11.
Definition PROCFS_REQ_FDSOCKET : Z := 12.
Definition PROCFS_REQ_SHORTBSDINFO : Z := 53.

(** sizeof of the structures the fixed replies carry (proc_info.h). *)
Definition fixed_size (ty : Z) : option (Z * Z) :=
  if ty =? PROCFS_REQ_TASKINFO then Some (96, ESRCH)
  else if ty =? PROCFS_REQ_THREADINFO then Some (112, ESRCH)
  else if ty =? PROCFS_REQ_SHORTBSDINFO then Some (64, ESRCH)
  else if ty =? PROCFS_REQ_FDINFO then Some (1200, EBADF)
  else if ty =? PROCFS_REQ_FDSOCKET then Some (792, EBADF)
  else None.

Section Loop.
Variable H : host.
Variable pad : nat -> bytes.
Variable argmax : Z.
Variable malloc_ok : bool.
(** What the listing of a type would be now. *)
Variable built : Z -> option bytes.
(** The requests whose answers come from IOKit, host statistics, sysctls by
    name, the terminal's device name or thread_get_state, and not from the calls
    above (HostInfo.daemon_arms); [None]: the arm's behaviour is undefined. *)
Variable elsewhere : Z -> option (Z -> Z -> string -> option (Z * bytes)).

Definition serve (q : procfs_ctl_req) (s : dstate) : option (Z * bytes * dstate) :=
  let ty := q_type q in let pid := q_pid q in let arg := q_arg q in
  let pure r := Some (r, s) in
  match fixed_size ty with
  | Some (size, dflt) =>
      let arg := if (ty =? PROCFS_REQ_FDINFO) || (ty =? PROCFS_REQ_FDSOCKET) then i32 arg
                 else if ty =? PROCFS_REQ_THREADINFO then arg else 0 in
      pure (fixed_info H ty pid arg size dflt)
  | None =>
      if ty =? PROCFS_REQ_FDLIST then pure (fdlist_info H pid)
      else if ty =? PROCFS_REQ_THREADLIST then pure (procfsd_handle_threadlist H pid)
      else if ty =? PROCFS_REQ_MAPS then pure (procfsd_handle_maps H pad pid arg)
      else if ty =? PROCFS_REQ_PAGEMAP then pure (procfsd_handle_pagemap H pid arg)
      else if ty =? PROCFS_REQ_MEMREAD then
        match procfsd_handle_memread H pid arg with Some r => pure r | None => None end
      else if ty =? PROCFS_REQ_PROCARGS then pure (procfsd_handle_procargs H argmax malloc_ok pid arg)
      else if bool_decide (ty ∈ blob_types) then
        let '(out, s') := blob_request ty (built ty) arg s in Some (0, out, s')
      else match elsewhere ty with
           | Some f => match f pid arg (q_name q) with Some r => pure r | None => None end
           | None => pure (EINVAL, [])
           end
  end.

(** One turn: a request record of full length with the magic number is answered
    with its own sequence number, anything else is dropped. *)
Definition daemon_turn (whole : bool) (q : procfs_ctl_req) (s : dstate) : option (option bytes * dstate) :=
  if whole && (q_magic q =? PROCFS_CTL_MAGIC) then
    match serve q s with
    | Some (error, payload, s') => Some (Some (mk_reply (q_seq q) error payload), s')
    | None => None
    end
  else Some (None, s).
End Loop.

(** ** Specification: the image of a process, and a task port that shows it *)
Record image := Image {
  im_regions : list procfs_map_region;
  im_disp : Z -> Z;             (* the disposition of the page at an address *)
  im_mem : Z -> option Z        (* the resident bytes *)
}.

Definition basic_of (r : procfs_map_region) : vm_basic :=
  VmBasic (mr_start r) (mr_size r) (mr_offset r) (mr_prot r) (mr_max_prot r) (mr_user_wired r) (mr_shared r).
Definition ext_of (r : procfs_map_region) : vm_extended :=
  VmExtended (mr_share_mode r) (mr_resident_pages r) (mr_dirty_pages r) (mr_swapped_pages r) (mr_external_pager r).

Definition mapped (rs : list procfs_map_region) (va : Z) : bool :=
  existsb (fun r => (mr_start r <=? va) && (va <? mr_end r)) rs.

Class ImageOk (page : Z) (im : image) : Prop := {
  io_map : vm_map_ok (im_regions im);
  io_page : exists k, 0 <= k <= 20 /\ page = 2 ^ k;
  io_aligned r : r ∈ im_regions im -> mr_start r mod page = 0 /\ mr_size r mod page = 0;
  io_top r : r ∈ im_regions im -> mr_end r + 256 * page <= 2 ^ 64;
  (** Memory is resident by pages. *)
  io_resident va va' : va / page = va' / page -> is_Some (im_mem im va) -> is_Some (im_mem im va')
}.

(** The documented behaviour of the Mach calls: mach_vm_region finds the first
    region at or above the address, mach_vm_page_query reports the disposition of a
    mapped page and nothing for another, and a read within one page succeeds as a
    whole exactly when the page is resident. *)
Class TaskShows (t : task) (page : Z) (im : image) : Prop := {
  ts_basic addr : vm_region_basic t addr = basic_of <$> head (above addr (im_regions im));
  ts_extended addr : vm_region_extended t addr = ext_of <$> head (above addr (im_regions im));
  ts_mapped va : mapped (im_regions im) va = true -> vm_page_query t va = Some (im_disp im va);
  ts_hole va : mapped (im_regions im) va = false -> vm_page_query t va = None \/ vm_page_query t va = Some 0;
  ts_read va n : 0 < n -> va mod page + n <= page ->
    vm_read t va n = match im_mem im va with Some _ => Some (resident (im_mem im) va (Z.to_nat n)) | None => None end
}.

(** The bridge that ends at the daemon, for requests that do not change its
    state. *)
Definition daemon_bridge H pad argmax malloc_ok built elsewhere (s : dstate) : bridge :=
  Bridge (fun ty pid arg nm cap =>
    match serve H pad argmax malloc_ok built elsewhere (CtlReq PROCFS_CTL_MAGIC 0 ty pid arg nm) s with
    | Some (0, pl, _) => (0, take (Z.to_nat cap) pl)
    | Some (e, _, _) => (e, [])
    | None => (ETIMEDOUT, [])
    end).

(** The page map of an image: of a mapped page, bit 63 says present, bit 62
    swapped, bit 61 file-mapped or shared and bit 55 soft-dirty, which the
    disposition has as its bits 0 (PRESENT), 4 (PAGED_OUT), 7 (EXTERNAL) and 3
    (DIRTY); the other bits are 0. *)
Definition image_entry (page : Z) (im : image) (k : Z) : Z :=
  if mapped (im_regions im) (k * page) then
    let bit i := Z.b2z (Z.testbit (im_disp im (k * page)) i) in
    bit 0 * 2 ^ 63 + bit 4 * 2 ^ 62 + bit 7 * 2 ^ 61 + bit 3 * 2 ^ 55
  else 0.
Definition image_pages (page : Z) (im : image) : Z := from_option (fun r => mr_end r / page) 0 (last (im_regions im)).

(** ** Lemmas *)
Lemma flag_bit d i k : 0 <= i -> 0 <= k -> flag d (2 ^ i) k = Z.b2z (Z.testbit d i) * 2 ^ k.
Proof.
  intros Hi Hk. unfold flag. rewrite Z.shiftl_1_l.
  assert (E : Z.land d (2 ^ i) = Z.b2z (Z.testbit d i) * 2 ^ i).
  { apply Z.bits_inj'. intros n Hn. rewrite Z.land_spec, Z.pow2_bits_eqb by done. destruct (Z.eqb_spec i n) as [->|Hne].
    - destruct (Z.testbit d n); cbn [Z.b2z andb]; [|by rewrite Z.mul_0_l, Z.bits_0]. by rewrite Z.mul_1_l, Z.pow2_bits_true.
    - rewrite andb_false_r. destruct (Z.testbit d i); cbn [Z.b2z]; [|by rewrite Z.mul_0_l, Z.bits_0].
      by rewrite Z.mul_1_l, Z.pow2_bits_false. }
  rewrite E. destruct (Z.testbit d i); cbn [Z.b2z]; [|done].
  rewrite Z.mul_1_l. pose proof (Z.pow_pos_nonneg 2 i ltac:(lia) Hi). by rewrite (proj2 (Z.eqb_neq (2 ^ i) 0)), Z.mul_1_l by lia.
Qed.

Lemma page_entry_bits d :
  page_entry d = Z.b2z (Z.testbit d 0) * 2 ^ 63 + Z.b2z (Z.testbit d 4) * 2 ^ 62 + Z.b2z (Z.testbit d 7) * 2 ^ 61
                 + Z.b2z (Z.testbit d 3) * 2 ^ 55.
Proof.
  unfold page_entry. destruct (Z.eqb_spec d 0) as [->|_]; cbn [negb]; [by rewrite !Z.bits_0|].
  change VM_PAGE_QUERY_PAGE_PRESENT with (2 ^ 0). change VM_PAGE_QUERY_PAGE_PAGED_OUT with (2 ^ 4).
  change VM_PAGE_QUERY_PAGE_EXTERNAL with (2 ^ 7). change VM_PAGE_QUERY_PAGE_DIRTY with (2 ^ 3).
  rewrite !flag_bit by done. by destruct (Z.testbit d 0), (Z.testbit d 4), (Z.testbit d 7), (Z.testbit d 3).
Qed.

Lemma slice_take T off : 0 <= off -> slice T off = take 2048 (drop (Z.to_nat off) T).
Proof.
  intros Ho. unfold slice, PROCFS_CTL_MAXPAYLOAD. destruct (Z.ltb_spec off (Z.of_nat (length T))) as [Hl|Hl].
  - destruct (Z.ltb_spec (Z.of_nat (length T) - off) 2048); [|done]. rewrite !take_ge by (rewrite length_drop; lia). done.
  - by rewrite drop_ge by lia.
Qed.

Lemma map_record_of r : region_ok r -> map_record (basic_of r) (ext_of r) = r.
Proof.
  intros Hr. pose proof (rk_words r Hr) as Hw. rewrite !Forall_cons in Hw. destruct Hw as (W1 & W2 & _ & _ & _ & _ & _ & _ & W9 & _).
  destruct r. unfold map_record. cbn in *. rewrite !u32_small by lia. done.
Qed.

Lemma above_at rs pre r post a : vm_map_ok rs -> rs = (pre ++ r :: post)%list -> mr_start r <= a < mr_end r -> above a rs = r :: post.
Proof.
  intros Hok E Ha. pose proof (sorted_ends _ Hok pre r post E) as [H1 H2].
  rewrite E, above_app, above_none, above_all; [done| |].
  - constructor; [lia|]. eapply Forall_impl; [exact H2|]. intros q Hq. cbn beta in Hq. lia.
  - eapply Forall_impl; [exact H1|]. intros q Hq. cbn beta in Hq. lia.
Qed.

(** The first region at or above an address, and what follows it. *)
Lemma above_head addr rs r l : vm_map_ok rs -> above addr rs = r :: l ->
  region_ok r /\ addr < mr_end r /\ exists pre, rs = (pre ++ r :: l)%list.
Proof.
  intros Hok E. assert (Hin : In r (above addr rs)) by (rewrite E; by left). apply List.filter_In in Hin as [Hin Hlt].
  apply list_elem_of_In in Hin. split_and!; [by apply (proj1 (Forall_forall _ _) (vk_regions rs Hok))|lia|].
  clear Hin. revert E. pose proof (vk_sorted rs Hok) as Hs. pose proof (vk_regions rs Hok) as Hr. clear Hok.
  induction rs as [|q rs IH]; [done|]. inversion_clear Hs as [|? ? Hs' Hq]. apply Forall_cons in Hr as [Hrq Hr].
  unfold above in *. cbn [List.filter]. destruct (Z.ltb_spec addr (mr_end q)) as [Hlq|Hlq]; intros E.
  - injection E as -> <-. exists []. cbn. f_equal. symmetry. apply above_all. rewrite !Forall_forall in *. intros x Hx.
    specialize (Hq x Hx). cbn beta in Hq. pose proof (rk_size x (Hr x Hx)). unfold mr_end in *. lia.
  - destruct (IH Hs' Hr E) as (pre & ->). by exists (q :: pre).
Qed.

Lemma maps_loop_shows t page im room addr :
  TaskShows t page im -> vm_map_ok (im_regions im) -> 0 <= addr < 2 ^ 64 ->
  maps_loop t room addr = take room (above addr (im_regions im)).
Proof.
  intros Ht Hok. revert addr. induction room as [|room IH]; intros addr Ha; [done|]. cbn [maps_loop]. rewrite ts_basic.
  destruct (above addr (im_regions im)) as [|r l] eqn:E; [done|]. cbn [head fmap option_fmap option_map take firstn].
  destruct (above_head addr _ r l Hok E) as (Hr & Hlt & pre & Ers). pose proof (rk_size r Hr). pose proof (rk_start r Hr). pose proof (rk_end r Hr).
  cbn [basic_of vb_start vb_size]. fold (basic_of r). rewrite ts_extended, (above_at _ pre r l) by (done || unfold mr_end; lia).
  cbn [head fmap option_fmap option_map default from_option]. rewrite map_record_of by done. f_equal. fold (mr_end r).
  assert (En : above (mr_end r) (im_regions im) = l) by (by apply (above_next _ pre [] r l Hok)).
  destruct (decide (mr_end r = 2 ^ 64)) as [E64|E64].
  - rewrite E64. change (u64 (2 ^ 64)) with 0. destruct (Z.leb_spec 0 (mr_start r)); [|lia].
    rewrite <- En, E64, above_none; [by rewrite take_nil|]. eapply Forall_impl; [exact (vk_regions _ Hok)|].
    intros q Hq. apply (rk_end q Hq).
  - rewrite u64_small by (unfold mr_end in *; lia). destruct (Z.leb_spec (mr_end r) (mr_start r)); [unfold mr_end in *; lia|].
    rewrite IH by (unfold mr_end in *; lia). by rewrite En.
Qed.

Lemma land_page page x : (exists k, 0 <= k <= 20 /\ page = 2 ^ k) -> Z.land x (page - 1) = x mod page.
Proof. intros (k & Hk & ->). rewrite <- Z.land_ones by lia. f_equal. rewrite Z.ones_equiv. lia. Qed.

Lemma page_pos page im : ImageOk page im -> 0 < page <= 2 ^ 20.
Proof. intros Hi. destruct io_page as (k & Hk & ->). split; [lia|]. apply Z.pow_le_mono_r; lia. Qed.

(** Within a page either every byte is resident or none. *)
Lemma resident_page page im va n : ImageOk page im -> is_Some (im_mem im va) -> va mod page + n <= page ->
  length (resident (im_mem im) va (Z.to_nat n)) = Z.to_nat n.
Proof.
  intros Hi Hs Hn. pose proof (page_pos page im Hi) as Hp.
  enough (G : forall m a, a / page = va / page -> (a mod page + Z.of_nat m <= page) -> length (resident (im_mem im) a m) = m).
  { apply G; [done|]. destruct (Z.le_gt_cases 0 n); [lia|]. pose proof (Z.mod_pos_bound va page ltac:(lia)). lia. }
  induction m as [|m IH]; intros a Ea Hm; [done|]. cbn [resident].
  destruct (io_resident va a (eq_sym Ea) Hs) as [b ->]. cbn [length]. f_equal.
  pose proof (Z.div_mod a page ltac:(lia)) as Hd. pose proof (Z.mod_pos_bound a page ltac:(lia)) as Hb.
  destruct m as [|m]; [done|].
  assert (Eq : (a + 1) / page = a / page /\ (a + 1) mod page = a mod page + 1).
  { split; symmetry; [apply (Z.div_unique_pos _ _ _ (a mod page + 1))|apply (Z.mod_unique_pos _ _ (a / page))]; lia. }
  apply IH; lia.
Qed.

Lemma memread_loop_shows H t im fuel base out :
  TaskShows t (page_size H) im -> ImageOk (page_size H) im -> 0 <= base < 2 ^ 63 ->
  (length out <= 2048)%nat -> out = resident (im_mem im) base (length out) -> (2048 - length out < fuel)%nat ->
  memread_loop H t fuel base out = Some (resident (im_mem im) base 2048).
Proof.
  intros Ht Hi Hb. pose proof (page_pos _ _ Hi) as Hpp. revert out. induction fuel as [|f IH]; intros out Hl Eo Hf; [lia|].
  cbn [memread_loop]. unfold PROCFS_CTL_MAXPAYLOAD. destruct (Z.ltb_spec (Z.of_nat (length out)) 2048) as [Hlt|Hge].
  2: { assert (E : length out = 2048%nat) by lia. rewrite E in Eo. by rewrite <- Eo. }
  rewrite u64_small, land_page by (try apply io_page; lia).
  set (cur := base + Z.of_nat (length out)). pose proof (Z.mod_pos_bound cur (page_size H) ltac:(lia)) as Hm.
  set (chunk := if _ <? _ then _ else _).
  assert (Hc : chunk = Z.min (2048 - Z.of_nat (length out)) (page_size H - cur mod page_size H))
    by (unfold chunk; destruct (Z.ltb_spec (2048 - Z.of_nat (length out)) (page_size H - cur mod page_size H)); lia).
  rewrite ts_read by lia. destruct (im_mem im cur) as [b|] eqn:Ec.
  - pose proof (resident_page _ _ cur chunk Hi ltac:(by rewrite Ec) ltac:(lia)) as Hlen.
    destruct (resident (im_mem im) cur (Z.to_nat chunk)) as [|b' bs] eqn:Er; [cbn in Hlen; lia|]. rewrite <- Er in *.
    rewrite Hlen. destruct (Z.ltb_spec (Z.of_nat (Z.to_nat chunk)) chunk); [lia|].
    apply IH; rewrite length_app, Hlen; [lia| |lia]. rewrite resident_full by (by rewrite <- Eo). by rewrite <- Eo.
  - f_equal. replace 2048%nat with (length out + (2048 - length out))%nat at 1 by lia.
    rewrite resident_full by (by rewrite <- Eo). fold cur. rewrite <- Eo. destruct (2048 - length out)%nat as [|m]; cbn [resident];
      [by rewrite app_nil_r|]. by rewrite Ec, app_nil_r.
Qed.

(** Whether an address below the first region at or above [a] is mapped. *)
Lemma hole_below rs a r l va : vm_map_ok rs -> above a rs = r :: l -> a <= va < mr_start r -> mapped rs va = false.
Proof.
  intros Hok E Hva. destruct (above_head a rs r l Hok E) as (Hr & Hlt & pre & ->).
  pose proof (sorted_ends _ Hok pre r l eq_refl) as [H1 H2]. unfold mapped. apply not_true_is_false. intros Hex.
  apply existsb_exists in Hex as (q & Hin & Hq). apply List.in_app_or in Hin as [Hin|[->|Hin]].
  - assert (Hab : In q (above a (pre ++ r :: l)%list)).
    { apply List.filter_In. split; [apply List.in_or_app; by left|]. lia. }
    rewrite E in Hab. pose proof (sorted_ends _ Hok pre r l eq_refl) as [_ _].
    apply list_elem_of_In in Hin. rewrite Forall_forall in H1. specialize (H1 q Hin). cbn beta in H1.
    destruct Hab as [->|Hab].
    + pose proof (rk_size q Hr). unfold mr_end in *. lia.
    + apply list_elem_of_In in Hab. rewrite Forall_forall in H2. specialize (H2 q Hab). cbn beta in H2.
      pose proof (rk_size r Hr). unfold mr_end in *. lia.
  - lia.
  - apply list_elem_of_In in Hin. pose proof (vk_sorted _ Hok) as Hs.
    assert (Hs2 : StronglySorted (fun a b => mr_end a <= mr_start b) (r :: l)).
    { clear -Hs. induction pre as [|x pre IH]; [done|]. cbn in Hs. inversion_clear Hs. by apply IH. }
    inversion_clear Hs2 as [|? ? _ Hq2]. rewrite Forall_forall in Hq2. specialize (Hq2 q Hin). cbn beta in Hq2.
    pose proof (rk_size r Hr). unfold mr_end in *. lia.
Qed.

Lemma above_empty rs a : vm_map_ok rs -> above a rs = [] <-> from_option (fun r => mr_end r <= a) True (last rs).
Proof.
  intros Hok. destruct (last rs) as [r|] eqn:El.
  - apply last_Some in El as (pre & E). cbn [from_option]. split.
    + intros Ea. destruct (Z.ltb_spec a (mr_end r)) as [Hlt|]; [|done]. rewrite E, above_app in Ea. apply app_eq_nil in Ea as [_ Ea].
      unfold above in Ea. cbn in Ea. destruct (Z.ltb_spec a (mr_end r)); [done|lia].
    + intros Hle. rewrite <- (above_none a rs); [done|]. pose proof (sorted_ends _ Hok pre r [] E) as [H1 _].
      pose proof (vk_regions _ Hok) as Hr. rewrite E, Forall_app, Forall_cons in Hr. destruct Hr as (_ & Hr & _).
      rewrite E, Forall_app. split; [|by constructor]. eapply Forall_impl; [exact H1|]. intros q Hq. cbn beta in Hq.
      pose proof (rk_size r Hr). unfold mr_end in *. lia.
  - apply last_None in El as ->. done.
Qed.

Lemma page_entries_show H t im k i r l :
  TaskShows t (page_size H) im -> ImageOk (page_size H) im -> 0 <= k -> 0 <= i < 256 -> (k + 256) * page_size H <= 2 ^ 64 ->
  above (k * page_size H) (im_regions im) = r :: l ->
  (if mr_start r <=? u64 (k * page_size H + i * page_size H)
   then match vm_page_query t (u64 (k * page_size H + i * page_size H)) with Some disp => page_entry disp | None => 0 end
   else 0) = image_entry (page_size H) im (k + i).
Proof.
  intros Ht Hi Hk Hii Hw E. pose proof (page_pos _ _ Hi) as Hp. rewrite <- Z.mul_add_distr_r.
  assert (Hva : 0 <= (k + i) * page_size H < 2 ^ 64) by nia. rewrite u64_small by lia. unfold image_entry.
  destruct (Z.leb_spec (mr_start r) ((k + i) * page_size H)) as [Hle|Hgt].
  - destruct (mapped (im_regions im) ((k + i) * page_size H)) eqn:Em.
    + rewrite ts_mapped by done. apply page_entry_bits.
    + by destruct (ts_hole _ Em) as [-> | ->].
  - rewrite (hole_below _ (k * page_size H) r l); [done|apply io_map|done|nia].
Qed.

Section Promises.
Context (H : host) (pad : nat -> bytes) (argmax : Z) (built : Z -> option bytes)
  (elsewhere : Z -> option (Z -> Z -> string -> option (Z * bytes))) (s : dstate) (pid : Z) (t : task) (im : image).
Context `{Ht : !TaskShows t (page_size H) im} `{Hi : !ImageOk (page_size H) im}.
Hypothesis Hpid : task_for_pid H pid = Some t.
Hypothesis Hpad : forall i, length (pad i) = 4%nat.

Let B : bridge := daemon_bridge H pad argmax true built elsewhere s.

(** Which handler a request reaches. *)
Lemma serve_routes q arg nm :
  (let on ty := serve H pad argmax true built elsewhere (CtlReq PROCFS_CTL_MAGIC q ty pid arg nm) s in
   on PROCFS_REQ_MAPS = Some (procfsd_handle_maps H pad pid arg, s)
   /\ on PROCFS_REQ_PAGEMAP = Some (procfsd_handle_pagemap H pid arg, s)
   /\ on PROCFS_REQ_MEMREAD = (fun r => (r, s)) <$> procfsd_handle_memread H pid arg
   /\ on PROCFS_REQ_PROCARGS = Some (procfsd_handle_procargs H argmax true pid arg, s)
   /\ on PROCFS_REQ_THREADLIST = Some (procfsd_handle_threadlist H pid, s)).
Proof. split_and!; reflexivity. Qed.

Lemma promise_maps : serves_maps B pid (im_regions im).
Proof.
  intros addr Ha. exists pad. split; [done|]. unfold B. cbn [ctl_request daemon_bridge]. pose proof (serve_routes 0 addr EmptyString) as R.
  cbv zeta in R. rewrite (proj1 R). clear R. unfold procfsd_handle_maps. rewrite Hpid.
  change (Z.to_nat (PROCFS_CTL_MAXPAYLOAD / map_region_size)) with 32%nat.
  rewrite (maps_loop_shows t (page_size H) im) by (done || apply io_map). f_equal. apply take_ge.
  rewrite regions_bytes_length, length_take by done. lia.
Qed.

Lemma promise_mem : serves_mem B pid (im_mem im).
Proof.
  intros va Hva. unfold B. cbn [ctl_request daemon_bridge]. pose proof (serve_routes 0 va EmptyString) as R.
  cbv zeta in R. rewrite (proj1 (proj2 (proj2 R))). clear R. unfold procfsd_handle_memread. rewrite Hpid.
  rewrite (memread_loop_shows H t im) by (done || cbn [length]; lia). cbn [fmap option_fmap option_map].
  f_equal. apply take_ge. pose proof (resident_length (im_mem im) va 2048). unfold PROCFS_CTL_MAXPAYLOAD. lia.
Qed.

Lemma promise_pages : serves_pages B pid (page_size H) (image_entry (page_size H) im) (image_pages (page_size H) im).
Proof.
  intros k Hk Hw. pose proof (page_pos _ _ Hi) as Hp. unfold B. cbn [ctl_request daemon_bridge]. pose proof (serve_routes 0 (k * page_size H) EmptyString) as R.
  cbv zeta in R. rewrite (proj1 (proj2 R)). clear R. unfold procfsd_handle_pagemap. rewrite Hpid, ts_basic.
  pose proof (above_empty (im_regions im) (k * page_size H) io_map) as Hab. unfold image_pages.
  destruct (above (k * page_size H) (im_regions im)) as [|r l] eqn:E; cbn [head fmap option_fmap option_map].
  - destruct (last (im_regions im)) as [r|] eqn:El; cbn [from_option] in *.
    + destruct Hab as [Hab _]. specialize (Hab eq_refl). destruct (Z.ltb_spec k (mr_end r / page_size H)) as [Hlt|_]; [|reflexivity].
      pose proof (Z.mul_div_le (mr_end r) (page_size H) ltac:(lia)). nia.
    + destruct (Z.ltb_spec k 0); [lia|reflexivity].
  - destruct (last (im_regions im)) as [e|] eqn:El; cbn [from_option] in Hab; [|discriminate (proj2 Hab I)].
    assert (Hne : k * page_size H < mr_end e) by (destruct (Z.lt_ge_cases (k * page_size H) (mr_end e)) as [Hlt|Hge]; [done|discriminate (proj2 Hab Hge)]).
    apply last_Some in El as (pre & Ee). assert (Hin : e ∈ im_regions im) by (rewrite Ee; set_solver).
    destruct (io_aligned e Hin) as [Ha1 Ha2]. pose proof (io_top e Hin) as Htop.
    assert (Hal : mr_end e mod page_size H = 0) by (unfold mr_end; rewrite Z.add_mod, Ha1, Ha2 by lia; by apply Z.mod_0_l; lia).
    pose proof (Z.div_mod (mr_end e) (page_size H) ltac:(lia)) as Hd. cbn [from_option].
    destruct (Z.ltb_spec k (mr_end e / page_size H)) as [_|Hge]; [|nia].
    change (PROCFS_CTL_MAXPAYLOAD / 8) with 256.
    assert (Em : map (fun i => le_bytes 8 (if vb_start (basic_of r) <=? u64 (k * page_size H + i * page_size H)
                   then match vm_page_query t (u64 (k * page_size H + i * page_size H)) with Some disp => page_entry disp | None => 0 end
                   else 0)) (seqZ 0 256) = map (le_bytes 8 ∘ image_entry (page_size H) im) (seqZ k 256)).
    { replace (seqZ k 256) with (Z.add k <$> seqZ 0 256) by (by rewrite fmap_add_seqZ, Z.add_0_r).
      rewrite <- list_fmap_compose. apply list_fmap_ext. intros j i Hj.
      apply lookup_seqZ in Hj as [-> Hj]. unfold compose. f_equal. cbn [basic_of vb_start].
      apply (page_entries_show H t im k (0 + Z.of_nat j) r l Ht Hi); [lia|lia|nia|done]. }
    assert (Efit : forall l : bytes, (length l <= 2048)%nat -> take (Z.to_nat PROCFS_CTL_MAXPAYLOAD) l = l).
    { intros l' Hl'. apply take_ge. unfold PROCFS_CTL_MAXPAYLOAD. lia. }
    rewrite Em. cbv beta iota zeta. rewrite Efit; [done|]. change 256 with (Z.of_nat 256). rewrite pagemap_bytes, span_length by done. lia.
Qed.

Lemma promise_args e T : sysctl_procargs2 H argmax pid = (0, e, T) -> serves_args B pid T.
Proof.
  intros E off Ho. unfold B. cbn [ctl_request daemon_bridge]. pose proof (serve_routes 0 off EmptyString) as R.
  cbv zeta in R. rewrite (proj1 (proj2 (proj2 (proj2 R)))). clear R. unfold procfsd_handle_procargs. rewrite E.
  cbn [Z.eqb negb]. rewrite slice_take by done. f_equal. apply take_ge. rewrite length_take. unfold PROCFS_CTL_MAXPAYLOAD. lia.
Qed.
End Promises.

(** ** Lemmas on the size of replies *)
(** What the calls write is no longer than they were given room for. *)
Class HostFits (H : host) : Prop := {
  hf_read pid t va n bs : task_for_pid H pid = Some t -> vm_read t va n = Some bs -> Z.of_nat (length bs) <= Z.max 0 n;
  hf_pidinfo ty pid arg size r e bs : 0 <= size -> pidinfo H ty pid arg size = (r, e, bs) ->
    r <= size /\ 0 <= e < 2 ^ 31 /\ (r = size -> Z.of_nat (length bs) = size);
  hf_procargs argmax pid r e bs : sysctl_procargs2 H argmax pid = (r, e, bs) -> 0 <= e < 2 ^ 31
}.

Definition fits (r : Z * bytes) : Prop := 0 <= fst r < 2 ^ 31 /\ (length (snd r) <= 2048)%nat.

Lemma maps_loop_length t room addr : (length (maps_loop t room addr) <= room)%nat.
Proof.
  revert addr. induction room as [|room IH]; intros addr; cbn [maps_loop]; [done|]. destruct (vm_region_basic t addr); [|cbn; lia].
  cbn [length]. destruct (_ <=? _); cbn [length]; [lia|]. specialize (IH (u64 (vb_start v + vb_size v))). lia.
Qed.

Lemma concat_words_length (l : list Z) (f : Z -> Z) : length (concat (map (fun i => le_bytes 8 (f i)) l)) = (8 * length l)%nat.
Proof. induction l as [|x l IH]; [done|]. cbn [map concat length]. rewrite length_app, le_bytes_length, IH. lia. Qed.

Lemma slice_length T off : (length (slice T off) <= 2048)%nat.
Proof.
  unfold slice, PROCFS_CTL_MAXPAYLOAD. destruct (_ <? _); [|cbn; lia]. rewrite length_take.
  destruct (Z.ltb_spec (Z.of_nat (length T) - off) 2048); lia.
Qed.

Lemma memread_loop_fits H pid t fuel base out :
  HostFits H -> task_for_pid H pid = Some t -> (length out <= 2048)%nat -> (2048 - length out < fuel)%nat ->
  exists out', memread_loop H t fuel base out = Some out' /\ (length out' <= 2048)%nat.
Proof.
  intros Hh Ht. revert out. induction fuel as [|f IH]; intros out Hl Hf; [lia|]. cbn [memread_loop]. unfold PROCFS_CTL_MAXPAYLOAD.
  destruct (Z.ltb_spec (Z.of_nat (length out)) 2048) as [Hlt|]; [|by exists out].
  match goal with |- context [vm_read t ?c ?n] => set (chunk := n); set (cur := c) end.
  assert (Hc : chunk <= 2048 - Z.of_nat (length out)).
  { unfold chunk. match goal with |- context [?a <? ?b] => destruct (Z.ltb_spec a b) end; lia. }
  destruct (vm_read t cur chunk) as [[|b bs]|] eqn:E; [by exists out| |by exists out].
  pose proof (hf_read _ _ _ _ _ Ht E) as Hb. set (bs' := b :: bs) in *. assert (0 < length bs')%nat by (cbn; lia).
  assert (Hl' : (length (out ++ bs')%list <= 2048)%nat) by (rewrite length_app; lia).
  destruct (_ <? chunk); [by exists (out ++ bs')%list|]. apply IH; rewrite ?length_app; rewrite ?length_app in Hl'; lia.
Qed.

(** A constant error without a payload, and a payload with success. *)
Lemma fits_error e : 0 <= e < 2 ^ 31 -> fits (e, []).
Proof. intros He. split; cbn [fst snd length]; lia. Qed.

Lemma fits_payload bs : (length bs <= 2048)%nat -> fits (0, bs).
Proof. intros Hb. split; cbn [fst snd]; lia. Qed.

Section Fits.
Context (H : host) `{Hh : !HostFits H} (pad : nat -> bytes) (argmax : Z) (malloc_ok : bool) (built : Z -> option bytes)
  (elsewhere : Z -> option (Z -> Z -> string -> option (Z * bytes))).
Hypothesis Hpad : forall i, length (pad i) = 4%nat.
Hypothesis Helse : forall ty f pid arg nm, elsewhere ty = Some f -> exists r, f pid arg nm = Some r /\ fits r.

Lemma fixed_info_fits ty pid arg size dflt : 0 <= size <= 2048 -> 0 <= dflt < 2 ^ 31 -> fits (fixed_info H ty pid arg size dflt).
Proof.
  intros Hs Hd. unfold fixed_info. destruct (pidinfo H ty pid arg size) as [[r e] bs] eqn:E.
  destruct (hf_pidinfo _ _ _ _ _ _ _ (proj1 Hs) E) as (H1 & H2 & H3). destruct (Z.eqb_spec r size) as [Er|].
  - specialize (H3 Er). apply fits_payload. lia.
  - apply fits_error. destruct (r <? 0); lia.
Qed.

Lemma handlers_fit pid arg :
  fits (procfsd_handle_threadlist H pid) /\ fits (procfsd_handle_maps H pad pid arg) /\ fits (procfsd_handle_pagemap H pid arg)
  /\ fits (procfsd_handle_procargs H argmax malloc_ok pid arg) /\ fits (fdlist_info H pid)
  /\ (exists r, procfsd_handle_memread H pid arg = Some r /\ fits r).
Proof.
  split_and!.
  - unfold procfsd_handle_threadlist. destruct (task_for_pid H pid) as [t|]; [|by apply fits_error].
    destruct (task_threads t) as [[|th ths]|]; [by apply fits_error| |by apply fits_error].
    match goal with |- context [take ?n ?l] => pose proof (length_take l n) as Hl; destruct (take n l) as [|i ids] eqn:E end; [by apply fits_error|].
    apply fits_payload. pose proof (length_concat_le8 (i :: ids)) as Hc.
    change (Z.to_nat (PROCFS_CTL_MAXPAYLOAD / 8)) with 256%nat in Hl. lia.
  - unfold procfsd_handle_maps. destruct (task_for_pid H pid) as [t|]; [|by apply fits_error]. apply fits_payload.
    rewrite regions_bytes_length by done. pose proof (maps_loop_length t (Z.to_nat (PROCFS_CTL_MAXPAYLOAD / map_region_size)) arg) as Hl.
    change (Z.to_nat (PROCFS_CTL_MAXPAYLOAD / map_region_size)) with 32%nat in *. lia.
  - unfold procfsd_handle_pagemap. destruct (task_for_pid H pid) as [t|]; [|by apply fits_error].
    destruct (vm_region_basic t arg); [|by apply fits_error]. apply fits_payload. rewrite concat_words_length.
    change (PROCFS_CTL_MAXPAYLOAD / 8) with 256. rewrite length_seqZ. lia.
  - unfold procfsd_handle_procargs. destruct malloc_ok; [|by apply fits_error]. destruct (sysctl_procargs2 H argmax pid) as [[r e] bs] eqn:E.
    pose proof (hf_procargs _ _ _ _ _ E). destruct (Z.eqb_spec r 0); [apply fits_payload, slice_length|]. apply fits_error.
    by destruct (e =? 0).
  - unfold fdlist_info. destruct (pidinfo H _ pid 0 PROCFS_CTL_MAXPAYLOAD) as [[r e] bs] eqn:E.
    destruct (hf_pidinfo _ _ _ PROCFS_CTL_MAXPAYLOAD _ _ _ ltac:(done) E) as (H1 & H2 & _). unfold PROCFS_CTL_MAXPAYLOAD in H1.
    destruct (Z.leb_spec 0 r); [apply fits_payload; rewrite length_take; lia|by apply fits_error].
  - unfold procfsd_handle_memread. destruct (task_for_pid H pid) as [t|] eqn:Et; [|eexists; split; [done|by apply fits_error]].
    destruct (memread_loop_fits H pid t 2049 arg [] Hh Et) as (out & -> & Ho); [cbn [length]; lia..|]. eexists. split; [done|by apply fits_payload].
Qed.

Lemma serve_fits q s : exists e pl s', serve H pad argmax malloc_ok built elsewhere q s = Some (e, pl, s') /\ fits (e, pl).
Proof.
  assert (Hpure : forall r : Z * bytes, fits r -> exists e pl s', Some (r, s) = Some (e, pl, s') /\ fits (e, pl)).
  { intros [e pl] Hf. by exists e, pl, s. }
  destruct (handlers_fit (q_pid q) (q_arg q)) as (F1 & F2 & F3 & F4 & F5 & (rm & Em & F6)).
  unfold serve. rewrite Em. unfold fixed_size.
  repeat match goal with |- context [if ?b then Some _ else _] => destruct b; [apply Hpure, fixed_info_fits; done|] end.
  destruct (_ =? _); [by apply Hpure|]. destruct (_ =? _); [by apply Hpure|]. destruct (_ =? _); [by apply Hpure|].
  destruct (_ =? _); [by apply Hpure|]. destruct (_ =? _); [by apply Hpure|]. destruct (_ =? _); [by apply Hpure|].
  destruct (bool_decide _).
  - unfold blob_request. match goal with |- context [g_blobs ?x !! q_type q] => destruct (g_blobs x !! q_type q) as [T|] end; eexists _, _, _; (split; [reflexivity|]); [apply fits_payload, slice_length|by apply fits_error].
  - destruct (elsewhere (q_type q)) as [f|] eqn:Ee; [|apply Hpure; by apply fits_error].
    destruct (Helse _ f (q_pid q) (q_arg q) (q_name q) Ee) as (r & -> & Hr). by apply Hpure.
Qed.
End Fits.

(** The turn for a request whose other arms answer within a payload. *)
Lemma daemon_turn_decodes H pad argmax malloc_ok built elsewhere q s :
  HostFits H -> (forall i, length (pad i) = 4%nat) ->
  (forall ty f pid arg nm, elsewhere ty = Some f -> exists r, f pid arg nm = Some r /\ fits r) ->
  q_magic q = PROCFS_CTL_MAGIC -> 0 <= q_seq q < 2 ^ 32 ->
  exists e pl s' m,
    serve H pad argmax malloc_ok built elsewhere q s = Some (e, pl, s')
    /\ daemon_turn H pad argmax malloc_ok built elsewhere true q s = Some (Some m, s')
    /\ (length pl <= 2048)%nat /\ resp_magic m = PROCFS_CTL_MAGIC /\ resp_seq m = q_seq q
    /\ resp_error m = e /\ resp_payload m = pl /\ resp_complete m.
Proof.
  intros Hh Hpad Helse Hm Hs. destruct (serve_fits H pad argmax malloc_ok built elsewhere Hpad Helse q s) as (e & pl & s' & E & Hf1 & Hf2).
  exists e, pl, s', (mk_reply (q_seq q) e pl). cbn [fst snd] in *.
  destruct (mk_reply_fields (q_seq q) e pl Hs Hf1 ltac:(unfold PROCFS_CTL_MAXPAYLOAD; lia)) as (L & F1 & F2 & F3 & F4 & F5).
  split_and!; [done| |done..|]. { unfold daemon_turn. by rewrite Hm, E. }
  unfold resp_complete. rewrite F4, L. lia.
Qed.

(** ** Theorems *)
(** C7. The daemon keeps what the extension's readers assume of it: for a
    process whose task port shows an image, its replies are the regions at or above
    the address as records, the resident prefix of the memory, the page entries up
    to the last mapping, and the slices of the argument region.  With it, maps,
    mem, pagemap and cmdline show the image itself. *)
Theorem daemon_keeps_promises H pad argmax built elsewhere s pid t im e T :
  TaskShows t (page_size H) im -> ImageOk (page_size H) im -> task_for_pid H pid = Some t ->
  (forall i, length (pad i) = 4%nat) -> sysctl_procargs2 H argmax pid = (0, e, T) ->
  let B := daemon_bridge H pad argmax true built elsewhere s in
  serves_maps B pid (im_regions im) /\ serves_mem B pid (im_mem im)
  /\ serves_pages B pid (page_size H) (image_entry (page_size H) im) (image_pages (page_size H) im)
  /\ serves_args B pid T.
Proof.
  intros Ht Hi Hpid Hpad HT. cbv zeta. split_and!.
  - by eapply promise_maps.
  - by eapply promise_mem.
  - by eapply promise_pages.
  - by eapply promise_args.
Qed.

(** The extension's reader of a listing, against the daemon: [now i] is what the
    build function would leave at the time of the i-th request. *)
Fixpoint blob_session (fuel : nat) (ty : Z) (now : nat -> option bytes) (i : nat) (off : Z) (sb : bytes) (s : dstate)
  : option (bytes * dstate) :=
  match fuel with
  | O => None
  | S f =>
      let '(c, s) := blob_request ty (now i) off s in
      if Z.of_nat (length c) <? PROCFS_CTL_MAXPAYLOAD then Some ((sb ++ c)%list, s)
      else blob_session f ty now (S i) (u64 (off + Z.of_nat (length c))) (sb ++ c)%list s
  end.

Lemma blob_session_rest fuel ty now i off sb s (T : bytes) :
  g_blobs s !! ty = Some T -> 0 < off <= Z.of_nat (length T) -> Z.of_nat (length T) < 2 ^ 63 ->
  (length T - Z.to_nat off < 2048 * fuel)%nat ->
  blob_session fuel ty now i off sb s = Some ((sb ++ drop (Z.to_nat off) T)%list, s).
Proof.
  intros Eb. revert i off sb. induction fuel as [|f IH]; intros i off sb Ho HT Hf; [lia|]. cbn [blob_session]. unfold blob_request.
  destruct (Z.eqb_spec off 0) as [|_]; [lia|]. cbv beta iota zeta. rewrite Eb, slice_take by lia. set (rest := drop (Z.to_nat off) T).
  assert (Hr : length rest = (length T - Z.to_nat off)%nat) by (unfold rest; by rewrite length_drop).
  rewrite length_take. unfold PROCFS_CTL_MAXPAYLOAD. destruct (Z.ltb_spec (Z.of_nat (2048 `min` length rest)) 2048) as [Hl|Hl].
  - by rewrite take_ge by lia.
  - rewrite Nat.min_l by lia. rewrite u64_small, IH by lia. do 2 f_equal. rewrite <- app_assoc. f_equal.
    rewrite <- (take_drop 2048 rest) at 2. f_equal. unfold rest. rewrite drop_drop. f_equal. lia.
Qed.

(** A listing is a snapshot: a reader that is alone gets exactly the text
    that was built for its first request, however much the system changes while it
    reads on, and the empty text when the build failed. *)
Theorem blob_snapshot fuel ty now s :
  match now 0%nat with
  | Some T => Z.of_nat (length T) < 2 ^ 63 -> (length T / 2048 < fuel)%nat ->
              exists s', blob_session fuel ty now 0 0 [] s = Some (T, s') /\ g_blobs s' !! ty = Some T
  | None => (0 < fuel)%nat -> exists s', blob_session fuel ty now 0 0 [] s = Some ([], s')
  end.
Proof.
  destruct (now 0%nat) as [T|] eqn:En.
  - intros HT Hf. pose proof (Nat.div_mod_eq (length T) 2048) as Hd. pose proof (Nat.mod_upper_bound (length T) 2048 ltac:(lia)) as Hm.
    destruct fuel as [|f]; [lia|]. cbn [blob_session]. rewrite En. unfold blob_request. cbn [Z.eqb g_blobs]. rewrite lookup_insert_eq.
    rewrite slice_take by done. change (drop (Z.to_nat 0) T) with T. rewrite length_take. unfold PROCFS_CTL_MAXPAYLOAD.
    destruct (Z.ltb_spec (Z.of_nat (2048 `min` length T)) 2048) as [Hl|Hl].
    + rewrite take_ge by lia. eexists. split; [done|]. cbn [g_blobs]. by rewrite lookup_insert_eq.
    + rewrite Nat.min_l by lia. change (u64 (0 + Z.of_nat 2048)) with 2048. rewrite (blob_session_rest _ _ _ _ _ _ _ T); [|cbn [g_blobs]; by rewrite lookup_insert_eq|lia|done|].
      * change (Z.to_nat 2048) with 2048%nat. cbn [app]. rewrite take_drop. eexists. split; [reflexivity|]. cbn [g_blobs]. by rewrite lookup_insert_eq.
      * lia.
  - intros Hf. destruct fuel as [|f]; [lia|]. cbn [blob_session]. rewrite En. unfold blob_request. cbn [Z.eqb g_blobs].
    rewrite lookup_delete_eq. eexists. done.
Qed.

(** The text of a listing is one global per type, so a second reader that starts
    while the first is still reading replaces it: the first gets the head of one
    text and the tail of another. *)
Theorem blob_readers_tear ty T1 T2 s :
  (2048 <= length T1)%nat ->
  let '(c1, s) := blob_request ty (Some T1) 0 s in
  let '(_, s) := blob_request ty (Some T2) 0 s in
  let '(c2, s) := blob_request ty (Some T2) 2048 s in
  (c1 ++ c2)%list = (take 2048 T1 ++ take 2048 (drop 2048 T2))%list.
Proof.
  intros Hl. unfold blob_request. cbn [Z.eqb g_blobs]. rewrite !lookup_insert_eq, !slice_take by done. done.
Qed.

(** The thread list of a process, through the daemon: the ids of the threads
    that still answer, in order, up to the 256 that fit one payload; EPERM for a
    protected process. *)
Theorem thread_list_through_daemon H pad argmax built elsewhere s p :
  let B := daemon_bridge H pad argmax true built elsewhere s in
  match task_for_pid H (p_pid p) with
  | None => procfs_get_thread_ids_for_task B true true (Some p) = (EPERM, [])
  | Some t => forall ths, task_threads t = Some ths -> omap id ths <> [] -> Forall (fun x => 0 <= x < 2 ^ 64) (omap id ths) ->
      procfs_get_thread_ids_for_task B true true (Some p) = (0, take 256 (omap id ths))
  end.
Proof.
  cbv zeta. unfold procfs_get_thread_ids_for_task. cbn [ctl_request daemon_bridge].
  pose proof (serve_routes H pad argmax built elsewhere s (p_pid p) 0 0 EmptyString) as R. cbv zeta in R.
  rewrite (proj2 (proj2 (proj2 (proj2 R)))). clear R. unfold procfsd_handle_threadlist.
  destruct (task_for_pid H (p_pid p)) as [t|]; [|reflexivity]. intros ths -> Hne Hr.
  destruct ths as [|th ths']; [done|]. set (ths := th :: ths') in *. change (Z.to_nat (PROCFS_CTL_MAXPAYLOAD / 8)) with 256%nat.
  set (ids := take 256 (omap id ths)). assert (Hids : ids <> []) by (unfold ids; destruct (omap id ths); done).
  assert (Hir : Forall (fun x => 0 <= x < 2 ^ 64) ids) by (unfold ids; by apply Forall_take).
  assert (Hlen : (length ids <= 256)%nat) by (unfold ids; rewrite length_take; lia). clearbody ids.
  destruct ids as [|i ids']; [done|]. set (ids := i :: ids') in *. pose proof (length_concat_le8 ids) as Hc.
  rewrite take_ge by (unfold PROCFS_CTL_MAXPAYLOAD; lia). rewrite Hc. cbn [Z.eqb andb].
  destruct (Z.leb_spec 8 (8 * Z.of_nat (length ids))) as [_|Hbad]; [|cbn in Hbad; lia].
  rewrite (Z.mul_comm 8), Z.div_mul, Nat2Z.id, le_words_concat by done. done.
Qed.

(** ** Witnesses *)
(** The task port of an image. *)
Definition image_task (im : image) : task :=
  Task (fun a => basic_of <$> head (above a (im_regions im))) (fun a => ext_of <$> head (above a (im_regions im)))
    (fun va => if mapped (im_regions im) va then Some (im_disp im va) else None)
    (fun va n => match im_mem im va with Some _ => Some (resident (im_mem im) va (Z.to_nat n)) | None => None end)
    (Some [Some 11; None; Some 12]).

#[export] Instance image_task_shows im page : TaskShows (image_task im) page im.
Proof.
  split; try done.
  - intros va E. cbn [vm_page_query image_task]. by rewrite E.
  - intros va E. cbn [vm_page_query image_task]. rewrite E. by left.
Qed.

(** A region with its one page resident, a hole of a page, and another region. *)
Definition sample_image : image :=
  Image [MapRegion 4294967296 16384 0 5 7 0 2 1 0 0 1 0; MapRegion 4295000064 32768 0 3 3 0 4 2 2 0 0 1]
    (fun _ => 1) (fun va => if va / 16384 =? 262144 then Some (va mod 256) else None).

#[export] Instance sample_image_ok : ImageOk 16384 sample_image.
Proof.
  split.
  - split; repeat constructor; try discriminate; vm_compute; discriminate.
  - exists 14. split; [lia|reflexivity].
  - intros r Hr. cbn in Hr. repeat (apply elem_of_cons in Hr as [->|Hr]; [split; reflexivity|]). by apply not_elem_of_nil in Hr.
  - intros r Hr. cbn in Hr. repeat (apply elem_of_cons in Hr as [->|Hr]; [vm_compute; discriminate|]). by apply not_elem_of_nil in Hr.
  - intros va va' E. cbn [im_mem sample_image]. rewrite E. destruct (_ =? _); [by eexists|intros [? [=]]].
Qed.

Definition sample_host : host :=
  Host (fun pid => if pid =? 42 then Some (image_task sample_image) else None)
    (fun _ _ => (0, 0, [1; 0; 0; 0; 97; 0; 97; 0]))
    (fun _ _ _ size => (size, 0, repeat 0 (Z.to_nat size))) 16384.

#[export] Instance sample_host_fits : HostFits sample_host.
Proof.
  split.
  - intros pid t va n bs. cbn [task_for_pid sample_host]. destruct (pid =? 42); [|done]. intros [= <-].
    cbn [vm_read image_task]. destruct (im_mem sample_image va); [|done]. intros [= <-].
    etrans; [apply Nat2Z.inj_le, resident_length|lia].
  - intros ty pid arg size r e bs Hs [= <- <- <-]. rewrite repeat_length. split_and!; [lia|lia|done|intros _; lia].
  - intros argmax pid r e bs [= <- <- _]. done.
Qed.

Definition zero_pad : nat -> bytes := fun _ => [0; 0; 0; 0].
Definition sample_daemon : bridge := daemon_bridge sample_host zero_pad 1024 true (fun _ => None) (fun _ => None) (Dstate ∅).

Lemma daemon_keeps_promises_witness :
  serves_maps sample_daemon 42 (im_regions sample_image) /\ serves_mem sample_daemon 42 (im_mem sample_image).
Proof.
  destruct (daemon_keeps_promises sample_host zero_pad 1024 (fun _ => None) (fun _ => None) (Dstate ∅) 42
    (image_task sample_image) sample_image 0 [1; 0; 0; 0; 97; 0; 97; 0]
    (image_task_shows _ _) sample_image_ok eq_refl (fun _ => eq_refl) eq_refl) as (E1 & E2 & _).
  split; [exact E1|exact E2].
Defined.

Lemma blob_snapshot_witness :
  exists s', blob_session 1 8 (fun i => Some [Z.of_nat i]) 0 0 [] (Dstate ∅) = Some ([0], s') /\ g_blobs s' !! 8 = Some [0].
Proof.
  pose proof (blob_snapshot 1 8 (fun i => Some [Z.of_nat i]) (Dstate ∅)) as E. cbn beta iota in E.
  apply E; [vm_compute; reflexivity|vm_compute; lia].
Defined.

Lemma blob_readers_tear_witness :
  let '(c1, s) := blob_request 8 (Some (repeat 65 4096)) 0 (Dstate ∅) in
  let '(_, s) := blob_request 8 (Some (repeat 66 4096)) 0 s in
  let '(c2, s) := blob_request 8 (Some (repeat 66 4096)) 2048 s in
  (c1 ++ c2)%list = (take 2048 (repeat 65 4096) ++ take 2048 (drop 2048 (repeat 66 4096)))%list.
Proof. apply (blob_readers_tear 8 (repeat 65 4096) (repeat 66 4096) (Dstate ∅)). rewrite repeat_length. lia. Defined.

Lemma thread_list_through_daemon_witness :
  procfs_get_thread_ids_for_task sample_daemon true true (Some (Proc 42 1 42 42 (Cred 0 0 0 0) "cat" 0 0 false false)) = (0, [11; 12]).
Proof.
  apply (thread_list_through_daemon sample_host zero_pad 1024 (fun _ => None) (fun _ => None) (Dstate ∅)
    (Proc 42 1 42 42 (Cred 0 0 0 0) "cat" 0 0 false false) [Some 11; None; Some 12]); [reflexivity|discriminate|].
  repeat constructor; vm_compute; discriminate.
Defined.
