(* ===== verification/Format.v ===== *)
(** * Formatted text

    The conversions that the text nodes of kext/procfs_linux.c use, and the two
    ways a node copies its text out: an auto-extending sbuf, whose whole text is
    copied, and a fixed buffer filled by snprintf, whose untruncated length is
    handed to procfs_copy_data.  [uiomove_int] is the older pattern that calls
    uiomove itself. *)
From S2P Require Import Prelude Kernel Text Subr Map Status.
From Stdlib Require Import ZArith Lia String.
From stdpp Require Import base list numbers strings.
Open Scope Z_scope.

(** ** Conversions *)
Definition pad_left (n : nat) (c : Z) (s : bytes) : bytes := (repeat c (n - length s) ++ s)%list.    (* %ns *)
Definition pad_right (n : nat) (s : bytes) : bytes := (s ++ repeat 32 (n - length s))%list.          (* %-ns *)
Definition sdec (v : Z) : bytes := lit (print_d v).                                                    (* %d *)
Definition udec (n : nat) (v : Z) : bytes := pad_left n 32 (dec v).                                    (* %nu *)
Definition zdec (n : nat) (v : Z) : bytes := pad_left n 48 (dec v).                                    (* %0nu *)
Definition hex_min (n : nat) (v : Z) : bytes := pad_left n 48 (print_x v).                             (* %0nx *)

Definition tab : string := String (char_of 9) EmptyString.
Definition line (s : string) : bytes := (lit s ++ [10])%list.

(** [%s] of a buffer: up to its first NUL. *)
Fixpoint c_str (bs : bytes) : bytes :=
  match bs with
  | [] => []
  | c :: r => if c =? 0 then [] else c :: c_str r
  end.

Section Copy.
Context {U : Type} `{Uio U}.

(** [len = snprintf(buf, cap, ...)] and [procfs_copy_data(buf, len, uio)]: the
    copy touches the text only when it fits; otherwise the buffer ends in the cut
    text and its NUL, and [len] is the length the text would have had. *)
Definition snprintf_copy (cap : Z) (text : bytes) (u : U) : option (Z * U) :=
  if Z.of_nat (length text) <? cap then copy_all text u
  else procfs_copy_data (Some (take (Z.to_nat cap - 1) text ++ [0])%list) (Z.of_nat (length text)) u.

(** The bytes of the buffer after [snprintf(buf, cap, ...)]. *)
Definition snprintf_buf (cap : Z) (text : bytes) : bytes :=
  if Z.of_nat (length text) <? cap then text else (take (Z.to_nat cap - 1) text ++ [0])%list.

(** [uiomove(buf, n, uio)] with a signed count: nothing moves when it is not
    positive.  [None]: bytes that are not of the text would be moved. *)
Definition uiomove_int (text : bytes) (n : Z) (u : U) : option (Z * U) :=
  if n <=? 0 then Some (0, u) else uiomove_at text 0 n u.

(** A text copied from an sbuf. *)
Definition sbuf_node (sbuf_ok : bool) (text : bytes) (u : U) : option (Z * U) :=
  if sbuf_ok then copy_all text u else Some (ENOMEM, u).
End Copy.

(** ** Reading a buffer *)
(** [n] bytes of the buffer at [off], little-endian; [None]: they are not bytes of
    the buffer. *)
Definition rd (F : bytes) (off : Z) (n : nat) : option Z :=
  if (0 <=? off) && (off + Z.of_nat n <=? Z.of_nat (length F)) then Some (field (Z.to_nat off) n F) else None.

Lemma rd_in F off n : 0 <= off -> off + Z.of_nat n <= Z.of_nat (length F) -> exists v, rd F off n = Some v.
Proof.
  intros H1 H2. unfold rd. destruct (Z.leb_spec 0 off); [|lia]. destruct (Z.leb_spec (off + Z.of_nat n) (Z.of_nat (length F))); [|lia]. by eexists.
Qed.

Lemma rd_nonneg F off n v : Forall (fun c => 0 <= c < 256) F -> rd F off n = Some v -> 0 <= v.
Proof.
  unfold rd. destruct (_ && _); [|done]. intros Hb [= <-]. unfold field.
  assert (G : forall l, Forall (fun c => 0 <= c < 256) l -> 0 <= le_val l) by (intros l; induction 1 as [|c l Hc _ IH]; cbn [le_val]; lia).
  by apply G, Forall_take, Forall_drop.
Qed.

Lemma rd_byte (F : list Z) off v : rd F off 1 = Some v -> F !! Z.to_nat off = Some v.
Proof.
  unfold rd, field. destruct (Z.leb_spec 0 off); [|done]. destruct (Z.leb_spec (off + Z.of_nat 1) (Z.of_nat (length F))) as [Hl|]; [|done]. cbn [andb].
  intros [= <-]. destruct (lookup_lt_is_Some_2 F (Z.to_nat off)) as [c E]; [lia|]. rewrite E. f_equal.
  rewrite (drop_S F c (Z.to_nat off) E). cbn [take le_val]. rewrite take_0. cbn [le_val]. lia.
Qed.

Lemma rd_app_r a b k n : 0 <= k -> rd (a ++ b) (Z.of_nat (length a) + k) n = rd b k n.
Proof.
  intros Hk. unfold rd, field. rewrite length_app, Nat2Z.inj_add. destruct (Z.leb_spec 0 (Z.of_nat (length a) + k)); [|lia].
  destruct (Z.leb_spec 0 k); [|lia]. cbn [andb]. destruct (Z.leb_spec (k + Z.of_nat n) (Z.of_nat (length b))).
  - destruct (Z.leb_spec (Z.of_nat (length a) + k + Z.of_nat n) (Z.of_nat (length a) + Z.of_nat (length b))); [|lia].
    do 3 f_equal. rewrite drop_app_ge by lia. f_equal. lia.
  - destruct (Z.leb_spec (Z.of_nat (length a) + k + Z.of_nat n) (Z.of_nat (length a) + Z.of_nat (length b))); [lia|done].
Qed.

Lemma rd_app_l a b k n : k + Z.of_nat n <= Z.of_nat (length a) -> rd (a ++ b) k n = rd a k n.
Proof.
  intros Hk. unfold rd, field. rewrite length_app, Nat2Z.inj_add. destruct (Z.leb_spec 0 k); [|done]. cbn [andb].
  destruct (Z.leb_spec (k + Z.of_nat n) (Z.of_nat (length a))); [|lia].
  destruct (Z.leb_spec (k + Z.of_nat n) (Z.of_nat (length a) + Z.of_nat (length b))); [|lia].
  do 2 f_equal. rewrite drop_app_le by lia. rewrite take_app_le; [done|]. rewrite length_drop. lia.
Qed.

(** A read inside the middle part. *)
Lemma rd_mid a b c k n v : rd b k n = Some v -> rd (a ++ b ++ c) (Z.of_nat (length a) + k) n = Some v.
Proof.
  intros Hr. assert (Hk : 0 <= k /\ k + Z.of_nat n <= Z.of_nat (length b)).
  { unfold rd in Hr. destruct (Z.leb_spec 0 k); [|done]. destruct (Z.leb_spec (k + Z.of_nat n) (Z.of_nat (length b))); [done|done]. }
  rewrite rd_app_r by lia. by rewrite rd_app_l by lia.
Qed.

(** ** Lengths *)
Lemma snprintf_copy_fits {U} `{Uio U} cap (text : bytes) (u : U) :
  Z.of_nat (length text) < cap -> snprintf_copy cap text u = copy_all text u.
Proof. intros Hl. unfold snprintf_copy. by destruct (Z.ltb_spec (Z.of_nat (length text)) cap); [|lia]. Qed.

(** A text that does not fit is read past the end of its buffer. *)
Lemma snprintf_copy_overread cap (text : bytes) :
  0 < cap -> cap < Z.of_nat (length text) < 2 ^ 31 ->
  snprintf_copy cap text (ubuf_read 0 (Z.of_nat (length text))) = None.
Proof.
  intros Hc Hl. unfold snprintf_copy. destruct (Z.ltb_spec (Z.of_nat (length text)) cap); [lia|].
  unfold procfs_copy_data. cbn [uio_offset ubuf_uio ub_offset ubuf_read]. rewrite Z.sub_0_r, i64_small, i32_small by lia.
  destruct (Z.leb_spec 0 (Z.of_nat (length text))); [|lia]. unfold uiomove_at. cbn [uio_resid ubuf_uio ub_resid ubuf_read].
  rewrite Z.min_id. destruct (Z.leb_spec (Z.of_nat (length text)) 0); [lia|]. cbn [orb]. rewrite length_app, length_take. cbn [length].
  destruct (Z.leb_spec (0 + Z.of_nat (length text)) (Z.of_nat (Nat.min (Z.to_nat cap - 1) (length text) + 1))); [lia|done].
Qed.

Lemma pad_left_length n c s m : (length s <= m)%nat -> (length (pad_left n c s) <= Nat.max n m)%nat.
Proof. intros H. unfold pad_left. rewrite length_app, repeat_length. lia. Qed.

Lemma pad_right_length n s m : (length s <= m)%nat -> (length (pad_right n s) <= Nat.max n m)%nat.
Proof. intros H. unfold pad_right. rewrite length_app, repeat_length. lia. Qed.

Lemma lit_length s : length (lit s) = String.length s.
Proof. unfold lit. pose proof (bytes_of_string_length s). unfold strlen in *. lia. Qed.

Lemma lit_app a b : lit (a +:+ b) = (lit a ++ lit b)%list.
Proof. apply bytes_of_string_app. Qed.

Lemma sdec_length v : - 2 ^ 63 <= v < 2 ^ 63 -> (length (sdec v) <= 21)%nat.
Proof.
  intros Hv. unfold sdec, print_d. destruct (Z.ltb_spec v 0).
  - rewrite lit_length. cbn [String.length append String.append]. pose proof (dec_length (- v) ltac:(lia)) as Hd. unfold dec in Hd.
    pose proof (bytes_of_string_length (print_u (- v))). unfold strlen in *. cbn. lia.
  - pose proof (dec_length v ltac:(lia)). unfold dec, lit in *. lia.
Qed.

Lemma strip_zeros_length l : (length (strip_zeros l) <= length l)%nat.
Proof. induction l as [|c l IH]; [done|]. cbn [strip_zeros]. destruct l; [done|]. destruct (c =? 48); cbn [length] in *; lia. Qed.

Lemma print_x_length v : (length (print_x v) <= 16)%nat.
Proof.
  unfold print_x. etransitivity; [apply strip_zeros_length|]. assert (H : forall n w, length (hex_fixed n w) = n).
  { intros n. induction n as [|n IH]; intros w; [done|]. cbn. rewrite length_app, IH. cbn. lia. }
  by rewrite H.
Qed.

Lemma hex_min_length n v : (length (hex_min n v) <= Nat.max n 16)%nat.
Proof. apply pad_left_length, print_x_length. Qed.

Lemma zdec_length n v : 0 <= v < 2 ^ 64 -> (length (zdec n v) <= Nat.max n 20)%nat.
Proof. intros H. apply pad_left_length, dec_length, H. Qed.

Lemma line_length s : length (line s) = S (String.length s).
Proof. unfold line. rewrite length_app, lit_length. cbn. lia. Qed.

(** Disjoint bits: or is addition. *)
Lemma lor_shiftl a b n : 0 <= n -> 0 <= a < 2 ^ n -> Z.lor a (Z.shiftl b n) = a + b * 2 ^ n.
Proof.
  intros Hn Ha. rewrite <- Z.shiftl_mul_pow2 by done. rewrite <- (Z.add_lor_land a). assert (E : Z.land a (Z.shiftl b n) = 0); [|lia].
  apply Z.bits_inj'. intros m Hm. rewrite Z.land_spec, Z.bits_0. destruct (Z.lt_ge_cases m n).
  - rewrite Z.shiftl_spec_low by done. by rewrite andb_false_r.
  - assert (E : Z.testbit a m = false); [|by rewrite E].
    destruct (decide (a = 0)) as [->|]; [apply Z.bits_0|]. apply Z.bits_above_log2; [lia|].
    apply Z.lt_le_trans with n; [|done]. apply Z.log2_lt_pow2; lia.
Qed.

Create Rewrite HintDb text_length.
#[export] Hint Rewrite length_app lit_length line_length : text_length.

Ltac text_fits := autorewrite with text_length; cbn [length String.length].
