(* ===== verification/Blobs.v ===== *)
(** * Listings served by the daemon (kext/procfs_linux.c and
    kext/procfs_extensions.c)

    The nodes whose whole text is a blob of the daemon, read chunk by chunk
    through procfs_ctl_request_blob: plain listings, tables that fall back to a
    header line without a daemon, and the symbol tables, whose address column is
    hidden from every reader but root.  [sbuf_ok] is whether the sbuf could be
    allocated; [fuel] bounds the chunks, and one more than the text's length over
    2048 is enough ([request_blob_loop_all]). *)
From S2P Require Import Prelude Kernel Subr Ctl Text Map Format.
From Stdlib Require Import ZArith Lia String.
From stdpp Require Import base list numbers strings sets.
Open Scope Z_scope.

(** ** Request types *)
Definition PROCFS_REQ_EXTENSIONS : Z := 8.
Definition PROCFS_REQ_MODULES : Z := 9.
Definition PROCFS_REQ_DEVICES : Z := 13.
Definition PROCFS_REQ_ALLOCINFO : Z := 15.
Definition PROCFS_REQ_PCIDEVICES : Z := 17.
Definition PROCFS_REQ_FBDEVICES : Z := 18.
Definition PROCFS_REQ_NFSEXPORTS : Z := 19.
Definition PROCFS_REQ_TTYDRIVERS : Z := 21.
Definition PROCFS_REQ_VMALLOCINFO : Z := 29.
Definition PROCFS_REQ_SCSI : Z := 30.
Definition PROCFS_REQ_SYSVIPC_SHM : Z := 31.
Definition PROCFS_REQ_SYSVIPC_SEM : Z := 32.
Definition PROCFS_REQ_SYSVIPC_MSG : Z := 33.
Definition PROCFS_REQ_SLABINFO : Z := 34.
Definition PROCFS_REQ_KMSG : Z := 35.
Definition PROCFS_REQ_LAST_KMSG : Z := 36.
Definition PROCFS_REQ_KSYMS : Z := 37.
Definition PROCFS_REQ_KALLSYMS : Z := 38.
Definition PROCFS_REQ_MISC : Z := 39.
Definition PROCFS_REQ_NETTCP : Z := 43.
Definition PROCFS_REQ_NETTCP6 : Z := 44.
Definition PROCFS_REQ_NETUDP : Z := 45.
Definition PROCFS_REQ_NETUDP6 : Z := 46.
Definition PROCFS_REQ_NETUNIX : Z := 47.
Definition PROCFS_REQ_NETROUTE : Z := 48.
Definition PROCFS_REQ_NETARP : Z := 49.
Definition PROCFS_REQ_NETNETSTAT : Z := 50.
Definition PROCFS_REQ_NETSNMP : Z := 51.

(** ** Header lines *)
Definition sysvipc_shm_hdr : bytes :=
  line "       key      shmid perms       size  cpid  lpid nattch   uid   gid  cuid  cgid      atime      dtime      ctime        rss       swap".
Definition sysvipc_sem_hdr : bytes :=
  line "       key      semid perms      nsems   uid   gid  cuid  cgid      otime      ctime".
Definition sysvipc_msg_hdr : bytes :=
  line "       key      msqid perms      cbytes       qnum lspid lrpid   uid   gid  cuid  cgid      stime      rtime      ctime".
Definition net_hdr : bytes :=
  line "  sl  local_address rem_address   st tx_queue rx_queue tr tm->when retrnsmt   uid  timeout inode".
Definition net6_hdr : bytes :=
  line "  sl  local_address                         remote_address                        st tx_queue rx_queue tr tm->when retrnsmt   uid  timeout inode".
Definition netunix_hdr : bytes := line "Num       RefCount Protocol Flags    Type St Inode Path".
Definition netroute_hdr : bytes :=
  line ("Iface" +:+ tab +:+ "Destination" +:+ tab +:+ "Gateway " +:+ tab +:+ "Flags" +:+ tab +:+ "RefCnt" +:+ tab +:+ "Use" +:+ tab
        +:+ "Metric" +:+ tab +:+ "Mask" +:+ tab +:+ tab +:+ "MTU" +:+ tab +:+ "Window" +:+ tab +:+ "IRTT").
Definition netarp_hdr : bytes := line "IP address       HW type     Flags       HW address            Mask     Device".
Definition ldiscs_text : bytes := line ("tty" +:+ tab +:+ tab +:+ "0").

(** ** The address column of a symbol table

    The inner loop: from [j], at most [k] characters, up to a space, a newline or
    the end of the text. *)
Fixpoint zero_run (k : nat) (d : list Z) (j : nat) : list Z :=
  match k with
  | O => d
  | S k' =>
      match d !! j with
      | Some c => if negb (c =? 32) && negb (c =? 10) then zero_run k' (<[j := 48]> d) (S j) else d
      | None => d
      end
  end.

Definition char_at (d : list Z) (i : nat) : Z := default 0 (d !! i).

(** The outer loop, in place; [m] characters are left. *)
Fixpoint mask_loop (m i : nat) (at_line_start : bool) (d : list Z) : list Z :=
  match m with
  | O => d
  | S m' =>
      let start := at_line_start && negb (char_at d i =? 10) in
      let d := if start then zero_run 16 d i else d in
      let at_line_start := if start then false else at_line_start in
      mask_loop m' (S i) (if char_at d i =? 10 then true else at_line_start) d
  end.

Definition mask_symbols (d : bytes) : bytes := mask_loop (length d) 0 true d.

(** ** The nodes *)
Section Nodes.
Context {U : Type} `{Uio U}.
Variable B : bridge.
Variable sbuf_ok : bool.
Variable fuel : nat.

(** The shared body: [absent] is the answer without a daemon. *)
Definition blob_node (ty nomem : Z) (absent : U -> option (Z * U)) (u : U) : option (Z * U) :=
  if sbuf_ok then
    match procfs_ctl_request_blob B ty fuel [] with
    | None => None
    | Some (error, sb) =>
        if negb (error =? 0) then (if error =? ENOTCONN then absent u else Some (error, u)) else copy_all sb u
    end
  else Some (nomem, u).

Definition empty_node (u : U) : option (Z * U) := Some (0, u).
Definition listing_node (ty : Z) : U -> option (Z * U) := blob_node ty ENOMEM empty_node.

Definition procfs_dodevices : U -> option (Z * U) := listing_node PROCFS_REQ_DEVICES.
Definition procfs_dopcidevices : U -> option (Z * U) := listing_node PROCFS_REQ_PCIDEVICES.
Definition procfs_dofb : U -> option (Z * U) := listing_node PROCFS_REQ_FBDEVICES.
Definition procfs_dotty_drivers : U -> option (Z * U) := listing_node PROCFS_REQ_TTYDRIVERS.
Definition procfs_dovmallocinfo : U -> option (Z * U) := listing_node PROCFS_REQ_VMALLOCINFO.
Definition procfs_doslabinfo : U -> option (Z * U) := listing_node PROCFS_REQ_SLABINFO.
Definition procfs_dokmsg : U -> option (Z * U) := listing_node PROCFS_REQ_KMSG.
Definition procfs_dolast_kmsg : U -> option (Z * U) := listing_node PROCFS_REQ_LAST_KMSG.
Definition procfs_domisc : U -> option (Z * U) := listing_node PROCFS_REQ_MISC.
Definition procfs_doscsi : U -> option (Z * U) := listing_node PROCFS_REQ_SCSI.
Definition procfs_donfsexports : U -> option (Z * U) := listing_node PROCFS_REQ_NFSEXPORTS.
Definition procfs_doallocinfo : U -> option (Z * U) := listing_node PROCFS_REQ_ALLOCINFO.

(** The error of an sbuf that could not be had is the value of a comparison. *)
Definition procfs_dokextlist (type : Z) : U -> option (Z * U) :=
  let error := 0 in blob_node type (if error =? ENOTCONN then 1 else 0) empty_node.
Definition procfs_doextensions : U -> option (Z * U) := procfs_dokextlist PROCFS_REQ_EXTENSIONS.
Definition procfs_domodules : U -> option (Z * U) := procfs_dokextlist PROCFS_REQ_MODULES.

Definition procfs_sysvipc_node (ty : Z) (hdr : bytes) : U -> option (Z * U) := blob_node ty ENOMEM (copy_all hdr).
Definition procfs_dosysvipc_shm : U -> option (Z * U) := procfs_sysvipc_node PROCFS_REQ_SYSVIPC_SHM sysvipc_shm_hdr.
Definition procfs_dosysvipc_sem : U -> option (Z * U) := procfs_sysvipc_node PROCFS_REQ_SYSVIPC_SEM sysvipc_sem_hdr.
Definition procfs_dosysvipc_msg : U -> option (Z * U) := procfs_sysvipc_node PROCFS_REQ_SYSVIPC_MSG sysvipc_msg_hdr.

Definition procfs_net_pcb_node (ty : Z) (hdr : bytes) : U -> option (Z * U) := blob_node ty ENOMEM (copy_all hdr).
Definition procfs_donettcp : U -> option (Z * U) := procfs_net_pcb_node PROCFS_REQ_NETTCP net_hdr.
Definition procfs_donettcp6 : U -> option (Z * U) := procfs_net_pcb_node PROCFS_REQ_NETTCP6 net6_hdr.
Definition procfs_donetudp : U -> option (Z * U) := procfs_net_pcb_node PROCFS_REQ_NETUDP net_hdr.
Definition procfs_donetudp6 : U -> option (Z * U) := procfs_net_pcb_node PROCFS_REQ_NETUDP6 net6_hdr.
Definition procfs_donetunix : U -> option (Z * U) := procfs_net_pcb_node PROCFS_REQ_NETUNIX netunix_hdr.
Definition procfs_donetroute : U -> option (Z * U) := procfs_net_pcb_node PROCFS_REQ_NETROUTE netroute_hdr.
Definition procfs_donetarp : U -> option (Z * U) := procfs_net_pcb_node PROCFS_REQ_NETARP netarp_hdr.
Definition procfs_donetnetstat : U -> option (Z * U) := procfs_net_pcb_node PROCFS_REQ_NETNETSTAT [].
Definition procfs_donetsnmp : U -> option (Z * U) := procfs_net_pcb_node PROCFS_REQ_NETSNMP [].

(** The nodes whose text is fixed. *)
Definition procfs_dotty_ldiscs (u : U) : option (Z * U) := copy_all ldiscs_text u.
Definition procfs_doide_drivers (u : U) : option (Z * U) := copy_all [] u.
Definition procfs_doisapnp (u : U) : option (Z * U) := copy_all [] u.

(** The symbol tables; [cred]: vfs_context_ucred of the reader. *)
Definition procfs_do_symtab (ucred : option cred) (ty : Z) (u : U) : option (Z * U) :=
  if sbuf_ok then
    match procfs_ctl_request_blob B ty fuel [] with
    | None => None
    | Some (error, sb) =>
        if negb (error =? 0) then Some (if error =? ENOTCONN then 0 else error, u)
        else
          let root := match ucred with None => false | Some c => cr_uid c =? 0 end in
          copy_all (if root then sb else mask_symbols sb) u
    end
  else Some (ENOMEM, u).

Definition procfs_doksyms (ucred : option cred) : U -> option (Z * U) := procfs_do_symtab ucred PROCFS_REQ_KSYMS.
Definition procfs_dokallsyms (ucred : option cred) : U -> option (Z * U) := procfs_do_symtab ucred PROCFS_REQ_KALLSYMS.
End Nodes.

(** ** The table by line, as the daemon writes it: 16 hex digits, the type
    letter and the name *)
Record ksym := Ksym { ks_addr : Z; ks_type : Z; ks_name : bytes }.

Definition ksym_text (k : ksym) : bytes := (hex_fixed 16 (ks_addr k) ++ [32; ks_type k; 32] ++ ks_name k ++ [10])%list.
Definition symtab_text (ks : list ksym) : bytes := concat (map ksym_text ks).

Definition hide_addr (k : ksym) : ksym := Ksym 0 (ks_type k) (ks_name k).
Definition ksym_ok (k : ksym) : Prop := ks_type k <> 10 /\ 10 ∉ ks_name k.

(** A one-pass reading of the masking: [col] characters of the column are still
    to be hidden on this line. *)
Fixpoint mask_ref (col : nat) (d : bytes) : bytes :=
  match d with
  | [] => []
  | c :: r =>
      if c =? 10 then c :: mask_ref 16 r
      else match col with
           | O => c :: mask_ref 0 r
           | S col' => if c =? 32 then c :: mask_ref 0 r else 48 :: mask_ref col' r
           end
  end.

Fixpoint zero_prefix (k : nat) (l : bytes) : bytes :=
  match k, l with
  | S k', c :: r => if negb (c =? 32) && negb (c =? 10) then 48 :: zero_prefix k' r else l
  | _, _ => l
  end.

(** ** The two readings of the masking agree *)
Lemma lookup_at (pre : list Z) c r : (pre ++ c :: r)%list !! length pre = Some c.
Proof. by rewrite list_lookup_middle. Qed.

Lemma char_at_mid (pre : list Z) c r : char_at (pre ++ c :: r)%list (length pre) = c.
Proof. unfold char_at. by rewrite lookup_at. Qed.

Lemma insert_at (pre : list Z) c x r : <[length pre := x]> (pre ++ c :: r)%list = (pre ++ x :: r)%list.
Proof. rewrite insert_app_r_alt by done. by rewrite Nat.sub_diag. Qed.

Lemma app_snoc (pre : list Z) c (r : list Z) : (pre ++ c :: r)%list = ((pre ++ [c]) ++ r)%list.
Proof. by rewrite <- app_assoc. Qed.

Lemma zero_run_prefix k (pre l : list Z) : zero_run k (pre ++ l)%list (length pre) = (pre ++ zero_prefix k l)%list.
Proof.
  revert pre l. induction k as [|k IH]; intros pre l; [done|]. destruct l as [|c r]; cbn [zero_run zero_prefix].
  - by rewrite app_nil_r, lookup_ge_None_2 by lia.
  - rewrite lookup_at. destruct (_ && _); [|done].
    rewrite insert_at, (app_snoc pre 48 r). replace (S (length pre)) with (length (pre ++ [48])) by (rewrite length_app; cbn; lia).
    rewrite IH. by rewrite <- app_assoc.
Qed.

Lemma zero_prefix_length k l : length (zero_prefix k l) = length l.
Proof. revert l. induction k as [|k IH]; intros [|c r]; cbn; try done. destruct (_ && _); cbn; [by rewrite IH|done]. Qed.

Lemma mask_ref_prefix k l : mask_ref k l = mask_ref 0 (zero_prefix k l).
Proof.
  revert l. induction k as [|k IH]; intros [|c r]; cbn [zero_prefix]; try done.
  cbn [mask_ref]. destruct (Z.eqb_spec c 10) as [->|H10]; [done|]. destruct (Z.eqb_spec c 32) as [->|H32]; cbn [negb andb]; [done|].
  cbn [mask_ref]. by rewrite IH.
Qed.

Lemma mask_ref_length k l : length (mask_ref k l) = length l.
Proof.
  revert k. induction l as [|c r IH]; intros k; [done|]. cbn. destruct (_ =? 10); cbn; [by rewrite IH|].
  destruct k; [by cbn; rewrite IH|]. destruct (_ =? 32); cbn; by rewrite IH.
Qed.

Lemma mask_loop_ref m (pre l : list Z) (ls : bool) : m = length l ->
  mask_loop m (length pre) ls (pre ++ l)%list = (pre ++ mask_ref (if ls then 16 else 0) l)%list.
Proof.
  revert pre l ls. induction m as [|m IH]; intros pre l ls Hm; destruct l as [|c r]; try (cbn in Hm; lia); [done|].
  cbn [mask_loop]. rewrite !char_at_mid.
  assert (Hstep : forall x (l' : list Z) ls', m = length l' ->
    mask_loop m (S (length pre)) ls' (pre ++ x :: l')%list = (pre ++ x :: mask_ref (if ls' then 16 else 0) l')%list).
  { intros x l' ls' Hl. rewrite (app_snoc pre x l'). replace (S (length pre)) with (length (pre ++ [x])) by (rewrite length_app; cbn; lia).
    rewrite IH by done. by rewrite <- app_assoc. }
  injection Hm as Hm. destruct (Z.eqb_spec c 10) as [->|H10].
  - destruct ls; cbn [andb negb]; rewrite char_at_mid; cbn [Z.eqb Pos.eqb]; by rewrite Hstep.
  - destruct ls; cbn [andb negb].
    + rewrite zero_run_prefix, (mask_ref_prefix 16). destruct (zero_prefix 16 (c :: r)) as [|x l'] eqn:E.
      { apply (f_equal length) in E. rewrite zero_prefix_length in E. done. }
      assert (Hx : x <> 10).
      { cbn [zero_prefix] in E. destruct (_ && _); by injection E as <- _. }
      assert (Hl : m = length l') by (apply (f_equal length) in E; rewrite zero_prefix_length in E; cbn in E; lia).
      rewrite char_at_mid. destruct (Z.eqb_spec x 10); [done|].
      rewrite Hstep by done. cbn [mask_ref]. by destruct (Z.eqb_spec x 10).
    + rewrite char_at_mid. destruct (Z.eqb_spec c 10); [done|].
      rewrite Hstep by done. cbn [mask_ref]. by destruct (Z.eqb_spec c 10).
Qed.

Lemma mask_symbols_ref d : mask_symbols d = mask_ref 16 d.
Proof. exact (mask_loop_ref (length d) [] d true eq_refl). Qed.

(** ** One line of the table *)
Lemma hex_char_plain v : hex_char (v mod 16) <> 10 /\ hex_char (v mod 16) <> 32.
Proof. unfold hex_char. pose proof (Z.mod_pos_bound v 16). destruct (_ <? 10); lia. Qed.

Lemma mask_ref_hex n v r : mask_ref n (hex_fixed n v ++ r)%list = (repeat 48 n ++ mask_ref 0 r)%list.
Proof.
  assert (G : forall n v m r, mask_ref (n + m) (hex_fixed n v ++ r)%list = (repeat 48 n ++ mask_ref m r)%list).
  { clear. intros n. induction n as [|n IH]; intros v m r; [done|]. cbn [hex_fixed]. rewrite <- app_assoc. cbn [app].
    replace (S n + m)%nat with (n + S m)%nat by lia. rewrite IH. destruct (hex_char_plain v) as [H1 H2]. cbn [mask_ref].
    destruct (Z.eqb_spec (hex_char (v mod 16)) 10); [done|]. destruct (Z.eqb_spec (hex_char (v mod 16)) 32); [done|].
    replace (S n) with (n + 1)%nat by lia. rewrite repeat_app, <- app_assoc. done. }
  specialize (G n v 0%nat r). by rewrite Nat.add_0_r in G.
Qed.

Lemma mask_ref_skip l r : 10 ∉ l -> mask_ref 0 (l ++ 10 :: r)%list = (l ++ 10 :: mask_ref 16 r)%list.
Proof.
  induction l as [|c l IH]; intros Hl; [done|]. cbn. destruct (Z.eqb_spec c 10) as [->|_]; [set_solver|].
  rewrite IH; [done|set_solver].
Qed.

Lemma hex_zero n : hex_fixed n 0 = repeat 48 n.
Proof.
  induction n as [|n IH]; [done|]. cbn [hex_fixed]. change (0 / 16) with 0. rewrite IH.
  replace (S n) with (n + 1)%nat by lia. by rewrite repeat_app.
Qed.

Lemma mask_symtab ks : Forall ksym_ok ks -> mask_symbols (symtab_text ks) = symtab_text (map hide_addr ks).
Proof.
  rewrite mask_symbols_ref. unfold symtab_text. induction 1 as [|k ks [Ht Hn] _ IH]; [done|].
  cbn [map concat]. unfold ksym_text at 1. rewrite <- !app_assoc, mask_ref_hex.
  replace ([32; ks_type k; 32] ++ ks_name k ++ [10] ++ concat (map ksym_text ks))%list
    with (([32; ks_type k; 32] ++ ks_name k) ++ 10 :: concat (map ksym_text ks))%list by by rewrite <- !app_assoc.
  rewrite mask_ref_skip by set_solver. rewrite IH. unfold ksym_text at 2. cbn [hide_addr ks_addr ks_type ks_name].
  rewrite hex_zero, <- !app_assoc. done.
Qed.

(** ** A node whose text is served whole *)
Lemma blob_whole B ty (T : bytes) fuel : serves B ty T -> Z.of_nat (length T) < 2 ^ 31 -> (length T / 2048 < fuel)%nat ->
  procfs_ctl_request_blob B ty fuel [] = Some (0, T).
Proof.
  intros Hs HT Hf. unfold procfs_ctl_request_blob. rewrite (request_blob_loop_all B ty T fuel 0 [] Hs); try lia; [done|].
  change (Z.to_nat 0) with 0%nat. pose proof (Nat.div_mod_eq (length T) 2048). pose proof (Nat.mod_upper_bound (length T) 2048). lia.
Qed.

Lemma blob_fails B ty e bs fuel : ctl_request B ty 0 0 EmptyString PROCFS_CTL_MAXPAYLOAD = (e, bs) -> e <> 0 -> (0 < fuel)%nat ->
  procfs_ctl_request_blob B ty fuel [] = Some (e, []).
Proof.
  intros E He Hf. unfold procfs_ctl_request_blob. destruct fuel; [lia|]. cbn [request_blob_loop]. rewrite E.
  destruct (Z.eqb_spec e 0); done.
Qed.

(** Every listing node with its request type; the tables with their header. *)
Definition listings {U} `{Uio U} (B : bridge) (sbuf_ok : bool) (fuel : nat) : list (Z * (U -> option (Z * U))) :=
  [(13, procfs_dodevices B sbuf_ok fuel); (17, procfs_dopcidevices B sbuf_ok fuel); (18, procfs_dofb B sbuf_ok fuel);
   (21, procfs_dotty_drivers B sbuf_ok fuel); (29, procfs_dovmallocinfo B sbuf_ok fuel);
   (34, procfs_doslabinfo B sbuf_ok fuel); (35, procfs_dokmsg B sbuf_ok fuel); (36, procfs_dolast_kmsg B sbuf_ok fuel);
   (39, procfs_domisc B sbuf_ok fuel); (30, procfs_doscsi B sbuf_ok fuel); (19, procfs_donfsexports B sbuf_ok fuel);
   (15, procfs_doallocinfo B sbuf_ok fuel)].

Definition tables {U} `{Uio U} (B : bridge) (sbuf_ok : bool) (fuel : nat) : list (Z * bytes * (U -> option (Z * U))) :=
  [(31, sysvipc_shm_hdr, procfs_dosysvipc_shm B sbuf_ok fuel); (32, sysvipc_sem_hdr, procfs_dosysvipc_sem B sbuf_ok fuel);
   (33, sysvipc_msg_hdr, procfs_dosysvipc_msg B sbuf_ok fuel); (43, net_hdr, procfs_donettcp B sbuf_ok fuel);
   (44, net6_hdr, procfs_donettcp6 B sbuf_ok fuel); (45, net_hdr, procfs_donetudp B sbuf_ok fuel);
   (46, net6_hdr, procfs_donetudp6 B sbuf_ok fuel); (47, netunix_hdr, procfs_donetunix B sbuf_ok fuel);
   (48, netroute_hdr, procfs_donetroute B sbuf_ok fuel); (49, netarp_hdr, procfs_donetarp B sbuf_ok fuel);
   (50, [], procfs_donetnetstat B sbuf_ok fuel); (51, [], procfs_donetsnmp B sbuf_ok fuel)].

(** What every one of these nodes does: the whole text when the daemon serves it,
    [absent] when there is no daemon, and any other error as it is. *)
Definition blob_behaves {U} `{Uio U} (B : bridge) (fuel : nat) (ty : Z) (absent : U -> option (Z * U))
  (node : U -> option (Z * U)) (u : U) : Prop :=
  (forall T : bytes, serves B ty T -> Z.of_nat (length T) < 2 ^ 31 -> (length T / 2048 < fuel)%nat -> node u = copy_all T u)
  /\ (forall e bs, ctl_request B ty 0 0 EmptyString PROCFS_CTL_MAXPAYLOAD = (e, bs) -> e <> 0 -> (0 < fuel)%nat ->
        node u = if e =? ENOTCONN then absent u else Some (e, u)).

Lemma blob_node_behaves {U} `{Uio U} B fuel ty nomem absent (u : U) :
  blob_behaves B fuel ty absent (blob_node B true fuel ty nomem absent) u.
Proof.
  split.
  - intros T Hs HT Hf. unfold blob_node. by rewrite (blob_whole B ty T fuel Hs HT Hf).
  - intros e bs E He Hf. unfold blob_node. rewrite (blob_fails B ty e bs fuel E He Hf). by destruct (Z.eqb_spec e 0).
Qed.

(** ** Theorems *)
Lemma symtab_shown {U} `{Uio U} B ty ks fuel ucred (u : U) :
  serves B ty (symtab_text ks) -> Forall ksym_ok ks -> Z.of_nat (length (symtab_text ks)) < 2 ^ 31 ->
  (length (symtab_text ks) / 2048 < fuel)%nat ->
  procfs_do_symtab B true fuel ucred ty u
  = copy_all (symtab_text (if bool_decide (cr_uid <$> ucred = Some 0) then ks else map hide_addr ks)) u.
Proof.
  intros Hs Hk Hl Hf. unfold procfs_do_symtab. rewrite (blob_whole B ty _ fuel Hs Hl Hf). cbn [negb Z.eqb]. f_equal.
  destruct ucred as [c|]; cbn [fmap option_fmap option_map].
  - destruct (Z.eqb_spec (cr_uid c) 0) as [E|E]; [by rewrite bool_decide_true by by rewrite E|].
    rewrite bool_decide_false by congruence. by apply mask_symtab.
  - rewrite bool_decide_false by done. by apply mask_symtab.
Qed.

(** C29. Kernel addresses are hidden from every reader but root: whatever the
    addresses of the table are, a reader whose credential is missing or not root's
    is shown the table with every address zero, names and types as they are, so two
    tables that differ only in addresses read the same; root is shown the table. *)
Theorem symtab_hides_addresses {U} `{Uio U} B ty ks fuel ucred (u : U) :
  serves B ty (symtab_text ks) -> Forall ksym_ok ks -> Z.of_nat (length (symtab_text ks)) < 2 ^ 31 ->
  (length (symtab_text ks) / 2048 < fuel)%nat ->
  procfs_do_symtab B true fuel ucred ty u
  = copy_all (symtab_text (if bool_decide (cr_uid <$> ucred = Some 0) then ks else map hide_addr ks)) u.
Proof. apply symtab_shown. Qed.

(** The listing nodes: each shows the daemon's whole text, and without a
    daemon an empty file or, for the System V and network tables, the header line;
    any other error reaches the reader with nothing copied. *)
Theorem blob_nodes_behave {U} `{Uio U} B fuel (u : U) :
  Forall (fun '(ty, node) => blob_behaves B fuel ty empty_node node u) (listings B true fuel)
  /\ Forall (fun '(ty, hdr, node) => blob_behaves B fuel ty (copy_all hdr) node u) (tables B true fuel)
  /\ Forall (fun '(_, node) => node u = Some (ENOMEM, u)) (listings B false fuel)
  /\ Forall (fun '(_, _, node) => node u = Some (ENOMEM, u)) (tables B false fuel).
Proof.
  split_and!; unfold listings, tables; repeat (apply List.Forall_cons || apply List.Forall_nil); try reflexivity;
    apply blob_node_behaves.
Qed.

(** /proc/extensions and /proc/modules report success, with nothing read, when the
    sbuf cannot be allocated. *)
Theorem kextlist_nomem_succeeds {U} `{Uio U} B fuel ty (u : U) : procfs_dokextlist B false fuel ty u = Some (0, u).
Proof. done. Qed.

(** Masking keeps every line where it was: the text has the same length and
    newlines in the same places, whatever the daemon sent. *)
Theorem mask_keeps_lines d i : length (mask_symbols d) = length d /\ (mask_symbols d !! i = Some 10 <-> d !! i = Some 10).
Proof.
  rewrite mask_symbols_ref. split; [apply mask_ref_length|]. generalize 16%nat as k. revert i.
  induction d as [|c r IH]; intros i k; [done|]. cbn. destruct (Z.eqb_spec c 10) as [->|Hc].
  - destruct i; [done|apply IH].
  - destruct k as [|k]; [destruct i; [done|apply IH]|]. destruct (Z.eqb_spec c 32); destruct i; try done; try apply IH.
    cbn. split; intros [= ?]; congruence.
Qed.

(** ** Witnesses *)
Definition sample_syms : list ksym := [Ksym 18446741874686296064 84 (lit "_start"); Ksym 18446741874686296080 116 (lit "_panic x")].

Lemma sample_syms_ok : Forall ksym_ok sample_syms.
Proof. repeat constructor; cbn; try lia; vm_compute; set_solver. Qed.

Lemma symtab_hides_addresses_witness :
  procfs_do_symtab (chunk_server (symtab_text sample_syms)) true 1 (Some (Cred 501 501 20 20)) PROCFS_REQ_KSYMS (ubuf_read 0 4096)
  = copy_all (lit "0000000000000000 T _start" ++ [10] ++ lit "0000000000000000 t _panic x" ++ [10])%list (ubuf_read 0 4096).
Proof.
  refine (eq_trans (symtab_hides_addresses (chunk_server (symtab_text sample_syms)) PROCFS_REQ_KSYMS sample_syms 1
    (Some (Cred 501 501 20 20)) (ubuf_read 0 4096) _ _ _ _) _).
  - intros off _. reflexivity.
  - apply sample_syms_ok.
  - vm_compute. reflexivity.
  - apply Nat.ltb_lt. vm_compute. reflexivity.
  - reflexivity.
Defined.
