(* ===== verification/Clock.v ===== *)
(** * The real-time clock (procfs_dortc of kext/procfs_linux.c)

    The node turns the calendar clock's seconds into a civil date with arithmetic
    on 400-year eras.  The reference is the Gregorian calendar itself, counted year
    by year and month by month from 1970-01-01. *)
From S2P Require Import Prelude Kernel Text Subr Map Format.
From Stdlib Require Import ZArith Lia String.
From stdpp Require Import base list numbers strings.
Open Scope Z_scope.

(** ** The code *)
Record civil := Civil { cv_year : Z; cv_month : Z; cv_day : Z; cv_hour : Z; cv_min : Z; cv_sec : Z }.

(** The locals of procfs_dortc; [secs] is a clock_sec_t. *)
Definition rtc_civil (secs : Z) : civil :=
  let sod := u64 secs mod 86400 in
  let hour := i32 (sod / 3600) in
  let min := i32 ((sod mod 3600) / 60) in
  let sec := i32 (sod mod 60) in
  let z := i64 (i64 (u64 secs / 86400) + 719468) in
  let era := Z.quot (if 0 <=? z then z else z - 146096) 146097 in
  let doe := u64 (z - era * 146097) in
  let yoe := u64 (u64 (u64 (doe - doe / 1460) + doe / 36524) - doe / 146096) / 365 in
  let year := i64 (i64 yoe + era * 400) in
  let doy := u64 (doe - u64 (u64 (365 * yoe + yoe / 4) - yoe / 100)) in
  let mp := u64 (5 * doy + 2) / 153 in
  let day := i32 (u64 (u64 (doy - (153 * mp + 2) / 5) + 1)) in
  let month := i32 (if mp <? 10 then mp + 3 else mp - 9) in
  let year := if month <=? 2 then i64 (year + 1) else year in
  Civil year month day hour min sec.

(** [%02d] and [%04lld] of values that are not negative. *)
Definition rtc_text (c : civil) : bytes :=
  (lit ("rtc_time" +:+ tab +:+ ": ") ++ zdec 2 (cv_hour c) ++ lit ":" ++ zdec 2 (cv_min c) ++ lit ":" ++ zdec 2 (cv_sec c) ++ [10]
   ++ lit ("rtc_date" +:+ tab +:+ ": ") ++ zdec 4 (cv_year c) ++ lit "-" ++ zdec 2 (cv_month c) ++ lit "-" ++ zdec 2 (cv_day c) ++ [10]
   ++ line ("alrm_time" +:+ tab +:+ ": **:**:**") ++ line ("alrm_date" +:+ tab +:+ ": ****-**-**")
   ++ line ("alarm_IRQ" +:+ tab +:+ ": no") ++ line ("alrm_pending" +:+ tab +:+ ": no")
   ++ line ("update IRQ enabled" +:+ tab +:+ ": no") ++ line ("periodic IRQ enabled" +:+ tab +:+ ": no")
   ++ line ("periodic IRQ frequency" +:+ tab +:+ ": 0") ++ line ("max user IRQ frequency" +:+ tab +:+ ": 64")
   ++ line ("24hr" +:+ tab +:+ tab +:+ ": yes") ++ line ("batt_status" +:+ tab +:+ ": okay"))%list.

Definition procfs_dortc {U} `{Uio U} (sbuf_ok : bool) (secs : Z) (u : U) : option (Z * U) :=
  sbuf_node sbuf_ok (rtc_text (rtc_civil secs)) u.

(** ** The calendar *)
Definition leap (y : Z) : bool := (y mod 4 =? 0) && (negb (y mod 100 =? 0) || (y mod 400 =? 0)).
Definition year_length (y : Z) : Z := if leap y then 366 else 365.
Definition month_length (y m : Z) : Z :=
  if m =? 2 then (if leap y then 29 else 28)
  else if (m =? 4) || (m =? 6) || (m =? 9) || (m =? 11) then 30 else 31.

(** Days from 1970-01-01 to the first day of year [1970 + n]. *)
Fixpoint year_start (n : nat) : Z :=
  match n with
  | O => 0
  | S n' => year_start n' + year_length (1970 + Z.of_nat n')
  end.

(** Days of year [y] before its month [1 + n]. *)
Fixpoint month_start (y : Z) (n : nat) : Z :=
  match n with
  | O => 0
  | S n' => month_start y n' + month_length y (1 + Z.of_nat n')
  end.

Definition days_of (y m d : Z) : Z := year_start (Z.to_nat (y - 1970)) + month_start y (Z.to_nat (m - 1)) + (d - 1).

(** A date of the calendar. *)
Definition date_ok (y m d : Z) : Prop := 1970 <= y /\ 1 <= m <= 12 /\ 1 <= d <= month_length y m.

(** ** The reference in closed form *)
Definition leaps (y : Z) : Z := y / 4 - y / 100 + y / 400.

Lemma leap_step y : leaps y - leaps (y - 1) = if leap y then 1 else 0.
Proof.
  unfold leaps, leap. destruct (Z.eqb_spec (y mod 4) 0), (Z.eqb_spec (y mod 100) 0), (Z.eqb_spec (y mod 400) 0); cbn [andb orb negb];
    Z.to_euclidean_division_equations; lia.
Qed.

Lemma year_start_closed n : year_start n = 365 * Z.of_nat n + leaps (1969 + Z.of_nat n) - 477.
Proof.
  induction n as [|n IH]; [reflexivity|]. cbn [year_start]. rewrite IH. unfold year_length.
  pose proof (leap_step (1970 + Z.of_nat n)) as Hs. replace (1970 + Z.of_nat n - 1) with (1969 + Z.of_nat n) in Hs by lia.
  replace (1969 + Z.of_nat (S n)) with (1970 + Z.of_nat n) by lia. destruct (leap _); lia.
Qed.

(** ** The arithmetic on eras *)
(** A day of the era by century, four-year cycle, year and day of the year. *)
Lemma era_split doe : 0 <= doe < 146096 ->
  exists c q t d, doe = 36524 * c + 1461 * q + 365 * t + d /\ 0 <= c <= 3 /\ 0 <= q <= 24 /\ 0 <= t <= 3
    /\ 0 <= d <= (if t =? 3 then 365 else 364) /\ (q = 24 -> t = 3 -> d = 365 -> False).
Proof.
  intros H. exists (doe / 36524), ((doe mod 36524) / 1461).
  set (s := (doe mod 36524) mod 1461). exists (if s =? 1460 then 3 else s / 365), (if s =? 1460 then 365 else s mod 365).
  pose proof (Z.div_mod doe 36524 ltac:(lia)). pose proof (Z.mod_pos_bound doe 36524 ltac:(lia)).
  pose proof (Z.div_mod (doe mod 36524) 1461 ltac:(lia)) as E. fold s in E. pose proof (Z.mod_pos_bound (doe mod 36524) 1461 ltac:(lia)) as Hs. fold s in Hs.
  clearbody s. pose proof (Z.div_mod s 365 ltac:(lia)). pose proof (Z.mod_pos_bound s 365 ltac:(lia)).
  destruct (Z.eqb_spec s 1460) as [->|]; [cbn [Z.eqb Pos.eqb]; lia|]. destruct (Z.eqb_spec (s / 365) 3); lia.
Qed.

Definition era_year (doe : Z) : Z := (doe - doe / 1460 + doe / 36524 - doe / 146096) / 365.

Lemma era_year_spec doe : 0 <= doe < 146097 ->
  let yoe := era_year doe in
  let doy := doe - (365 * yoe + yoe / 4 - yoe / 100) in
  0 <= yoe <= 399 /\ 0 <= doy <= 364 + (leaps (yoe + 1) - leaps yoe).
Proof.
  intros H. destruct (Z.eq_dec doe 146096) as [->|Hne]; [vm_compute; intuition congruence|].
  destruct (era_split doe ltac:(lia)) as (c & q & t & d & -> & Hc & Hq & Ht & Hd & Hx). cbv zeta.
  set (x := 36524 * c + 1461 * q + 365 * t + d) in *.
  assert (E1 : x / 36524 = c). { symmetry. apply (Z.div_unique x 36524 c (1461 * q + 365 * t + d)); [left|]; destruct (Z.eqb_spec t 3); lia. }
  assert (E2 : x / 146096 = 0) by (apply Z.div_small; destruct (Z.eqb_spec t 3); lia).
  set (e := (24 * c + q + 365 * t + d) / 1460).
  pose proof (Z.div_mod (24 * c + q + 365 * t + d) 1460 ltac:(lia)) as De. pose proof (Z.mod_pos_bound (24 * c + q + 365 * t + d) 1460 ltac:(lia)) as Be.
  fold e in De. assert (E3 : x / 1460 = 25 * c + q + e).
  { symmetry. apply (Z.div_unique x 1460 _ ((24 * c + q + 365 * t + d) mod 1460)); [left|]; unfold x; lia. }
  assert (E : era_year x = 100 * c + 4 * q + t).
  { unfold era_year. rewrite E1, E2, E3. symmetry. apply (Z.div_unique _ 365 _ (d - e)); [left|]; destruct (Z.eqb_spec t 3); unfold x; lia. }
  rewrite E. assert (E4 : (100 * c + 4 * q + t) / 4 = 25 * c + q) by (Z.to_euclidean_division_equations; lia).
  assert (E5 : (100 * c + 4 * q + t) / 100 = c) by (Z.to_euclidean_division_equations; lia).
  rewrite E4, E5. split; [lia|]. unfold leaps. rewrite E4, E5.
  assert (E6 : (100 * c + 4 * q + t) / 400 = 0) by (Z.to_euclidean_division_equations; lia). rewrite E6.
  assert (E7 : (100 * c + 4 * q + t + 1) / 4 = 25 * c + q + (if t =? 3 then 1 else 0)) by (destruct (Z.eqb_spec t 3); Z.to_euclidean_division_equations; lia).
  assert (E8 : (100 * c + 4 * q + t + 1) / 100 <= c + (if (q =? 24) && (t =? 3) then 1 else 0)) by
   (destruct (Z.eqb_spec q 24), (Z.eqb_spec t 3); cbn [andb]; Z.to_euclidean_division_equations; lia).
  assert (E9 : 0 <= (100 * c + 4 * q + t + 1) / 400) by (apply Z.div_pos; lia).
  rewrite E7. unfold x. destruct (Z.eqb_spec q 24), (Z.eqb_spec t 3); cbn [andb] in *; try lia.
Qed.

(** Months counted from March. *)
Lemma march_month doy : 0 <= doy <= 365 ->
  let mp := (5 * doy + 2) / 153 in
  0 <= mp <= 11 /\ 0 <= doy - (153 * mp + 2) / 5 <= 30
  /\ (mp = 11 -> doy <= 365) /\ (mp = 1 \/ mp = 3 \/ mp = 6 \/ mp = 8 -> doy - (153 * mp + 2) / 5 <= 29).
Proof. intros H. cbv zeta. Z.to_euclidean_division_equations. lia. Qed.

Lemma month_start_march y mp : 0 <= mp <= 9 -> month_start y (Z.to_nat (mp + 2)) = 59 + (if leap y then 1 else 0) + (153 * mp + 2) / 5.
Proof.
  intros H. assert (mp = 0 \/ mp = 1 \/ mp = 2 \/ mp = 3 \/ mp = 4 \/ mp = 5 \/ mp = 6 \/ mp = 7 \/ mp = 8 \/ mp = 9) by lia.
  destruct (leap y) eqn:E; repeat destruct H0 as [->|H0]; try subst mp;
    match goal with |- context [Z.to_nat ?a] => let n := eval vm_compute in (Z.to_nat a) in change (Z.to_nat a) with n end;
    cbn [month_start]; unfold month_length; rewrite ?E; reflexivity.
Qed.

(** The whole conversion, without the machine widths. *)
Definition civil_of_days (D : Z) : Z * Z * Z :=
  let z := D + 719468 in
  let era := z / 146097 in
  let doe := z - era * 146097 in
  let yoe := era_year doe in
  let doy := doe - (365 * yoe + yoe / 4 - yoe / 100) in
  let mp := (5 * doy + 2) / 153 in
  let m := if mp <? 10 then mp + 3 else mp - 9 in
  ((if m <=? 2 then yoe + era * 400 + 1 else yoe + era * 400), m, doy - (153 * mp + 2) / 5 + 1).

Lemma leaps_era y era : leaps (y + era * 400) = leaps y + 97 * era.
Proof. unfold leaps. Z.to_euclidean_division_equations. lia. Qed.

Lemma leaps_mono a b : a <= b -> leaps a <= leaps b.
Proof.
  intros H. replace b with (a + Z.of_nat (Z.to_nat (b - a))) by lia. generalize (Z.to_nat (b - a)) as n. clear.
  induction n as [|n IH]; [by rewrite Z.add_0_r|]. pose proof (leap_step (a + Z.of_nat (S n))).
  replace (a + Z.of_nat (S n) - 1) with (a + Z.of_nat n) in H by lia. destruct (leap (a + Z.of_nat (S n))); lia.
Qed.

(** The day number of a date, and the position of the date in its year. *)
Lemma civil_of_days_spec D : 0 <= D ->
  let '(y, m, d) := civil_of_days D in date_ok y m d /\ days_of y m d = D.
Proof.
  intros HD. unfold civil_of_days. set (z := D + 719468). set (era := z / 146097). set (doe := z - era * 146097).
  assert (Hdoe : 0 <= doe < 146097) by (unfold doe, era; pose proof (Z.div_mod z 146097); pose proof (Z.mod_pos_bound z 146097); lia).
  destruct (era_year_spec doe Hdoe) as [Hy Hdoy]. set (yoe := era_year doe) in *. set (doy := doe - _) in *.
  set (Y := yoe + era * 400). pose proof (leap_step (Y + 1)) as Hl. replace (Y + 1 - 1) with Y in Hl by lia.
  pose proof (leaps_era (yoe + 1) era) as L1. replace (yoe + 1 + era * 400) with (Y + 1) in L1 by (unfold Y; lia).
  pose proof (leaps_era yoe era) as L0. fold Y in L0.
  assert (Hle : leaps Y = yoe / 4 - yoe / 100 + 97 * era) by (unfold Y; rewrite leaps_era; unfold leaps; rewrite (Z.div_small yoe 400) by lia; lia).
  assert (Hd365 : 0 <= doy <= 365) by (destruct (leap (Y + 1)); lia).
  destruct (march_month doy Hd365) as (Hmp & Hday & _ & Hshort). set (mp := (5 * doy + 2) / 153) in *. set (first := (153 * mp + 2) / 5) in *.
  assert (Hz : D = 365 * (Y - 1970) + leaps Y - 477 + 59 + doy) by (unfold doy, doe, z, Y in *; lia).
  pose proof (leaps_mono 1969 Y). pose proof (leaps_mono Y 1968). change (leaps 1969) with 477 in *. change (leaps 1968) with 477 in *.
  destruct (Z.ltb_spec mp 10) as [Hlt|Hge].
  - destruct (Z.leb_spec (mp + 3) 2); [lia|].
    assert (HY : 1970 <= Y) by (pose proof (leaps_mono Y 1969); change (leaps 1969) with 477 in *; assert (first <= 275) by (unfold first; Z.to_euclidean_division_equations; lia); lia).
    pose proof (leap_step Y) as HlY. split.
    + split; [lia|]. split; [lia|]. unfold month_length. destruct (Z.eqb_spec (mp + 3) 2); [lia|].
      destruct (Z.eqb_spec (mp + 3) 4), (Z.eqb_spec (mp + 3) 6), (Z.eqb_spec (mp + 3) 9), (Z.eqb_spec (mp + 3) 11); cbn [orb]; lia.
    + unfold days_of. rewrite year_start_closed. replace (mp + 3 - 1) with (mp + 2) by lia. rewrite month_start_march by lia. fold first.
      replace (1969 + Z.of_nat (Z.to_nat (Y - 1970))) with (Y - 1) by lia. destruct (leap Y); lia.
  - destruct (Z.leb_spec (mp - 9) 2); [|lia].
    assert (Hf : mp = 10 /\ first = 306 \/ mp = 11 /\ first = 337).
    { assert (mp = 10 \/ mp = 11) as [E|E] by lia; [left|right]; (split; [done|]); unfold first; by rewrite E. }
    assert (HY : 1970 <= Y + 1) by lia. split.
    + split; [done|]. split; [lia|]. destruct Hf as [[E ->]|[E ->]]; rewrite E.
      * change (month_length (Y + 1) (10 - 9)) with 31. lia.
      * change (month_length (Y + 1) (11 - 9)) with (if leap (Y + 1) then 29 else 28). destruct (leap (Y + 1)); lia.
    + unfold days_of. rewrite year_start_closed. replace (1969 + Z.of_nat (Z.to_nat (Y + 1 - 1970))) with Y by lia.
      assert (Hm : month_start (Y + 1) (Z.to_nat (mp - 9 - 1)) = first - 306) by (destruct Hf as [[E ->]|[E ->]]; rewrite E; reflexivity).
      rewrite Hm. lia.
Qed.

(** ** The machine widths *)
Lemma rtc_civil_widths secs : 0 <= secs < 2 ^ 64 ->
  let '(y, m, d) := civil_of_days (secs / 86400) in
  rtc_civil secs = Civil y m d (secs mod 86400 / 3600) (secs mod 86400 mod 3600 / 60) (secs mod 86400 mod 60).
Proof.
  intros Hs. unfold civil_of_days, rtc_civil. rewrite (u64_small secs) by lia. set (D := secs / 86400).
  assert (HD : 0 <= D < 213503982334602) by (unfold D; Z.to_euclidean_division_equations; lia).
  set (z := D + 719468). rewrite (i64_small D) by lia. fold z. rewrite (i64_small z) by lia.
  destruct (Z.leb_spec 0 z); [|lia]. rewrite Z.quot_div_nonneg by lia. set (era := z / 146097). set (doe := z - era * 146097).
  assert (Hdoe : 0 <= doe < 146097) by (unfold doe, era; pose proof (Z.div_mod z 146097); pose proof (Z.mod_pos_bound z 146097); lia).
  assert (Hera : 0 <= era <= z) by (unfold era; Z.to_euclidean_division_equations; lia).
  destruct (era_year_spec doe Hdoe) as [Hy Hdoy].
  assert (Hq : 0 <= doe / 1460 <= doe /\ 0 <= doe / 36524 <= doe /\ 0 <= doe / 146096 <= doe / 36524 /\ doe / 1460 + doe / 146096 <= doe)
    by (Z.to_euclidean_division_equations; lia).
  rewrite (u64_small doe) by lia. rewrite (u64_small (doe - doe / 1460)) by lia. rewrite (u64_small (doe - doe / 1460 + doe / 36524)) by lia.
  rewrite (u64_small (_ - doe / 146096)) by lia. fold (era_year doe). set (yoe := era_year doe) in *.
  assert (Hd365 : 0 <= doe - (365 * yoe + yoe / 4 - yoe / 100) <= 365).
  { pose proof (leap_step (yoe + 1)) as Hl. replace (yoe + 1 - 1) with yoe in Hl by lia. destruct (leap (yoe + 1)); lia. }
  clearbody yoe. clear Hdoy Hq.
  assert (Hyq : 0 <= yoe / 4 <= 100 /\ 0 <= yoe / 100 <= yoe / 4) by (Z.to_euclidean_division_equations; lia).
  rewrite (u64_small (365 * yoe + yoe / 4)) by lia. rewrite (u64_small (365 * yoe + yoe / 4 - yoe / 100)) by lia. set (doy := doe - _) in *. rewrite (u64_small doy) by lia.
  rewrite (i64_small yoe), (i64_small (yoe + era * 400)) by lia. rewrite (u64_small (5 * doy + 2)) by lia.
  destruct (march_month doy Hd365) as (Hmp & Hday & _). set (mp := (5 * doy + 2) / 153) in *.
  rewrite (u64_small (doy - _)), u64_small, (i32_small (_ + 1)) by lia.
  rewrite (i32_small (if mp <? 10 then _ else _)) by (destruct (mp <? 10); lia).
  rewrite (i64_small (_ + 1)) by lia.
  pose proof (Z.mod_pos_bound secs 86400 ltac:(lia)) as Hsod. set (sod := secs mod 86400) in *. clearbody sod.
  rewrite !i32_small by (Z.to_euclidean_division_equations; lia). done.
Qed.

(** ** Theorems *)
(** C34. /proc/rtc shows the right instant: for every value of the clock the
    printed date is a date of the Gregorian calendar, the time is a time of day, and
    counting the years and months from 1970-01-01 gives back the clock's seconds. *)
Theorem rtc_correct secs : 0 <= secs < 2 ^ 64 ->
  let c := rtc_civil secs in
  date_ok (cv_year c) (cv_month c) (cv_day c)
  /\ 0 <= cv_hour c < 24 /\ 0 <= cv_min c < 60 /\ 0 <= cv_sec c < 60
  /\ days_of (cv_year c) (cv_month c) (cv_day c) * 86400 + cv_hour c * 3600 + cv_min c * 60 + cv_sec c = secs.
Proof.
  intros Hs. cbv zeta. pose proof (rtc_civil_widths secs Hs) as W. pose proof (civil_of_days_spec (secs / 86400)) as S.
  destruct (civil_of_days (secs / 86400)) as [[y m] d]. rewrite W. cbn [cv_year cv_month cv_day cv_hour cv_min cv_sec].
  destruct S as [S1 S2]; [apply Z.div_pos; lia|]. rewrite S2. split; [done|]. clear. Z.to_euclidean_division_equations. lia.
Qed.

Lemma rtc_correct_witness :
  rtc_civil 1709210096 = Civil 2024 2 29 12 34 56
  /\ days_of 2024 2 29 * 86400 + 12 * 3600 + 34 * 60 + 56 = 1709210096.
Proof.
  split; [vm_compute; reflexivity|]. apply (rtc_correct 1709210096). lia.
Defined.
