(* ===== verification/LinuxSys.v ===== *)
(** * System-wide text nodes (kext/procfs_linux.c)

    The nodes that describe the machine: CPU times, memory, interrupts, disks,
    mounts, power, boot arguments and the like.  What they ask the kernel (sysctls,
    the mount list, the interface list, IOKit, the VM statistics structure) is an
    argument; the requests to the daemon go through the bridge.  The layout of the
    VM statistics structure belongs to the system's headers: [vm_of] decodes it. *)
From S2P Require Import Prelude Kernel Text Version Subr Ctl Map Status Format.
From Stdlib Require Import ZArith Lia String.
From stdpp Require Import base list numbers strings sets.
Open Scope Z_scope.

Definition PROCFS_REQ_VMSTAT : Z := 3.
Definition PROCFS_REQ_LOADAVG : Z := 4.
Definition PROCFS_REQ_SYSCTL : Z := 7.
Definition PROCFS_REQ_APM : Z := 16.
Definition PROCFS_REQ_INTERRUPTS : Z := 20.
Definition PROCFS_REQ_CPULOAD : Z := 25.

Definition B2K (x : Z) : Z := Z.shiftr x 10.

(** A buffer of [size] zero bytes after a request that may fail. *)
Definition reply_into (size : Z) (r : Z * bytes) : bytes :=
  if fst r =? 0 then copy_into (snd r) (repeat 0 (Z.to_nat size)) else repeat 0 (Z.to_nat size).

(** ** CPU times *)
Record cpuline := Cpuline { cl_user : Z; cl_nice : Z; cl_sys : Z; cl_idle : Z }.
Definition cpu_load_size : Z := 32.

Fixpoint cpu_loads (n : nat) (bs : bytes) : list cpuline :=
  match n with
  | O => []
  | S n' => Cpuline (field 0 8 bs) (field 8 8 bs) (field 16 8 bs) (field 24 8 bs) :: cpu_loads n' (drop 32 bs)
  end.

Definition cpuline_zero : cpuline := Cpuline 0 0 0 0.
Definition cpuline_add (a c : cpuline) : cpuline :=
  Cpuline (u64 (cl_user a + cl_user c)) (u64 (cl_nice a + cl_nice c)) (u64 (cl_sys a + cl_sys c)) (u64 (cl_idle a + cl_idle c)).

(** [cl] and [agg] of procfs_dostat. *)
Definition cpu_times (B : bridge) (ncpu : Z) : list cpuline * cpuline :=
  let '(e, ld) := ctl_request B PROCFS_REQ_CPULOAD 0 0 EmptyString 2048 in
  let nld := if e =? 0 then Z.of_nat (length ld) / cpu_load_size else 0 in
  let got := cpu_loads (Z.to_nat (Z.min ncpu nld)) ld in
  ((got ++ repeat cpuline_zero (Z.to_nat ncpu - length got))%list, fold_left cpuline_add got cpuline_zero).

Definition cpu_columns (c : cpuline) : bytes :=
  (dec (cl_user c) ++ lit " " ++ dec (cl_nice c) ++ lit " " ++ dec (cl_sys c) ++ lit " " ++ dec (cl_idle c)
   ++ line " 0 0 0 0 0 0")%list.

Definition stat_text (B : bridge) (ncpu btime total_procs : Z) : bytes :=
  let '(cl, agg) := cpu_times B ncpu in
  (lit "cpu  " ++ cpu_columns agg
   ++ concat (imap (fun i c => lit "cpu" ++ sdec (Z.of_nat i) ++ lit " " ++ cpu_columns c)%list cl)
   ++ line "intr 0" ++ line "ctxt 0" ++ lit "btime " ++ sdec btime ++ [10] ++ lit "processes " ++ sdec total_procs ++ [10]
   ++ line "procs_running 1" ++ line "procs_blocked 0")%list.

(** ** VM statistics *)
Record vm_statistics64 := VmStat {
  free_count : Z; active_count : Z; inactive_count : Z; wire_count : Z; reactivations : Z; pageins : Z; pageouts : Z;
  faults : Z; cow_faults : Z; purgeable_count : Z; speculative_count : Z; decompressions : Z; compressions : Z;
  swapins : Z; swapouts : Z; compressor_page_count : Z; throttled_count : Z; external_page_count : Z; internal_page_count : Z
}.

Definition key_line (k : string) (v : Z) : bytes := (lit k ++ dec v ++ [10])%list.

Definition vmstat_text (vm : vm_statistics64) : bytes :=
  (key_line "nr_free_pages " (free_count vm) ++ line "nr_inactive_anon 0" ++ line "nr_active_anon 0"
   ++ key_line "nr_inactive_file " (inactive_count vm) ++ key_line "nr_active_file " (active_count vm)
   ++ key_line "nr_anon_pages " (internal_page_count vm) ++ key_line "nr_file_pages " (external_page_count vm)
   ++ key_line "nr_wired " (wire_count vm) ++ key_line "nr_purgeable " (purgeable_count vm)
   ++ key_line "nr_speculative " (speculative_count vm) ++ key_line "nr_throttled " (throttled_count vm)
   ++ key_line "nr_compressed " (compressor_page_count vm)
   ++ key_line "pgpgin " (pageins vm) ++ key_line "pgpgout " (pageouts vm)
   ++ key_line "pswpin " (swapins vm) ++ key_line "pswpout " (swapouts vm)
   ++ key_line "pgfault " (faults vm) ++ key_line "pgmajfault " (pageins vm)
   ++ key_line "pgreactivate " (reactivations vm) ++ key_line "cow_faults " (cow_faults vm)
   ++ key_line "decompressions " (decompressions vm) ++ key_line "compressions " (compressions vm))%list.

(** *** The buddy orders, largest first *)
Definition PROCFS_BUDDY_ORDERS : nat := 11.

(** The loop from [order - 1] down to 0: count[0 .. order). *)
Fixpoint buddy_counts (order : nat) (remaining : Z) : list Z :=
  match order with
  | O => []
  | S o => let blk := Z.shiftl 1 (Z.of_nat o) in (buddy_counts o (remaining mod blk) ++ [remaining / blk])%list
  end.

Definition count_columns (counts : list Z) : bytes := (concat (map (fun c => udec 6 c ++ lit " ") counts) ++ [10])%list.

Definition buddyinfo_text (vm : vm_statistics64) : bytes :=
  (lit "Node 0, zone " ++ pad_left 8 32 (lit "Normal") ++ lit " " ++ count_columns (buddy_counts PROCFS_BUDDY_ORDERS (free_count vm)))%list.

Definition PROCFS_PAGEBLOCK_ORDER : Z := 9.
Definition mtype : list string := ["Unmovable"; "Movable"; "Reclaimable"; "HighAtomic"; "Isolate"]%string.
Definition MOVABLE : nat := 1.

Definition pagetypeinfo_text (vm : vm_statistics64) (memsize PAGE_SIZE : Z) : bytes :=
  let count := buddy_counts PROCFS_BUDDY_ORDERS (free_count vm) in
  let blocks := Z.shiftr (memsize / PAGE_SIZE) PROCFS_PAGEBLOCK_ORDER in
  (lit "Page block order: " ++ sdec PROCFS_PAGEBLOCK_ORDER ++ [10]
   ++ lit "Pages per block:  " ++ dec (Z.shiftl 1 PROCFS_PAGEBLOCK_ORDER) ++ [10; 10]
   ++ lit "Free pages count per migrate type at order " ++ count_columns (seqZ 0 (Z.of_nat PROCFS_BUDDY_ORDERS))
   ++ concat (imap (fun t n => lit "Node    0, zone   Normal, type " ++ pad_left 12 32 (lit n) ++ lit " "
        ++ count_columns (if (t =? MOVABLE)%nat then count else map (fun _ => 0) count))%list mtype)
   ++ [10] ++ lit "Number of blocks type " ++ concat (map (fun n => pad_left 12 32 (lit n) ++ lit " ") mtype) ++ [10]
   ++ lit "Node 0, zone   Normal "
   ++ concat (imap (fun t _ => udec 12 (if (t =? MOVABLE)%nat then blocks else 0) ++ lit " ") mtype) ++ [10])%list.

(** *** meminfo *)
Record meminfo := Meminfo { mi_total : Z; mi_free : Z; mi_cached : Z; mi_active : Z; mi_inactive : Z; mi_swaptotal : Z; mi_swapfree : Z }.

(** [vm_of] is applied only when the reply has the structure's size. *)
Definition meminfo_of (B : bridge) (vm_of : bytes -> vm_statistics64) (vm_size memtotal PAGE_SIZE : Z) : meminfo :=
  let '(e, vb) := ctl_request B PROCFS_REQ_VMSTAT 0 0 EmptyString vm_size in
  let '(se, sw) := ctl_request B PROCFS_REQ_SYSCTL 0 0 "vm.swapusage" 32 in
  let vm_ok := (e =? 0) && (Z.of_nat (length vb) =? vm_size) in
  let sw_ok := (se =? 0) && (24 <=? Z.of_nat (length sw)) in
  let pages f := if vm_ok then u64 (f (vm_of vb) * PAGE_SIZE) else 0 in
  Meminfo memtotal (pages free_count) (pages external_page_count) (pages active_count) (pages inactive_count)
    (if sw_ok then field 0 8 sw else 0) (if sw_ok then field 8 8 sw else 0).

Definition meminfo_text (m : meminfo) : bytes :=
  (kb_line "MemTotal:       " (B2K (mi_total m)) ++ kb_line "MemFree:        " (B2K (mi_free m))
   ++ kb_line "Buffers:        " 0 ++ kb_line "Cached:         " (B2K (mi_cached m)) ++ kb_line "SwapCached:     " 0
   ++ kb_line "Active:         " (B2K (mi_active m)) ++ kb_line "Inactive:       " (B2K (mi_inactive m))
   ++ kb_line "HighTotal:      " 0 ++ kb_line "HighFree:       " 0
   ++ kb_line "LowTotal:       " (B2K (mi_total m)) ++ kb_line "LowFree:        " (B2K (mi_free m))
   ++ kb_line "SwapTotal:      " (B2K (mi_swaptotal m)) ++ kb_line "SwapFree:       " (B2K (mi_swapfree m))
   ++ kb_line "Dirty:          " 0 ++ kb_line "Writeback:      " 0 ++ kb_line "Mapped:         " 0 ++ kb_line "Slab:           " 0
   ++ kb_line "Committed_AS:   " 0 ++ kb_line "PageTables:     " 0 ++ kb_line "VmallocTotal:   " 0 ++ kb_line "VmallocUsed:    " 0
   ++ kb_line "VmallocChunk:   " 0 ++ lit "HugePages_Total:" ++ dec8 0 ++ [10] ++ lit "HugePages_Free: " ++ dec8 0 ++ [10]
   ++ kb_line "Hugepagesize:   " (2 * 1024))%list.

(** ** Interrupts *)
Definition online_clamp (logicalcpu : option Z) : Z :=
  let ncpu := match logicalcpu with Some n => if u32 n <? 1 then 1 else u32 n | None => 1 end in
  if 64 <? ncpu then 64 else ncpu.

Definition cpu_heading (ncpu : Z) : bytes := (concat (map (fun c => lit "CPU" ++ pad_right 8 (dec c)) (seqZ 0 ncpu)) ++ [10])%list.
Definition counter_columns (vs : list Z) : bytes := concat (map (fun v => lit " " ++ udec 10 v)%list vs).

Definition procfs_softirq_names : list string :=
  ["HI"; "TIMER"; "NET_TX"; "NET_RX"; "BLOCK"; "IRQ_POLL"; "TASKLET"; "SCHED"; "HRTIMER"; "RCU"]%string.

Definition softirqs_text (B : bridge) (ncpu : Z) : bytes :=
  let cs := snd (procfs_cpu_stat_all B ncpu) in
  (repeat 32 20 ++ cpu_heading ncpu
   ++ concat (imap (fun t n => pad_left 12 32 (lit n) ++ lit ":"
        ++ counter_columns (map (fun c => default 0 (procfs_cpu_softirq_map c !! t)) cs) ++ [10])%list procfs_softirq_names))%list.

(** The rows that the extension adds to the daemon's topology [sb]. *)
Definition interrupts_text (B : bridge) (ncpu : Z) (sb : bytes) : bytes :=
  let cs := snd (procfs_cpu_stat_all B ncpu) in
  ((match sb with [] => repeat 32 5 ++ cpu_heading ncpu | _ => sb end)
   ++ pad_left 4 32 (lit "LOC") ++ lit ":" ++ counter_columns (map timer cs) ++ line "   Local timer interrupts"
   ++ pad_left 4 32 (lit "RES") ++ lit ":" ++ counter_columns (map ipi cs) ++ line "   Rescheduling interrupts")%list.

(** The groups of the CPU mask: the high one, if it is shown, and the low one. *)
Definition irq_mask (ncpu : Z) : option Z * Z :=
  if ncpu <=? 32 then (None, if ncpu =? 32 then 4294967295 else u32 (u32 (Z.shiftl 1 ncpu) - 1))
  else (Some (if ncpu =? 64 then 4294967295 else u32 (u32 (Z.shiftl 1 (ncpu - 32)) - 1)), 4294967295).

Definition irq_affinity_text (ncpu : Z) : bytes :=
  match irq_mask ncpu with
  | (None, lo) => (print_x lo ++ [10])%list
  | (Some hi, _) => (print_x hi ++ line ",ffffffff")%list
  end.

Definition irq_affinity_list_text (ncpu : Z) : bytes :=
  if ncpu <=? 1 then line "0" else (lit "0-" ++ dec (u32 (ncpu - 1)) ++ [10])%list.

(** ** The address map, ports and channels *)
Definition iomem_text (total usable : Z) : bytes :=
  let usable := if (usable =? 0) || (total <? usable) then total else usable in
  if 0 <? total then
    (hex_min 8 0 ++ lit "-" ++ hex_min 8 (u64 (usable - 1)) ++ line " : System RAM"
     ++ (if usable <? total
         then hex_min 8 usable ++ lit "-" ++ hex_min 8 (u64 (total - 1)) ++ line " : Reserved" else []))%list
  else [].

(** [x86]: the target of the build. *)
Definition dma_text (x86 : bool) : bytes := if x86 then (udec 2 4 ++ line ": cascade")%list else [].

Definition ioports_text (x86 : bool) : bytes :=
  if x86 then
    concat (map line ["0000-001f : dma1"; "0020-0021 : pic1"; "0040-0043 : timer0"; "0060-0060 : keyboard"; "0064-0064 : keyboard";
      "0070-0071 : rtc0"; "0080-008f : dma page reg"; "00a0-00a1 : pic2"; "00c0-00df : dma2"; "00f0-00ff : fpu"]%string)
  else [].

Definition execdomains_text (linux_version : Z) : bytes :=
  let name := match procfs_spoofed_release linux_version with Some _ => "Linux"%string | None => "Darwin"%string end in
  (lit ("0-0" +:+ tab) ++ pad_right 16 (lit name) ++ line (tab +:+ "[kernel]"))%list.

(** ** Uptime, swap *)
Definition uptime_text (sec usec : Z) : bytes := (sdec sec ++ lit "." ++ zdec 2 (usec / 10000) ++ line " 0.00")%list.

(** [xsu]: total and used, when the sysctl could be read. *)
Definition swaps_text (xsu : option (Z * Z)) : bytes :=
  (line ("Filename" +:+ tab +:+ tab +:+ tab +:+ tab +:+ "Type" +:+ tab +:+ tab +:+ "Size" +:+ tab +:+ "Used" +:+ tab +:+ "Priority")
   ++ match xsu with
      | Some (total, used) =>
          if 0 <? total then
            lit ("/private/var/vm/swapfile" +:+ tab +:+ "file" +:+ tab +:+ tab) ++ dec (total / 1024) ++ lit tab ++ dec (used / 1024)
            ++ line (tab +:+ "-1")
          else []
      | None => []
      end)%list.

(** ** Mounts *)
Record vfsstatfs := Statfs {
  f_mntfromname : string; f_mntonname : string; f_fstypename : string; f_flags : Z; f_fsid0 : Z; f_blocks : Z; f_bsize : Z
}.

Definition MFSTYPENAMELEN : Z := 16.
Definition strncmp_eq (n : Z) (a b : string) : bool := String.eqb (str_take (Z.to_nat n) a) (str_take (Z.to_nat n) b).

Definition nodev_types : list string :=
  ["devfs"; "procfs"; "autofs"; "nullfs"; "fdesc"; "tmpfs"; "mtmfs"; "lifs"; "bindfs"; "webdav"; "nfs"; "smbfs"; "ftp"]%string.
Definition procfs_fs_is_nodev (type : string) : bool := existsb (strncmp_eq MFSTYPENAMELEN type) nodev_types.

Definition FSTYPES_MAX : nat := 32.

(** The callout: [names] are the types seen so far. *)
Definition procfs_fstypes_cb (names : list string) (st : option vfsstatfs) : list string :=
  match st with
  | None => names
  | Some st =>
      if existsb (fun n => strncmp_eq MFSTYPENAMELEN n (f_fstypename st)) names then names
      else if (length names <? FSTYPES_MAX)%nat then (names ++ [strlcpy (f_fstypename st) MFSTYPENAMELEN])%list else names
  end.

Definition fstypes (mounts : list (option vfsstatfs)) : list string := fold_left procfs_fstypes_cb mounts [].
Definition filesystems_text (mounts : list (option vfsstatfs)) : bytes :=
  concat (map (fun n => lit (if procfs_fs_is_nodev n then "nodev" else "") ++ lit tab ++ line n)%list (fstypes mounts)).

(** *** Mount options *)
Definition MNT_RDONLY : Z := 1.
Definition mtab_tab : list (Z * string) :=
  [(8, ",nosuid"); (16, ",nodev"); (4, ",noexec"); (2, ",sync"); (64, ",async"); (268435456, ",noatime"); (32, ",union");
   (8388608, ",journaled"); (4096, ",local"); (1048576, ",nobrowse")]%string.

(** [strlcat] into a buffer of [cap] bytes. *)
Definition strlcat (out s : string) (cap : Z) : string :=
  if strlen out <? cap then out +:+ str_take (Z.to_nat (cap - 1 - strlen out)) s else out.

Definition procfs_mtab_options (flags cap : Z) : string :=
  fold_left (fun out '(flag, opt) => if negb (Z.land flags flag =? 0) then strlcat out opt cap else out) mtab_tab
    (strlcpy (if negb (Z.land flags MNT_RDONLY =? 0) then "ro" else "rw") cap).

Definition procfs_mtab_cb (sb : bytes) (st : option vfsstatfs) : bytes :=
  match st with
  | None => sb
  | Some st => (sb ++ lit (f_mntfromname st) ++ lit " " ++ lit (f_mntonname st) ++ lit " " ++ lit (f_fstypename st) ++ lit " "
                ++ lit (procfs_mtab_options (f_flags st) 160) ++ line " 0 0")%list
  end.

(** ** Disks *)
Record procfs_partition := Partition { pt_major : Z; pt_minor : Z; pt_size : Z; pt_name : string }.
Record procfs_diskstat := Diskstat {
  ds_major : Z; ds_minor : Z; ds_name : string; ds_reads : Z; ds_read_sectors : Z; ds_read_ticks_ms : Z;
  ds_writes : Z; ds_write_sectors : Z; ds_write_ticks_ms : Z
}.

Section Disks.
Variables major minor : Z -> Z.          (* the macros on dev_t of the system's headers *)

Definition procfs_partitions_cb (sb : bytes) (st : option vfsstatfs) : bytes :=
  match st with
  | None => sb
  | Some st =>
      if strncmp_eq 5 (f_mntfromname st) "/dev/" then
        let blocks := Z.shiftr (u64 (f_blocks st * f_bsize st)) 10 in
        (sb ++ pad_left 4 32 (sdec (major (f_fsid0 st))) ++ lit " " ++ pad_left 7 32 (sdec (minor (f_fsid0 st))) ++ lit " "
         ++ udec 10 blocks ++ lit " " ++ drop 5 (lit (f_mntfromname st)) ++ [10])%list
      else sb
  end.

(** [iokit]: what the enumeration returned, if the array could be allocated and it
    succeeded. *)
Definition partitions_text (iokit : option (list procfs_partition)) (mounts : list (option vfsstatfs)) : bytes :=
  let hdr := (line "major minor  #blocks  name" ++ [10])%list in
  match iokit with
  | Some ((_ :: _) as parts) =>
      (hdr ++ concat (map (fun p => udec 4 (pt_major p) ++ lit " " ++ udec 7 (pt_minor p) ++ lit " " ++ udec 10 (pt_size p / 1024)
                 ++ lit " " ++ line (pt_name p)) parts))%list
  | _ => fold_left procfs_partitions_cb mounts hdr
  end.
End Disks.

Definition diskstat_line (d : procfs_diskstat) : bytes :=
  (udec 4 (ds_major d) ++ lit " " ++ udec 7 (ds_minor d) ++ lit " " ++ lit (ds_name d) ++ lit " " ++ dec (ds_reads d) ++ lit " 0 "
   ++ dec (ds_read_sectors d) ++ lit " " ++ dec (ds_read_ticks_ms d) ++ lit " " ++ dec (ds_writes d) ++ lit " 0 "
   ++ dec (ds_write_sectors d) ++ lit " " ++ dec (ds_write_ticks_ms d) ++ lit " 0 "
   ++ dec (u64 (ds_read_ticks_ms d + ds_write_ticks_ms d)) ++ line " 0")%list.
Definition diskstats_text (iokit : option (list procfs_diskstat)) : bytes := concat (map diskstat_line (default [] iokit)).

(** ** kcore *)
Definition EM_NATIVE (x86 : bool) : Z := if x86 then 62 else 183.

Definition kcore_ehdr (x86 : bool) : bytes :=
  ([127; 69; 76; 70; 2; 1; 1] ++ repeat 0 9                       (* e_ident *)
   ++ le_bytes 2 4 ++ le_bytes 2 (EM_NATIVE x86) ++ le_bytes 4 1  (* e_type, e_machine, e_version *)
   ++ le_bytes 8 0 ++ le_bytes 8 0 ++ le_bytes 8 0                (* e_entry, e_phoff, e_shoff *)
   ++ le_bytes 4 0 ++ le_bytes 2 64 ++ le_bytes 2 0 ++ le_bytes 2 0  (* e_flags, e_ehsize, e_phentsize, e_phnum *)
   ++ le_bytes 2 0 ++ le_bytes 2 0 ++ le_bytes 2 0)%list.

(** ** Boot arguments *)
(** [raw] and [rawlen]: the sysctl in the kernel, then the daemon's. *)
Definition bootargs (B : bridge) (in_kernel : option bytes) : bytes :=
  let raw := match in_kernel with
             | Some ((_ :: _) as bs) => bs
             | _ => let '(e, bs) := ctl_request B PROCFS_REQ_SYSCTL 0 0 "kern.bootargs" 1024 in if e =? 0 then bs else []
             end in
  match last raw with Some 0 => removelast raw | _ => raw end.

Definition kcmdline_text (raw : bytes) : bytes := (c_str raw ++ [10])%list.
Definition bootconfig_text (raw : bytes) : bytes :=
  match raw with
  | [] => []
  | _ => (c_str raw ++ [10] ++ line "# Parameters from bootloader:" ++ lit "# " ++ c_str raw ++ [10])%list
  end.

(** ** apm *)
Record procfs_apm_info := ApmInfo { ac_online : Z; battery_present : Z; charging : Z; percentage : Z; time_minutes : Z }.
Definition apm_of (bs : bytes) : procfs_apm_info :=
  ApmInfo (i32 (field 0 4 bs)) (i32 (field 4 4 bs)) (i32 (field 8 4 bs)) (i32 (field 12 4 bs)) (i32 (field 16 4 bs)).

(** ac, bstatus, bflag, pct and tmin. *)
Definition apm_values (info : procfs_apm_info) : Z * Z * Z * Z * Z :=
  let ac := if ac_online info =? 1 then 1 else if ac_online info =? 0 then 0 else 255 in
  let pct := percentage info in
  let tmin := time_minutes info in
  if battery_present info =? 0 then (ac, 255, 128, -1, -1)
  else if negb (charging info =? 0) then (ac, 3, 8, pct, tmin)
  else if 50 <? pct then (ac, 0, 1, pct, tmin)
  else if 5 <? pct then (ac, 1, 2, pct, tmin)
  else (ac, 2, 4, pct, tmin).

Definition apm_text (info : procfs_apm_info) : bytes :=
  let '(ac, bstatus, bflag, pct, tmin) := apm_values info in
  (lit "1.16 1.2 0x02 0x" ++ hex_min 2 ac ++ lit " 0x" ++ hex_min 2 bstatus ++ lit " 0x" ++ hex_min 2 bflag ++ lit " "
   ++ sdec pct ++ lit "% " ++ sdec tmin ++ lit " " ++ line (if 0 <=? tmin then "min" else "?"))%list.

(** ** Network interfaces *)
Record ifstat := Ifstat {
  if_name : string; if_unit : Z; bytes_in : Z; packets_in : Z; errors_in : Z; dropped : Z; multicasts_in : Z;
  bytes_out : Z; packets_out : Z; errors_out : Z; collisions : Z
}.

Definition netdev_line (st : ifstat) : bytes :=
  let name := lit (str_take 31 (if_name st +:+ print_u (if_unit st))) in
  (pad_left 6 32 name ++ lit ":" ++ udec 8 (bytes_in st) ++ lit " " ++ udec 7 (packets_in st) ++ lit " " ++ udec 4 (errors_in st) ++ lit " "
   ++ udec 4 (dropped st) ++ lit " " ++ udec 4 0 ++ lit " " ++ udec 4 0 ++ lit " " ++ udec 10 0 ++ lit " " ++ udec 9 (multicasts_in st) ++ lit " "
   ++ udec 8 (bytes_out st) ++ lit " " ++ udec 7 (packets_out st) ++ lit " " ++ udec 4 (errors_out st) ++ lit " " ++ udec 4 0 ++ lit " "
   ++ udec 4 0 ++ lit " " ++ udec 5 (collisions st) ++ lit " " ++ udec 7 0 ++ lit " " ++ udec 10 0 ++ [10])%list.

Definition netdev_text (ifs : list ifstat) : bytes :=
  (line "Inter-|   Receive                                                |  Transmit"
   ++ line " face |bytes    packets errs drop fifo frame compressed multicast|bytes    packets errs drop fifo colls carrier compressed"
   ++ concat (map netdev_line ifs))%list.

(** ** Load averages, version and CPU blocks *)
Definition load_columns (v : Z) : bytes :=
  (sdec (Z.quot v 100) ++ lit "." ++ (let r := Z.rem v 100 in if r <? 0 then pad_left 2 48 (sdec r) else zdec 2 r))%list.

Definition loadavg_values (B : bridge) : Z * Z * Z :=
  let '(e, la) := ctl_request B PROCFS_REQ_LOADAVG 0 0 EmptyString 12 in
  if (e =? 0) && (Z.of_nat (length la) =? 12) then (i32 (field 0 4 la), i32 (field 4 4 la), i32 (field 8 4 la)) else (0, 0, 0).

Definition loadavg_text (B : bridge) (total_procs : Z) : bytes :=
  let '(l1, l5, l15) := loadavg_values B in
  (load_columns l1 ++ lit " " ++ load_columns l5 ++ lit " " ++ load_columns l15 ++ lit " " ++ sdec 1 ++ lit "/" ++ sdec total_procs
   ++ lit " " ++ sdec 0 ++ [10])%list.

(** What the arm64 getters report. *)
Record arm_cpu := ArmCpu {
  bogomips : string; features : string; implementer : string; architecture : string; variant : string; revision : string;
  part : string; part_ecore : string
}.

Definition cpuinfo_block (c : arm_cpu) (clusters : bytes) (cpu : Z) : bytes :=
  let pt := if (cpu <? 64) && bool_decide (clusters !! Z.to_nat cpu = Some 69) then part_ecore c else part c in
  (lit ("processor" +:+ tab +:+ tab +:+ ": ") ++ dec cpu ++ [10] ++ lit ("BogoMIPS" +:+ tab +:+ tab +:+ ": ") ++ line (bogomips c)
   ++ lit ("Features" +:+ tab +:+ tab +:+ ": ") ++ line (features c) ++ lit ("CPU implementer" +:+ tab +:+ tab +:+ ": ") ++ line (implementer c)
   ++ lit ("CPU architecture" +:+ tab +:+ ": ") ++ line (architecture c) ++ lit ("CPU variant" +:+ tab +:+ tab +:+ ": ") ++ line (variant c)
   ++ lit ("CPU part" +:+ tab +:+ tab +:+ ": ") ++ line pt ++ lit ("CPU revision" +:+ tab +:+ tab +:+ ": ") ++ line (revision c) ++ [10])%list.

(** ** The nodes *)
Section Nodes.
Context {U : Type} `{Uio U}.
Variable B : bridge.
Variable sbuf_ok : bool.
Variable sysctl : string -> option Z.              (* integer sysctls the kernel can read *)
Variable vm_of : bytes -> vm_statistics64.         (* vm_statistics64_data_t and its size *)
Variable vm_size PAGE_SIZE : Z.

Definition sysctl_or (name : string) (dflt : Z) : Z := default dflt (sysctl name).

(** The VM statistics as the nodes that ignore the request's result see them. *)
Definition vm_now : vm_statistics64 := vm_of (reply_into vm_size (ctl_request B PROCFS_REQ_VMSTAT 0 0 EmptyString vm_size)).

Definition procfs_dostat (K : kernel) (pids_ok cl_ok : bool) (creds : cred) (boottime : option Z) (u : U) : option (Z * U) :=
  let ncpu := match sysctl "hw.logicalcpu" with Some n => if i32 n <=? 0 then 1 else i32 n | None => 1 end in
  if sbuf_ok then
    if cl_ok then copy_all (stat_text B ncpu (default 0 boottime) (procfs_get_process_count K pids_ok creds)) u else Some (ENOMEM, u)
  else Some (ENOMEM, u).

Definition procfs_dovmstat (u : U) : option (Z * U) := sbuf_node sbuf_ok (vmstat_text vm_now) u.
Definition procfs_dobuddyinfo (u : U) : option (Z * U) := sbuf_node sbuf_ok (buddyinfo_text vm_now) u.
Definition procfs_dopagetypeinfo (u : U) : option (Z * U) :=
  sbuf_node sbuf_ok (pagetypeinfo_text vm_now (sysctl_or "hw.memsize" 0) PAGE_SIZE) u.
Definition procfs_domeminfo (u : U) : option (Z * U) :=
  sbuf_node sbuf_ok (meminfo_text (meminfo_of B vm_of vm_size (sysctl_or "hw.memsize" 0) PAGE_SIZE)) u.

Definition procfs_online_cpus : Z := online_clamp (sysctl "hw.logicalcpu").
Definition procfs_dosoftirqs (u : U) : option (Z * U) := sbuf_node sbuf_ok (softirqs_text B procfs_online_cpus) u.
Definition procfs_dointerrupts (fuel : nat) (u : U) : option (Z * U) :=
  if sbuf_ok then
    match procfs_ctl_request_blob B PROCFS_REQ_INTERRUPTS fuel [] with
    | None => None
    | Some (error, sb) =>
        if negb (error =? 0) && negb (error =? ENOTCONN) then Some (error, u)
        else copy_all (interrupts_text B procfs_online_cpus sb) u
    end
  else Some (ENOMEM, u).
Definition procfs_doirq_affinity (u : U) : option (Z * U) := snprintf_copy 64 (irq_affinity_text procfs_online_cpus) u.
Definition procfs_doirq_affinity_list (u : U) : option (Z * U) := snprintf_copy 32 (irq_affinity_list_text procfs_online_cpus) u.

Definition procfs_doiomem (u : U) : option (Z * U) :=
  sbuf_node sbuf_ok (iomem_text (sysctl_or "hw.memsize" 0) (sysctl_or "hw.memsize_usable" 0)) u.
Definition procfs_dodma (x86 : bool) (u : U) : option (Z * U) := sbuf_node sbuf_ok (dma_text x86) u.
Definition procfs_doioports (x86 : bool) (u : U) : option (Z * U) := sbuf_node sbuf_ok (ioports_text x86) u.
Definition procfs_doexecdomains (linux_version : Z) (u : U) : option (Z * U) := snprintf_copy 64 (execdomains_text linux_version) u.
Definition procfs_douptime (sec usec : Z) (u : U) : option (Z * U) := snprintf_copy 64 (uptime_text sec usec) u.
Definition procfs_doswaps (xsu : option (Z * Z)) (u : U) : option (Z * U) := sbuf_node sbuf_ok (swaps_text xsu) u.
Definition procfs_dofilesystems (mounts : list (option vfsstatfs)) (u : U) : option (Z * U) := sbuf_node sbuf_ok (filesystems_text mounts) u.
Definition procfs_domtab (mounts : list (option vfsstatfs)) (u : U) : option (Z * U) :=
  sbuf_node sbuf_ok (fold_left procfs_mtab_cb mounts []) u.
Definition procfs_dopartitions (major minor : Z -> Z) (iokit : option (list procfs_partition)) (mounts : list (option vfsstatfs)) (u : U)
  : option (Z * U) := sbuf_node sbuf_ok (partitions_text major minor iokit mounts) u.
Definition procfs_dodiskstats (iokit : option (list procfs_diskstat)) (u : U) : option (Z * U) := sbuf_node sbuf_ok (diskstats_text iokit) u.
Definition procfs_dokcore (x86 : bool) (u : U) : option (Z * U) := copy_all (kcore_ehdr x86) u.
Definition procfs_dokcmdline (in_kernel : option bytes) (u : U) : option (Z * U) := sbuf_node sbuf_ok (kcmdline_text (bootargs B in_kernel)) u.
Definition procfs_dobootconfig (in_kernel : option bytes) (u : U) : option (Z * U) := sbuf_node sbuf_ok (bootconfig_text (bootargs B in_kernel)) u.

Definition procfs_doapm (u : U) : option (Z * U) :=
  let '(error, tmp) := ctl_request B PROCFS_REQ_APM 0 0 EmptyString 20 in
  if negb (error =? 0) then Some (if error =? ENOTCONN then 0 else error, u)
  else snprintf_copy 128 (apm_text (if Z.of_nat (length tmp) =? 20 then apm_of tmp else ApmInfo (-1) 0 0 (-1) (-1))) u.

(** [ifs]: the interface list, or the errno of ifnet_list_get. *)
Definition procfs_donetdev (ifs : Z + list ifstat) (u : U) : option (Z * U) :=
  match ifs with
  | inl kerr => Some (kerr, u)
  | inr l => sbuf_node sbuf_ok (netdev_text l) u
  end.

(** The nodes that call uiomove themselves. *)
Definition page_offset (off : Z) : Z := off mod PAGE_SIZE.

Definition procfs_doloadavg (K : kernel) (pids_ok : bool) (creds : cred) (u : U) : option (Z * U) :=
  let text := loadavg_text B (procfs_get_process_count K pids_ok creds) in
  uiomove_int text (i32 (Z.of_nat (length text) - page_offset (uio_offset u))) u.

(** [version]: the kernel's version string. *)
Definition procfs_doversion (linux_version : Z) (version : string) (u : U) : option (Z * U) :=
  match procfs_build_linux_version linux_version with
  | Some s => snprintf_copy 8192 (lit s) u
  | None => let text := line version in uiomove_int (snprintf_buf 8192 text) (i32 (Z.of_nat (length text) - page_offset (uio_offset u))) u
  end.

(** The arm64 body; the results of uiomove are not looked at. *)
Definition procfs_docpuinfo (c : arm_cpu) (u : U) : option (Z * U) :=
  let max_cpus := u32 (sysctl_or "hw.logicalcpu" 1) in
  let clusters := snd (procfs_cpu_clusters B (if max_cpus <=? 64 then max_cpus else 64)) in
  let off := page_offset (uio_offset u) in
  match fold_left (fun acc cpu =>
          match acc with
          | None => None
          | Some u => let text := cpuinfo_block c clusters cpu in snd <$> uiomove_int (snprintf_buf 32768 text) (i32 (Z.of_nat (length text) - off)) u
          end) (seqZ 0 max_cpus) (Some u) with
  | Some u => Some (0, u)
  | None => None
  end.
End Nodes.

(** ** Buddy orders *)
(** Pages in blocks of increasing order. *)
Fixpoint blocks_pages (order : Z) (counts : list Z) : Z :=
  match counts with
  | [] => 0
  | c :: r => c * 2 ^ order + blocks_pages (order + 1) r
  end.

Lemma blocks_pages_snoc l o c : blocks_pages o (l ++ [c])%list = blocks_pages o l + c * 2 ^ (o + Z.of_nat (length l)).
Proof.
  revert o. induction l as [|x l IH]; intros o; cbn [app blocks_pages length].
  - change (Z.of_nat 0) with 0. rewrite !Z.add_0_r. lia.
  - rewrite IH. replace (o + 1 + Z.of_nat (length l)) with (o + Z.of_nat (S (length l))) by lia. lia.
Qed.

Lemma buddy_counts_length o r : length (buddy_counts o r) = o.
Proof. revert r. induction o as [|o IH]; intros r; [done|]. cbn [buddy_counts]. rewrite length_app, IH. cbn. lia. Qed.

Lemma buddy_counts_S o r :
  buddy_counts (S o) r = (buddy_counts o (r mod Z.shiftl 1 (Z.of_nat o)) ++ [r / Z.shiftl 1 (Z.of_nat o)])%list.
Proof. done. Qed.

Lemma buddy_counts_sum o r : 0 <= r -> (o = 0%nat -> r = 0) ->
  blocks_pages 0 (buddy_counts o r) = r.
Proof.
  revert r. induction o as [|o IH]; intros r Hr H0; [by rewrite H0|]. cbn [buddy_counts].
  rewrite blocks_pages_snoc, buddy_counts_length, Z.shiftl_mul_pow2, Z.mul_1_l, Z.add_0_l by lia.
  pose proof (Z.pow_pos_nonneg 2 (Z.of_nat o) ltac:(lia) ltac:(lia)). pose proof (Z.div_mod r (2 ^ Z.of_nat o) ltac:(lia)).
  pose proof (Z.mod_pos_bound r (2 ^ Z.of_nat o) ltac:(lia)).
  rewrite IH; [lia|lia|]. intros ->. change (2 ^ Z.of_nat 0) with 1. apply Z.mod_1_r.
Qed.

Lemma buddy_counts_nonneg o r : 0 <= r -> Forall (fun c => 0 <= c) (buddy_counts o r).
Proof.
  revert r. induction o as [|o IH]; intros r Hr; [constructor|]. cbn [buddy_counts]. rewrite Z.shiftl_mul_pow2, Z.mul_1_l by lia.
  pose proof (Z.pow_pos_nonneg 2 (Z.of_nat o) ltac:(lia) ltac:(lia)).
  apply Forall_app. split; [apply IH, Z.mod_pos_bound; lia|]. constructor; [|constructor]. apply Z.div_pos; lia.
Qed.

(** Below the largest order there is at most one block: free memory is coalesced. *)
Lemma buddy_counts_small o r : 0 <= r < 2 ^ Z.of_nat o -> Forall (fun c => 0 <= c <= 1) (buddy_counts o r).
Proof.
  revert r. induction o as [|o IH]; intros r Hr; [constructor|]. cbn [buddy_counts]. rewrite Z.shiftl_mul_pow2, Z.mul_1_l by lia.
  pose proof (Z.pow_pos_nonneg 2 (Z.of_nat o) ltac:(lia) ltac:(lia)). rewrite Nat2Z.inj_succ, Z.pow_succ_r in Hr by lia. apply Forall_app. split; [apply IH, Z.mod_pos_bound; lia|]. constructor; [|constructor].
  split; [apply Z.div_pos; lia|]. assert (r / 2 ^ Z.of_nat o < 2) by (apply Z.div_lt_upper_bound; lia). lia.
Qed.

(** ** The CPU mask *)
Lemma mask_ones n : 0 <= n < 32 -> u32 (u32 (Z.shiftl 1 n) - 1) = Z.ones n.
Proof.
  intros Hn. rewrite Z.shiftl_mul_pow2, Z.mul_1_l by lia. pose proof (Z.pow_le_mono_r 2 n 31 ltac:(lia) ltac:(lia)) as Hp.
  change (2 ^ 31) with 2147483648 in Hp. pose proof (Z.pow_pos_nonneg 2 n ltac:(lia) ltac:(lia)).
  rewrite (u32_small (2 ^ n)) by lia. rewrite u32_small by lia. rewrite Z.ones_equiv. lia.
Qed.

(** The mask as one number. *)
Definition mask_value (m : option Z * Z) : Z := Z.lor (Z.shiftl (default 0 (fst m)) 32) (snd m).

Lemma irq_mask_bits ncpu i : 1 <= ncpu <= 64 -> 0 <= i -> Z.testbit (mask_value (irq_mask ncpu)) i = (i <? ncpu).
Proof.
  intros Hn Hi. unfold irq_mask, mask_value. destruct (Z.leb_spec ncpu 32).
  - cbn [fst snd default]. rewrite Z.shiftl_0_l, Z.lor_0_l.
    assert (E : (if ncpu =? 32 then 4294967295 else u32 (u32 (Z.shiftl 1 ncpu) - 1)) = Z.ones ncpu).
    { destruct (Z.eqb_spec ncpu 32) as [->|]; [reflexivity|]. apply mask_ones. lia. }
    rewrite E. destruct (Z.ltb_spec i ncpu); [apply Z.ones_spec_low; lia|apply Z.ones_spec_high; lia].
  - cbn [fst snd default from_option id].
    assert (E : (if ncpu =? 64 then 4294967295 else u32 (u32 (Z.shiftl 1 (ncpu - 32)) - 1)) = Z.ones (ncpu - 32)).
    { destruct (Z.eqb_spec ncpu 64) as [->|]; [reflexivity|]. apply mask_ones. lia. }
    rewrite E. change 4294967295 with (Z.ones 32). rewrite Z.lor_spec, Z.shiftl_spec by lia.
    destruct (Z.lt_ge_cases i 32).
    + rewrite (Z.ones_spec_low 32) by lia. rewrite orb_true_r. by destruct (Z.ltb_spec i ncpu); [|lia].
    + rewrite (Z.ones_spec_high 32) by lia. rewrite orb_false_r.
      destruct (Z.ltb_spec i ncpu); [apply Z.ones_spec_low; lia|apply Z.ones_spec_high; lia].
Qed.

(** ** CPU times *)
Lemma cpu_loads_length n bs : length (cpu_loads n bs) = n.
Proof. revert bs. induction n as [|n IH]; intros bs; [done|]. cbn. by rewrite IH. Qed.

Lemma sum_of_app {A} (f : A -> Z) l1 l2 : sum_of f (l1 ++ l2)%list = sum_of f l1 + sum_of f l2.
Proof. induction l1 as [|x l IH]; [done|]. unfold sum_of in *. cbn [app foldr]. rewrite IH. lia. Qed.

Lemma sum_of_zeros {A} (f : A -> Z) x n : f x = 0 -> sum_of f (repeat x n) = 0.
Proof. intros Hx. induction n as [|n IH]; [done|]. unfold sum_of in *. cbn [repeat foldr]. lia. Qed.

Lemma u64_add_l a b : u64 (u64 a + b) = u64 (a + b).
Proof. unfold u64, wrap_u. by rewrite Z.add_mod_idemp_l by done. Qed.

(** The running total of the loop. *)
Lemma cpuline_fold l a :
  fold_left cpuline_add l (Cpuline (u64 (cl_user a)) (u64 (cl_nice a)) (u64 (cl_sys a)) (u64 (cl_idle a)))
  = Cpuline (u64 (cl_user a + sum_of cl_user l)) (u64 (cl_nice a + sum_of cl_nice l))
      (u64 (cl_sys a + sum_of cl_sys l)) (u64 (cl_idle a + sum_of cl_idle l)).
Proof.
  revert a. induction l as [|c l IH]; intros a; cbn [fold_left].
  - unfold sum_of; cbn [foldr]. by rewrite !Z.add_0_r.
  - unfold cpuline_add at 2. cbn [cl_user cl_nice cl_sys cl_idle]. rewrite !u64_add_l.
    specialize (IH (Cpuline (cl_user a + cl_user c) (cl_nice a + cl_nice c) (cl_sys a + cl_sys c) (cl_idle a + cl_idle c))).
    cbn [cl_user cl_nice cl_sys cl_idle] in IH. rewrite IH. unfold sum_of; cbn [foldr]. f_equal; f_equal; lia.
Qed.

Lemma cpu_times_sum B ncpu : 0 <= ncpu ->
  let '(cl, agg) := cpu_times B ncpu in
  length cl = Z.to_nat ncpu
  /\ agg = Cpuline (u64 (sum_of cl_user cl)) (u64 (sum_of cl_nice cl)) (u64 (sum_of cl_sys cl)) (u64 (sum_of cl_idle cl)).
Proof.
  intros Hn. unfold cpu_times. destruct (ctl_request B _ 0 0 EmptyString 2048) as [e ld]. cbv zeta.
  set (nld := if e =? 0 then _ else 0). assert (0 <= nld) by (unfold nld; destruct (e =? 0); [apply Z.div_pos; unfold cpu_load_size; lia|lia]).
  set (got := cpu_loads _ ld). assert (Hg : length got = Z.to_nat (Z.min ncpu nld)) by apply cpu_loads_length. split.
  - rewrite length_app, repeat_length. lia.
  - rewrite !sum_of_app, !(sum_of_zeros _ cpuline_zero) by done. rewrite !Z.add_0_r.
    apply (cpuline_fold got cpuline_zero).
Qed.

(** ** Mounted types *)
(** A type name as the kernel keeps it: NUL-terminated in 16 bytes. *)
Definition mounts_ok (mounts : list (option vfsstatfs)) : Prop :=
  Forall (fun st => match st with Some st => strlen (f_fstypename st) < MFSTYPENAMELEN | None => True end) mounts.
Definition mount_types (mounts : list (option vfsstatfs)) : list string := omap (fmap f_fstypename) mounts.

Lemma strncmp_short n a b : strlen a < n -> strlen b < n -> strncmp_eq n a b = String.eqb a b.
Proof. intros Ha Hb. unfold strncmp_eq, strlen in *. by rewrite !str_take_all by lia. Qed.

Lemma existsb_name names s : Forall (fun n => strlen n < MFSTYPENAMELEN) names -> strlen s < MFSTYPENAMELEN ->
  existsb (fun n => strncmp_eq MFSTYPENAMELEN n s) names = bool_decide (s ∈ names).
Proof.
  intros Hn Hs. induction Hn as [|n names Hl _ IH]; [done|]. cbn [existsb]. rewrite IH, strncmp_short by done.
  destruct (String.eqb_spec n s) as [->|Hne]; cbn [orb].
  - symmetry. apply bool_decide_true. left.
  - apply bool_decide_ext. rewrite elem_of_cons. naive_solver.
Qed.

(** What is collected: the distinct types, in order, up to the table's size. *)
Record types_inv (seen names : list string) : Prop := {
  ti_short : Forall (fun n => strlen n < MFSTYPENAMELEN) names;
  ti_nodup : NoDup names;
  ti_size : (length names <= FSTYPES_MAX)%nat;
  ti_sound : names ⊆ seen;
  ti_complete : (length names < FSTYPES_MAX)%nat -> seen ⊆ names
}.

Lemma types_step seen names s : types_inv seen names -> strlen s < MFSTYPENAMELEN ->
  types_inv (seen ++ [s]) (if bool_decide (s ∈ names) then names
    else if (length names <? FSTYPES_MAX)%nat then (names ++ [strlcpy s MFSTYPENAMELEN])%list else names).
Proof.
  intros [H1 H2 H3 H4 H5] Hs. rewrite strlcpy_fits by done. case_bool_decide as Hin; [|destruct (Nat.ltb_spec (length names) FSTYPES_MAX)].
  - split; [done..|set_solver|]. intros Hl. specialize (H5 Hl). set_solver.
  - split.
    + apply Forall_app. split; [done|]. by constructor.
    + apply NoDup_app. split_and!; [done|set_solver|apply NoDup_singleton].
    + rewrite length_app. cbn. lia.
    + set_solver.
    + intros _. specialize (H5 H). set_solver.
  - split; [done..|set_solver|lia].
Qed.

Lemma fstypes_inv mounts : mounts_ok mounts -> types_inv (mount_types mounts) (fstypes mounts).
Proof.
  intros Hm. unfold fstypes. assert (G : forall l seen names, mounts_ok l -> types_inv seen names ->
    types_inv (seen ++ mount_types l) (fold_left procfs_fstypes_cb l names)).
  { clear. intros l. induction l as [|st l IH]; intros seen names Hm Hi; cbn [fold_left].
    - by rewrite app_nil_r.
    - inversion Hm as [|? ? Hst Hl]; subst. destruct st as [st|]; cbn [procfs_fstypes_cb].
      + change (mount_types (Some st :: l)) with (f_fstypename st :: mount_types l).
        replace (seen ++ f_fstypename st :: mount_types l)%list with ((seen ++ [f_fstypename st]) ++ mount_types l)%list by by rewrite <- app_assoc.
        apply IH; [done|]. rewrite (existsb_name names) by (try done; apply Hi). by apply types_step.
      + by apply IH. }
  apply (G mounts [] [] Hm). split; [constructor|constructor|cbn; lia|set_solver|set_solver].
Qed.

(** ** Mount options *)
Definition option_names (flags : Z) : list string :=
  map snd (List.filter (fun '(flag, _) => negb (Z.land flags flag =? 0)) mtab_tab).
Definition concat_names (l : list string) : string := foldr String.append EmptyString l.

Lemma strlcat_fits out s cap : strlen out + strlen s < cap -> strlcat out s cap = out +:+ s.
Proof.
  intros Hl. unfold strlcat. assert (0 <= strlen s) by (unfold strlen; lia). destruct (Z.ltb_spec (strlen out) cap); [|lia].
  f_equal. apply str_take_all. unfold strlen in *. lia.
Qed.

Definition opts_length (tab : list (Z * string)) : Z := sum_of (fun '(_, o) => strlen o) tab.

Lemma options_fold flags cap tab out : strlen out + opts_length tab < cap ->
  fold_left (fun out '(flag, opt) => if negb (Z.land flags flag =? 0) then strlcat out opt cap else out) tab out
  = out +:+ concat_names (map snd (List.filter (fun '(flag, _) => negb (Z.land flags flag =? 0)) tab)).
Proof.
  revert out. induction tab as [|[f o] tab IH]; intros out Hl; cbn [fold_left List.filter map].
  - by rewrite app_empty_r.
  - unfold opts_length, sum_of in Hl, IH. cbn [foldr] in Hl.
    assert (0 <= strlen o) by (unfold strlen; lia). destruct (negb (Z.land flags f =? 0)).
    + assert (0 <= foldr (fun x a => (let '(_, o) := x in strlen o) + a) 0 tab)
        by (apply (sum_of_nonneg (fun '(_, o) => strlen o)); intros [? ?]; unfold strlen; lia).
      rewrite strlcat_fits by lia. rewrite IH by (rewrite strlen_app; lia). cbn [map snd concat_names foldr]. by rewrite <- str_app_assoc.
    + apply IH. lia.
Qed.

Lemma mtab_options_whole flags :
  procfs_mtab_options flags 160 = (if Z.testbit flags 0 then "ro" else "rw") +:+ concat_names (option_names flags)
  /\ strlen (procfs_mtab_options flags 160) < 160.
Proof.
  assert (E : negb (Z.land flags MNT_RDONLY =? 0) = Z.testbit flags 0).
  { unfold MNT_RDONLY. change 1 with (Z.ones 1). rewrite Z.land_ones by lia. change (2 ^ 1) with 2. rewrite <- Z.bit0_mod. by destruct (Z.testbit flags 0). }
  assert (Eo : procfs_mtab_options flags 160 = (if Z.testbit flags 0 then "ro" else "rw") +:+ concat_names (option_names flags)).
  { unfold procfs_mtab_options. rewrite E. rewrite options_fold; [|destruct (Z.testbit flags 0); vm_compute; reflexivity].
    by destruct (Z.testbit flags 0). }
  split; [done|]. rewrite Eo, strlen_app.
  assert (Hl : forall tab, strlen (concat_names (map snd (List.filter (fun '(flag, _) => negb (Z.land flags flag =? 0)) tab))) <= opts_length tab).
  { intros tab. unfold opts_length, sum_of. induction tab as [|[f o] tab IH]; [done|]. cbn [List.filter].
    change (foldr ?g 0 ((f, o) :: tab)) with (strlen o + foldr g 0 tab).
    destruct (negb (Z.land flags f =? 0)). { change (concat_names _) with (o +:+ concat_names (map snd (List.filter (fun '(flag, _) => negb (Z.land flags flag =? 0)) tab))). rewrite strlen_app. lia. }
    assert (0 <= strlen o) by (unfold strlen; lia). lia. }
  specialize (Hl mtab_tab). change (opts_length mtab_tab) with 70 in Hl. unfold option_names.
  destruct (Z.testbit flags 0); change (strlen "ro") with 2; change (strlen "rw") with 2; lia.
Qed.

(** ** Fixed buffers *)
Lemma online_clamp_range o : 1 <= online_clamp o <= 64.
Proof.
  unfold online_clamp. destruct o as [n|]; [|cbn; lia]. destruct (Z.ltb_spec (u32 n) 1); [cbn; lia|].
  destruct (Z.ltb_spec 64 (u32 n)); lia.
Qed.

Lemma irq_affinity_fits ncpu : Z.of_nat (length (irq_affinity_text ncpu)) < 64.
Proof.
  unfold irq_affinity_text. destruct (irq_mask ncpu) as [[hi|] lo]; text_fits; [pose proof (print_x_length hi)|pose proof (print_x_length lo)]; lia.
Qed.

Lemma irq_affinity_list_fits ncpu : Z.of_nat (length (irq_affinity_list_text ncpu)) < 32.
Proof.
  unfold irq_affinity_list_text. destruct (ncpu <=? 1); text_fits; [lia|]. pose proof (dec_length (u32 (ncpu - 1))).
  assert (0 <= u32 (ncpu - 1) < 2 ^ 32) by (apply wrap_u_range; lia). lia.
Qed.

Lemma execdomains_fits v : Z.of_nat (length (execdomains_text v)) < 64.
Proof. unfold execdomains_text. destruct (procfs_spoofed_release v); vm_compute; reflexivity. Qed.

Lemma uptime_fits sec usec : - 2 ^ 63 <= sec < 2 ^ 63 -> 0 <= usec < 2 ^ 31 -> Z.of_nat (length (uptime_text sec usec)) < 64.
Proof.
  intros Hs Hu. unfold uptime_text. text_fits. pose proof (sdec_length sec Hs). assert (0 <= usec / 10000 < 2 ^ 64).
  { split; [apply Z.div_pos; lia|]. apply Z.div_lt_upper_bound; lia. }
  pose proof (zdec_length 2 (usec / 10000) ltac:(done)). lia.
Qed.

Lemma i32_range z : - 2 ^ 31 <= i32 z < 2 ^ 31.
Proof. unfold i32, wrap_s. change (2 ^ (32 - 1)) with (2 ^ 31). pose proof (Z.mod_pos_bound (z + 2 ^ 31) (2 ^ 32)). lia. Qed.

Lemma apm_values_range info : - 2 ^ 31 <= percentage info < 2 ^ 31 -> - 2 ^ 31 <= time_minutes info < 2 ^ 31 ->
  let '(_, _, _, pct, tmin) := apm_values info in - 2 ^ 31 <= pct < 2 ^ 31 /\ - 2 ^ 31 <= tmin < 2 ^ 31.
Proof.
  intros H1 H2. unfold apm_values. destruct (battery_present info =? 0); [lia|]. destruct (negb _); [done|].
  destruct (50 <? _); [done|]. by destruct (5 <? _).
Qed.

Lemma apm_fits info : - 2 ^ 31 <= percentage info < 2 ^ 31 -> - 2 ^ 31 <= time_minutes info < 2 ^ 31 ->
  Z.of_nat (length (apm_text info)) < 128.
Proof.
  intros H1 H2. pose proof (apm_values_range info H1 H2) as Hr. unfold apm_text. destruct (apm_values info) as [[[[ac bs] bf] pct] tmin].
  destruct Hr as [Hp Ht]. text_fits. pose proof (hex_min_length 2 ac). pose proof (hex_min_length 2 bs). pose proof (hex_min_length 2 bf).
  pose proof (sdec_length pct ltac:(lia)). pose proof (sdec_length tmin ltac:(lia)). destruct (0 <=? tmin); cbn [String.length]; lia.
Qed.

(** ** A read that starts inside the text *)
Lemma uiomove_int_restarts (text : bytes) off n : 0 < off < Z.of_nat (length text) -> Z.of_nat (length text) <= n ->
  exists u', uiomove_int text (Z.of_nat (length text) - off) (ubuf_read off n) = Some (0, u')
    /\ uio_out u' = take (length text - Z.to_nat off) text.
Proof.
  intros Ho Hn. unfold uiomove_int. destruct (Z.leb_spec (Z.of_nat (length text) - off) 0); [lia|].
  rewrite uiomove_at_in by lia. cbn [uiomove ubuf_uio]. unfold ubuf_move, ubuf_read. cbn [ub_fault ub_resid ub_out ub_offset].
  eexists. split; [done|]. cbn [uio_out ubuf_uio ub_out app]. rewrite Z.min_l by lia. f_equal. lia.
Qed.

(** ** Theorems *)
(** The free blocks shown by /proc/buddyinfo and /proc/pagetypeinfo are a
    decomposition of the free pages: they account for exactly that many pages, and
    below the largest order no two blocks of one order are left uncoalesced. *)
Theorem buddy_exact r : 0 <= r ->
  let counts := buddy_counts PROCFS_BUDDY_ORDERS r in
  length counts = PROCFS_BUDDY_ORDERS /\ blocks_pages 0 counts = r /\ Forall (fun c => 0 <= c) counts
  /\ Forall (fun c => c <= 1) (take 10 counts).
Proof.
  intros Hr. cbv zeta. split_and!; [apply buddy_counts_length|by apply buddy_counts_sum|by apply buddy_counts_nonneg|].
  rewrite (buddy_counts_S 10), take_app_length' by by rewrite buddy_counts_length.
  eapply Forall_impl; [apply (buddy_counts_small 10)|cbn; lia]. apply Z.mod_pos_bound. done.
Qed.

(** /proc/stat adds up: there is one cpuN line for each CPU, and each column
    of the cpu line is the sum of that column over them, as a 64-bit counter, however
    many CPUs the daemon reported. *)
Theorem stat_adds_up B ncpu btime procs : 0 <= ncpu ->
  exists cl, length cl = Z.to_nat ncpu
    /\ stat_text B ncpu btime procs
       = (lit "cpu  " ++ cpu_columns (Cpuline (u64 (sum_of cl_user cl)) (u64 (sum_of cl_nice cl)) (u64 (sum_of cl_sys cl)) (u64 (sum_of cl_idle cl)))
          ++ concat (imap (fun i c => lit "cpu" ++ sdec (Z.of_nat i) ++ lit " " ++ cpu_columns c)%list cl)
          ++ line "intr 0" ++ line "ctxt 0" ++ lit "btime " ++ sdec btime ++ [10] ++ lit "processes " ++ sdec procs ++ [10]
          ++ line "procs_running 1" ++ line "procs_blocked 0")%list.
Proof.
  intros Hn. pose proof (cpu_times_sum B ncpu Hn) as Hs. unfold stat_text. destruct (cpu_times B ncpu) as [cl agg].
  destruct Hs as [Hl ->]. by exists cl.
Qed.

(** The default IRQ affinity mask names exactly the online CPUs: bit i is set
    if and only if CPU i exists, at every CPU count up to the 64 the mask can hold. *)
Theorem irq_mask_exact (logicalcpu : option Z) i : 0 <= i ->
  Z.testbit (mask_value (irq_mask (online_clamp logicalcpu))) i = (i <? online_clamp logicalcpu).
Proof. apply irq_mask_bits, online_clamp_range. Qed.

(** /proc/filesystems lists the mounted types without repetition, never more
    than its table holds, and all of them whenever fewer than 32 are in use. *)
Theorem filesystems_distinct mounts : mounts_ok mounts ->
  NoDup (fstypes mounts) /\ (length (fstypes mounts) <= 32)%nat /\ fstypes mounts ⊆ mount_types mounts
  /\ ((length (fstypes mounts) < 32)%nat -> mount_types mounts ⊆ fstypes mounts).
Proof. intros Hm. destruct (fstypes_inv mounts Hm) as [_ H2 H3 H4 H5]. done. Qed.

(** The mount options of /proc/mtab are never cut: every flag that is set has
    its word, in the table's order, and the longest list fits the 160-byte buffer. *)
Theorem mtab_options_fit flags :
  procfs_mtab_options flags 160 = (if Z.testbit flags 0 then "ro" else "rw") +:+ concat_names (option_names flags)
  /\ strlen (procfs_mtab_options flags 160) < 160.
Proof. apply mtab_options_whole. Qed.

(** The texts formatted into fixed buffers always fit them, so that the length
    snprintf reports never makes the copy read past the buffer: the affinity nodes,
    execdomains, uptime and apm copy their whole text, whatever the machine and the
    daemon report. *)
Theorem system_buffers_fit {U} `{Uio U} B sysctl linux_version sec usec (u : U) :
  - 2 ^ 63 <= sec < 2 ^ 63 -> 0 <= usec < 1000000 ->
  procfs_doirq_affinity sysctl u = copy_all (irq_affinity_text (procfs_online_cpus sysctl)) u
  /\ procfs_doirq_affinity_list sysctl u = copy_all (irq_affinity_list_text (procfs_online_cpus sysctl)) u
  /\ procfs_doexecdomains linux_version u = copy_all (execdomains_text linux_version) u
  /\ procfs_douptime sec usec u = copy_all (uptime_text sec usec) u
  /\ (procfs_doapm B u = copy_all (apm_text (apm_of (snd (ctl_request B PROCFS_REQ_APM 0 0 EmptyString 20)))) u
      \/ procfs_doapm B u = copy_all (apm_text (ApmInfo (-1) 0 0 (-1) (-1))) u
      \/ exists e, procfs_doapm B u = Some (e, u)).
Proof.
  intros Hs Hu. split_and!; try (apply snprintf_copy_fits); [apply irq_affinity_fits|apply irq_affinity_list_fits|apply execdomains_fits|
    apply uptime_fits; lia|].
  unfold procfs_doapm. destruct (ctl_request B _ 0 0 EmptyString 20) as [e tmp]. cbn [snd].
  destruct (negb (e =? 0)); [right; right; by eexists|]. destruct (Z.of_nat (length tmp) =? 20); [left|right; left]; apply snprintf_copy_fits, apm_fits;
    cbn [apm_of percentage time_minutes]; try lia; apply i32_range.
Qed.

(** The nodes that call uiomove themselves subtract the offset from the length but
    copy from the start of the text: a read that starts inside the text gets its
    first bytes again, and a read at a page boundary gets the whole text again, so
    that a reader in small pieces, or one that seeks, sees the wrong bytes. *)
Theorem loadavg_restarts B K pids_ok creds PAGE_SIZE off n :
  let text := loadavg_text B (procfs_get_process_count K pids_ok creds) in
  0 < off < Z.of_nat (length text) -> Z.of_nat (length text) < PAGE_SIZE -> PAGE_SIZE <= 2 ^ 20 -> Z.of_nat (length text) <= n ->
  exists u', procfs_doloadavg B PAGE_SIZE K pids_ok creds (ubuf_read off n) = Some (0, u')
    /\ uio_out u' = take (length text - Z.to_nat off) text.
Proof.
  cbv zeta. intros Ho Hp Hp2 Hn. unfold procfs_doloadavg, page_offset. cbn [uio_offset ubuf_uio ub_offset ubuf_read].
  rewrite Z.mod_small by lia. rewrite i32_small by lia. by apply uiomove_int_restarts.
Qed.

(** /proc/version without a spoofed release has the same flaw; at the first page
    boundary after the text it starts over, so it has no end. *)
Theorem version_never_ends version PAGE_SIZE n :
  0 < PAGE_SIZE <= 2 ^ 20 -> strlen version < PAGE_SIZE -> strlen version < 8191 -> strlen version < n ->
  exists u', procfs_doversion PAGE_SIZE 0 version (ubuf_read PAGE_SIZE n) = Some (0, u') /\ uio_out u' = line version.
Proof.
  intros Hp Hv Hb Hn. unfold procfs_doversion. change (procfs_build_linux_version 0) with (@None string). cbv iota zeta.
  unfold page_offset. cbn [uio_offset ubuf_uio ub_offset ubuf_read]. rewrite Z.mod_same, Z.sub_0_r by lia.
  assert (El : Z.of_nat (length (line version)) = strlen version + 1) by (rewrite line_length; unfold strlen; lia).
  assert (0 <= strlen version) by (unfold strlen; lia). unfold snprintf_buf. rewrite El, i32_small by lia.
  destruct (Z.ltb_spec (strlen version + 1) 8192); [|lia]. unfold uiomove_int.
  destruct (Z.leb_spec (strlen version + 1) 0); [lia|]. rewrite uiomove_at_in by lia. cbn [uiomove ubuf_uio]. unfold ubuf_move, ubuf_read.
  cbn [ub_fault ub_resid ub_out ub_offset]. eexists. split; [done|]. cbn [uio_out ubuf_uio ub_out app].
  change (drop (Z.to_nat 0) (line version)) with (line version). apply take_ge. lia.
Qed.

(** The kernel command line: what the daemon's sysctl returns, without its NUL. *)
Theorem kcmdline_from_daemon B (args : bytes) : ctl_request B PROCFS_REQ_SYSCTL 0 0 "kern.bootargs" 1024 = (0, args ++ [0])%list ->
  Forall (fun c => c <> 0) args -> kcmdline_text (bootargs B None) = (args ++ [10])%list.
Proof.
  intros E Ha. unfold bootargs. rewrite E. cbn [Z.eqb]. rewrite last_snoc, removelast_last. unfold kcmdline_text. f_equal. clear E.
  induction Ha as [|c args Hc _ IH]; [done|]. cbn. destruct (Z.eqb_spec c 0); [done|]. by f_equal.
Qed.

(** ** Witnesses *)
Lemma buddy_exact_witness : blocks_pages 0 (buddy_counts PROCFS_BUDDY_ORDERS 5123) = 5123
  /\ buddy_counts PROCFS_BUDDY_ORDERS 5123 = [1; 1; 0; 0; 0; 0; 0; 0; 0; 0; 5].
Proof. split; [apply (buddy_exact 5123); lia|vm_compute; reflexivity]. Defined.

Definition two_loads : bridge := chunk_server (concat (map (le_bytes 8) [1; 2; 3; 4; 10; 20; 30; 18446744073709551615])).

Lemma stat_adds_up_witness :
  exists cl : list cpuline, length cl = 3%nat
    /\ take 18 (stat_text two_loads 3 0 7) = lit "cpu  11 22 33 3 0 ".
Proof.
  destruct (stat_adds_up two_loads 3 0 7 ltac:(lia)) as (cl & Hl & _). exists cl. split; [exact Hl|vm_compute; reflexivity].
Defined.

Lemma irq_mask_exact_witness : Z.testbit (mask_value (irq_mask (online_clamp (Some 40)))) 39 = true.
Proof. exact (irq_mask_exact (Some 40) 39 ltac:(lia)). Defined.

Definition some_mounts : list (option vfsstatfs) :=
  [Some (Statfs "/dev/disk1" "/" "apfs" 0 0 0 0); None; Some (Statfs "devfs" "/dev" "devfs" 0 0 0 0); Some (Statfs "/dev/disk2" "/v" "apfs" 0 0 0 0)].

Lemma filesystems_distinct_witness : NoDup (fstypes some_mounts) /\ fstypes some_mounts = ["apfs"; "devfs"]%string.
Proof.
  split; [|vm_compute; reflexivity]. apply (filesystems_distinct some_mounts). repeat constructor.
Defined.

Lemma system_buffers_fit_witness :
  procfs_douptime 3600 500000 (ubuf_read 0 64) = copy_all (lit "3600.50 0.00" ++ [10])%list (ubuf_read 0 64).
Proof. exact (proj1 (proj2 (proj2 (proj2 (system_buffers_fit two_loads (fun _ => None) 0 3600 500000 (ubuf_read 0 64) ltac:(lia) ltac:(lia)))))). Defined.

Definition lonely : kernel := table_kernel [Proc 1 0 1 1 (Cred 0 0 0 0) "launchd" 0 0 false false] 1.

Lemma loadavg_restarts_witness :
  exists u', procfs_doloadavg (Bridge (fun _ _ _ _ _ => (ENOTCONN, []))) 16384 lonely false (Cred 0 0 0 0) (ubuf_read 5 64) = Some (0, u')
    /\ uio_out u' = lit "0.00 0.00 0.00 1".
Proof.
  exact (loadavg_restarts (Bridge (fun _ _ _ _ _ => (ENOTCONN, []))) lonely false (Cred 0 0 0 0) 16384 5 64
    ltac:(vm_compute; intuition congruence) ltac:(vm_compute; reflexivity) ltac:(vm_compute; congruence) ltac:(vm_compute; congruence)).
Defined.

Lemma version_never_ends_witness :
  exists u', procfs_doversion 16384 0 "Darwin Kernel Version 25.0.0" (ubuf_read 16384 4096) = Some (0, u')
    /\ uio_out u' = line "Darwin Kernel Version 25.0.0".
Proof.
  apply (version_never_ends "Darwin Kernel Version 25.0.0" 16384 4096); vm_compute; intuition congruence.
Defined.

Lemma kcmdline_from_daemon_witness :
  kcmdline_text (bootargs (Bridge (fun _ _ _ _ _ => (0, lit "-v debug=1" ++ [0])%list)) None) = (lit "-v debug=1" ++ [10])%list.
Proof.
  apply (kcmdline_from_daemon (Bridge (fun _ _ _ _ _ => (0, lit "-v debug=1" ++ [0])%list)) (lit "-v debug=1") eq_refl).
  repeat constructor; discriminate.
Defined.
