(* ===== verification/CpuInfo.v ===== *)
(** * /proc/cpuinfo on Intel and AMD (kext/procfs_linux.c)

    The x86 body of procfs_docpuinfo: one block of text per logical processor.  What
    the processor reports (cpuid_info, the microcode, cr0 and the flag strings of the
    feature library) is the record [x86_cpu]; the processor, core and APIC numbers are
    counted by the loop. *)
From S2P Require Import Prelude Kernel Text Subr Map Format LinuxSys.
From Stdlib Require Import ZArith Lia String.
From stdpp Require Import base list numbers strings sets.
Open Scope Z_scope.

(** The fields of i386_cpu_info that are read, and the getters. *)
Record x86_cpu := X86Cpu {
  cpuid_vendor : string; cpuid_family : Z; cpuid_model : Z; cpuid_extmodel : Z; cpuid_brand_string : string;
  microcode_version : Z; cpuid_cache_size : Z; cpuid_stepping : Z; core_count : Z; cache_linesize : Z;
  cpuid_address_bits_physical : Z; cpuid_address_bits_virtual : Z;
  has_fpu : bool;                        (* cpuid_features & CPUID_FEATURE_FPU *)
  has_wp : bool;                         (* get_cr0() & CR0_WP *)
  is_amd_cpu : bool;
  cpu_flags : string; cpu_ext_flags : string; amd_feature_flags : string; amd_feature2_flags : string; leaf7_flags : string; leaf7_ext_flags : string;
  pm_flags : string; cpu_bugs : string
}.

(** The counters of the loop. *)
Record cpu_ids := CpuIds { apicid : Z; initial_apicid : Z; core_id : Z }.

Definition yes_no (b : bool) : string := if b then "yes" else "no".

(** A field: its name, tabs, a colon and a space. *)
Definition field_name (name : string) (tabs : nat) : bytes := (lit name ++ repeat 9 tabs ++ lit ": ")%list.

Definition fqmhz (freq : Z) : Z := if freq =? 0 then 0 else i32 (u64 (freq + 4999) / 1000000).
Definition fqkhz (freq : Z) : Z := if freq =? 0 then 0 else (u64 (freq + 4999) / 10000) mod 100.

Definition x86_block (c : x86_cpu) (freq max_cpus cpu : Z) (s : cpu_ids) : bytes :=
  (field_name "processor" 2 ++ dec cpu ++ [10]
   ++ field_name "vendor_id" 2 ++ line (cpuid_vendor c)
   ++ field_name "cpu family" 2 ++ dec (cpuid_family c) ++ [10]
   ++ field_name "model" 3 ++ dec ((cpuid_model c + Z.shiftl (cpuid_extmodel c) 4) mod 256) ++ [10]
   ++ field_name "model name" 2 ++ line (cpuid_brand_string c)
   ++ field_name "microcode" 2 ++ lit "0x" ++ hex_min 7 (u32 (microcode_version c)) ++ [10]
   ++ field_name "stepping" 2 ++ dec (cpuid_stepping c) ++ [10]
   ++ field_name "cpu MHz" 3 ++ sdec (fqmhz freq) ++ lit "." ++ zdec 2 (fqkhz freq) ++ [10]
   ++ field_name "cache size" 2 ++ sdec (i32 (cpuid_cache_size c)) ++ line " KB"
   ++ field_name "physical id" 2 ++ line "0"
   ++ field_name "siblings" 2 ++ dec max_cpus ++ [10]
   ++ field_name "core id" 3 ++ sdec (core_id s) ++ [10]
   ++ field_name "cpu cores" 2 ++ dec (core_count c) ++ [10]
   ++ field_name "apicid" 3 ++ dec (u32 (apicid s)) ++ [10]
   ++ field_name "initial apicid" 2 ++ dec (u32 (initial_apicid s)) ++ [10]
   ++ field_name "fpu" 3 ++ line (yes_no (has_fpu c))
   ++ field_name "fpu_exception" 2 ++ line (yes_no (has_fpu c))
   ++ field_name "cpuid level" 2 ++ dec (core_count c) ++ [10]
   ++ field_name "wp" 3 ++ line (yes_no (has_wp c))
   ++ field_name "flags" 3 ++ lit (cpu_flags c) ++ lit (if is_amd_cpu c then amd_feature_flags c else cpu_ext_flags c)
      ++ lit (amd_feature2_flags c) ++ lit (leaf7_flags c) ++ line (leaf7_ext_flags c)
   ++ field_name "bugs" 3 ++ line (cpu_bugs c)
   ++ field_name "bogomips" 2 ++ sdec (i32 (fqmhz freq * 2)) ++ lit "." ++ zdec 2 (fqkhz freq) ++ [10]
   ++ field_name "TLB size" 2 ++ dec (u32 (cache_linesize c * 40)) ++ line " 4K pages"
   ++ field_name "clflush_size" 2 ++ dec (cache_linesize c) ++ [10]
   ++ field_name "cache_alignment" 2 ++ sdec (i32 (cache_linesize c)) ++ [10]
   ++ field_name "address sizes" 2 ++ sdec (i32 (cpuid_address_bits_physical c)) ++ lit " bits physical, "
      ++ sdec (i32 (cpuid_address_bits_virtual c)) ++ line " bits virtual"
   ++ field_name "power management" 1 ++ line (pm_flags c) ++ [10])%list.

(** The counters at the end of a round. *)
Definition next_ids (max_cpus cpu_cores : Z) (s : cpu_ids) : cpu_ids :=
  let a := i32 (apicid s + 2) in
  let a := if i32 max_cpus <=? a then 1 else a in
  let k := i32 (core_id s + 1) in
  CpuIds a a (if i32 (i32 cpu_cores - 1) <? k then 0 else k).

Definition buffer_size : Z := 32768.               (* LBFSZ * 4 *)

Section X86.
Context {U : Type} `{Uio U}.
Variable sysctl : string -> option Z.
Variable PAGE_SIZE : Z.
Variable c : x86_cpu.

(** The rounds from the processor [cpu] on; the results of uiomove are not looked at. *)
Fixpoint x86_loop (n : nat) (max_cpus freq off cpu : Z) (s : cpu_ids) (u : U) : option U :=
  match n with
  | O => Some u
  | S n =>
      let text := x86_block c freq max_cpus cpu s in
      match uiomove_int (snprintf_buf buffer_size text) (i32 (Z.of_nat (length text) - off)) u with
      | Some (_, u) => x86_loop n max_cpus freq off (cpu + 1) (next_ids max_cpus (core_count c) s) u
      | None => None
      end
  end.

Definition procfs_docpuinfo_x86 (u : U) : option (Z * U) :=
  let max_cpus := u32 (default 1 (sysctl "hw.logicalcpu"%string)) in
  let freq := u64 (default 0 (sysctl "machdep.tsc.frequency"%string)) in
  match x86_loop (Z.to_nat max_cpus) max_cpus freq (page_offset PAGE_SIZE (uio_offset u)) 0 (CpuIds 0 0 0) u with
  | Some u => Some (0, u)
  | None => None
  end.
End X86.

(** ** The numbers of the processors *)
(** The APIC number of the [k]-th processor of [n]: the even ones, then the odd ones. *)
Definition apic_of (n k : Z) : Z := if 2 * k <? n then 2 * k else 2 * (k - (n + 1) / 2) + 1.
Definition ids_of (n cores k : Z) : cpu_ids := CpuIds (apic_of n k) (apic_of n k) (k mod cores).

Lemma next_ids_of n cores k : 0 < n < 2 ^ 31 - 2 -> 0 < cores < 2 ^ 31 -> 0 <= k < n - 1 -> next_ids n cores (ids_of n cores k) = ids_of n cores (k + 1).
Proof.
  intros Hn Hc Hk. pose proof (Z.div_mod (n + 1) 2 ltac:(lia)). pose proof (Z.mod_pos_bound (n + 1) 2 ltac:(lia)).
  assert (Ha : 0 <= apic_of n k < n) by (unfold apic_of; destruct (Z.ltb_spec (2 * k) n); lia).
  pose proof (Z.mod_pos_bound k cores ltac:(lia)). pose proof (Z.mod_le k cores ltac:(lia) ltac:(lia)).
  unfold next_ids, ids_of. cbn [apicid core_id]. rewrite !i32_small by (rewrite ?i32_small; lia).
  assert (E : (if n <=? apic_of n k + 2 then 1 else apic_of n k + 2) = apic_of n (k + 1)).
  { unfold apic_of. destruct (Z.ltb_spec (2 * k) n), (Z.ltb_spec (2 * (k + 1)) n);
      match goal with |- context [?a <=? ?b] => destruct (Z.leb_spec a b) end; lia. }
  rewrite E. f_equal. destruct (Z.ltb_spec (cores - 1) (k mod cores + 1)).
  - rewrite Zplus_mod. replace (k mod cores) with (cores - 1) by lia. destruct (decide (cores = 1)) as [->|]; [by rewrite Z.mod_1_r|].
    rewrite (Z.mod_small 1) by lia. replace (cores - 1 + 1) with cores by lia. by rewrite Z.mod_same by lia.
  - rewrite Zplus_mod, (Z.mod_small 1), (Z.mod_small (k mod cores + 1)) by lia. done.
Qed.

Lemma apics_perm n : 0 < n -> map (apic_of n) (seqZ 0 n) ≡ₚ seqZ 0 n.
Proof.
  intros Hn. pose proof (Z.div_mod (n + 1) 2 ltac:(lia)). pose proof (Z.mod_pos_bound (n + 1) 2 ltac:(lia)). apply NoDup_Permutation.
  - apply NoDup_fmap_2_strong; [|apply NoDup_seqZ]. intros x y Hx%elem_of_seqZ Hy%elem_of_seqZ. unfold apic_of.
    destruct (Z.ltb_spec (2 * x) n), (Z.ltb_spec (2 * y) n); lia.
  - apply NoDup_seqZ.
  - intros x. rewrite elem_of_seqZ, list_elem_of_fmap. split.
    + intros (k & -> & Hk%elem_of_seqZ). unfold apic_of. destruct (Z.ltb_spec (2 * k) n); lia.
    + intros Hx. pose proof (Z.div_mod x 2 ltac:(lia)). pose proof (Z.mod_pos_bound x 2 ltac:(lia)).
      destruct (decide (x mod 2 = 0)).
      * exists (x / 2). rewrite elem_of_seqZ. unfold apic_of. destruct (Z.ltb_spec (2 * (x / 2)) n); lia.
      * exists (x / 2 + (n + 1) / 2). rewrite elem_of_seqZ. unfold apic_of. destruct (Z.ltb_spec (2 * (x / 2 + (n + 1) / 2)) n); lia.
Qed.

(** The text of the processors from [cpu] on. *)
Definition x86_blocks (c : x86_cpu) (freq n : Z) (cpus : list Z) : bytes :=
  concat (map (fun k => x86_block c freq n k (ids_of n (core_count c) k)) cpus).

Lemma x86_loop_reads c freq n left : forall cpu u, Z.of_nat left = n - cpu -> 0 <= cpu -> 0 < n < 2 ^ 31 - 2 -> 0 < core_count c < 2 ^ 31 ->
  (forall k, 0 <= k < n -> 0 < Z.of_nat (length (x86_block c freq n k (ids_of n (core_count c) k))) < buffer_size) ->
  ub_fault u = false -> Z.of_nat (length (x86_blocks c freq n (seqZ cpu (Z.of_nat left)))) <= ub_resid u ->
  exists u', x86_loop c left n freq 0 cpu (ids_of n (core_count c) cpu) u = Some u'
    /\ ub_out u' = (ub_out u ++ x86_blocks c freq n (seqZ cpu (Z.of_nat left)))%list.
Proof.
  induction left as [|left IH]; intros cpu u Hl Hcpu Hn Hc Hb Hf Hr; [eexists; split; [done|]; cbn; by rewrite app_nil_r|].
  cbn [x86_loop]. rewrite seqZ_cons in Hr |- * by lia. change (Z.succ cpu) with (cpu + 1) in *. replace (Z.pred (Z.of_nat (S left))) with (Z.of_nat left) in * by lia.
  unfold x86_blocks in *. cbn [map concat] in Hr |- *. rewrite length_app in Hr.
  set (text := x86_block c freq n cpu (ids_of n (core_count c) cpu)) in *. pose proof (Hb cpu ltac:(lia)) as Hx. fold text in Hx.
  assert (Es : snprintf_buf buffer_size text = text) by (unfold snprintf_buf; destruct (Z.ltb_spec (Z.of_nat (length text)) buffer_size); [done|lia]).
  rewrite Es, Z.sub_0_r, i32_small by (unfold buffer_size in Hx; lia). unfold uiomove_int. destruct (Z.leb_spec (Z.of_nat (length text)) 0); [lia|].
  rewrite uiomove_at_in by lia. change (drop (Z.to_nat 0) text) with text. cbn [uiomove ubuf_uio]. unfold ubuf_move. rewrite Hf.
  rewrite Z.min_l, Nat2Z.id, take_ge by lia. destruct left as [|left].
  - eexists. split; [done|]. cbn. by rewrite app_nil_r.
  - rewrite next_ids_of by lia. destruct (IH (cpu + 1) (Ubuf (ub_offset u + Z.of_nat (length text)) (ub_resid u - Z.of_nat (length text)) (ub_write u)
        (ub_out u ++ text)%list (ub_in u) (ub_fault u))) as (u' & E1 & E2); try done; try lia; [cbn [ub_resid]; lia|].
    rewrite Hf in E1. exists u'. split; [done|]. rewrite E2. cbn [ub_out]. by rewrite <- app_assoc.
Qed.

(** [sysctl] of a machine. *)
Definition machine (cpus freq : Z) (name : string) : option Z :=
  if String.eqb name "hw.logicalcpu" then Some cpus else if String.eqb name "machdep.tsc.frequency" then Some freq else None.

(** /proc/cpuinfo on x86 numbers the processors right: a read with room for the text
    returns one block per logical processor, numbered from 0; the APIC numbers are
    those from 0 to the number of processors less one, each once; and the core numbers
    run through the cores again and again. *)
Theorem x86_cpuinfo_numbers sysctl PAGE_SIZE c n size :
  sysctl "hw.logicalcpu"%string = Some n -> 0 < n < 2 ^ 31 - 2 -> 0 < core_count c < 2 ^ 31 ->
  let freq := u64 (default 0 (sysctl "machdep.tsc.frequency"%string)) in
  (forall k, 0 <= k < n -> 0 < Z.of_nat (length (x86_block c freq n k (ids_of n (core_count c) k))) < buffer_size) ->
  Z.of_nat (length (x86_blocks c freq n (seqZ 0 n))) <= size ->
  exists u', procfs_docpuinfo_x86 sysctl PAGE_SIZE c (ubuf_read 0 size) = Some (0, u')
    /\ uio_out u' = x86_blocks c freq n (seqZ 0 n)
    /\ map (fun k => apicid (ids_of n (core_count c) k)) (seqZ 0 n) ≡ₚ seqZ 0 n
    /\ (forall k, core_id (ids_of n (core_count c) k) = k mod core_count c).
Proof.
  intros Hs Hn Hc freq Hb Hl. unfold procfs_docpuinfo_x86. rewrite Hs. change (default 1 (Some n)) with n. rewrite u32_small by lia. fold freq.
  unfold page_offset. cbn [uio_offset ubuf_uio ub_offset ubuf_read]. rewrite Zmod_0_l.
  assert (E0 : CpuIds 0 0 0 = ids_of n (core_count c) 0).
  { unfold ids_of, apic_of. rewrite Zmod_0_l. destruct (Z.ltb_spec (2 * 0) n); [done|lia]. }
  rewrite E0. destruct (x86_loop_reads c freq n (Z.to_nat n) 0 (ubuf_read 0 size)) as (u' & E1 & E2); try done; try lia.
  { by rewrite Z2Nat.id by lia. }
  rewrite Z2Nat.id in E2 by lia. rewrite E1. exists u'. split; [done|]. split; [exact E2|]. split; [apply apics_perm; lia|done].
Qed.

(** Six cores with two threads each. *)
Definition sample_cpu : x86_cpu :=
  X86Cpu "GenuineIntel" 6 14 9 "Intel(R) Core(TM) i7" 202 256 10 6 64 39 48 true true false "fpu vme" " syscall" "" "" " avx2" "" "" "spectre_v1".

Lemma x86_cpuinfo_numbers_witness :
  exists u', procfs_docpuinfo_x86 (machine 12 2600000000) 4096 sample_cpu (ubuf_read 0 65536) = Some (0, u')
    /\ map (fun k => apicid (ids_of 12 6 k)) (seqZ 0 12) ≡ₚ seqZ 0 12.
Proof.
  destruct (x86_cpuinfo_numbers (machine 12 2600000000) 4096 sample_cpu 12 65536 eq_refl ltac:(lia) ltac:(cbn; lia)) as (u' & E & _ & P & _).
  - intros k Hk. cut (forallb (fun k => (0 <? Z.of_nat (length (x86_block sample_cpu 2600000000 12 k (ids_of 12 6 k))))
        && (Z.of_nat (length (x86_block sample_cpu 2600000000 12 k (ids_of 12 6 k))) <? buffer_size)) (seqZ 0 12) = true).
    + intros F. rewrite forallb_forall in F. specialize (F k). rewrite <- list_elem_of_In, elem_of_seqZ in F. specialize (F ltac:(lia)).
      apply andb_prop in F as [F1%Z.ltb_lt F2%Z.ltb_lt]. split; [exact F1|exact F2].
    + vm_compute. reflexivity.
  - vm_compute. discriminate.
  - exists u'. split; [exact E|exact P].
Defined.
