(* ===== verification/Disks.v ===== *)
(** * Block devices (kext/procfs_iokit.cpp)

    The enumeration of the IOMedia objects of the registry behind /proc/partitions and
    /proc/diskstats.  The registry is the list of objects the iterator returns, each
    with what its class is, its properties and its provider's properties. *)
From S2P Require Import Prelude Kernel Text Subr Map Format LinuxSys.
From Stdlib Require Import ZArith Lia String.
From stdpp Require Import base list numbers strings.
Open Scope Z_scope.

(** The libkern classes that the casts tell apart. *)
Inductive osobject :=
| OSString (s : string)
| OSNumber (v : Z)                                   (* 64 bits *)
| OSBoolean (b : bool)
| OSDictionary (d : string -> option osobject)
| OSOther.

Abbreviation properties := (string -> option osobject).

Record io_object := IoObject {
  io_is_entry : bool;                                (* OSDynamicCast to IORegistryEntry *)
  io_is_service : bool;                              (* OSDynamicCast to IOService *)
  io_properties : properties;
  io_provider : option properties                    (* getProvider() *)
}.

Definition as_string (o : option osobject) : option string := match o with Some (OSString s) => Some s | _ => None end.
Definition as_number (o : option osobject) : option Z := match o with Some (OSNumber v) => Some v | _ => None end.
Definition as_dictionary (o : option osobject) : option properties := match o with Some (OSDictionary d) => Some d | _ => None end.

(** unsigned32BitValue and unsigned64BitValue, 0 without a number. *)
Definition number32 (o : option osobject) : Z := match as_number o with Some v => u32 v | None => 0 end.
Definition number64 (o : option osobject) : Z := match as_number o with Some v => u64 v | None => 0 end.
Definition procfs_stat_u64 (stats : properties) (key : string) : Z := number64 (stats key).

(** The loop of both functions: at most [max] of what [row_of] makes of the objects. *)
Fixpoint media_loop {A} (row_of : io_object -> option A) (max n : Z) (objs : list io_object) : list A :=
  match objs with
  | [] => []
  | o :: objs =>
      if n <? max then
        match row_of o with
        | Some r => r :: media_loop row_of max (n + 1) objs
        | None => media_loop row_of max n objs
        end
      else []
  end.

Definition partition_of (o : io_object) : option procfs_partition :=
  if io_is_entry o then
    name ← as_string (io_properties o "BSD Name"%string);
    Some (Partition (number32 (io_properties o "BSD Major"%string)) (number32 (io_properties o "BSD Minor"%string))
            (number64 (io_properties o "Size"%string)) (strlcpy name 64))
  else None.

Definition diskstat_of (o : io_object) : option procfs_diskstat :=
  if io_is_service o then
    match io_properties o "Whole"%string with
    | Some (OSBoolean true) =>
        name ← as_string (io_properties o "BSD Name"%string);
        drv ← io_provider o;
        stats ← as_dictionary (drv "Statistics"%string);
        Some (Diskstat (number32 (io_properties o "BSD Major"%string)) (number32 (io_properties o "BSD Minor"%string)) (strlcpy name 64)
                (procfs_stat_u64 stats "Operations (Read)") (procfs_stat_u64 stats "Bytes (Read)" / 512)
                (procfs_stat_u64 stats "Total Time (Read)" / 1000000)
                (procfs_stat_u64 stats "Operations (Write)") (procfs_stat_u64 stats "Bytes (Write)" / 512)
                (procfs_stat_u64 stats "Total Time (Write)" / 1000000))
    | _ => None
    end
  else None.

(** [matching]: none when the matching dictionary cannot be made; [iterator]: none when
    there is no iterator.  An errno, or the array's first [count] rows. *)
Definition iokit_rows {A} (row_of : io_object -> option A) (out_ok : bool) (max : Z) (matching : option (option (list io_object))) : Z + list A :=
  if negb out_ok || (max <=? 0) then inl EINVAL
  else match matching with
       | None => inl ENOMEM
       | Some None => inl EIO
       | Some (Some objs) => inr (media_loop row_of max 0 objs)
       end.
Definition procfs_iokit_get_partitions := iokit_rows partition_of.
Definition procfs_iokit_get_diskstats := iokit_rows diskstat_of.

Definition PROCFS_MAX_PARTS : Z := 128.
Definition PROCFS_MAX_DISKS : Z := 64.

(** The call in the two nodes: [malloc_ok], the array could be allocated. *)
Definition rows_if_ok {A} (malloc_ok : bool) (r : Z + list A) : option (list A) :=
  if malloc_ok then match r with inr l => Some l | inl _ => None end else None.

Section Nodes.
Context {U : Type} `{Uio U}.
Variables major minor : Z -> Z.
Variables sbuf_ok malloc_ok : bool.
Variable matching : option (option (list io_object)).

Definition partitions_node (mounts : list (option vfsstatfs)) (u : U) : option (Z * U) :=
  procfs_dopartitions sbuf_ok major minor (rows_if_ok malloc_ok (procfs_iokit_get_partitions malloc_ok PROCFS_MAX_PARTS matching)) mounts u.
Definition diskstats_node (u : U) : option (Z * U) :=
  procfs_dodiskstats sbuf_ok (rows_if_ok malloc_ok (procfs_iokit_get_diskstats malloc_ok PROCFS_MAX_DISKS matching)) u.
End Nodes.

(** ** Lemmas *)
Lemma media_loop_take {A} (row_of : io_object -> option A) max objs : forall n, 0 <= n -> 
  media_loop row_of max n objs = take (Z.to_nat (max - n)) (omap row_of objs).
Proof.
  induction objs as [|o objs IH]; intros n Hn; [cbn; by rewrite take_nil|]. cbn [media_loop omap list_omap].
  destruct (Z.ltb_spec n max); [|replace (Z.to_nat (max - n)) with 0%nat by lia; done].
  destruct (row_of o) as [r|]; [|by apply IH]. rewrite IH by lia. replace (Z.to_nat (max - n)) with (S (Z.to_nat (max - (n + 1)))) by lia. done.
Qed.

(** A whole disk with statistics is a partition of the same name and numbers. *)
Lemma diskstat_partition o d : (io_is_service o = true -> io_is_entry o = true) -> diskstat_of o = Some d ->
  exists p, partition_of o = Some p /\ pt_name p = ds_name d /\ pt_major p = ds_major d /\ pt_minor p = ds_minor d.
Proof.
  intros Hs E. unfold diskstat_of in E. destruct (io_is_service o); [|done].
  destruct (io_properties o "Whole") as [[| |[]| |]|]; try done.
  destruct (as_string (io_properties o "BSD Name")) as [nm|] eqn:En; [|done]. cbn [mbind option_bind] in E.
  destruct (io_provider o) as [drv|]; [|done]. cbn in E. destruct (as_dictionary (drv "Statistics")) as [st|]; [|done]. cbn in E. injection E as <-.
  unfold partition_of. rewrite Hs by done. rewrite En. cbn. eexists. split; [done|]. done.
Qed.

(** /proc/partitions and /proc/diskstats list the registry: a line for each of the
    first 128 media with a BSD name, in the registry's order (the mounted file systems
    only when there is none), and a line for each of the first 64 whole disks with
    statistics; and as long as there are at most 128 named media, every disk of
    diskstats is in partitions under the same name and numbers. *)
Theorem disks_listed {U} `{Uio U} major minor objs mounts (u : U) :
  Forall (fun o => io_is_service o = true -> io_is_entry o = true) objs ->
  let parts := take 128 (omap partition_of objs) in
  let disks := take 64 (omap diskstat_of objs) in
  partitions_node major minor true true (Some (Some objs)) mounts u = copy_all (partitions_text major minor (Some parts) mounts) u
  /\ diskstats_node true true (Some (Some objs)) u = copy_all (concat (map diskstat_line disks)) u
  /\ ((length (omap partition_of objs) <= 128)%nat -> forall d, d ∈ disks ->
        exists p, p ∈ parts /\ pt_name p = ds_name d /\ pt_major p = ds_major d /\ pt_minor p = ds_minor d).
Proof.
  intros Ho parts disks. split_and!.
  - unfold partitions_node, procfs_dopartitions, sbuf_node, procfs_iokit_get_partitions, iokit_rows, PROCFS_MAX_PARTS. cbn [negb orb rows_if_ok].
    change (128 <=? 0) with false. cbv iota. by rewrite media_loop_take by lia.
  - unfold diskstats_node, procfs_dodiskstats, sbuf_node, procfs_iokit_get_diskstats, iokit_rows, PROCFS_MAX_DISKS. cbn [negb orb rows_if_ok].
    change (64 <=? 0) with false. cbv iota. by rewrite media_loop_take by lia.
  - intros Hl d (i & Hi & _)%elem_of_take. apply list_elem_of_lookup_2, list_elem_of_omap in Hi as (o & Hin & Hd).
    destruct (diskstat_partition o d) as (p & Hp & E); [by apply (proj1 (Forall_forall _ _) Ho)|done|]. exists p. split; [|done].
    unfold parts. rewrite take_ge by done. apply list_elem_of_omap. by exists o.
Qed.

(** An Apple SSD with two partitions, of which one has no BSD name. *)
Definition props (l : list (string * osobject)) : properties := fun k => snd <$> List.find (fun x => String.eqb (fst x) k) l.
Definition ssd_stats : properties :=
  props [("Operations (Read)"%string, OSNumber 7); ("Bytes (Read)"%string, OSNumber 4096); ("Total Time (Read)"%string, OSNumber 3000000)].
Definition sample_registry : list io_object :=
  [IoObject true true (props [("BSD Name"%string, OSString "disk0"); ("BSD Major"%string, OSNumber 1); ("Size"%string, OSNumber 1048576); ("Whole"%string, OSBoolean true)])
     (Some (props [("Statistics"%string, OSDictionary ssd_stats)]));
   IoObject true true (props [("Whole"%string, OSBoolean false)]) None;
   IoObject true true (props [("BSD Name"%string, OSString "disk0s1"); ("BSD Major"%string, OSNumber 1); ("BSD Minor"%string, OSNumber 1); ("Size"%string, OSNumber 2048)]) None].

Lemma disks_listed_witness :
  diskstats_node true true (Some (Some sample_registry)) (ubuf_read 0 512) = copy_all (line "   1       0 disk0 7 0 8 3 0 0 0 0 0 3 0") (ubuf_read 0 512)
  /\ partitions_node (fun _ => 0) (fun _ => 0) true true (Some (Some sample_registry)) [] (ubuf_read 0 512)
     = copy_all (line "major minor  #blocks  name" ++ [10] ++ line "   1       0       1024 disk0" ++ line "   1       1          2 disk0s1")%list (ubuf_read 0 512).
Proof.
  destruct (disks_listed (fun _ => 0) (fun _ => 0) sample_registry [] (ubuf_read 0 512)) as (H1 & H2 & _); [repeat constructor|].
  split; [exact H2|exact H1].
Defined.
