(* ===== verification/LinuxProc.v ===== *)
(** * Process and thread text nodes (kext/procfs_linux.c, kext/procfs_regs.c,
    kext/procfs_fpregs.c, kext/procfs_auxv.c)

    comm, stat, status, statm, io, cpu, wchan, stack, sched and the register
    nodes.  The task and thread structures come from the daemon; what is left of
    them when it does not answer is zero.  [p_stat] is the BSD state of a process,
    [fuel] the bound of the region walk that is the fall-back for the sizes. *)
From S2P Require Import Prelude Kernel PfsTypes Text Subr Ctl Cmdline Map Status Format LinuxSys.
From Stdlib Require Import ZArith Lia String.
From stdpp Require Import base list numbers strings sets.
Open Scope Z_scope.

Definition PROCFS_REQ_REGS : Z := 5.
Definition PROCFS_REQ_FPREGS : Z := 6.
Definition PROCFS_REQ_RUSAGE : Z := 14.
Definition PROCFS_REQ_KSYM_LOOKUP : Z := 40.
Definition PROCFS_REQ_KSYM_REF : Z := 41.

Definition MAXCOMLEN : Z := 16.
Definition MAXTHREADNAMESIZE : Z := 64.
Definition PROCFS_NS_PER_TICK : Z := 10000000.

(** ** The structures of the daemon *)
Record proc_threadinfo := ThreadInfo {
  pth_user_time : Z; pth_system_time : Z; pth_policy : Z; pth_run_state : Z; pth_curpri : Z; pth_name : bytes
}.
(** [pth_name] is the array as it was sent, the last member of the structure. *)
Definition threadinfo_of (bs : bytes) : proc_threadinfo :=
  ThreadInfo (field 0 8 bs) (field 8 8 bs) (i32 (field 20 4 bs)) (i32 (field 24 4 bs)) (i32 (field 36 4 bs)) (take 64 (drop 48 bs)).

Record proc_taskinfo := TaskInfo {
  pti_virtual_size : Z; pti_resident_size : Z; pti_total_user : Z; pti_total_system : Z; pti_threadnum : Z; pti_numrunning : Z
}.
Definition taskinfo_of (bs : bytes) : proc_taskinfo :=
  TaskInfo (field 0 8 bs) (field 8 8 bs) (field 16 8 bs) (field 24 8 bs) (i32 (field 84 4 bs)) (i32 (field 88 4 bs)).

(** A structure of [size] bytes: what is in it after the request, and whether it
    was all there. *)
Definition info_request (B : bridge) (ty pid arg size : Z) : Z * bytes :=
  let r := ctl_request B ty pid arg EmptyString size in
  (if (fst r =? 0) && (Z.of_nat (length (snd r)) =? size) then 0 else ENOTSUP, reply_into size r).

Definition procfs_thread_info (B : bridge) (id : pfsid) : Z * proc_threadinfo :=
  let '(e, bs) := info_request B PROCFS_REQ_THREADINFO (nodeid_pid id) (nodeid_objectid id) 112 in (e, threadinfo_of bs).
Definition procfs_task_info (B : bridge) (id : pfsid) : Z * proc_taskinfo :=
  let '(e, bs) := info_request B PROCFS_REQ_TASKINFO (nodeid_pid id) 0 96 in (e, taskinfo_of bs).

(** ** States *)
Definition procfs_proc_state (p_stat : Z) : Z :=
  if p_stat =? 1 then 73 (* I *) else if p_stat =? 2 then 82 (* R *) else if p_stat =? 4 then 84 (* T *)
  else if p_stat =? 5 then 90 (* Z *) else 83 (* S *).

Definition procfs_thread_state (run_state : Z) : Z :=
  if run_state =? 1 then 82 else if run_state =? 2 then 84 else if run_state =? 4 then 68 (* D *) else 83.

Definition procfs_thread_state_word (c : Z) : string :=
  if c =? 82 then "running"%string else if c =? 84 then "stopped"%string else if c =? 68 then "disk sleep"%string
  else if c =? 90 then "zombie"%string else if c =? 73 then "idle"%string else "sleeping"%string.

(** ** The context of the owning process *)
Record procfs_pctx := Pctx {
  pc_pid : Z; pc_ppid : Z; pc_pgid : Z; pc_sid : Z; pc_nthreads : Z; pc_vsize : Z; pc_rsize : Z; pc_comm : bytes; pc_state : Z
}.

Section Pctx.
Variable B : bridge.
Variable K : kernel.
Variable p_stat : proc -> Z.
Variable PAGE_SIZE : Z.
Variable fuel : nat.

Definition comm_of (p : proc) : bytes := lit (strlcpy (p_comm p) (MAXCOMLEN + 1)).

Definition procfs_pctx_get (id : pfsid) : option procfs_pctx :=
  match proc_find K (nodeid_pid id) with
  | None => Some (Pctx (nodeid_pid id) 0 0 0 0 0 0 [] 83)
  | Some p =>
      let state := procfs_proc_state (p_stat p) in
      let '(e, ti) := procfs_task_info B id in
      if e =? 0 then
        Some (Pctx (nodeid_pid id) (p_ppid p) (p_pgrpid p) (p_sessionid p) (pti_threadnum ti) (pti_virtual_size ti) (pti_resident_size ti)
          (comm_of p) (if (state =? 82) && (pti_numrunning ti =? 0) then 83 else state))
      else
        match procfs_task_vm_sizes B PAGE_SIZE fuel p with
        | None => None
        | Some (_, (vsize, rsize)) =>
            Some (Pctx (nodeid_pid id) (p_ppid p) (p_pgrpid p) (p_sessionid p) (i32 (procfs_get_task_thread_count B true true (Some p)))
              vsize rsize (comm_of p) state)
        end
  end.
End Pctx.

(** ** The texts *)
Definition sp (l : bytes) : bytes := (32 :: l)%list.

(** Fields 3 to 52 of a stat line. *)
Definition stat_tail (state ppid pgid sid utime stime pri nthreads vsize rss policy : Z) : bytes :=
  ([state] ++ sp (sdec ppid) ++ sp (sdec pgid) ++ sp (sdec sid) ++ lit " 0 -1 0 0 0 0 0 "
   ++ dec utime ++ sp (dec stime) ++ lit " 0 0 " ++ sdec pri ++ lit " 0 " ++ sdec nthreads ++ lit " 0 0 "
   ++ dec vsize ++ sp (dec rss) ++ lit " 18446744073709551615 "
   ++ lit "0 0 0 0 0 0 0 0 0 0 0 0 0 0 0 " ++ sdec policy ++ lit " " ++ line "0 0 0 0 0 0 0 0 0 0 0")%list.

Definition stat_line (id_text name tail : bytes) : bytes := (id_text ++ lit " (" ++ name ++ lit ") " ++ tail)%list.

(** The characters of an array up to its NUL; [None]: it has none, and [%s] reads
    on behind it. *)
Fixpoint nul_string (bs : bytes) : option bytes :=
  match bs with
  | [] => None
  | b :: r => if b =? 0 then Some [] else cons b <$> nul_string r
  end.

(** [ti.pth_name[0] ? ti.pth_name : comm], as [%s] prints it. *)
Definition thread_name (ti : proc_threadinfo) (comm : bytes) : option bytes :=
  match pth_name ti with b :: _ => if b =? 0 then Some comm else nul_string (pth_name ti) | [] => Some comm end.

Definition threadstat_text (tid PAGE_SIZE : Z) (ti : proc_threadinfo) (name : bytes) (c : procfs_pctx) : bytes :=
  stat_line (dec tid) name
    (stat_tail (procfs_thread_state (pth_run_state ti)) (pc_ppid c) (pc_pgid c) (pc_sid c)
       (pth_user_time ti / PROCFS_NS_PER_TICK) (pth_system_time ti / PROCFS_NS_PER_TICK) (pth_curpri ti) (pc_nthreads c) (pc_vsize c)
       (pc_rsize c / PAGE_SIZE) (pth_policy ti)).

Definition procstat_text (PAGE_SIZE : Z) (ti : proc_taskinfo) (c : procfs_pctx) : bytes :=
  stat_line (sdec (pc_pid c)) (pc_comm c)
    (stat_tail (pc_state c) (pc_ppid c) (pc_pgid c) (pc_sid c)
       (pti_total_user ti / PROCFS_NS_PER_TICK) (pti_total_system ti / PROCFS_NS_PER_TICK) 20 (pc_nthreads c) (pc_vsize c)
       (pc_rsize c / PAGE_SIZE) 0).

Definition label (s : string) : bytes := lit (s +:+ ":" +:+ tab).
Definition state_row (st : Z) : bytes := (label "State" ++ [st] ++ lit " (" ++ lit (procfs_thread_state_word st) ++ line ")")%list.
Definition ctxt_rows : bytes :=
  (line ("voluntary_ctxt_switches:" +:+ tab +:+ "0") ++ line ("nonvoluntary_ctxt_switches:" +:+ tab +:+ "0"))%list.

Definition threadstatus_text (tid : Z) (ti : proc_threadinfo) (name : bytes) (c : procfs_pctx) : bytes :=
  (label "Name" ++ name ++ [10] ++ state_row (procfs_thread_state (pth_run_state ti))
   ++ label "Tgid" ++ sdec (pc_pid c) ++ [10] ++ label "Pid" ++ dec tid ++ [10] ++ label "PPid" ++ sdec (pc_ppid c) ++ [10]
   ++ label "VmSize" ++ dec8 (Z.shiftr (pc_vsize c) 10) ++ line " kB" ++ label "VmStk" ++ dec8 0 ++ line " kB"
   ++ label "Threads" ++ sdec (pc_nthreads c) ++ [10] ++ ctxt_rows)%list.

(** [%20d]. *)
Definition sdec20 (v : Z) : bytes := pad_left 20 32 (sdec v).

Definition threadsched_text (tid : Z) (ti : proc_threadinfo) (name : bytes) (c : procfs_pctx) : bytes :=
  (name ++ lit " (" ++ dec tid ++ lit ", #threads: " ++ sdec (pc_nthreads c) ++ line ")"
   ++ line "-------------------------------------------------------------------"
   ++ lit "se.sum_exec_runtime  : " ++ udec 20 (u64 (pth_user_time ti + pth_system_time ti)) ++ [10]
   ++ lit "policy               : " ++ sdec20 (pth_policy ti) ++ [10] ++ lit "prio                 : " ++ sdec20 (pth_curpri ti) ++ [10])%list.

Definition statm_text (PAGE_SIZE : Z) (c : procfs_pctx) : bytes :=
  (dec (pc_vsize c / PAGE_SIZE) ++ sp (dec (pc_rsize c / PAGE_SIZE)) ++ line " 0 0 0 0 0")%list.

Definition io_text (read_bytes write_bytes : Z) : bytes :=
  (line "rchar: 0" ++ line "wchar: 0" ++ line "syscr: 0" ++ line "syscw: 0" ++ key_line "read_bytes: " read_bytes
   ++ key_line "write_bytes: " write_bytes ++ line "cancelled_write_bytes: 0")%list.

(** The rows of /proc/<pid>/cpu: the total, then one for each CPU. *)
Definition cpu_rows (utime stime ncpu : Z) : list (Z * Z) := map (fun i => if i =? 0 then (utime, stime) else (0, 0)) (seqZ 0 ncpu).
Definition cpu_text (utime stime ncpu : Z) : bytes :=
  (lit "cpu  " ++ dec utime ++ sp (dec stime) ++ [10]
   ++ concat (imap (fun i '(u, s) => lit "cpu" ++ dec (Z.of_nat i) ++ sp (dec u) ++ sp (dec s) ++ [10])%list (cpu_rows utime stime ncpu)))%list.

(** [svuid], [svgid]: the saved ids of the credential. *)
Definition procstatus_text (c : procfs_pctx) (cr : option (cred * Z * Z)) : bytes :=
  let '(Cred uid ruid gid rgid, svuid, svgid) := default (Cred 0 0 0 0, 0, 0) cr in
  let row name (a b c d : Z) := (label name ++ dec a ++ lit tab ++ dec b ++ lit tab ++ dec c ++ lit tab ++ dec d ++ [10])%list in
  (label "Name" ++ pc_comm c ++ [10] ++ state_row (pc_state c) ++ label "Tgid" ++ sdec (pc_pid c) ++ [10]
   ++ label "Pid" ++ sdec (pc_pid c) ++ [10] ++ label "PPid" ++ sdec (pc_ppid c) ++ [10] ++ label "TracerPid" ++ line "0"
   ++ row "Uid"%string ruid uid svuid uid ++ row "Gid"%string rgid gid svgid gid
   ++ label "VmSize" ++ dec8 (Z.shiftr (pc_vsize c) 10) ++ line " kB" ++ label "VmRSS" ++ dec8 (Z.shiftr (pc_rsize c) 10) ++ line " kB"
   ++ label "Threads" ++ sdec (pc_nthreads c) ++ [10] ++ ctxt_rows)%list.

(** *** Registers *)
Definition reg_line (name : bytes) (n : nat) (v : Z) : bytes := (name ++ lit "0x" ++ hex_fixed n v ++ [10])%list.

(** arm_thread_state64_t: 29 registers, fp, lr, sp, pc and cpsr. *)
Definition regs_arm_text (st : bytes) : bytes :=
  (concat (map (fun i => reg_line (lit "x" ++ pad_right 2 (sdec (Z.of_nat i)) ++ lit "  ") 16 (field (8 * i) 8 st)) (seq 0 29))
   ++ reg_line (lit "fp   ") 16 (field 232 8 st) ++ reg_line (lit "lr   ") 16 (field 240 8 st) ++ reg_line (lit "sp   ") 16 (field 248 8 st)
   ++ reg_line (lit "pc   ") 16 (field 256 8 st) ++ reg_line (lit "cpsr ") 8 (field 264 4 st))%list.

(** x86_thread_state64_t: rax rbx rcx rdx rdi rsi rbp rsp r8-r15 rip rflags. *)
Definition regs_x86_text (st : bytes) : bytes :=
  concat (map (fun '(n, off) => reg_line (lit n) 16 (field off 8 st))
    [("rax ", 0); ("rbx ", 8); ("rcx ", 16); ("rdx ", 24); ("rsi ", 40); ("rdi ", 32); ("rbp ", 48); ("rsp ", 56); ("r8  ", 64); ("r9  ", 72);
     ("r10 ", 80); ("r11 ", 88); ("r12 ", 96); ("r13 ", 104); ("r14 ", 112); ("r15 ", 120); ("rip ", 128); ("rflags ", 136)]%nat%string).

(** arm_neon_state64_t: 32 registers of 16 bytes, fpsr and fpcr. *)
Definition fpregs_arm_text (st : bytes) : bytes :=
  (concat (map (fun i => lit "q" ++ pad_right 2 (sdec (Z.of_nat i)) ++ lit "  0x" ++ hex_fixed 16 (field (16 * i + 8) 8 st)
       ++ hex_fixed 16 (field (16 * i) 8 st) ++ [10])%list (seq 0 32))
   ++ reg_line (lit "fpsr ") 8 (field 512 4 st) ++ reg_line (lit "fpcr ") 8 (field 516 4 st))%list.

Definition auxv_text (PAGE_SIZE : Z) (c : cred) : bytes :=
  let row k v := (lit (k +:+ tab) ++ dec v ++ [10])%list in
  (row "AT_PAGESZ"%string PAGE_SIZE ++ row "AT_CLKTCK"%string 100 ++ row "AT_UID"%string (cr_ruid c) ++ row "AT_EUID"%string (cr_uid c)
   ++ row "AT_GID"%string (cr_rgid c) ++ row "AT_EGID"%string (cr_gid c) ++ row "AT_SECURE"%string 0)%list.

(** ** The nodes *)
Section Nodes.
Context {U : Type} `{Uio U}.
Variable B : bridge.
Variable K : kernel.
Variable sbuf_ok : bool.
Variable p_stat : proc -> Z.
Variable PAGE_SIZE : Z.
Variable fuel : nat.

Definition with_pctx (id : pfsid) (body : procfs_pctx -> option (Z * U)) : option (Z * U) :=
  match procfs_pctx_get B K p_stat PAGE_SIZE fuel id with Some c => body c | None => None end.

(** [None]: the name runs past its array. *)
Definition with_name (ti : proc_threadinfo) (comm : bytes) (body : bytes -> option (Z * U)) : option (Z * U) :=
  match thread_name ti comm with Some name => body name | None => None end.

Definition procfs_dothreadcomm (id : pfsid) (u : U) : option (Z * U) :=
  let ti := snd (procfs_thread_info B id) in
  let comm := match proc_find K (nodeid_pid id) with Some p => comm_of p | None => [] end in
  with_name ti comm (fun name => snprintf_copy (MAXTHREADNAMESIZE + 2) (name ++ [10])%list u).

Definition procfs_dothreadstat (id : pfsid) (u : U) : option (Z * U) :=
  let ti := snd (procfs_thread_info B id) in
  with_pctx id (fun c => with_name ti (pc_comm c) (fun name =>
    snprintf_copy 640 (threadstat_text (nodeid_objectid id) PAGE_SIZE ti name c) u)).
Definition procfs_dothreadstatus (id : pfsid) (u : U) : option (Z * U) :=
  let ti := snd (procfs_thread_info B id) in
  with_pctx id (fun c => with_name ti (pc_comm c) (fun name =>
    snprintf_copy 512 (threadstatus_text (nodeid_objectid id) ti name c) u)).
Definition procfs_dothreadsched (id : pfsid) (u : U) : option (Z * U) :=
  let ti := snd (procfs_thread_info B id) in
  with_pctx id (fun c => with_name ti (pc_comm c) (fun name =>
    snprintf_copy 512 (threadsched_text (nodeid_objectid id) ti name c) u)).

Definition procfs_docomm (id : pfsid) (u : U) : option (Z * U) :=
  with_pctx id (fun c => snprintf_copy (MAXCOMLEN + 2) (pc_comm c ++ [10])%list u).
Definition procfs_dostatm (id : pfsid) (u : U) : option (Z * U) :=
  with_pctx id (fun c => snprintf_copy 128 (statm_text PAGE_SIZE c) u).
Definition procfs_doprocstat (id : pfsid) (u : U) : option (Z * U) :=
  with_pctx id (fun c => snprintf_copy 640 (procstat_text PAGE_SIZE (snd (procfs_task_info B id)) c) u).

(** [saved]: the saved user and group ids of the process's credential. *)
Definition procfs_doprocstatus_linux (saved : proc -> Z * Z) (id : pfsid) (u : U) : option (Z * U) :=
  with_pctx id (fun c =>
    let cr := match proc_find K (nodeid_pid id) with Some p => Some (p_cred p, fst (saved p), snd (saved p)) | None => None end in
    sbuf_node sbuf_ok (procstatus_text c cr) u).

Definition procfs_doio (creds : cred) (id : pfsid) (u : U) : option (Z * U) :=
  with_process K creds id (fun e => Some (e, u))
    (let '(e, io) := ctl_request B PROCFS_REQ_RUSAGE (nodeid_pid id) 0 EmptyString 16 in
     let ok := (e =? 0) && (Z.of_nat (length io) =? 16) in
     snprintf_copy 256 (io_text (if ok then field 0 8 io else 0) (if ok then field 8 8 io else 0)) u).

Definition procfs_docpu (sysctl : string -> option Z) (id : pfsid) (u : U) : option (Z * U) :=
  let ti := snd (procfs_task_info B id) in
  sbuf_node sbuf_ok (cpu_text (pti_total_user ti / PROCFS_NS_PER_TICK) (pti_total_system ti / PROCFS_NS_PER_TICK)
                       (procfs_online_cpus sysctl)) u.

(** *** Registers *)
Definition user_process (id : pfsid) (u : U) (body : option (Z * U)) : option (Z * U) :=
  match proc_find K (nodeid_pid id) with
  | None => Some (ESRCH, u)
  | Some p => if p_zombie p || p_system p then Some (ESRCH, u) else body
  end.

(** [stack]: what the structure on the stack held before the request. *)
Definition procfs_doregs_linux (x86 : bool) (stack : bytes) (id : pfsid) (u : U) : option (Z * U) :=
  if uio_is_write u then Some (EOPNOTSUPP, u)
  else user_process id u
    (let '(e, r) := ctl_request B PROCFS_REQ_REGS (nodeid_pid id) 0 EmptyString (Z.of_nat (length stack)) in
     let text := if (e =? 0) && (0 <? Z.of_nat (length r))
                 then (if x86 then regs_x86_text else regs_arm_text) (copy_into r stack) else [] in
     sbuf_node sbuf_ok text u).

Definition procfs_dofpregs_linux (x86 : bool) (stack : bytes) (id : pfsid) (u : U) : option (Z * U) :=
  if uio_is_write u then Some (EOPNOTSUPP, u)
  else user_process id u
    (if x86 then sbuf_node sbuf_ok (line "fpregs: x86_64 text format not implemented") u
     else
       let '(e, r) := ctl_request B PROCFS_REQ_FPREGS (nodeid_pid id) 0 EmptyString (Z.of_nat (length stack)) in
       sbuf_node sbuf_ok (if (e =? 0) && (0 <? Z.of_nat (length r)) then fpregs_arm_text (copy_into r stack) else []) u).

(** The native nodes: [ty] and the size of the structure. *)
Definition native_regs (ty size : Z) (id : pfsid) (u : U) : option (Z * U) :=
  user_process id u
    (let '(rc, state) := ctl_request B ty (nodeid_pid id) 0 EmptyString size in
     if negb (rc =? 0) then Some (if rc =? ENOTCONN then ENOTSUP else rc, u) else copy_all state u).

Definition procfs_doregs (linux x86 : bool) (stack : bytes) (id : pfsid) (u : U) : option (Z * U) :=
  if uio_is_write u then Some (EOPNOTSUPP, u)
  else if linux then procfs_doregs_linux x86 stack id u
  else native_regs PROCFS_REQ_REGS (Z.of_nat (length stack)) id u.
Definition procfs_dofpregs (linux x86 : bool) (stack : bytes) (id : pfsid) (u : U) : option (Z * U) :=
  if uio_is_write u then Some (EOPNOTSUPP, u)
  else if linux then procfs_dofpregs_linux x86 stack id u
  else native_regs PROCFS_REQ_FPREGS (Z.of_nat (length stack)) id u.

(** *** The auxiliary vector *)
Definition procfs_doauxv_linux (id : pfsid) (u : U) : option (Z * U) :=
  if uio_is_write u then Some (EOPNOTSUPP, u)
  else match proc_find K (nodeid_pid id) with
       | None => Some (ESRCH, u)
       | Some p => sbuf_node sbuf_ok (auxv_text PAGE_SIZE (p_cred p)) u
       end.

Definition procfs_doauxv (malloc_ok : Z -> bool) (linux : bool) (id : pfsid) (u : U) : option (Z * U) :=
  if uio_is_write u then Some (EOPNOTSUPP, u)
  else if linux then procfs_doauxv_linux id u
  else
    match proc_find K (nodeid_pid id) with
    | None => Some (ESRCH, u)
    | Some p =>
        if p_zombie p || p_system p then procfs_copy_data (Some [0]) 0 u
        else match procfs_read_procargs B malloc_ok p with
             | None => None
             | Some (inl _) => procfs_copy_data (Some [0]) 0 u
             | Some (inr (buf, _, _, apple_off)) =>
                 procfs_copy_data (Some (drop apple_off buf)) (i32 (Z.of_nat (length buf) - Z.of_nat apple_off)) u
             end
    end.
End Nodes.

(** ** Reading a stat line back, as Linux tools do: the name ends at the last
    closing parenthesis, and the fields after it are separated by spaces *)
Fixpoint after_last (c : Z) (l : bytes) : option bytes :=
  match l with
  | [] => None
  | x :: r => match after_last c r with Some t => Some t | None => if x =? c then Some r else None end
  end.

Fixpoint split_fields (cur l : bytes) : list bytes :=
  match l with
  | [] => [rev cur]
  | x :: r => if x =? 32 then rev cur :: split_fields [] r else if x =? 10 then [rev cur] else split_fields (x :: cur) r
  end.

Definition read_stat (text : bytes) : option (list bytes) :=
  match after_last 41 text with Some (32 :: t) => Some (split_fields [] t) | _ => None end.

Definition zeros (n : nat) : list bytes := repeat (lit "0") n.

(** Fields 3 to 52. *)
Definition stat_columns (state ppid pgid sid utime stime pri nthreads vsize rss policy : Z) : list bytes :=
  ([[state]; sdec ppid; sdec pgid; sdec sid; lit "0"; lit "-1"] ++ zeros 5
   ++ [dec utime; dec stime; lit "0"; lit "0"; sdec pri; lit "0"; sdec nthreads; lit "0"; lit "0"; dec vsize; dec rss; lit "18446744073709551615"]
   ++ zeros 15 ++ [sdec policy] ++ zeros 11)%list.

Definition plain (l : bytes) : Prop := Forall (fun c => c <> 32 /\ c <> 10 /\ c <> 41) l.

Fixpoint join_sp (fs : list bytes) : bytes :=
  match fs with
  | [] => []
  | [f] => f
  | f :: r => (f ++ 32 :: join_sp r)%list
  end.

Lemma split_fields_plain f cur r : plain f -> split_fields cur (f ++ r)%list = split_fields (rev f ++ cur)%list r.
Proof.
  revert cur. induction f as [|x f IH]; intros cur Hp; [done|]. apply Forall_cons_1 in Hp as [(H1 & H2 & _) Hp]. cbn [app split_fields].
  destruct (Z.eqb_spec x 32); [done|]. destruct (Z.eqb_spec x 10); [done|]. rewrite IH by done. cbn [rev]. by rewrite <- app_assoc.
Qed.

Lemma split_join fs : fs <> [] -> Forall plain fs -> split_fields [] (join_sp fs ++ [10])%list = fs.
Proof.
  induction fs as [|f fs IH]; intros Hn Hp; [done|]. apply Forall_cons_1 in Hp as [Hf Hp].
  destruct fs as [|g fs].
  - cbn [join_sp]. rewrite split_fields_plain by done. cbn. by rewrite app_nil_r, rev_involutive.
  - change (join_sp (f :: g :: fs)) with (f ++ 32 :: join_sp (g :: fs))%list. rewrite <- app_assoc. cbn [app].
    rewrite split_fields_plain by done. cbn [split_fields]. rewrite Z.eqb_refl, IH by done. by rewrite app_nil_r, rev_involutive.
Qed.

Lemma after_last_plain l : plain l -> after_last 41 l = None.
Proof.
  induction 1 as [|x l (_ & _ & Hx) _ IH]; [done|]. cbn. rewrite IH. by destruct (Z.eqb_spec x 41).
Qed.

Lemma after_last_skip a l t : after_last 41 l = Some t -> after_last 41 (a ++ l)%list = Some t.
Proof. intros E. induction a as [|x a IH]; [done|]. cbn [app after_last]. by rewrite IH. Qed.

Lemma after_last_app t : Forall (fun c => c <> 41) t -> after_last 41 (41 :: t) = Some t.
Proof.
  intros Ht. assert (E : after_last 41 t = None).
  { induction Ht as [|x t Hx _ IH]; [done|]. cbn. rewrite IH. by destruct (Z.eqb_spec x 41). }
  cbn. by rewrite E.
Qed.

Lemma digits_plain s : all_digits s = true -> plain (bytes_of_string s).
Proof.
  induction s as [|c s IH]; intros Hd; [constructor|]. cbn in Hd. apply andb_true_iff in Hd as [Hc Hd]. apply is_digit_range in Hc.
  cbn [bytes_of_string]. constructor; [lia|by apply IH].
Qed.

Lemma dec_plain v : 0 <= v -> plain (dec v).
Proof. intros Hv. apply digits_plain. by destruct (print_u_spec v Hv) as [? _]. Qed.

Lemma sdec_plain v : plain (sdec v).
Proof.
  unfold sdec, lit, print_d. destruct (Z.ltb_spec v 0); [|by apply dec_plain]. cbn [bytes_of_string].
  constructor; [vm_compute; intuition congruence|]. apply dec_plain. lia.
Qed.

Lemma plain_bool l : forallb (fun c => negb (c =? 32) && negb (c =? 10) && negb (c =? 41)) l = true -> plain l.
Proof. intros Hb. apply List.Forall_forall. intros c Hc. rewrite forallb_forall in Hb. apply Hb in Hc. lia. Qed.

Lemma zeros_plain n : Forall plain (zeros n).
Proof. unfold zeros. induction n as [|n IH]; constructor; [|done]. repeat constructor; vm_compute; congruence. Qed.

Lemma stat_tail_join state ppid pgid sid utime stime pri nthreads vsize rss policy :
  stat_tail state ppid pgid sid utime stime pri nthreads vsize rss policy
  = (join_sp (stat_columns state ppid pgid sid utime stime pri nthreads vsize rss policy) ++ [10])%list.
Proof.
  unfold stat_tail, stat_columns.
  generalize (sdec ppid) (sdec pgid) (sdec sid) (dec utime) (dec stime) (sdec pri) (sdec nthreads) (dec vsize) (dec rss) (sdec policy).
  intros. unfold sp. vm_compute (lit _). vm_compute (line _). vm_compute (zeros _). cbn [app join_sp].
  repeat (rewrite <- app_assoc; cbn [app]). reflexivity.
Qed.

Lemma stat_columns_plain state ppid pgid sid utime stime pri nthreads vsize rss policy :
  plain [state] -> 0 <= utime -> 0 <= stime -> 0 <= vsize -> 0 <= rss ->
  Forall plain (stat_columns state ppid pgid sid utime stime pri nthreads vsize rss policy).
Proof.
  intros Hs Hu Ht Hv Hr. unfold stat_columns. rewrite !Forall_app.
  split_and!; repeat first [exact Hs|apply zeros_plain|apply sdec_plain|by apply dec_plain|apply plain_bool; vm_compute; reflexivity
    |apply List.Forall_cons|apply List.Forall_nil].
Qed.

Lemma plain_no_paren l : plain l -> Forall (fun c => c <> 41) l.
Proof. intros Hp. eapply Forall_impl; [exact Hp|]. cbn. lia. Qed.

Lemma join_no_paren fs : Forall plain fs -> Forall (fun c => c <> 41) (join_sp fs).
Proof.
  induction fs as [|f fs IH]; intros Hp; [constructor|]. apply Forall_cons_1 in Hp as [Hf Hp]. destruct fs as [|g fs]; [by apply plain_no_paren|].
  change (join_sp (f :: g :: fs)) with (f ++ 32 :: join_sp (g :: fs))%list. apply Forall_app. split; [by apply plain_no_paren|].
  constructor; [lia|by apply IH].
Qed.

(** Whatever the name contains, the fields are read back. *)
Lemma read_stat_line id_text name fs : fs <> [] -> Forall plain fs ->
  read_stat (stat_line id_text name (join_sp fs ++ [10])%list) = Some fs.
Proof.
  intros Hn Hp. unfold read_stat, stat_line.
  assert (E : after_last 41 (id_text ++ lit " (" ++ name ++ lit ") " ++ join_sp fs ++ [10])%list = Some (32 :: join_sp fs ++ [10])%list).
  { do 3 apply after_last_skip. change (lit ") ") with [41; 32]. cbn [app]. apply after_last_app. constructor; [lia|].
    apply Forall_app. split; [by apply join_no_paren|]. constructor; [lia|constructor]. }
  rewrite E. f_equal. by apply split_join.
Qed.


(** ** Ranges of the C types *)
Definition is_int (v : Z) : Prop := - 2 ^ 31 <= v < 2 ^ 31.
Definition is_u64 (v : Z) : Prop := 0 <= v < 2 ^ 64.

Record pctx_ok (c : procfs_pctx) : Prop := {
  po_pid : is_int (pc_pid c); po_ppid : is_int (pc_ppid c); po_pgid : is_int (pc_pgid c); po_sid : is_int (pc_sid c);
  po_nthreads : is_int (pc_nthreads c); po_vsize : is_u64 (pc_vsize c); po_rsize : is_u64 (pc_rsize c);
  po_comm : (length (pc_comm c) <= 16)%nat; po_state : 65 <= pc_state c <= 90
}.

Record threadinfo_ok (ti : proc_threadinfo) : Prop := {
  to_user : is_u64 (pth_user_time ti); to_system : is_u64 (pth_system_time ti); to_policy : is_int (pth_policy ti);
  to_curpri : is_int (pth_curpri ti); to_name : (length (pth_name ti) <= 64)%nat
}.

Lemma c_str_length bs : (length (c_str bs) <= length bs)%nat.
Proof. induction bs as [|c r IH]; [done|]. cbn. destruct (c =? 0); cbn; lia. Qed.

Lemma sdec_int v : is_int v -> (length (sdec v) <= 21)%nat.
Proof. intros H. apply sdec_length. unfold is_int in H. lia. Qed.

Lemma dec_u64 v : is_u64 v -> (length (dec v) <= 20)%nat.
Proof. apply dec_length. Qed.

Lemma div_u64 v d : is_u64 v -> 0 < d -> is_u64 (v / d).
Proof. intros H Hd. unfold is_u64 in *. split; [apply Z.div_pos; lia|]. apply Z.div_lt_upper_bound; nia. Qed.

Lemma nul_string_some bs : 0 ∈ bs -> exists s, nul_string bs = Some s /\ (length s < length bs)%nat.
Proof.
  induction bs as [|b bs IH]; intros Hin; [by apply not_elem_of_nil in Hin|]. cbn [nul_string]. destruct (Z.eqb_spec b 0) as [->|Hb].
  - exists []. split; [done|]. cbn. lia.
  - apply elem_of_cons in Hin as [E|Hin]; [done|]. destruct (IH Hin) as (s & -> & Hl). exists (b :: s). split; [done|]. cbn. lia.
Qed.

Lemma nul_string_none bs : 0 ∉ bs -> nul_string bs = None.
Proof.
  induction bs as [|b bs IH]; intros Hin; [done|]. cbn [nul_string]. destruct (Z.eqb_spec b 0) as [->|Hb]; [set_solver|].
  rewrite IH; [done|set_solver].
Qed.

Lemma thread_name_some ti comm : (length (pth_name ti) <= 64)%nat -> (length comm <= 63)%nat -> 0 ∈ pth_name ti ->
  exists name, thread_name ti comm = Some name /\ (length name <= 63)%nat.
Proof.
  intros Hl Hc Hn. unfold thread_name. destruct (nul_string_some _ Hn) as (s & Es & Hs).
  destruct (pth_name ti) as [|b r]; [by exists comm|]. destruct (b =? 0); [by exists comm|]. exists s. split; [done|lia].
Qed.

Lemma stat_tail_length state ppid pgid sid utime stime pri nthreads vsize rss policy :
  is_int ppid -> is_int pgid -> is_int sid -> is_int pri -> is_int nthreads -> is_int policy ->
  is_u64 utime -> is_u64 stime -> is_u64 vsize -> is_u64 rss ->
  (length (stat_tail state ppid pgid sid utime stime pri nthreads vsize rss policy) <= 320)%nat.
Proof.
  intros. unfold stat_tail, sp. text_fits.
  repeat match goal with H : is_int _ |- _ => apply sdec_int in H | H : is_u64 _ |- _ => apply dec_u64 in H end. lia.
Qed.

Ltac ranges :=
  repeat match goal with
  | H : pctx_ok _ |- _ => destruct H
  | H : threadinfo_ok _ |- _ => destruct H
  end.

Lemma threadstat_fits tid page ti name c : (length name <= 63)%nat -> 0 < page -> is_u64 tid -> threadinfo_ok ti -> pctx_ok c ->
  Z.of_nat (length (threadstat_text tid page ti name c)) < 640.
Proof.
  intros Hn Hp Ht Hti Hc. ranges. unfold threadstat_text, stat_line. text_fits.
  pose proof (dec_u64 tid Ht).
  match goal with |- context [stat_tail ?a ?b ?c ?d ?e ?f ?g ?h ?i ?j ?k] => pose proof (stat_tail_length a b c d e f g h i j k) as Hs end.
  assert (0 < PROCFS_NS_PER_TICK) by done. rewrite !Nat2Z.inj_add. cbn [Z.of_nat].
  specialize (Hs ltac:(done) ltac:(done) ltac:(done) ltac:(done) ltac:(done) ltac:(done) ltac:(by apply div_u64) ltac:(by apply div_u64) ltac:(done) ltac:(by apply div_u64)).
  lia.
Qed.

Lemma procstat_fits page ti c : 0 < page -> is_u64 (pti_total_user ti) -> is_u64 (pti_total_system ti) -> pctx_ok c ->
  Z.of_nat (length (procstat_text page ti c)) < 640.
Proof.
  intros Hp Hu Ht Hc. ranges. unfold procstat_text, stat_line. text_fits. pose proof (sdec_int (pc_pid c) ltac:(done)).
  match goal with |- context [stat_tail ?a ?b ?c ?d ?e ?f ?g ?h ?i ?j ?k] => pose proof (stat_tail_length a b c d e f g h i j k) as Hs end.
  assert (0 < PROCFS_NS_PER_TICK) by done. assert (is_int 20 /\ is_int 0) as [? ?] by (unfold is_int; lia).
  specialize (Hs ltac:(done) ltac:(done) ltac:(done) ltac:(done) ltac:(done) ltac:(done) ltac:(by apply div_u64) ltac:(by apply div_u64) ltac:(done) ltac:(by apply div_u64)).
  lia.
Qed.

Lemma state_word_length st : (String.length (procfs_thread_state_word st) <= 10)%nat.
Proof. unfold procfs_thread_state_word. repeat (destruct (_ =? _); [cbn; lia|]). cbn. lia. Qed.

Lemma dec8_length v : is_u64 v -> (length (dec8 v) <= 20)%nat.
Proof. intros H. unfold dec8. rewrite length_app, repeat_length. apply dec_u64 in H. lia. Qed.

Lemma shiftr_u64 v : is_u64 v -> is_u64 (Z.shiftr v 10).
Proof. intros H. rewrite Z.shiftr_div_pow2 by lia. by apply div_u64. Qed.

Lemma threadstatus_fits tid ti name c : (length name <= 63)%nat -> is_u64 tid -> threadinfo_ok ti -> pctx_ok c ->
  Z.of_nat (length (threadstatus_text tid ti name c)) < 512.
Proof.
  intros Hn Ht Hti Hc. ranges. unfold threadstatus_text, state_row, ctxt_rows, label. text_fits.
  pose proof (state_word_length (procfs_thread_state (pth_run_state ti))).
  pose proof (dec8_length _ (shiftr_u64 (pc_vsize c) ltac:(done))). pose proof (dec8_length 0 ltac:(unfold is_u64; lia)).
  repeat match goal with H : is_int _ |- _ => apply sdec_int in H end. apply dec_u64 in Ht.
  repeat match goal with |- context [String.length ?s] => let n := eval vm_compute in (String.length s) in
    lazymatch n with O => idtac | S _ => idtac end; change (String.length s) with n end. lia.
Qed.

Lemma threadsched_fits tid ti name c : (length name <= 63)%nat -> is_u64 tid -> threadinfo_ok ti -> pctx_ok c ->
  Z.of_nat (length (threadsched_text tid ti name c)) < 512.
Proof.
  intros Hn Ht Hti Hc. ranges. unfold threadsched_text. text_fits.
  assert (Hs : (length (udec 20 (u64 (pth_user_time ti + pth_system_time ti))) <= 20)%nat).
  { unfold udec. etransitivity; [apply (pad_left_length _ _ _ 20), dec_u64, wrap_u_range; lia|lia]. }
  pose proof (pad_left_length 20 32 _ 21 (sdec_int (pth_policy ti) ltac:(done))). pose proof (pad_left_length 20 32 _ 21 (sdec_int (pth_curpri ti) ltac:(done))).
  unfold sdec20. pose proof (sdec_int (pc_nthreads c) ltac:(done)). pose proof (dec_u64 tid Ht). lia.
Qed.

Lemma statm_fits page c : 0 < page -> pctx_ok c -> Z.of_nat (length (statm_text page c)) < 128.
Proof.
  intros Hp Hc. ranges. unfold statm_text, sp. text_fits. pose proof (dec_u64 _ (div_u64 (pc_vsize c) page ltac:(done) Hp)).
  pose proof (dec_u64 _ (div_u64 (pc_rsize c) page ltac:(done) Hp)). lia.
Qed.

Lemma io_fits r w : is_u64 r -> is_u64 w -> Z.of_nat (length (io_text r w)) < 256.
Proof. intros Hr Hw. unfold io_text, key_line. text_fits. apply dec_u64 in Hr, Hw. lia. Qed.

(** ** The structures are in range *)
Definition is_byte (b : Z) : Prop := 0 <= b < 256.

(** What the bridge hands over is bytes. *)
Class BridgeBytes (B : bridge) : Prop := {
  reply_bytes ty pid arg nm cap : Forall is_byte (snd (ctl_request B ty pid arg nm cap))
}.

Lemma le_val_range bs : Forall is_byte bs -> 0 <= le_val bs < 256 ^ Z.of_nat (length bs).
Proof.
  induction 1 as [|b bs Hb _ IH]; [cbn; lia|]. cbn [le_val length]. rewrite Nat2Z.inj_succ, Z.pow_succ_r by lia. unfold is_byte in Hb. lia.
Qed.

Lemma field_range off n bs : Forall is_byte bs -> 0 <= field off n bs < 256 ^ Z.of_nat n.
Proof.
  intros Hb. unfold field. pose proof (le_val_range (take n (drop off bs)) ltac:(by apply Forall_take, Forall_drop)) as Hr.
  rewrite length_take in Hr. assert (256 ^ Z.of_nat (Nat.min n (length (drop off bs))) <= 256 ^ Z.of_nat n) by (apply Z.pow_le_mono_r; lia). lia.
Qed.

Lemma field_u64 off bs : Forall is_byte bs -> is_u64 (field off 8 bs).
Proof. intros Hb. exact (field_range off 8 bs Hb). Qed.

Lemma reply_into_bytes size (r : Z * bytes) : Forall is_byte (snd r) -> Forall is_byte (reply_into size r).
Proof.
  intros Hr. assert (Hz : Forall is_byte (repeat 0 (Z.to_nat size))) by (apply List.Forall_forall; intros b Hb; apply repeat_spec in Hb; subst; unfold is_byte; lia).
  unfold reply_into, copy_into. destruct (fst r =? 0); [|exact Hz]. apply Forall_app. split; [exact Hr|apply Forall_drop; exact Hz].
Qed.

Lemma thread_info_ok B id : BridgeBytes B -> threadinfo_ok (snd (procfs_thread_info B id)).
Proof.
  intros HB. unfold procfs_thread_info, info_request. cbn [snd]. set (bs := reply_into _ _).
  assert (Hb : Forall is_byte bs) by apply reply_into_bytes, reply_bytes. split; cbn [threadinfo_of pth_user_time pth_system_time pth_policy pth_curpri pth_name].
  1,2: by apply field_u64. 1,2: apply i32_range. rewrite length_take. lia.
Qed.

Lemma task_info_ok B id : BridgeBytes B -> let ti := snd (procfs_task_info B id) in
  is_u64 (pti_virtual_size ti) /\ is_u64 (pti_resident_size ti) /\ is_u64 (pti_total_user ti) /\ is_u64 (pti_total_system ti) /\ is_int (pti_threadnum ti).
Proof.
  intros HB. unfold procfs_task_info, info_request. cbn [snd]. set (bs := reply_into _ _).
  assert (Hb : Forall is_byte bs) by apply reply_into_bytes, reply_bytes. cbn [taskinfo_of pti_virtual_size pti_resident_size pti_total_user pti_total_system pti_threadnum].
  split_and!; try (by apply field_u64). apply i32_range.
Qed.

(** The walk keeps what each callout keeps. *)
Lemma map_walk_keeps {A} (P : A -> Prop) (cb : procfs_map_region -> A -> A) B fuel pid addr first arg e r :
  (forall m a, P a -> P (cb m a)) -> P arg -> map_walk cb B fuel pid addr first arg = Some (e, r) -> P r.
Proof.
  intros Hcb. revert addr first arg. induction fuel as [|f IH]; intros addr first arg Ha E; [done|]. cbn [map_walk] in E.
  destruct (ctl_request B _ _ _ _ _) as [rc buf]. destruct (negb (rc =? 0)); [by injection E as <- <-|].
  destruct (last _) as [m|]; [|by injection E as <- <-].
  assert (Hf : forall l a, P a -> P (fold_left (fun a r => cb r a) l a)) by (clear - Hcb; induction l as [|x l IH]; intros a Ha; [done|]; apply IH; auto).
  destruct (_ <=? addr); [injection E as <- <-; by apply Hf|]. eapply IH; [|exact E]. by apply Hf.
Qed.

Lemma task_vm_sizes_u64 B page fuel p e v r : procfs_task_vm_sizes B page fuel p = Some (e, (v, r)) -> is_u64 v /\ is_u64 r.
Proof.
  unfold procfs_task_vm_sizes. destruct (procfs_map_walk _ B fuel _ _) as [[err c]|] eqn:E; [|done]. intros [= <- Ec].
  assert (Hz : is_u64 0) by (unfold is_u64; lia). destruct (negb (err =? 0)); [by injection Ec as <- <-|].
  assert (H : is_u64 (fst c) /\ is_u64 (snd c)).
  { eapply (map_walk_keeps (fun c => is_u64 (fst c) /\ is_u64 (snd c))); [| |exact E]; [|split; exact Hz].
    intros m a [Hf Hs]. cbn [procfs_map_sizes_cb fst snd]. split; [apply wrap_u_range; lia|]. destruct (share_mode_shared _); [done|apply wrap_u_range; lia]. }
  by rewrite Ec in H.
Qed.

Lemma proc_state_letter s : 65 <= procfs_proc_state s <= 90.
Proof. unfold procfs_proc_state. repeat (destruct (_ =? _); [lia|]). lia. Qed.

Record proc_ok (p : proc) : Prop := { pr_ppid : is_int (p_ppid p); pr_pgid : is_int (p_pgrpid p); pr_sid : is_int (p_sessionid p) }.

Lemma pctx_get_total B K p_stat page fuel id : BridgeBytes B -> 2 ^ 64 <= Z.of_nat fuel -> is_int (nodeid_pid id) ->
  (forall p, proc_find K (nodeid_pid id) = Some p -> proc_ok p) ->
  exists c, procfs_pctx_get B K p_stat page fuel id = Some c /\ pctx_ok c.
Proof.
  intros HB Hf Hpid Hp. unfold procfs_pctx_get. assert (H0 : is_int 0) by (unfold is_int; lia). assert (H0' : is_u64 0) by (unfold is_u64; lia).
  destruct (proc_find K (nodeid_pid id)) as [p|]; [|eexists; split; [reflexivity|]; split; cbn; auto; lia].
  destruct (Hp p eq_refl) as [P1 P2 P3]. destruct (task_info_ok B id HB) as (T1 & T2 & T3 & T4 & T5).
  assert (Hcomm : (length (comm_of p) <= 16)%nat).
  { unfold comm_of. rewrite lit_length. unfold strlcpy. pose proof (str_take_length (Z.to_nat (MAXCOMLEN + 1 - 1)) (p_comm p)). 
    change (Z.to_nat (MAXCOMLEN + 1 - 1)) with 16%nat in *. done. }
  pose proof (proc_state_letter (p_stat p)) as Hst. destruct (procfs_task_info B id) as [e ti]. cbn [snd] in *. destruct (e =? 0).
  - eexists. split; [reflexivity|]. split; cbn; auto. destruct (_ && _); [lia|done].
  - destruct (procfs_task_vm_sizes B page fuel p) as [[err [v r]]|] eqn:E.
    + destruct (task_vm_sizes_u64 _ _ _ _ _ _ _ E). eexists. split; [reflexivity|]. split; cbn; auto. apply i32_range.
    + exfalso. unfold procfs_task_vm_sizes in E.
      destruct (map_walk_returns (procfs_map_sizes_cb page) B (p_pid p) fuel 0 true (0, 0)) as [[e' c'] Ew]; [lia|lia|lia|].
      unfold procfs_map_walk in E. by rewrite Ew in E.
Qed.

Lemma sum_of_cons {A} (f : A -> Z) x l : sum_of f (x :: l) = f x + sum_of f l.
Proof. done. Qed.

(** The context has the name of the process. *)
Lemma pctx_comm B K p_stat page fuel id c : procfs_pctx_get B K p_stat page fuel id = Some c ->
  pc_comm c = match proc_find K (nodeid_pid id) with Some p => comm_of p | None => [] end.
Proof.
  unfold procfs_pctx_get. destruct (proc_find K (nodeid_pid id)) as [p|]; [|by intros [= <-]].
  destruct (procfs_task_info B id) as [e ti]. destruct (e =? 0); [by intros [= <-]|].
  destruct (procfs_task_vm_sizes B page fuel p) as [[er [v r]]|]; [by intros [= <-]|done].
Qed.

Lemma doio_whole {U} `{Uio U} B K creds id p (u : U) : BridgeBytes B ->
  proc_find K (nodeid_pid id) = Some p -> procfs_check_can_access_process creds p = 0 ->
  exists r w, is_u64 r /\ is_u64 w /\ procfs_doio B K creds id u = copy_all (io_text r w) u.
Proof.
  intros HB Ep Ha. unfold procfs_doio, with_process. rewrite Ep, Ha. cbn [Z.eqb negb].
  pose proof (reply_bytes PROCFS_REQ_RUSAGE (nodeid_pid id) 0 EmptyString 16) as Hb.
  destruct (ctl_request B PROCFS_REQ_RUSAGE (nodeid_pid id) 0 EmptyString 16) as [e io]. cbn [snd] in Hb.
  set (ok := _ && _). assert (Hv : forall off, is_u64 (if ok then field off 8 io else 0)).
  { intros off. destruct ok; [by apply field_u64|unfold is_u64; lia]. }
  eexists _, _. split; [apply (Hv 0%nat)|]. split; [apply (Hv 8%nat)|]. apply snprintf_copy_fits, io_fits; apply Hv.
Qed.

(** ** Theorems *)
(** C27. The text nodes of a process are whole: for any process and any replies of
    the daemon, the context ends up in the range of its C types, and stat, status,
    comm, statm and (for a caller that may see the process) io copy their whole text;
    so do comm, stat, status and sched of a thread, if the name the daemon sent ends
    within its 64 bytes.  No name or counter makes snprintf's length exceed its
    buffer.  A name without a NUL is read past its array (see
    [thread_name_overread]). *)
Theorem process_texts_whole {U} `{Uio U} B K p_stat page fuel id (u : U) :
  BridgeBytes B -> 2 ^ 64 <= Z.of_nat fuel -> 0 < page -> is_int (nodeid_pid id) -> is_u64 (nodeid_objectid id) ->
  (forall p, proc_find K (nodeid_pid id) = Some p -> proc_ok p) ->
  exists c, procfs_pctx_get B K p_stat page fuel id = Some c /\ pctx_ok c
    /\ procfs_docomm B K p_stat page fuel id u = copy_all (pc_comm c ++ [10])%list u
    /\ procfs_dostatm B K p_stat page fuel id u = copy_all (statm_text page c) u
    /\ procfs_doprocstat B K p_stat page fuel id u = copy_all (procstat_text page (snd (procfs_task_info B id)) c) u
    /\ (forall saved, procfs_doprocstatus_linux B K true p_stat page fuel saved id u
          = copy_all (procstatus_text c ((fun p => (p_cred p, fst (saved p), snd (saved p))) <$> proc_find K (nodeid_pid id))) u)
    /\ (forall creds p, proc_find K (nodeid_pid id) = Some p -> procfs_check_can_access_process creds p = 0 ->
          exists r w, is_u64 r /\ is_u64 w /\ procfs_doio B K creds id u = copy_all (io_text r w) u)
    /\ let ti := snd (procfs_thread_info B id) in
       let tid := nodeid_objectid id in
       (0 ∈ pth_name ti ->
        exists name, thread_name ti (pc_comm c) = Some name
          /\ procfs_dothreadcomm B K id u = copy_all (name ++ [10])%list u
          /\ procfs_dothreadstat B K p_stat page fuel id u = copy_all (threadstat_text tid page ti name c) u
          /\ procfs_dothreadstatus B K p_stat page fuel id u = copy_all (threadstatus_text tid ti name c) u
          /\ procfs_dothreadsched B K p_stat page fuel id u = copy_all (threadsched_text tid ti name c) u).
Proof.
  intros HB Hf Hp Hpid Htid Hproc. destruct (pctx_get_total B K p_stat page fuel id HB Hf Hpid Hproc) as (c & E & Hc).
  exists c. pose proof (thread_info_ok B id HB) as Hti. destruct (task_info_ok B id HB) as (_ & _ & T3 & T4 & _).
  unfold procfs_dothreadstat, procfs_dothreadstatus, procfs_dothreadsched, procfs_docomm, procfs_dostatm, procfs_doprocstat,
    procfs_doprocstatus_linux, with_pctx. rewrite E. split_and!; [done|done| | | | | |].
  - apply snprintf_copy_fits. destruct Hc. rewrite length_app. cbn [length]. unfold MAXCOMLEN. lia.
  - apply snprintf_copy_fits. by apply statm_fits.
  - apply snprintf_copy_fits. by apply procstat_fits.
  - intros saved. by destruct (proc_find K (nodeid_pid id)).
  - intros creds p Ep Ha. by eapply doio_whole.
  - cbv zeta. intros Hn. pose proof (po_comm _ Hc) as Hcl.
    destruct (thread_name_some _ (pc_comm c) (to_name _ Hti) ltac:(lia) Hn) as (name & En & Hl).
    exists name. unfold procfs_dothreadcomm, with_name. rewrite (pctx_comm _ _ _ _ _ _ _ E) in En. rewrite (pctx_comm _ _ _ _ _ _ _ E), En.
    split_and!; [done|..]; apply snprintf_copy_fits; [|by apply threadstat_fits|by apply threadstatus_fits|by apply threadsched_fits].
    rewrite length_app. unfold MAXTHREADNAMESIZE. cbn [length]. lia.
Qed.

(** A thread name is printed with an unbounded [%s]: for a reply whose name fills
    its 64 bytes without a NUL, the thread's comm reads past the structure. *)
Theorem thread_name_overread {U} `{Uio U} B K id (u : U) :
  pth_name (snd (procfs_thread_info B id)) <> [] -> 0 ∉ pth_name (snd (procfs_thread_info B id)) ->
  procfs_dothreadcomm B K id u = None.
Proof.
  intros Hne Hn. unfold procfs_dothreadcomm, with_name, thread_name. rewrite (nul_string_none _ Hn).
  destruct (pth_name (snd (procfs_thread_info B id))) as [|b r]; [done|]. destruct (Z.eqb_spec b 0) as [->|]; [|done]. set_solver.
Qed.

(** C28. A stat line reads back: whatever the process or thread is called, spaces
    and parentheses included, a reader that splits the line after its last closing
    parenthesis finds the 50 fields 3 to 52 with the state, the parent, the group,
    the session, the times, the threads, the sizes and the policy in their places. *)
Theorem stat_reads_back tid page ti name tti c :
  0 < page -> pctx_ok c -> threadinfo_ok ti -> is_u64 (pti_total_user tti) -> is_u64 (pti_total_system tti) ->
  read_stat (threadstat_text tid page ti name c)
    = Some (stat_columns (procfs_thread_state (pth_run_state ti)) (pc_ppid c) (pc_pgid c) (pc_sid c)
        (pth_user_time ti / PROCFS_NS_PER_TICK) (pth_system_time ti / PROCFS_NS_PER_TICK) (pth_curpri ti) (pc_nthreads c)
        (pc_vsize c) (pc_rsize c / page) (pth_policy ti))
  /\ read_stat (procstat_text page tti c)
    = Some (stat_columns (pc_state c) (pc_ppid c) (pc_pgid c) (pc_sid c) (pti_total_user tti / PROCFS_NS_PER_TICK)
        (pti_total_system tti / PROCFS_NS_PER_TICK) 20 (pc_nthreads c) (pc_vsize c) (pc_rsize c / page) 0)
  /\ forall a b d e f g h i j k l, length (stat_columns a b d e f g h i j k l) = 50%nat.
Proof.
  intros Hp Hc Hti Hu Hs. ranges.
  assert (Hdiv : forall v d, is_u64 v -> 0 < d -> 0 <= v / d) by (intros v d Hv Hd; unfold is_u64 in Hv; apply Z.div_pos; lia).
  assert (0 < PROCFS_NS_PER_TICK) by done. assert (0 <= pc_vsize c) by (unfold is_u64 in *; lia).
  unfold threadstat_text, procstat_text. rewrite !stat_tail_join. split_and!; [| |done]; apply read_stat_line; try done; apply stat_columns_plain; auto.
  - unfold procfs_thread_state. repeat constructor; repeat (destruct (_ =? _); [lia|]); lia.
  - repeat constructor; lia.
Qed.

(** /proc/<pid>/cpu keeps Linux's invariant: the user and system times of the
    per-CPU rows sum to the total row's, for every number of CPUs. *)
Theorem cpu_rows_sum utime stime sysctl :
  let rows := cpu_rows utime stime (procfs_online_cpus sysctl) in
  sum_of fst rows = utime /\ sum_of snd rows = stime /\ Z.of_nat (length rows) = procfs_online_cpus sysctl.
Proof.
  cbv zeta. pose proof (online_clamp_range (sysctl "hw.logicalcpu"%string)) as Hn. fold (procfs_online_cpus sysctl) in Hn.
  set (n := procfs_online_cpus sysctl) in *. unfold cpu_rows. rewrite seqZ_cons by lia. cbn [map].
  assert (Hz : forall (f : Z * Z -> Z), f (0, 0) = 0 ->
     sum_of f (map (fun i => if i =? 0 then (utime, stime) else (0, 0)) (seqZ (Z.succ 0) (Z.pred n))) = 0).
  { intros f Hf. assert (G : forall l, Forall (fun i => i <> 0) l -> sum_of f (map (fun i => if i =? 0 then (utime, stime) else (0, 0)) l) = 0).
    { intros l. induction 1 as [|i l Hi _ IH]; [done|]. unfold sum_of in *. cbn [map foldr]. destruct (Z.eqb_spec i 0); [done|]. rewrite Hf. lia. }
    apply G, Forall_forall. intros i Hi. apply elem_of_seqZ in Hi. lia. }
  split_and!.
  - rewrite sum_of_cons, Hz by done. cbn. lia.
  - rewrite sum_of_cons, Hz by done. cbn. lia.
  - cbn [length]. rewrite length_map, length_seqZ. lia.
Qed.

(** Native auxv is the apple[] vector: for a live process whose argument region
    the daemon serves, a read returns the strings the kernel passed after the
    environment, and nothing of the sections before them. *)
Theorem auxv_roundtrip B K m sbuf_ok page id p a off n :
  proc_find K (nodeid_pid id) = Some p -> p_zombie p = false -> p_system p = false ->
  serves_args B (p_pid p) (region a) -> (forall z, m z = true) -> procargs_ok a ->
  0 <= off <= Z.of_nat (length (strings (pa_apple a))) -> 0 <= n ->
  exists u', procfs_doauxv B K sbuf_ok page m false id (ubuf_read off n) = Some (0, u')
    /\ uio_out u' = take (Z.to_nat n) (drop (Z.to_nat off) (strings (pa_apple a))).
Proof.
  intros Ep Hz Hsys Hs Hm Hok Ho Hn. destruct (read_procargs_region B m p a Hs Hm Hok) as (ao & eo & Er & Eeo & Da & De).
  pose proof (pk_size a Hok) as Hsz. unfold PROCFS_CMDLINE_MAX in Hsz.
  assert (Hl : length (region a) = (eo + length (strings (pa_env a)) + length (strings (pa_apple a)))%nat).
  { pose proof (f_equal length Da) as L2. rewrite length_drop, !length_app in L2. pose proof (strings_length (pa_argv a)) as L1.
    destruct (pk_first a Hok) as (s & ss & E1 & _). rewrite E1 in L1 at 1. cbn [length] in L1. lia. }
  unfold procfs_doauxv. rewrite Ep, Hz, Hsys, Er. cbn [orb uio_is_write ubuf_uio ub_write ubuf_read].
  rewrite <- drop_drop, De, drop_app_length. rewrite Hl.
  replace (Z.of_nat (eo + length (strings (pa_env a)) + length (strings (pa_apple a))) - Z.of_nat (eo + length (strings (pa_env a))))
    with (Z.of_nat (length (strings (pa_apple a)))) by lia.
  pose proof (copy_prefix (strings (pa_apple a)) [] off n Ho ltac:(lia) Hn) as Hc. by rewrite app_nil_r in Hc.
Qed.

(** In Linux mode the register nodes accept any reply that is not empty, and the
    structure on the stack is not cleared first: the text of a short reply shows
    what the stack held. *)
Theorem regs_short_reply_shows_stack B K sbuf_ok id p (u : ubuf) (r stack : bytes) :
  proc_find K (nodeid_pid id) = Some p -> p_zombie p = false -> p_system p = false -> uio_is_write u = false -> sbuf_ok = true ->
  ctl_request B PROCFS_REQ_REGS (nodeid_pid id) 0 EmptyString (Z.of_nat (length stack)) = (0, r) -> (0 < length r)%nat ->
  procfs_doregs B K sbuf_ok true false stack id u = copy_all (regs_arm_text (r ++ drop (length r) stack)%list) u.
Proof.
  intros Ep Hz Hs Hw -> E Hr. unfold procfs_doregs, procfs_doregs_linux, user_process. rewrite Hw, Ep, Hz, Hs, E. cbn [orb Z.eqb andb].
  destruct (Z.ltb_spec 0 (Z.of_nat (length r))); [done|lia].
Qed.

(** ** Witnesses *)
Definition no_daemon : bridge := Bridge (fun _ _ _ _ _ => (ENOTCONN, [])).
#[export] Instance no_daemon_bytes : BridgeBytes no_daemon.
Proof. split. intros. constructor. Qed.

Definition lp_proc : proc := Proc 42 1 40 39 (Cred 501 501 20 20) "a) b" 0 0 false false.
Definition lp_kernel : kernel := table_kernel [lp_proc] 42.
Definition lp_id : pfsid := Pfsid 42 7 0.

(** A daemon that answers everything with zeros and the thread name "w". *)
Definition zero_daemon : bridge :=
  Bridge (fun _ _ _ _ cap => (0, take (Z.to_nat cap) (repeat 0 48 ++ [119] ++ repeat 0 63)%list)).
#[export] Instance zero_daemon_bytes : BridgeBytes zero_daemon.
Proof.
  split. intros. cbn [snd ctl_request zero_daemon]. apply Forall_take, List.Forall_forall. intros b Hb.
  rewrite !in_app_iff in Hb. destruct Hb as [Hb|[[<-|[]]|Hb]]; [apply repeat_spec in Hb; subst; unfold is_byte; lia|unfold is_byte; lia|].
  apply repeat_spec in Hb. subst. unfold is_byte. lia.
Qed.

Lemma process_texts_whole_witness :
  exists fuel c name, procfs_pctx_get zero_daemon lp_kernel (fun _ => 2) 16384 fuel lp_id = Some c
    /\ procfs_docomm zero_daemon lp_kernel (fun _ => 2) 16384 fuel lp_id (ubuf_read 0 100) = copy_all (pc_comm c ++ [10])%list (ubuf_read 0 100)
    /\ procfs_dothreadcomm zero_daemon lp_kernel lp_id (ubuf_read 0 100) = copy_all (name ++ [10])%list (ubuf_read 0 100).
Proof.
  exists (Z.to_nat (2 ^ 64)).
  destruct (process_texts_whole zero_daemon lp_kernel (fun _ => 2) 16384 (Z.to_nat (2 ^ 64)) lp_id (ubuf_read 0 100)) as (c & E & _ & H & _ & _ & _ & _ & Ht).
  - apply zero_daemon_bytes.
  - rewrite Z2Nat.id; lia.
  - lia.
  - unfold is_int; cbn; lia.
  - unfold is_u64; cbn; lia.
  - intros p Hp. cbn in Hp. injection Hp as <-. split; unfold is_int; cbn; lia.
  - destruct Ht as (name & _ & Hc & _); [apply list_elem_of_In; vm_compute; tauto|].
    exists c, name. split; [exact E|]. split; [exact H|exact Hc].
Defined.

Lemma thread_name_overread_witness :
  procfs_dothreadcomm (Bridge (fun _ _ _ _ cap => (0, repeat 65 (Z.to_nat cap)))) lp_kernel lp_id (ubuf_read 0 100) = None.
Proof.
  apply thread_name_overread; [discriminate|]. intros Hin. apply list_elem_of_In in Hin. vm_compute in Hin.
  repeat destruct Hin as [Hin|Hin]; try discriminate Hin. exact Hin.
Defined.

Definition lp_ctx : procfs_pctx := Pctx 42 1 40 39 3 409600 81920 (lit "a) b") 83.

Lemma stat_reads_back_witness :
  read_stat (procstat_text 4096 (TaskInfo 0 0 120000000 30000000 3 1) lp_ctx)
  = Some (stat_columns 83 1 40 39 12 3 20 3 409600 20 0).
Proof.
  refine (proj1 (proj2 (stat_reads_back 7 4096 (ThreadInfo 0 0 1 1 31 []) [] (TaskInfo 0 0 120000000 30000000 3 1) lp_ctx _ _ _ _ _))).
  - lia.
  - split; unfold is_int, is_u64; cbn; lia.
  - split; unfold is_int, is_u64; cbn; lia.
  - unfold is_u64; cbn; lia.
  - unfold is_u64; cbn; lia.
Defined.

Lemma auxv_roundtrip_witness :
  exists u', procfs_doauxv (args_bridge (region sample_args)) lp_kernel true 4096 (fun _ => true) false lp_id (ubuf_read 0 100) = Some (0, u')
    /\ uio_out u' = take 100 (drop 0 (strings (pa_apple sample_args))).
Proof.
  apply (auxv_roundtrip (args_bridge (region sample_args)) lp_kernel (fun _ => true) true 4096 lp_id lp_proc sample_args 0 100).
  - reflexivity.
  - reflexivity.
  - reflexivity.
  - intros off _. reflexivity.
  - reflexivity.
  - apply sample_args_ok.
  - vm_compute. intuition congruence.
  - lia.
Defined.

Lemma regs_short_reply_shows_stack_witness :
  procfs_doregs (Bridge (fun _ _ _ _ _ => (0, [1]))) lp_kernel true true false (repeat 77 272) lp_id (ubuf_read 0 4096)
  = copy_all (regs_arm_text (1 :: repeat 77 271)) (ubuf_read 0 4096).
Proof.
  exact (regs_short_reply_shows_stack (Bridge (fun _ _ _ _ _ => (0, [1]))) lp_kernel true lp_id lp_proc (ubuf_read 0 4096) [1] (repeat 77 272)
    eq_refl eq_refl eq_refl eq_refl eq_refl eq_refl (le_n 1)).
Defined.
