(* ===== verification/Qsort.v ===== *)
(** * Sorting and grouping

    What the daemon's listings share: [qsort] of the C library as an interface with
    its laws and an instance, the growable array of rows, and tables with one row per
    key.  [agg] is the reference for such a table: the row of a key is the result of
    going through the items of that key in order. *)
From S2P Require Import Prelude.
From Stdlib Require Import ZArith Lia Sorted.
From stdpp Require Import base list numbers sets sorting.
Open Scope Z_scope.

(** ** qsort *)
(** [qsort] with a comparison function: some permutation, sorted when the function is
    that of a total preorder.  The order of equal elements is not fixed. *)
Class Qsort := qsort : forall {A}, (A -> A -> Z) -> list A -> list A.
Class QsortLaws `{Qsort} : Prop := {
  qsort_perm {A} (cmp : A -> A -> Z) l : qsort cmp l ≡ₚ l;
  qsort_sorted_cmp {A} (cmp : A -> A -> Z) l :
    (forall x y, cmp x y <= 0 \/ cmp y x <= 0) -> (forall x y z, cmp x y <= 0 -> cmp y z <= 0 -> cmp x z <= 0) ->
    Sorted (fun x y => cmp x y <= 0) (qsort cmp l)
}.

Lemma sorted_mono {A} (R S : A -> A -> Prop) l : (forall x y, R x y -> S x y) -> Sorted R l -> Sorted S l.
Proof. intros HR. induction 1 as [|x l _ IH Hd]; constructor; [done|]. destruct Hd; constructor; auto. Qed.

(** A comparison by an integer key. *)
Lemma qsort_sorted `{Qsort, !QsortLaws} {A} (cmp : A -> A -> Z) (key : A -> Z) l :
  (forall x y, cmp x y <= 0 <-> key x <= key y) -> Sorted (fun x y => key x <= key y) (qsort cmp l).
Proof.
  intros Hk. apply (sorted_mono (fun x y => cmp x y <= 0)); [intros x y; apply Hk|].
  apply qsort_sorted_cmp; intros *; rewrite !Hk; lia.
Qed.

(** The comparison all the tables use. *)
Definition cmp_of (a b : Z) : Z := (if b <? a then 1 else 0) - (if a <? b then 1 else 0).

Lemma cmp_of_le a b : cmp_of a b <= 0 <-> a <= b.
Proof. unfold cmp_of. destruct (Z.ltb_spec b a), (Z.ltb_spec a b); lia. Qed.

#[export] Instance merge_qsort : Qsort := fun A cmp l => @merge_sort A (fun x y => cmp x y <= 0) (fun x y => Z_le_dec (cmp x y) 0) l.
#[export] Instance merge_qsort_laws : QsortLaws.
Proof.
  split.
  - intros A cmp l. apply merge_sort_Permutation.
  - intros A cmp l Ht _. apply Sorted_merge_sort. exact Ht.
Qed.

(** A sorted list whose keys are distinct is strictly sorted. *)
Lemma sorted_strict {A} (key : A -> Z) l : Sorted (fun x y => key x <= key y) l -> NoDup (key <$> l) -> StronglySorted (fun x y => key x < key y) l.
Proof.
  intros Hs. apply Sorted_StronglySorted in Hs; [|intros x y z; lia]. induction Hs as [|x l _ IH Hall]; intros Hn; [constructor|].
  cbn in Hn. apply NoDup_cons in Hn as [Hx Hn]. constructor; [by apply IH|]. rewrite Forall_forall in Hall |- *. intros y Hy.
  specialize (Hall y Hy). assert (key x <> key y); [|lia]. intros E. apply Hx. rewrite E. by apply list_elem_of_fmap_2.
Qed.

(** ** Rows by key *)
(** The row that satisfies [same] is updated in place. *)
Fixpoint update_row {R} (same : R -> bool) (f : R -> R) (rows : list R) : option (list R) :=
  match rows with
  | [] => None
  | r :: rs => if same r then Some (f r :: rs) else (cons r) <$> update_row same f rs
  end.

(** A new row at the end of an array of capacity [cap], which starts at [first] and
    doubles; [None]: realloc failed. *)
Definition grow {R} (realloc_ok : Z -> bool) (first : Z) (new : R) (rows : list R) (cap : Z) : option (list R * Z) :=
  if Z.of_nat (length rows) =? cap then
    let nc := if cap =? 0 then first else cap * 2 in
    if realloc_ok nc then Some ((rows ++ [new])%list, nc) else None
  else Some ((rows ++ [new])%list, cap).

Lemma update_row_ext {R} (same same' : R -> bool) (f f' : R -> R) rows :
  (forall r, same r = same' r) -> (forall r, f r = f' r) -> update_row same f rows = update_row same' f' rows.
Proof. intros Hs Hf. induction rows as [|r rs IH]; [done|]. cbn. by rewrite Hs, Hf, IH. Qed.

Section Group.
Context {D R K : Type} `{EqDecision K}.
Variables (dkey : D -> K) (rkey : R -> K) (init : D -> R) (upd : D -> R -> R).
Hypothesis Hinit : forall d, rkey (init d) = dkey d.
Hypothesis Hupd : forall d r, rkey (upd d r) = rkey r.

Definition agg_step (k : K) (o : option R) (d : D) : option R :=
  if decide (dkey d = k) then Some (match o with None => init d | Some r => upd d r end) else o.
Definition agg (k : K) (ds : list D) : option R := fold_left (agg_step k) ds None.

(** The table of the items so far. *)
Definition table_of (ds : list D) (rows : list R) : Prop :=
  NoDup (rkey <$> rows) /\ forall r, r ∈ rows <-> agg (rkey r) ds = Some r.

Lemma agg_snoc k ds d : agg k (ds ++ [d])%list = agg_step k (agg k ds) d.
Proof. unfold agg. by rewrite fold_left_app. Qed.

Lemma agg_key k ds r : agg k ds = Some r -> rkey r = k.
Proof.
  revert r. induction ds as [|d ds IH] using rev_ind; intros r; [done|]. rewrite agg_snoc. unfold agg_step.
  destruct (decide (dkey d = k)) as [<-|]; [|apply IH]. destruct (agg (dkey d) ds) as [r0|]; intros [= <-]; [rewrite Hupd; by apply IH|apply Hinit].
Qed.

Lemma agg_none k ds : agg k ds = None <-> forall d, d ∈ ds -> dkey d <> k.
Proof.
  induction ds as [|d ds IH] using rev_ind; [split; [intros _ d Hd; by apply elem_of_nil in Hd|done]|].
  rewrite agg_snoc. unfold agg_step. setoid_rewrite elem_of_app. setoid_rewrite list_elem_of_singleton.
  destruct (decide (dkey d = k)) as [E|E].
  - split; [done|]. intros H. exfalso. apply (H d); auto.
  - rewrite IH. split; [intros H x [Hx| ->]; auto|auto].
Qed.

(** The items of a key, in order. *)
Lemma agg_filter k ds :
  agg k ds = match filter (fun d => dkey d = k) ds with
             | [] => None
             | d :: l => Some (fold_left (fun r d => upd d r) l (init d))
             end.
Proof.
  induction ds as [|d ds IH] using rev_ind; [done|]. rewrite agg_snoc, IH, filter_app. unfold agg_step. rewrite filter_cons, filter_nil.
  destruct (decide (dkey d = k)); [|by rewrite app_nil_r].
  destruct (filter _ ds) as [|d0 l]; [done|]. cbn [app]. by rewrite fold_left_app.
Qed.

Lemma table_nil : table_of [] [].
Proof. split; [constructor|]. intros r. rewrite elem_of_nil. done. Qed.

Lemma update_row_some (k : K) f rows rows' : (forall r, rkey (f r) = rkey r) ->
  update_row (fun r => bool_decide (rkey r = k)) f rows = Some rows' ->
  exists a r b, rows = (a ++ r :: b)%list /\ rows' = (a ++ f r :: b)%list /\ rkey r = k.
Proof.
  intros Hf. revert rows'. induction rows as [|r rs IH]; intros rows' Hu; [done|]. cbn in Hu. case_bool_decide as E.
  - injection Hu as <-. by exists [], r, rs.
  - destruct (update_row _ f rs) as [rs'|] eqn:Er; [|done]. injection Hu as <-.
    destruct (IH rs' eq_refl) as (a & x & b & -> & -> & Hk). by exists (r :: a), x, b.
Qed.

Lemma update_row_none (k : K) f rows : update_row (fun r => bool_decide (rkey r = k)) f rows = None <-> k ∉ rkey <$> rows.
Proof.
  induction rows as [|r rs IH]; [split; [intros _ H; by apply elem_of_nil in H|done]|]. cbn. rewrite not_elem_of_cons. case_bool_decide as E.
  - split; [done|intros [Hk _]; by destruct Hk].
  - destruct (update_row _ f rs) as [rs'|]; split; [done|intros [_ H]; by apply IH in H|intros _; split; [by intros ->|by apply IH]|done].
Qed.

(** An item whose key has a row. *)
Lemma table_update ds d rows rows' : table_of ds rows ->
  update_row (fun r => bool_decide (rkey r = dkey d)) (upd d) rows = Some rows' -> table_of (ds ++ [d])%list rows'.
Proof.
  intros [Hn Ht] Hu. destruct (update_row_some _ _ _ _ (Hupd d) Hu) as (a & r0 & b & -> & -> & Hk).
  assert (E : rkey <$> (a ++ upd d r0 :: b)%list = rkey <$> (a ++ r0 :: b)%list) by (rewrite !fmap_app; cbn; by rewrite Hupd).
  assert (H0 : agg (dkey d) ds = Some r0) by (rewrite <- Hk; apply Ht; set_solver).
  split; [by rewrite E|]. intros r. rewrite agg_snoc. unfold agg_step. destruct (decide (dkey d = rkey r)) as [Er|Er].
  - rewrite <- Er, H0. split; [|intros [= <-]; set_solver].
    intros Hr. f_equal. symmetry. apply elem_of_app in Hr as [Hr|Hr]; [|apply elem_of_cons in Hr as [->|Hr]; [done|]].
    + exfalso. rewrite fmap_app in Hn. cbn in Hn. apply NoDup_app in Hn as (_ & Hd & _). apply (Hd (rkey r)); [by apply list_elem_of_fmap_2|].
      rewrite <- Er, Hk. by left.
    + exfalso. rewrite fmap_app in Hn. cbn in Hn. apply NoDup_app in Hn as (_ & _ & Hd). apply NoDup_cons in Hd as [Hd _]. apply Hd.
      rewrite Hk, Er. by apply list_elem_of_fmap_2.
  - rewrite <- Ht, !elem_of_app, !elem_of_cons. split; (intros [H|[->|H]]; [by left| |by right; right]).
    + by rewrite Hupd, Hk in Er.
    + by rewrite Hk in Er.
Qed.

(** An item with a new key. *)
Lemma table_new ds d rows : table_of ds rows ->
  update_row (fun r => bool_decide (rkey r = dkey d)) (upd d) rows = None -> table_of (ds ++ [d])%list (rows ++ [init d])%list.
Proof.
  intros [Hn Ht] Hu. apply update_row_none in Hu.
  assert (H0 : agg (dkey d) ds = None).
  { destruct (agg (dkey d) ds) as [r|] eqn:E; [|done]. pose proof (agg_key _ _ _ E) as Hk. rewrite <- Hk in E. apply Ht in E.
    exfalso. apply Hu. rewrite <- Hk. by apply list_elem_of_fmap_2. }
  split.
  - rewrite fmap_app. cbn. rewrite Hinit. apply NoDup_app. split_and!; [done| |apply NoDup_singleton].
    intros k Hk Hk'. apply list_elem_of_singleton in Hk' as ->. done.
  - intros r. rewrite agg_snoc, elem_of_app, list_elem_of_singleton. unfold agg_step. destruct (decide (dkey d = rkey r)) as [E|E].
    + rewrite <- E, H0. split; [|intros [= <-]; by right]. intros [Hr| ->]; [|done]. exfalso. apply Hu. rewrite E. by apply list_elem_of_fmap_2.
    + rewrite <- Ht. split; [intros [Hr| ->]; [done|]|by left]. by rewrite Hinit in E.
Qed.
End Group.

Lemma grow_some {R} first (new : R) rows cap : exists cap', grow (fun _ => true) first new rows cap = Some ((rows ++ [new])%list, cap').
Proof. unfold grow. destruct (_ =? _); by eexists. Qed.

(** ** The first smallest item *)
(** Keeping an item until a smaller one comes: the first smallest of the list. *)
Lemma keep_first_min {D A} (f : D -> A) (m : A -> Z) (ds : list D) d0 :
  exists pre d post, (d0 :: ds) = (pre ++ d :: post)%list
    /\ fold_left (fun best x => if m (f x) <? m best then f x else best) ds (f d0) = f d
    /\ (forall x, x ∈ pre -> m (f d) < m (f x)) /\ (forall x, x ∈ post -> m (f d) <= m (f x)).
Proof.
  induction ds as [|x ds IH] using rev_ind.
  - exists [], d0, []. split_and!; [done|done|set_solver|set_solver].
  - destruct IH as (pre & d & post & E & Ef & Hpre & Hpost). rewrite fold_left_app, Ef. cbn.
    rewrite app_comm_cons, E. destruct (Z.ltb_spec (m (f x)) (m (f d))).
    + exists (pre ++ d :: post)%list, x, []. split_and!; [by rewrite <- app_assoc|done| |set_solver].
      intros y [Hy|[->|Hy]%elem_of_cons]%elem_of_app; [specialize (Hpre y Hy)|..|specialize (Hpost y Hy)]; lia.
    + exists pre, d, (post ++ [x])%list. split_and!; [by rewrite <- app_assoc|done|done|].
      intros y [Hy|Hy%list_elem_of_singleton]%elem_of_app; [auto|subst; lia].
Qed.

(** The smallest and the largest value seen. *)
Lemma fold_min_spec {D} (f : D -> Z) ds v0 (m := fold_left (fun b x => Z.min b (f x)) ds v0) :
  m <= v0 /\ (forall x, x ∈ ds -> m <= f x) /\ (m = v0 \/ exists x, x ∈ ds /\ m = f x).
Proof.
  subst m. induction ds as [|x ds IH] using rev_ind; [split_and!; [done|set_solver|by left]|].
  rewrite fold_left_app. cbn. set (b := fold_left _ ds v0) in *. destruct IH as (H1 & H2 & H3). split_and!.
  - lia.
  - intros y [Hy|Hy%list_elem_of_singleton]%elem_of_app; [specialize (H2 y Hy)|subst]; lia.
  - destruct (Z.le_gt_cases b (f x)); [rewrite Z.min_l by lia; destruct H3 as [H3|(y & Hy & E)]; [by left|right; exists y; set_solver]|].
    right. exists x. rewrite Z.min_r by lia. set_solver.
Qed.

Lemma fold_max_spec {D} (f : D -> Z) ds v0 (m := fold_left (fun b x => Z.max b (f x)) ds v0) :
  v0 <= m /\ (forall x, x ∈ ds -> f x <= m) /\ (m = v0 \/ exists x, x ∈ ds /\ m = f x).
Proof.
  assert (E : m = - fold_left (fun b x => Z.min b (- f x)) ds (- v0)).
  { subst m. revert v0. induction ds as [|x ds IH]; intros v0; cbn; [lia|]. rewrite IH. do 2 f_equal. lia. }
  destruct (fold_min_spec (fun x => - f x) ds (- v0)) as (H1 & H2 & H3). rewrite E. split_and!.
  - lia.
  - intros x Hx. specialize (H2 x Hx). cbn in H2. lia.
  - destruct H3 as [->|(x & Hx & ->)]; [left; lia|right; exists x; split; [done|lia]].
Qed.

(** A place in the filtered list is a place in the list. *)
Lemma filter_split {A} (P : A -> Prop) `{forall x, Decision (P x)} l a x b : filter P l = (a ++ x :: b)%list ->
  exists a' b', l = (a' ++ x :: b')%list /\ filter P a' = a /\ filter P b' = b.
Proof.
  revert a. induction l as [|y l IH]; intros a E; [by destruct a|]. rewrite filter_cons in E. case_decide.
  - destruct a as [|z a]; cbn in E; injection E as E1 E; subst.
    + by exists [], l.
    + destruct (IH a E) as (a' & b' & -> & <- & <-). exists (z :: a'), b'. rewrite filter_cons_True by done. done.
  - destruct (IH a E) as (a' & b' & -> & <- & <-). exists (y :: a'), b'. rewrite filter_cons_False by done. done.
Qed.
