(* ===== verification/Macho.v ===== *)
(** * Kernel symbols (tools/procfsd.c)

    The daemon reads the symbol table of a kernel image: the lines of /proc/ksyms
    and /proc/kallsyms, and the sorted table that names a kernel text address for
    /proc/<pid>/wchan.  The image is a file of arbitrary bytes.  A read of bytes
    that are not bytes of the file is [None]; [macho_wf] is what the code takes for
    granted of the image's load commands and string table. *)
From S2P Require Import Prelude Kernel Text Subr Map Format Blobs Qsort.
From Stdlib Require Import ZArith Lia String Sorted.
From stdpp Require Import base list numbers strings sorting.
Open Scope Z_scope.

Definition MH_MAGIC_64 : Z := 4277009103.       (* 0xfeedfacf *)
Definition FAT_MAGIC : Z := 3405691582.         (* 0xcafebabe *)
Definition FAT_CIGAM : Z := 3199925962.         (* 0xbebafeca *)
Definition LC_SYMTAB : Z := 2.
Definition LC_SEGMENT_64 : Z := 25.
Definition N_STAB : Z := 224.
Definition N_TYPE : Z := 14.
Definition N_EXT : Z := 1.
Definition N_UNDF : Z := 0.
Definition N_ABS : Z := 2.
Definition N_INDR : Z := 10.
Definition N_PBUD : Z := 12.
Definition N_SECT : Z := 14.

(** ** Reading the file *)
Section File.
Variable F : bytes.

(** A C string at [off]: the bytes before the NUL. *)
Fixpoint c_string (l : bytes) : option bytes :=
  match l with
  | [] => None
  | c :: r => if c =? 0 then Some [] else (cons c) <$> c_string r
  end.
Definition cstr_at (off : Z) : option bytes := if 0 <=? off then c_string (drop (Z.to_nat off) F) else None.

(** [strncmp(p, s, 6) == 0] for the six characters [s]. *)
Definition has_prefix (off : Z) (s : string) : option bool :=
  if (0 <=? off) && (off + strlen s <=? Z.of_nat (length F))
  then Some (bool_decide (take (String.length s) (drop (Z.to_nat off) F) = lit s)) else None.
End File.

(** [strstr(a, b) != NULL]. *)
Fixpoint contains (b a : bytes) : bool :=
  bool_decide (take (length b) a = b) || match a with [] => false | _ :: r => contains b r end.

(** ** The load commands *)
Section Scan.
Context {A : Type}.
Variable F : bytes.
Variable b size : Z.                       (* the thin image is F[b, b + size) *)
Variable dflt : A.
Variable sect : Z -> option A.             (* what is kept of the section_64 at an offset *)

(** [k] section headers from [off]; [tab]: what is kept of the sections so far. *)
Fixpoint sect_pass (k : nat) (off : Z) (tab : list A) : option (list A) :=
  match k with
  | O => Some tab
  | S k' =>
      match (if (S (length tab) <? 256)%nat then sect off else Some dflt) with
      | None => None
      | Some t => sect_pass k' (off + 80) (tab ++ [t])%list
      end
  end.

(** [k] load commands from [p]; [st]: the last LC_SYMTAB seen. *)
Fixpoint lc_pass (k : nat) (p : Z) (tab : list A) (st : option Z) : option (list A * option Z) :=
  match k with
  | O => Some (tab, st)
  | S k' =>
      if size <? p + 8 then Some (tab, st)
      else
        cmd ← rd F (b + p) 4;
        cmdsize ← rd F (b + p + 4) 4;
        if (cmdsize <? 8) || (size <? p + cmdsize) then Some (tab, st)
        else if cmd =? LC_SYMTAB then lc_pass k' (p + cmdsize) tab (Some p)
        else if cmd =? LC_SEGMENT_64 then
          nsects ← rd F (b + p + 64) 4;
          tab ← sect_pass (Z.to_nat nsects) (b + p + 72) tab;
          lc_pass k' (p + cmdsize) tab st
        else lc_pass k' (p + cmdsize) tab st
  end.

(** The symbol and string tables: symoff, nsyms, stroff and strsize. *)
Definition symtab_of (st : option Z) : option (option (Z * Z * Z * Z)) :=
  match st with
  | None => Some None
  | Some p =>
      nsyms ← rd F (b + p + 12) 4;
      if nsyms =? 0 then Some None
      else
        symoff ← rd F (b + p + 8) 4;
        if size <? symoff + nsyms * 16 then Some None
        else
          stroff ← rd F (b + p + 16) 4;
          strsize ← rd F (b + p + 20) 4;
          if size <? stroff + strsize then Some None else Some (Some (symoff, nsyms, stroff, strsize))
  end.

(** The header check, the first pass and the table. *)
Definition macho_scan (cputype : Z) : option (list A * option (Z * Z * Z * Z)) :=
  if size <? 32 then Some ([], None)
  else
    magic ← rd F b 4;
    cpu ← rd F (b + 4) 4;
    if negb (magic =? MH_MAGIC_64) || negb (cpu =? cputype) then Some ([], None)
    else
      ncmds ← rd F (b + 16) 4;
      '(tab, st) ← lc_pass (Z.to_nat ncmds) 32 [] None;
      t ← symtab_of st;
      Some (tab, t).
End Scan.

(** ** The lines of /proc/ksyms *)
Section Symbols.
Variable F : bytes.
Variable b size : Z.
Variable cputype : Z.                      (* PROCFS_NATIVE_CPUTYPE *)

Definition toupper (c : Z) : Z := if (97 <=? c) && (c <=? 122) then c - 32 else c.

(** The nm letter of a section: sectname at [off], segname at [off + 16]. *)
Definition section_letter (off : Z) : option Z :=
  data ← has_prefix F (off + 16) "__DATA";
  if (data : bool) then
    nm ← cstr_at F off;
    Some (if contains (lit "bss") nm || contains (lit "common") nm then 98 else 100)
  else Some 116.

(** An array of 256 entries, from 1, whose unset entries hold [dflt]. *)
Definition by_section {A} (dflt : A) (tab : list A) (n_sect : Z) : A :=
  if n_sect =? 0 then dflt else default dflt (tab !! Z.to_nat (n_sect - 1)).

(** One nlist_64; [Some None]: it is not listed. *)
Definition emit_sym (tab : list Z) (symoff stroff strsize i : Z) : option (option ksym) :=
  let o := b + symoff + 16 * i in
  n_type ← rd F (o + 4) 1;
  if negb (Z.land n_type N_STAB =? 0) then Some None
  else
    strx ← rd F o 4;
    if (strx =? 0) || (strsize <=? strx) then Some None
    else
      c0 ← rd F (b + stroff + strx) 1;
      if c0 =? 0 then Some None
      else
        let ntype := Z.land n_type N_TYPE in
        if (ntype =? N_UNDF) || (ntype =? N_PBUD) then Some None
        else
          n_sect ← rd F (o + 5) 1;
          let type := if ntype =? N_ABS then 97 else if ntype =? N_INDR then 105
                      else if ntype =? N_SECT then by_section 116 tab n_sect else 63 in
          let type := if negb (Z.land n_type N_EXT =? 0) then toupper type else type in
          n_value ← rd F (o + 8) 8;
          name ← cstr_at F (b + stroff + strx);
          Some (Some (Ksym n_value type name)).

(** [k] symbols from [i]. *)
Fixpoint emit_loop (k : nat) (tab : list Z) (symoff stroff strsize i : Z) : option (list ksym) :=
  match k with
  | O => Some []
  | S k' =>
      s ← emit_sym tab symoff stroff strsize i;
      r ← emit_loop k' tab symoff stroff strsize (i + 1);
      Some (match s with Some s => s :: r | None => r end)
  end.

Definition ksyms_emit_macho : option (list ksym) :=
  '(tab, t) ← macho_scan F b size 116 section_letter cputype;
  match t with
  | None => Some []
  | Some (symoff, nsyms, stroff, strsize) => emit_loop (Z.to_nat nsyms) tab symoff stroff strsize 0
  end.

(** ** The table for wchan *)
Record ksym_ent := KsymEnt { ke_val : Z; ke_name : bytes }.

Definition section_is_text (off : Z) : option bool := has_prefix F (off + 16) "__TEXT".

Definition collect_sym (tab : list bool) (symoff stroff strsize i : Z) : option (option ksym_ent) :=
  let o := b + symoff + 16 * i in
  n_type ← rd F (o + 4) 1;
  if negb (Z.land n_type N_STAB =? 0) || negb (Z.land n_type N_TYPE =? N_SECT) then Some None
  else
    n_sect ← rd F (o + 5) 1;
    if negb (by_section false tab n_sect) then Some None
    else
      strx ← rd F o 4;
      if (strx =? 0) || (strsize <=? strx) then Some None
      else
        c0 ← rd F (b + stroff + strx) 1;
        if c0 =? 0 then Some None
        else
          n_value ← rd F (o + 8) 8;
          name ← cstr_at F (b + stroff + strx);
          Some (Some (KsymEnt n_value (take 95 name))).

(** The growable array: [realloc_ok] of the new capacity. *)
Fixpoint collect_loop (realloc_ok : Z -> bool) (k : nat) (tab : list bool) (symoff stroff strsize i : Z) (acc : list ksym_ent) (cap : Z)
  : option (list ksym_ent) :=
  match k with
  | O => Some acc
  | S k' =>
      s ← collect_sym tab symoff stroff strsize i;
      match s with
      | None => collect_loop realloc_ok k' tab symoff stroff strsize (i + 1) acc cap
      | Some e =>
          let nc := if Z.of_nat (length acc) =? cap then (if cap =? 0 then 4096 else cap * 2) else cap in
          if negb (Z.of_nat (length acc) =? cap) || realloc_ok nc
          then collect_loop realloc_ok k' tab symoff stroff strsize (i + 1) (acc ++ [e])%list nc
          else Some acc
      end
  end.

Definition ksym_collect_macho (realloc_ok : Z -> bool) : option (list ksym_ent) :=
  '(tab, t) ← macho_scan F b size false section_is_text cputype;
  match t with
  | None => Some []
  | Some (symoff, nsyms, stroff, strsize) => collect_loop realloc_ok (Z.to_nat nsyms) tab symoff stroff strsize 0 [] 0
  end.
End Symbols.

(** ** A file: thin, or one slice of a universal image *)
Definition be32 (v : Z) : Z := le_val (rev (le_bytes 4 v)).

(** The slice of the running architecture, [k] entries from [i]: its offset and
    size; [Some None]: there is none. *)
Fixpoint fat_slice (F : bytes) (cputype : Z) (k : nat) (i : Z) : option (option (Z * Z)) :=
  match k with
  | O => Some None
  | S k' =>
      ct ← rd F (8 + 20 * i) 4;
      if be32 ct =? cputype then
        off ← rd F (8 + 20 * i + 8) 4;
        sz ← rd F (8 + 20 * i + 12) 4;
        Some (if be32 off + be32 sz <=? Z.of_nat (length F) then Some (be32 off, be32 sz) else None)
      else fat_slice F cputype k' (i + 1)
  end.

(** The thin image to parse. *)
Definition image_slice (F : bytes) (cputype : Z) : option (option (Z * Z)) :=
  magic ← rd F 0 4;
  if (magic =? FAT_MAGIC) || (magic =? FAT_CIGAM) then
    nf ← rd F 4 4;
    fat_slice F cputype (Z.to_nat (be32 nf)) 0
  else if magic =? MH_MAGIC_64 then Some (Some (0, Z.of_nat (length F)))
  else Some None.

(** [file]: the image, if it could be opened, is not empty and could be mapped. *)
Definition ksyms_emit_kernel (cputype : Z) (file : option bytes) : option (list ksym) :=
  match file with
  | None => Some []
  | Some F =>
      s ← image_slice F cputype;
      match s with None => Some [] | Some (b, size) => ksyms_emit_macho F b size cputype end
  end.

(** The blobs; [None] inside: the node is empty.  [mem_ok]: the memory stream could
    be opened. *)
Definition blob_of (text : bytes) : option bytes := match text with [] => None | _ => Some text end.
Definition build_ksyms_blob (cputype : Z) (mem_ok : bool) (file : option bytes) : option (option bytes) :=
  if mem_ok then ks ← ksyms_emit_kernel cputype file; Some (blob_of (symtab_text ks)) else Some None.
Definition build_kallsyms_blob (cputype : Z) (mem_ok : bool) (file : option bytes) (extra : list bytes) : option (option bytes) :=
  if mem_ok then ks ← ksyms_emit_kernel cputype file; Some (blob_of (symtab_text (ks ++ map (Ksym 0 116) extra))) else Some None.

(** ** The sorted table and its search *)
Definition ksym_ent_cmp (x y : ksym_ent) : Z := cmp_of (ke_val x) (ke_val y).

Section Table.
Context `{Qsort}.
Variable realloc_ok : Z -> bool.
Variable cputype : Z.

(** [g_ksym_tab]: built once from the image, if it has a symbol. *)
Definition ksym_table_build (file : option bytes) (g_ksym_tab : option (list ksym_ent)) : option (option (list ksym_ent)) :=
  match g_ksym_tab with
  | Some _ => Some g_ksym_tab
  | None =>
      match file with
      | None => Some None
      | Some F =>
          s ← image_slice F cputype;
          tab ← match s with None => Some [] | Some (b, size) => ksym_collect_macho F b size cputype realloc_ok end;
          Some (match tab with [] => None | _ => Some (qsort ksym_ent_cmp tab) end)
      end
  end.

(** The half-open interval; one more round than its length is enough. *)
Fixpoint bsearch (fuel : nat) (tab : list ksym_ent) (addr lo hi : Z) : option Z :=
  match fuel with
  | O => None
  | S f =>
      if lo <? hi then
        let mid := lo + (hi - lo) / 2 in
        match tab !! Z.to_nat mid with
        | None => None
        | Some e => if ke_val e <=? addr then bsearch f tab addr (mid + 1) hi else bsearch f tab addr lo mid
        end
      else Some lo
  end.

(** The name, empty if none; [cap]: the size of the caller's buffer. *)
Definition ksym_lookup (tab : list ksym_ent) (addr cap : Z) : option bytes :=
  match tab with
  | [] => Some []
  | _ =>
      match bsearch (S (length tab)) tab addr 0 (Z.of_nat (length tab)) with
      | None => None
      | Some lo =>
          if lo =? 0 then Some []
          else match tab !! Z.to_nat (lo - 1) with
               | None => None
               | Some e => Some (if 1048576 <? u64 (addr - ke_val e) then [] else take (Z.to_nat (cap - 1)) (ke_name e))
               end
      end
  end.

Definition ksym_addr_of (tab : list ksym_ent) (name : bytes) : Z :=
  match List.find (fun e => bool_decide (ke_name e = name)) tab with Some e => ke_val e | None => 0 end.
End Table.

(** ** The search *)
Definition by_val : ksym_ent -> ksym_ent -> Prop := fun x y => ke_val x <= ke_val y.

#[export] Instance by_val_trans : Transitive by_val.
Proof. unfold by_val. intros x y z. lia. Qed.

Lemma ksym_ent_cmp_le x y : ksym_ent_cmp x y <= 0 <-> ke_val x <= ke_val y.
Proof. apply cmp_of_le. Qed.

(** The reference: the last entry that is not above the address. *)
Definition below (addr : Z) (tab : list ksym_ent) : list ksym_ent := List.filter (fun e => ke_val e <=? addr) tab.

Lemma below_prefix addr tab : Sorted by_val tab -> below addr tab = take (length (below addr tab)) tab.
Proof.
  intros Hs. apply Sorted_StronglySorted in Hs; [|apply by_val_trans]. unfold below. induction Hs as [|e tab _ IH Hall]; [done|]. cbn [List.filter].
  destruct (Z.leb_spec (ke_val e) addr) as [Hle|Hgt]; [cbn [length take]; by rewrite <- IH|].
  assert (E : List.filter (fun e => ke_val e <=? addr) tab = []).
  { clear - Hall Hgt. induction Hall as [|x l Hx _ IH]; [done|]. cbn. unfold by_val in Hx. destruct (Z.leb_spec (ke_val x) addr); [lia|done]. }
  by rewrite E.
Qed.

Lemma below_split addr tab i e : Sorted by_val tab -> tab !! i = Some e ->
  (ke_val e <= addr <-> (i < length (below addr tab))%nat).
Proof.
  intros Hs Hi. apply Sorted_StronglySorted in Hs; [|apply by_val_trans]. unfold below. revert i Hi.
  induction Hs as [|x tab _ IH Hall]; intros i Hi; [done|]. cbn [List.filter].
  destruct (Z.leb_spec (ke_val x) addr) as [Hle|Hgt].
  - destruct i as [|i]; cbn in Hi |- *; [injection Hi as <-; split; [lia|done]|]. rewrite (IH i Hi). lia.
  - assert (Hx : addr < ke_val e).
    { destruct i as [|i]; cbn in Hi; [by injection Hi as <-|]. apply list_elem_of_lookup_2 in Hi. rewrite Forall_forall in Hall.
      specialize (Hall e Hi). unfold by_val in Hall. lia. }
    assert (E : List.filter (fun e => ke_val e <=? addr) tab = []).
    { clear - Hall Hgt. induction Hall as [|y l Hy _ IH]; [done|]. cbn. unfold by_val in Hy. destruct (Z.leb_spec (ke_val y) addr); [lia|done]. }
    rewrite E. cbn. lia.
Qed.

Lemma bsearch_finds fuel tab addr lo hi : Sorted by_val tab ->
  0 <= lo <= Z.of_nat (length (below addr tab)) -> Z.of_nat (length (below addr tab)) <= hi <= Z.of_nat (length tab) ->
  hi - lo < Z.of_nat fuel -> bsearch fuel tab addr lo hi = Some (Z.of_nat (length (below addr tab))).
Proof.
  intros Hs. revert lo hi. induction fuel as [|f IH]; intros lo hi Hlo Hhi Hf; [lia|]. cbn [bsearch].
  destruct (Z.ltb_spec lo hi) as [Hlt|]; [|f_equal; lia].
  assert (Hm : lo <= lo + (hi - lo) / 2 < hi) by (pose proof (Z.div_lt (hi - lo) 2); pose proof (Z.div_pos (hi - lo) 2); lia).
  set (mid := lo + (hi - lo) / 2) in *. destruct (lookup_lt_is_Some_2 tab (Z.to_nat mid)) as [e E]; [lia|]. rewrite E.
  pose proof (below_split addr tab (Z.to_nat mid) e Hs E) as Hb. destruct (Z.leb_spec (ke_val e) addr) as [Hle|Hgt]; apply IH; try lia.
Qed.

Lemma last_take {A} (l : list A) n : (0 < n <= length l)%nat -> last (take n l) = l !! (n - 1)%nat.
Proof.
  intros Hn. rewrite last_lookup, length_take, lookup_take_lt by lia. f_equal. lia.
Qed.

Lemma ksym_lookup_nearest tab addr cap : Sorted by_val tab ->
  ksym_lookup tab addr cap = Some (match last (below addr tab) with
                                   | Some e => if 1048576 <? u64 (addr - ke_val e) then [] else take (Z.to_nat (cap - 1)) (ke_name e)
                                   | None => [] end).
Proof.
  intros Hs. assert (Hl : (length (below addr tab) <= length tab)%nat) by (rewrite (below_prefix addr tab Hs), length_take; lia).
  unfold ksym_lookup. destruct tab as [|x tab]; [done|]. rewrite (bsearch_finds _ (x :: tab) addr 0) by (try done; lia).
  rewrite (below_prefix addr _ Hs) at 3. destruct (Z.eqb_spec (Z.of_nat (length (below addr (x :: tab)))) 0) as [E|E].
  - by rewrite (Nat2Z.inj _ 0 E).
  - rewrite last_take by lia. replace (Z.to_nat (Z.of_nat (length (below addr (x :: tab))) - 1)) with (length (below addr (x :: tab)) - 1)%nat by lia.
    destruct (lookup_lt_is_Some_2 (x :: tab) (length (below addr (x :: tab)) - 1)) as [e ->]; [lia|done].
Qed.

(** ** What the parser takes for granted *)
Section WellFormed.
Variable F : bytes.
Variable b size : Z.

(** The section headers' names end inside the file. *)
Definition sects_ok (off n : Z) : Prop := forall s, 0 <= s < n -> is_Some (cstr_at F (off + 80 * s)).

(** The string table that the symtab_command at [p] announces, if it is inside the
    image, ends in a NUL. *)
Definition strings_ok (p : Z) : Prop :=
  forall stroff strsize, rd F (b + p + 16) 4 = Some stroff -> rd F (b + p + 20) 4 = Some strsize ->
    0 < strsize -> stroff + strsize <= size -> rd F (b + stroff + strsize - 1) 1 = Some 0.

(** A command holds the structure it is read as, with its section headers. *)
Definition command_ok (p cmd cmdsize : Z) : Prop :=
  (cmd = LC_SYMTAB -> 24 <= cmdsize /\ strings_ok p)
  /\ (cmd = LC_SEGMENT_64 -> 72 <= cmdsize
      /\ forall n, rd F (b + p + 64) 4 = Some n -> 72 + 80 * n <= cmdsize /\ sects_ok (b + p + 72) n).

(** The commands the first pass visits. *)
Fixpoint lc_wf (k : nat) (p : Z) : Prop :=
  match k with
  | O => True
  | S k' =>
      p + 8 <= size -> forall cmd cmdsize, rd F (b + p) 4 = Some cmd -> rd F (b + p + 4) 4 = Some cmdsize ->
      8 <= cmdsize -> p + cmdsize <= size -> command_ok p cmd cmdsize /\ lc_wf k' (p + cmdsize)
  end.

Record macho_wf : Prop := {
  mw_slice : 0 <= b /\ 0 <= size /\ b + size <= Z.of_nat (length F);
  mw_bytes : Forall (fun c => 0 <= c < 256) F;
  mw_commands : forall n, rd F (b + 16) 4 = Some n -> lc_wf (Z.to_nat n) 32
}.
End WellFormed.

Lemma c_string_ends (l : list Z) i : l !! i = Some 0 -> is_Some (c_string l).
Proof.
  revert i. induction l as [|c l IH]; intros i Hi; [done|]. cbn. destruct (Z.eqb_spec c 0); [by eexists|].
  destruct i as [|i]; [by injection Hi|]. destruct (IH i Hi) as [s ->]. by eexists.
Qed.

Lemma cstr_before (F : list Z) off e : 0 <= off <= e -> rd F e 1 = Some 0 -> is_Some (cstr_at F off).
Proof.
  intros Ho He. apply rd_byte in He. unfold cstr_at. destruct (Z.leb_spec 0 off); [|lia].
  apply (c_string_ends _ (Z.to_nat e - Z.to_nat off)). rewrite lookup_drop. rewrite <- He. f_equal. lia.
Qed.

Lemma has_prefix_in F off s : 0 <= off -> off + strlen s <= Z.of_nat (length F) -> is_Some (has_prefix F off s).
Proof.
  intros H1 H2. unfold has_prefix. destruct (Z.leb_spec 0 off); [|lia]. destruct (Z.leb_spec (off + strlen s) (Z.of_nat (length F))); [|lia]. by eexists.
Qed.

Lemma section_letter_in F off : 0 <= off -> off + 80 <= Z.of_nat (length F) -> is_Some (cstr_at F off) -> is_Some (section_letter F off).
Proof.
  intros H1 H2 [nm Hn]. unfold section_letter. destruct (has_prefix_in F (off + 16) "__DATA") as [d ->]; [lia|change (strlen "__DATA") with 6; lia|].
  cbn [mbind option_bind]. destruct d; [rewrite Hn|]; by eexists.
Qed.

Lemma section_is_text_in F off : 0 <= off -> off + 80 <= Z.of_nat (length F) -> is_Some (section_is_text F off).
Proof. intros H1 H2. apply has_prefix_in; [lia|change (strlen "__TEXT") with 6; lia]. Qed.

(** ** The passes of a well-formed image stay inside it *)
Section Passes.
Context {A : Type}.
Variable F : bytes.
Variable b size : Z.
Variable dflt : A.
Variable sect : Z -> option A.
Hypothesis Hwf : macho_wf F b size.
Hypothesis Hsect : forall off, 0 <= off -> off + 80 <= Z.of_nat (length F) -> is_Some (cstr_at F off) -> is_Some (sect off).

Lemma sect_pass_in k off tab : 0 <= off -> off + 80 * Z.of_nat k <= Z.of_nat (length F) -> sects_ok F off (Z.of_nat k) ->
  is_Some (sect_pass dflt sect k off tab).
Proof.
  revert off tab. induction k as [|k IH]; intros off tab H0 Hl Hs; [by eexists|]. cbn [sect_pass].
  assert (Ht : is_Some (if (S (length tab) <? 256)%nat then sect off else Some dflt)).
  { destruct (_ <? 256)%nat; [|by eexists]. apply Hsect; [done|lia|]. specialize (Hs 0 ltac:(lia)). by rewrite Z.mul_0_r, Z.add_0_r in Hs. }
  destruct Ht as [t ->]. apply IH; [lia|lia|]. intros s Hr. specialize (Hs (s + 1) ltac:(lia)). by replace (off + 80 + 80 * s) with (off + 80 * (s + 1)) by lia.
Qed.

Lemma lc_pass_in k p tab st : 32 <= p -> lc_wf F b size k p -> (forall q, st = Some q -> 32 <= q /\ q + 24 <= size /\ strings_ok F b size q) ->
  exists tab' st', lc_pass F b size dflt sect k p tab st = Some (tab', st') /\ forall q, st' = Some q -> 32 <= q /\ q + 24 <= size /\ strings_ok F b size q.
Proof.
  destruct (mw_slice _ _ _ Hwf) as (Hb & Hsz & Hin). revert p tab st. induction k as [|k IH]; intros p tab st Hp Hw Hst; [by eexists _, _|].
  cbn [lc_pass]. destruct (Z.ltb_spec size (p + 8)); [by eexists _, _|].
  destruct (rd_in F (b + p) 4) as [cmd Ec]; [lia|lia|]. destruct (rd_in F (b + p + 4) 4) as [sz Es]; [lia|lia|]. rewrite Ec, Es. cbn [mbind option_bind].
  destruct (Z.ltb_spec sz 8); [by eexists _, _|]. destruct (Z.ltb_spec size (p + sz)); [by eexists _, _|]. cbn [orb].
  destruct (Hw ltac:(lia) cmd sz Ec Es ltac:(lia) ltac:(lia)) as ((C1 & C2) & Hw').
  destruct (Z.eqb_spec cmd LC_SYMTAB) as [E|_]; [apply IH; [lia|done|]; intros q [= <-]; destruct (C1 E); split_and!; [lia..|done]|].
  destruct (Z.eqb_spec cmd LC_SEGMENT_64) as [E|_]; [|by apply IH; [lia|..]].
  destruct (C2 E) as [C3 C4]. destruct (rd_in F (b + p + 64) 4) as [n En]; [lia|lia|]. rewrite En. cbn [mbind option_bind].
  destruct (C4 n En) as [C5 C6]. pose proof (rd_nonneg _ _ _ _ (mw_bytes _ _ _ Hwf) En).
  destruct (sect_pass_in (Z.to_nat n) (b + p + 72) tab) as [tab' ->]; [lia|lia|by rewrite Z2Nat.id|]. cbn [mbind option_bind].
  apply IH; [lia|done|done].
Qed.

(** What the scan delivers: tables inside the image, whose names end. *)
Lemma macho_scan_in cputype : exists tab t, macho_scan F b size dflt sect cputype = Some (tab, t)
  /\ forall symoff nsyms stroff strsize, t = Some (symoff, nsyms, stroff, strsize) ->
     0 <= symoff /\ 0 <= nsyms /\ b + symoff + 16 * nsyms <= Z.of_nat (length F) /\ 0 <= stroff
     /\ forall strx, 0 <= strx < strsize -> is_Some (cstr_at F (b + stroff + strx)) /\ is_Some (rd F (b + stroff + strx) 1).
Proof.
  destruct (mw_slice _ _ _ Hwf) as (Hb & Hsz & Hin). pose proof (mw_bytes _ _ _ Hwf) as HB. unfold macho_scan.
  destruct (Z.ltb_spec size 32); [by eexists _, None|]. destruct (rd_in F b 4) as [m Em]; [lia|lia|]. destruct (rd_in F (b + 4) 4) as [c Ec]; [lia|lia|].
  rewrite Em, Ec. cbn [mbind option_bind]. destruct (_ || _); [by eexists _, None|].
  destruct (rd_in F (b + 16) 4) as [n En]; [lia|lia|]. rewrite En. cbn [mbind option_bind].
  destruct (lc_pass_in (Z.to_nat n) 32 [] None ltac:(lia) (mw_commands _ _ _ Hwf n En) ltac:(done)) as (tab & st & -> & Hst). cbn [mbind option_bind].
  unfold symtab_of. destruct st as [p|]; [|by eexists _, None]. destruct (Hst p eq_refl) as (Hp1 & Hp2 & Hstrs).
  destruct (rd_in F (b + p + 12) 4) as [nsyms E1]; [lia|lia|]. destruct (rd_in F (b + p + 8) 4) as [symoff E2]; [lia|lia|].
  destruct (rd_in F (b + p + 16) 4) as [stroff E3]; [lia|lia|]. destruct (rd_in F (b + p + 20) 4) as [strsize E4]; [lia|lia|].
  rewrite E1, E2, E3, E4. cbn [mbind option_bind].
  pose proof (rd_nonneg _ _ _ _ HB E1). pose proof (rd_nonneg _ _ _ _ HB E2). pose proof (rd_nonneg _ _ _ _ HB E3).
  destruct (nsyms =? 0); [by eexists _, None|]. destruct (Z.ltb_spec size (symoff + nsyms * 16)); [by eexists _, None|].
  destruct (Z.ltb_spec size (stroff + strsize)); [by eexists _, None|]. eexists _, _. split; [reflexivity|]. intros ? ? ? ? [= <- <- <- <-].
  split_and!; [lia..|]. intros strx Hx. pose proof (Hstrs stroff strsize E3 E4 ltac:(lia) ltac:(lia)) as He. split.
  - apply (cstr_before F _ (b + stroff + strsize - 1)); [lia|done].
  - destruct (rd_in F (b + stroff + strx) 1) as [v ->]; [lia|lia|by eexists].
Qed.
End Passes.

Section Loops.
Variable F : bytes.
Variable b symoff nsyms stroff strsize : Z.
Hypothesis HB : Forall (fun c => 0 <= c < 256) F.
Hypothesis Hb : 0 <= b /\ 0 <= symoff /\ b + symoff + 16 * nsyms <= Z.of_nat (length F).
Hypothesis Hstr : forall strx, 0 <= strx < strsize -> is_Some (cstr_at F (b + stroff + strx)) /\ is_Some (rd F (b + stroff + strx) 1).

Lemma emit_sym_in tab i : 0 <= i < nsyms -> is_Some (emit_sym F b tab symoff stroff strsize i).
Proof.
  intros Hi. unfold emit_sym. set (o := b + symoff + 16 * i). destruct (rd_in F (o + 4) 1) as [ty ->]; [unfold o; lia|unfold o; lia|]. cbn [mbind option_bind].
  destruct (negb _); [by eexists|]. destruct (rd_in F o 4) as [strx Ex]; [unfold o; lia|unfold o; lia|]. rewrite Ex. cbn [mbind option_bind].
  pose proof (rd_nonneg _ _ _ _ HB Ex). destruct (Z.eqb_spec strx 0); [by eexists|]. destruct (Z.leb_spec strsize strx); [by eexists|]. cbn [orb].
  destruct (Hstr strx ltac:(lia)) as [[nm Hn] [c0 ->]]. cbn [mbind option_bind]. destruct (c0 =? 0); [by eexists|]. destruct (_ || _); [by eexists|].
  destruct (rd_in F (o + 5) 1) as [ns ->]; [unfold o; lia|unfold o; lia|]. cbn [mbind option_bind].
  destruct (rd_in F (o + 8) 8) as [v ->]; [unfold o; lia|unfold o; lia|]. cbn [mbind option_bind]. rewrite Hn. by eexists.
Qed.

Lemma emit_loop_in k tab i : 0 <= i -> i + Z.of_nat k <= nsyms -> is_Some (emit_loop F b k tab symoff stroff strsize i).
Proof.
  revert i. induction k as [|k IH]; intros i H0 Hk; [by eexists|]. cbn [emit_loop].
  destruct (emit_sym_in tab i ltac:(lia)) as [s ->]. destruct (IH (i + 1) ltac:(lia) ltac:(lia)) as [r ->]. by eexists.
Qed.

Lemma collect_sym_in tab i : 0 <= i < nsyms -> is_Some (collect_sym F b tab symoff stroff strsize i).
Proof.
  intros Hi. unfold collect_sym. set (o := b + symoff + 16 * i). destruct (rd_in F (o + 4) 1) as [ty ->]; [unfold o; lia|unfold o; lia|]. cbn [mbind option_bind].
  destruct (_ || _); [by eexists|]. destruct (rd_in F (o + 5) 1) as [ns ->]; [unfold o; lia|unfold o; lia|]. cbn [mbind option_bind].
  destruct (negb _); [by eexists|]. destruct (rd_in F o 4) as [strx Ex]; [unfold o; lia|unfold o; lia|]. rewrite Ex. cbn [mbind option_bind].
  pose proof (rd_nonneg _ _ _ _ HB Ex). destruct (Z.eqb_spec strx 0); [by eexists|]. destruct (Z.leb_spec strsize strx); [by eexists|]. cbn [orb].
  destruct (Hstr strx ltac:(lia)) as [[nm Hn] [c0 ->]]. cbn [mbind option_bind]. destruct (c0 =? 0); [by eexists|].
  destruct (rd_in F (o + 8) 8) as [v ->]; [unfold o; lia|unfold o; lia|]. cbn [mbind option_bind]. rewrite Hn. by eexists.
Qed.

Lemma collect_loop_in rok k tab i acc cap : 0 <= i -> i + Z.of_nat k <= nsyms ->
  is_Some (collect_loop F b rok k tab symoff stroff strsize i acc cap).
Proof.
  revert i acc cap. induction k as [|k IH]; intros i acc cap H0 Hk; [by eexists|]. cbn [collect_loop].
  destruct (collect_sym_in tab i ltac:(lia)) as [[e|] ->]; cbn [mbind option_bind]; [|apply IH; lia].
  cbv zeta. destruct (_ || _); [apply IH; lia|by eexists].
Qed.
End Loops.

(** ** Theorems *)
(** C16. The Mach-O parsers stay inside the file: for an image whose commands hold
    the structures they announce and whose string table ends in a NUL, neither the
    listing of /proc/ksyms nor the table of wchan reads a byte that is not the
    file's, whatever else the image contains; both return. *)
Theorem macho_reads_in_bounds F b size cputype realloc_ok : macho_wf F b size ->
  is_Some (ksyms_emit_macho F b size cputype) /\ is_Some (ksym_collect_macho F b size cputype realloc_ok).
Proof.
  intros Hwf. destruct (mw_slice _ _ _ Hwf) as (Hb & _). pose proof (mw_bytes _ _ _ Hwf) as HB. split.
  - unfold ksyms_emit_macho. destruct (macho_scan_in F b size 116 (section_letter F) Hwf (section_letter_in F) cputype) as (tab & t & -> & Ht).
    cbn [mbind option_bind]. destruct t as [[[[symoff nsyms] stroff] strsize]|]; [|by eexists].
    destruct (Ht _ _ _ _ eq_refl) as (H1 & H2 & H3 & _ & H5). by apply (emit_loop_in F b symoff nsyms stroff strsize); [..|lia].
  - unfold ksym_collect_macho.
    destruct (macho_scan_in F b size false (section_is_text F) Hwf (fun off H1 H2 _ => section_is_text_in F off H1 H2) cputype) as (tab & t & -> & Ht).
    cbn [mbind option_bind]. destruct t as [[[[symoff nsyms] stroff] strsize]|]; [|by eexists].
    destruct (Ht _ _ _ _ eq_refl) as (H1 & H2 & H3 & _ & H5). by apply (collect_loop_in F b symoff nsyms stroff strsize); [..|lia].
Qed.

(** C17. The binary search names the right symbol: on a sorted table it ends, stays
    inside the table, and gives the name of the last symbol at or below the address,
    or nothing when there is none or it is more than 1 MiB below: the same answer as
    reading the whole table. *)
Theorem ksym_lookup_correct `{Qsort, !QsortLaws} tab addr cap :
  ksym_lookup (qsort ksym_ent_cmp tab) addr cap
  = Some (match last (below addr (qsort ksym_ent_cmp tab)) with
          | Some e => if 1048576 <? u64 (addr - ke_val e) then [] else take (Z.to_nat (cap - 1)) (ke_name e)
          | None => [] end)
  /\ below addr (qsort ksym_ent_cmp tab) ≡ₚ below addr tab.
Proof.
  split.
  - apply ksym_lookup_nearest, (qsort_sorted ksym_ent_cmp ke_val), ksym_ent_cmp_le.
  - unfold below. pose proof (qsort_perm ksym_ent_cmp tab) as Hp. induction Hp as [|x l l' Hp IH|x y l|l l' l'' H1 IH1 H2 IH2]; cbn [List.filter].
    + done.
    + by destruct (_ <=? _); [apply Permutation_skip|].
    + destruct (ke_val y <=? addr), (ke_val x <=? addr); try reflexivity. apply Permutation_swap.
    + by etransitivity.
Qed.

(** Without that the parser reads on: a 40-byte image whose only command is an
    LC_SYMTAB of 8 bytes passes the checks, and the table's fields are read past
    the end of the file. *)
Definition short_symtab : bytes :=
  (le_bytes 4 MH_MAGIC_64 ++ le_bytes 4 16777228 ++ repeat 0 8 ++ le_bytes 4 1 ++ repeat 0 12 ++ le_bytes 4 LC_SYMTAB ++ le_bytes 4 8)%list.

Theorem short_symtab_overread : length short_symtab = 40%nat /\ ksyms_emit_macho short_symtab 0 40 16777228 = None
  /\ ksym_collect_macho short_symtab 0 40 16777228 (fun _ => true) = None.
Proof. vm_compute. done. Qed.

(** The same for a segment that announces more sections than it has. *)
Definition many_sections : bytes :=
  (le_bytes 4 MH_MAGIC_64 ++ le_bytes 4 16777228 ++ repeat 0 8 ++ le_bytes 4 1 ++ repeat 0 12
   ++ le_bytes 4 LC_SEGMENT_64 ++ le_bytes 4 72 ++ repeat 0 56 ++ le_bytes 4 3 ++ repeat 0 4)%list.

Theorem many_sections_overread : length many_sections = 104%nat /\ ksyms_emit_macho many_sections 0 104 16777228 = None.
Proof. vm_compute. done. Qed.

(** ** Witnesses *)
Definition pad16 (s : string) : bytes := (lit s ++ repeat 0 (16 - String.length s))%list.

(** One __TEXT section, three symbols and their names. *)
Definition sample_strings : bytes := ([0] ++ lit "_start" ++ [0] ++ lit "_proc_pid" ++ [0] ++ lit "_wait" ++ [0])%list.
Definition nlist (strx n_type n_sect value : Z) : bytes := (le_bytes 4 strx ++ [n_type; n_sect] ++ le_bytes 2 0 ++ le_bytes 8 value)%list.
Definition sample_image : bytes :=
  (le_bytes 4 MH_MAGIC_64 ++ le_bytes 4 16777228 ++ repeat 0 8 ++ le_bytes 4 2 ++ repeat 0 12
   ++ le_bytes 4 LC_SEGMENT_64 ++ le_bytes 4 152 ++ repeat 0 56 ++ le_bytes 4 1 ++ repeat 0 4
   ++ pad16 "__text" ++ pad16 "__TEXT" ++ repeat 0 48
   ++ le_bytes 4 LC_SYMTAB ++ le_bytes 4 24 ++ le_bytes 4 208 ++ le_bytes 4 3 ++ le_bytes 4 256 ++ le_bytes 4 24
   ++ nlist 1 15 1 4096 ++ nlist 18 14 1 8192 ++ nlist 8 15 1 6144 ++ sample_strings)%list.

Lemma sample_image_wf : macho_wf sample_image 0 280.
Proof.
  split.
  - vm_compute. intuition congruence.
  - apply List.Forall_forall. intros c Hc. vm_compute in Hc. repeat (destruct Hc as [<-|Hc]; [lia|]). done.
  - intros n En. vm_compute in En. injection En as <-. cbn [Z.to_nat Pos.to_nat Pos.iter_op Init.Nat.add lc_wf].
    intros _ cmd sz E1 E2 _ _. vm_compute in E1, E2. injection E1 as <-. injection E2 as <-. split.
    { split; [done|]. intros _. split; [done|]. intros n En. vm_compute in En. injection En as <-. split; [done|]. intros s Hs.
      assert (s = 0) as -> by lia. vm_compute. by eexists. }
    intros _ cmd sz E1 E2 _ _. vm_compute in E1, E2. injection E1 as <-. injection E2 as <-. split; [|done].
    split; [|done]. intros _. split; [done|]. intros so ss E1 E2 _ _. vm_compute in E1, E2. injection E1 as <-. injection E2 as <-. by vm_compute.
Qed.

Lemma macho_reads_in_bounds_witness :
  is_Some (ksyms_emit_macho sample_image 0 280 16777228)
  /\ (symtab_text <$> ksyms_emit_macho sample_image 0 280 16777228)
     = Some (line "0000000000001000 T _start" ++ line "0000000000002000 t _wait" ++ line "0000000000001800 T _proc_pid")%list.
Proof.
  split; [|vm_compute; reflexivity].
  exact (proj1 (macho_reads_in_bounds sample_image 0 280 16777228 (fun _ => true) sample_image_wf)).
Defined.

Lemma ksym_lookup_correct_witness :
  ksym_lookup (qsort ksym_ent_cmp [KsymEnt 4096 (lit "_start"); KsymEnt 8192 (lit "_wait"); KsymEnt 6144 (lit "_proc_pid")]) 6200 128
  = Some (lit "_proc_pid").
Proof.
  exact (proj1 (ksym_lookup_correct [KsymEnt 4096 (lit "_start"); KsymEnt 8192 (lit "_wait"); KsymEnt 6144 (lit "_proc_pid")] 6200 128)).
Defined.
