(* ===== verification/KernelImage.v ===== *)
(** * The kernel image on disk (tools/procfsd.c)

    The search for the image whose symbols describe the running kernel: the SoC from
    kern.version, a Kernel Debug Kit of the running build, and the images the system
    ships.  The sysctls, the directory and stat are parameters. *)
From S2P Require Import Prelude Kernel Text.
From Stdlib Require Import ZArith Lia String Ascii.
From stdpp Require Import base list numbers strings.
Open Scope Z_scope.

Definition PATH_MAX : Z := 1024.

Definition is_alnum (c : ascii) : bool := is_digit c || ((65 <=? chr c) && (chr c <=? 90)) || ((97 <=? chr c) && (chr c <=? 122)).
Definition tolower (c : ascii) : ascii := if (65 <=? chr c) && (chr c <=? 90) then char_of (chr c + 32) else c.

(** At most [n] letters and digits, in lower case. *)
Fixpoint soc_scan (n : nat) (m : string) : string :=
  match n, m with
  | S n', String c m' => if is_alnum c then String (tolower c) (soc_scan n' m') else EmptyString
  | _, _ => EmptyString
  end.

Fixpoint str_drop (n : nat) (s : string) : string :=
  match n, s with
  | S n', String _ s' => str_drop n' s'
  | _, _ => s
  end.

(** [ver]: kern.version, if it could be read; the name is empty when there is none. *)
Definition soc_of (ver : option string) : string :=
  match ver with
  | Some v => match String.index 0 "ARM64_" v with Some i => soc_scan 31 (str_drop (i + 6) v) | None => EmptyString end
  | None => EmptyString
  end.

Definition plain_kernel : string := "/System/Library/Kernels/kernel".
Definition release_kernel (soc : string) : string := "/System/Library/Kernels/kernel.release." +:+ soc.
Definition kdk_kernel (dir soc : string) : string :=
  "/Library/Developer/KDKs/" +:+ dir +:+ "/System/Library/Kernels/kernel.release." +:+ soc
  +:+ ".dSYM/Contents/Resources/DWARF/kernel.release." +:+ soc.

Section Search.
Variable stat_ok : string -> bool.                 (* stat(path) == 0 *)

Definition ksyms_kernel_path (ver : option string) (outsz : Z) : string :=
  let soc := soc_of ver in
  let out := strlcpy (release_kernel soc) outsz in
  if negb (String.eqb soc EmptyString) && stat_ok out then out else strlcpy plain_kernel outsz.

(** The first directory entry of the build whose image exists. *)
Fixpoint kdk_scan (build soc : string) (cap : Z) (dirs : list string) : string :=
  match dirs with
  | [] => EmptyString
  | d :: r =>
      match String.index 0 build d with
      | None => kdk_scan build soc cap r
      | Some _ =>
          let p := strlcpy (kdk_kernel d soc) PATH_MAX in
          if stat_ok p then strlcpy p cap else kdk_scan build soc cap r
      end
  end.

(** [build]: kern.osversion, empty when it could not be read; [dirs]: the entries of
    the directory of the kits, if it could be opened. *)
Definition ksyms_wchan_source_path (ver : option string) (build : string) (dirs : option (list string)) (cap : Z) : string :=
  let soc := soc_of ver in
  let out := if negb (String.eqb soc EmptyString) && negb (String.eqb build EmptyString)
             then match dirs with Some l => kdk_scan build soc cap l | None => EmptyString end
             else EmptyString in
  if String.eqb out EmptyString then ksyms_kernel_path ver cap else out.
End Search.

(** ** Lemmas *)
Lemma soc_scan_chars n : forall m c, c ∈ String.list_ascii_of_string (soc_scan n m) -> is_alnum c = true /\ tolower c = c.
Proof.
  induction n as [|n IH]; intros [|a m] c; cbn; try by rewrite elem_of_nil.
  destruct (is_alnum a) eqn:Ea; cbn; [|by rewrite elem_of_nil]. rewrite elem_of_cons. intros [->|Hc]; [|by eapply IH].
  clear IH. revert Ea. destruct a as [[] [] [] [] [] [] [] []]; vm_compute; intuition congruence.
Qed.

Lemma strlcpy_idem s cap : strlcpy (strlcpy s cap) cap = strlcpy s cap.
Proof. unfold strlcpy. apply str_take_all, str_take_length. Qed.

Lemma kdk_scan_spec stat_ok build soc dirs :
  (kdk_scan stat_ok build soc PATH_MAX dirs = EmptyString
     /\ forall d, d ∈ dirs -> String.index 0 build d <> None -> stat_ok (strlcpy (kdk_kernel d soc) PATH_MAX) = false)
  \/ exists l1 d l2, dirs = (l1 ++ d :: l2)%list /\ String.index 0 build d <> None
     /\ kdk_scan stat_ok build soc PATH_MAX dirs = strlcpy (kdk_kernel d soc) PATH_MAX /\ stat_ok (strlcpy (kdk_kernel d soc) PATH_MAX) = true
     /\ forall d', d' ∈ l1 -> String.index 0 build d' <> None -> stat_ok (strlcpy (kdk_kernel d' soc) PATH_MAX) = false.
Proof.
  induction dirs as [|d dirs IH]; [left; split; [done|]; intros d Hd; by apply elem_of_nil in Hd|]. cbn [kdk_scan].
  assert (Hskip : (String.index 0 build d <> None -> stat_ok (strlcpy (kdk_kernel d soc) PATH_MAX) = false) ->
    forall l, (forall d', d' ∈ l -> String.index 0 build d' <> None -> stat_ok (strlcpy (kdk_kernel d' soc) PATH_MAX) = false) ->
    forall d', d' ∈ d :: l -> String.index 0 build d' <> None -> stat_ok (strlcpy (kdk_kernel d' soc) PATH_MAX) = false).
  { intros H1 l H2 d' [->|H3]%elem_of_cons; [done|by apply H2]. }
  assert (Hrest : (String.index 0 build d <> None -> stat_ok (strlcpy (kdk_kernel d soc) PATH_MAX) = false) -> 
    (kdk_scan stat_ok build soc PATH_MAX dirs = EmptyString
     /\ forall d', d' ∈ d :: dirs -> String.index 0 build d' <> None -> stat_ok (strlcpy (kdk_kernel d' soc) PATH_MAX) = false)
    \/ exists l1 d0 l2, d :: dirs = (l1 ++ d0 :: l2)%list /\ String.index 0 build d0 <> None
     /\ kdk_scan stat_ok build soc PATH_MAX dirs = strlcpy (kdk_kernel d0 soc) PATH_MAX /\ stat_ok (strlcpy (kdk_kernel d0 soc) PATH_MAX) = true
     /\ forall d', d' ∈ l1 -> String.index 0 build d' <> None -> stat_ok (strlcpy (kdk_kernel d' soc) PATH_MAX) = false).
  { intros Hd. destruct IH as [[E Hn]|(l1 & d0 & l2 & -> & Hi & E & Hs & Hn)]; [left; split; [done|by apply Hskip]|].
    right. exists (d :: l1), d0, l2. repeat split; try done. by apply Hskip. }
  destruct (String.index 0 build d) eqn:Ei; [|by apply Hrest].
  destruct (stat_ok (strlcpy (kdk_kernel d soc) PATH_MAX)) eqn:Es; [|by apply Hrest].
  right. exists [], d, dirs. rewrite strlcpy_idem, Ei. repeat split; try done. intros d' Hd'. by apply elem_of_nil in Hd'.
Qed.

(** The symbols come from the right image: the name of the SoC is in lower case; the
    path that is chosen is the image of the first kit of the running build that has one
    for this SoC, or, when no kit has one, the system's image for this SoC if it exists
    and the plain kernel if not. *)
Theorem wchan_source_choice stat_ok ver build dirs (soc := soc_of ver) (p := ksyms_wchan_source_path stat_ok ver build (Some dirs) PATH_MAX) :
  Forall (fun c => is_alnum c = true /\ tolower c = c) (String.list_ascii_of_string soc)
  /\ (soc <> EmptyString -> build <> EmptyString ->
      (exists l1 d l2, dirs = (l1 ++ d :: l2)%list /\ String.index 0 build d <> None /\ p = strlcpy (kdk_kernel d soc) PATH_MAX /\ stat_ok p = true
        /\ forall d', d' ∈ l1 -> String.index 0 build d' <> None -> stat_ok (strlcpy (kdk_kernel d' soc) PATH_MAX) = false)
      \/ ((forall d, d ∈ dirs -> String.index 0 build d <> None -> stat_ok (strlcpy (kdk_kernel d soc) PATH_MAX) = false)
          /\ p = if stat_ok (release_kernel soc) then release_kernel soc else plain_kernel))
  /\ (soc = EmptyString -> p = plain_kernel).
Proof.
  assert (Hsoc : (String.length soc <= 31)%nat).
  { unfold soc, soc_of. destruct ver as [v|]; [|cbn; lia]. destruct (String.index 0 "ARM64_" v); [|cbn; lia].
    generalize (str_drop (n + 6) v). generalize 31%nat. induction n0 as [|k IH]; intros [|c s]; cbn; try lia.
    destruct (is_alnum c); cbn; [|lia]. specialize (IH s). lia. }
  assert (Hr : strlcpy (release_kernel soc) PATH_MAX = release_kernel soc).
  { apply strlcpy_fits. unfold strlen, release_kernel, PATH_MAX. rewrite str_app_length. cbn [String.length]. lia. }
  split; [|split].
  - apply Forall_forall. intros c. unfold soc, soc_of. destruct ver as [v|]; [|cbn; by rewrite elem_of_nil].
    destruct (String.index 0 "ARM64_" v); [|cbn; by rewrite elem_of_nil]. apply soc_scan_chars.
  - intros Hs Hb. subst p. unfold ksyms_wchan_source_path. fold soc.
    destruct (String.eqb_spec soc EmptyString); [done|]. destruct (String.eqb_spec build EmptyString); [done|]. cbn [negb andb].
    destruct (kdk_scan_spec stat_ok build soc dirs) as [[E Hn]|(l1 & d & l2 & -> & Hi & E & Hst & Hn)].
    + right. split; [done|]. rewrite E. cbn [String.eqb]. unfold ksyms_kernel_path. fold soc. rewrite Hr.
      destruct (String.eqb_spec soc EmptyString); [done|]. cbn [negb andb]. by destruct (stat_ok (release_kernel soc)).
    + left. exists l1, d, l2. rewrite E. destruct (String.eqb_spec (strlcpy (kdk_kernel d soc) PATH_MAX) EmptyString) as [E0|]; [|by repeat split].
      by unfold strlcpy, PATH_MAX in E0.
  - intros Hs. subst p. unfold ksyms_wchan_source_path, ksyms_kernel_path. fold soc. rewrite Hs. done.
Qed.

Definition sample_version : string := "Darwin Kernel Version 25.5.0: root:xnu-12377/RELEASE_ARM64_T8103".
Definition sample_stat (p : string) : bool := String.eqb p (kdk_kernel "KDK_26.5_25F84.kdk" "t8103").

Example source_of_sample :
  ksyms_wchan_source_path sample_stat (Some sample_version) "25F84" (Some ["."; "KDK_26.4_25E77.kdk"; "KDK_26.5_25F84.kdk"]%string) PATH_MAX
  = kdk_kernel "KDK_26.5_25F84.kdk" "t8103".
Proof. vm_compute. reflexivity. Qed.
