(* ===== verification/Wchan.v ===== *)
(** * wchan and stack (kext/procfs_kern.c, kext/procfs_linux.c and the symbol
    requests of tools/procfsd.c)

    /proc/<pid>/wchan names the kernel function a process waits in.  The
    extension finds the offset of the continuation field in the opaque thread
    structure with a probe thread, reads the continuation of the process's threads,
    undoes the kernel's slide with the help of a reference symbol, and asks the
    daemon for the name.  [strip] is ptrauth_strip. *)
From S2P Require Import Prelude Kernel PfsTypes Text Subr Map Format Blobs LinuxProc Macho.
From Stdlib Require Import ZArith Lia String Sorted.
From stdpp Require Import base list numbers strings.
Open Scope Z_scope.

(** ** The probe *)
Definition PROCFS_WCHAN_SCAN_MAX : Z := 2048.
Definition PROCFS_WCHAN_TRIES : Z := 100000.

(** [g_wchan_init] and [g_continuation_off]. *)
Record wchan_probe := Probe { g_wchan_init : Z; g_continuation_off : Z }.
Definition probe_init : wchan_probe := Probe 0 (-1).

Section Probe.
Variable strip : Z -> Z.

(** The scan of one look at the helper's structure, word by word from [off]. *)
Fixpoint scan_words (target off : Z) (ws : list Z) : option Z :=
  match ws with
  | [] => None
  | v :: r =>
      if off + 8 <=? PROCFS_WCHAN_SCAN_MAX then
        if negb (v =? 0) && (strip v =? target) then Some off else scan_words target (off + 8) r
      else None
  end.

(** The tries: [look i] is what the helper's structure shows the i-th time, none
    while its pointer does not look like one. *)
Fixpoint probe_tries (tries : nat) (target : Z) (look : Z -> option (list Z)) (i : Z) : option Z :=
  match tries with
  | O => None
  | S n =>
      match look i with
      | Some ws => match scan_words target 0 ws with Some off => Some off | None => probe_tries n target look (i + 1) end
      | None => probe_tries n target look (i + 1)
      end
  end.

(** [started]: whether the helper thread could be started. *)
Definition procfs_wchan_discover (started : bool) (probe_cont : Z) (look : Z -> option (list Z)) (g : wchan_probe) : wchan_probe :=
  if negb (g_continuation_off g =? -1) then g
  else if negb (g_wchan_init g =? 0) then g
  else if negb started then Probe 1 (-2)
  else match probe_tries (Z.to_nat PROCFS_WCHAN_TRIES) (strip probe_cont) look 0 with
       | Some off => Probe 1 off
       | None => Probe 1 (-2)
       end.

(** The first thread that has a continuation; [mem]: the kernel's words. *)
Fixpoint first_continuation (mem : Z -> Z) (physmap_ok : Z -> bool) (off : Z) (th : list Z) : Z :=
  match th with
  | [] => 0
  | base :: r =>
      let addr := u64 (base + off) in
      if negb (physmap_ok base) || negb (physmap_ok addr) then first_continuation mem physmap_ok off r
      else if negb (mem addr =? 0) then strip (mem addr)
      else first_continuation mem physmap_ok off r
  end.

Definition PROCFS_WCHAN_MAX_THREADS : Z := 64.

(** The result, [*runtime] and the probe; [th]: the process's thread pointers. *)
Definition procfs_thread_continuation (started : bool) (probe_cont : Z) (look : Z -> option (list Z)) (mem : Z -> Z) (ptr_ok : Z -> bool)
  (g : wchan_probe) (th : list Z) : Z * Z * wchan_probe :=
  let g := procfs_wchan_discover started probe_cont look g in
  if g_continuation_off g <? 0 then (ENOTSUP, 0, g)
  else (0, first_continuation mem ptr_ok (g_continuation_off g) (take (Z.to_nat PROCFS_WCHAN_MAX_THREADS) th), g).
End Probe.

(** ** The slide *)
Record wchan_slide := Slide { g_wchan_slide : Z; g_wchan_slide_known : bool }.

(** [rt]: the stripped run-time address of proc_pid. *)
Definition procfs_wchan_init_slide (B : bridge) (rt : Z) (g : wchan_slide) : wchan_slide :=
  if g_wchan_slide_known g then g
  else
    let '(e, r) := ctl_request B PROCFS_REQ_KSYM_REF 0 0 EmptyString 8 in
    let ref := le_val r in
    if (e =? 0) && (Z.of_nat (length r) =? 8) && negb (ref =? 0) then Slide (i64 (u64 (rt - ref))) true else g.

(** The bare name: without the leading underscore. *)
Definition c_name (sym : bytes) : bytes := match sym with 95 :: r => r | _ => sym end.

(** The name and the new state; an empty name is the result 0. *)
Definition procfs_wchan_resolve (B : bridge) (rt runtime cap : Z) (g : wchan_slide) : bytes * wchan_slide :=
  let g := procfs_wchan_init_slide B rt g in
  if (runtime =? 0) || negb (g_wchan_slide_known g) then ([], g)
  else
    let img := u64 (runtime - u64 (g_wchan_slide g)) in
    let '(e, r) := ctl_request B PROCFS_REQ_KSYM_LOOKUP 0 img EmptyString 127 in
    if negb (e =? 0) || (Z.of_nat (length r) =? 0) then ([], g)
    else (take (Z.to_nat (cap - 1)) (c_name (c_str (take 127 r))), g).

(** What the kernel shows the extension: ptrauth_strip, the helper thread and its
    structure, the words of the kernel's memory and which addresses may be read,
    and the thread pointers of a process. *)
Record kthreads := Kthreads {
  kt_strip : Z -> Z; kt_started : bool; kt_probe_cont : Z; kt_look : Z -> option (list Z);
  kt_mem : Z -> Z; kt_ptr_ok : Z -> bool; kt_threads : proc -> list Z
}.

(** The globals of the two files. *)
Record wchan_state := Wstate { ws_probe : wchan_probe; ws_slide : wchan_slide }.

Section Nodes.
Context {U : Type} `{Uio U}.
Variable B : bridge.
Variable K : kernel.
Variable rt : Z.
Variable T : kthreads.

Definition continuation_of (p : proc) (w : wchan_probe) : Z * Z * wchan_probe :=
  procfs_thread_continuation (kt_strip T) (kt_started T) (kt_probe_cont T) (kt_look T) (kt_mem T) (kt_ptr_ok T) w (kt_threads T p).

Definition resolve_proc (id : pfsid) (g : wchan_state) : bytes * wchan_state :=
  match proc_find K (nodeid_pid id) with
  | Some p =>
      let '(_, runtime, w) := continuation_of p (ws_probe g) in
      let '(sym, sl) := procfs_wchan_resolve B rt runtime 128 (ws_slide g) in
      (sym, Wstate w sl)
  | None => ([], g)
  end.

Definition procfs_dowchan (id : pfsid) (u : U) (g : wchan_state) : option (Z * U) * wchan_state :=
  let '(sym, g) := resolve_proc id g in
  (copy_all (match sym with [] => lit "0" | _ => take 127 sym end) u, g).

Definition procfs_dostack (id : pfsid) (u : U) (g : wchan_state) : option (Z * U) * wchan_state :=
  let '(sym, g) := resolve_proc id g in
  (match sym with
   | [] => copy_all [] u
   | _ => snprintf_copy 160 (lit "[<0>] " ++ sym ++ line "+0x0/0x0")%list u
   end, g).
End Nodes.

(** ** The daemon's side *)
Definition PROC_PID_SYMBOL : bytes := lit "_proc_pid".

Definition handle_ksym_lookup (tab : list ksym_ent) (arg : Z) : option (Z * bytes) := (fun nm => (0, take 2048 nm)) <$> ksym_lookup tab arg 128.
Definition handle_ksym_ref (tab : list ksym_ent) : Z * bytes := (0, le_bytes 8 (ksym_addr_of tab PROC_PID_SYMBOL)).

(** A bridge to a daemon with that table. *)
Definition serves_symbols (B : bridge) (tab : list ksym_ent) : Prop :=
  ctl_request B PROCFS_REQ_KSYM_REF 0 0 EmptyString 8 = handle_ksym_ref tab
  /\ forall arg, 0 <= arg < 2 ^ 64 -> exists e nm, handle_ksym_lookup tab arg = Some (e, nm)
       /\ ctl_request B PROCFS_REQ_KSYM_LOOKUP 0 arg EmptyString 127 = (e, take 127 nm).

(** ** Invariants *)
(** The probe is in one of its three states, and an offset it found holds the
    probe's continuation. *)
Definition probe_ok (strip : Z -> Z) (probe_cont : Z) (look : Z -> option (list Z)) (g : wchan_probe) : Prop :=
  g = probe_init \/ g = Probe 1 (-2)
  \/ exists i ws v off, look i = Some ws /\ g = Probe 1 off /\ 0 <= off /\ off + 8 <= PROCFS_WCHAN_SCAN_MAX
       /\ off = 8 * (off / 8) /\ ws !! Z.to_nat (off / 8) = Some v /\ v <> 0 /\ strip v = strip probe_cont.

(** The slide, once known, is the distance of the reference symbol. *)
Definition slide_ok (rt ref : Z) (g : wchan_slide) : Prop := g_wchan_slide_known g = true -> g_wchan_slide g = i64 (u64 (rt - ref)).

Lemma scan_words_found strip target ws off r : 0 <= off -> off = 8 * (off / 8) -> scan_words strip target off ws = Some r ->
  exists i v, r = off + 8 * Z.of_nat i /\ r + 8 <= PROCFS_WCHAN_SCAN_MAX /\ ws !! i = Some v /\ v <> 0 /\ strip v = target.
Proof.
  revert off. induction ws as [|v ws IH]; intros off H0 Ha; [done|]. cbn [scan_words].
  destruct (Z.leb_spec (off + 8) PROCFS_WCHAN_SCAN_MAX); [|done]. destruct (Z.eqb_spec v 0) as [|Hv]; cbn [negb andb];
    [|destruct (Z.eqb_spec (strip v) target) as [Ht|]].
  - intros E. destruct (IH (off + 8) ltac:(lia) ltac:(rewrite Ha at 1; Z.to_euclidean_division_equations; lia) E) as (i & w & Hr & Hm & Hi & Hw & Hs).
    exists (S i), w. split_and!; [lia|done..].
  - intros [= <-]. exists 0%nat, v. split_and!; [lia|done..].
  - intros E. destruct (IH (off + 8) ltac:(lia) ltac:(rewrite Ha at 1; Z.to_euclidean_division_equations; lia) E) as (i & w & Hr & Hm & Hi & Hw & Hs).
    exists (S i), w. split_and!; [lia|done..].
Qed.

Lemma probe_tries_found strip n target look i r : probe_tries strip n target look i = Some r ->
  exists j ws, look j = Some ws /\ scan_words strip target 0 ws = Some r.
Proof.
  revert i. induction n as [|n IH]; intros i; [done|]. cbn [probe_tries]. destruct (look i) as [ws|] eqn:El; [|apply IH].
  destruct (scan_words strip target 0 ws) as [off|] eqn:Es; [|apply IH]. intros [= <-]. by exists i, ws.
Qed.

(** ** Undoing the slide *)
Lemma i64_u64 v : u64 (i64 v) = u64 v.
Proof.
  unfold u64, i64, wrap_u, wrap_s. change (2 ^ (64 - 1)) with (2 ^ 63). rewrite Zminus_mod_idemp_l. f_equal. lia.
Qed.

Lemma unslide addr s ref : 0 <= addr < 2 ^ 64 ->
  u64 (u64 (addr + s) - u64 (i64 (u64 (u64 (ref + s) - ref)))) = addr.
Proof.
  intros Ha. rewrite i64_u64. unfold u64, wrap_u. set (M := 2 ^ 64) in *. rewrite Zmod_mod, Zminus_mod_idemp_r.
  replace ((addr + s) mod M - ((ref + s) mod M - ref)) with ((addr + s) mod M + ref - (ref + s) mod M) by lia.
  rewrite Zminus_mod_idemp_r. replace ((addr + s) mod M + ref - (ref + s)) with ((addr + s) mod M - s) by lia.
  rewrite Zminus_mod_idemp_l. replace (addr + s - s) with addr by lia. by apply Z.mod_small.
Qed.

Lemma init_slide_known B tab rt g : serves_symbols B tab -> 0 < ksym_addr_of tab PROC_PID_SYMBOL < 2 ^ 64 ->
  slide_ok rt (ksym_addr_of tab PROC_PID_SYMBOL) g ->
  procfs_wchan_init_slide B rt g = Slide (i64 (u64 (rt - ksym_addr_of tab PROC_PID_SYMBOL))) true.
Proof.
  intros [Hr _] Hp Hg. unfold procfs_wchan_init_slide, slide_ok in *. destruct g as [sl [|]]; cbn [g_wchan_slide_known g_wchan_slide] in *; [by rewrite Hg|].
  rewrite Hr. unfold handle_ksym_ref. rewrite le_bytes_length, le_val_bytes_small by (change (256 ^ Z.of_nat 8) with (2 ^ 64); lia). cbn [Z.eqb andb].
  change (Z.of_nat 8 =? 8) with true. destruct (Z.eqb_spec (ksym_addr_of tab PROC_PID_SYMBOL) 0); [lia|done].
Qed.

Lemma c_str_id s : Forall (fun c => c <> 0) s -> c_str s = s.
Proof. induction 1 as [|c s Hc _ IH]; [done|]. cbn. destruct (Z.eqb_spec c 0); [done|]. by rewrite IH. Qed.

(** A name of the table: not empty, without NUL, at most 95 characters. *)
Definition name_ok (nm : bytes) : Prop := Forall (fun c => c <> 0) nm /\ (length nm <= 95)%nat /\ c_name nm <> [].

Lemma c_name_length nm : (length (c_name nm) <= length nm)%nat.
Proof. destruct nm as [|c r]; [done|]. unfold c_name. destruct (Z.eq_dec c 95) as [->|]; [cbn; lia|]. repeat (case_match; try done; cbn; try lia). Qed.

Lemma resolve_names B tab rt s addr e g : Sorted by_val tab -> serves_symbols B tab ->
  0 < ksym_addr_of tab PROC_PID_SYMBOL < 2 ^ 64 -> rt = u64 (ksym_addr_of tab PROC_PID_SYMBOL + s) ->
  slide_ok rt (ksym_addr_of tab PROC_PID_SYMBOL) g -> 0 <= addr < 2 ^ 64 -> u64 (addr + s) <> 0 ->
  last (below addr tab) = Some e -> ke_val e <= addr <= ke_val e + 1048576 -> 0 <= ke_val e -> name_ok (ke_name e) ->
  procfs_wchan_resolve B rt (u64 (addr + s)) 128 g = (c_name (ke_name e), Slide (i64 (u64 (rt - ksym_addr_of tab PROC_PID_SYMBOL))) true).
Proof.
  intros Hs HB Hp Hrt Hg Ha Hrun Hl Hd Hv (Hn1 & Hn2 & Hn3). unfold procfs_wchan_resolve. rewrite (init_slide_known B tab rt g HB Hp Hg).
  cbn [g_wchan_slide_known g_wchan_slide negb]. destruct (Z.eqb_spec (u64 (addr + s)) 0); [done|]. cbn [orb].
  rewrite Hrt at 1. rewrite unslide by done. destruct HB as [_ HB]. destruct (HB addr Ha) as (er & nm & Hh & ->).
  unfold handle_ksym_lookup in Hh. rewrite ksym_lookup_nearest, Hl in Hh by done. rewrite u64_small in Hh by lia.
  destruct (Z.ltb_spec 1048576 (addr - ke_val e)); [lia|]. cbn [fmap option_fmap option_map] in Hh.
  change (Z.to_nat (128 - 1)) with 127%nat in Hh. rewrite (take_ge (ke_name e) 127), (take_ge (ke_name e) 2048) in Hh by lia. injection Hh as <- <-.
  rewrite (take_ge (ke_name e) 127) by lia. cbn [Z.eqb negb orb].
  assert (Hne : ke_name e <> []) by (intros E; rewrite E in Hn3; done).
  destruct (Z.eqb_spec (Z.of_nat (length (ke_name e))) 0) as [E0|]; [destruct (ke_name e); [done|cbn in E0; lia]|].
  rewrite (take_ge (ke_name e) 127), c_str_id by (done || lia). change (Z.to_nat (128 - 1)) with 127%nat.
  pose proof (c_name_length (ke_name e)). by rewrite take_ge by lia.
Qed.

(** ** Theorems *)
(** A thread without a continuation is passed over. *)
Definition no_continuation (T : kthreads) (off base : Z) : Prop :=
  kt_ptr_ok T base = false \/ kt_ptr_ok T (u64 (base + off)) = false \/ kt_mem T (u64 (base + off)) = 0.

Lemma first_continuation_at T off pre base post : Forall (no_continuation T off) pre ->
  kt_ptr_ok T base = true -> kt_ptr_ok T (u64 (base + off)) = true -> kt_mem T (u64 (base + off)) <> 0 ->
  first_continuation (kt_strip T) (kt_mem T) (kt_ptr_ok T) off (pre ++ base :: post)%list = kt_strip T (kt_mem T (u64 (base + off))).
Proof.
  intros Hp Hb Ha Hm. induction Hp as [|x pre Hx _ IH]; cbn [app first_continuation].
  - rewrite Hb, Ha. cbn [negb orb]. by rewrite (proj2 (Z.eqb_neq _ 0) Hm).
  - destruct Hx as [E|[E|E]]; rewrite E; cbn [negb orb Z.eqb]; rewrite ?orb_true_r; [exact IH|exact IH|]. by destruct (_ || _).
Qed.

(** C18. wchan names the right function: when the kernel runs at any slide, the probe
    found (or finds now) the offset of the continuation, the first of the process's
    threads with a continuation (among the first 64) has one at that slide from an
    address of the symbol table, and the daemon serves that table, wchan is the name
    of the symbol at or below the address (at most 1 MiB below it) without its
    underscore, and stack the same name as its only frame; the state that is kept
    makes the next read do the same. *)
Theorem wchan_names_function {U} `{Uio U} B K tab rt T id p s addr e g w pre base post (u : U) :
  Sorted by_val tab -> serves_symbols B tab -> 0 < ksym_addr_of tab PROC_PID_SYMBOL < 2 ^ 64 ->
  rt = u64 (ksym_addr_of tab PROC_PID_SYMBOL + s) -> slide_ok rt (ksym_addr_of tab PROC_PID_SYMBOL) (ws_slide g) ->
  w = procfs_wchan_discover (kt_strip T) (kt_started T) (kt_probe_cont T) (kt_look T) (ws_probe g) -> 0 <= g_continuation_off w ->
  proc_find K (nodeid_pid id) = Some p -> take 64 (kt_threads T p) = (pre ++ base :: post)%list ->
  Forall (no_continuation T (g_continuation_off w)) pre ->
  kt_ptr_ok T base = true -> kt_ptr_ok T (u64 (base + g_continuation_off w)) = true -> kt_mem T (u64 (base + g_continuation_off w)) <> 0 ->
  kt_strip T (kt_mem T (u64 (base + g_continuation_off w))) = u64 (addr + s) -> u64 (addr + s) <> 0 -> 0 <= addr < 2 ^ 64 ->
  last (below addr tab) = Some e -> ke_val e <= addr <= ke_val e + 1048576 -> 0 <= ke_val e -> name_ok (ke_name e) ->
  exists g', ws_probe g' = w /\ slide_ok rt (ksym_addr_of tab PROC_PID_SYMBOL) (ws_slide g')
    /\ procfs_dowchan B K rt T id u g = (copy_all (c_name (ke_name e)) u, g')
    /\ procfs_dostack B K rt T id u g = (copy_all (lit "[<0>] " ++ c_name (ke_name e) ++ line "+0x0/0x0")%list u, g').
Proof.
  intros Hs HB Hp Hrt Hg Hw Hoff Hf Hth Hpre Hb1 Hb2 Hm Hc Hc0 Ha Hl Hd Hv Hn.
  exists (Wstate w (Slide (i64 (u64 (rt - ksym_addr_of tab PROC_PID_SYMBOL))) true)). split; [done|]. split; [done|].
  unfold procfs_dowchan, procfs_dostack, resolve_proc, continuation_of, procfs_thread_continuation. rewrite Hf, <- Hw.
  rewrite (proj2 (Z.ltb_ge _ 0)) by lia. change (Z.to_nat PROCFS_WCHAN_MAX_THREADS) with 64%nat. rewrite Hth.
  rewrite first_continuation_at by done. rewrite Hc, (resolve_names B tab rt s addr e (ws_slide g)) by done.
  destruct Hn as (Hn1 & Hn2 & Hn3). pose proof (c_name_length (ke_name e)) as Hcl. destruct (c_name (ke_name e)) as [|c r] eqn:E; [done|]. rewrite <- E in *. split.
  - f_equal. f_equal. rewrite E at 1. rewrite <- E. rewrite take_ge by lia. done.
  - f_equal. rewrite E at 1. rewrite <- E. apply snprintf_copy_fits. text_fits. lia.
Qed.

(** The probe is sound and done once: whatever the helper's structure shows, the
    offset that is kept is aligned, inside the scanned part, and was seen to hold the
    probe's continuation; once an outcome is kept, it never changes. *)
Theorem wchan_discover_sound strip started probe_cont look g :
  probe_ok strip probe_cont look g ->
  let g' := procfs_wchan_discover strip started probe_cont look g in
  probe_ok strip probe_cont look g' /\ (g_continuation_off g <> -1 -> g' = g) /\ g_continuation_off g' <> -1.
Proof.
  intros Hg. cbv zeta. unfold procfs_wchan_discover. assert (Hoff : g <> probe_init -> g_continuation_off g <> -1).
  { intros Hne. destruct Hg as [->|[->|(i & ws & v & off & _ & -> & Ho & _)]]; [done|done|cbn; lia]. }
  destruct (Z.eqb_spec (g_continuation_off g) (-1)) as [E|E]; cbn [negb]; [|done].
  assert (g = probe_init) as -> by (destruct Hg as [->|[->|(i & ws & v & off & _ & -> & Ho & _)]]; [done|done|cbn in E; lia]).
  cbn [g_wchan_init probe_init Z.eqb negb]. split_and!; [|intros ?; done|].
  - destruct started; cbn [negb]; [|right; by left]. destruct (probe_tries _ _ _ _ _) as [off|] eqn:Ep; [|right; by left].
    destruct (probe_tries_found _ _ _ _ _ _ Ep) as (j & ws & Hj & Hsc). destruct (scan_words_found _ _ _ 0 off ltac:(lia) ltac:(done) Hsc) as (i & v & -> & Hm & Hi & Hv & Hst).
    right; right. exists j, ws, v, (0 + 8 * Z.of_nat i). assert (Ed : (0 + 8 * Z.of_nat i) / 8 = Z.of_nat i) by (Z.to_euclidean_division_equations; lia).
    rewrite Ed, Nat2Z.id. split_and!; [done|done|lia|done|lia|done..].
  - destruct started; cbn [negb]; [|done]. destruct (probe_tries _ _ _ _ _) as [off|] eqn:Ep; [|done].
    destruct (probe_tries_found _ _ _ _ _ _ Ep) as (j & ws & Hj & Hsc). destruct (scan_words_found _ _ _ 0 off ltac:(lia) ltac:(done) Hsc) as (i & v & -> & _). cbn [g_continuation_off]. lia.
Qed.

(** ** Witnesses *)
Definition wc_tab : list ksym_ent := [KsymEnt 4096 (lit "_start"); KsymEnt 6144 PROC_PID_SYMBOL; KsymEnt 8192 (lit "_wait1continue")].
Definition wc_bridge : bridge :=
  Bridge (fun ty _ arg _ cap =>
    if ty =? PROCFS_REQ_KSYM_REF then handle_ksym_ref wc_tab
    else match handle_ksym_lookup wc_tab arg with Some (e, nm) => (e, take (Z.to_nat cap) nm) | None => (EIO, []) end).

Lemma wc_tab_sorted : Sorted by_val wc_tab.
Proof. repeat constructor; unfold by_val; cbn; lia. Qed.

Lemma wc_serves : serves_symbols wc_bridge wc_tab.
Proof.
  split; [reflexivity|]. intros arg _. unfold wc_bridge. cbn [ctl_request Z.eqb Pos.eqb PROCFS_REQ_KSYM_LOOKUP PROCFS_REQ_KSYM_REF].
  unfold handle_ksym_lookup at 1. rewrite (ksym_lookup_nearest wc_tab arg 128 wc_tab_sorted). eexists _, _. split; [reflexivity|].
  unfold handle_ksym_lookup. by rewrite (ksym_lookup_nearest wc_tab arg 128 wc_tab_sorted).
Qed.

(** The helper shows its continuation 777 in the second word; of the process's two
    threads the second waits in wait1continue. *)
Definition wc_threads : kthreads :=
  Kthreads (fun v => v mod 2 ^ 40) true 777 (fun _ => Some [5; 777]) (fun a => if a =? 2000 + 8 then 2 ^ 40 + 8192 + 65536 else 0) (fun _ => true)
    (fun _ => [1000; 2000]).

Lemma wchan_names_function_witness :
  exists g', procfs_dowchan wc_bridge lp_kernel (6144 + 65536) wc_threads lp_id (ubuf_read 0 100) (Wstate probe_init (Slide 0 false))
    = (copy_all (lit "wait1continue") (ubuf_read 0 100), g').
Proof.
  destruct (wchan_names_function wc_bridge lp_kernel wc_tab (6144 + 65536) wc_threads lp_id lp_proc 65536 8192
    (KsymEnt 8192 (lit "_wait1continue")) (Wstate probe_init (Slide 0 false)) (Probe 1 8) [1000] 2000 [] (ubuf_read 0 100)) as (g' & _ & _ & E & _).
  - exact wc_tab_sorted.
  - exact wc_serves.
  - vm_compute. intuition congruence.
  - vm_compute. reflexivity.
  - intros Hk. discriminate Hk.
  - unfold procfs_wchan_discover. cbn [g_continuation_off ws_probe probe_init Z.eqb negb g_wchan_init kt_started wc_threads].
    unfold PROCFS_WCHAN_TRIES. destruct (Z.to_nat 100000) as [|n] eqn:En; [lia|]. vm_compute. reflexivity.
  - cbn. lia.
  - reflexivity.
  - reflexivity.
  - constructor; [right; right; reflexivity|constructor].
  - reflexivity.
  - reflexivity.
  - discriminate.
  - vm_compute. reflexivity.
  - discriminate.
  - lia.
  - vm_compute. reflexivity.
  - cbn. lia.
  - cbn. lia.
  - split; [|split; [apply Nat.leb_le; vm_compute; reflexivity|discriminate]]. repeat constructor; discriminate.
  - exists g'. exact E.
Defined.

Lemma wchan_discover_sound_witness :
  probe_ok (fun v => v mod 1000) 77 (fun i => if i <? 3 then None else Some [0; 5; 9077])
    (procfs_wchan_discover (fun v => v mod 1000) true 77 (fun i => if i <? 3 then None else Some [0; 5; 9077]) probe_init)
  /\ g_continuation_off (procfs_wchan_discover (fun v => v mod 1000) true 77 (fun i => if i <? 3 then None else Some [0; 5; 9077]) probe_init) <> -1.
Proof.
  destruct (wchan_discover_sound (fun v => v mod 1000) true 77 (fun i => if i <? 3 then None else Some [0; 5; 9077]) probe_init) as (H1 & _ & H2).
  - left. reflexivity.
  - split; [exact H1|exact H2].
Defined.
