(* ===== verification/Locks.v ===== *)
(** * File locks (procfs_build_locks of kext/procfs_kern.c and procfs_dolocks)

    /proc/locks walks every vnode of every mount and prints the advisory locks it
    holds, with a bound on the locks of one vnode and on the lines.  A mount is the
    list of its vnodes in the order the iterator visits them; a vnode carries the
    lock list under its mutex and what vnode_getattr reports of it. *)
From S2P Require Import Prelude Kernel Text Subr Map Format.
From Stdlib Require Import ZArith Lia String.
From stdpp Require Import base list numbers strings.
Open Scope Z_scope.

Definition F_RDLCK : Z := 1.
Definition F_WRLCK : Z := 3.
Definition F_FLOCK : Z := 32.
Definition F_OFD_LOCK : Z := 1024.

Definition PROCFS_LOCKS_MAX : Z := 1024.
Definition PROCFS_LOCKS_PER_VNODE : nat := 128.

(** struct lockf; [lf_owner]: the pid of its owner, if it has one. *)
Record lockf := Lockf { lf_flags : Z; lf_type : Z; lf_start : Z; lf_end : Z; lf_owner : option Z }.
Record procfs_lockrec := Lockrec { lr_flags : Z; lr_type : Z; lr_start : Z; lr_end : Z; lr_pid : Z }.

(** [v_attr]: va_fileid and va_fsid, each if supported, when the call succeeds. *)
Record vnode := Vnode { v_lockf : list lockf; v_attr : option (option Z * option Z) }.

Definition lockrec_of (lf : lockf) : procfs_lockrec :=
  Lockrec (lf_flags lf) (lf_type lf) (lf_start lf) (lf_end lf) (default (-1) (lf_owner lf)).

(** [%02x] of an unsigned value. *)
Definition hex2 (v : Z) : bytes := hex_min 2 v.

Section Locks.
Variables major minor : Z -> Z.            (* the macros on dev_t *)

(** maj, min and inode. *)
Definition vnode_ident (vp : vnode) : Z * Z * Z :=
  match v_attr vp with
  | None => (0, 0, 0)
  | Some (fileid, fsid) =>
      (match fsid with Some d => major d | None => 0 end, match fsid with Some d => minor d | None => 0 end, default 0 fileid)
  end.

Definition lock_line (n : Z) (ident : Z * Z * Z) (r : procfs_lockrec) : bytes :=
  let '(vmaj, vmin, ino) := ident in
  (sdec n ++ lit ": "
   ++ lit (if negb (Z.land (lr_flags r) F_OFD_LOCK =? 0) then "OFDLCK" else if negb (Z.land (lr_flags r) F_FLOCK =? 0) then "FLOCK " else "POSIX ")
   ++ lit " ADVISORY  "
   ++ pad_right 5 (lit (if lr_type r =? F_WRLCK then "WRITE" else if lr_type r =? F_RDLCK then "READ" else "UNLCK")) ++ lit " "
   ++ sdec (lr_pid r) ++ lit " " ++ hex2 vmaj ++ lit ":" ++ hex2 vmin ++ lit ":" ++ dec ino ++ lit " " ++ sdec (lr_start r) ++ lit " "
   ++ (if lr_end r =? -1 then line "EOF" else sdec (lr_end r) ++ [10]))%list.

(** The sbuf and the number of lines so far. *)
Definition locks_ctx : Type := bytes * Z.

(** The loop over the snapshot. *)
Fixpoint emit_locks (ident : Z * Z * Z) (recs : list procfs_lockrec) (c : locks_ctx) : locks_ctx :=
  match recs with
  | [] => c
  | r :: rs =>
      if snd c <? PROCFS_LOCKS_MAX then emit_locks ident rs ((fst c ++ lock_line (snd c + 1) ident r)%list, snd c + 1) else c
  end.

(** The callout; [true]: the iteration is to stop. *)
Definition procfs_locks_vnode_cb (vp : vnode) (c : locks_ctx) : bool * locks_ctx :=
  if PROCFS_LOCKS_MAX <=? snd c then (true, c)
  else
    let recs := map lockrec_of (take PROCFS_LOCKS_PER_VNODE (v_lockf vp)) in
    (false, match recs with [] => c | _ => emit_locks (vnode_ident vp) recs c end).

(** vnode_iterate and vfs_iterate: until a callout asks to stop. *)
Fixpoint iterate {A} (cb : A -> locks_ctx -> bool * locks_ctx) (l : list A) (c : locks_ctx) : locks_ctx :=
  match l with
  | [] => c
  | x :: r => let '(stop, c) := cb x c in if stop then c else iterate cb r c
  end.

Definition procfs_locks_mount_cb (mp : list vnode) (c : locks_ctx) : bool * locks_ctx :=
  let c := iterate procfs_locks_vnode_cb mp c in (PROCFS_LOCKS_MAX <=? snd c, c).

(** [recs_ok]: whether the scratch array could be allocated. *)
Definition procfs_build_locks (recs_ok : bool) (mounts : list (list vnode)) (sb : bytes) : bytes :=
  if recs_ok then fst (iterate procfs_locks_mount_cb mounts (sb, 0)) else sb.

Definition procfs_dolocks {U} `{Uio U} (sbuf_ok recs_ok : bool) (mounts : list (list vnode)) (u : U) : option (Z * U) :=
  sbuf_node sbuf_ok (procfs_build_locks recs_ok mounts []) u.

(** ** Reference: the locks of the whole system, in order *)
Definition vnode_locks (vp : vnode) : list ((Z * Z * Z) * procfs_lockrec) :=
  map (fun r => (vnode_ident vp, r)) (map lockrec_of (take PROCFS_LOCKS_PER_VNODE (v_lockf vp))).
Definition system_locks (mounts : list (list vnode)) : list ((Z * Z * Z) * procfs_lockrec) := concat (map vnode_locks (concat mounts)).

(** Numbered lines, from [n + 1]. *)
Fixpoint numbered (n : Z) (ls : list ((Z * Z * Z) * procfs_lockrec)) : bytes :=
  match ls with
  | [] => []
  | (i, r) :: rest => (lock_line (n + 1) i r ++ numbered (n + 1) rest)%list
  end.

Definition room (n : Z) : nat := Z.to_nat (PROCFS_LOCKS_MAX - n).

(** ** The walk prints the reference *)
(** After a part of the walk: the lines of [ls] that still fitted. *)
Definition printed (ls : list ((Z * Z * Z) * procfs_lockrec)) (c : locks_ctx) : locks_ctx :=
  ((fst c ++ numbered (snd c) (take (room (snd c)) ls))%list, snd c + Z.of_nat (Nat.min (room (snd c)) (length ls))).

Lemma numbered_app n a b : numbered n (a ++ b)%list = (numbered n a ++ numbered (n + Z.of_nat (length a)) b)%list.
Proof.
  revert n. induction a as [|[i r] a IH]; intros n; cbn [app numbered length].
  - by rewrite Z.add_0_r.
  - rewrite IH, <- app_assoc. do 3 f_equal. lia.
Qed.

Lemma printed_app a b c : snd c <= PROCFS_LOCKS_MAX -> printed (a ++ b)%list c = printed b (printed a c).
Proof.
  intros Hc. unfold printed, room. cbn [fst snd]. f_equal.
  - rewrite <- app_assoc. f_equal. rewrite take_app, numbered_app. f_equal. rewrite length_take. f_equal. f_equal. lia.
  - rewrite length_app. lia.
Qed.

Lemma printed_bound ls c : snd c <= PROCFS_LOCKS_MAX -> snd (printed ls c) <= PROCFS_LOCKS_MAX.
Proof. intros Hc. unfold printed, room. cbn [snd]. lia. Qed.

Lemma printed_full ls c : PROCFS_LOCKS_MAX <= snd c -> printed ls c = c.
Proof.
  intros Hc. unfold printed, room. replace (Z.to_nat (PROCFS_LOCKS_MAX - snd c)) with 0%nat by lia. cbn [take numbered Nat.min].
  destruct c as [sb n]. cbn [fst snd]. by rewrite app_nil_r, Z.add_0_r.
Qed.

Lemma printed_nil c : printed [] c = c.
Proof. destruct c as [sb n]. unfold printed. cbn [fst snd length]. rewrite take_nil, Nat.min_0_r. cbn [numbered]. by rewrite app_nil_r, Z.add_0_r. Qed.

Lemma emit_locks_printed i recs c : snd c <= PROCFS_LOCKS_MAX -> emit_locks i recs c = printed (map (fun r => (i, r)) recs) c.
Proof.
  revert c. induction recs as [|r rs IH]; intros c Hc; cbn [emit_locks map]; [by rewrite printed_nil|].
  destruct (Z.ltb_spec (snd c) PROCFS_LOCKS_MAX) as [Hl|Hl]; [|by rewrite printed_full].
  rewrite IH by (cbn [snd]; lia). unfold printed, room. cbn [fst snd length].
  replace (Z.to_nat (PROCFS_LOCKS_MAX - snd c)) with (S (Z.to_nat (PROCFS_LOCKS_MAX - (snd c + 1)))) by lia. cbn [take numbered].
  rewrite <- app_assoc. f_equal. cbn [Nat.min]. lia.
Qed.

Lemma vnode_cb_printed vp c : snd c <= PROCFS_LOCKS_MAX ->
  snd (procfs_locks_vnode_cb vp c) = printed (vnode_locks vp) c
  /\ (fst (procfs_locks_vnode_cb vp c) = true -> PROCFS_LOCKS_MAX <= snd c).
Proof.
  intros Hc. unfold procfs_locks_vnode_cb. destruct (Z.leb_spec PROCFS_LOCKS_MAX (snd c)) as [Hl|Hl]; cbn [fst snd].
  - by rewrite printed_full.
  - split; [|done]. unfold vnode_locks. destruct (map lockrec_of _) as [|r rs] eqn:E; [by rewrite printed_nil|]. by apply emit_locks_printed.
Qed.

(** An iteration whose callouts print. *)
Lemma iterate_printed {A} (cb : A -> locks_ctx -> bool * locks_ctx) (f : A -> list ((Z * Z * Z) * procfs_lockrec)) l c :
  (forall x c, snd c <= PROCFS_LOCKS_MAX -> snd (cb x c) = printed (f x) c
     /\ (fst (cb x c) = true -> PROCFS_LOCKS_MAX <= snd (printed (f x) c))) ->
  snd c <= PROCFS_LOCKS_MAX -> iterate cb l c = printed (concat (map f l)) c.
Proof.
  intros Hcb. revert c. induction l as [|x l IH]; intros c Hc; cbn [iterate map concat]; [by rewrite printed_nil|].
  destruct (Hcb x c Hc) as [H1 H2]. destruct (cb x c) as [stop c']. cbn [fst snd] in *. subst c'. rewrite printed_app by done.
  destruct stop; [by rewrite (printed_full _ (printed (f x) c)) by auto|]. apply IH. by apply printed_bound.
Qed.

Lemma build_locks_printed mounts : iterate procfs_locks_mount_cb mounts ([], 0) = printed (system_locks mounts) ([], 0).
Proof.
  rewrite (iterate_printed procfs_locks_mount_cb (fun mp => concat (map vnode_locks mp))).
  - f_equal. unfold system_locks. induction mounts as [|m ms IH]; [done|]. cbn [map concat]. by rewrite map_app, concat_app, IH.
  - intros mp c Hc. unfold procfs_locks_mount_cb. cbn [fst snd].
    assert (E : iterate procfs_locks_vnode_cb mp c = printed (concat (map vnode_locks mp)) c).
    { apply iterate_printed; [|done]. intros vp c' Hc'. destruct (vnode_cb_printed vp c' Hc') as [H1 H2]. split; [done|].
      intros Hs. rewrite printed_full by auto. auto. }
    rewrite E. split; [done|]. apply Z.leb_le.
  - done.
Qed.
End Locks.

(** ** Theorems *)
(** /proc/locks is the system's lock table: its lines are the locks of every
    vnode of every mount, at most 128 of each, in order and numbered from 1, and at
    most 1024 of them; stopping the iterators early loses nothing else. *)
Theorem locks_listed {U} `{Uio U} major minor mounts (u : U) :
  procfs_dolocks major minor true true mounts u = copy_all (numbered 0 (take 1024 (system_locks major minor mounts))) u.
Proof. unfold procfs_dolocks, procfs_build_locks, sbuf_node. by rewrite build_locks_printed. Qed.

(** Without the scratch array or the sbuf: an empty file, ENOMEM. *)
Theorem locks_nomem {U} `{Uio U} major minor mounts recs_ok (u : U) :
  procfs_dolocks major minor true false mounts u = copy_all [] u
  /\ procfs_dolocks major minor false recs_ok mounts u = Some (ENOMEM, u).
Proof. done. Qed.
