(* ===== verification/Devices.v ===== *)
(** * Devices (tools/procfsd.c)

    /proc/devices, /proc/misc and /proc/tty/drivers are made from the entries of
    /dev: a table with one row per major, per family or per terminal driver, sorted
    and printed.  /dev is the list of its entries in the order readdir gives them,
    each with what lstat reports. *)
From S2P Require Import Prelude Kernel Text Subr Map Format Qsort.
From Stdlib Require Import ZArith Lia String Ascii Sorted.
From stdpp Require Import base list numbers strings sets.
Open Scope Z_scope.

(** struct stat, as far as it is read; [d_stat] is [None] when lstat fails. *)
Record devstat := DevStat { st_mode : Z; st_rdev : Z }.
Record dev_entry := DevEntry { d_name : string; d_stat : option devstat }.

Definition S_IFMT : Z := 61440.
Definition S_IFCHR : Z := 8192.
Definition S_IFBLK : Z := 24576.
Definition S_ISCHR (st : devstat) : bool := Z.land (st_mode st) S_IFMT =? S_IFCHR.
Definition S_ISBLK (st : devstat) : bool := Z.land (st_mode st) S_IFMT =? S_IFBLK.

Definition hidden (e : dev_entry) : bool := match d_name e with String c _ => chr c =? 46 | EmptyString => false end.

(** [strncmp(s, p, strlen(p)) == 0]. *)
Definition starts_with (p s : string) : bool := String.eqb (str_take (String.length p) s) p.

(** ** Family names *)
(** At most [n] characters, up to the first one that satisfies [stop]. *)
Fixpoint cut (stop : ascii -> bool) (n : nat) (s : string) : string :=
  match n, s with
  | S n', String c s' => if stop c then EmptyString else String c (cut stop n' s')
  | _, _ => EmptyString
  end.

Definition is_sep (c : ascii) : bool := (chr c =? 46) || (chr c =? 95) || (chr c =? 45).

(** Without the separators at its end. *)
Fixpoint trim_tail (s : string) : string :=
  match s with
  | EmptyString => EmptyString
  | String c s' =>
      match trim_tail s' with
      | EmptyString => if is_sep c then EmptyString else String c EmptyString
      | t => String c t
      end
  end.

Definition dev_family (name : string) (cap : Z) : string :=
  match cut is_digit (Z.to_nat (cap - 1)) name with
  | EmptyString => strlcpy name cap
  | String c s => String c (trim_tail s)
  end.

Definition tty_is_name (n : string) : bool :=
  starts_with "tty" n || starts_with "cu." n || starts_with "pty" n || starts_with "ptm" n || String.eqb n "console".

Definition tty_family (name : string) (cap : Z) : string :=
  match cut (fun c => (chr c =? 46) || is_digit c) (Z.to_nat (cap - 1)) name with
  | EmptyString => strlcpy name cap
  | s => s
  end.

Definition tty_type (n : string) : string :=
  if String.eqb n "console" then "console"%string
  else if starts_with "cu." n || starts_with "tty." n then "serial"%string
  else if starts_with "ptm" n || starts_with "pty" n then "pty:master"%string
  else if String.eqb n "tty" then "system"%string
  else if starts_with "tty" n then "pty:slave"%string
  else "system"%string.

(** ** The tables *)
Record devrow := Devrow { dr_major : Z; dr_block : bool; dr_name : string }.
Record miscrow := Miscrow { mr_minor : Z; mr_name : string }.
Record ttyrow := Ttyrow { tr_major : Z; tr_min : Z; tr_max : Z; tr_name : string; tr_type : string }.

Definition misc_excluded (fam : string) : bool :=
  existsb (fun p => starts_with p fam) ["tty"; "pty"; "cu"; "disk"; "rdisk"]%string
  || existsb (String.eqb fam) ["null"; "zero"; "mem"; "kmem"; "random"; "urandom"; "console"; "ptmx"; "stdin"; "stdout"; "stderr"; "fd"]%string.

Section Tables.
Context `{Qsort}.
Variables major minor : Z -> Z.              (* the macros on dev_t *)
Variable realloc_ok : Z -> bool.

(** What the loop of build_devices_blob keeps of an entry: major, kind, family. *)
Definition dev_of (e : dev_entry) : option (Z * bool * string) :=
  if hidden e then None
  else match d_stat e with
       | None => None
       | Some st =>
           if S_ISCHR st then Some (major (st_rdev st), false, dev_family (d_name e) 64)
           else if S_ISBLK st then Some (major (st_rdev st), true, dev_family (d_name e) 64)
           else None
       end.

Definition shorten (fam : string) (r : devrow) : devrow :=
  if strlen fam <? strlen (dr_name r) then Devrow (dr_major r) (dr_block r) (strlcpy fam 64) else r.

(** A failed realloc drops the device. *)
Definition dev_insert (d : Z * bool * string) (s : list devrow * Z) : list devrow * Z :=
  let '(m, blk, fam) := d in
  match update_row (fun r => (dr_major r =? m) && Bool.eqb (dr_block r) blk) (shorten fam) (fst s) with
  | Some rows => (rows, snd s)
  | None => default s (grow realloc_ok 32 (Devrow m blk (strlcpy fam 64)) (fst s) (snd s))
  end.

Definition devrow_cmp (a b : devrow) : Z := cmp_of (dr_major a) (dr_major b).
Definition dev_line (r : devrow) : bytes := (pad_left 3 32 (sdec (dr_major r)) ++ lit " " ++ line (dr_name r))%list.

(** [mem_ok]: the memory stream could be opened; [None]: the node is empty. *)
Definition build_devices_blob (dir : option (list dev_entry)) (mem_ok : bool) : option bytes :=
  match dir with
  | None => None
  | Some es =>
      let rows := qsort devrow_cmp (fst (fold_left (fun s d => dev_insert d s) (omap dev_of es) ([], 0))) in
      if mem_ok then
        Some (line "Character devices:" ++ concat (map dev_line (List.filter (fun r => negb (dr_block r)) rows))
              ++ [10] ++ line "Block devices:" ++ concat (map dev_line (List.filter dr_block rows)))%list
      else None
  end.

(** *** /proc/misc *)
Definition misc_of (e : dev_entry) : option (Z * string) :=
  if hidden e then None
  else match d_stat e with
       | Some st =>
           if S_ISCHR st then
             let fam := dev_family (d_name e) 64 in
             if String.eqb fam EmptyString || misc_excluded fam then None else Some (minor (st_rdev st), fam)
           else None
       | None => None
       end.

Definition lower (dmin : Z) (r : miscrow) : miscrow := if dmin <? mr_minor r then Miscrow dmin (mr_name r) else r.

(** A failed realloc ends the scan. *)
Fixpoint misc_loop (ds : list (Z * string)) (rows : list miscrow) (cap : Z) : list miscrow :=
  match ds with
  | [] => rows
  | (dmin, fam) :: ds' =>
      match update_row (fun r => String.eqb (mr_name r) fam) (lower dmin) rows with
      | Some rows => misc_loop ds' rows cap
      | None =>
          match grow realloc_ok 32 (Miscrow dmin (strlcpy fam 64)) rows cap with
          | Some (rows, cap) => misc_loop ds' rows cap
          | None => rows
          end
      end
  end.

(** The sign of [strcmp], on unsigned characters; a string without a NUL. *)
Fixpoint strcmp (a b : string) : Z :=
  match a, b with
  | EmptyString, EmptyString => 0
  | EmptyString, String _ _ => -1
  | String _ _, EmptyString => 1
  | String c a', String d b' => if chr c =? chr d then strcmp a' b' else chr c - chr d
  end.

Definition miscrow_cmp (a b : miscrow) : Z :=
  if negb (mr_minor a =? mr_minor b) then cmp_of (mr_minor a) (mr_minor b) else strcmp (mr_name a) (mr_name b).
Definition misc_line (r : miscrow) : bytes := (pad_left 3 32 (sdec (mr_minor r)) ++ lit " " ++ line (mr_name r))%list.

Definition build_misc_blob (dir : option (list dev_entry)) (mem_ok : bool) : option bytes :=
  match dir with
  | None => None
  | Some es => if mem_ok then Some (concat (map misc_line (qsort miscrow_cmp (misc_loop (omap misc_of es) [] 0)))) else None
  end.

(** *** /proc/tty/drivers *)
Definition tty_of (e : dev_entry) : option (Z * Z * string) :=
  if hidden e || negb (tty_is_name (d_name e)) then None
  else match d_stat e with
       | Some st => if S_ISCHR st then Some (major (st_rdev st), u32 (minor (st_rdev st)), d_name e) else None
       | None => None
       end.

Definition widen (mn : Z) (r : ttyrow) : ttyrow :=
  Ttyrow (tr_major r) (if mn <? tr_min r then mn else tr_min r) (if tr_max r <? mn then mn else tr_max r) (tr_name r) (tr_type r).

Definition tty_new (d : Z * Z * string) : ttyrow :=
  let '(maj, mn, n) := d in Ttyrow maj mn mn (tty_family n 64) (strlcpy (tty_type n) 16).

Fixpoint tty_loop (ds : list (Z * Z * string)) (rows : list ttyrow) (cap : Z) : list ttyrow :=
  match ds with
  | [] => rows
  | (maj, mn, n) :: ds' =>
      match update_row (fun r => tr_major r =? maj) (widen mn) rows with
      | Some rows => tty_loop ds' rows cap
      | None =>
          match grow realloc_ok 32 (tty_new (maj, mn, n)) rows cap with
          | Some (rows, cap) => tty_loop ds' rows cap
          | None => rows
          end
      end
  end.

Definition ttyrow_cmp (a b : ttyrow) : Z := cmp_of (tr_major a) (tr_major b).
Definition tty_line (r : ttyrow) : bytes :=
  let devp := str_take 79 ("/dev/" +:+ tr_name r) in
  let range := if tr_min r =? tr_max r then dec (tr_min r) else (dec (tr_min r) ++ lit "-" ++ dec (tr_max r))%list in
  (pad_right 20 (lit (tr_name r)) ++ lit " " ++ pad_right 11 (lit devp) ++ lit " " ++ pad_left 3 32 (sdec (tr_major r)) ++ lit " "
   ++ range ++ lit " " ++ line (tr_type r))%list.

Definition build_ttydrivers_blob (dir : option (list dev_entry)) (mem_ok : bool) : option bytes :=
  match dir with
  | None => None
  | Some es => if mem_ok then Some (concat (map tty_line (qsort ttyrow_cmp (tty_loop (omap tty_of es) [] 0)))) else None
  end.
End Tables.

(** ** Family names *)
Lemma cut_length stop n s : (String.length (cut stop n s) <= n)%nat.
Proof. revert s. induction n as [|n IH]; intros [|c s]; cbn; try lia. destruct (stop c); cbn; [lia|]. specialize (IH s). lia. Qed.

Lemma trim_tail_length s : (String.length (trim_tail s) <= String.length s)%nat.
Proof.
  induction s as [|c s IH]; [done|]. cbn. destruct (trim_tail s) as [|d t]; [destruct (is_sep c); cbn; lia|]. cbn in *. lia.
Qed.

Lemma dev_family_fits name cap : 1 < cap -> strlen (dev_family name cap) < cap.
Proof.
  intros Hc. unfold dev_family, strlen. pose proof (cut_length is_digit (Z.to_nat (cap - 1)) name) as Hl. destruct (cut _ _ name) as [|c s].
  - unfold strlcpy. pose proof (str_take_length (Z.to_nat (cap - 1)) name). lia.
  - pose proof (trim_tail_length s). cbn in *. lia.
Qed.

(** ** The devices table *)
Section DevTable.
Variable major : Z -> Z.

Definition dkey (d : Z * bool * string) : Z * bool := fst d.
Definition rkey (r : devrow) : Z * bool := (dr_major r, dr_block r).
Definition dev_new (d : Z * bool * string) : devrow := Devrow (fst (fst d)) (snd (fst d)) (strlcpy (snd d) 64).

Lemma rkey_new d : rkey (dev_new d) = dkey d.
Proof. by destruct d as [[m b] f]. Qed.
Definition dev_upd (d : Z * bool * string) : devrow -> devrow := shorten (snd d).
Lemma rkey_shorten d r : rkey (dev_upd d r) = rkey r.
Proof. unfold dev_upd, shorten. by destruct (_ <? _). Qed.

Definition devs_table : list (Z * bool * string) -> list devrow -> Prop := table_of dkey rkey dev_new dev_upd.

Lemma dev_insert_table ds d rows cap : devs_table ds rows -> devs_table (ds ++ [d])%list (fst (dev_insert (fun _ => true) d (rows, cap))).
Proof.
  intros Ht. destruct d as [[m b] fam]. cbn [dev_insert fst snd].
  rewrite (update_row_ext _ (fun r => bool_decide (rkey r = (m, b))) _ (shorten fam)).
  - destruct (update_row _ _ rows) as [rows'|] eqn:E.
    + cbn [fst]. by apply (table_update dkey rkey dev_new dev_upd rkey_new rkey_shorten ds (m, b, fam) rows).
    + destruct (grow_some 32 (Devrow m b (strlcpy fam 64)) rows cap) as [cap' ->]. cbn [default fst].
      by apply (table_new dkey rkey dev_new dev_upd rkey_new rkey_shorten ds (m, b, fam) rows).
  - intros [m' b' n]. unfold rkey. cbn. destruct (Z.eqb_spec m' m), b, b'; cbn; case_bool_decide; congruence.
  - done.
Qed.

Lemma devs_table_of ds : devs_table ds (fst (fold_left (fun s d => dev_insert (fun _ => true) d s) ds ([], 0))).
Proof.
  induction ds as [|d ds IH] using rev_ind; [apply table_nil|]. rewrite fold_left_app. cbn [fold_left].
  destruct (fold_left _ ds ([], 0)) as [rows cap]. by apply dev_insert_table.
Qed.

(** The name is the first shortest family of its major. *)
Definition first_shortest (es : list dev_entry) (r : devrow) : Prop :=
  exists pre post, omap (dev_of major) es = (pre ++ (dr_major r, dr_block r, dr_name r) :: post)%list
    /\ (forall nm, (dr_major r, dr_block r, nm) ∈ pre -> strlen (dr_name r) < strlen nm)
    /\ (forall nm, (dr_major r, dr_block r, nm) ∈ post -> strlen (dr_name r) <= strlen nm).

Lemma dev_of_fits e m b fam : dev_of major e = Some (m, b, fam) -> strlen fam < 64.
Proof.
  unfold dev_of. destruct (hidden e); [done|]. destruct (d_stat e) as [st|]; [|done].
  destruct (S_ISCHR st); [|destruct (S_ISBLK st); [|done]]; intros [= _ _ <-]; by apply dev_family_fits.
Qed.

Lemma omap_dev_fits es : Forall (fun d => strlen (snd d) < 64) (omap (dev_of major) es).
Proof.
  apply Forall_forall. intros [[m b] fam] Hd. apply list_elem_of_omap in Hd as (e & _ & He). by apply dev_of_fits in He.
Qed.

Lemma fold_shorten l r : Forall (fun d : Z * bool * string => strlen (snd d) < 64) l ->
  fold_left (fun r d => dev_upd d r) l r
  = Devrow (dr_major r) (dr_block r) (fold_left (fun best d => if strlen (snd d) <? strlen best then snd d else best) l (dr_name r)).
Proof.
  intros Hl. revert r. induction Hl as [|d l Hd _ IH]; intros r; cbn; [by destruct r|]. rewrite IH. unfold dev_upd, shorten.
  destruct (_ <? _); [|done]. cbn. by rewrite strlcpy_fits.
Qed.

Lemma table_names es rows r : devs_table (omap (dev_of major) es) rows -> r ∈ rows -> first_shortest es r.
Proof.
  intros [_ Ht] Hr. apply Ht in Hr. rewrite agg_filter in Hr. set (ds := omap (dev_of major) es) in *.
  pose proof (omap_dev_fits es) as Hf. fold ds in Hf.
  destruct (filter _ ds) as [|d0 l] eqn:E; [done|]. injection Hr as Hr.
  assert (Hall : Forall (fun d => dkey d = rkey r /\ strlen (snd d) < 64) (d0 :: l)).
  { rewrite <- E. apply Forall_forall. intros d Hd. apply list_elem_of_filter in Hd as [Hk Hd]. rewrite Forall_forall in Hf. split; [done|by apply Hf]. }
  pose proof (Forall_inv Hall) as [Hk0 Hl0]. rewrite fold_shorten in Hr by (eapply Forall_impl; [exact (Forall_inv_tail Hall)|by intros ? []]).
  cbn [dev_new dr_major dr_block dr_name] in Hr. rewrite strlcpy_fits in Hr by done.
  destruct (keep_first_min snd strlen l d0) as (pre & d & post & Es & Ef & Hpre & Hpost). rewrite Ef in Hr.
  rewrite Es in E. destruct (filter_split _ _ _ _ _ E) as (pre' & post' & Ed & Ep & Eq).
  assert (Hd : dkey d = rkey r) by (rewrite Es in Hall; apply Forall_app in Hall as [_ Hall]; apply (Forall_inv Hall)).
  destruct r as [m b nm], d as [[m' b'] nm']. unfold rkey, dkey in *. cbn in *. injection Hd as -> ->. injection Hr as _ _ <-.
  exists pre', post'. split; [done|]. cbn. split; intros nm Hn.
  - apply (Hpre (m, b, nm)). rewrite <- Ep. by apply list_elem_of_filter.
  - apply (Hpost (m, b, nm)). rewrite <- Eq. by apply list_elem_of_filter.
Qed.

Lemma table_covers es rows m b : devs_table (omap (dev_of major) es) rows ->
  (exists nm, Devrow m b nm ∈ rows) <-> exists fam, (m, b, fam) ∈ omap (dev_of major) es.
Proof.
  intros Ht. split.
  - intros [nm Hr]. destruct (table_names es rows _ Ht Hr) as (pre & post & E & _). exists nm. rewrite E. cbn. set_solver.
  - intros [fam Hd]. destruct (agg dkey dev_new dev_upd (m, b) (omap (dev_of major) es)) as [r|] eqn:E.
    + pose proof (agg_key _ _ _ _ rkey_new rkey_shorten _ _ _ E) as Hk. exists (dr_name r). destruct r as [m' b' nm]. injection Hk as -> ->.
      by apply (proj2 Ht).
    + exfalso. apply (proj1 (agg_none dkey dev_new dev_upd _ _) E _ Hd). done.
Qed.
End DevTable.

(** ** The table of misc *)
Section MiscTable.
Definition misc_new (d : Z * string) : miscrow := Miscrow (fst d) (strlcpy (snd d) 64).
Definition misc_upd (d : Z * string) : miscrow -> miscrow := lower (fst d).

Definition mfits (d : Z * string) : Prop := strlen (snd d) < 64.

Lemma fold_lower l (r : miscrow) :
  fold_left (fun r d => misc_upd d r) l r = Miscrow (fold_left (fun b (d : Z * string) => Z.min b (fst d)) l (mr_minor r)) (mr_name r).
Proof.
  revert r. induction l as [|d l IH]; intros r; cbn; [by destruct r|]. rewrite IH. unfold misc_upd, lower.
  destruct (Z.ltb_spec (fst d) (mr_minor r)); cbn; do 2 f_equal; lia.
Qed.

(** One row per family, with its lowest minor. *)
Definition misc_table (ds : list (Z * string)) (rows : list miscrow) : Prop :=
  NoDup (mr_name <$> rows)
  /\ forall r, r ∈ rows <-> (mr_minor r, mr_name r) ∈ ds /\ forall mn, (mn, mr_name r) ∈ ds -> mr_minor r <= mn.

(** The key as the array stores it. *)
Definition mkey' (d : Z * string) : string := strlcpy (snd d) 64.
Lemma mkey'_new d : mr_name (misc_new d) = mkey' d.
Proof. done. Qed.
Lemma mkey'_upd d r : mr_name (misc_upd d r) = mr_name r.
Proof. unfold misc_upd, lower. by destruct (_ <? _). Qed.

Lemma misc_loop_table ds : forall before rows cap, Forall mfits ds -> table_of mkey' mr_name misc_new misc_upd before rows ->
  table_of mkey' mr_name misc_new misc_upd (before ++ ds)%list (misc_loop (fun _ => true) ds rows cap).
Proof.
  induction ds as [|[dmin fam] ds IH]; intros before rows cap Hf Ht; cbn [misc_loop]; [by rewrite app_nil_r|].
  inversion_clear Hf as [|? ? Hf1 Hf2]. unfold mfits in Hf1. cbn in Hf1.
  rewrite (update_row_ext _ (fun r => bool_decide (mr_name r = mkey' (dmin, fam))) _ (misc_upd (dmin, fam))); [..|done].
  - rewrite cons_middle, app_assoc. destruct (update_row _ _ rows) as [rows'|] eqn:E.
    + apply IH; [done|]. by apply (table_update mkey' mr_name misc_new misc_upd mkey'_new mkey'_upd _ _ rows).
    + destruct (grow_some 32 (Miscrow dmin (strlcpy fam 64)) rows cap) as [cap' ->]. apply IH; [done|].
      by apply (table_new mkey' mr_name misc_new misc_upd mkey'_new mkey'_upd before (dmin, fam) rows).
  - intros r. unfold mkey'. cbn. rewrite strlcpy_fits by done. destruct (String.eqb_spec (mr_name r) fam); case_bool_decide; congruence.
Qed.

Lemma misc_table_spec ds rows : Forall mfits ds -> table_of mkey' mr_name misc_new misc_upd ds rows -> misc_table ds rows.
Proof.
  intros Hf [Hn Ht]. split; [done|]. intros r. rewrite Ht, agg_filter.
  assert (Hk : forall d, d ∈ ds -> mkey' d = mr_name r <-> snd d = mr_name r).
  { intros d Hd. rewrite Forall_forall in Hf. unfold mkey'. by rewrite strlcpy_fits by by apply Hf. }
  assert (Hin : forall mn, (mn, mr_name r) ∈ ds <-> (mn, mr_name r) ∈ filter (fun d => mkey' d = mr_name r) ds).
  { intros mn. rewrite list_elem_of_filter. split; [|tauto]. intros Hd. split; [by apply Hk|done]. }
  assert (Hs : forall d, d ∈ filter (fun d => mkey' d = mr_name r) ds -> d = (fst d, mr_name r) /\ d ∈ ds).
  { intros d Hd. apply list_elem_of_filter in Hd as [Hd1 Hd2]. apply Hk in Hd1; [|done]. rewrite <- Hd1. by destruct d. }
  setoid_rewrite Hin. destruct (filter _ ds) as [|d0 l]; [split; [done|intros [H _]; by apply elem_of_nil in H]|].
  rewrite fold_lower. destruct (Hs d0 ltac:(by left)) as [E0 Hd0]. cbn [misc_new mr_minor mr_name].
  assert (En : strlcpy (snd d0) 64 = mr_name r) by (rewrite Forall_forall in Hf; rewrite strlcpy_fits by (by apply Hf); by rewrite E0).
  rewrite En. destruct (fold_min_spec fst l (fst d0)) as (H1 & H2 & H3). set (m := fold_left _ l (fst d0)) in *. split.
  - intros [= <-]. cbn [mr_minor mr_name] in *. split.
    + apply elem_of_cons. destruct H3 as [->|(x & Hx & ->)]; [by left|right]. destruct (Hs x ltac:(by right)) as [E _]. by rewrite <- E.
    + intros mn [E|Hx]%elem_of_cons; [rewrite <- E in H1; cbn in H1; lia|by apply (H2 (mn, mr_name r))].
  - intros [Hr Hmin]. f_equal. destruct r as [mn nm]. cbn [mr_minor mr_name] in *. f_equal. apply Z.le_antisymm.
    + apply elem_of_cons in Hr as [E|Hr]; [rewrite <- E in H1; cbn in H1; lia|by apply (H2 (mn, nm))].
    + destruct H3 as [->|(x & Hx & ->)]; apply Hmin, elem_of_cons; [by left|right]. destruct (Hs x ltac:(by right)) as [E _]. by rewrite <- E.
Qed.

Variable minor : Z -> Z.

Lemma misc_of_fits es : Forall mfits (omap (misc_of minor) es).
Proof.
  apply Forall_forall. intros [mn fam] Hd. apply list_elem_of_omap in Hd as (e & _ & He). unfold misc_of in He. destruct (hidden e); [done|].
  destruct (d_stat e) as [st|]; [|done]. destruct (S_ISCHR st); [|done]. destruct (_ || _); [done|]. injection He as _ <-. by apply dev_family_fits.
Qed.

Lemma misc_of_kept mn fam (es : list dev_entry) : (mn, fam) ∈ omap (misc_of minor) es -> misc_excluded fam = false.
Proof.
  intros Hd. apply list_elem_of_omap in Hd as (e & _ & He). unfold misc_of in He. destruct (hidden e); [done|].
  destruct (d_stat e) as [st|]; [|done]. destruct (S_ISCHR st); [|done]. destruct (String.eqb _ _); [done|]. cbn [orb] in He.
  destruct (misc_excluded _) eqn:E; [done|]. injection He as _ <-. done.
Qed.
End MiscTable.

Lemma strcmp_total a b : strcmp a b <= 0 \/ strcmp b a <= 0.
Proof.
  revert b. induction a as [|c a IH]; intros [|d b]; cbn; [lia..|]. rewrite (Z.eqb_sym (chr d)). destruct (Z.eqb_spec (chr c) (chr d)); [apply IH|lia].
Qed.

Lemma strcmp_trans a b c : strcmp a b <= 0 -> strcmp b c <= 0 -> strcmp a c <= 0.
Proof.
  revert b c. induction a as [|x a IH]; intros [|y b] [|z c]; cbn; try lia.
  destruct (Z.eqb_spec (chr x) (chr y)), (Z.eqb_spec (chr y) (chr z)), (Z.eqb_spec (chr x) (chr z)); try lia. apply IH.
Qed.

Lemma miscrow_cmp_total x y : miscrow_cmp x y <= 0 \/ miscrow_cmp y x <= 0.
Proof.
  unfold miscrow_cmp. rewrite (Z.eqb_sym (mr_minor y)). destruct (Z.eqb_spec (mr_minor x) (mr_minor y)); cbn [negb]; [apply strcmp_total|].
  rewrite !cmp_of_le. lia.
Qed.

Lemma miscrow_cmp_trans x y z : miscrow_cmp x y <= 0 -> miscrow_cmp y z <= 0 -> miscrow_cmp x z <= 0.
Proof.
  unfold miscrow_cmp. destruct (Z.eqb_spec (mr_minor x) (mr_minor y)), (Z.eqb_spec (mr_minor y) (mr_minor z)), (Z.eqb_spec (mr_minor x) (mr_minor z));
    cbn [negb]; rewrite ?cmp_of_le; try lia. apply strcmp_trans.
Qed.

(** ** The table of terminals *)
Section TtyTable.
Definition tkey (d : Z * Z * string) : Z := fst (fst d).
Definition tty_upd (d : Z * Z * string) : ttyrow -> ttyrow := widen (snd (fst d)).
Lemma tkey_new d : tr_major (tty_new d) = tkey d.
Proof. by destruct d as [[maj mn] n]. Qed.
Lemma tkey_upd d r : tr_major (tty_upd d r) = tr_major r.
Proof. done. Qed.

Definition ttys_table : list (Z * Z * string) -> list ttyrow -> Prop := table_of tkey tr_major tty_new tty_upd.

Lemma tty_loop_table ds : forall before rows cap, ttys_table before rows -> ttys_table (before ++ ds)%list (tty_loop (fun _ => true) ds rows cap).
Proof.
  induction ds as [|[[maj mn] n] ds IH]; intros before rows cap Ht; cbn [tty_loop]; [by rewrite app_nil_r|].
  rewrite (update_row_ext _ (fun r => bool_decide (tr_major r = tkey (maj, mn, n))) _ (tty_upd (maj, mn, n))); [..|done].
  - rewrite cons_middle, app_assoc. destruct (update_row _ _ rows) as [rows'|] eqn:E; [|destruct (grow_some 32 (tty_new (maj, mn, n)) rows cap) as [cap' ->]]; apply IH.
    + by apply (table_update tkey tr_major tty_new tty_upd tkey_new tkey_upd _ _ rows).
    + by apply (table_new tkey tr_major tty_new tty_upd tkey_new tkey_upd before (maj, mn, n) rows).
  - intros r. unfold tkey. cbn. destruct (Z.eqb_spec (tr_major r) maj); case_bool_decide; congruence.
Qed.

Lemma fold_widen l (r : ttyrow) :
  fold_left (fun r d => tty_upd d r) l r
  = Ttyrow (tr_major r) (fold_left (fun b (d : Z * Z * string) => Z.min b (snd (fst d))) l (tr_min r))
      (fold_left (fun b (d : Z * Z * string) => Z.max b (snd (fst d))) l (tr_max r)) (tr_name r) (tr_type r).
Proof.
  revert r. induction l as [|d l IH]; intros r; cbn; [by destruct r|]. rewrite IH. unfold tty_upd, widen. cbn.
  f_equal; f_equal; [destruct (Z.ltb_spec (snd (fst d)) (tr_min r)); lia|destruct (Z.ltb_spec (tr_max r) (snd (fst d))); lia].
Qed.

(** The row of a driver: name and type of its first device, and the range of the
    minors of all its devices, both ends taken. *)
Definition describes (ds : list (Z * Z * string)) (r : ttyrow) : Prop :=
  (exists pre mn n post, ds = (pre ++ (tr_major r, mn, n) :: post)%list /\ (forall x, x ∈ pre -> tkey x <> tr_major r)
     /\ tr_name r = tty_family n 64 /\ tr_type r = tty_type n)
  /\ (forall mn n, (tr_major r, mn, n) ∈ ds -> tr_min r <= mn <= tr_max r)
  /\ (exists n, (tr_major r, tr_min r, n) ∈ ds) /\ exists n, (tr_major r, tr_max r, n) ∈ ds.

Lemma tty_type_fits n : strlcpy (tty_type n) 16 = tty_type n.
Proof. apply strlcpy_fits. unfold tty_type. repeat match goal with |- context [if ?b then _ else _] => destruct b end; by vm_compute. Qed.

Lemma ttys_describe ds rows r : ttys_table ds rows -> r ∈ rows -> describes ds r.
Proof.
  intros [_ Ht] Hr. apply Ht in Hr. rewrite agg_filter in Hr. destruct (filter _ ds) as [|d0 l] eqn:E; [done|]. injection Hr as Hr.
  assert (Hin : forall d, d ∈ d0 :: l -> tkey d = tr_major r /\ d ∈ ds) by (intros d; rewrite <- E, list_elem_of_filter; done).
  assert (Hof : forall d, d ∈ ds -> tkey d = tr_major r -> d ∈ d0 :: l) by (intros d Hd Hk; rewrite <- E, list_elem_of_filter; done).
  rewrite fold_widen in Hr. destruct (filter_split _ ds [] d0 l E) as (pre & post & Ed & Ep & _).
  destruct d0 as [[maj mn] n]. destruct (Hin (maj, mn, n) ltac:(by left)) as [Hk _]. cbn in Hk. subst maj. cbn [tty_new tr_major tr_min tr_max tr_name tr_type] in Hr.
  destruct (fold_min_spec (fun d : Z * Z * string => snd (fst d)) l mn) as (L1 & L2 & L3).
  destruct (fold_max_spec (fun d : Z * Z * string => snd (fst d)) l mn) as (U1 & U2 & U3).
  destruct r as [M mi ma nm ty]. cbn [tr_major tr_min tr_max tr_name tr_type] in *. injection Hr as <- <- <- <-.
  unfold describes. cbn [tr_major tr_min tr_max tr_name tr_type]. split_and!.
  - exists pre, mn, n, post. split_and!; [done| |done|apply tty_type_fits]. intros x Hx Hk.
    assert (Hm : x ∈ filter (fun d => tkey d = M) pre) by by apply list_elem_of_filter. rewrite Ep in Hm. by apply elem_of_nil in Hm.
  - intros mn' n' Hd. apply Hof in Hd; [|done]. apply elem_of_cons in Hd as [[= -> ->]|Hd]; [done|]. split; [by apply (L2 (M, mn', n'))|by apply (U2 (M, mn', n'))].
  - destruct L3 as [->|([[m' v] n'] & Hx & ->)]; [exists n; by apply Hin, elem_of_cons; left|]. exists n'.
    destruct (Hin _ ltac:(right; exact Hx)) as [Hk Hd]. cbn in Hk. by subst m'.
  - destruct U3 as [->|([[m' v] n'] & Hx & ->)]; [exists n; by apply Hin, elem_of_cons; left|]. exists n'.
    destruct (Hin _ ltac:(right; exact Hx)) as [Hk Hd]. cbn in Hk. by subst m'.
Qed.

Lemma ttys_cover ds rows maj : ttys_table ds rows -> (exists r, r ∈ rows /\ tr_major r = maj) <-> exists mn n, (maj, mn, n) ∈ ds.
Proof.
  intros Ht. split.
  - intros (r & Hr & <-). destruct (ttys_describe ds rows r Ht Hr) as (_ & _ & [n Hn] & _). by exists (tr_min r), n.
  - intros (mn & n & Hd). destruct (agg tkey tty_new tty_upd maj ds) as [r|] eqn:E.
    + pose proof (agg_key _ _ _ _ tkey_new tkey_upd _ _ _ E) as <-. exists r. split; [by apply (proj2 Ht)|done].
    + exfalso. by apply (proj1 (agg_none tkey tty_new tty_upd _ _) E _ Hd).
Qed.
End TtyTable.

(** ** What /proc/devices means *)
(** The device in /dev with this kind and major: its name does not begin with a dot,
    lstat succeeds, and the type bits of the mode are those of the kind. *)
Definition device_in (major : Z -> Z) (blk : bool) (m : Z) (e : dev_entry) : Prop :=
  (forall s, d_name e <> String "." s)
  /\ exists st, d_stat e = Some st /\ Z.land (st_mode st) 0xf000 = (if blk then 0x6000 else 0x2000) /\ major (st_rdev st) = m.

Local Abbreviation chars := list_ascii_of_string.
Definition digit (c : ascii) : Prop := 48 <= chr c <= 57.
Definition separator (c : ascii) : Prop := c ∈ ["."; "_"; "-"]%char.

(** The family of a device name, within 63 characters: what stands before the first
    digit, without the dots, underscores and dashes at its end, but at least the first
    character; the whole name when it begins with a digit. *)
Inductive family : string -> string -> Prop :=
| Fam_whole name : (forall c s, name = String c s -> digit c) -> family name (str_take 63 name)
| Fam_stem c stem seps rest :
    Forall (fun x => ~ digit x) (chars (String c (stem +:+ seps))) -> Forall separator (chars seps) ->
    (forall u x, stem = u +:+ String x "" -> ~ separator x) ->
    (rest = ""%string \/ (exists x r, rest = String x r /\ digit x) \/ String.length (stem +:+ seps) = 62%nat) ->
    (String.length (stem +:+ seps) <= 62)%nat ->
    family (String c (stem +:+ seps +:+ rest)) (String c stem).

(** The name of a row: the family of a device of its kind and major whose family is
    shorter than those before it and not longer than those after it. *)
Definition names_major (major : Z -> Z) (es : list dev_entry) (r : devrow) : Prop :=
  exists pre e post, es = (pre ++ e :: post)%list /\ device_in major (dr_block r) (dr_major r) e /\ family (d_name e) (dr_name r)
    /\ (forall e' nm, e' ∈ pre -> device_in major (dr_block r) (dr_major r) e' -> family (d_name e') nm -> strlen (dr_name r) < strlen nm)
    /\ (forall e' nm, e' ∈ post -> device_in major (dr_block r) (dr_major r) e' -> family (d_name e') nm -> strlen (dr_name r) <= strlen nm).

Lemma is_digit_iff c : is_digit c = true <-> digit c.
Proof. unfold is_digit, digit. lia. Qed.
Lemma is_digit_not c : is_digit c = false <-> ~ digit c.
Proof. unfold is_digit, digit. lia. Qed.
Lemma is_sep_iff c : is_sep c = true <-> separator c.
Proof.
  unfold separator. rewrite !elem_of_cons, elem_of_nil. destruct c as [[] [] [] [] [] [] [] []]; cbn; split; try done; tauto || (intros [|[|[|]]]; done).
Qed.

(** What [cut] keeps and where it stops. *)
Lemma cut_app stop n a rest : Forall (fun x => stop x = false) (chars a) -> (String.length a <= n)%nat ->
  rest = ""%string \/ (exists x r, rest = String x r /\ stop x = true) \/ String.length a = n -> cut stop n (a +:+ rest) = a.
Proof.
  revert n. induction a as [|x a IH]; intros n Ha Hl Hr; cbn in *.
  - destruct n as [|n]; [by destruct rest|]. destruct Hr as [->|[(x & r & -> & Hx)|?]]; [done|change (cut stop (S n) (String x r) = ""%string); cbn; by rewrite Hx|lia].
  - destruct n as [|n]; [lia|]. inversion_clear Ha as [|? ? Hx Ha']. change (String x a +:+ rest) with (String x (a +:+ rest)). cbn. rewrite Hx. f_equal. apply IH; [done|lia|].
    destruct Hr as [?|[?|?]]; [by left|right; by left|right; right; lia].
Qed.

Lemma cut_spec stop n s : exists rest, s = cut stop n s +:+ rest /\ Forall (fun x => stop x = false) (chars (cut stop n s))
  /\ (rest = ""%string \/ (exists x r, rest = String x r /\ stop x = true) \/ String.length (cut stop n s) = n).
Proof.
  revert n. induction s as [|x s IH]; intros [|n]; cbn.
  - exists ""%string. split_and!; [done|constructor|by left].
  - exists ""%string. split_and!; [done|constructor|by left].
  - exists (String x s). split_and!; [done|constructor|by right; right].
  - destruct (stop x) eqn:E; [exists (String x s); split_and!; [done|constructor|right; left; eauto]|].
    destruct (IH n) as (rest & H1 & H2 & H3). exists rest. split_and!; [change (String x s = String x (cut stop n s +:+ rest)); by rewrite <- H1|by constructor|].
    destruct H3 as [?|[?|H3]]; [by left|by right; left|right; right; cbn; by rewrite H3].
Qed.

Definition ends_clean (s : string) : Prop := forall u x, s = u +:+ String x "" -> is_sep x = false.

Lemma ends_clean_tail c s : ends_clean (String c s) -> ends_clean s.
Proof. intros H u x ->. by apply (H (String c u) x). Qed.

Lemma trim_clean s : ends_clean s -> trim_tail s = s.
Proof.
  induction s as [|c s IH]; intros H; [done|]. cbn. rewrite (IH (ends_clean_tail _ _ H)). destruct s as [|d s]; [|done].
  by rewrite (H ""%string c eq_refl).
Qed.

Lemma trim_seps t : Forall (fun x => is_sep x = true) (chars t) -> trim_tail t = ""%string.
Proof. induction t as [|c t IH]; intros H; [done|]. cbn in *. inversion_clear H as [|? ? Hc Ht]. by rewrite (IH Ht), Hc. Qed.

Lemma trim_app s t : Forall (fun x => is_sep x = true) (chars t) -> trim_tail (s +:+ t) = trim_tail s.
Proof. intros Ht. induction s as [|c s IH]; [by apply trim_seps|]. change (trim_tail (String c (s +:+ t)) = trim_tail (String c s)). cbn. by rewrite IH. Qed.

Lemma trim_spec s : ends_clean (trim_tail s) /\ exists t, s = trim_tail s +:+ t /\ Forall (fun x => is_sep x = true) (chars t).
Proof.
  induction s as [|c s [IH1 (t & IH2 & IH3)]].
  - split; [by intros [|? ?] x|]. exists ""%string. split; [done|constructor].
  - cbn. destruct (trim_tail s) as [|d s'] eqn:E.
    + change (s = t) in IH2. subst t. destruct (is_sep c) eqn:Ec.
      * split; [by intros [|? ?] x|]. exists (String c s). split; [done|by constructor].
      * split; [|by exists s]. intros [|? [|? ?]] x [=]; by subst.
    + split; [|exists t; split; [|done]; change (String c s = String c (String d s' +:+ t)); by rewrite <- IH2].
      intros [|b u] x [=]. subst. by apply (IH1 u).
Qed.

Lemma dev_family_family name : family name (dev_family name 64).
Proof.
  unfold dev_family. change (Z.to_nat (64 - 1)) with 63%nat. destruct (cut_spec is_digit 63 name) as (rest & E & Hc & Hr).
  pose proof (cut_length is_digit 63 name) as Hl. destruct (cut is_digit 63 name) as [|c s].
  - apply Fam_whole. intros c s ->. change (String c s = rest) in E. subst rest. destruct Hr as [?|[(x & r & [= <- <-] & Hx)|?]]; [done|by apply is_digit_iff|done].
  - destruct (trim_spec s) as [Hend (seps & Es & Hs)]. rewrite E. set (stem := trim_tail s) in *. clearbody stem. subst s.
    change (String c (stem +:+ seps) +:+ rest) with (String c ((stem +:+ seps) +:+ rest)). rewrite <- str_app_assoc.
    cbn in Hl. apply Fam_stem; [|..|lia].
    + eapply Forall_impl; [exact Hc|]. intros x. by rewrite is_digit_not.
    + eapply Forall_impl; [exact Hs|]. intros x. apply is_sep_iff.
    + intros u x ->. rewrite <- is_sep_iff, (Hend u x eq_refl). done.
    + destruct Hr as [?|[(x & r & ? & Hx)|Hr]]; [by left|right; left; exists x, r; by rewrite <- is_digit_iff|right; right; cbn in Hr; lia].
Qed.

Lemma family_unique name fam : family name fam -> fam = dev_family name 64.
Proof.
  unfold dev_family. change (Z.to_nat (64 - 1)) with 63%nat. intros [nm H|c stem seps rest Hd Hs Hc Hr Hl].
  - destruct nm as [|c s]; [done|]. cbn [cut]. by rewrite (proj2 (is_digit_iff c) (H c s eq_refl)).
  - assert (Ecut : cut is_digit 63 (String c ((stem +:+ seps) +:+ rest)) = String c (stem +:+ seps)).
    { apply (cut_app is_digit 63 (String c (stem +:+ seps)) rest).
      - eapply Forall_impl; [exact Hd|]. intros x. by rewrite is_digit_not.
      - cbn. lia.
      - destruct Hr as [?|[(x & r & ? & Hx)|Hr]]; [by left|right; left; exists x, r; by rewrite is_digit_iff|right; right; cbn; lia]. }
    rewrite <- str_app_assoc in Ecut. rewrite Ecut. f_equal. rewrite trim_app, trim_clean; [done| |].
    + intros u x E. destruct (is_sep x) eqn:Ex; [|done]. apply is_sep_iff in Ex. by destruct (Hc u x E).
    + eapply Forall_impl; [exact Hs|]. intros x. apply is_sep_iff.
Qed.

Lemma hidden_iff e : hidden e = false <-> forall s, d_name e <> String "." s.
Proof.
  unfold hidden. destruct (d_name e) as [|c s]; [split; [intros _ s; done|done]|]. split.
  - intros H s' [= -> ->]. done.
  - intros H. apply not_true_iff_false. intros Hc. apply (H s). f_equal. clear H. destruct c as [[] [] [] [] [] [] [] []]; done.
Qed.

Lemma dev_of_iff major e m blk fam : dev_of major e = Some (m, blk, fam) <-> device_in major blk m e /\ family (d_name e) fam.
Proof.
  assert (Hf : family (d_name e) fam <-> fam = dev_family (d_name e) 64) by (split; [apply family_unique|intros ->; apply dev_family_family]).
  rewrite Hf. unfold dev_of, device_in. rewrite <- hidden_iff. destruct (hidden e); [split; [done|by intros [[? _] _]]|].
  destruct (d_stat e) as [st|]; [|split; [done|by intros [(_ & ? & ? & _) _]]]. unfold S_ISCHR, S_ISBLK, S_IFMT, S_IFCHR, S_IFBLK. split.
  - destruct (Z.eqb_spec (Z.land (st_mode st) 61440) 8192); [|destruct (Z.eqb_spec (Z.land (st_mode st) 61440) 24576); [|done]];
      intros [= <- <- <-]; split_and!; eauto.
  - intros [(_ & st' & [= <-] & Hm & <-) ->]. rewrite Hm. by destruct blk.
Qed.

Lemma omap_split {A B} (f : A -> option B) l pre x post : omap f l = (pre ++ x :: post)%list ->
  exists pre' a post', l = (pre' ++ a :: post')%list /\ f a = Some x /\ omap f pre' = pre /\ omap f post' = post.
Proof.
  revert pre. induction l as [|a l IH]; intros pre E; [by destruct pre|]. cbn in E. destruct (f a) as [y|] eqn:Ea.
  - destruct pre as [|y' pre]; injection E as E1 E2.
    + subst. by exists [], a, l.
    + subst. destruct (IH _ E2) as (pre' & b & post' & -> & Hb & <- & <-). exists (a :: pre'), b, post'. split_and!; try done. cbn. by rewrite Ea.
  - destruct (IH _ E) as (pre' & b & post' & -> & Hb & <- & <-). exists (a :: pre'), b, post'. split_and!; try done. cbn. by rewrite Ea.
Qed.

Lemma first_shortest_names major es r : first_shortest major es r -> names_major major es r.
Proof.
  intros (pre & post & E & Hpre & Hpost). destruct (omap_split _ _ _ _ _ E) as (pre' & e & post' & -> & He & Ep & Eq).
  apply dev_of_iff in He as [He Hf]. exists pre', e, post'. split_and!; [done..| |]; intros e' nm Hin Hd Hn.
  - apply Hpre. rewrite <- Ep. apply list_elem_of_omap. exists e'. split; [done|by apply dev_of_iff].
  - apply Hpost. rewrite <- Eq. apply list_elem_of_omap. exists e'. split; [done|by apply dev_of_iff].
Qed.

Lemma devices_kept major (es : list dev_entry) m blk : (exists fam, (m, blk, fam) ∈ omap (dev_of major) es) <-> exists e, e ∈ es /\ device_in major blk m e.
Proof.
  setoid_rewrite list_elem_of_omap. setoid_rewrite dev_of_iff. split.
  - intros (fam & e & He & Hd & _). by exists e.
  - intros (e & He & Hd). exists (dev_family (d_name e) 64), e. split_and!; [done..|apply dev_family_family].
Qed.

(** ** Theorems *)
Lemma filter_sorted {A} (R : A -> A -> Prop) (f : A -> bool) l : StronglySorted R l -> StronglySorted R (List.filter f l).
Proof.
  induction 1 as [|x l _ IH Hall]; cbn; [constructor|]. destruct (f x); [|done]. constructor; [done|].
  rewrite Forall_forall in Hall |- *. intros y Hy. apply list_elem_of_In, List.filter_In in Hy as [Hy _]. by apply Hall, list_elem_of_In.
Qed.

Lemma elem_filter {A} (f : A -> bool) (l : list A) x : x ∈ List.filter f l <-> x ∈ l /\ f x = true.
Proof. by rewrite !list_elem_of_In, List.filter_In. Qed.

(** The rows of one kind: the keys differ, so the majors do. *)
Lemma kind_strict (b : bool) rows : NoDup (rkey <$> rows) -> Sorted (fun x y => dr_major x <= dr_major y) rows ->
  StronglySorted (fun x y => dr_major x < dr_major y) (List.filter (fun r => Bool.eqb (dr_block r) b) rows).
Proof.
  intros Hn Hs. apply Sorted_StronglySorted in Hs; [|intros x y z; lia]. induction Hs as [|x l _ IH Hall]; [constructor|].
  cbn in Hn. apply NoDup_cons in Hn as [Hx Hn]. cbn. destruct (Bool.eqb_spec (dr_block x) b) as [E|]; [|by apply IH]. constructor; [by apply IH|].
  apply Forall_forall. intros y Hy. apply elem_filter in Hy as [Hy Eb]. apply Bool.eqb_prop in Eb. rewrite Forall_forall in Hall. specialize (Hall y Hy).
  assert (dr_major x <> dr_major y); [|lia]. intros Em. apply Hx. apply list_elem_of_fmap. exists y. split; [|done]. unfold rkey. congruence.
Qed.

(** C35. /proc/devices is right: given memory, the character and the block section
    list exactly the majors of the devices of that kind in /dev (by the type bits of
    st_mode; dot names and failing lstat left out), each once and in increasing order,
    and the name of a major is the family of its first device with the shortest family
    name. *)
Theorem devices_listing `{Qsort, !QsortLaws} major (es : list dev_entry) :
  exists chars blocks : list devrow,
    build_devices_blob major (fun _ => true) (Some es) true
    = Some (line "Character devices:" ++ concat (map dev_line chars) ++ [10] ++ line "Block devices:" ++ concat (map dev_line blocks))%list
    /\ StronglySorted (fun x y => dr_major x < dr_major y) chars /\ StronglySorted (fun x y => dr_major x < dr_major y) blocks
    /\ (forall m, (exists nm, Devrow m false nm ∈ chars) <-> exists e, e ∈ es /\ device_in major false m e)
    /\ (forall m, (exists nm, Devrow m true nm ∈ blocks) <-> exists e, e ∈ es /\ device_in major true m e)
    /\ (forall r, r ∈ chars \/ r ∈ blocks -> names_major major es r).
Proof.
  unfold build_devices_blob. set (rows0 := fst (fold_left _ _ _)).
  assert (Ht0 : devs_table (omap (dev_of major) es) rows0) by apply devs_table_of.
  pose proof (qsort_perm devrow_cmp rows0) as Hp. set (rows := qsort devrow_cmp rows0) in *.
  assert (Ht : devs_table (omap (dev_of major) es) rows).
  { destruct Ht0 as [Hn Ha]. split; [by rewrite Hp|]. intros r. by rewrite Hp. }
  assert (Hs : Sorted (fun x y => dr_major x <= dr_major y) rows) by (apply (qsort_sorted devrow_cmp dr_major); intros x y; apply cmp_of_le).
  exists (List.filter (fun r => negb (dr_block r)) rows), (List.filter dr_block rows). split; [done|].
  assert (E1 : List.filter (fun r => negb (dr_block r)) rows = List.filter (fun r => Bool.eqb (dr_block r) false) rows)
    by (apply List.filter_ext; by intros [? [] ?]).
  assert (E2 : List.filter dr_block rows = List.filter (fun r => Bool.eqb (dr_block r) true) rows) by (apply List.filter_ext; by intros [? [] ?]).
  rewrite E1, E2. destruct Ht as [Hn Ha]. split_and!; [by apply kind_strict..| | |].
  - intros m. rewrite <- devices_kept, <- (table_covers major es rows m false (conj Hn Ha)). split; intros [nm Hr]; exists nm; [by apply elem_filter in Hr as [Hr _]|by apply elem_filter].
  - intros m. rewrite <- devices_kept, <- (table_covers major es rows m true (conj Hn Ha)). split; intros [nm Hr]; exists nm; [by apply elem_filter in Hr as [Hr _]|by apply elem_filter].
  - intros r [Hr|Hr]; apply elem_filter in Hr as [Hr _]; by apply first_shortest_names, (table_names major es rows r (conj Hn Ha)).
Qed.

(** /proc/misc is right: given memory, one line per family of character devices that
    is not excluded, with the lowest minor of the family, in the order of minors and
    then of names. *)
Theorem misc_listing `{Qsort, !QsortLaws} minor (es : list dev_entry) :
  exists rows : list miscrow,
    build_misc_blob minor (fun _ => true) (Some es) true = Some (concat (map misc_line rows))
    /\ misc_table (omap (misc_of minor) es) rows /\ Sorted (fun x y => miscrow_cmp x y <= 0) rows
    /\ forall r, r ∈ rows -> misc_excluded (mr_name r) = false.
Proof.
  unfold build_misc_blob. set (rows0 := misc_loop _ _ _ _).
  assert (Ht0 : misc_table (omap (misc_of minor) es) rows0).
  { apply misc_table_spec; [apply misc_of_fits|]. apply (misc_loop_table _ [] [] 0); [apply misc_of_fits|apply table_nil]. }
  pose proof (qsort_perm miscrow_cmp rows0) as Hp. eexists. split; [reflexivity|]. destruct Ht0 as [Hn Ha]. split_and!.
  - split; [by rewrite Hp|]. intros r. by rewrite Hp.
  - apply qsort_sorted_cmp; [apply miscrow_cmp_total|apply miscrow_cmp_trans].
  - intros r. rewrite Hp, Ha. intros [Hr _]. by apply misc_of_kept in Hr.
Qed.

(** /proc/tty/drivers is right: given memory, one line per major of the terminal
    devices, in increasing order, with the name and type of its first device and the
    exact range of minors. *)
Theorem tty_listing `{Qsort, !QsortLaws} major minor (es : list dev_entry) :
  exists rows : list ttyrow,
    build_ttydrivers_blob major minor (fun _ => true) (Some es) true = Some (concat (map tty_line rows))
    /\ StronglySorted (fun x y => tr_major x < tr_major y) rows
    /\ (forall maj, (exists r, r ∈ rows /\ tr_major r = maj) <-> exists mn n, (maj, mn, n) ∈ omap (tty_of major minor) es)
    /\ forall r, r ∈ rows -> describes (omap (tty_of major minor) es) r.
Proof.
  unfold build_ttydrivers_blob. set (rows0 := tty_loop _ _ _ _).
  assert (Ht0 : ttys_table (omap (tty_of major minor) es) rows0) by (apply (tty_loop_table _ [] [] 0), table_nil).
  pose proof (qsort_perm ttyrow_cmp rows0) as Hp. set (rows := qsort ttyrow_cmp rows0) in *.
  assert (Ht : ttys_table (omap (tty_of major minor) es) rows) by (destruct Ht0 as [Hn Ha]; split; [by rewrite Hp|intros r; by rewrite Hp]).
  exists rows. split_and!; [done| | |].
  - apply sorted_strict; [|apply Ht]. apply (qsort_sorted ttyrow_cmp tr_major). intros x y. apply cmp_of_le.
  - intros maj. by apply ttys_cover.
  - intros r. by apply ttys_describe.
Qed.

(** ** Witnesses *)
Definition sample_dev : list dev_entry :=
  [DevEntry "." (Some (DevStat 16877 0)); DevEntry "disk0" (Some (DevStat 24992 16777216)); DevEntry "rdisk0" (Some (DevStat 8608 16777216));
   DevEntry "disk0s1" (Some (DevStat 24992 16777217)); DevEntry "null" (Some (DevStat 8630 50331650)); DevEntry "tty" (Some (DevStat 8630 33554432));
   DevEntry "ttys000" (Some (DevStat 8592 268435456)); DevEntry "ttys003" (Some (DevStat 8592 268435459)); DevEntry "bpf1" (Some (DevStat 8576 385875969));
   DevEntry "bpf0" (Some (DevStat 8576 385875968)); DevEntry "gone" None]%string.
Definition dev_major (d : Z) : Z := Z.land (Z.shiftr d 24) 255.
Definition dev_minor (d : Z) : Z := Z.land d 16777215.

Lemma devices_listing_witness :
  build_devices_blob dev_major (fun _ => true) (Some sample_dev) true
  = Some (line "Character devices:" ++ line "  1 rdisk" ++ line "  2 tty" ++ line "  3 null" ++ line " 16 ttys" ++ line " 23 bpf" ++ [10]
          ++ line "Block devices:" ++ line "  1 disk")%list
  /\ exists chars blocks : list devrow, (exists nm, Devrow 23 false nm ∈ chars) /\ (exists nm, Devrow 1 true nm ∈ blocks)
       /\ forall r, r ∈ chars \/ r ∈ blocks -> names_major dev_major sample_dev r.
Proof.
  split; [vm_compute; reflexivity|]. destruct (devices_listing dev_major sample_dev) as (chars & blocks & _ & _ & _ & Hc & Hb & H).
  exists chars, blocks. split_and!; [apply Hc; exists (DevEntry "bpf1" (Some (DevStat 8576 385875969)))|apply Hb; exists (DevEntry "disk0" (Some (DevStat 24992 16777216)))|done].
  - split; [by do 8 right; left|]. split; [done|]. by eexists.
  - split; [by do 1 right; left|]. split; [done|]. by eexists.
Defined.

Lemma misc_listing_witness :
  build_misc_blob dev_minor (fun _ => true) (Some sample_dev) true = Some (line "  0 bpf")
  /\ exists rows : list miscrow, misc_table (omap (misc_of dev_minor) sample_dev) rows.
Proof. split; [vm_compute; reflexivity|]. destruct (misc_listing dev_minor sample_dev) as (rows & _ & H & _). by exists rows. Defined.

Lemma tty_listing_witness :
  build_ttydrivers_blob dev_major dev_minor (fun _ => true) (Some sample_dev) true
  = Some (line "tty                  /dev/tty      2 0 system" ++ line "ttys                 /dev/ttys    16 0-3 pty:slave")%list
  /\ exists rows : list ttyrow, forall r, r ∈ rows -> describes (omap (tty_of dev_major dev_minor) sample_dev) r.
Proof.
  split; [vm_compute; reflexivity|]. destruct (tty_listing dev_major dev_minor sample_dev) as (rows & _ & _ & _ & H). by exists rows.
Defined.
