(* ===== verification/NetTables.v ===== *)
(** * Network tables (tools/procfsd.c, tools/net_pcb_abi.h)

    /proc/net/tcp, udp and unix are made from the pcblist_n streams of the kernel,
    blocks tagged with their length and kind; /proc/net/route and arp from the dump
    of the routing socket, messages followed by socket addresses; netstat and snmp
    from counters.  A stream is the list of the bytes the kernel wrote; a read of
    other bytes, beyond the stream, is [None]. *)
From S2P Require Import Prelude Kernel Text Subr Map Format Blobs.
From Stdlib Require Import ZArith Lia String.
From stdpp Require Import base list numbers strings sets.
Open Scope Z_scope.

(** ** Fetching a stream *)
(** One attempt: the size the kernel announces (none: the call fails), whether the
    buffer could be grown, and the data or the errno of the second call. *)
Record attempt := Attempt { at_size : option Z; at_realloc : bool; at_data : bytes + Z }.

(** The attempts still allowed. *)
Fixpoint fetch (l : list attempt) : option bytes :=
  match l with
  | [] => None
  | a :: l' =>
      match at_size a with
      | None => None
      | Some need =>
          if need =? 0 then None
          else if negb (at_realloc a) then None
          else match at_data a with
               | inl bs => Some bs
               | inr errno => if errno =? ENOMEM then fetch l' else None
               end
      end
  end.
Definition FETCH_ATTEMPTS : nat := 6.

(** ** Socket tables *)
Definition XSO_SOCKET : Z := 1.
Definition XSO_RCVBUF : Z := 2.
Definition XSO_SNDBUF : Z := 4.
Definition XSO_STATS : Z := 8.
Definition XSO_INPCB : Z := 16.
Definition XSO_TCPCB : Z := 32.
Definition XSO_UNPCB : Z := 512.
Definition PROCFS_SS_ISCONNECTED : Z := 2.
Definition INP_IPV4 : Z := 1.
Definition INP_IPV6 : Z := 2.
Definition SO_ACCEPTCONN : Z := 2.

(** [x + 7u] is computed in 32 bits. *)
Definition PROCFS_ROUNDUP64 (x : Z) : Z := Z.land (u32 (x + 7)) (Z.lnot 7).

Definition procfs_tcp_state_linux : list Z := [7; 10; 2; 3; 1; 8; 4; 11; 9; 5; 6].

Definition ntohs (v : Z) : Z := Z.lor (Z.shiftl (Z.land v 255) 8) (Z.shiftr v 8).

(** [%0nX]. *)
Definition hexU (n : nat) (v : Z) : bytes := map (fun c => if (97 <=? c) && (c <=? 102) then c - 32 else c) (hex_min n v).

(** The blocks of the record being collected, as offsets. *)
Record pcb_ptrs := Ptrs { xi : option Z; xso : option Z; xt : option Z; rcv : option Z; snd_ : option Z }.
Definition no_ptrs : pcb_ptrs := Ptrs None None None None None.

(** A line of the table. *)
Record pcb_row := PcbRow { pr_laddr : list Z; pr_lport : Z; pr_faddr : list Z; pr_fport : Z; pr_st : Z; pr_txq : Z; pr_rxq : Z; pr_uid : Z }.

Section Pcb.
Variable F : bytes.
Variable want_vflag : Z.
Variable is_tcp : bool.

Definition v6 : bool := want_vflag =? INP_IPV6.

(** A field through a pointer that may be NULL. *)
Definition rd_opt (p : option Z) (off : Z) (n : nat) : option Z := match p with Some p => rd F (p + off) n | None => Some 0 end.

(** EMIT_RECORD: the line of the record collected so far, if it is wanted. *)
Definition emit_record (s : pcb_ptrs) : option (list pcb_row) :=
  match xi s with
  | None => Some []
  | Some p =>
      vflag ← rd F (p + 44) 1;
      if Z.land vflag want_vflag =? 0 then Some []
      else
        lport ← rd F (p + 18) 2;
        fport ← rd F (p + 16) 2;
        ts ← (if is_tcp then rd_opt (xt s) 36 4 else Some 0);
        let st := if is_tcp then (if 0 <=? i32 ts then default 0 (procfs_tcp_state_linux !! Z.to_nat (i32 ts)) else 0)
                  else if negb (fport =? 0) then 1 else 7 in
        uid ← rd_opt (xso s) 64 4;
        txq ← rd_opt (snd_ s) 8 4;
        rxq ← rd_opt (rcv s) 8 4;
        if v6 then
          l0 ← rd F (p + 64) 4; l1 ← rd F (p + 68) 4; l2 ← rd F (p + 72) 4; l3 ← rd F (p + 76) 4;
          f0 ← rd F (p + 48) 4; f1 ← rd F (p + 52) 4; f2 ← rd F (p + 56) 4; f3 ← rd F (p + 60) 4;
          Some [PcbRow [l0; l1; l2; l3] (ntohs lport) [f0; f1; f2; f3] (ntohs fport) st txq rxq uid]
        else
          la ← rd F (p + 76) 4;
          fa ← rd F (p + 60) 4;
          Some [PcbRow [la] (ntohs lport) [fa] (ntohs fport) st txq rxq uid]
  end.

(** The walk over the blocks from [p]; every round advances by 8 bytes or more. *)
Fixpoint pcb_walk (fuel : nat) (p : Z) (s : pcb_ptrs) : option (list pcb_row) :=
  match fuel with
  | O => None
  | S f =>
      if p + 8 <=? Z.of_nat (length F) then
        blen ← rd F p 4;
        kind ← rd F (p + 4) 4;
        if blen <? 8 then emit_record s
        else
          let adv := PROCFS_ROUNDUP64 blen in
          if (Z.of_nat (length F) <? p + adv) || (adv =? 0) then emit_record s
          else if kind =? XSO_INPCB then
            r ← emit_record s;
            rest ← pcb_walk f (p + adv) (Ptrs (Some p) None None None None);
            Some (r ++ rest)%list
          else if kind =? XSO_SOCKET then pcb_walk f (p + adv) (Ptrs (xi s) (Some p) (xt s) (rcv s) (snd_ s))
          else if kind =? XSO_RCVBUF then pcb_walk f (p + adv) (Ptrs (xi s) (xso s) (xt s) (Some p) (snd_ s))
          else if kind =? XSO_SNDBUF then pcb_walk f (p + adv) (Ptrs (xi s) (xso s) (xt s) (rcv s) (Some p))
          else if kind =? XSO_TCPCB then pcb_walk f (p + adv) (Ptrs (xi s) (xso s) (Some p) (rcv s) (snd_ s))
          else if kind =? XSO_STATS then pcb_walk f (p + adv) s
          else emit_record s
      else emit_record s
  end.

(** The rows of a stream; a stream shorter than a xinpgen has none. *)
Definition pcb_rows : option (list pcb_row) :=
  if Z.of_nat (length F) <? 24 then Some []
  else
    xig_len ← rd F 0 4;
    pcb_walk (S (length F)) (PROCFS_ROUNDUP64 xig_len) no_ptrs.
End Pcb.

Definition pcb_line (sl : nat) (r : pcb_row) : bytes :=
  (pad_left 4 32 (sdec (Z.of_nat sl)) ++ lit ": " ++ concat (map (hexU 8) (pr_laddr r)) ++ lit ":" ++ hexU 4 (pr_lport r) ++ lit " "
   ++ concat (map (hexU 8) (pr_faddr r)) ++ lit ":" ++ hexU 4 (pr_fport r) ++ lit " " ++ hexU 2 (pr_st r) ++ lit " "
   ++ hexU 8 (pr_txq r) ++ lit ":" ++ hexU 8 (pr_rxq r) ++ lit " " ++ hexU 2 0 ++ lit ":" ++ hexU 8 0 ++ lit " " ++ hexU 8 0 ++ lit " "
   ++ udec 5 (pr_uid r) ++ lit " " ++ pad_left 8 32 (sdec 0) ++ lit " " ++ dec 0 ++ [10])%list.

Definition pcb_hdr (want_vflag : Z) : bytes :=
  if want_vflag =? INP_IPV6 then
    (lit "  sl  local_address                         " ++ lit "remote_address                        st tx_queue rx_queue tr"
     ++ line " tm->when retrnsmt   uid  timeout inode")%list
  else (lit "  sl  local_address rem_address   st tx_queue rx_queue tr" ++ line " tm->when retrnsmt   uid  timeout inode")%list.

(** [mem_ok]: the memory stream could be opened; [None] inside: no table. *)
Definition build_net_pcb_blob (want_vflag : Z) (is_tcp mem_ok : bool) (attempts : list attempt) : option (option bytes) :=
  if mem_ok then
    let hdr := pcb_hdr want_vflag in
    match fetch (take FETCH_ATTEMPTS attempts) with
    | None => Some (Some hdr)
    | Some F =>
        rows ← pcb_rows F want_vflag is_tcp;
        Some (Some (hdr ++ concat (imap pcb_line rows))%list)
    end
  else Some None.

(** *** /proc/net/unix *)
Record unix_row := UnixRow { ur_unpp : Z; ur_refcnt : Z; ur_flags : Z; ur_type : Z; ur_st : Z; ur_ino : Z; ur_path : bytes }.

Section Unix.
Variable F : bytes.

(** sun_path at [off]: up to its NUL, at most 104 bytes. *)
Definition sun_path (off : Z) : option bytes :=
  let avail := take 104 (drop (Z.to_nat off) F) in
  if bool_decide (0 ∈ avail) || (length avail =? 104)%nat then Some (c_str avail) else None.

(** EMIT_UNIX. *)
Definition emit_unix (xu xso : option Z) : option (list unix_row) :=
  match xu with
  | None => Some []
  | Some p =>
      type ← rd_opt F xso 16 2;
      refcnt ← rd_opt F xso 92 4;
      options ← rd_opt F xso 20 4;
      state ← rd_opt F xso 26 2;
      let listen := match xso with Some _ => negb (Z.land options SO_ACCEPTCONN =? 0) | None => false end in
      let flags := if listen then 65536 else 0 in
      let connected := match xso with Some _ => negb (Z.land state PROCFS_SS_ISCONNECTED =? 0) | None => false end in
      let st := if negb listen && connected then 3 else 1 in
      path ← sun_path (p + 78);
      unpp ← rd F (p + 8) 8;
      ino ← rd F (p + 24) 8;
      Some [UnixRow unpp refcnt flags (u32 (wrap_s 16 type)) st ino path]
  end.

Fixpoint unix_walk (fuel : nat) (p : Z) (xu xso : option Z) : option (list unix_row) :=
  match fuel with
  | O => None
  | S f =>
      if p + 8 <=? Z.of_nat (length F) then
        blen ← rd F p 4;
        kind ← rd F (p + 4) 4;
        if blen <? 8 then emit_unix xu xso
        else
          let adv := PROCFS_ROUNDUP64 blen in
          if (Z.of_nat (length F) <? p + adv) || (adv =? 0) then emit_unix xu xso
          else if kind =? XSO_UNPCB then
            r ← emit_unix xu xso;
            rest ← unix_walk f (p + adv) (Some p) None;
            Some (r ++ rest)%list
          else if kind =? XSO_SOCKET then unix_walk f (p + adv) xu (Some p)
          else if (kind =? XSO_RCVBUF) || (kind =? XSO_SNDBUF) || (kind =? XSO_STATS) then unix_walk f (p + adv) xu xso
          else emit_unix xu xso
      else emit_unix xu xso
  end.

Definition unix_rows : option (list unix_row) :=
  if Z.of_nat (length F) <? 24 then Some []
  else
    xug_len ← rd F 0 4;
    unix_walk (S (length F)) (PROCFS_ROUNDUP64 xug_len) None None.
End Unix.

Definition unix_line (r : unix_row) : bytes :=
  (hex_min 16 (ur_unpp r) ++ lit ": " ++ hexU 8 (ur_refcnt r) ++ lit " " ++ hexU 8 0 ++ lit " " ++ hexU 8 (ur_flags r) ++ lit " "
   ++ hexU 4 (ur_type r) ++ lit " " ++ hexU 2 (ur_st r) ++ lit " " ++ udec 5 (ur_ino r)
   ++ match ur_path r with [] => [] | path => lit " " ++ path end ++ [10])%list.

(** The stream and the datagram sockets; a table that cannot be fetched is left
    out. *)
Definition build_net_unix_blob (mem_ok : bool) (stream dgram : list attempt) : option (option bytes) :=
  if mem_ok then
    let rows l := match fetch (take FETCH_ATTEMPTS l) with Some F => unix_rows F | None => Some [] end in
    s ← rows stream;
    d ← rows dgram;
    Some (Some (lit "Num       RefCount Protocol Flags    Type St " ++ line "Inode Path" ++ concat (map unix_line (s ++ d)))%list)
  else Some None.

(** ** Routes *)
Definition RTM_VERSION : Z := 5.
Definition RTF_UP : Z := 1.
Definition RTF_LLINFO : Z := 1024.
Definition RTF_WASCLONED : Z := 131072.
Definition RTF_LINUX : Z := 55.                (* RTF_UP | RTF_GATEWAY | RTF_HOST | RTF_DYNAMIC | RTF_MODIFIED *)
Definition AF_INET : Z := 2.
Definition AF_LINK : Z := 18.
Definition RTAX_MAX : nat := 8.
Definition rt_msghdr_size : Z := 92.

Definition PROCFS_SA_SIZE (sa_len : Z) : Z := if sa_len =? 0 then 4 else 1 + Z.lor (sa_len - 1) 3.

Section Route.
Variable F : bytes.
Variable if_indextoname : Z -> bytes.        (* the name; the caller's "*" when there is none *)

(** The addresses of a message, [k] left from RTAX number [i], the next one at [sa]:
    where each present one is. *)
Fixpoint sa_pass (k : nat) (i : Z) (addrs sa : Z) : option (list (Z * Z)) :=
  match k with
  | O => Some []
  | S k' =>
      if Z.land addrs (Z.shiftl 1 i) =? 0 then sa_pass k' (i + 1) addrs sa
      else if Z.of_nat (length F) <? sa + 1 then Some []
      else
        sa_len ← rd F sa 1;
        r ← sa_pass k' (i + 1) addrs (sa + PROCFS_SA_SIZE sa_len);
        Some ((i, sa) :: r)
  end.
Definition sa_find (i : Z) (l : list (Z * Z)) : option Z := snd <$> List.find (fun x => fst x =? i) l.

(** The line of the message at [p], if it has one. *)
Definition route_msg (p : Z) : option bytes :=
  version ← rd F (p + 2) 1;
  flags ← rd F (p + 8) 4;
  if (version =? RTM_VERSION) && negb (Z.land flags RTF_UP =? 0) && (Z.land flags (Z.lor RTF_WASCLONED RTF_LLINFO) =? 0) then
    addrs ← rd F (p + 12) 4;
    l ← sa_pass RTAX_MAX 0 addrs (p + rt_msghdr_size);
    match sa_find 0 l with
    | None => Some []
    | Some dst =>
        fam ← rd F (dst + 1) 1;
        if fam =? AF_INET then
          index ← rd F (p + 4) 2;
          d ← rd F (dst + 4) 4;
          g ← match sa_find 1 l with
              | None => Some 0
              | Some gw => gfam ← rd F (gw + 1) 1; if gfam =? AF_INET then rd F (gw + 4) 4 else Some 0
              end;
          m ← match sa_find 2 l with
              | None => Some 0
              | Some mask => mlen ← rd F mask 1; if 8 <=? mlen then rd F (mask + 4) 4 else Some 0
              end;
          Some ((if index =? 0 then lit "*" else if_indextoname index) ++ lit tab ++ hexU 8 d ++ lit tab ++ hexU 8 g ++ lit tab
                ++ hexU 4 (Z.land flags RTF_LINUX) ++ lit tab ++ dec 0 ++ lit tab ++ dec 0 ++ lit tab ++ dec 0 ++ lit tab ++ hexU 8 m
                ++ lit tab ++ dec 0 ++ lit tab ++ dec 0 ++ lit tab ++ dec 0 ++ [10])%list
        else Some []
    end
  else Some [].

(** The messages from [p]; each advances by a byte or more. *)
Fixpoint rtm_walk (msg : Z -> option bytes) (fuel : nat) (p : Z) : option bytes :=
  match fuel with
  | O => None
  | S f =>
      if p + rt_msghdr_size <=? Z.of_nat (length F) then
        msglen ← rd F p 2;
        if msglen =? 0 then Some []
        else
          r ← msg p;
          rest ← rtm_walk msg f (p + msglen);
          Some (r ++ rest)%list
      else Some []
  end.

Variable inet_ntop : Z -> bytes.

(** The line of an ARP entry: dst must be AF_INET and the gateway AF_LINK. *)
Definition arp_msg (p : Z) : option bytes :=
  version ← rd F (p + 2) 1;
  if version =? RTM_VERSION then
    addrs ← rd F (p + 12) 4;
    l ← sa_pass RTAX_MAX 0 addrs (p + rt_msghdr_size);
    dst ← match sa_find 0 l with None => Some None | Some a => fam ← rd F (a + 1) 1; Some (if fam =? AF_INET then Some a else None) end;
    sdl ← match sa_find 1 l with None => Some None | Some a => fam ← rd F (a + 1) 1; Some (if fam =? AF_LINK then Some a else None) end;
    match dst, sdl with
    | Some dst, Some sdl =>
        ip ← rd F (dst + 4) 4;
        index ← rd F (p + 4) 2;
        nlen ← rd F (sdl + 5) 1;
        alen ← rd F (sdl + 6) 1;
        let mac_at j := rd F (sdl + 8 + nlen + j) 1 in
        '(mac, flags) ← (if alen =? 6 then
            m0 ← mac_at 0; m1 ← mac_at 1; m2 ← mac_at 2; m3 ← mac_at 3; m4 ← mac_at 4; m5 ← mac_at 5;
            expire ← rd F (p + 48) 4;
            Some ((hex_min 2 m0 ++ lit ":" ++ hex_min 2 m1 ++ lit ":" ++ hex_min 2 m2 ++ lit ":" ++ hex_min 2 m3 ++ lit ":" ++ hex_min 2 m4
                   ++ lit ":" ++ hex_min 2 m5)%list, if expire =? 0 then 6 else 2)
          else Some (lit "00:00:00:00:00:00", 0));
        Some (pad_right 16 (inet_ntop ip) ++ lit " 0x" ++ pad_right 10 (print_x 1) ++ lit "0x" ++ pad_right 10 (print_x flags) ++ mac
              ++ lit "     " ++ pad_right 8 (lit "*") ++ lit " " ++ (if index =? 0 then lit "*" else if_indextoname index) ++ [10])%list
    | _, _ => Some []
    end
  else Some [].
End Route.

Definition route_table (hdr : bytes) (msg : bytes -> Z -> option bytes) (mem_ok : bool) (attempts : list attempt) : option (option bytes) :=
  if mem_ok then
    match fetch (take FETCH_ATTEMPTS attempts) with
    | None => Some (Some hdr)
    | Some F => text ← rtm_walk F (msg F) (S (length F)) 0; Some (Some (hdr ++ text)%list)
    end
  else Some None.

Definition route_hdr : bytes :=
  (lit ("Iface" +:+ tab +:+ "Destination" +:+ tab +:+ "Gateway " +:+ tab +:+ "Flags" +:+ tab +:+ "RefCnt" +:+ tab +:+ "Use" +:+ tab +:+ "Metric" +:+ tab)
   ++ line ("Mask" +:+ tab +:+ tab +:+ "MTU" +:+ tab +:+ "Window" +:+ tab +:+ "IRTT"))%list.
Definition build_net_route_blob (if_indextoname : Z -> bytes) : bool -> list attempt -> option (option bytes) :=
  route_table route_hdr (fun F => route_msg F if_indextoname).

Definition arp_hdr : bytes := (lit "IP address       HW type     Flags       " ++ line "HW address            Mask     Device")%list.
Definition build_net_arp_blob (if_indextoname inet_ntop : Z -> bytes) : bool -> list attempt -> option (option bytes) :=
  route_table arp_hdr (fun F => arp_msg F if_indextoname inet_ntop).

(** ** Counters *)
Record procfs_netkv := NetKv { kv_name : string; kv_val : Z }.

Definition procfs_emit_kv_section (prefix : string) (kv : list procfs_netkv) : bytes :=
  (lit prefix ++ lit ":" ++ concat (map (fun x => lit " " ++ lit (kv_name x)) kv) ++ [10]
   ++ lit prefix ++ lit ":" ++ concat (map (fun x => lit " " ++ sdec (kv_val x)) kv) ++ [10])%list.

(** The counters by the names of their fields; zero where the sysctl failed. *)
Section Counters.
Variables t ip ic u : string -> Z.           (* tcpstat, ipstat, icmpstat, udpstat *)
Variables inhist outhist : list Z.           (* icps_inhist and icps_outhist, by type *)

Definition tcpext : list procfs_netkv :=
  [NetKv "SyncookiesSent" 0; NetKv "SyncookiesRecv" 0; NetKv "SyncookiesFailed" 0; NetKv "EmbryonicRsts" (t "tcps_conndrops");
   NetKv "PruneCalled" 0; NetKv "ListenOverflows" (t "tcps_listendrop"); NetKv "ListenDrops" (t "tcps_listendrop");
   NetKv "DelayedACKs" (t "tcps_delack"); NetKv "DelayedACKLost" 0; NetKv "TCPPureAcks" (t "tcps_rcvackpack");
   NetKv "TCPTimeouts" (t "tcps_rexmttimeo"); NetKv "TCPLossProbes" 0; NetKv "TCPLostRetransmit" (t "tcps_sndrexmitbad");
   NetKv "PAWSEstab" (t "tcps_pawsdrop"); NetKv "TCPRcvCollapsed" 0; NetKv "TCPAbortOnData" (t "tcps_drops");
   NetKv "TCPAbortOnTimeout" (t "tcps_keepdrops")].
Definition ipext : list procfs_netkv :=
  [NetKv "InNoRoutes" (ip "ips_noroute"); NetKv "InTruncatedPkts" (ip "ips_toosmall"); NetKv "InMcastPkts" 0; NetKv "OutMcastPkts" 0;
   NetKv "InBcastPkts" 0; NetKv "OutBcastPkts" 0; NetKv "InOctets" 0; NetKv "OutOctets" 0; NetKv "InMcastOctets" 0; NetKv "OutMcastOctets" 0;
   NetKv "InBcastOctets" 0; NetKv "OutBcastOctets" 0; NetKv "InCsumErrors" (ip "ips_badsum"); NetKv "InNoECTPkts" 0].
Definition build_net_netstat_blob (mem_ok : bool) : option bytes :=
  if mem_ok then Some (procfs_emit_kv_section "TcpExt" tcpext ++ procfs_emit_kv_section "IpExt" ipext)%list else None.

Definition sumZ (l : list Z) : Z := fold_left Z.add l 0.
Definition icmp_in : Z := sumZ inhist.
Definition icmp_out : Z := sumZ outhist.
Definition icmp_inerr : Z := ic "icps_badcode" + ic "icps_tooshort" + ic "icps_checksum" + ic "icps_badlen".
Definition hist (h : list Z) (type : nat) : Z := default 0 (h !! type).

Definition ipkv (fwd ttl : Z) : list procfs_netkv :=
  [NetKv "Forwarding" (if negb (fwd =? 0) then 1 else 2); NetKv "DefaultTTL" ttl; NetKv "InReceives" (ip "ips_total");
   NetKv "InHdrErrors" (ip "ips_badsum" + ip "ips_tooshort" + ip "ips_toosmall" + ip "ips_badhlen" + ip "ips_badvers" + ip "ips_badlen");
   NetKv "InAddrErrors" (ip "ips_cantforward" + ip "ips_badaddr"); NetKv "ForwDatagrams" (ip "ips_forward");
   NetKv "InUnknownProtos" (ip "ips_noproto"); NetKv "InDiscards" 0; NetKv "InDelivers" (ip "ips_delivered");
   NetKv "OutRequests" (ip "ips_localout"); NetKv "OutDiscards" (ip "ips_odropped"); NetKv "OutNoRoutes" (ip "ips_noroute");
   NetKv "ReasmTimeout" (ip "ips_fragtimeout"); NetKv "ReasmReqds" (ip "ips_fragments"); NetKv "ReasmOKs" (ip "ips_reassembled");
   NetKv "ReasmFails" (ip "ips_fragdropped"); NetKv "FragOKs" (ip "ips_fragmented"); NetKv "FragFails" (ip "ips_cantfrag");
   NetKv "FragCreates" (ip "ips_ofragments")].
Definition icmpkv : list procfs_netkv :=
  [NetKv "InMsgs" (icmp_in + icmp_inerr); NetKv "InErrors" icmp_inerr; NetKv "InCsumErrors" (ic "icps_checksum");
   NetKv "InDestUnreachs" (hist inhist 3); NetKv "InTimeExcds" (hist inhist 11); NetKv "InParmProbs" (hist inhist 12);
   NetKv "InSrcQuenchs" (hist inhist 4); NetKv "InRedirects" (hist inhist 5); NetKv "InEchos" (hist inhist 8);
   NetKv "InEchoReps" (hist inhist 0); NetKv "InTimestamps" (hist inhist 13); NetKv "InTimestampReps" (hist inhist 14);
   NetKv "InAddrMasks" (hist inhist 17); NetKv "InAddrMaskReps" (hist inhist 18);
   NetKv "OutMsgs" icmp_out; NetKv "OutErrors" (ic "icps_error");
   NetKv "OutDestUnreachs" (hist outhist 3); NetKv "OutTimeExcds" (hist outhist 11); NetKv "OutParmProbs" (hist outhist 12);
   NetKv "OutSrcQuenchs" (hist outhist 4); NetKv "OutRedirects" (hist outhist 5); NetKv "OutEchos" (hist outhist 8);
   NetKv "OutEchoReps" (hist outhist 0); NetKv "OutTimestamps" (hist outhist 13); NetKv "OutTimestampReps" (hist outhist 14);
   NetKv "OutAddrMasks" (hist outhist 17); NetKv "OutAddrMaskReps" (hist outhist 18)].
Definition tcpkv : list procfs_netkv :=
  [NetKv "RtoAlgorithm" 1; NetKv "RtoMin" 0; NetKv "RtoMax" 0; NetKv "MaxConn" (-1); NetKv "ActiveOpens" (t "tcps_connattempt");
   NetKv "PassiveOpens" (t "tcps_accepts"); NetKv "AttemptFails" (t "tcps_conndrops"); NetKv "EstabResets" (t "tcps_drops");
   NetKv "CurrEstab" 0; NetKv "InSegs" (t "tcps_rcvtotal"); NetKv "OutSegs" (t "tcps_sndtotal"); NetKv "RetransSegs" (t "tcps_sndrexmitpack");
   NetKv "InErrs" (t "tcps_rcvbadsum" + t "tcps_rcvbadoff" + t "tcps_rcvshort"); NetKv "OutRsts" 0; NetKv "InCsumErrors" (t "tcps_rcvbadsum")].
Definition udpkv : list procfs_netkv :=
  [NetKv "InDatagrams" (u "udps_ipackets"); NetKv "NoPorts" (u "udps_noport"); NetKv "InErrors" (u "udps_hdrops" + u "udps_badlen");
   NetKv "OutDatagrams" (u "udps_opackets"); NetKv "RcvbufErrors" (u "udps_fullsock"); NetKv "SndbufErrors" 0;
   NetKv "InCsumErrors" (u "udps_badsum"); NetKv "IgnoredMulti" 0].

(** [fwd] and [ttl]: the sysctls, if they could be read. *)
Definition build_net_snmp_blob (mem_ok : bool) (fwd ttl : option Z) : option bytes :=
  if mem_ok then
    Some (procfs_emit_kv_section "Ip" (ipkv (default 0 fwd) (default 64 ttl)) ++ procfs_emit_kv_section "Icmp" icmpkv
          ++ procfs_emit_kv_section "Tcp" tcpkv ++ procfs_emit_kv_section "Udp" udpkv)%list
  else None.
End Counters.

(** ** The socket tables: what the kernel's stream means *)
(** A block: its length, its kind and padding to a multiple of eight. *)
Definition block_ok (b : bytes) (kind : Z) : Prop :=
  exists blen, rd b 0 4 = Some blen /\ rd b 4 4 = Some kind /\ 8 <= blen /\ PROCFS_ROUNDUP64 blen = Z.of_nat (length b).

(** A socket of the system: ports in host order, addresses as four words (an IPv4
    address is the last one). *)
Record sock := Sock {
  k_vflag : Z; k_laddr : Z * Z * Z * Z; k_lport : Z; k_faddr : Z * Z * Z * Z; k_fport : Z; k_uid : Z; k_rxq : Z; k_txq : Z; k_state : Z
}.

Definition words_at (b : bytes) (off : Z) (a : Z * Z * Z * Z) : Prop :=
  let '(w0, w1, w2, w3) := a in
  rd b off 4 = Some w0 /\ rd b (off + 4) 4 = Some w1 /\ rd b (off + 8) 4 = Some w2 /\ rd b (off + 12) 4 = Some w3.

(** The xinpcb_n of a socket. *)
Record inpcb_shows (b : bytes) (k : sock) : Prop := {
  is_block : block_ok b XSO_INPCB;
  is_vflag : rd b 44 1 = Some (k_vflag k);
  is_lport : rd b 18 2 = Some (ntohs (k_lport k));
  is_fport : rd b 16 2 = Some (ntohs (k_fport k));
  is_laddr : words_at b 64 (k_laddr k);
  is_faddr : words_at b 48 (k_faddr k)
}.

(** The blocks of a socket, in the kernel's order. *)
Definition sock_shown (is_tcp : bool) (k : sock) (bs : bytes) : Prop :=
  exists i s r w x t, bs = (i ++ s ++ r ++ w ++ x ++ t)%list
    /\ inpcb_shows i k /\ block_ok s XSO_SOCKET /\ block_ok r XSO_RCVBUF /\ block_ok w XSO_SNDBUF /\ block_ok x XSO_STATS
    /\ rd s 64 4 = Some (k_uid k) /\ rd r 8 4 = Some (k_rxq k) /\ rd w 8 4 = Some (k_txq k)
    /\ (if is_tcp then block_ok t XSO_TCPCB /\ rd t 36 4 = Some (k_state k) else t = []).

Definition port_ok (p : Z) : Prop := 0 <= p < 65536.
Definition sock_ok (k : sock) : Prop := port_ok (k_lport k) /\ port_ok (k_fport k).

(** The line Linux shows for it. *)
Definition wanted (want_vflag : Z) (k : sock) : bool := negb (Z.land (k_vflag k) want_vflag =? 0).
Definition addr_words (v6 : bool) (a : Z * Z * Z * Z) : list Z := let '(w0, w1, w2, w3) := a in if v6 then [w0; w1; w2; w3] else [w3].
Definition linux_state (is_tcp : bool) (k : sock) : Z :=
  if is_tcp then (if 0 <=? i32 (k_state k) then default 0 (procfs_tcp_state_linux !! Z.to_nat (i32 (k_state k))) else 0)
  else if k_fport k =? 0 then 7 else 1.
Definition row_of (want_vflag : Z) (is_tcp : bool) (k : sock) : pcb_row :=
  PcbRow (addr_words (want_vflag =? INP_IPV6) (k_laddr k)) (k_lport k) (addr_words (want_vflag =? INP_IPV6) (k_faddr k)) (k_fport k)
    (linux_state is_tcp k) (k_txq k) (k_rxq k) (k_uid k).
Definition rows_of (want_vflag : Z) (is_tcp : bool) (ks : list sock) : list pcb_row :=
  map (row_of want_vflag is_tcp) (List.filter (wanted want_vflag) ks).

(** A stream: the leading xinpgen, the sockets and the trailing xinpgen. *)
Record pcb_stream (is_tcp : bool) (ks : list sock) (count : Z) (F : bytes) : Prop := {
  ps_parts : exists hd groups tl, F = (hd ++ concat groups ++ tl)%list /\ Forall2 (sock_shown is_tcp) ks groups
             /\ rd hd 0 4 = Some 24 /\ length hd = 24%nat
             /\ rd tl 0 4 = Some 24 /\ rd tl 4 4 = Some count /\ length tl = 24%nat;
  ps_socks : Forall sock_ok ks
}.

Definition block_kinds : list Z := [XSO_SOCKET; XSO_RCVBUF; XSO_SNDBUF; XSO_STATS; XSO_INPCB; XSO_TCPCB].

(** *** Ports *)
Lemma ntohs_arith p : port_ok p -> ntohs p = 256 * (p mod 256) + p / 256.
Proof.
  unfold port_ok, ntohs. intros Hp. change 255 with (Z.ones 8). rewrite Z.land_ones, Z.shiftr_div_pow2 by lia. change (2 ^ 8) with 256.
  pose proof (Z.div_mod p 256 ltac:(lia)). pose proof (Z.mod_pos_bound p 256 ltac:(lia)).
  rewrite Z.lor_comm, lor_shiftl by lia. change (2 ^ 8) with 256. lia.
Qed.

Lemma ntohs_port p : port_ok p -> ntohs (ntohs p) = p /\ (ntohs p =? 0) = (p =? 0).
Proof.
  intros Hp. pose proof (ntohs_arith p Hp) as E. unfold port_ok in Hp.
  pose proof (Z.div_mod p 256 ltac:(lia)). pose proof (Z.mod_pos_bound p 256 ltac:(lia)).
  split; [|destruct (Z.eqb_spec (ntohs p) 0), (Z.eqb_spec p 0); lia].
  rewrite (ntohs_arith (ntohs p)) by (unfold port_ok; lia). rewrite E.
  rewrite <- (Z.mod_unique (256 * (p mod 256) + p / 256) 256 (p mod 256) (p / 256)) by lia.
  rewrite <- (Z.div_unique (256 * (p mod 256) + p / 256) 256 (p mod 256) (p / 256)) by lia. lia.
Qed.

(** *** The walk, block by block *)
Section Walk.
Variable F : bytes.
Variable want_vflag : Z.
Variable is_tcp : bool.

Lemma block_length b kind : block_ok b kind -> 8 <= Z.of_nat (length b).
Proof.
  intros (blen & _ & H2 & _). unfold rd in H2. destruct (Z.leb_spec (4 + Z.of_nat 4) (Z.of_nat (length b))); [lia|done].
Qed.

Definition set_ptr (kind p : Z) (s : pcb_ptrs) : pcb_ptrs :=
  if kind =? XSO_SOCKET then Ptrs (xi s) (Some p) (xt s) (rcv s) (snd_ s)
  else if kind =? XSO_RCVBUF then Ptrs (xi s) (xso s) (xt s) (Some p) (snd_ s)
  else if kind =? XSO_SNDBUF then Ptrs (xi s) (xso s) (xt s) (rcv s) (Some p)
  else if kind =? XSO_TCPCB then Ptrs (xi s) (xso s) (Some p) (rcv s) (snd_ s)
  else s.

(** What one round does with a block at the end of [pre]. *)
Lemma walk_block pre b post kind f s (p := Z.of_nat (length pre)) (q := Z.of_nat (length (pre ++ b))) :
  F = (pre ++ b ++ post)%list -> block_ok b kind ->
  pcb_walk F want_vflag is_tcp (S f) p s
  = (if kind =? XSO_INPCB then
       r ← emit_record F want_vflag is_tcp s;
       rest ← pcb_walk F want_vflag is_tcp f q (Ptrs (Some p) None None None None);
       Some (r ++ rest)%list
     else if bool_decide (kind ∈ block_kinds) then pcb_walk F want_vflag is_tcp f q (set_ptr kind p s)
     else emit_record F want_vflag is_tcp s).
Proof.
  intros EF Hb. pose proof (block_length b kind Hb) as Hl. destruct Hb as (blen & H0 & H4 & H8 & Hr).
  assert (Hlen : Z.of_nat (length F) = p + Z.of_nat (length b) + Z.of_nat (length post)) by (rewrite EF, !length_app; unfold p; lia).
  assert (Hq : p + PROCFS_ROUNDUP64 blen = q) by (unfold q; rewrite Hr, length_app; unfold p; lia).
  assert (E0 : rd F p 4 = Some blen) by (rewrite EF, <- (Z.add_0_r p); by apply rd_mid).
  assert (E4 : rd F (p + 4) 4 = Some kind) by (rewrite EF; by apply rd_mid).
  cbn [pcb_walk]. destruct (Z.leb_spec (p + 8) (Z.of_nat (length F))); [|lia]. rewrite E0, E4. cbn [mbind option_bind].
  destruct (Z.ltb_spec blen 8); [lia|]. cbv zeta. rewrite Hq, Hr. destruct (Z.ltb_spec (Z.of_nat (length F)) q); [unfold q, p in *; rewrite length_app in *; lia|].
  destruct (Z.eqb_spec (Z.of_nat (length b)) 0); [lia|]. cbn [orb]. unfold set_ptr, block_kinds.
  destruct (Z.eqb_spec kind XSO_INPCB); [done|].
  destruct (Z.eqb_spec kind XSO_SOCKET) as [->|]; [by rewrite bool_decide_true by set_solver|].
  destruct (Z.eqb_spec kind XSO_RCVBUF) as [->|]; [by rewrite bool_decide_true by set_solver|].
  destruct (Z.eqb_spec kind XSO_SNDBUF) as [->|]; [by rewrite bool_decide_true by set_solver|].
  destruct (Z.eqb_spec kind XSO_TCPCB) as [->|]; [by rewrite bool_decide_true by set_solver|].
  destruct (Z.eqb_spec kind XSO_STATS) as [->|]; [by rewrite bool_decide_true by set_solver|].
  rewrite bool_decide_false; [done|]. set_solver.
Qed.

Lemma walk_other pre b post kind f s (p := Z.of_nat (length pre)) (q := Z.of_nat (length (pre ++ b))) :
  F = (pre ++ b ++ post)%list -> block_ok b kind -> List.In kind [XSO_SOCKET; XSO_RCVBUF; XSO_SNDBUF; XSO_STATS; XSO_TCPCB] ->
  pcb_walk F want_vflag is_tcp (S f) p s = pcb_walk F want_vflag is_tcp f q (set_ptr kind p s).
Proof.
  intros EF Hb Hk. unfold p. rewrite (walk_block pre b post kind) by done.
  assert (Hk2 : kind ∈ block_kinds) by (apply list_elem_of_In; unfold block_kinds; cbn in *; tauto).
  destruct (Z.eqb_spec kind XSO_INPCB) as [E|]; [|by rewrite bool_decide_true by done].
  subst kind. cbn in Hk. destruct Hk as [?|[?|[?|[?|[?|[]]]]]]; done.
Qed.

(** The record of a socket, through its pointers. *)
Lemma emit_shown pre i post s r w t k ptrs (p := Z.of_nat (length pre)) :
  F = (pre ++ i ++ post)%list -> sock_ok k -> inpcb_shows i k -> ptrs = Ptrs (Some p) (Some s) t (Some r) (Some w) ->
  rd F (s + 64) 4 = Some (k_uid k) -> rd F (r + 8) 4 = Some (k_rxq k) -> rd F (w + 8) 4 = Some (k_txq k) ->
  (is_tcp = true -> rd_opt F t 36 4 = Some (k_state k)) ->
  emit_record F want_vflag is_tcp ptrs = Some (rows_of want_vflag is_tcp [k]).
Proof.
  intros EF [Hl Hf] Hi -> Hs Hr Hw Ht. pose proof (fun off n v => rd_mid pre i post off n v) as Hm. rewrite <- EF in Hm. fold p in Hm.
  destruct (ntohs_port _ Hl) as [El _]. destruct (ntohs_port _ Hf) as [Ef Ez].
  unfold emit_record. cbn [xi xso xt rcv snd_]. rewrite (Hm _ _ _ (is_vflag _ _ Hi)). cbn [mbind option_bind]. unfold rows_of, wanted. cbn [List.filter].
  destruct (Z.land (k_vflag k) want_vflag =? 0); [done|]. cbn [negb map].
  rewrite (Hm _ _ _ (is_lport _ _ Hi)), (Hm _ _ _ (is_fport _ _ Hi)). cbn [mbind option_bind].
  assert (Ets : (if is_tcp then rd_opt F t 36 4 else Some 0) = Some (if is_tcp then k_state k else 0)) by (destruct is_tcp; [by apply Ht|done]).
  rewrite Ets. cbn [mbind option_bind rd_opt]. rewrite Hs, Hr, Hw. cbn [mbind option_bind]. unfold v6, row_of, linux_state, addr_words.
  rewrite El, Ef, Ez. pose proof (is_laddr _ _ Hi) as L. pose proof (is_faddr _ _ Hi) as R.
  destruct (k_laddr k) as [[[l0 l1] l2] l3], (k_faddr k) as [[[f0 f1] f2] f3]. cbn in L, R. destruct L as (L0 & L1 & L2 & L3), R as (R0 & R1 & R2 & R3).
  change (64 + 4) with 68 in L1. change (64 + 8) with 72 in L2. change (64 + 12) with 76 in L3.
  change (48 + 4) with 52 in R1. change (48 + 8) with 56 in R2. change (48 + 12) with 60 in R3.
  destruct (want_vflag =? INP_IPV6).
  - rewrite (Hm _ _ _ L0), (Hm _ _ _ L1), (Hm _ _ _ L2), (Hm _ _ _ L3), (Hm _ _ _ R0), (Hm _ _ _ R1), (Hm _ _ _ R2), (Hm _ _ _ R3).
    cbn [mbind option_bind]. destruct is_tcp; [done|]. by destruct (k_fport k =? 0).
  - rewrite (Hm _ _ _ L3), (Hm _ _ _ R3). cbn [mbind option_bind]. destruct is_tcp; [done|]. by destruct (k_fport k =? 0).
Qed.

(** The blocks of one socket: the record before it is flushed, and its own is
    collected. *)
Lemma walk_sock pre bs post k s : F = (pre ++ bs ++ post)%list -> sock_ok k -> sock_shown is_tcp k bs ->
  exists n s', (n <= length bs)%nat /\ emit_record F want_vflag is_tcp s' = Some (rows_of want_vflag is_tcp [k])
  /\ forall f, pcb_walk F want_vflag is_tcp (n + f) (Z.of_nat (length pre)) s
       = (r ← emit_record F want_vflag is_tcp s;
          rest ← pcb_walk F want_vflag is_tcp f (Z.of_nat (length (pre ++ bs))) s';
          Some (r ++ rest)%list).
Proof.
  intros EF Hk (i & so & r & w & x & t & -> & Hi & Hs & Hr & Hw & Hx & E1 & E2 & E3 & Ht).
  pose proof (block_length _ _ (is_block _ _ Hi)). pose proof (block_length _ _ Hs). pose proof (block_length _ _ Hr).
  pose proof (block_length _ _ Hw). pose proof (block_length _ _ Hx).
  set (p1 := (pre ++ i)%list). set (p2 := (p1 ++ so)%list). set (p3 := (p2 ++ r)%list). set (p4 := (p3 ++ w)%list). set (p5 := (p4 ++ x)%list).
  assert (F0 : F = (pre ++ i ++ so ++ r ++ w ++ x ++ t ++ post)%list) by (rewrite EF; by rewrite <- !app_assoc).
  assert (F1 : F = (p1 ++ so ++ r ++ w ++ x ++ t ++ post)%list) by (rewrite F0; unfold p1; by rewrite <- !app_assoc).
  assert (F2 : F = (p2 ++ r ++ w ++ x ++ t ++ post)%list) by (rewrite F1; unfold p2; by rewrite <- !app_assoc).
  assert (F3 : F = (p3 ++ w ++ x ++ t ++ post)%list) by (rewrite F2; unfold p3; by rewrite <- !app_assoc).
  assert (F4 : F = (p4 ++ x ++ t ++ post)%list) by (rewrite F3; unfold p4; by rewrite <- !app_assoc).
  assert (F5 : F = (p5 ++ t ++ post)%list) by (rewrite F4; unfold p5; by rewrite <- !app_assoc).
  assert (R1 : rd F (Z.of_nat (length p1) + 64) 4 = Some (k_uid k)) by (rewrite F1; by apply rd_mid).
  assert (R2 : rd F (Z.of_nat (length p2) + 8) 4 = Some (k_rxq k)) by (rewrite F2; by apply rd_mid).
  assert (R3 : rd F (Z.of_nat (length p3) + 8) 4 = Some (k_txq k)) by (rewrite F3; by apply rd_mid).
  assert (Hwalk : forall f, pcb_walk F want_vflag is_tcp (5 + f) (Z.of_nat (length pre)) s
    = (r0 ← emit_record F want_vflag is_tcp s;
       rest ← pcb_walk F want_vflag is_tcp f (Z.of_nat (length p5))
                (Ptrs (Some (Z.of_nat (length pre))) (Some (Z.of_nat (length p1))) None (Some (Z.of_nat (length p2))) (Some (Z.of_nat (length p3))));
       Some (r0 ++ rest)%list)).
  { intros f. cbn [Nat.add]. rewrite (walk_block _ _ _ _ _ _ F0 (is_block _ _ Hi)). change (XSO_INPCB =? XSO_INPCB) with true. cbn beta iota.
    destruct (emit_record F want_vflag is_tcp s) as [r0|]; [|done]. cbn [mbind option_bind]. fold p1.
    rewrite (walk_other _ _ _ _ _ _ F1 Hs) by (cbn; tauto). fold p2. rewrite (walk_other _ _ _ _ _ _ F2 Hr) by (cbn; tauto). fold p3.
    rewrite (walk_other _ _ _ _ _ _ F3 Hw) by (cbn; tauto). fold p4. rewrite (walk_other _ _ _ _ _ _ F4 Hx) by (cbn; tauto). fold p5. reflexivity. }
  assert (Et : (pre ++ i ++ so ++ r ++ w ++ x ++ t)%list = (p5 ++ t)%list) by (unfold p5, p4, p3, p2, p1; by rewrite <- !app_assoc).
  rewrite Et. destruct (Bool.bool_dec is_tcp true) as [Etcp|Etcp]; [|apply Bool.not_true_is_false in Etcp]; rewrite Etcp in Ht.
  - destruct Ht as [Ht E4]. pose proof (block_length _ _ Ht). eexists 6%nat, (Ptrs _ _ (Some (Z.of_nat (length p5))) _ _). split_and!.
    + rewrite !length_app. lia.
    + eapply (emit_shown pre i); [exact F0|done|done|reflexivity|done|done|done|]. intros _. cbn [rd_opt]. rewrite F5. by apply rd_mid.
    + intros f. change (6 + f)%nat with (5 + S f)%nat. rewrite Hwalk. rewrite (walk_other _ _ _ _ _ _ F5 Ht) by (cbn; tauto). reflexivity.
  - subst t. rewrite (app_nil_r p5). eexists 5%nat, _. split_and!; [| |exact Hwalk].
    + rewrite !length_app. lia.
    + eapply (emit_shown pre i); [exact F0|done|done|reflexivity|done|done|done|]. by rewrite Etcp.
Qed.

(** All the sockets, to the trailing xinpgen. *)
Lemma walk_socks ks : forall pre groups tl count s f, F = (pre ++ concat groups ++ tl)%list ->
  Forall2 (sock_shown is_tcp) ks groups -> Forall sock_ok ks -> block_ok tl count -> count ∉ block_kinds ->
  (length (concat groups) < f)%nat ->
  pcb_walk F want_vflag is_tcp f (Z.of_nat (length pre)) s
  = (r ← emit_record F want_vflag is_tcp s; Some (r ++ rows_of want_vflag is_tcp ks)%list).
Proof.
  induction ks as [|k ks IH]; intros pre groups tl count s f EF Hg Hk Htl Hc Hf.
  - inversion Hg; subst groups. destruct f as [|f]; [lia|]. cbn [concat app] in EF. rewrite (walk_block pre tl [] count); [|by rewrite app_nil_r|done].
    destruct (Z.eqb_spec count XSO_INPCB) as [->|]; [exfalso; apply Hc; set_solver|]. rewrite bool_decide_false by done.
    destruct (emit_record _ _ _ s) as [r|]; [|done]. cbn. by rewrite app_nil_r.
  - inversion Hg as [|? bs ? groups' Hb Hg']; subst groups. inversion_clear Hk as [|? ? Hk1 Hk2]. cbn [concat] in *. rewrite <- app_assoc in EF.
    destruct (walk_sock pre bs (concat groups' ++ tl)%list k s EF Hk1 Hb) as (n & s' & Hn & He & Hwalk).
    rewrite length_app in Hf. replace f with (n + (f - n))%nat by lia. rewrite Hwalk.
    rewrite (IH (pre ++ bs)%list groups' tl count s' (f - n)%nat); [|by rewrite <- app_assoc|done|done|done|done|lia].
    rewrite He. cbn [mbind option_bind]. destruct (emit_record _ _ _ s) as [r|]; [|done]. cbn. do 2 f_equal.
    unfold rows_of. cbn [List.filter]. by destruct (wanted want_vflag k).
Qed.
End Walk.

Lemma trailer_block (tl : bytes) count : rd tl 0 4 = Some 24 -> rd tl 4 4 = Some count -> length tl = 24%nat -> block_ok tl count.
Proof. intros H0 H4 Hl. exists 24. by rewrite Hl. Qed.

Lemma pcb_rows_of want_vflag is_tcp ks count F : pcb_stream is_tcp ks count F -> count ∉ block_kinds ->
  pcb_rows F want_vflag is_tcp = Some (rows_of want_vflag is_tcp ks).
Proof.
  intros [(hd & groups & tl & EF & Hg & H0 & Hl & T0 & T4 & Tl) Hk] Hc. unfold pcb_rows.
  assert (Hlen : (24 <= length F)%nat) by (rewrite EF, !length_app; lia). destruct (Z.ltb_spec (Z.of_nat (length F)) 24); [lia|].
  assert (E0 : rd F 0 4 = Some 24) by (rewrite EF, rd_app_l by lia; done). rewrite E0. cbn [mbind option_bind].
  change (PROCFS_ROUNDUP64 24) with 24. replace 24 with (Z.of_nat (length hd)) by lia.
  rewrite (walk_socks F want_vflag is_tcp ks hd groups tl count no_ptrs); [done|done|done|done|by apply trailer_block|done|rewrite EF, !length_app; lia].
Qed.

(** C15. The socket tables are right: for a stream with any sockets, whatever the
    fields the daemon does not read, /proc/net/tcp, tcp6, udp and udp6 have exactly
    the sockets of their address family, in order, with their addresses, ports,
    Linux state, queues and owner, and no byte beyond the stream is read; provided
    the number of sockets in the trailing record is not 1, 2, 4, 8, 16 or 32, the
    number of a block kind (see [trailer_taken_for_block]). *)
Theorem pcb_table_correct want_vflag is_tcp ks count F : pcb_stream is_tcp ks count F -> count ∉ [1; 2; 4; 8; 16; 32] ->
  pcb_rows F want_vflag is_tcp = Some (rows_of want_vflag is_tcp ks).
Proof. apply pcb_rows_of. Qed.

Lemma pcb_hdr_agrees want_vflag : pcb_hdr want_vflag = if want_vflag =? INP_IPV6 then net6_hdr else net_hdr.
Proof. unfold pcb_hdr. destruct (want_vflag =? INP_IPV6); vm_compute; reflexivity. Qed.

(** The fallback of the extension is the table of no sockets: without a stream, the
    daemon sends exactly the header that the node prints without a daemon. *)
Theorem net_headers_agree want_vflag is_tcp ifn ntop :
  build_net_pcb_blob want_vflag is_tcp true [] = Some (Some (if want_vflag =? INP_IPV6 then net6_hdr else net_hdr))
  /\ build_net_unix_blob true [] [] = Some (Some netunix_hdr)
  /\ build_net_route_blob ifn true [] = Some (Some netroute_hdr)
  /\ build_net_arp_blob ifn ntop true [] = Some (Some netarp_hdr).
Proof.
  split_and!; [|vm_compute; reflexivity..]. unfold build_net_pcb_blob. rewrite <- pcb_hdr_agrees. done.
Qed.

(** ** Samples *)
Definition blk (kind : Z) (body : bytes) : bytes := (le_bytes 4 (8 + Z.of_nat (length body)) ++ le_bytes 4 kind ++ body)%list.
Definition xinpgen (count gen : Z) : bytes := (le_bytes 4 24 ++ le_bytes 4 count ++ le_bytes 8 gen ++ le_bytes 8 gen)%list.
Definition inpcb (vflag fport lport faddr laddr : Z) : bytes :=
  blk XSO_INPCB (repeat 170 8 ++ le_bytes 2 (ntohs fport) ++ le_bytes 2 (ntohs lport) ++ repeat 170 24 ++ [vflag; 64; 6; 0]
                 ++ repeat 0 12 ++ le_bytes 4 faddr ++ repeat 0 12 ++ le_bytes 4 laddr ++ repeat 170 24)%list.
Definition sock_blk (uid : Z) : bytes := blk XSO_SOCKET (repeat 170 56 ++ le_bytes 4 uid ++ repeat 170 36)%list.
Definition buf_blk (kind cc : Z) : bytes := blk kind (le_bytes 4 cc ++ repeat 170 20)%list.
Definition tcp_blk (state : Z) : bytes := blk XSO_TCPCB (repeat 170 28 ++ le_bytes 4 state)%list.
Definition sample_sock (state : Z) : bytes :=
  (inpcb 1 443 50000 84215299 16777343 ++ sock_blk 501 ++ buf_blk XSO_RCVBUF 7 ++ buf_blk XSO_SNDBUF 9 ++ blk XSO_STATS (repeat 0 40)
   ++ tcp_blk state)%list.
Definition sample_pcb (count gen : Z) : bytes := (xinpgen count gen ++ sample_sock 4 ++ xinpgen count gen)%list.

(** Three connections, in the states 4, 10 and 1 of the kernel. *)
Definition three_socks : list sock :=
  map (Sock 1 (0, 0, 0, 16777343) 50000 (0, 0, 0, 84215299) 443 501 7 9) [4; 10; 1].
Definition three_pcb : bytes := (xinpgen 3 99 ++ concat (map sample_sock [4; 10; 1]) ++ xinpgen 3 99)%list.

Lemma sample_stream : pcb_stream true three_socks 3 three_pcb /\ 3 ∉ block_kinds.
Proof.
  split; [|unfold block_kinds; intros Hc; apply list_elem_of_In in Hc; vm_compute in Hc; intuition congruence].
  split; [|repeat constructor; vm_compute; intuition congruence].
  exists (xinpgen 3 99), (map sample_sock [4; 10; 1]), (xinpgen 3 99). split_and!; [reflexivity| |reflexivity..].
  assert (B : forall kind body, PROCFS_ROUNDUP64 (8 + Z.of_nat (length body)) = 8 + Z.of_nat (length body) ->
    rd (blk kind body) 0 4 = Some (8 + Z.of_nat (length body)) -> rd (blk kind body) 4 4 = Some kind -> block_ok (blk kind body) kind).
  { intros kind body H1 H2 H3. exists (8 + Z.of_nat (length body)). split_and!; [done|done|lia|]. rewrite H1. unfold blk. rewrite !length_app, !le_bytes_length. lia. }
  repeat (constructor; [eexists _, _, _, _, _, _; split; [reflexivity|]; split_and!; try (apply B; reflexivity); try reflexivity;
    split; [apply B; reflexivity|reflexivity..| |]; split_and!; reflexivity|]). constructor.
Qed.

Lemma pcb_table_correct_witness :
  pcb_rows three_pcb INP_IPV4 true
  = Some (map (fun st => PcbRow [16777343] 50000 [84215299] 443 st 9 7 501) [1; 6; 10])
  /\ pcb_line 0 (PcbRow [16777343] 50000 [84215299] 443 1 9 7 501)
     = line "   0: 0100007F:C350 05050603:01BB 01 00000009:00000007 00:00000000 00000000   501        0 0".
Proof.
  split; [|vm_compute; reflexivity]. exact (pcb_table_correct INP_IPV4 true three_socks 3 three_pcb (proj1 sample_stream) (proj2 sample_stream)).
Defined.

(** The trailing record is not always recognised: its second word, the number of
    sockets, is taken for the kind of a block.  With one socket the owner is read
    from bytes beyond the stream; with two, the receive queue shows the generation
    count; with sixteen the trailing record is read as a socket. *)
Theorem trailer_taken_for_block :
  pcb_rows (sample_pcb 1 99) INP_IPV4 true = None
  /\ (map pr_rxq <$> pcb_rows (sample_pcb 2 99) INP_IPV4 true) = Some [99]
  /\ pcb_rows (sample_pcb 16 99) INP_IPV4 true = None.
Proof. vm_compute. done. Qed.

(** The lengths of the routing messages and addresses are not checked: a message of
    93 bytes that announces a destination is read beyond the end. *)
Definition short_route : bytes :=
  (le_bytes 2 93 ++ [5; 1] ++ le_bytes 2 0 ++ le_bytes 2 0 ++ le_bytes 4 1 ++ le_bytes 4 1 ++ repeat 0 76 ++ [16])%list.

Theorem short_route_overread : length short_route = 93%nat /\ rtm_walk short_route (route_msg short_route (fun _ => [])) 94 0 = None.
Proof. vm_compute. done. Qed.
