(* ===== verification/Listings.v ===== *)
(** * The daemon's other listings (tools/procfsd.c)

    Kernel extensions, zones, kernel allocations, messages, PCI, SCSI and display
    devices, interrupts, NFS exports, the power state and the System V objects.  What
    IOKit, Mach and the file system report is a parameter: a registry entry is its
    dictionary of properties.  [None] of a blob: the node is empty. *)
From S2P Require Import Prelude Kernel Text Subr Map Format Blobs LinuxSys Qsort Devices.
From Stdlib Require Import ZArith Lia String Ascii Sorted.
From stdpp Require Import base list numbers strings sets.
Open Scope Z_scope.

(** ** Property lists *)
Inductive cfvalue := CFNumber (v : Z) | CFString (s : string) | CFData (bs : bytes) | CFOther.
Definition cfdict : Type := string -> option cfvalue.

Section Listings.
Context `{Qsort}.
(** CFStringGetCString into a buffer of a size: the string when it fits. *)
Variable getcstring : string -> Z -> string.
Variable realloc_ok : Z -> bool.

Definition cfnum_ll (d : cfdict) (key : string) : Z := match d key with Some (CFNumber v) => i64 v | _ => 0 end.
Definition cfstr_copy (d : cfdict) (key : string) (cap : Z) : string := match d key with Some (CFString s) => getcstring s cap | _ => EmptyString end.

(** Rows collected one by one into a growable array; a failed realloc ends the
    collection. *)
Fixpoint collect {R} (first : Z) (new rows : list R) (cap : Z) : list R :=
  match new with
  | [] => rows
  | r :: new' => match grow realloc_ok first r rows cap with Some (rows, cap) => collect first new' rows cap | None => rows end
  end.

(** ** Kernel extensions *)
Record kextrow := Kextrow { kr_tag : Z; kr_refs : Z; kr_addr : Z; kr_size : Z; kr_wired : Z; kr_name : string; kr_vers : string }.

Definition kextrow_of (d : cfdict) : kextrow :=
  Kextrow (cfnum_ll d "OSBundleLoadTag") (cfnum_ll d "OSBundleRetainCount") (cfnum_ll d "OSBundleLoadAddress") (cfnum_ll d "OSBundleLoadSize")
    (cfnum_ll d "OSBundleWiredSize") (cfstr_copy d "CFBundleIdentifier" 128) (cfstr_copy d "CFBundleVersion" 64).

Definition kextrow_cmp (a b : kextrow) : Z := cmp_of (kr_tag a) (kr_tag b).

(** [info]: the values of the dictionary of loaded extensions, [None] for one that is
    not a dictionary. *)
Definition collect_kexts (info : option (list (option cfdict))) (alloc_ok : bool) : option (list kextrow) :=
  match info with
  | None => None
  | Some vals => if alloc_ok then Some (qsort kextrow_cmp (map kextrow_of (omap id vals))) else None
  end.

Definition kext_line (linux_fmt : bool) (r : kextrow) : bytes :=
  if linux_fmt then
    (lit (kr_name r) ++ lit " " ++ sdec (kr_size r) ++ lit " " ++ sdec (kr_refs r) ++ lit " - Live 0x" ++ print_x (u64 (kr_addr r)) ++ [10])%list
  else
    (pad_left 5 32 (sdec (kr_tag r)) ++ lit " " ++ pad_left 4 32 (sdec (kr_refs r)) ++ lit " 0x" ++ pad_right 16 (print_x (u64 (kr_addr r)))
     ++ lit " 0x" ++ pad_right 8 (print_x (u64 (kr_size r))) ++ lit " 0x" ++ pad_right 8 (print_x (u64 (kr_wired r))) ++ lit " "
     ++ lit (kr_name r) ++ lit " (" ++ lit (kr_vers r) ++ line ")")%list.

Definition build_blob (linux_fmt : bool) (info : option (list (option cfdict))) (alloc_ok mem_ok : bool) : option bytes :=
  match collect_kexts info alloc_ok with
  | None => None
  | Some rows =>
      if mem_ok then
        Some ((if linux_fmt then [] else line "Index Refs Address            Size       Wired      Name (Version)")
              ++ concat (map (kext_line linux_fmt) rows))%list
      else None
  end.

(** ** Zones *)
Record zone := Zone { mzn_name : string; mzi_count : Z; mzi_cur_size : Z; mzi_elem_size : Z; mzi_alloc_size : Z }.
Record allocrow := Allocrow { ar_size : Z; ar_calls : Z; ar_name : string }.

Definition allocrow_of (z : zone) : allocrow := Allocrow (u64 (mzi_count z * mzi_elem_size z)) (mzi_count z) (strlcpy (mzn_name z) 80).
Definition allocrow_cmp (a b : allocrow) : Z := cmp_of (ar_size b) (ar_size a).       (* descending *)
Definition alloc_line (r : allocrow) : bytes := (udec 12 (ar_size r) ++ lit " " ++ udec 8 (ar_calls r) ++ lit " zone:" ++ line (ar_name r))%list.

(** [zones]: the zones, with the privileged host port. *)
Definition build_allocinfo_blob (zones : option (list zone)) (rows_ok mem_ok : bool) : option bytes :=
  match zones with
  | None => None
  | Some zs =>
      if rows_ok && mem_ok then
        Some (line "allocinfo - version: 1.0" ++ line "#     <size>  <calls> <tag info>"
              ++ concat (map alloc_line (qsort allocrow_cmp (map allocrow_of zs))))%list
      else None
  end.

Definition slab_line (pagesize : Z) (z : zone) : bytes :=
  let elem := mzi_elem_size z in let alloc := mzi_alloc_size z in let cur := mzi_cur_size z in
  let over a b := if b =? 0 then 0 else a / b in
  let num_slabs := over cur alloc in
  (pad_right 17 (lit (mzn_name z)) ++ lit " " ++ udec 6 (mzi_count z) ++ lit " " ++ udec 6 (over cur elem) ++ lit " " ++ udec 6 elem ++ lit " "
   ++ udec 4 (over alloc elem) ++ lit " " ++ udec 4 (over alloc pagesize) ++ lit " : tunables " ++ udec 4 0 ++ lit " " ++ udec 4 0 ++ lit " "
   ++ udec 4 0 ++ lit " : slabdata " ++ udec 6 num_slabs ++ lit " " ++ udec 6 num_slabs ++ lit " " ++ udec 6 0 ++ [10])%list.

Definition build_slabinfo_blob (pagesize : Z) (zones : option (list zone)) (mem_ok : bool) : option bytes :=
  match zones with
  | None => None
  | Some zs =>
      if mem_ok then
        Some (line "slabinfo - version: 2.1"
              ++ lit "# name            <active_objs> <num_objs> <objsize>" ++ lit " <objperslab> <pagesperslab>"
              ++ lit " : tunables <limit> <batchcount> <sharedfactor>" ++ line " : slabdata <active_slabs> <num_slabs> <sharedavail>"
              ++ concat (map (slab_line pagesize) zs))%list
      else None
  end.

(** ** Kernel allocations by site *)
Definition MACH_MEMORY_INFO_NAME_MAX_LEN : Z := 80.
Record memsite := Memsite { ms_size : Z; ms_mapped : Z; ms_name : string; ms_tag : Z }.
Record vmallocrow := Vmallocrow { vr_size : Z; vr_mapped : Z; vr_name : string }.

Definition vmallocrow_of (m : memsite) : option vmallocrow :=
  if ms_size m =? 0 then None
  else Some (Vmallocrow (ms_size m) (ms_mapped m)
    (strlcpy (if String.eqb (ms_name m) EmptyString then "tag-" +:+ print_u (u32 (ms_tag m)) else ms_name m) MACH_MEMORY_INFO_NAME_MAX_LEN)).
Definition vmallocrow_cmp (a b : vmallocrow) : Z := cmp_of (vr_size b) (vr_size a).   (* descending *)
Definition vmalloc_line (vm_page_size : Z) (r : vmallocrow) : bytes :=
  (lit "0x0000000000000000-0x0000000000000000 " ++ udec 10 (vr_size r) ++ lit " " ++ lit (vr_name r) ++ lit " vmalloc"
   ++ (if 0 <? vr_mapped r then lit " pages=" ++ dec (vr_mapped r / vm_page_size) else []) ++ [10])%list.
Definition build_vmallocinfo_blob (vm_page_size : Z) (sites : option (list memsite)) (rows_ok mem_ok : bool) : option bytes :=
  match sites with
  | None => None
  | Some ms =>
      if rows_ok && mem_ok then Some (concat (map (vmalloc_line vm_page_size) (qsort vmallocrow_cmp (omap vmallocrow_of ms)))) else None
  end.

(** ** Messages *)
(** [bufsize]: kern.msgbuf; [kmsgbuf]: what proc_kmsgbuf returns and leaves. *)
Definition build_kmsg_blob (bufsize : option Z) (malloc_ok : bool) (kmsgbuf : Z -> Z * bytes) : option bytes :=
  match bufsize with
  | None => None
  | Some sz =>
      if sz <=? 0 then None
      else if malloc_ok then let '(n, bs) := kmsgbuf sz in if 0 <? n then Some (take (Z.to_nat (if n <=? sz then n else sz)) bs) else None
      else None
  end.

(** A file of the reports directory: whether stat succeeds on a regular file, and its
    time of modification. *)
Record report := Report { rp_name : string; rp_regular : bool; rp_mtime : Z }.

Definition ends_with_panic (n : string) : bool :=
  (6 <=? String.length n)%nat && bool_decide (drop (String.length n - 6) (lit n) = lit ".panic").
Definition panic_path (n : string) : string := str_take 1023 ("/Library/Logs/DiagnosticReports/" +:+ n).

(** The newest so far and its time. *)
Definition newest_step (s : string * Z) (r : report) : string * Z :=
  if match rp_name r with String c _ => chr c =? 46 | EmptyString => false end then s
  else if negb (ends_with_panic (rp_name r)) then s
  else if negb (rp_regular r) then s
  else if snd s <=? rp_mtime r then (panic_path (rp_name r), rp_mtime r) else s.
Definition newest_panic (rs : list report) : string := fst (fold_left newest_step rs (EmptyString, 0)).

(** [size]: the size stat reports of a path; [contents]: what reading it gives, if it
    can be opened. *)
Definition build_last_kmsg_blob (dir : option (list report)) (size : string -> option Z) (malloc_ok : bool) (contents : string -> option bytes) : option bytes :=
  match dir with
  | None => None
  | Some rs =>
      let newest := newest_panic rs in
      if String.eqb newest EmptyString then None
      else match size newest with
           | None => None
           | Some sz =>
               if sz <=? 0 then None
               else if malloc_ok then
                 match contents newest with
                 | None => None
                 | Some bs => match take (Z.to_nat sz) bs with [] => None | got => Some got end
                 end
               else None
           end
  end.

(** ** PCI devices *)
Record pcirow := Pcirow { pc_bus : Z; pc_devfn : Z; pc_vendor : Z; pc_device : Z; pc_base : list Z; pc_size : list Z; pc_name : string }.

Definition pci_le32 (b : bytes) (off : nat) : Z :=
  let byte i := nth (off + i) b 0 in
  Z.lor (Z.lor (Z.lor (byte 0%nat) (Z.shiftl (byte 1%nat) 8)) (Z.shiftl (byte 2%nat) 16)) (Z.shiftl (byte 3%nat) 24).

(** The BAR a register stands for. *)
Definition bar_index (reg : Z) : option nat :=
  if (16 <=? reg) && (reg <=? 36) && (Z.land (reg - 16) 3 =? 0) then Some (Z.to_nat ((reg - 16) / 4))
  else if reg =? 48 then Some 6%nat else None.

Definition bar_flags (c0 : Z) : Z :=
  let space := Z.land (Z.shiftr c0 24) 3 in
  let prefetch := Z.land (Z.shiftr c0 30) 1 in
  if space =? 1 then 1 else Z.lor (if space =? 3 then 4 else 0) (if negb (prefetch =? 0) then 8 else 0).

(** The tuples of 20 bytes from [off]; [fuel]: their number is at most the bytes. *)
Fixpoint bars_loop (fuel : nat) (b : bytes) (off : nat) (base size : list Z) : list Z * list Z :=
  match fuel with
  | O => (base, size)
  | S f =>
      if (off + 20 <=? length b)%nat then
        let c0 := pci_le32 b off in
        let addr := Z.lor (pci_le32 b (off + 4)) (Z.shiftl (pci_le32 b (off + 8)) 32) in
        let sz := Z.lor (pci_le32 b (off + 12)) (Z.shiftl (pci_le32 b (off + 16)) 32) in
        match bar_index (Z.land c0 255) with
        | None => bars_loop f b (off + 20) base size
        | Some idx => bars_loop f b (off + 20) (<[idx := Z.lor addr (bar_flags c0)]> base) (<[idx := sz]> size)
        end
      else (base, size)
  end.

Definition pci_read_bars (e : cfdict) : list Z * list Z :=
  match e "assigned-addresses"%string with
  | Some (CFData b) => bars_loop (length b) b 0 (repeat 0 7) (repeat 0 7)
  | _ => (repeat 0 7, repeat 0 7)
  end.

Definition pci_cfdata_le32 (e : cfdict) (key : string) : Z :=
  match e key with
  | Some (CFData b) => fold_left Z.lor (imap (fun i c => Z.shiftl c (8 * Z.of_nat i)) (take 4 b)) 0
  | _ => 0
  end.

Definition pci_cfstr (e : cfdict) (key : string) (cap : Z) : string := cfstr_copy e key cap.

(** [sscanf(s, "%u:%u:%u")]: the values that could be read, zero for the others. *)
Variable sscanf3 : string -> Z * Z * Z.

Definition pcirow_of (e : cfdict) : pcirow :=
  let '(bus, dev, func) := sscanf3 (pci_cfstr e "pcidebug" 64) in
  let '(base, size) := pci_read_bars e in
  Pcirow (Z.land bus 255) (Z.lor (Z.shiftl (Z.land dev 31) 3) (Z.land func 7)) (Z.land (pci_cfdata_le32 e "vendor-id") 65535)
    (Z.land (pci_cfdata_le32 e "device-id") 65535) base size (pci_cfstr e "IOName" 64).

Definition pcirow_cmp (a b : pcirow) : Z :=
  if negb (pc_bus a =? pc_bus b) then cmp_of (pc_bus a) (pc_bus b) else cmp_of (pc_devfn a) (pc_devfn b).

Definition pci_line (r : pcirow) : bytes :=
  (hex_min 2 (pc_bus r) ++ hex_min 2 (pc_devfn r) ++ lit tab ++ hex_min 4 (pc_vendor r) ++ hex_min 4 (pc_device r) ++ lit tab ++ print_x 0
   ++ concat (map (fun v => lit tab ++ pad_left 16 32 (print_x v)) (pc_base r)) ++ concat (map (fun v => lit tab ++ pad_left 16 32 (print_x v)) (pc_size r))
   ++ lit tab ++ line (pc_name r))%list.

(** [devs]: the IOPCIDevice entries. *)
Definition build_pci_blob (devs : option (list cfdict)) (mem_ok : bool) : option bytes :=
  match devs with
  | None => None
  | Some es => if mem_ok then Some (concat (map pci_line (qsort pcirow_cmp (collect 32 (map pcirow_of es) [] 0)))) else None
  end.

(** ** SCSI devices and displays *)
Definition scsi_type_name (pdt : Z) : string :=
  default "Unknown"%string (snd <$> List.find (fun x => fst x =? pdt)
    [(0, "Direct-Access"); (1, "Sequential-Access"); (2, "Printer"); (3, "Processor"); (4, "WORM"); (5, "CD-ROM"); (6, "Scanner");
     (7, "Optical Device"); (8, "Medium Changer"); (14, "RBC Device")]%string).

Definition scsi_entry (host : nat) (e : cfdict) : bytes :=
  let pdt := match e "Peripheral Device Type"%string with Some (CFNumber v) => i32 v | _ => 0 end in
  (lit "Host: scsi" ++ sdec (Z.of_nat host) ++ line " Channel: 00 Id: 00 Lun: 00"
   ++ lit "  Vendor: " ++ pad_right 8 (lit (pci_cfstr e "Vendor Identification" 64)) ++ lit " Model: " ++ pad_right 16 (lit (pci_cfstr e "Product Identification" 64))
   ++ lit " Rev: " ++ pad_right 4 (lit (pci_cfstr e "Product Revision Level" 64)) ++ [10]
   ++ lit "  Type:   " ++ pad_right 33 (lit (scsi_type_name pdt)) ++ line " ANSI  SCSI revision: 05")%list.

Definition scsi_classes : list string :=
  ["IOSCSIPeripheralDeviceType00"; "IOSCSIPeripheralDeviceType05"; "IOSCSIPeripheralDeviceType07"; "IOSCSIPeripheralDeviceType0E"]%string.

(** [matching]: the entries of a class, if they can be matched. *)
Definition build_scsi_blob (matching : string -> option (list cfdict)) (mem_ok : bool) : option bytes :=
  if mem_ok then Some (line "Attached devices:" ++ concat (imap scsi_entry (concat (map (fun c => default [] (matching c)) scsi_classes))))%list else None.

(** The names of the entries of a class, empty where there is none. *)
Definition build_fb_blob (matching : string -> option (list string)) (mem_ok : bool) : option bytes :=
  if mem_ok then
    let names c := map (fun n => if String.eqb n EmptyString then strlcpy c 128 else n) (default [] (matching c)) in
    Some (concat (imap (fun i n => sdec (Z.of_nat i) ++ lit " " ++ line n)%list (names "IOFramebuffer" ++ names "IOMobileFramebuffer")%list))
  else None.

(** ** Interrupts *)
Record irqrow := Irqrow { ir_irq : Z; ir_ctrl : string; ir_dev : string }.

(** A registry entry with interrupt specifiers: its name, the specifiers (bytes of a
    CFData, or something else) and the names of the controllers. *)
Record irq_entry := IrqEntry { ie_name : string; ie_specs : list (option bytes); ie_ctrls : list (option string) }.

Definition irq_of (d : option bytes) : option Z :=
  match d with
  | Some b => if (4 <=? length b)%nat then Some (pci_le32 b 0) else None
  | None => None
  end.

Definition irqrows_of (e : irq_entry) : list irqrow :=
  omap id (imap (fun i d =>
    (fun irq => Irqrow irq (match ie_ctrls e !! i with Some (Some s) => getcstring s 80 | _ => EmptyString end) (strlcpy (ie_name e) 80)) <$> irq_of d)
    (ie_specs e)).

Definition irqrow_cmp (a b : irqrow) : Z := cmp_of (ir_irq a) (ir_irq b).
Definition irq_line (ncpu : nat) (r : irqrow) : bytes :=
  (pad_left 4 32 (sdec (ir_irq r)) ++ lit ":" ++ concat (repeat (lit " " ++ udec 10 0)%list ncpu) ++ lit "  " ++ lit (ir_ctrl r) ++ lit "  " ++ line (ir_dev r))%list.

(** A failed realloc leaves the specifiers of one entry; the walk of the registry goes
    on with the next entry. *)
Fixpoint irq_collect (es : list (list irqrow)) (rows : list irqrow) (cap : Z) : list irqrow :=
  match es with
  | [] => rows
  | new :: es' =>
      let fix go new rows cap :=
        match new with
        | [] => (rows, cap)
        | r :: new' => match grow realloc_ok 128 r rows cap with Some (rows, cap) => go new' rows cap | None => (rows, cap) end
        end in
      let '(rows, cap) := go new rows cap in irq_collect es' rows cap
  end.

Definition build_interrupts_blob (logicalcpu : option Z) (es : list irq_entry) (mem_ok : bool) : option bytes :=
  let ncpu := match logicalcpu with Some n => if i32 n <? 1 then 1 else i32 n | None => 1 end in
  let ncpu := Z.to_nat (if 64 <? ncpu then 64 else ncpu) in
  if mem_ok then
    Some (lit "     " ++ concat (map (fun c => lit "CPU" ++ pad_right 8 (sdec (Z.of_nat c))) (seq 0 ncpu))%list ++ [10]
          ++ concat (map (irq_line ncpu) (qsort irqrow_cmp (irq_collect (map irqrows_of es) [] 0))))%list
  else None.

(** ** NFS exports *)
(** [fgets] into 1024 bytes: up to a newline or 1023 bytes; [fputs] up to a NUL. *)
Fixpoint fgets (n : nat) (f : bytes) : bytes * bytes :=
  match n, f with
  | S n', c :: f' => if c =? 10 then ([c], f') else let '(l, r) := fgets n' f' in (c :: l, r)
  | _, _ => ([], f)
  end.
Fixpoint copy_lines (fuel : nat) (f : bytes) : option bytes :=
  match fuel with
  | O => None
  | S k =>
      match f with
      | [] => Some []
      | _ => let '(l, r) := fgets 1023 f in (fun t => c_str l ++ t)%list <$> copy_lines k r
      end
  end.
Definition build_nfsexports_blob (exports : option bytes) (mem_ok : bool) : option (option bytes) :=
  match exports with
  | None => Some None
  | Some f => if mem_ok then Some <$> copy_lines (S (length f)) f else Some None
  end.

(** ** Power *)
(** The description of a power source. *)
Record psource := Psource {
  ps_on_ac : option bool; ps_charging : option bool; ps_current : option Z; ps_max : option Z; ps_to_full : option Z; ps_to_empty : option Z
}.

(** [sources]: the list of power sources, [None] for one without a description. *)
Definition fill_apm_info (sources : option (list (option psource))) : procfs_apm_info :=
  let none := ApmInfo (-1) 0 0 (-1) (-1) in
  match sources with
  | None => none
  | Some [] => ApmInfo 1 0 0 (-1) (-1)
  | Some l =>
      match omap id l with
      | [] => none
      | d :: _ =>
          let chg := match ps_charging d with Some true => 1 | _ => 0 end in
          let cur := default 0 (ps_current d) in
          let max := default 0 (ps_max d) in
          ApmInfo (match ps_on_ac d with Some b => if b : bool then 1 else 0 | None => -1 end) 1 chg
            (if 0 <? max then Z.quot (i32 (cur * 100)) max else -1)
            (default (-1) (if negb (chg =? 0) then ps_to_full d else ps_to_empty d))
      end
  end.
End Listings.

(** ** System V objects *)
Record ipc_perm := IpcPerm { ip_key : Z; ip_uid : Z; ip_gid : Z; ip_cuid : Z; ip_cgid : Z; ip_mode : Z; ip_seq : Z }.
Record shmid_ds := ShmDs { shm_perm : ipc_perm; shm_segsz : Z; shm_cpid : Z; shm_lpid : Z; shm_nattch : Z; shm_atime : Z; shm_dtime : Z; shm_ctime : Z }.
Record semid_ds := SemDs { sem_perm : ipc_perm; sem_nsems : Z; sem_otime : Z; sem_ctime : Z }.
Record msqid_ds := MsgDs { msg_perm : ipc_perm; msg_cbytes : Z; msg_qnum : Z; msg_lspid : Z; msg_lrpid : Z; msg_stime : Z; msg_rtime : Z; msg_ctime : Z }.

Definition PROCFS_IPCS_GUARD : Z := 200000.

(** [%o]. *)
Fixpoint print_o_loop (fuel : nat) (v : Z) (acc : bytes) : bytes :=
  match fuel with
  | O => acc
  | S f => if v <? 8 then 48 + v :: acc else print_o_loop f (v / 8) (48 + v mod 8 :: acc)
  end.
Definition oct (n : nat) (v : Z) : bytes := pad_left n 32 (print_o_loop 22 v []).
Definition d10 (v : Z) : bytes := (pad_left 10 32 (sdec v) ++ lit " ")%list.
Definition d5 (v : Z) : bytes := (pad_left 5 32 (sdec v) ++ lit " ")%list.
Definition u5 (v : Z) : bytes := (udec 5 v ++ lit " ")%list.
Definition u10 (v : Z) : bytes := (udec 10 v ++ lit " ")%list.

(** One object: the cursor after the call gives the index. *)
Definition ipc_id (p : ipc_perm) (cursor : Z) : Z := i32 (Z.lor (Z.shiftl (ip_seq p) 16) (Z.land (cursor - 1) 65535)).

Section Ipcs.
Context {DS : Type}.
(** The ITER operation of kern.sysv.ipcs.*: from a cursor, the next object and the new
    cursor; [None]: ENOENT. *)
Variable iter : Z -> option (Z * DS).

Fixpoint ipcs_loop (k : nat) (cursor : Z) : list (Z * DS) :=
  match k with
  | O => []
  | S k' => match iter cursor with None => [] | Some (cursor', ds) => (cursor', ds) :: ipcs_loop k' cursor' end
  end.
Definition ipcs_objects : list (Z * DS) := ipcs_loop (Z.to_nat PROCFS_IPCS_GUARD) 0.
End Ipcs.

Definition ipc_head (p : ipc_perm) (cursor : Z) : bytes :=
  (d10 (ip_key p) ++ d10 (ipc_id p cursor) ++ oct 5 (Z.land (ip_mode p) 511) ++ lit " ")%list.
Definition ipc_owners (p : ipc_perm) : bytes := (u5 (ip_uid p) ++ u5 (ip_gid p) ++ u5 (ip_cuid p) ++ u5 (ip_cgid p))%list.

Definition shm_line (x : Z * shmid_ds) : bytes :=
  let '(c, d) := x in
  (ipc_head (shm_perm d) c ++ u10 (shm_segsz d) ++ d5 (shm_cpid d) ++ d5 (shm_lpid d) ++ pad_left 6 32 (sdec (i32 (shm_nattch d))) ++ lit " "
   ++ ipc_owners (shm_perm d) ++ d10 (shm_atime d) ++ d10 (shm_dtime d) ++ d10 (shm_ctime d) ++ u10 0 ++ udec 10 0 ++ [10])%list.
Definition sem_line (x : Z * semid_ds) : bytes :=
  let '(c, d) := x in
  (ipc_head (sem_perm d) c ++ u10 (sem_nsems d) ++ ipc_owners (sem_perm d) ++ d10 (sem_otime d) ++ pad_left 10 32 (sdec (sem_ctime d)) ++ [10])%list.
Definition msg_line (x : Z * msqid_ds) : bytes :=
  let '(c, d) := x in
  (ipc_head (msg_perm d) c ++ u10 (msg_cbytes d) ++ u10 (msg_qnum d) ++ d5 (msg_lspid d) ++ d5 (msg_lrpid d) ++ ipc_owners (msg_perm d)
   ++ d10 (msg_stime d) ++ d10 (msg_rtime d) ++ pad_left 10 32 (sdec (msg_ctime d)) ++ [10])%list.

Definition build_sysvipc_shm_blob (iter : Z -> option (Z * shmid_ds)) (mem_ok : bool) : option bytes :=
  if mem_ok then
    Some (lit "       key      shmid perms       size  cpid  lpid nattch" ++ lit "   uid   gid  cuid  cgid      atime      dtime      ctime"
          ++ line "        rss       swap" ++ concat (map shm_line (ipcs_objects iter)))%list
  else None.
Definition build_sysvipc_sem_blob (iter : Z -> option (Z * semid_ds)) (mem_ok : bool) : option bytes :=
  if mem_ok then
    Some (lit "       key      semid perms      nsems   uid   gid  cuid  cgid" ++ line "      otime      ctime"
          ++ concat (map sem_line (ipcs_objects iter)))%list
  else None.
Definition build_sysvipc_msg_blob (iter : Z -> option (Z * msqid_ds)) (mem_ok : bool) : option bytes :=
  if mem_ok then
    Some (lit "       key      msqid perms      cbytes       qnum lspid lrpid" ++ line "   uid   gid  cuid  cgid      stime      rtime      ctime"
          ++ concat (map msg_line (ipcs_objects iter)))%list
  else None.

(** ** The tables are complete and sorted *)
Lemma collect_all {R} first (new : list R) : forall rows cap, collect (fun _ => true) first new rows cap = (rows ++ new)%list.
Proof.
  induction new as [|r new IH]; intros rows cap; cbn [collect]; [by rewrite app_nil_r|].
  destruct (grow_some first r rows cap) as [cap' ->]. by rewrite IH, <- app_assoc.
Qed.

Lemma irq_collect_all es : forall rows cap, irq_collect (fun _ => true) es rows cap = (rows ++ concat es)%list.
Proof.
  induction es as [|new es IH]; intros rows cap; cbn [irq_collect concat]; [by rewrite app_nil_r|].
  set (go := fix go (new rows : list irqrow) cap := _).
  assert (Hgo : forall new rows cap, exists cap', go new rows cap = ((rows ++ new)%list, cap')).
  { clear. induction new as [|r new IH]; intros rows cap; cbn; [exists cap; by rewrite app_nil_r|].
    destruct (grow_some 128 r rows cap) as [cap1 ->]. destruct (IH (rows ++ [r])%list cap1) as [cap' ->]. exists cap'. by rewrite <- app_assoc. }
  destruct (Hgo new rows cap) as [cap' ->]. by rewrite IH, <- app_assoc.
Qed.

(** The order of the devices: by bus, then by device and function. *)
Lemma pcirow_cmp_order : (forall x y, pcirow_cmp x y <= 0 \/ pcirow_cmp y x <= 0)
  /\ forall x y z, pcirow_cmp x y <= 0 -> pcirow_cmp y z <= 0 -> pcirow_cmp x z <= 0.
Proof.
  unfold pcirow_cmp. split.
  - intros x y. rewrite (Z.eqb_sym (pc_bus y)). destruct (Z.eqb_spec (pc_bus x) (pc_bus y)); cbn [negb]; rewrite !cmp_of_le; lia.
  - intros x y z. destruct (Z.eqb_spec (pc_bus x) (pc_bus y)), (Z.eqb_spec (pc_bus y) (pc_bus z)), (Z.eqb_spec (pc_bus x) (pc_bus z));
      cbn [negb]; rewrite !cmp_of_le; lia.
Qed.

(** ** The base addresses *)
(** A tuple of assigned-addresses. *)
Record pci_tuple := PciTuple { pt_hi : Z; pt_addr : Z; pt_len : Z }.
Definition tuple_bytes (t : pci_tuple) : bytes := (le_bytes 4 (pt_hi t) ++ le_bytes 8 (pt_addr t) ++ le_bytes 8 (pt_len t))%list.
Definition tuple_ok (t : pci_tuple) : Prop := 0 <= pt_hi t < 2 ^ 32 /\ 0 <= pt_addr t < 2 ^ 64 /\ 0 <= pt_len t < 2 ^ 64.

(** Reference: the last tuple of a BAR counts. *)
Definition bar_tuple (i : nat) (ts : list pci_tuple) : option pci_tuple :=
  last (List.filter (fun t => bool_decide (bar_index (Z.land (pt_hi t) 255) = Some i)) ts).

Lemma pci_le32_at a v b : 0 <= v < 2 ^ 32 -> pci_le32 (a ++ le_bytes 4 v ++ b) (length a) = v.
Proof.
  intros Hv. unfold pci_le32. rewrite !app_nth2_plus. cbn [le_bytes app nth].
  assert (B : forall x, 0 <= x mod 256 < 2 ^ 8) by (intros x; apply Z.mod_pos_bound; lia).
  pose proof (B v). pose proof (B (v / 256)). pose proof (B (v / 256 / 256)). pose proof (B (v / 256 / 256 / 256)).
  rewrite (lor_shiftl _ _ 8) by lia. rewrite (lor_shiftl _ _ 16) by lia. rewrite (lor_shiftl _ _ 24) by lia.
  pose proof (Z.div_mod v 256 ltac:(lia)). pose proof (Z.div_mod (v / 256) 256 ltac:(lia)). pose proof (Z.div_mod (v / 256 / 256) 256 ltac:(lia)).
  assert (E : v / 256 / 256 / 256 mod 256 = v / 256 / 256 / 256).
  { apply Z.mod_small. rewrite !Z.div_div by lia. split; [apply Z.div_pos; lia|apply Z.div_lt_upper_bound; lia]. }
  rewrite E. lia.
Qed.

Lemma le_bytes_split n m v : le_bytes (n + m) v = (le_bytes n v ++ le_bytes m (v / 256 ^ Z.of_nat n))%list.
Proof.
  revert v. induction n as [|n IH]; intros v; [cbn; by rewrite Z.div_1_r|].
  cbn [Nat.add le_bytes app]. rewrite IH. do 2 f_equal. rewrite Nat2Z.inj_succ, Z.pow_succ_r by lia. by rewrite Z.div_div by lia.
Qed.

Lemma le_bytes_mod n v : le_bytes n v = le_bytes n (v mod 256 ^ Z.of_nat n).
Proof.
  revert v. induction n as [|n IH]; intros v; [done|]. cbn [le_bytes]. rewrite Nat2Z.inj_succ, Z.pow_succ_r by lia.
  assert (Hk : 0 < 256 ^ Z.of_nat n) by (apply Z.pow_pos_nonneg; lia).
  rewrite Z.rem_mul_r, (Z.mul_comm 256) by lia. f_equal.
  - by rewrite Z.mod_add, Z.mod_mod by lia.
  - rewrite Z.div_add, (Z.div_small (v mod 256)), Z.add_0_l by first [lia|apply Z.mod_pos_bound; lia]. apply IH.
Qed.

(** Two cells make 64 bits. *)
Lemma pci_le64_at a v b : 0 <= v < 2 ^ 64 ->
  Z.lor (pci_le32 (a ++ le_bytes 8 v ++ b) (length a)) (Z.shiftl (pci_le32 (a ++ le_bytes 8 v ++ b) (length a + 4)) 32) = v.
Proof.
  intros Hv. change 8%nat with (4 + 4)%nat. rewrite le_bytes_split, (le_bytes_mod 4 v). change (256 ^ Z.of_nat 4) with 4294967296.
  assert (Hm : 0 <= v mod 4294967296 < 2 ^ 32) by (apply Z.mod_pos_bound; lia).
  assert (Hd : 0 <= v / 4294967296 < 2 ^ 32) by (split; [apply Z.div_pos; lia|apply Z.div_lt_upper_bound; lia]).
  rewrite <- app_assoc. rewrite (pci_le32_at a _ (le_bytes 4 (v / 4294967296) ++ b)) by done.
  rewrite (app_assoc a). replace (length a + 4)%nat with (length (a ++ le_bytes 4 (v mod 4294967296))) by (by rewrite length_app, le_bytes_length).
  rewrite pci_le32_at by done. rewrite lor_shiftl by lia. pose proof (Z.div_mod v 4294967296 ltac:(lia)). lia.
Qed.

Definition assign (bs : list Z * list Z) (t : pci_tuple) : list Z * list Z :=
  match bar_index (Z.land (pt_hi t) 255) with
  | None => bs
  | Some i => (<[i := Z.lor (pt_addr t) (bar_flags (pt_hi t))]> (fst bs), <[i := pt_len t]> (snd bs))
  end.

Lemma bars_loop_tuples ts : forall pre rest base size f, Forall tuple_ok ts -> (length ts < f)%nat -> (length rest < 20)%nat ->
  bars_loop f (pre ++ concat (map tuple_bytes ts) ++ rest)%list (length pre) base size = fold_left assign ts (base, size).
Proof.
  induction ts as [|t ts IH]; intros pre rest base size f Hok Hf Hr; (destruct f as [|f]; [cbn in Hf; lia|]); cbn [bars_loop map concat fold_left].
  - cbn [app]. rewrite length_app. destruct (Nat.leb_spec (length pre + 20) (length pre + length rest)); [lia|done].
  - apply Forall_cons in Hok as [(H1 & H2 & H3) Hok]. set (tail := (concat (map tuple_bytes ts) ++ rest)%list).
    assert (L : length (tuple_bytes t) = 20%nat) by (unfold tuple_bytes; by rewrite !length_app, !le_bytes_length).
    rewrite <- app_assoc. fold tail. destruct (Nat.leb_spec (length pre + 20) (length (pre ++ tuple_bytes t ++ tail))); [|rewrite !length_app in *; lia].
    assert (E0 : pci_le32 (pre ++ tuple_bytes t ++ tail) (length pre) = pt_hi t) by (unfold tuple_bytes; rewrite <- app_assoc; by apply pci_le32_at).
    assert (E1 : Z.lor (pci_le32 (pre ++ tuple_bytes t ++ tail) (length pre + 4)) (Z.shiftl (pci_le32 (pre ++ tuple_bytes t ++ tail) (length pre + 8)) 32) = pt_addr t).
    { set (p := (pre ++ le_bytes 4 (pt_hi t))%list). assert (Lp : length p = (length pre + 4)%nat) by (unfold p; by rewrite length_app, le_bytes_length).
      rewrite <- Lp. replace (length pre + 8)%nat with (length p + 4)%nat by lia.
      assert (E : (pre ++ tuple_bytes t ++ tail)%list = (p ++ le_bytes 8 (pt_addr t) ++ le_bytes 8 (pt_len t) ++ tail)%list) by (unfold p, tuple_bytes; by rewrite <- !app_assoc).
      rewrite E. by apply pci_le64_at. }
    assert (E2 : Z.lor (pci_le32 (pre ++ tuple_bytes t ++ tail) (length pre + 12)) (Z.shiftl (pci_le32 (pre ++ tuple_bytes t ++ tail) (length pre + 16)) 32) = pt_len t).
    { set (p := (pre ++ le_bytes 4 (pt_hi t) ++ le_bytes 8 (pt_addr t))%list).
      assert (Lp : length p = (length pre + 12)%nat) by (unfold p; by rewrite !length_app, !le_bytes_length).
      rewrite <- Lp. replace (length pre + 16)%nat with (length p + 4)%nat by lia.
      assert (E : (pre ++ tuple_bytes t ++ tail)%list = (p ++ le_bytes 8 (pt_len t) ++ tail)%list) by (unfold p, tuple_bytes; by rewrite <- !app_assoc).
      rewrite E. by apply pci_le64_at. }
    cbv zeta. rewrite E0, E1, E2. assert (Ea : (pre ++ tuple_bytes t ++ tail)%list = ((pre ++ tuple_bytes t) ++ tail)%list) by by rewrite <- app_assoc.
    rewrite Ea. replace (length pre + 20)%nat with (length (pre ++ tuple_bytes t)) by (rewrite length_app; lia). cbn [length] in Hf. unfold assign at 2.
    destruct (bar_index (Z.land (pt_hi t) 255)); apply IH; [done|lia|done|done|lia|done].
Qed.

Lemma bar_index_lt reg i : bar_index reg = Some i -> (i < 7)%nat.
Proof.
  unfold bar_index. destruct (_ && _) eqn:E.
  - intros [= <-]. bool_to_prop. assert ((reg - 16) / 4 < 6) by (apply Z.div_lt_upper_bound; lia).
    pose proof (Z.div_pos (reg - 16) 4 ltac:(lia) ltac:(lia)). lia.
  - destruct (reg =? 48); [|done]. intros [= <-]. lia.
Qed.

Lemma assign_all ts i : (i < 7)%nat -> let s := fold_left assign ts (repeat 0 7, repeat 0 7) in
  fst s !! i = Some (from_option (fun t => Z.lor (pt_addr t) (bar_flags (pt_hi t))) 0 (bar_tuple i ts))
  /\ snd s !! i = Some (from_option pt_len 0 (bar_tuple i ts)) /\ length (fst s) = 7%nat /\ length (snd s) = 7%nat.
Proof.
  intros Hi. cbv zeta. induction ts as [|t ts IH] using rev_ind.
  - cbn. by repeat (destruct i as [|i]; [done|]); lia.
  - rewrite fold_left_app. cbn [fold_left]. set (s := fold_left assign ts _) in *. destruct IH as (H1 & H2 & L1 & L2).
    unfold bar_tuple. rewrite List.filter_app. cbn [List.filter]. unfold assign. destruct (bar_index (Z.land (pt_hi t) 255)) as [j|] eqn:E.
    + pose proof (bar_index_lt _ _ E). cbn [fst snd]. rewrite !length_insert. case_bool_decide as Ej.
      * injection Ej as ->. rewrite last_snoc, !list_lookup_insert_eq by lia. done.
      * rewrite app_nil_r, !list_lookup_insert_ne by congruence. done.
    + rewrite bool_decide_false by done. rewrite app_nil_r. done.
Qed.

Lemma bar_flags_range c0 : 0 <= bar_flags c0 < 16.
Proof.
  unfold bar_flags. destruct (_ =? 1); [lia|]. destruct (_ =? 3), (negb _); (split; [vm_compute; congruence|vm_compute; reflexivity]).
Qed.

Lemma bars_all ts rest : Forall tuple_ok ts -> (length rest < 20)%nat ->
  let b := (concat (map tuple_bytes ts) ++ rest)%list in
  bars_loop (length b) b 0 (repeat 0 7) (repeat 0 7) = fold_left assign ts (repeat 0 7, repeat 0 7).
Proof.
  intros Hok Hr. cbv zeta.
  assert (Hn : (20 * length ts <= length (concat (map tuple_bytes ts)))%nat).
  { clear. induction ts as [|t ts IH]; [done|]. cbn [map concat length]. rewrite length_app. unfold tuple_bytes at 1. rewrite !length_app, !le_bytes_length. lia. }
  destruct ts as [|t0 ts'].
  - cbn [map concat app]. destruct rest as [|c rest]; [done|]. cbn [bars_loop length]. cbn [length] in Hr.
    destruct (Nat.leb_spec (0 + 20) (S (length rest))); [lia|done].
  - apply (bars_loop_tuples (t0 :: ts') [] rest); [done| |done]. rewrite length_app. cbn [length] in *. lia.
Qed.

(** *** What a column of base addresses means *)
(** The configuration registers of the seven columns: BAR0 to BAR5 and the ROM. *)
Definition bar_registers : list Z := [0x10; 0x14; 0x18; 0x1c; 0x20; 0x24; 0x30].

(** The flags of a base address register, from the first cell of the tuple: 1 for I/O
    space; for memory 4 when it is 64-bit and 8 when it is prefetchable. *)
Definition register_flags (hi : Z) : Z :=
  if bool_decide ((hi / 2 ^ 24) mod 4 = 1) then 1
  else 4 * (if bool_decide ((hi / 2 ^ 24) mod 4 = 3) then 1 else 0) + 8 * ((hi / 2 ^ 30) mod 2).

(** The column of register [reg]: zero without a tuple for it, else the last one. *)
Definition column (ts : list pci_tuple) (reg base size : Z) : Prop :=
  (Forall (fun t => pt_hi t mod 256 <> reg) ts /\ base = 0 /\ size = 0)
  \/ exists pre t post, ts = (pre ++ t :: post)%list /\ pt_hi t mod 256 = reg /\ Forall (fun t => pt_hi t mod 256 <> reg) post
       /\ base = Z.lor (pt_addr t) (register_flags (pt_hi t)) /\ size = pt_len t
       /\ (pt_addr t mod 16 = 0 -> base = pt_addr t + register_flags (pt_hi t)).

Lemma bar_index_register reg i : bar_index reg = Some i <-> bar_registers !! i = Some reg.
Proof.
  split.
  - unfold bar_index. destruct (_ && _) eqn:E.
    + assert (Hr : reg - 16 ∈ seqZ 0 21) by (apply elem_of_seqZ; bool_to_prop; lia). replace reg with (16 + (reg - 16)) by lia.
      assert (Hall : Forall (fun k => Z.land k 3 = 0 -> bar_registers !! Z.to_nat (k / 4) = Some (16 + k)) (seqZ 0 21))
        by (cbn; repeat constructor; try done; discriminate).
      rewrite Forall_forall in Hall. intros [= <-]. bool_to_prop. replace (16 + (reg - 16) - 16) with (reg - 16) by lia. by apply Hall.
    + destruct (Z.eqb_spec reg 48) as [->|]; [|done]. by intros [= <-].
  - intros H. do 7 (destruct i as [|i]; [injection H as <-; reflexivity|]). done.
Qed.

Lemma bar_flags_register hi : bar_flags hi = register_flags hi.
Proof.
  unfold bar_flags, register_flags. change 3 with (Z.ones 2) at 1 2. change 1 with (Z.ones 1) at 3.
  rewrite !Z.land_ones, !Z.shiftr_div_pow2 by lia. change (2 ^ 2) with 4. change (2 ^ 1) with 2.
  pose proof (Z.mod_pos_bound (hi / 2 ^ 30) 2 ltac:(lia)). set (s := (hi / 2 ^ 24) mod 4). set (p := (hi / 2 ^ 30) mod 2) in *.
  destruct (Z.eqb_spec s 1), (Z.eqb_spec s 3); case_bool_decide; try lia; try (case_bool_decide; try lia);
    (assert (Hp : p = 0 \/ p = 1) by lia; destruct Hp as [-> | ->]; reflexivity).
Qed.

Lemma last_filter {A} (f : A -> bool) l :
  (last (List.filter f l) = None /\ Forall (fun x => f x = false) l)
  \/ exists pre x post, l = (pre ++ x :: post)%list /\ f x = true /\ Forall (fun x => f x = false) post /\ last (List.filter f l) = Some x.
Proof.
  induction l as [|x l IH] using rev_ind; [by left|]. rewrite List.filter_app. cbn [List.filter]. destruct (f x) eqn:E.
  - right. exists l, x, []. rewrite last_snoc. by repeat split.
  - rewrite app_nil_r. destruct IH as [[IH1 IH2]|(pre & y & post & -> & Hy & Hp & IH)]; [left; split; [done|apply Forall_app; by repeat constructor]|].
    right. exists pre, y, (post ++ [x])%list. rewrite <- app_assoc. split_and!; [done..| |done]. apply Forall_app; by repeat constructor.
Qed.

Lemma bar_tuple_column ts i reg : bar_registers !! i = Some reg ->
  column ts reg (from_option (fun t => Z.lor (pt_addr t) (bar_flags (pt_hi t))) 0 (bar_tuple i ts)) (from_option pt_len 0 (bar_tuple i ts)).
Proof.
  intros Hi. unfold bar_tuple.
  assert (Hb : forall t, bool_decide (bar_index (Z.land (pt_hi t) 255) = Some i) = bool_decide (pt_hi t mod 256 = reg)).
  { intros t. apply bool_decide_ext. change 255 with (Z.ones 8). rewrite Z.land_ones, bar_index_register, Hi by lia. change (2 ^ 8) with 256.
    split; [by intros [=]|by intros ->]. }
  assert (Hno : forall l, Forall (fun t => bool_decide (bar_index (Z.land (pt_hi t) 255) = Some i) = false) l -> Forall (fun t => pt_hi t mod 256 <> reg) l).
  { intros l Hl. eapply Forall_impl; [exact Hl|]. intros t. cbn beta. rewrite Hb. apply bool_decide_eq_false_1. }
  destruct (last_filter (fun t => bool_decide (bar_index (Z.land (pt_hi t) 255) = Some i)) ts) as [[-> H]|(pre & t & post & E & Ht & Hp & ->)].
  - left. by split_and!; [apply Hno|..].
  - right. exists pre, t, post. cbn [from_option]. rewrite Hb in Ht. apply bool_decide_eq_true_1 in Ht. rewrite <- bar_flags_register.
    split_and!; [done|done|by apply Hno|done|done|]. intros Ha. pose proof (bar_flags_range (pt_hi t)) as Hf.
    rewrite Z.lor_comm. pose proof (Z.div_mod (pt_addr t) 16 ltac:(lia)) as Hd. replace (pt_addr t) with (Z.shiftl (pt_addr t / 16) 4) at 1
      by (rewrite Z.shiftl_mul_pow2 by lia; change (2 ^ 4) with 16; lia).
    rewrite lor_shiftl by lia. change (2 ^ 4) with 16. lia.
Qed.

(** ** Theorems *)
(** C37. The base addresses of /proc/bus/pci/devices are read right: for the tuples of
    a device, in any order and with up to 19 bytes after them, the columns for the
    registers 0x10, 0x14, 0x18, 0x1c, 0x20, 0x24 and 0x30 hold the address and the
    length of the last tuple of their register, or zero without one; the low bits of
    the address carry 1 for I/O space, 4 for 64-bit and 8 for prefetchable memory, on
    top of an address aligned to 16. *)
Theorem pci_bars_decode (e : cfdict) ts rest : Forall tuple_ok ts -> (length rest < 20)%nat ->
  e "assigned-addresses"%string = Some (CFData (concat (map tuple_bytes ts) ++ rest)) ->
  exists base size, pci_read_bars e = (base, size) /\ length base = 7%nat /\ length size = 7%nat
    /\ forall i reg, bar_registers !! i = Some reg -> exists b l, base !! i = Some b /\ size !! i = Some l /\ column ts reg b l.
Proof.
  intros Hok Hr He. exists (fst (fold_left assign ts (repeat 0 7, repeat 0 7))), (snd (fold_left assign ts (repeat 0 7, repeat 0 7))). split_and!.
  - rewrite <- surjective_pairing. unfold pci_read_bars. rewrite He. by apply bars_all.
  - apply (assign_all ts 0). lia.
  - apply (assign_all ts 0). lia.
  - intros i reg Hi. destruct (assign_all ts i) as (H1 & H2 & _); [apply (bar_index_lt reg), bar_index_register, Hi|].
    eexists _, _. split_and!; [exact H1|exact H2|by apply bar_tuple_column].
Qed.

(** The tables of extensions, zones, allocations, PCI devices and interrupts: given
    memory, every row once, sorted: by load tag, by size downwards, by bus and
    function, by interrupt number. *)
Theorem listings_sorted `{Qsort, !QsortLaws} getcstring sscanf3 vals zs ms devs es ncpu page linux_fmt :
  (exists rows, build_blob getcstring linux_fmt (Some vals) true true
      = Some ((if linux_fmt then [] else line "Index Refs Address            Size       Wired      Name (Version)") ++ concat (map (kext_line linux_fmt) rows))%list
    /\ rows ≡ₚ map (kextrow_of getcstring) (omap id vals) /\ Sorted (fun x y => kr_tag x <= kr_tag y) rows)
  /\ (exists rows, build_allocinfo_blob (Some zs) true true
        = Some (line "allocinfo - version: 1.0" ++ line "#     <size>  <calls> <tag info>" ++ concat (map alloc_line rows))%list
      /\ rows ≡ₚ map allocrow_of zs /\ Sorted (fun x y => ar_size y <= ar_size x) rows)
  /\ (exists rows, build_vmallocinfo_blob page (Some ms) true true = Some (concat (map (vmalloc_line page) rows))
      /\ rows ≡ₚ omap vmallocrow_of ms /\ Sorted (fun x y => vr_size y <= vr_size x) rows)
  /\ (exists rows, build_pci_blob getcstring (fun _ => true) sscanf3 (Some devs) true = Some (concat (map pci_line rows))
      /\ rows ≡ₚ map (pcirow_of getcstring sscanf3) devs /\ Sorted (fun x y => pcirow_cmp x y <= 0) rows)
  /\ (exists hdr n rows, build_interrupts_blob getcstring (fun _ => true) ncpu es true = Some (hdr ++ concat (map (irq_line n) rows))%list
      /\ (1 <= n <= 64)%nat /\ rows ≡ₚ concat (map (irqrows_of getcstring) es) /\ Sorted (fun x y => ir_irq x <= ir_irq y) rows).
Proof.
  split_and!.
  - eexists. split; [reflexivity|]. split; [apply qsort_perm|]. apply (qsort_sorted kextrow_cmp kr_tag). intros x y. apply cmp_of_le.
  - eexists. split; [reflexivity|]. split; [apply qsort_perm|]. eapply sorted_mono; [|apply (qsort_sorted allocrow_cmp (fun r => - ar_size r))].
    + intros x y; cbn; lia.
    + intros x y. unfold allocrow_cmp. rewrite cmp_of_le. lia.
  - eexists. split; [reflexivity|]. split; [apply qsort_perm|]. eapply sorted_mono; [|apply (qsort_sorted vmallocrow_cmp (fun r => - vr_size r))].
    + intros x y; cbn; lia.
    + intros x y. unfold vmallocrow_cmp. rewrite cmp_of_le. lia.
  - eexists. split; [reflexivity|]. rewrite collect_all. split; [apply qsort_perm|]. apply qsort_sorted_cmp; apply pcirow_cmp_order.
  - unfold build_interrupts_blob. set (m := match ncpu with Some n => _ | None => 1 end).
    assert (Hm : 1 <= m) by (unfold m; destruct ncpu as [n|]; [destruct (Z.ltb_spec (i32 n) 1); lia|lia]). clearbody m.
    eexists _, _, _. rewrite !app_assoc. split; [reflexivity|]. rewrite irq_collect_all. split; [destruct (Z.ltb_spec 64 m); lia|].
    split; [apply qsort_perm|]. apply (qsort_sorted irqrow_cmp ir_irq). intros x y. apply cmp_of_le.
Qed.

(** *** Copies of files *)
Lemma fgets_app n f : let '(l, r) := fgets n f in f = (l ++ r)%list /\ (length l <= n)%nat.
Proof.
  revert f. induction n as [|n IH]; intros [|c f]; cbn [fgets].
  1,2,3: split; [done|cbn [length]; lia]. destruct (c =? 10); [split; [done|cbn [length]; lia]|].
  specialize (IH f). destruct (fgets n f) as [l r]. destruct IH as [-> Hl]. split; [done|cbn [length]; lia].
Qed.

Lemma fgets_moves n c f : (0 < n)%nat -> let '(l, r) := fgets n (c :: f) in (length r <= length f)%nat.
Proof.
  intros Hn. destruct n as [|n]; [lia|]. cbn. destruct (c =? 10); [done|]. pose proof (fgets_app n f) as H. destruct (fgets n f) as [l r].
  destruct H as [-> _]. rewrite length_app. lia.
Qed.

Lemma c_str_no_nul l : 0 ∉ l -> c_str l = l.
Proof.
  induction l as [|c l IH]; intros H; [done|]. apply not_elem_of_cons in H as [Hc H]. cbn. destruct (Z.eqb_spec c 0); [congruence|]. by rewrite IH.
Qed.

Lemma copy_lines_exact fuel f : (length f < fuel)%nat -> 0 ∉ f -> copy_lines fuel f = Some f.
Proof.
  revert f. induction fuel as [|k IH]; intros f Hf H0; [lia|]. cbn [copy_lines]. destruct f as [|c f]; [done|].
  pose proof (fgets_app 1023 (c :: f)) as Ha. pose proof (fgets_moves 1023 c f ltac:(lia)) as Hm. destruct (fgets 1023 (c :: f)) as [l r].
  destruct Ha as [E _]. rewrite E in H0 |- *. apply not_elem_of_app in H0 as [Hl Hr].
  rewrite IH; [|cbn [length] in Hf; lia|done]. cbn [fmap option_fmap option_map]. by rewrite c_str_no_nul.
Qed.

(** The exports file is copied whole, whatever the lengths of its lines, when it is a
    text. *)
Theorem nfsexports_copy f : 0 ∉ f -> build_nfsexports_blob (Some f) true = Some (Some f).
Proof. intros H. unfold build_nfsexports_blob. by rewrite copy_lines_exact by (done || lia). Qed.

(** *** The newest panic report *)
Definition is_panic (r : report) : bool :=
  negb (match rp_name r with String c _ => chr c =? 46 | EmptyString => false end) && ends_with_panic (rp_name r) && rp_regular r.

Lemma newest_spec rs : Forall (fun r => 0 <= rp_mtime r) rs ->
  let '(n, t) := fold_left newest_step rs (EmptyString, 0) in
  (n = EmptyString /\ t = 0 /\ forall r, r ∈ rs -> is_panic r = false)
  \/ exists pre r post, rs = (pre ++ r :: post)%list /\ is_panic r = true /\ n = panic_path (rp_name r) /\ t = rp_mtime r
       /\ (forall q, q ∈ pre -> is_panic q = true -> rp_mtime q <= rp_mtime r) /\ (forall q, q ∈ post -> is_panic q = true -> rp_mtime q < rp_mtime r).
Proof.
  induction rs as [|x rs IH] using rev_ind; intros Hr; [left; split_and!; [done|done|set_solver]|].
  apply Forall_app in Hr as [Hr Hx]. apply Forall_inv in Hx. specialize (IH Hr). rewrite fold_left_app. cbn [fold_left].
  destruct (fold_left newest_step rs _) as [n t]. assert (Es : newest_step (n, t) x = if is_panic x && (t <=? rp_mtime x) then (panic_path (rp_name x), rp_mtime x) else (n, t)).
  { unfold newest_step, is_panic. destruct (match rp_name x with String c _ => _ | EmptyString => _ end), (ends_with_panic _), (rp_regular x); done. }
  rewrite Es. destruct (is_panic x) eqn:Ex; cbn [andb].
  - destruct (Z.leb_spec t (rp_mtime x)).
    + right. exists rs, x, []. split_and!; [done|done|done|done| |set_solver]. intros q Hq Hp. destruct IH as [(_ & _ & Hn)|(pre & r & post & -> & _ & _ & -> & H1 & H2)].
      * by rewrite (Hn q Hq) in Hp.
      * apply elem_of_app in Hq as [Hq|[->|Hq]%elem_of_cons]; [specialize (H1 q Hq Hp)|..|specialize (H2 q Hq Hp)]; lia.
    + destruct IH as [(_ & -> & _)|(pre & r & post & -> & Hp & -> & -> & H1 & H2)]; [lia|]. right. exists pre, r, (post ++ [x])%list.
      split_and!; [by rewrite <- app_assoc|done|done|done|done|]. intros q [Hq|Hq%list_elem_of_singleton]%elem_of_app Hp'; [by apply H2|by subst].
  - destruct IH as [(-> & -> & Hn)|(pre & r & post & -> & Hp & -> & -> & H1 & H2)].
    + left. split_and!; [done|done|]. intros q [Hq|Hq%list_elem_of_singleton]%elem_of_app; [by apply Hn|by subst].
    + right. exists pre, r, (post ++ [x])%list. split_and!; [by rewrite <- app_assoc|done|done|done|done|].
      intros q [Hq|Hq%list_elem_of_singleton]%elem_of_app Hp'; [by apply H2|]. subst. congruence.
Qed.

(** /proc/last_kmsg is the newest panic report: the file that is read is a report that
    no other is newer than, the last such one of the directory, and there is none
    exactly when the directory holds no report. *)
Theorem last_kmsg_newest rs : Forall (fun r => 0 <= rp_mtime r) rs ->
  (newest_panic rs = EmptyString <-> forall r, r ∈ rs -> is_panic r = false)
  /\ (newest_panic rs <> EmptyString -> exists pre r post, rs = (pre ++ r :: post)%list /\ is_panic r = true /\ newest_panic rs = panic_path (rp_name r)
        /\ (forall q, q ∈ pre -> is_panic q = true -> rp_mtime q <= rp_mtime r) /\ (forall q, q ∈ post -> is_panic q = true -> rp_mtime q < rp_mtime r)).
Proof.
  intros Hr. pose proof (newest_spec rs Hr) as H. unfold newest_panic. destruct (fold_left newest_step rs _) as [n t]. cbn [fst].
  destruct H as [(-> & _ & Hn)|(pre & r & post & E & Hp & -> & _ & H1 & H2)].
  - split; [done|]. by intros [].
  - split; [|intros _; by exists pre, r, post]. split; [by unfold panic_path|]. intros Hn. rewrite (Hn r) in Hp; [done|]. rewrite E. set_solver.
Qed.







(** *** Power *)
Definition apm_bytes (i : procfs_apm_info) : bytes :=
  (le_bytes 4 (ac_online i) ++ le_bytes 4 (battery_present i) ++ le_bytes 4 (charging i) ++ le_bytes 4 (percentage i) ++ le_bytes 4 (time_minutes i))%list.

(** The percentage of a battery whose charge is within its capacity. *)
Theorem apm_percentage d cur max : ps_current d = Some cur -> ps_max d = Some max -> 0 <= cur <= max -> 0 < max < 21474836 ->
  0 <= percentage (fill_apm_info (Some [Some d])) <= 100.
Proof.
  intros Hc Hm H1 H2. cbn. rewrite Hc, Hm. cbn. destruct (Z.ltb_spec 0 max); [|lia]. rewrite i32_small by lia.
  rewrite Z.quot_div_nonneg by lia. split; [apply Z.div_pos; lia|]. apply Z.div_le_upper_bound; lia.
Qed.

(** The header the daemon prints is the fallback of the extension. *)
Theorem sysvipc_headers_agree :
  build_sysvipc_shm_blob (fun _ => None) true = Some sysvipc_shm_hdr /\ build_sysvipc_sem_blob (fun _ => None) true = Some sysvipc_sem_hdr
  /\ build_sysvipc_msg_blob (fun _ => None) true = Some sysvipc_msg_hdr.
Proof. vm_compute. done. Qed.

(** ** Witnesses *)
Definition sample_pci : cfdict := fun k =>
  if String.eqb k "assigned-addresses"
  then Some (CFData (concat (map tuple_bytes [PciTuple 3271557136 4294967296 16384; PciTuple 16777236 61440 256]) ++ [1; 2; 3])) else None.

Lemma pci_bars_decode_witness :
  pci_read_bars sample_pci = ([4294967308; 61441; 0; 0; 0; 0; 0], [16384; 256; 0; 0; 0; 0; 0])
  /\ column [PciTuple 3271557136 4294967296 16384; PciTuple 16777236 61440 256] 0x14 61441 256
  /\ column [PciTuple 3271557136 4294967296 16384; PciTuple 16777236 61440 256] 0x10 4294967308 16384.
Proof.
  split; [vm_compute; reflexivity|].
  destruct (pci_bars_decode sample_pci [PciTuple 3271557136 4294967296 16384; PciTuple 16777236 61440 256] [1; 2; 3]) as (base & size & E & _ & _ & H);
    [repeat constructor; vm_compute; congruence|cbn; lia|reflexivity|].
  vm_compute in E. injection E as <- <-.
  destruct (H 1%nat 0x14 eq_refl) as (b1 & l1 & [= <-] & [= <-] & H1). destruct (H 0%nat 0x10 eq_refl) as (b0 & l0 & [= <-] & [= <-] & H0).
  by split.
Defined.


