(* ===== verification/Double.v ===== *)
(** * Load averages in binary64 (the PROCFS_REQ_LOADAVG arm of tools/procfsd.c)

    The daemon turns each of the three doubles of getloadavg into hundredths with
    [(uint32_t)(la[i] * 100.0 + 0.5)].  The multiplication and the addition are the
    binary64 operations of the Standard Library's [SpecFloat]; the conversion
    truncates, and is undefined ([None]) outside of the type.  The system's load
    averages are fixed-point numbers with 11 fractional bits (FSCALE), which a
    double holds exactly; for them the rounding of both operations is exact. *)
From S2P Require Import Prelude.
From Stdlib Require Import ZArith Lia SpecFloat.
From stdpp Require Import base numbers.
Open Scope Z_scope.

Definition b64_mul : spec_float -> spec_float -> spec_float := SFmul 53 1024.
Definition b64_add : spec_float -> spec_float -> spec_float := SFadd 53 1024.

(** The double nearest to [n * 2 ^ e]. *)
Definition b64_of (n e : Z) : spec_float := binary_normalize 53 1024 n e false.

(** [(uint32_t)d]. *)
Definition double_to_u32 (d : spec_float) : option Z :=
  match d with
  | S754_zero _ => Some 0
  | S754_finite s m e =>
      let mag := if 0 <=? e then Zpos m * 2 ^ e else Zpos m / 2 ^ (- e) in
      let v := if s then - mag else mag in
      if (0 <=? v) && (v <? 2 ^ 32) then Some v else None
  | _ => None
  end.

(** [(uint32_t)(la * 100.0 + 0.5)]. *)
Definition load_hundredths (la : spec_float) : option Z :=
  double_to_u32 (b64_add (b64_mul la (b64_of 100 0)) (b64_of 1 (-1))).

(** ** The value of a double *)
(** [d] is the number [N * 2 ^ q]; exponents are at least [-K]. *)
Definition is_value (K : Z) (d : spec_float) (N q : Z) : Prop :=
  exists m e, d = S754_finite false m e /\ - K <= e /\ Zpos m * 2 ^ (e + K) = N * 2 ^ (q + K).

Lemma digits2_log2 m : Zpos (digits2_pos m) = Z.log2 (Zpos m) + 1.
Proof.
  induction m as [m IH|m IH|]; cbn [digits2_pos]; [| |done].
  - rewrite Pos2Z.inj_succ, IH, Pos2Z.inj_xI, Z.log2_succ_double by lia. lia.
  - rewrite Pos2Z.inj_succ, IH, Pos2Z.inj_xO, Z.log2_double by lia. lia.
Qed.

Lemma shr_1_double z : 0 < z -> shr_1 (Build_shr_record (2 * z) false false) = Build_shr_record z false false.
Proof. by destruct z. Qed.

(** Shifting out zeros loses nothing. *)
Lemma shr_exact p z : 0 < z -> SpecFloat.iter_pos shr_1 p (Build_shr_record (z * 2 ^ Zpos p) false false) = Build_shr_record z false false.
Proof.
  revert z. induction p as [p IH|p IH|]; intros z Hz; cbn [SpecFloat.iter_pos].
  - pose proof (Z.pow_pos_nonneg 2 (Zpos p) ltac:(lia) ltac:(lia)).
    replace (z * 2 ^ Zpos p~1) with (2 * (z * 2 ^ Zpos p * 2 ^ Zpos p)).
    + rewrite shr_1_double by nia. rewrite IH by nia. by apply IH.
    + replace (Zpos p~1) with (1 + Zpos p + Zpos p) by lia. rewrite !Z.pow_add_r by lia. lia.
  - pose proof (Z.pow_pos_nonneg 2 (Zpos p) ltac:(lia) ltac:(lia)).
    replace (z * 2 ^ Zpos p~0) with (z * 2 ^ Zpos p * 2 ^ Zpos p).
    + rewrite IH by nia. by apply IH.
    + replace (Zpos p~0) with (Zpos p + Zpos p) by lia. rewrite Z.pow_add_r by lia. lia.
  - rewrite Z.mul_comm. change (2 ^ 1) with 2. by apply shr_1_double.
Qed.

Lemma iter_xO m d : Zpos (Pos.iter xO m d) = Zpos m * 2 ^ Zpos d.
Proof.
  induction d as [|d IH] using Pos.peano_ind; [cbn; lia|].
  rewrite Pos.iter_succ, Pos2Z.inj_xO, IH, Pos2Z.inj_succ, Z.pow_succ_r by lia. lia.
Qed.

(** A number of at most 53 bits is rounded to itself. *)
Lemma round_aux_exact K m e N q :
  0 < N < 2 ^ 53 -> -900 <= q <= 900 -> 0 <= q + K -> - K <= e ->
  Zpos m * 2 ^ (e + K) = N * 2 ^ (q + K) ->
  is_value K (binary_round_aux 53 1024 false (Zpos m) e loc_Exact) N q.
Proof.
  intros HN Hq HqK He Ev.
  assert (Hlog : Z.log2 (Zpos m) + e = Z.log2 N + q).
  { apply (f_equal Z.log2) in Ev. rewrite !Z.log2_mul_pow2 in Ev by lia. lia. }
  assert (HlN : 0 <= Z.log2 N < 53) by (split; [apply Z.log2_nonneg|apply Z.log2_lt_pow2; lia]).
  assert (Hlm : 0 <= Z.log2 (Zpos m)) by apply Z.log2_nonneg.
  set (f := Z.max (Z.log2 N + 1 + q - 53) (-1074)). assert (Hf : f <= q) by lia.
  assert (Efx : forall z e0, 0 < z -> Z.log2 z + e0 = Z.log2 N + q -> fexp 53 1024 (Zdigits2 z + e0) = f).
  { intros z e0 Hz El. destruct z as [|p|p]; [lia| |lia]. unfold Zdigits2. rewrite digits2_log2. unfold fexp, emin. subst f. f_equal; lia. }
  unfold binary_round_aux, shr_fexp, shr_record_of_loc. rewrite (Efx (Zpos m) e) by lia. unfold shr.
  destruct (Z_lt_le_dec e f) as [Hlt|Hge].
  - destruct (f - e) as [|p|p] eqn:Ep; [lia| |lia].
    assert (Em : Zpos m = N * 2 ^ (q - f) * 2 ^ Zpos p).
    { apply (Z.mul_reg_r _ _ (2 ^ (e + K))); [apply Z.pow_nonzero; lia|]. rewrite Ev, <- !Z.mul_assoc, <- !Z.pow_add_r by lia. do 2 f_equal. lia. }
    assert (Hz : 0 < N * 2 ^ (q - f)) by (apply Z.mul_pos_pos; [lia|apply Z.pow_pos_nonneg; lia]).
    rewrite Em, shr_exact by done. cbn [shr_m loc_of_shr_record round_nearest_even].
    rewrite (Efx (N * 2 ^ (q - f)) (e + Zpos p)) by (rewrite ?Z.log2_mul_pow2 by lia; lia).
    replace (f - (e + Z.pos p)) with 0 by lia. cbn [shr_m].
    destruct (N * 2 ^ (q - f)) as [|m'|m'] eqn:Em'; [lia| |lia].
    rewrite (proj2 (Z.leb_le _ _)) by lia. exists m', (e + Zpos p). split_and!; [done|lia|].
    rewrite <- Em', <- Z.mul_assoc, <- Z.pow_add_r by lia. do 2 f_equal. lia.
  - replace (match f - e with Zpos p => _ | _ => (Build_shr_record (Zpos m) false false, e) end)
      with (Build_shr_record (Zpos m) false false, e) by (destruct (f - e) eqn:E; done || lia).
    cbn [shr_m loc_of_shr_record round_nearest_even]. rewrite (Efx (Zpos m) e) by lia.
    replace (match f - e with Zpos p => _ | _ => (Build_shr_record (Zpos m) false false, e) end)
      with (Build_shr_record (Zpos m) false false, e) by (destruct (f - e) eqn:E; done || lia).
    cbn [shr_m]. rewrite (proj2 (Z.leb_le _ _)) by lia. by exists m, e.
Qed.

Lemma shl_align_value K m e e' N q : - K <= e -> - K <= e' ->
  Zpos m * 2 ^ (e + K) = N * 2 ^ (q + K) ->
  let '(mz, ez) := shl_align m e e' in - K <= ez /\ Zpos mz * 2 ^ (ez + K) = N * 2 ^ (q + K).
Proof.
  intros He He' Ev. unfold shl_align. destruct (e' - e) as [|p|p] eqn:E; [done..|]. split; [done|].
  rewrite iter_xO, <- Ev, <- Z.mul_assoc, <- Z.pow_add_r by lia. do 2 f_equal. lia.
Qed.

(** Normalising, multiplying and adding numbers that fit is exact. *)
Lemma normalize_exact K m e N q :
  1100 <= K -> 0 < N < 2 ^ 53 -> -900 <= q <= 900 -> - K <= e -> Zpos m * 2 ^ (e + K) = N * 2 ^ (q + K) ->
  is_value K (binary_normalize 53 1024 (Zpos m) e false) N q.
Proof.
  intros HK HN Hq He Ev. cbn [binary_normalize]. unfold binary_round.
  set (e' := fexp 53 1024 _). assert (- K <= e') by (unfold e', fexp, emin; lia).
  pose proof (shl_align_value K m e e' N q He ltac:(done) Ev) as Hs. destruct (shl_align m e e') as [mz ez]. destruct Hs as [Hz Ez].
  apply round_aux_exact; [lia..|done].
Qed.

Lemma b64_of_value K n e : 1100 <= K -> 0 < n < 2 ^ 53 -> -900 <= e <= 900 -> is_value K (b64_of n e) n e.
Proof. intros HK Hn He. destruct n as [|n|n]; [lia| |lia]. apply normalize_exact; lia. Qed.

Lemma b64_mul_value K x y a p b q : 1100 <= K ->
  is_value K x a p -> is_value K y b q -> 0 < a -> 0 < b -> a * b < 2 ^ 53 -> -400 <= p <= 400 -> -400 <= q <= 400 ->
  is_value (2 * K) (b64_mul x y) (a * b) (p + q).
Proof.
  intros HK (m1 & e1 & -> & H1 & E1) (m2 & e2 & -> & H2 & E2) Ha Hb Hab Hp Hq. unfold b64_mul, SFmul. cbn [xorb].
  apply round_aux_exact; [nia|lia|lia|lia|]. rewrite Pos2Z.inj_mul.
  replace (e1 + e2 + 2 * K) with ((e1 + K) + (e2 + K)) by lia. replace (p + q + 2 * K) with ((p + K) + (q + K)) by lia.
  rewrite (Z.pow_add_r 2 (e1 + K) (e2 + K)), (Z.pow_add_r 2 (p + K) (q + K)) by lia. transitivity ((Zpos m1 * 2 ^ (e1 + K)) * (Zpos m2 * 2 ^ (e2 + K))); [ring|]. rewrite E1, E2. ring.
Qed.

Lemma b64_add_value K x y a b q : 1100 <= K ->
  is_value K x a q -> is_value K y b q -> 0 < a -> 0 < b -> a + b < 2 ^ 53 -> -900 <= q <= 900 ->
  is_value K (b64_add x y) (a + b) q.
Proof.
  intros HK (m1 & e1 & -> & H1 & E1) (m2 & e2 & -> & H2 & E2) Ha Hb Hab Hq. unfold b64_add, SFadd. cbn [cond_Zopp].
  pose proof (shl_align_value K m1 e1 (Z.min e1 e2) a q H1 ltac:(lia) E1) as S1.
  pose proof (shl_align_value K m2 e2 (Z.min e1 e2) b q H2 ltac:(lia) E2) as S2.
  assert (Ez : forall m e, (e = e1 \/ e = e2) -> snd (shl_align m e (Z.min e1 e2)) = Z.min e1 e2).
  { intros m e Hin. unfold shl_align. destruct (Z.min e1 e2 - e) eqn:E; cbn; lia. }
  pose proof (Ez m1 e1 (or_introl eq_refl)) as Z1. pose proof (Ez m2 e2 (or_intror eq_refl)) as Z2. cbv zeta.
  destruct (shl_align m1 e1 (Z.min e1 e2)) as [n1 z1]. destruct (shl_align m2 e2 (Z.min e1 e2)) as [n2 z2].
  cbn [fst snd] in *. subst z1 z2. destruct S1 as [_ S1]. destruct S2 as [_ S2]. rewrite <- Pos2Z.inj_add.
  apply normalize_exact; [lia..|]. rewrite Pos2Z.inj_add, Z.mul_add_distr_r, S1, S2. ring.
Qed.

Lemma is_value_shift K d N q k : 0 <= k -> 0 <= q - k + K -> is_value K d N q -> is_value K d (N * 2 ^ k) (q - k).
Proof.
  intros Hk Hq (m & e & -> & He & E). exists m, e. split_and!; [done..|]. rewrite E, <- Z.mul_assoc, <- Z.pow_add_r by lia. do 2 f_equal. lia.
Qed.

Lemma trunc_value K d N q : 0 < N -> q <= 0 <= q + K -> N / 2 ^ (- q) < 2 ^ 32 -> is_value K d N q ->
  double_to_u32 d = Some (N / 2 ^ (- q)).
Proof.
  intros HN Hq Hb (m & e & -> & He & E). cbn [double_to_u32].
  set (mag := if 0 <=? e then _ else _). assert (mag = N / 2 ^ (- q)) as ->.
  { subst mag. assert (Hv : N / 2 ^ (- q) = Zpos m * 2 ^ (e + K) / 2 ^ K).
    { rewrite E. replace (2 ^ K) with (2 ^ (- q) * 2 ^ (q + K)) by (rewrite <- Z.pow_add_r by lia; f_equal; lia).
      rewrite Z.div_mul_cancel_r; [done|apply Z.pow_nonzero; lia..]. }
    rewrite Hv. destruct (Z.leb_spec 0 e).
    - rewrite Z.pow_add_r, Z.mul_assoc, Z.div_mul by (try apply Z.pow_nonzero; lia). done.
    - replace (2 ^ K) with (2 ^ (- e) * 2 ^ (e + K)) by (rewrite <- Z.pow_add_r by lia; f_equal; lia).
      rewrite Z.div_mul_cancel_r; [done|apply Z.pow_nonzero; lia..]. }
  pose proof (Z.pow_pos_nonneg 2 (- q) ltac:(lia) ltac:(lia)). pose proof (Z.div_pos N (2 ^ (- q)) ltac:(lia) ltac:(lia)).
  by rewrite (proj2 (Z.leb_le _ _)), (proj2 (Z.ltb_lt _ _)) by lia.
Qed.

(** ** Properties *)
(** A fixed-point load average with 11 fractional bits is reported in
    hundredths, rounded half up: neither the product nor the sum loses a bit, and
    the conversion is defined. *)
Lemma load_hundredths_exact n : 0 <= n < 2 ^ 32 ->
  load_hundredths (b64_of n (-11)) = Some ((100 * n + 1024) / 2048) /\ 0 <= (100 * n + 1024) / 2048 < 2 ^ 28.
Proof.
  intros Hn. split; [|Z.to_euclidean_division_equations; lia].
  destruct (decide (n = 0)) as [->|Hne]; [vm_compute; reflexivity|].
  assert (Hd : is_value 2200 (b64_mul (b64_of n (-11)) (b64_of 100 0)) (100 * n) (-11)).
  { rewrite Z.mul_comm. apply (b64_mul_value 1100 _ _ n (-11) 100 0); try lia; apply b64_of_value; lia. }
  assert (Hh : is_value 2200 (b64_of 1 (-1)) 1024 (-11)).
  { apply (is_value_shift 2200 _ 1 (-1) 10); [lia..|]. apply b64_of_value; lia. }
  unfold load_hundredths. change 2048 with (2 ^ (- (-11))).
  apply (trunc_value 2200); [lia|lia| |apply b64_add_value; [lia|exact Hd|exact Hh|lia..]].
  change (2 ^ (- (-11))) with 2048. Z.to_euclidean_division_equations; lia.
Qed.
