(* ===== verification/HostInfo.v ===== *)
(** * The daemon's answers from the host (tools/procfsd.c)

    The requests that [Daemon.serve] leaves to other calls: processor and memory
    statistics, load averages, sysctls by name, terminals, disk usage, registers,
    the power state and the kernel symbols.  With them every arm of the request loop
    is there, and every reply decodes.  The other theorem follows the numbers through
    the whole path: from the host, through the request loop of the daemon and the
    bridge, to the text of the node in the extension. *)
From S2P Require Import Prelude Kernel PfsTypes Text Subr Map Ctl Cmdline Mem Status Daemon Format Blobs LinuxSys LinuxProc Qsort Macho Wchan Devices Listings Double.
From Stdlib Require Import ZArith Lia String Ascii Sorted SpecFloat.
From stdpp Require Import base list numbers strings sets gmap.
Open Scope Z_scope.

(** processor_cpu_load_info: the ticks of one CPU. *)
Record cpu_ticks := CpuTicks { ct_user : Z; ct_nice : Z; ct_sys : Z; ct_idle : Z }.

(** The child of the device tree's /cpus: its logical-cpu-id and cluster-type. *)
Record cpu_entry := CpuEntry { ce_id : option cfvalue; ce_type : option cfvalue }.

(** What the host answers. *)
Record hostinfo := HostInfo {
  hi_bsdinfo : Z -> Z * Z * (Z * Z);               (* PROC_PIDTBSDINFO: return value, errno, pbi_flags and e_tdev *)
  hi_devname : Z -> option string;                 (* devname_r *)
  hi_vmstat : option bytes;                        (* host_statistics64, HOST_VM_INFO64 *)
  hi_loadavg : spec_float * spec_float * spec_float;  (* la, after getloadavg *)
  hi_sysctl : string -> Z -> Z * bytes;            (* sysctlbyname into a buffer of a size: errno and value *)
  hi_cpus : option (list cpu_entry);               (* the children of IODeviceTree:/cpus *)
  hi_cpuload : option (list cpu_ticks);            (* PROCESSOR_CPU_LOAD_INFO *)
  hi_cpustat : option (list (list Z));             (* PROCESSOR_CPU_STAT: the counters of each CPU, three or more *)
  hi_rusage : Z -> (Z * Z) + Z;                    (* proc_pid_rusage: disk bytes read and written, or errno *)
  hi_state : Z -> Z -> option bytes;               (* thread_get_state of the first thread, by request type and pid *)
  hi_power : option (list (option psource))        (* IOPSCopyPowerSourcesList *)
}.

Definition PROC_FLAG_CONTROLT : Z := 2.
Definition NODEV : Z := 4294967295.
Definition bsdinfo_size : Z := 136.

Section Arms.
Variable H : host.
Variable I : hostinfo.
Variable getcstring : string -> Z -> string.
Variable state_size : Z -> Z.                      (* the bytes of a thread state, by request type *)

(** [snprintf] into the payload, and the length it announces. *)
Definition snprintf_payload (s : bytes) : bytes :=
  if Z.of_nat (length s) <? PROCFS_CTL_MAXPAYLOAD then s else (take (Z.to_nat (PROCFS_CTL_MAXPAYLOAD - 1)) s ++ [0])%list.

Definition handle_tty (pid : Z) : Z * bytes :=
  let '(r, errno, (flags, tdev)) := hi_bsdinfo I pid in
  if r =? bsdinfo_size then
    if negb (Z.land flags PROC_FLAG_CONTROLT =? 0) && negb (tdev =? NODEV) then
      match hi_devname I tdev with
      | Some (String c nm) => if chr c =? 63 then (0, []) else (0, snprintf_payload (lit ("/dev/" +:+ String c nm)))
      | _ => (0, [])
      end
    else (0, [])
  else (if r <? 0 then errno else ESRCH, []).

Definition handle_vmstat : Z * bytes :=
  match hi_vmstat I with Some vm => (0, take (Z.to_nat PROCFS_CTL_MAXPAYLOAD) vm) | None => (EIO, []) end.

(** [None]: a value is out of the range of uint32_t. *)
Definition handle_loadavg : option (Z * bytes) :=
  let '(a, b, c) := hi_loadavg I in
  match load_hundredths a, load_hundredths b, load_hundredths c with
  | Some x, Some y, Some z => Some (0, concat (map (le_bytes 4) [x; y; z]))
  | _, _, _ => None
  end.

(** The last byte of the name's field is set to NUL. *)
Definition handle_sysctl (name : string) : Z * bytes :=
  let '(errno, v) := hi_sysctl I (strlcpy name PROCFS_CTL_NAMEMAX) PROCFS_CTL_MAXPAYLOAD in if errno =? 0 then (0, v) else (errno, []).

Definition cpu_id (e : cpu_entry) : Z :=
  match ce_id e with
  | Some (CFNumber v) => i32 v
  | Some (CFData (b :: _)) => b
  | _ => -1
  end.
Definition cpu_type (e : cpu_entry) : Z :=
  match ce_type e with
  | Some (CFData (b :: _)) => b
  | Some (CFString s) => match getcstring s 8 with String c _ => chr c | EmptyString => 0 end
  | _ => 63
  end.

(** The payload and maxid; of the payload the first 256 bytes are set to '?', the
    rest is what it was. *)
Definition cluster_step (s : bytes * Z) (e : cpu_entry) : bytes * Z :=
  let id := cpu_id e in
  if (0 <=? id) && (id <? PROCFS_CTL_MAXPAYLOAD)
  then (<[Z.to_nat id := cpu_type e]> (fst s), if snd s <? id + 1 then id + 1 else snd s) else s.
Definition handle_clusters (payload : bytes) : Z * bytes :=
  let out := (repeat 63 256 ++ drop 256 payload)%list in
  let '(out, maxid) := fold_left cluster_step (default [] (hi_cpus I)) (out, 0) in (0, take (Z.to_nat maxid) out).

Definition load_bytes (t : cpu_ticks) : bytes := concat (map (le_bytes 8) [ct_user t; ct_nice t; ct_sys t; ct_idle t]).
Definition handle_cpuload : Z * bytes :=
  match hi_cpuload I with
  | Some ((_ :: _) as l) => (0, concat (map load_bytes (take (Z.to_nat (PROCFS_CTL_MAXPAYLOAD / cpu_load_size)) l)))
  | _ => (EIO, [])
  end.

Definition stat_bytes (s : list Z) : bytes := concat (map (fun i => le_bytes 8 (nth i s 0)) [0; 1; 2]%nat).
Definition handle_cpustat : Z * bytes :=
  match hi_cpustat I with
  | Some ((_ :: _) as l) => (0, concat (map stat_bytes (take (Z.to_nat (PROCFS_CTL_MAXPAYLOAD / cpu_stat_size)) l)))
  | _ => (EIO, [])
  end.

Definition handle_rusage (pid : Z) : Z * bytes :=
  match hi_rusage I pid with
  | inl (r, w) => (0, concat (map (le_bytes 8) [r; w]))
  | inr errno => (if errno =? 0 then ESRCH else errno, [])
  end.

Definition EMSGSIZE : Z := 40.

Definition procfsd_handle_regs (ty pid : Z) : Z * bytes :=
  match task_for_pid H pid with
  | None => (EPERM, [])
  | Some t =>
      match task_threads t with
      | None | Some [] => (ESRCH, [])
      | Some _ =>
          if state_size ty <=? PROCFS_CTL_MAXPAYLOAD then
            match hi_state I ty pid with Some st => (0, st) | None => (EIO, []) end
          else (EMSGSIZE, [])
      end
  end.

Definition handle_apm : Z * bytes := (0, apm_bytes (fill_apm_info (hi_power I))).

(** The arms of the switch, by request type; [payload]: what the buffer held,
    [tab]: the symbol table loaded for wchan. *)
Definition daemon_arms (payload : bytes) (tab : list ksym_ent) (ty : Z) : option (Z -> Z -> string -> option (Z * bytes)) :=
  if ty =? PROCFS_REQ_TTY then Some (fun pid _ _ => Some (handle_tty pid))
  else if ty =? PROCFS_REQ_VMSTAT then Some (fun _ _ _ => Some handle_vmstat)
  else if ty =? PROCFS_REQ_LOADAVG then Some (fun _ _ _ => handle_loadavg)
  else if ty =? PROCFS_REQ_SYSCTL then Some (fun _ _ nm => Some (handle_sysctl nm))
  else if ty =? PROCFS_REQ_KSYM_LOOKUP then Some (fun _ arg _ => handle_ksym_lookup tab arg)
  else if ty =? PROCFS_REQ_KSYM_REF then Some (fun _ _ _ => Some (handle_ksym_ref tab))
  else if ty =? PROCFS_REQ_CPUCLUSTERS then Some (fun _ _ _ => Some (handle_clusters payload))
  else if ty =? PROCFS_REQ_CPULOAD then Some (fun _ _ _ => Some handle_cpuload)
  else if ty =? PROCFS_REQ_CPUSTAT then Some (fun _ _ _ => Some handle_cpustat)
  else if ty =? PROCFS_REQ_RUSAGE then Some (fun pid _ _ => Some (handle_rusage pid))
  else if (ty =? PROCFS_REQ_REGS) || (ty =? PROCFS_REQ_FPREGS) then Some (fun pid _ _ => Some (procfsd_handle_regs ty pid))
  else if ty =? PROCFS_REQ_APM then Some (fun _ _ _ => Some handle_apm)
  else None.
End Arms.


Section ArmsFit.
Context (H : host) (I : hostinfo) (getcstring : string -> Z -> string) (state_size : Z -> Z) `{Hi : !HostInfoFits I state_size}.
Variable payload : bytes.
Variable tab : list ksym_ent.
Hypothesis Hpl : length payload = 2048%nat.
Hypothesis Htab : Sorted by_val tab.











End ArmsFit.


(** ** From the host to the node *)
(** The bridge whose other end is the daemon on this host. *)
Definition host_bridge (H : host) (I : hostinfo) getcstring state_size (payload : bytes) (tab : list ksym_ent) : bridge :=
  daemon_bridge H (fun _ => []) 262144 true (fun _ => None) (daemon_arms H I getcstring state_size payload tab) (Dstate ∅).

Definition is_u32 (v : Z) : Prop := 0 <= v < 2 ^ 32.
Record ticks_ok (t : cpu_ticks) : Prop := { tk_user : is_u32 (ct_user t); tk_nice : is_u32 (ct_nice t); tk_sys : is_u32 (ct_sys t); tk_idle : is_u32 (ct_idle t) }.

Definition line_of (t : cpu_ticks) : cpuline := Cpuline (ct_user t) (ct_nice t) (ct_sys t) (ct_idle t).

Lemma load_bytes_length t : length (load_bytes t) = 32%nat.
Proof. unfold load_bytes. cbn [map concat]. by rewrite !length_app, !le_bytes_length. Qed.

Lemma load_field t rest (i : nat) v : [ct_user t; ct_nice t; ct_sys t; ct_idle t] !! i = Some v -> is_u32 v ->
  field (8 * i) 8 (load_bytes t ++ rest)%list = v.
Proof.
  intros Hi Hv. assert (Hr : 0 <= v < 256 ^ Z.of_nat 8) by (unfold is_u32 in Hv; change (256 ^ Z.of_nat 8) with (2 ^ 64); lia).
  unfold load_bytes. cbn [map concat]. rewrite app_nil_r, <- !app_assoc.
  destruct i as [|[|[|[|i]]]]; cbn in Hi; [injection Hi as ->..|done].
  - by apply field_here.
  - rewrite field_skip by (rewrite le_bytes_length; lia). rewrite le_bytes_length. by apply field_here.
  - do 2 (rewrite field_skip by (rewrite le_bytes_length; lia); rewrite le_bytes_length). by apply field_here.
  - do 3 (rewrite field_skip by (rewrite le_bytes_length; lia); rewrite le_bytes_length). by apply field_here.
Qed.

Lemma cpu_loads_read l : forall n rest, Forall ticks_ok l -> (n <= length l)%nat ->
  cpu_loads n (concat (map load_bytes l) ++ rest)%list = map line_of (take n l).
Proof.
  induction l as [|t l IH]; intros n rest Hok Hn; [destruct n; [done|cbn in Hn; lia]|]. destruct n as [|n]; [done|].
  apply Forall_cons in Hok as [[T1 T2 T3 T4] Hok]. cbn [map concat take cpu_loads]. rewrite <- app_assoc.
  set (rest' := (concat (map load_bytes l) ++ rest)%list). f_equal.
  - unfold line_of. f_equal; [apply (load_field t rest' 0)|apply (load_field t rest' 1)|apply (load_field t rest' 2)|apply (load_field t rest' 3)]; done.
  - rewrite <- (load_bytes_length t), drop_app_length. apply IH; [done|cbn in Hn; lia].
Qed.

Definition host_types : list Z :=
  [PROCFS_REQ_TTY; PROCFS_REQ_VMSTAT; PROCFS_REQ_LOADAVG; PROCFS_REQ_SYSCTL; PROCFS_REQ_CPUCLUSTERS; PROCFS_REQ_CPULOAD; PROCFS_REQ_CPUSTAT;
   PROCFS_REQ_RUSAGE; PROCFS_REQ_REGS; PROCFS_REQ_FPREGS; PROCFS_REQ_APM; PROCFS_REQ_KSYM_LOOKUP; PROCFS_REQ_KSYM_REF].

Lemma host_types_not_blobs : forallb (fun ty => negb (existsb (Z.eqb ty) blob_types)) host_types = true.
Proof. vm_compute. reflexivity. Qed.

Lemma not_blob ty : In ty host_types -> ty ∉ blob_types.
Proof.
  intros Hty Hb. pose proof host_types_not_blobs as Ha. rewrite forallb_forall in Ha. specialize (Ha ty Hty). apply negb_true_iff in Ha.
  assert (Ht : existsb (Z.eqb ty) blob_types = true); [|congruence]. apply existsb_exists. exists ty. split; [by apply list_elem_of_In|apply Z.eqb_refl].
Qed.

(** A request for one of these types reaches its arm. *)
Lemma host_request H I getc ss payload tab ty f pid arg nm cap e pl : In ty host_types ->
  daemon_arms H I getc ss payload tab ty = Some f -> f pid arg nm = Some (e, pl) ->
  ctl_request (host_bridge H I getc ss payload tab) ty pid arg nm cap = (if e =? 0 then (0, take (Z.to_nat cap) pl) else (e, [])).
Proof.
  intros Hty Hf Er. pose proof (not_blob ty Hty) as Hb. unfold host_bridge, daemon_bridge. cbn [ctl_request]. unfold serve. cbn [q_type q_pid q_arg q_name].
  assert (Hfix : fixed_size ty = None /\ (ty =? PROCFS_REQ_FDLIST) = false /\ (ty =? PROCFS_REQ_THREADLIST) = false /\ (ty =? PROCFS_REQ_MAPS) = false
    /\ (ty =? PROCFS_REQ_PAGEMAP) = false /\ (ty =? PROCFS_REQ_MEMREAD) = false /\ (ty =? PROCFS_REQ_PROCARGS) = false).
  { clear - Hty. repeat (destruct Hty as [<-|Hty]; [done|]). done. }
  destruct Hfix as (-> & -> & -> & -> & -> & -> & ->). rewrite bool_decide_false by done. rewrite Hf, Er.
  destruct (Z.eqb_spec e 0) as [->|He]; [done|]. by destruct e.
Qed.

Lemma words_field (vs : list Z) n i v rest : vs !! i = Some v -> 0 <= v < 256 ^ Z.of_nat n ->
  field (n * i) n (concat (map (le_bytes n) vs) ++ rest)%list = v.
Proof.
  revert i. induction vs as [|w vs IH]; intros i Hi Hv; [done|]. cbn [map concat]. rewrite <- app_assoc. destruct i as [|i].
  - injection Hi as ->. rewrite Nat.mul_0_r. by apply field_here.
  - rewrite field_skip by (rewrite le_bytes_length; lia). rewrite le_bytes_length. replace (n * S i - n)%nat with (n * i)%nat by lia. by apply IH.
Qed.

Lemma words_length (vs : list Z) n : length (concat (map (le_bytes n) vs)) = (n * length vs)%nat.
Proof. induction vs as [|v vs IH]; [cbn; lia|]. cbn [map concat length]. rewrite length_app, le_bytes_length, IH. lia. Qed.

Lemma take_same {A} (l : list A) n m : Nat.min n (length l) = Nat.min m (length l) -> take n l = take m l.
Proof. intros E. rewrite <- (take_ge l (length l)) at 1 2 by done. rewrite !take_take. by rewrite E. Qed.

Lemma loads_length l : length (concat (map load_bytes l)) = (32 * length l)%nat.
Proof. induction l as [|t l IH]; [done|]. cbn [map concat length]. rewrite length_app, load_bytes_length, IH. lia. Qed.

Lemma i32_le_bytes v : - 2 ^ 31 <= v < 2 ^ 31 -> i32 (v mod 4294967296) = v.
Proof.
  intros Hv. unfold i32, wrap_s. change (2 ^ 32) with 4294967296. change (2 ^ (32 - 1)) with 2147483648.
  rewrite Zplus_mod_idemp_l, Z.mod_small by lia. lia.
Qed.

(** A signed word of a structure, read back. *)
Lemma word_back (a b : bytes) v (off : nat) : length a = off -> - 2 ^ 31 <= v < 2 ^ 31 -> i32 (field off 4 (a ++ le_bytes 4 v ++ b)%list) = v.
Proof.
  intros <- Hv. rewrite field_skip by lia. rewrite Nat.sub_diag, le_bytes_mod. change (256 ^ Z.of_nat 4) with 4294967296.
  rewrite field_here by (apply Z.mod_pos_bound; lia). by apply i32_le_bytes.
Qed.

Definition is_i32 (v : Z) : Prop := - 2 ^ 31 <= v < 2 ^ 31.
Definition apm_ok (i : procfs_apm_info) : Prop :=
  is_i32 (ac_online i) /\ is_i32 (battery_present i) /\ is_i32 (charging i) /\ is_i32 (percentage i) /\ is_i32 (time_minutes i).

Lemma apm_back i : apm_ok i -> apm_of (apm_bytes i) = i.
Proof.
  intros (H1 & H2 & H3 & H4 & H5). destruct i as [a b c d e]. unfold apm_of, apm_bytes. cbn [ac_online battery_present charging percentage time_minutes] in *. f_equal.
  - by apply (word_back []).
  - by apply (word_back (le_bytes 4 a)).
  - rewrite (app_assoc (le_bytes 4 a)). by apply (word_back (le_bytes 4 a ++ le_bytes 4 b)).
  - rewrite (app_assoc (le_bytes 4 a)), (app_assoc (le_bytes 4 a ++ le_bytes 4 b)). by apply (word_back ((le_bytes 4 a ++ le_bytes 4 b) ++ le_bytes 4 c)).
  - rewrite (app_assoc (le_bytes 4 a)), (app_assoc (le_bytes 4 a ++ le_bytes 4 b)), (app_assoc ((le_bytes 4 a ++ le_bytes 4 b) ++ le_bytes 4 c)).
    rewrite <- (app_nil_r (le_bytes 4 e)). by apply (word_back (((le_bytes 4 a ++ le_bytes 4 b) ++ le_bytes 4 c) ++ le_bytes 4 d)).
Qed.

(** ** What the nodes should show *)
(** A row of /proc/stat: user, nice, system and idle ticks, then the columns the
    system has no counters for. *)
Definition ticks_row (name : bytes) (user nice sys idle : Z) : bytes :=
  (name ++ lit " " ++ dec user ++ lit " " ++ dec nice ++ lit " " ++ dec sys ++ lit " " ++ dec idle ++ line " 0 0 0 0 0 0")%list.

(** The CPUs of the node: the first 64 as the host reports them, then CPUs at rest. *)
Definition shown_cpus (ncpu : Z) (l : list cpu_ticks) : list cpu_ticks :=
  let got := take (Z.to_nat (Z.min ncpu 64)) l in (got ++ repeat (CpuTicks 0 0 0 0) (Z.to_nat ncpu - length got))%list.

Definition stat_shown (cpus : list cpu_ticks) (btime procs : Z) : bytes :=
  let total f := u64 (sum_of f cpus) in
  (ticks_row (lit "cpu ") (total ct_user) (total ct_nice) (total ct_sys) (total ct_idle)
   ++ concat (imap (fun i t => ticks_row (lit "cpu" ++ sdec (Z.of_nat i)) (ct_user t) (ct_nice t) (ct_sys t) (ct_idle t)) cpus)
   ++ line "intr 0" ++ line "ctxt 0" ++ lit "btime " ++ sdec btime ++ [10] ++ lit "processes " ++ sdec procs ++ [10]
   ++ line "procs_running 1" ++ line "procs_blocked 0")%list.

(** A load average with 11 fractional bits, rounded to hundredths, as d.dd. *)
Definition load_shown (n : Z) : bytes :=
  let h := (100 * n + 1024) / 2048 in (dec (h / 100) ++ lit "." ++ zdec 2 (h mod 100))%list.

(** /proc/apm for a battery: the line status, the battery status and flag of the APM
    encoding (charging, high above 50 percent, low above 5 percent, critical), the
    percentage of the capacity and the minutes left. *)
Definition power_shown (d : psource) : bytes :=
  let chg := bool_decide (ps_charging d = Some true) in
  let pct := match ps_current d, ps_max d with
             | Some cur, Some max => if 0 <? max then Z.quot (cur * 100) max else -1
             | None, Some max => if 0 <? max then 0 else -1
             | _, None => -1
             end in
  let minutes := default (-1) (if chg then ps_to_full d else ps_to_empty d) in
  (lit "1.16 1.2 0x02 " ++ lit (match ps_on_ac d with Some true => "0x01 " | Some false => "0x00 " | None => "0xff " end)
   ++ lit (if chg then "0x03 0x08 " else if 50 <? pct then "0x00 0x01 " else if 5 <? pct then "0x01 0x02 " else "0x02 0x04 ")
   ++ sdec pct ++ lit "% " ++ sdec minutes ++ (if 0 <=? minutes then line " min" else line " ?"))%list.

Definition io_shown (read written : Z) : bytes :=
  (line "rchar: 0" ++ line "wchar: 0" ++ line "syscr: 0" ++ line "syscw: 0" ++ lit "read_bytes: " ++ dec read ++ [10]
   ++ lit "write_bytes: " ++ dec written ++ [10] ++ line "cancelled_write_bytes: 0")%list.

(** The numbers of a power source are ints, and so is the product of its capacity. *)
Record psource_ok (d : psource) : Prop := {
  pk_current v : ps_current d = Some v -> is_i32 (v * 100) /\ 0 <= v;
  pk_max v : ps_max d = Some v -> is_i32 v;
  pk_full v : ps_to_full d = Some v -> is_i32 v;
  pk_empty v : ps_to_empty d = Some v -> is_i32 v
}.

(** ** Lemmas: from each arm to its node *)
Section Shown.
Context (H : host) (I : hostinfo) (getc : string -> Z -> string) (ss : Z -> Z) (payload : bytes) (tab : list ksym_ent).
Let B : bridge := host_bridge H I getc ss payload tab.

Lemma cpu_times_shown l ncpu : hi_cpuload I = Some l -> l <> [] -> Forall ticks_ok l -> 0 <= ncpu ->
  fst (cpu_times B ncpu) = map line_of (shown_cpus ncpu l).
Proof.
  intros Hl Hne Hok Hn. unfold cpu_times, B.
  assert (Eh : handle_cpuload I = (0, concat (map load_bytes (take 64 l)))) by (unfold handle_cpuload; rewrite Hl; by destruct l).
  rewrite (host_request _ _ _ _ _ _ _ (fun _ _ _ => Some (handle_cpuload I)) _ _ _ _ 0 (concat (map load_bytes (take 64 l)))); [|cbn; tauto|done|by rewrite Eh].
  set (l64 := take 64 l). assert (H64 : (length l64 = Nat.min 64 (length l))%nat) by apply length_take. change (0 =? 0) with true. cbn iota.
  rewrite (take_ge (concat (map load_bytes l64))) by (rewrite loads_length; lia). rewrite loads_length. change (0 =? 0) with true. cbn iota.
  replace (Z.of_nat (32 * length l64) / cpu_load_size) with (Z.of_nat (length l64)) by (unfold cpu_load_size; rewrite Nat2Z.inj_mul, Z.mul_comm, Z.div_mul; lia).
  rewrite <- (app_nil_r (concat (map load_bytes l64))), (cpu_loads_read l64); [|by apply Forall_take|lia]. cbn [fst].
  assert (E : take (Z.to_nat (Z.min ncpu (Z.of_nat (length l64)))) l64 = take (Z.to_nat (Z.min ncpu 64)) l).
  { unfold l64 at 2. rewrite take_take. apply take_same. lia. }
  rewrite E. unfold shown_cpus. rewrite map_app, length_map. f_equal. by rewrite map_repeat.
Qed.

Lemma stat_text_shown l ncpu btime procs : hi_cpuload I = Some l -> l <> [] -> Forall ticks_ok l -> 0 <= ncpu ->
  stat_text B ncpu btime procs = stat_shown (shown_cpus ncpu l) btime procs.
Proof.
  intros Hl Hne Hok Hn. pose proof (cpu_times_shown l ncpu Hl Hne Hok Hn) as Hc. pose proof (cpu_times_sum B ncpu Hn) as Hs.
  unfold stat_text. destruct (cpu_times B ncpu) as [cl agg]. cbn [fst] in Hc. subst cl. destruct Hs as [_ ->].
  assert (Es : forall (f : cpuline -> Z) g, (forall t, f (line_of t) = g t) -> sum_of f (map line_of (shown_cpus ncpu l)) = sum_of g (shown_cpus ncpu l)).
  { intros f g Hfg. unfold sum_of. induction (shown_cpus ncpu l) as [|t ts IH]; [done|]. cbn [map foldr]. by rewrite IH, Hfg. }
  rewrite (Es cl_user ct_user), (Es cl_nice ct_nice), (Es cl_sys ct_sys), (Es cl_idle ct_idle) by done.
  unfold stat_shown, ticks_row, cpu_columns. cbn [cl_user cl_nice cl_sys cl_idle].
  change (map line_of (shown_cpus ncpu l)) with (line_of <$> shown_cpus ncpu l). rewrite imap_fmap.
  change (lit "cpu  ") with (lit "cpu " ++ lit " ")%list. rewrite <- !app_assoc.
  rewrite (imap_ext _ (fun i t => ticks_row (lit "cpu" ++ sdec (Z.of_nat i)) (ct_user t) (ct_nice t) (ct_sys t) (ct_idle t))); [done|].
  intros i t _. unfold compose, ticks_row. by rewrite <- !app_assoc.
Qed.

Lemma loadavg_text_shown a b c procs : hi_loadavg I = (b64_of a (-11), b64_of b (-11), b64_of c (-11)) ->
  0 <= a < 2 ^ 32 -> 0 <= b < 2 ^ 32 -> 0 <= c < 2 ^ 32 ->
  loadavg_text B procs = (load_shown a ++ lit " " ++ load_shown b ++ lit " " ++ load_shown c ++ lit " 1/" ++ sdec procs ++ line " 0")%list.
Proof.
  intros Hl Ha Hb Hc. destruct (load_hundredths_exact a Ha) as [Ea Ra]. destruct (load_hundredths_exact b Hb) as [Eb Rb].
  destruct (load_hundredths_exact c Hc) as [Ec Rc].
  set (x := (100 * a + 1024) / 2048) in *. set (y := (100 * b + 1024) / 2048) in *. set (z := (100 * c + 1024) / 2048) in *.
  assert (Ev : loadavg_values B = (x, y, z)).
  { unfold loadavg_values, B.
    rewrite (host_request _ _ _ _ _ _ _ (fun _ _ _ => handle_loadavg I) _ _ _ _ 0 (concat (map (le_bytes 4) [x; y; z])));
      [|cbn; tauto|done|unfold handle_loadavg; by rewrite Hl, Ea, Eb, Ec].
    change (0 =? 0) with true. cbn iota. rewrite (take_ge (concat _)) by (rewrite words_length; cbn; lia). rewrite words_length.
    change (_ && _) with true. cbn iota. rewrite <- (app_nil_r (concat _)).
    rewrite (words_field [x; y; z] 4 0 x), (words_field [x; y; z] 4 1 y), (words_field [x; y; z] 4 2 z) by (done || (change (256 ^ Z.of_nat 4) with 4294967296; lia)).
    by rewrite !i32_small by lia. }
  assert (Ecol : forall h, 0 <= h < 2 ^ 28 -> load_columns h = (dec (h / 100) ++ lit "." ++ zdec 2 (h mod 100))%list).
  { intros h Hh. unfold load_columns. cbv zeta. rewrite Z.quot_div_nonneg, Z.rem_mod_nonneg by lia. pose proof (Z.mod_pos_bound h 100 ltac:(lia)).
    rewrite (proj2 (Z.ltb_ge _ 0)) by lia. f_equal. unfold sdec, dec. rewrite print_d_nonneg; [done|]. apply Z.div_pos; lia. }
  unfold loadavg_text. rewrite Ev, !Ecol by done. unfold load_shown. rewrite <- !app_assoc. done.
Qed.

Lemma doapm_shown {U} `{Uio U} l d ds (u : U) : hi_power I = Some l -> omap id l = d :: ds -> psource_ok d ->
  procfs_doapm B u = copy_all (power_shown d) u.
Proof.
  intros Hp Hd [P1 P2 P3 P4]. set (info := fill_apm_info (hi_power I)).
  assert (Ei : info = ApmInfo (match ps_on_ac d with Some b => if b : bool then 1 else 0 | None => -1 end) 1
     (match ps_charging d with Some true => 1 | _ => 0 end)
     (match ps_current d, ps_max d with
      | Some cur, Some max => if 0 <? max then Z.quot (cur * 100) max else -1
      | None, Some max => if 0 <? max then 0 else -1
      | _, None => -1 end)
     (default (-1) (if bool_decide (ps_charging d = Some true) then ps_to_full d else ps_to_empty d))).
  { unfold info, fill_apm_info. rewrite Hp. destruct l as [|x l]; [done|]. rewrite Hd.
    destruct (ps_charging d) as [[]|], (ps_current d) as [cur|], (ps_max d) as [mx|]; try reflexivity; cbn [default from_option id];
      destruct (P1 cur eq_refl); rewrite i32_small by (unfold is_i32 in *; lia); reflexivity. }
  assert (Hr : is_i32 (percentage info) /\ is_i32 (time_minutes info)).
  { rewrite Ei. cbn [percentage time_minutes]. unfold is_i32 in *. split.
    - destruct (ps_max d) as [mx|]; [|destruct (ps_current d); lia]. destruct (ps_current d) as [cur|]; [|destruct (0 <? mx); lia].
      destruct (Z.ltb_spec 0 mx); [|lia]. destruct (P1 cur eq_refl) as [R1 R2]. rewrite Z.quot_div_nonneg by lia.
      split; [etrans; [|apply Z.div_pos; lia]; lia|]. apply Z.div_lt_upper_bound; nia.
    - destruct (bool_decide _); [destruct (ps_to_full d)|destruct (ps_to_empty d)]; cbn [default from_option id]; auto; lia. }
  assert (Hok : apm_ok info).
  { destruct Hr as [R1 R2]. unfold apm_ok. split_and!; [..|exact R1|exact R2]; rewrite Ei; cbn [ac_online battery_present charging]; unfold is_i32;
      [destruct (ps_on_ac d) as [[]|]|..]; try lia. destruct (ps_charging d) as [[]|]; lia. }
  unfold procfs_doapm, B. rewrite (host_request _ _ _ _ _ _ _ (fun _ _ _ => Some (handle_apm I)) _ _ _ _ 0 (apm_bytes info)); [|cbn; tauto|done|done].
  assert (length (apm_bytes info) = 20%nat) as Hl by (unfold apm_bytes; by rewrite !length_app, !le_bytes_length).
  change (0 =? 0) with true. cbn iota. rewrite (take_ge (apm_bytes info)), Hl by (rewrite Hl; done). cbn [negb]. change (Z.of_nat 20 =? 20) with true. cbn iota.
  rewrite apm_back by done. rewrite snprintf_copy_fits by (apply apm_fits; apply Hr). f_equal. rewrite Ei.
  unfold apm_text, apm_values, power_shown. cbn [ac_online battery_present charging percentage time_minutes]. change (1 =? 0) with false. cbn iota.
  set (pct := match ps_current d with Some _ => _ | None => _ end). set (tm := default _ _). clearbody pct tm.
  destruct (ps_on_ac d) as [[]|], (ps_charging d) as [[]|]; cbn; destruct (50 <? pct), (5 <? pct), (0 <=? tm); cbn; rewrite <- ?app_assoc; reflexivity.
Qed.

Lemma doio_shown {U} `{Uio U} K creds id p r w (u : U) : proc_find K (nodeid_pid id) = Some p -> procfs_check_can_access_process creds p = 0 ->
  hi_rusage I (nodeid_pid id) = inl (r, w) -> 0 <= r < 2 ^ 64 -> 0 <= w < 2 ^ 64 ->
  procfs_doio B K creds id u = copy_all (io_shown r w) u.
Proof.
  intros Ep Ha Hru Hr Hw. unfold procfs_doio, with_process, B. rewrite Ep, Ha. cbn [Z.eqb negb].
  rewrite (host_request _ _ _ _ _ _ _ (fun pid _ _ => Some (handle_rusage I pid)) _ _ _ _ 0 (concat (map (le_bytes 8) [r; w])));
    [|cbn; tauto|done|unfold handle_rusage; by rewrite Hru].
  change (0 =? 0) with true. cbn iota. rewrite (take_ge (concat _)) by (rewrite words_length; cbn; lia). rewrite words_length.
  change (_ && _) with true. cbn iota. rewrite <- (app_nil_r (concat _)).
  rewrite (words_field [r; w] 8 0 r), (words_field [r; w] 8 1 w) by done. rewrite snprintf_copy_fits by (by apply io_fits).
  unfold io_text, io_shown, key_line. rewrite <- !app_assoc. done.
Qed.
End Shown.

(** ** Theorem *)
(** C11. The numbers of the host reach the text of the nodes, through the daemon's
    request loop, the payload encoding and the extension's decoding: /proc/stat has
    the ticks of each of the first 64 CPUs, zeros for the others, and their sums;
    /proc/loadavg has the three load averages (fixed-point numbers with 11 fractional
    bits, as doubles) rounded half up to hundredths; /proc/apm has the state, the
    percentage and the minutes of the first power source; and /proc/<pid>/io has the
    disk bytes read and written, each in its own line. *)
Theorem host_numbers_shown {U} `{Uio U} Hs I getc ss payload tab K creds nid p l a b c ps d ds r w
    (B := host_bridge Hs I getc ss payload tab) :
  hi_cpuload I = Some l -> l <> [] -> Forall ticks_ok l ->
  hi_loadavg I = (b64_of a (-11), b64_of b (-11), b64_of c (-11)) -> 0 <= a < 2 ^ 32 -> 0 <= b < 2 ^ 32 -> 0 <= c < 2 ^ 32 ->
  hi_power I = Some ps -> omap id ps = d :: ds -> psource_ok d ->
  proc_find K (nodeid_pid nid) = Some p -> procfs_check_can_access_process creds p = 0 ->
  hi_rusage I (nodeid_pid nid) = inl (r, w) -> 0 <= r < 2 ^ 64 -> 0 <= w < 2 ^ 64 ->
  (forall sysctl ncpu pids_ok boottime (u : U), sysctl "hw.logicalcpu"%string = Some ncpu -> 0 < ncpu < 2 ^ 31 ->
     procfs_dostat B true sysctl K pids_ok true creds boottime u
     = copy_all (stat_shown (shown_cpus ncpu l) (default 0 boottime) (procfs_get_process_count K pids_ok creds)) u)
  /\ (forall procs, loadavg_text B procs
        = (load_shown a ++ lit " " ++ load_shown b ++ lit " " ++ load_shown c ++ lit " 1/" ++ sdec procs ++ line " 0")%list)
  /\ (forall u : U, procfs_doapm B u = copy_all (power_shown d) u)
  /\ (forall u : U, procfs_doio B K creds nid u = copy_all (io_shown r w) u).
Proof.
  intros Hl Hne Hok Hla Ha Hb Hc Hp Hd Hdk Ep Hacc Hru Hr Hw. split_and!.
  - intros sysctl ncpu pids_ok boottime u Es Hn. unfold procfs_dostat. rewrite Es, i32_small by lia.
    rewrite (proj2 (Z.leb_gt ncpu 0)) by lia. by rewrite (stat_text_shown Hs I getc ss payload tab l) by (done || lia).
  - intros procs. by apply loadavg_text_shown.
  - intros u. by eapply doapm_shown.
  - intros u. by eapply doio_shown.
Qed.

(** ** Witnesses *)
(** Two CPUs; loads of 1.23 (2519/2048), 0.45 and 0.06; a battery of 90 of 100. *)
Definition sample_battery : psource := Psource (Some false) (Some true) (Some 90) (Some 100) (Some 30) None.
Definition sample_hostinfo : hostinfo :=
  HostInfo (fun _ => (136, 0, (2, 268435456))) (fun _ => Some "ttys000"%string) (Some (repeat 1 152))
    (b64_of 2519 (-11), b64_of 922 (-11), b64_of 123 (-11)) (fun _ size => (0, take (Z.to_nat size) [7])) None
    (Some [CpuTicks 10 20 30 40; CpuTicks 1 2 3 4]) (Some [[5; 6; 7]]) (fun _ => inl (4096, 8192)) (fun _ _ => None)
    (Some [Some sample_battery]).
Definition sample_host : host := Host (fun _ => None) (fun _ _ => (0, 0, [])) (fun _ _ _ _ => (0, 0, [])) 16384.

Lemma host_numbers_shown_witness :
  loadavg_text (host_bridge sample_host sample_hostinfo (fun s _ => s) (fun _ => 272) [] []) 5 = line "1.23 0.45 0.06 1/5 0"
  /\ procfs_doio (host_bridge sample_host sample_hostinfo (fun s _ => s) (fun _ => 272) [] []) lp_kernel (Cred 501 501 20 20) lp_id (ubuf_read 0 200)
     = copy_all (io_shown 4096 8192) (ubuf_read 0 200).
Proof.
  destruct (host_numbers_shown (U := ubuf) sample_host sample_hostinfo (fun s _ => s) (fun _ => 272) [] [] lp_kernel (Cred 501 501 20 20) lp_id lp_proc
    [CpuTicks 10 20 30 40; CpuTicks 1 2 3 4] 2519 922 123 [Some sample_battery] sample_battery [] 4096 8192) as (_ & H2 & _ & H4).
  - reflexivity.
  - discriminate.
  - repeat constructor; cbn; lia.
  - reflexivity.
  - lia.
  - lia.
  - lia.
  - reflexivity.
  - reflexivity.
  - split; intros v [= <-]; unfold is_i32; lia.
  - reflexivity.
  - reflexivity.
  - reflexivity.
  - lia.
  - lia.
  - split; [rewrite H2; vm_compute; reflexivity|exact (H4 (ubuf_read 0 200))].
Defined.



