(* ===== verification/EndToEnd.v ===== *)
(** * From the system to the reader

    The arms of the daemon's request loop that serve a listing (main of
    tools/procfsd.c), composed with everything on the way: the function that builds
    the listing from what the system reports, the request loop with its cached text,
    the bridge, the extension's reader that asks for chunk after chunk, and the node.
    What the system reports is the record [world]; it may be another one at each
    request, and other clients may be served between two requests of the reader. *)
From S2P Require Import Prelude Kernel PfsTypes Text Subr Ctl Map Status Daemon Format Blobs LinuxSys Qsort Macho Devices NetTables Listings HostInfo.
From Stdlib Require Import ZArith Lia String.
From stdpp Require Import base list numbers strings sets gmap.
Open Scope Z_scope.

(** The counters of the network stack. *)
Record counters := Counters {
  c_tcp : string -> Z; c_ip : string -> Z; c_icmp : string -> Z; c_udp : string -> Z; c_inhist : list Z; c_outhist : list Z;
  c_forwarding : option Z; c_ttl : option Z
}.

Record world := World {
  w_alloc : bool; w_stream : bool; w_realloc : Z -> bool;          (* malloc, open_memstream and realloc succeed *)
  w_getcstring : string -> Z -> string; w_sscanf3 : string -> Z * Z * Z;
  w_major : Z -> Z; w_minor : Z -> Z; w_dev : option (list dev_entry);
  w_kexts : option (list (option cfdict)); w_zones : option (list zone); w_sites : option (list memsite); w_page : Z;
  w_pci : option (list cfdict); w_scsi : string -> option (list cfdict); w_fb : string -> option (list string);
  w_shm : Z -> option (Z * shmid_ds); w_sem : Z -> option (Z * semid_ds); w_msg : Z -> option (Z * msqid_ds);
  w_tcp : list attempt; w_udp : list attempt; w_unix_stream : list attempt; w_unix_dgram : list attempt;
  w_route : list attempt; w_arp : list attempt; w_ifname : Z -> bytes; w_ntop : Z -> bytes; w_counters : counters;
  w_kmsg_size : option Z; w_kmsg : Z -> Z * bytes;
  w_reports : option (list report); w_report_size : string -> option Z; w_report : string -> option bytes;
  w_cputype : Z; w_image : option bytes; w_extra : list bytes;
  w_logicalcpu : option Z; w_irqs : list irq_entry; w_exports : option bytes
}.

Section Build.
Context `{Qsort}.
Variable W : world.

(** What a request at offset 0 leaves as the cached text; [None]: the build function
    reads what it must not. *)
Definition build_listing (ty : Z) : option (option bytes) :=
  let m := w_stream W in
  let c := w_counters W in
  if ty =? PROCFS_REQ_EXTENSIONS then Some (build_blob (w_getcstring W) false (w_kexts W) (w_alloc W) m)
  else if ty =? PROCFS_REQ_MODULES then Some (build_blob (w_getcstring W) true (w_kexts W) (w_alloc W) m)
  else if ty =? PROCFS_REQ_DEVICES then Some (build_devices_blob (w_major W) (w_realloc W) (w_dev W) m)
  else if ty =? PROCFS_REQ_MISC then Some (build_misc_blob (w_minor W) (w_realloc W) (w_dev W) m)
  else if ty =? PROCFS_REQ_ALLOCINFO then Some (build_allocinfo_blob (w_zones W) (w_alloc W) m)
  else if ty =? PROCFS_REQ_VMALLOCINFO then Some (build_vmallocinfo_blob (w_page W) (w_sites W) (w_alloc W) m)
  else if ty =? PROCFS_REQ_PCIDEVICES then Some (build_pci_blob (w_getcstring W) (w_realloc W) (w_sscanf3 W) (w_pci W) m)
  else if ty =? PROCFS_REQ_SCSI then Some (build_scsi_blob (w_getcstring W) (w_scsi W) m)
  else if ty =? PROCFS_REQ_SYSVIPC_SHM then Some (build_sysvipc_shm_blob (w_shm W) m)
  else if ty =? PROCFS_REQ_SYSVIPC_SEM then Some (build_sysvipc_sem_blob (w_sem W) m)
  else if ty =? PROCFS_REQ_SYSVIPC_MSG then Some (build_sysvipc_msg_blob (w_msg W) m)
  else if ty =? PROCFS_REQ_NETTCP then build_net_pcb_blob INP_IPV4 true m (w_tcp W)
  else if ty =? PROCFS_REQ_NETTCP6 then build_net_pcb_blob INP_IPV6 true m (w_tcp W)
  else if ty =? PROCFS_REQ_NETUDP then build_net_pcb_blob INP_IPV4 false m (w_udp W)
  else if ty =? PROCFS_REQ_NETUDP6 then build_net_pcb_blob INP_IPV6 false m (w_udp W)
  else if ty =? PROCFS_REQ_NETUNIX then build_net_unix_blob m (w_unix_stream W) (w_unix_dgram W)
  else if ty =? PROCFS_REQ_NETROUTE then build_net_route_blob (w_ifname W) m (w_route W)
  else if ty =? PROCFS_REQ_NETARP then build_net_arp_blob (w_ifname W) (w_ntop W) m (w_arp W)
  else if ty =? PROCFS_REQ_NETNETSTAT then Some (build_net_netstat_blob (c_tcp c) (c_ip c) m)
  else if ty =? PROCFS_REQ_NETSNMP then
    Some (build_net_snmp_blob (c_tcp c) (c_ip c) (c_icmp c) (c_udp c) (c_inhist c) (c_outhist c) m (c_forwarding c) (c_ttl c))
  else if ty =? PROCFS_REQ_SLABINFO then Some (build_slabinfo_blob (w_page W) (w_zones W) m)
  else if ty =? PROCFS_REQ_KMSG then Some (build_kmsg_blob (w_kmsg_size W) (w_alloc W) (w_kmsg W))
  else if ty =? PROCFS_REQ_LAST_KMSG then Some (build_last_kmsg_blob (w_reports W) (w_report_size W) (w_alloc W) (w_report W))
  else if ty =? PROCFS_REQ_KSYMS then build_ksyms_blob (w_cputype W) m (w_image W)
  else if ty =? PROCFS_REQ_KALLSYMS then build_kallsyms_blob (w_cputype W) m (w_image W) (w_extra W)
  else if ty =? PROCFS_REQ_FBDEVICES then Some (build_fb_blob (w_fb W) m)
  else if ty =? PROCFS_REQ_NFSEXPORTS then build_nfsexports_blob (w_exports W) m
  else if ty =? PROCFS_REQ_INTERRUPTS then Some (build_interrupts_blob (w_getcstring W) (w_realloc W) (w_logicalcpu W) (w_irqs W) m)
  else if ty =? PROCFS_REQ_TTYDRIVERS then Some (build_ttydrivers_blob (w_major W) (w_minor W) (w_realloc W) (w_dev W) m)
  else None.

Lemma build_listing_types ty : is_Some (build_listing ty) -> ty ∈ blob_types.
Proof.
  unfold build_listing, blob_types. intros [r E]. rewrite list_elem_of_In. cbn [In].
  repeat match type of E with (if (?a =? ?b) then _ else _) = _ => destruct (Z.eqb_spec a b); [subst; cbv; tauto|] end. done.
Qed.
End Build.

(** ** The daemon while one listing is read *)
Section Reading.
Context `{Qsort}.
Variable H0 : host.
Variable pad : nat -> bytes.
Variable argmax : Z.
Variable malloc_ok : bool.
Variable elsewhere : Z -> option (Z -> Z -> string -> option (Z * bytes)).

(** The daemon serves a request while the system is [W]; [None]: its behaviour is
    undefined, because a build function reads what it must not. *)
Definition serve_in (W : world) (q : procfs_ctl_req) (s : dstate) : option (Z * bytes * dstate) :=
  if bool_decide (q_type q ∈ blob_types) && (q_arg q =? 0) && bool_decide (build_listing W (q_type q) = None) then None
  else serve H0 pad argmax malloc_ok (fun ty => default None (build_listing W ty)) elsewhere q s.

(** The other clients' requests between two requests of the reader, each with the
    system as it is then. *)
Fixpoint serve_others (es : list (world * procfs_ctl_req)) (s : dstate) : option dstate :=
  match es with
  | [] => Some s
  | (W, q) :: es' => match serve_in W q s with Some (_, _, s') => serve_others es' s' | None => None end
  end.

(** The reader's k-th request asks for offset [2048 * k] of the listing [ty]; the
    system is [worlds k] then, and [others k] come after it. *)
Variable worlds : nat -> world.
Variable others : nat -> list (world * procfs_ctl_req).
Variable ty : Z.
Variable s0 : dstate.

Definition listing_request (off : Z) : procfs_ctl_req := CtlReq PROCFS_CTL_MAGIC 0 ty 0 off EmptyString.

(** The daemon's state when the k-th request arrives. *)
Fixpoint state_at (k : nat) : option dstate :=
  match k with
  | O => Some s0
  | S k' =>
      match state_at k' with
      | Some s => match serve_in (worlds k') (listing_request (2048 * Z.of_nat k')) s with
                  | Some (_, _, s') => serve_others (others k') s'
                  | None => None
                  end
      | None => None
      end
  end.

(** Which request an offset belongs to. *)
Definition turn_of (off : Z) : nat := Z.to_nat ((off + 2047) / 2048).

Definition world_bridge : bridge :=
  Bridge (fun ty' pid arg nm cap =>
    match state_at (turn_of arg) with
    | Some s =>
        match serve_in (worlds (turn_of arg)) (CtlReq PROCFS_CTL_MAGIC 0 ty' pid arg nm) s with
        | Some (0, pl, _) => (0, take (Z.to_nat cap) pl)
        | Some (e, _, _) => (e, [])
        | None => (ETIMEDOUT, [])
        end
    | None => (ETIMEDOUT, [])
    end).

(** The others do not start the same listing, and the daemon keeps answering. *)
Record undisturbed : Prop := {
  un_others k W q : (W, q) ∈ others k -> q_type q = ty -> q_arg q <> 0;
  un_alive k : is_Some (state_at k)
}.

Lemma slice_chunk T off : 0 <= off -> slice T off = take (Z.to_nat PROCFS_CTL_MAXPAYLOAD) (drop (Z.to_nat off) T).
Proof.
  intros Ho. unfold slice. destruct (Z.ltb_spec off (Z.of_nat (length T))).
  - destruct (Z.ltb_spec (Z.of_nat (length T) - off) PROCFS_CTL_MAXPAYLOAD); [|done].
    rewrite !take_ge by (rewrite length_drop; lia). done.
  - by rewrite drop_ge, take_nil by lia.
Qed.

(** A request for a listing reaches the cache. *)
Lemma serve_listing W off s : ty ∈ blob_types -> (off = 0 -> build_listing W ty <> None) ->
  serve_in W (listing_request off) s = let '(out, s') := blob_request ty (default None (build_listing W ty)) off s in Some (0, out, s').
Proof.
  intros Ht Hb. unfold serve_in, listing_request. cbn [q_type q_pid q_arg q_name]. rewrite (bool_decide_true _ Ht). cbn [andb].
  assert ((off =? 0) && bool_decide (build_listing W ty = None) = false) as ->.
  { destruct (Z.eqb_spec off 0) as [E|]; [|done]. cbn [andb]. apply bool_decide_false. by apply Hb. }
  unfold serve. cbn [q_type q_pid q_arg q_name]. rewrite (bool_decide_true _ Ht).
  unfold blob_types in Ht. rewrite list_elem_of_In in Ht. cbn [In] in Ht.
  repeat (destruct Ht as [<-|Ht]; [reflexivity|]). destruct Ht.
Qed.

#[local] Ltac same_state := let E := fresh in intros E; injection E; intros; subst; reflexivity.

(** Only the first request of a listing changes its text. *)
Lemma serve_keeps W q s e pl s' : (q_type q = ty -> q_arg q <> 0) -> serve_in W q s = Some (e, pl, s') -> g_blobs s' !! ty = g_blobs s !! ty.
Proof.
  intros Hq. unfold serve_in. destruct (_ && _ && _); [done|]. unfold serve. destruct (fixed_size (q_type q)) as [[size dflt]|]; [same_state|].
  repeat (destruct (q_type q =? _); [try same_state|]).
  { destruct (procfsd_handle_memread _ _ _) as [[e' pl']|]; [same_state|done]. }
  destruct (bool_decide _).
  - unfold blob_request. intros Hs. injection Hs as _ _ <-. destruct (Z.eqb_spec (q_arg q) 0) as [Ea|]; [|done].
    assert (q_type q <> ty) as Hne by (intros E; by destruct (Hq E)). cbn [g_blobs].
    destruct (default None (build_listing W (q_type q))); [by rewrite lookup_insert_ne|by rewrite lookup_delete_ne].
  - destruct (elsewhere (q_type q)) as [f|]; [|same_state]. destruct (f _ _ _) as [[e' pl']|]; [same_state|done].
Qed.

Lemma others_keep es s s' : (forall W q, (W, q) ∈ es -> q_type q = ty -> q_arg q <> 0) -> serve_others es s = Some s' ->
  g_blobs s' !! ty = g_blobs s !! ty.
Proof.
  revert s. induction es as [|[W q] es IH]; intros s He; cbn [serve_others]; [by intros [= <-]|].
  destruct (serve_in W q s) as [[[e pl] s1]|] eqn:E; [|done]. intros Hs.
  rewrite (IH s1) by (set_solver || done). eapply serve_keeps; [|exact E]. apply (He W q). set_solver.
Qed.

(** From the second request on, the cache holds what the first one built. *)
Lemma state_holds r k s : undisturbed -> build_listing (worlds 0) ty = Some r -> state_at (S k) = Some s -> g_blobs s !! ty = r.
Proof.
  intros [Ho Ha] Eb. assert (Ht : ty ∈ blob_types) by (apply (build_listing_types (worlds 0)); by rewrite Eb).
  revert s. induction k as [|k IH]; intros s Es.
  - cbn [state_at] in Es. rewrite serve_listing, Eb in Es by (done || by rewrite Eb). cbn [default from_option id] in Es. unfold blob_request in Es.
    change (2048 * Z.of_nat 0) with 0 in Es. change (0 =? 0) with true in Es. cbv iota zeta in Es.
    rewrite (others_keep _ _ _ (Ho 0%nat) Es). cbn [g_blobs]. destruct r; [by rewrite lookup_insert_eq|by rewrite lookup_delete_eq].
  - change (state_at (S (S k))) with (match state_at (S k) with Some s => match serve_in (worlds (S k)) (listing_request (2048 * Z.of_nat (S k))) s with
      Some (_, _, s') => serve_others (others (S k)) s' | None => None end | None => None end) in Es.
    destruct (state_at (S k)) as [s1|] eqn:E1; [|done]. destruct (serve_in _ _ s1) as [[[e pl] s2]|] eqn:E2; [|done].
    assert (Hq : q_type (listing_request (2048 * Z.of_nat (S k))) = ty -> q_arg (listing_request (2048 * Z.of_nat (S k))) <> 0)
      by (intros _; unfold listing_request; cbn [q_arg]; lia).
    rewrite (others_keep _ _ _ (Ho (S k)) Es), (serve_keeps _ _ _ _ _ _ Hq E2). by apply IH.
Qed.

Lemma world_serves r : undisturbed -> build_listing (worlds 0) ty = Some r -> serves world_bridge ty (default [] r).
Proof.
  intros Hu Eb off Hoff. assert (Ht : ty ∈ blob_types) by (apply (build_listing_types (worlds 0)); by rewrite Eb).
  unfold world_bridge. cbn [ctl_request]. destruct (un_alive Hu (turn_of off)) as [s Es]. rewrite Es.
  change (CtlReq PROCFS_CTL_MAGIC 0 ty 0 off EmptyString) with (listing_request off).
  rewrite serve_listing; [|done|intros ->; change (turn_of 0) with 0%nat; by rewrite Eb]. unfold blob_request.
  assert (Eb' : (match g_blobs (if off =? 0 then Dstate (match default None (build_listing (worlds (turn_of off)) ty) with
      Some T => <[ty := T]> (g_blobs s) | None => delete ty (g_blobs s) end) else s) !! ty with Some T => slice T off | None => [] end)
      = take (Z.to_nat PROCFS_CTL_MAXPAYLOAD) (drop (Z.to_nat off) (default [] r))).
  { assert (Hg : g_blobs (if off =? 0 then Dstate (match default None (build_listing (worlds (turn_of off)) ty) with
        Some T => <[ty := T]> (g_blobs s) | None => delete ty (g_blobs s) end) else s) !! ty = r).
    { destruct (Z.eqb_spec off 0) as [->|Hne].
      - change (turn_of 0) with 0%nat. rewrite Eb. cbn [default from_option id g_blobs]. destruct r; [by rewrite lookup_insert_eq|by rewrite lookup_delete_eq].
      - assert (exists k, turn_of off = S k) as [k Ek].
        { assert (1 <= (off + 2047) / 2048) by (apply Z.div_le_lower_bound; lia). unfold turn_of. exists (Z.to_nat ((off + 2047) / 2048) - 1)%nat. lia. }
        rewrite Ek in Es. by apply (state_holds r k). }
    rewrite Hg. destruct r as [T|]; [by apply slice_chunk|]. cbn. by rewrite drop_nil, take_nil. }
  cbv zeta. rewrite Eb', take_take, Nat.min_id. done.
Qed.

(** ** What the reader gets *)
Lemma node_end_to_end {U} `{Uio U} r fuel nomem absent (u : U) (T := default [] r) : undisturbed -> build_listing (worlds 0) ty = Some r ->
  Z.of_nat (length T) < 2 ^ 31 -> (length T / 2048 < fuel)%nat ->
  blob_node world_bridge true fuel ty nomem absent u = copy_all T u.
Proof. intros Hu E HT Hf. exact (proj1 (blob_node_behaves _ fuel ty nomem absent u) T (world_serves r Hu E) HT Hf). Qed.
End Reading.

(** C12. The listing nodes show what the system reports, from end to end: for every
    listing, whatever the daemon had cached, a read of the node copies exactly the
    text that the build function makes of the system at the read's first request,
    through the chunked requests, however the system changes while the read goes on
    and whatever other clients ask in between, as long as none of them starts the
    same listing (see [blob_readers_tear]) and the daemon keeps answering; the symbol
    tables copy it masked for a reader that is not root. *)
Theorem listings_end_to_end `{Qsort} {U} `{Uio U} hst pad argmax malloc_ok elsewhere worlds others ty s0 r fuel (u : U) (T := default [] r)
    (B := world_bridge hst pad argmax malloc_ok elsewhere worlds others ty s0) :
  undisturbed hst pad argmax malloc_ok elsewhere worlds others ty s0 ->
  build_listing (worlds 0%nat) ty = Some r -> Z.of_nat (length T) < 2 ^ 31 -> (length T / 2048 < fuel)%nat ->
  Forall (fun '(ty', node) => ty' = ty -> node u = copy_all T u) (listings B true fuel)
  /\ Forall (fun '(ty', _, node) => ty' = ty -> node u = copy_all T u) (tables B true fuel)
  /\ (ty = PROCFS_REQ_EXTENSIONS -> procfs_doextensions B true fuel u = copy_all T u)
  /\ (ty = PROCFS_REQ_MODULES -> procfs_domodules B true fuel u = copy_all T u)
  /\ (forall ucred, procfs_do_symtab B true fuel ucred ty u
        = copy_all (if bool_decide (cr_uid <$> ucred = Some 0) then T else mask_symbols T) u).
Proof.
  intros Hu E HT Hf. subst B. split_and!.
  - unfold listings. repeat (apply List.Forall_cons || apply List.Forall_nil); intros <-; by apply node_end_to_end.
  - unfold tables. repeat (apply List.Forall_cons || apply List.Forall_nil); intros <-; by apply node_end_to_end.
  - intros ->. by apply node_end_to_end.
  - intros ->. by apply node_end_to_end.
  - intros ucred. unfold procfs_do_symtab.
    rewrite (blob_whole _ ty T fuel (world_serves hst pad argmax malloc_ok elsewhere worlds others ty s0 r Hu E) HT Hf). cbn [negb Z.eqb]. f_equal.
    destruct ucred as [c|]; cbn [fmap option_fmap option_map]; [|by rewrite bool_decide_false].
    destruct (Z.eqb_spec (cr_uid c) 0) as [Ec|Ec]; [by rewrite bool_decide_true by by rewrite Ec|by rewrite bool_decide_false by congruence].
Qed.

(** The table of the sockets of one family. *)
Definition pcb_text (want_vflag : Z) (is_tcp : bool) (ks : list sock) : bytes :=
  ((if want_vflag =? INP_IPV6 then net6_hdr else net_hdr) ++ concat (imap pcb_line (rows_of want_vflag is_tcp ks)))%list.

Lemma pcb_blob_text want_vflag is_tcp attempts F ks count : fetch (take FETCH_ATTEMPTS attempts) = Some F ->
  pcb_stream is_tcp ks count F -> count ∉ block_kinds ->
  build_net_pcb_blob want_vflag is_tcp true attempts = Some (Some (pcb_text want_vflag is_tcp ks)).
Proof.
  intros EF Hs Hc. unfold build_net_pcb_blob. rewrite EF, (pcb_rows_of want_vflag is_tcp ks count F Hs Hc), pcb_hdr_agrees. done.
Qed.

(** C13. The socket tables from end to end: when the kernel's streams at the read's
    first request describe the TCP sockets [ts] and the UDP sockets [us], a read of
    /proc/net/tcp, tcp6, udp or udp6 through the daemon returns the header and one
    line for each socket of the family, in order, and nothing else; however the
    system changes meanwhile, as long as no other client starts the same listing, and
    provided the number of sockets in the trailing record of each stream is not 1, 2,
    4, 8, 16 or 32, which the daemon takes for the kind of a block. *)
Theorem sockets_end_to_end `{Qsort} {U} `{Uio U} hst pad argmax malloc_ok elsewhere worlds others s0 ts us ct cu Ft Fu fuel (u : U)
    (W := worlds 0%nat) (B := fun ty => world_bridge hst pad argmax malloc_ok elsewhere worlds others ty s0) :
  Forall (fun ty => undisturbed hst pad argmax malloc_ok elsewhere worlds others ty s0)
    [PROCFS_REQ_NETTCP; PROCFS_REQ_NETTCP6; PROCFS_REQ_NETUDP; PROCFS_REQ_NETUDP6] ->
  w_stream W = true ->
  fetch (take FETCH_ATTEMPTS (w_tcp W)) = Some Ft -> pcb_stream true ts ct Ft -> ct ∉ [1; 2; 4; 8; 16; 32] ->
  fetch (take FETCH_ATTEMPTS (w_udp W)) = Some Fu -> pcb_stream false us cu Fu -> cu ∉ [1; 2; 4; 8; 16; 32] ->
  let tcp4 := pcb_text INP_IPV4 true ts in let tcp6 := pcb_text INP_IPV6 true ts in
  let udp4 := pcb_text INP_IPV4 false us in let udp6 := pcb_text INP_IPV6 false us in
  Forall (fun T : bytes => Z.of_nat (length T) < 2 ^ 31 /\ (length T / 2048 < fuel)%nat) [tcp4; tcp6; udp4; udp6] ->
  procfs_donettcp (B PROCFS_REQ_NETTCP) true fuel u = copy_all tcp4 u
  /\ procfs_donettcp6 (B PROCFS_REQ_NETTCP6) true fuel u = copy_all tcp6 u
  /\ procfs_donetudp (B PROCFS_REQ_NETUDP) true fuel u = copy_all udp4 u
  /\ procfs_donetudp6 (B PROCFS_REQ_NETUDP6) true fuel u = copy_all udp6 u.
Proof.
  intros Hu Hm Et Ht Hct Eu Hus Hcu tcp4 tcp6 udp4 udp6 Hl. subst B.
  apply Forall_cons in Hu as [U1 Hu]. apply Forall_cons in Hu as [U2 Hu]. apply Forall_cons in Hu as [U3 Hu]. apply Forall_inv in Hu as U4.
  apply Forall_cons in Hl as [[L1 L2] Hl]. apply Forall_cons in Hl as [[L3 L4] Hl]. apply Forall_cons in Hl as [[L5 L6] Hl].
  apply Forall_inv in Hl as [L7 L8].
  assert (Bt : forall v, build_net_pcb_blob v true (w_stream W) (w_tcp W) = Some (Some (pcb_text v true ts))).
  { intros v. rewrite Hm. by apply (pcb_blob_text v true _ Ft ts ct). }
  assert (Bu : forall v, build_net_pcb_blob v false (w_stream W) (w_udp W) = Some (Some (pcb_text v false us))).
  { intros v. rewrite Hm. by apply (pcb_blob_text v false _ Fu us cu). }
  split_and!; cbv beta.
  - apply (node_end_to_end _ _ _ _ _ _ _ PROCFS_REQ_NETTCP _ (Some tcp4)); [done|exact (Bt INP_IPV4)|done|done].
  - apply (node_end_to_end _ _ _ _ _ _ _ PROCFS_REQ_NETTCP6 _ (Some tcp6)); [done|exact (Bt INP_IPV6)|done|done].
  - apply (node_end_to_end _ _ _ _ _ _ _ PROCFS_REQ_NETUDP _ (Some udp4)); [done|exact (Bu INP_IPV4)|done|done].
  - apply (node_end_to_end _ _ _ _ _ _ _ PROCFS_REQ_NETUDP6 _ (Some udp6)); [done|exact (Bu INP_IPV6)|done|done].
Qed.

(** ** A sample system *)
Definition no_counters : counters := Counters (fun _ => 0) (fun _ => 0) (fun _ => 0) (fun _ => 0) [] [] None None.
Definition stream_of (F : bytes) : list attempt := [Attempt (Some (Z.of_nat (length F))) true (inl F)].
Definition a_world (exports : bytes) : world :=
  World true true (fun _ => true) (fun s n => strlcpy s n) (fun _ => (0, 0, 0)) dev_major dev_minor None None None None 16384
    None (fun _ => None) (fun _ => None) (fun _ => None) (fun _ => None) (fun _ => None)
    (stream_of three_pcb) (stream_of (xinpgen 0 99 ++ xinpgen 0 99)%list) [] [] [] [] (fun _ => []) (fun _ => []) no_counters
    None (fun _ => (0, [])) None (fun _ => None) (fun _ => None) 16777228 None [] None [] (Some exports).

(** The exports change after each request of the reader, and another client starts
    the list of devices in between. *)
Definition many_exports : bytes := concat (repeat (line "/export -ro") 200).
Definition changing (k : nat) : world := match k with O => a_world many_exports | S _ => a_world (line "/other") end.
Definition a_client (k : nat) : list (world * procfs_ctl_req) := [(changing k, CtlReq PROCFS_CTL_MAGIC 9 PROCFS_REQ_DEVICES 0 0 EmptyString)].

Lemma a_client_served k s : exists s', serve_others sample_host zero_pad 262144 true (fun _ => None) (a_client k) s = Some s'.
Proof. eexists. reflexivity. Qed.

Lemma sample_undisturbed ty : ty ∈ blob_types -> ty <> PROCFS_REQ_DEVICES -> build_listing (changing 0) ty <> None ->
  undisturbed sample_host zero_pad 262144 true (fun _ => None) changing a_client ty (Dstate ∅).
Proof.
  intros Ht Hne Hb. split.
  - intros k W q Hin. unfold a_client in Hin. apply list_elem_of_singleton in Hin as [= -> ->]. cbn [q_type]. congruence.
  - induction k as [|k [s Es]]; [by eexists|]. cbn [state_at]. rewrite Es, serve_listing; [|exact Ht|destruct k; [intros _; exact Hb|lia]].
    destruct (blob_request _ _ _ _) as [out s']. destruct (a_client_served k s') as [s2 E2]. rewrite E2. by eexists.
Qed.

Lemma empty_stream : pcb_stream false [] 0 (xinpgen 0 99 ++ xinpgen 0 99)%list.
Proof. split; [|constructor]. exists (xinpgen 0 99), [], (xinpgen 0 99). split_and!; [reflexivity|constructor|reflexivity..]. Qed.

Lemma zero_not_kind : 0 ∉ [1; 2; 4; 8; 16; 32].
Proof. intros Hc. apply list_elem_of_In in Hc. vm_compute in Hc. intuition congruence. Qed.

Lemma blob_type_in ty : existsb (Z.eqb ty) blob_types = true -> ty ∈ blob_types.
Proof. intros (x & Hx & ->%Z.eqb_eq)%existsb_exists. by apply list_elem_of_In. Qed.

Definition sample_session (ty : Z) : bridge := world_bridge sample_host zero_pad 262144 true (fun _ => None) changing a_client ty (Dstate ∅).

Lemma sockets_end_to_end_witness :
  procfs_donettcp (sample_session PROCFS_REQ_NETTCP) true 1 (ubuf_read 0 4096)
  = copy_all (net_hdr ++ line "   0: 0100007F:C350 05050603:01BB 01 00000009:00000007 00:00000000 00000000   501        0 0"
                      ++ line "   1: 0100007F:C350 05050603:01BB 06 00000009:00000007 00:00000000 00000000   501        0 0"
                      ++ line "   2: 0100007F:C350 05050603:01BB 0A 00000009:00000007 00:00000000 00000000   501        0 0")%list (ubuf_read 0 4096).
Proof.
  refine (proj1 (sockets_end_to_end sample_host zero_pad 262144 true (fun _ => None) changing a_client (Dstate ∅) three_socks [] 3 0
    three_pcb (xinpgen 0 99 ++ xinpgen 0 99)%list 1 (ubuf_read 0 4096) _ eq_refl eq_refl (proj1 sample_stream) (proj2 sample_stream)
    eq_refl empty_stream zero_not_kind _)).
  - repeat (apply List.Forall_cons; [apply sample_undisturbed; [by apply blob_type_in|discriminate|intros X; vm_compute in X; discriminate X]|]). apply List.Forall_nil.
  - repeat constructor; vm_compute; intuition congruence.
Defined.

(** 2400 bytes in two requests, although the exports are others at the second. *)
Lemma listings_end_to_end_witness :
  procfs_donfsexports (sample_session PROCFS_REQ_NFSEXPORTS) true 2 (ubuf_read 0 4096) = copy_all many_exports (ubuf_read 0 4096).
Proof.
  destruct (listings_end_to_end sample_host zero_pad 262144 true (fun _ => None) changing a_client PROCFS_REQ_NFSEXPORTS (Dstate ∅) (Some many_exports)
    2 (ubuf_read 0 4096)) as [F _].
  - apply sample_undisturbed; [by apply blob_type_in|discriminate|intros X; vm_compute in X; discriminate X].
  - vm_compute. reflexivity.
  - vm_compute. reflexivity.
  - apply Nat.ltb_lt. vm_compute. reflexivity.
  - exact (proj1 (List.Forall_forall _ _) F (PROCFS_REQ_NFSEXPORTS, _) ltac:(do 10 right; left; reflexivity) eq_refl).
Defined.
