(* ===== verification/MountHelper.v ===== *)
(** * The mount command (fs/mount_procfs.c)

    The helper behind mount -t procfs: its options, its operands and the mount
    system call.  getopt's results, getmntopts of libutil and mount(2) are
    parameters; the effects are listed in order. *)
From S2P Require Import Prelude Kernel.
From Stdlib Require Import ZArith Lia String.
From stdpp Require Import base list numbers strings.
Open Scope Z_scope.

(** struct mntopt of libutil. *)
Record mntopt := Mntopt { m_option : string; m_inverse : bool; m_flag : Z; m_altloc : Z }.

Definition PROCFS_MOPT_NOPROCPERMS : Z := 1.
Definition MOPT_PROCFS : mntopt := Mntopt "procperms" true PROCFS_MOPT_NOPROCPERMS 0.
Definition MNT_RDONLY : Z := 1.

(** What getopt returns: an option letter with its argument. *)
Inductive option_ := OptHelp | OptVerbose | OptO (optarg : string) | OptUnknown.

Inductive effect := Usage (name : option string) | Syslog (msg : string) | Stderr (msg : string) | Mount (dir : string) (flags : Z) (data : bytes).

Record options := Options { verbose : bool; generic_options : Z; procfs_options : Z }.

Section Helper.
(** The standard options, and getmntopts: the two words of flags after parsing. *)
Variable MOPT_STDOPTS : list mntopt.
Variable getmntopts : string -> list mntopt -> Z * Z -> Z * Z.
(** mount(2): zero or an errno; strerror. *)
Variable mount : string -> Z -> bytes -> Z.
Variable strerror : Z -> string.

Definition mopts : list mntopt := (MOPT_STDOPTS ++ [MOPT_PROCFS])%list.

(** [None]: the usage message and exit. *)
Fixpoint parse (opts : list option_) (o : options) : option options :=
  match opts with
  | [] => Some o
  | OptHelp :: _ | OptUnknown :: _ => None
  | OptVerbose :: r => parse r (Options true (generic_options o) (procfs_options o))
  | OptO arg :: r => let '(g, p) := getmntopts arg mopts (generic_options o, procfs_options o) in parse r (Options (verbose o) g p)
  end.

(** [mount_data]: a page, zero but for the options. *)
Definition mount_data (o : options) : bytes := (le_bytes 4 (procfs_options o) ++ repeat 0 4092)%list.

(** The exit status and the effects; [args]: the operands after the options. *)
Definition main (prog_name : string) (opts : list option_) (args : list string) : Z * list effect :=
  match parse opts (Options false 0 0) with
  | None => (1, [Usage (Some prog_name)])
  | Some o =>
      match args with
      | [_; mntdir] =>
          let pre := if verbose o then [Syslog (prog_name +:+ ": Mounting procfs on " +:+ mntdir)] else [] in
          let errno := mount mntdir (generic_options o) (mount_data o) in
          let err := if errno =? 0 then [] else [Stderr (prog_name +:+ ": Failed to mount procfs on " +:+ mntdir +:+ ": " +:+ strerror errno)] in
          let post := if verbose o
                      then [Syslog (prog_name +:+ (if errno =? 0 then ": mount completed"%string else ": mount failed: " +:+ strerror errno))] else [] in
          (if errno =? 0 then 0 else 1, (pre ++ [Mount mntdir (generic_options o) (mount_data o)] ++ err ++ post)%list)
      | _ => (1, [Usage (head args)])
      end
  end.

(** The documented behaviour of getmntopts on a single option that one entry of the
    table names: an inverse entry's flag is set by the option with "no" in front, in the
    second word when the entry has m_altloc and in the first one when not. *)
Definition getmntopts_inverse : Prop :=
  forall m t g p, NoDup (m_option <$> t) -> m ∈ t -> m_inverse m = true ->
    getmntopts ("no" +:+ m_option m) t (g, p) = if m_altloc m =? 0 then (Z.lor g (m_flag m), p) else (g, Z.lor p (m_flag m)).
End Helper.

Definition is_mount (e : effect) : bool := match e with Mount _ _ _ => true | _ => false end.

(** The helper mounts once or not at all: it calls mount(2) exactly when the options
    parse and there are two operands, with the parsed flags and a page whose first
    word is the procfs options, and it exits with 0 exactly when that call
    succeeds. *)
Theorem mount_helper_once std getmntopts mount strerror prog opts args :
  let '(status, effects) := main std getmntopts mount strerror prog opts args in
  (status = 0 \/ status = 1)
  /\ match parse std getmntopts opts (Options false 0 0), args with
     | Some o, [_; dir] =>
         List.filter is_mount effects = [Mount dir (generic_options o) (mount_data o)]
         /\ length (mount_data o) = 4096%nat /\ le_val (take 4 (mount_data o)) = u32 (procfs_options o)
         /\ (status = 0 <-> mount dir (generic_options o) (mount_data o) = 0)
     | _, _ => List.filter is_mount effects = [] /\ status = 1
     end.
Proof.
  unfold main. destruct (parse std getmntopts opts _) as [o|]; [|by split; [right|]].
  destruct args as [|a [|dir [|? ?]]]; try (by split; [right|]).
  assert (Hd : length (mount_data o) = 4096%nat /\ le_val (take 4 (mount_data o)) = u32 (procfs_options o)).
  { unfold mount_data. split; [rewrite length_app, le_bytes_length, repeat_length; done|]. rewrite take_app_length' by by rewrite le_bytes_length.
    rewrite le_val_bytes. done. }
  destruct (Z.eqb_spec (mount dir (generic_options o) (mount_data o)) 0) as [E|E]; destruct (verbose o); (split; [first [by left|by right]|]); cbn [app List.filter is_mount];
    (split_and!; [done|apply Hd|apply Hd|done]).
Qed.

(** The option of procfs does not reach procfs: its entry has no m_altloc, so
    "noprocperms" sets bit 0 of the generic flags, which is MNT_RDONLY, and leaves the
    procfs options of the mount data zero. *)
Theorem noprocperms_mounts_read_only std getmntopts mount strerror prog dir : getmntopts_inverse getmntopts -> NoDup (m_option <$> mopts std) ->
  snd (main std getmntopts mount strerror prog [OptO "noprocperms"] ["procfs"%string; dir])
  = (Mount dir MNT_RDONLY (repeat 0 4096)
     :: if mount dir MNT_RDONLY (repeat 0 4096) =? 0 then [] else [Stderr (prog +:+ ": Failed to mount procfs on " +:+ dir +:+ ": " +:+ strerror (mount dir MNT_RDONLY (repeat 0 4096)))]).
Proof.
  intros Hg Hn. unfold main. cbn [parse generic_options procfs_options verbose].
  pose proof (Hg MOPT_PROCFS (mopts std) 0 0) as E. change ("no" +:+ m_option MOPT_PROCFS) with "noprocperms"%string in E.
  rewrite E; [|done|unfold mopts; apply elem_of_app; right; by left|done].
  change (m_altloc MOPT_PROCFS =? 0) with true. cbn iota. cbn [parse generic_options procfs_options verbose snd app].
  change (Z.lor 0 (m_flag MOPT_PROCFS)) with MNT_RDONLY. change (mount_data (Options false MNT_RDONLY 0)) with (repeat 0 4096). by destruct (mount dir MNT_RDONLY (repeat 0 4096) =? 0).
Qed.

(** ** Witness *)
(** A parser of a single option. *)
Definition one_option (s : string) (t : list mntopt) (f : Z * Z) : Z * Z :=
  match List.find (fun m => String.eqb s ("no" +:+ m_option m)) (List.filter m_inverse t) with
  | Some m => if m_altloc m =? 0 then (Z.lor (fst f) (m_flag m), snd f) else (fst f, Z.lor (snd f) (m_flag m))
  | None => f
  end.

Lemma no_inj a b : ("no" +:+ a)%string = "no" +:+ b -> a = b.
Proof. intros E. injection E as E. exact E. Qed.

Lemma one_option_law : getmntopts_inverse one_option.
Proof.
  intros m t g p Hn Hm Hi. unfold one_option. assert (E : List.find (fun m' => String.eqb ("no" +:+ m_option m) ("no" +:+ m_option m')) (List.filter m_inverse t) = Some m);
    [|by rewrite E].
  induction t as [|x t IH]; [by apply elem_of_nil in Hm|]. cbn in Hn. apply NoDup_cons in Hn as [Hx Hn]. cbn [List.filter].
  apply elem_of_cons in Hm as [<-|Hm]; [rewrite Hi; cbn [List.find]; by rewrite String.eqb_refl|].
  destruct (m_inverse x); [|by apply IH]. cbn [List.find]. destruct (String.eqb_spec ("no" +:+ m_option m) ("no" +:+ m_option x)) as [E|]; [|by apply IH].
  exfalso. apply Hx. apply no_inj in E. rewrite <- E. by apply list_elem_of_fmap_2.
Qed.

Lemma noprocperms_sample :
  main [] one_option (fun _ _ _ => 0) (fun _ => EmptyString) "mount_procfs" [OptO "noprocperms"] ["procfs"; "/proc"]%string
  = (0, [Mount "/proc" MNT_RDONLY (repeat 0 4096)]).
Proof. vm_compute. reflexivity. Qed.
