(* ===== verification/Lifecycle.v ===== *)
(** * Loading and unloading (kext/procfs.c, the registration routines of
    kext/procfs_ctl.c and kext/procfs_linux.c, and the daemon's start)

    The start and stop routines acquire and release the memory tag, two lock groups
    with their mutexes, the file system type, the kernel control and the sysctls.
    The state says which of them are held; the results of the kernel's calls are the
    record [outcome].  The daemon connects to the control and restores the persisted
    settings, and mounts /proc once. *)
From S2P Require Import Prelude Kernel.
From Stdlib Require Import ZArith Lia String.
From stdpp Require Import base list numbers.
Open Scope Z_scope.

Definition KERN_SUCCESS : Z := 0.
Definition KERN_FAILURE : Z := 5.

(** The globals of the extension, a pointer as whether it is not NULL, and the
    kernel's tables. *)
Record kext := Kext {
  initialized : bool;
  procfs_osmalloc_tag : bool; pfsnode_lck_grp : bool; pfsnode_hash_mutex : bool;
  procfs_vfs_table_ref : bool;
  g_ctl_grp : bool; g_ctl_lock : bool; g_ctl_ref : bool; g_ctl_connected : bool;
  k_fs : bool;                  (* the file system type is registered *)
  k_ctl : bool;                 (* the control is registered *)
  k_oids : list string          (* the registered oids of procfs *)
}.
Definition fresh : kext := Kext false false false false false false false false false false false [].

(** What the kernel's calls return: whether an allocation succeeds, or an errno. *)
Record outcome := Outcome {
  o_tag : bool; o_grp : bool; o_mtx : bool; o_fsadd : Z; o_ctl_grp : bool; o_ctl_mtx : bool; o_ctl_register : Z;
  o_uuid : Z; o_ctl_deregister : Z; o_fsremove : Z
}.

Section Steps.
Variable o : outcome.

(** The results of the two lock allocations are not tested. *)
Definition procfs_init (s : kext) : Z * kext :=
  if initialized s then (0, s)
  else
    let s := Kext true (o_tag o) (pfsnode_lck_grp s) (pfsnode_hash_mutex s) (procfs_vfs_table_ref s) (g_ctl_grp s) (g_ctl_lock s) (g_ctl_ref s)
               (g_ctl_connected s) (k_fs s) (k_ctl s) (k_oids s) in
    if negb (o_tag o) then (ENOMEM, s)
    else (0, Kext true true (o_grp o) (o_mtx o) (procfs_vfs_table_ref s) (g_ctl_grp s) (g_ctl_lock s) (g_ctl_ref s) (g_ctl_connected s) (k_fs s) (k_ctl s) (k_oids s)).

Definition procfs_fini (s : kext) : kext :=
  Kext (initialized s) false false false (procfs_vfs_table_ref s) (g_ctl_grp s) (g_ctl_lock s) (g_ctl_ref s) (g_ctl_connected s) (k_fs s) (k_ctl s) (k_oids s).

Definition with_ctl (grp lock ref conn k : bool) (s : kext) : kext :=
  Kext (initialized s) (procfs_osmalloc_tag s) (pfsnode_lck_grp s) (pfsnode_hash_mutex s) (procfs_vfs_table_ref s) grp lock ref conn (k_fs s) k (k_oids s).

Definition procfs_ctl_register (s : kext) : Z * kext :=
  if negb (o_ctl_grp o) then (KERN_FAILURE, with_ctl false (g_ctl_lock s) (g_ctl_ref s) (g_ctl_connected s) (k_ctl s) s)
  else if negb (o_ctl_mtx o) then (KERN_FAILURE, with_ctl false false (g_ctl_ref s) (g_ctl_connected s) (k_ctl s) s)
  else if negb (o_ctl_register o =? 0) then (KERN_FAILURE, with_ctl false false (g_ctl_ref s) (g_ctl_connected s) (k_ctl s) s)
  else (KERN_SUCCESS, with_ctl true true true (g_ctl_connected s) true s).

(** The result of ctl_deregister is not tested: the control stays when it fails. *)
Definition procfs_ctl_deregister (s : kext) : kext :=
  with_ctl false false false false (if g_ctl_ref s then negb (o_ctl_deregister o =? 0) && k_ctl s else k_ctl s) s.

Definition with_oids (l : list string) (s : kext) : kext :=
  Kext (initialized s) (procfs_osmalloc_tag s) (pfsnode_lck_grp s) (pfsnode_hash_mutex s) (procfs_vfs_table_ref s) (g_ctl_grp s) (g_ctl_lock s) (g_ctl_ref s)
    (g_ctl_connected s) (k_fs s) (k_ctl s) l.
Definition sysctl_register_oid (n : string) (s : kext) : kext := with_oids (k_oids s ++ [n])%list s.
Definition sysctl_unregister_oid (n : string) (s : kext) : kext := with_oids (List.filter (fun m => negb (String.eqb m n)) (k_oids s)) s.
Definition procfs_sysctl_register (s : kext) : kext :=
  sysctl_register_oid "procfs.linux_version" (sysctl_register_oid "procfs.linux" (sysctl_register_oid "procfs" s)).
Definition procfs_sysctl_unregister (s : kext) : kext :=
  sysctl_unregister_oid "procfs" (sysctl_unregister_oid "procfs.linux" (sysctl_unregister_oid "procfs.linux_version" s)).

Definition with_fs (ref k : bool) (s : kext) : kext :=
  Kext (initialized s) (procfs_osmalloc_tag s) (pfsnode_lck_grp s) (pfsnode_hash_mutex s) ref (g_ctl_grp s) (g_ctl_lock s) (g_ctl_ref s) (g_ctl_connected s) k (k_ctl s) (k_oids s).

(** [None]: the assertion on the uuid fails. *)
Definition procfs_start (s : kext) : option (Z * kext) :=
  if negb (o_uuid o =? 0) then None
  else
    let '(ret, s) := procfs_init s in
    if negb (ret =? 0) then Some (KERN_FAILURE, s)
    else if negb (o_fsadd o =? 0) then Some (KERN_FAILURE, procfs_fini (with_fs false (k_fs s) s))
    else
      let s := with_fs true true s in
      let '(_, s) := procfs_ctl_register s in
      Some (KERN_SUCCESS, procfs_sysctl_register s).

Definition procfs_stop (s : kext) : Z * kext :=
  if negb (o_uuid o =? 0) then (KERN_FAILURE, s)
  else
    let s := procfs_ctl_deregister (procfs_sysctl_unregister s) in
    if procfs_vfs_table_ref s then
      if negb (o_fsremove o =? 0) then (KERN_FAILURE, s)
      else (KERN_SUCCESS, procfs_fini (with_fs true false s))
    else (KERN_SUCCESS, procfs_fini s).
End Steps.

(** ** What is held *)
(** Nothing of the extension is left in the kernel. *)
Definition released (s : kext) : Prop :=
  procfs_osmalloc_tag s = false /\ pfsnode_lck_grp s = false /\ pfsnode_hash_mutex s = false /\ g_ctl_grp s = false /\ g_ctl_lock s = false
  /\ g_ctl_ref s = false /\ k_fs s = false /\ k_ctl s = false /\ k_oids s = [].

(** In service: the type is registered, the sysctls are there, and the control has its
    lock exactly when it is registered. *)
Definition in_service (s : kext) : Prop :=
  procfs_osmalloc_tag s = true /\ k_fs s = true /\ procfs_vfs_table_ref s = true
  /\ k_oids s = ["procfs"; "procfs.linux"; "procfs.linux_version"]%string
  /\ g_ctl_ref s = k_ctl s /\ g_ctl_lock s = k_ctl s /\ g_ctl_grp s = k_ctl s.

(** C30. Loading is all or nothing and unloading gives everything back: whatever the
    kernel's calls return, a start that fails leaves nothing registered or allocated,
    a start that succeeds leaves the extension in service, with or without the
    control, and a stop whose calls succeed releases everything again. *)
Theorem load_unload o1 o2 s r : procfs_start o1 fresh = Some (r, s) ->
  (r = KERN_FAILURE -> released s)
  /\ (r <> KERN_FAILURE -> r = KERN_SUCCESS /\ in_service s
      /\ (o_uuid o2 = 0 -> o_ctl_deregister o2 = 0 -> o_fsremove o2 = 0 -> exists s', procfs_stop o2 s = (KERN_SUCCESS, s') /\ released s')).
Proof.
  unfold procfs_start, procfs_init, procfs_ctl_register, procfs_stop, released, in_service. cbn [initialized fresh].
  destruct (negb (o_uuid o1 =? 0)); [done|]. destruct (o_tag o1); cbn [negb]; [|intros [= <- <-]; split; [done|by intros []]].
  change (0 =? 0) with true. cbn [negb]. destruct (negb (o_fsadd o1 =? 0)); [intros [= <- <-]; split; [done|by intros []]|].
  destruct (o_ctl_grp o1), (o_ctl_mtx o1), (negb (o_ctl_register o1 =? 0)); cbn [negb]; intros [= <- <-];
    (split; [done|]); intros _; (split; [done|]); (split; [done|]); intros Hu Hc Hf;
    rewrite Hu, Hf; (change (negb (0 =? 0)) with false); cbv iota; eexists; (split; [reflexivity|]); cbn; rewrite ?Hc; done.
Qed.

Lemma load_unload_witness : exists s, procfs_start (Outcome true true true 0 true true 0 0 0 0) fresh = Some (KERN_SUCCESS, s) /\ in_service s.
Proof.
  eexists. split; [reflexivity|].
  exact (proj1 (proj2 (proj2 (load_unload (Outcome true true true 0 true true 0 0 0 0) (Outcome true true true 0 true true 0 0 0 0) _ KERN_SUCCESS eq_refl) ltac:(done)))).
Defined.

(** A stop that is refused, because a file system is mounted, is half done: the
    extension keeps serving the mount, without its sysctls and without the bridge. *)
Theorem refused_stop_half_done o1 o2 s : procfs_start o1 fresh = Some (KERN_SUCCESS, s) -> o_uuid o2 = 0 -> o_fsremove o2 <> 0 ->
  exists s', procfs_stop o2 s = (KERN_FAILURE, s') /\ k_fs s' = true /\ k_oids s' = [] /\ g_ctl_ref s' = false /\ g_ctl_lock s' = false.
Proof.
  unfold procfs_start, procfs_init, procfs_ctl_register, procfs_stop. cbn [initialized fresh].
  destruct (negb (o_uuid o1 =? 0)); [done|]. destruct (o_tag o1); cbn [negb]; [|done].
  change (0 =? 0) with true. cbn [negb]. destruct (negb (o_fsadd o1 =? 0)); [done|]. intros Hs Hu Hf.
  assert (Ef : negb (o_fsremove o2 =? 0) = true) by (destruct (Z.eqb_spec (o_fsremove o2) 0); [done|done]). revert Hs.
  destruct (o_ctl_grp o1), (o_ctl_mtx o1), (negb (o_ctl_register o1 =? 0)); cbn [negb]; intros [= <-];
    rewrite Hu, Ef; (change (negb (0 =? 0)) with false); cbv iota; eexists; (split; [reflexivity|]); done.
Qed.

(** With a daemon connected the control cannot be deregistered; its lock is freed all
    the same, while its callbacks stay registered. *)
Theorem busy_control_loses_lock o1 o2 s : procfs_start o1 fresh = Some (KERN_SUCCESS, s) -> k_ctl s = true ->
  o_uuid o2 = 0 -> o_ctl_deregister o2 = EBUSY -> o_fsremove o2 = 0 ->
  exists s', procfs_stop o2 s = (KERN_SUCCESS, s') /\ k_ctl s' = true /\ g_ctl_lock s' = false.
Proof.
  unfold procfs_start, procfs_init, procfs_ctl_register, procfs_stop. cbn [initialized fresh].
  destruct (negb (o_uuid o1 =? 0)); [done|]. destruct (o_tag o1); cbn [negb]; [|done].
  change (0 =? 0) with true. cbn [negb]. destruct (negb (o_fsadd o1 =? 0)); [done|]. intros Hs Hk Hu Hc Hf. revert Hs Hk.
  destruct (o_ctl_grp o1), (o_ctl_mtx o1), (negb (o_ctl_register o1 =? 0)); cbn [negb]; intros [= <-]; cbn; try done. intros _.
  rewrite Hu, Hf. change (negb (0 =? 0)) with false. cbv iota. eexists. split; [reflexivity|]. cbn. by rewrite Hc.
Qed.

(** ** The daemon's start *)
(** The descriptor of a connected socket, and how many descriptors stay open: the
    results of socket, ioctl and connect are parameters. *)
Definition connect_ctl (socket ioctl connect : Z) : Z * Z :=
  if socket <? 0 then (-1, 0)
  else if ioctl <? 0 then (-1, 0)
  else if connect <? 0 then (-1, 0)
  else (socket, 1).

(** Whether the daemon calls mount(2): armed, /proc is a directory, and what is
    mounted there is not procfs. *)
Definition procfsd_try_mount (armed : bool) (is_dir : option bool) (fstypename : option string) : bool :=
  armed && match is_dir with Some true => true | _ => false end
  && negb (match fstypename with Some t => String.eqb t "procfs" | None => false end).

(** The loop of apply_persisted_int: [set t] is the errno of the attempt [t]; the
    result is the number of attempts and the errno of the last one. *)
Fixpoint restore_loop (n tries : nat) (set : nat -> Z) (last : Z) : nat * Z :=
  match n with
  | O => (tries, last)
  | S n =>
    let e := set tries in
    if e =? 0 then (S tries, 0)
    else if negb (e =? ENOENT) then (S tries, e)
    else restore_loop n (S tries) set e
  end.

(** [file]: absent, without a number, or with one.  The result: the value written to
    the sysctl, if one was, and the number of attempts. *)
Definition apply_persisted_int (file : option (option Z)) (clamp01 : bool) (set : nat -> Z) : option Z * nat :=
  match file with
  | Some (Some v) =>
    let val := if clamp01 then if negb (v =? 0) then 1 else 0 else v in
    let '(tries, e) := restore_loop 50 0 set 0 in
    (if e =? 0 then Some val else None, tries)
  | _ => (None, O)
  end.

Lemma restore_loop_found set k : forall n tries last, (forall i, (tries <= i < tries + k)%nat -> set i = ENOENT) -> set (tries + k)%nat = 0 ->
  (k < n)%nat -> restore_loop n tries set last = (S (tries + k), 0).
Proof.
  induction k as [|k IH]; intros [|n] tries last Hn H0 Hl; try lia; cbn [restore_loop].
  - rewrite Nat.add_0_r in H0 |- *. by rewrite H0.
  - rewrite (Hn tries) by lia. change (ENOENT =? 0) with false. rewrite Z.eqb_refl. cbn [negb]. cbv iota.
    rewrite (IH n (S tries) ENOENT); [do 2 f_equal; lia| |by rewrite <- H0; f_equal; lia|lia]. intros i Hi. apply Hn. lia.
Qed.

Lemma restore_loop_absent set n : forall tries last, (forall i, set i = ENOENT) -> (0 < n)%nat -> restore_loop n tries set last = ((tries + n)%nat, ENOENT).
Proof.
  induction n as [|n IH]; intros tries last Hn Hl; [lia|]. cbn [restore_loop]. rewrite Hn.
  change (ENOENT =? 0) with false. rewrite Z.eqb_refl. cbn [negb]. cbv iota.
  destruct n as [|n]; [cbn; f_equal; lia|]. rewrite IH by (done || lia). f_equal. lia.
Qed.

(** A saved setting is restored once its sysctl exists: when the sysctl appears within
    the first fifty attempts the saved number is written, once, and a flag is written as
    0 or 1; when it never appears the daemon gives up after fifty attempts; an absent or
    unreadable file writes nothing. *)
Theorem setting_restored file clamp01 set :
  match file with
  | Some (Some v) =>
    (forall k, (k < 50)%nat -> (forall i, (i < k)%nat -> set i = ENOENT) -> set k = 0 ->
      apply_persisted_int file clamp01 set = (Some (if clamp01 then if v =? 0 then 0 else 1 else v), S k))
    /\ ((forall i, set i = ENOENT) -> apply_persisted_int file clamp01 set = (None, 50%nat))
  | _ => apply_persisted_int file clamp01 set = (None, O)
  end.
Proof.
  destruct file as [[v|]|]; [|done..]. unfold apply_persisted_int. split.
  - intros k Hk Hn H0. rewrite (restore_loop_found set k 50 0 0) by (try done; intros i Hi; apply Hn; lia).
    cbn. by destruct clamp01, (v =? 0).
  - intros Hn. by rewrite (restore_loop_absent set 50 0 0) by (done || lia).
Qed.
