(* ===== verification/Service.v ===== *)
(** * The daemon as a service (main of tools/procfsd.c)

    The outer loop of procfsd: loading the extension at boot, connecting, restoring the
    saved settings, receiving requests, and connecting again after an error; and the
    thread that keeps /proc mounted.  The results of the system calls are the inputs of
    the steps; what a step does is listed in order. *)
From S2P Require Import Prelude Kernel PfsTypes Text Subr Ctl Map Daemon Lifecycle.
From Stdlib Require Import ZArith Lia String.
From stdpp Require Import base list numbers strings gmap.
Open Scope Z_scope.

(** The command that bootstrap runs, if the arm flag exists. *)
Definition PROCFS_KEXT_PATH : string := "/Library/Extensions/procfs.kext".
Definition procfsd_bootstrap (armed : bool) : option (list string) :=
  if armed then Some ["/usr/bin/kmutil"; "load"; "-p"; PROCFS_KEXT_PATH]%string else None.

(** ** The request loop *)
Definition EINTR : Z := 4.
Definition REQ_SIZE : Z := 280.                  (* sizeof(struct procfs_ctl_req) *)

Inductive input :=
| Connect (socket ioctl connect : Z)             (* one round of wait_connect *)
| RecvError (errno : Z)
| Recv (n : Z) (q : procfs_ctl_req).             (* [n] bytes, read as a request *)

Inductive action :=
| Opened (fd : Z) | Closed (fd : Z) | Slept
| Restored (oid : string) (value : option Z)     (* what apply_persisted_int wrote *)
| Sent (fd : Z) (reply : bytes).

(** [None] for [sv_fd]: the daemon is in wait_connect. *)
Record service := Service { sv_fd : option Z; sv_data : dstate }.

Section Loop.
Variable H : host.
Variable pad : nat -> bytes.
Variable argmax : Z.
Variable malloc_ok : bool.
Variable built : Z -> option bytes.
Variable elsewhere : Z -> option (Z -> Z -> string -> option (Z * bytes)).
(** The files of the settings and the errno of the attempts to set a sysctl. *)
Variables linux_conf version_conf : option (option Z).
Variable set_oid : string -> nat -> Z.

Definition apply_persisted_linux_mode : list action :=
  [Restored "procfs.linux" (fst (apply_persisted_int linux_conf true (set_oid "procfs.linux")));
   Restored "procfs.linux_version" (fst (apply_persisted_int version_conf false (set_oid "procfs.linux_version")))].

(** [None]: a handler runs out of fuel. *)
Definition service_step (i : input) (s : service) : option (service * list action) :=
  match sv_fd s, i with
  | None, Connect socket ioctl connect =>
      let fd := fst (connect_ctl socket ioctl connect) in
      if 0 <=? fd then Some (Service (Some fd) (sv_data s), Opened fd :: apply_persisted_linux_mode) else Some (s, [Slept])
  | Some fd, RecvError errno =>
      if errno =? EINTR then Some (s, []) else Some (Service None (sv_data s), [Closed fd])
  | Some fd, Recv n q =>
      match daemon_turn H pad argmax malloc_ok built elsewhere (negb (n <? REQ_SIZE)) q (sv_data s) with
      | Some (reply, d) => Some (Service (Some fd) d, match reply with Some r => [Sent fd r] | None => [] end)
      | None => None
      end
  | _, _ => Some (s, [])
  end.

Fixpoint service_run (l : list input) (s : service) : option (service * list action) :=
  match l with
  | [] => Some (s, [])
  | i :: l =>
      match service_step i s with
      | Some (s, a) => match service_run l s with Some (s, b) => Some (s, a ++ b)%list | None => None end
      | None => None
      end
  end.

(** ** Accounting *)
Definition opened (l : list action) : nat := length (List.filter (fun a => match a with Opened _ => true | _ => false end) l).
Definition closed (l : list action) : nat := length (List.filter (fun a => match a with Closed _ => true | _ => false end) l).
Definition restored (oid : string) (l : list action) : nat :=
  length (List.filter (fun a => match a with Restored o _ => String.eqb o oid | _ => false end) l).

Definition connected (s : service) : nat := match sv_fd s with Some _ => 1%nat | None => 0%nat end.

(** After any actions: what is open is the connection, and each connection restored
    each setting once. *)
Definition accounted (s0 s : service) (l : list action) : Prop :=
  (opened l + connected s0 = closed l + connected s)%nat
  /\ restored "procfs.linux" l = opened l /\ restored "procfs.linux_version" l = opened l.

Lemma step_accounted i s s' l : service_step i s = Some (s', l) -> accounted s s' l.
Proof.
  unfold service_step, accounted, connected. destruct (sv_fd s) as [fd|] eqn:Ef, i as [so io co|e|n q]; cbn [sv_fd].
  - intros [= <- <-]. by rewrite Ef.
  - destruct (e =? EINTR); intros [= <- <-]; [by rewrite Ef|by cbn].
  - destruct (daemon_turn _ _ _ _ _ _ _ _ _) as [[[r|] d]|]; intros [= <- <-]; by cbn.
  - destruct (0 <=? _); intros [= <- <-]; [by cbn|by rewrite Ef].
  - intros [= <- <-]. by rewrite Ef.
  - intros [= <- <-]. by rewrite Ef.
Qed.

Lemma accounted_app s0 s1 s2 a b : accounted s0 s1 a -> accounted s1 s2 b -> accounted s0 s2 (a ++ b)%list.
Proof.
  unfold accounted, opened, closed, restored. rewrite !List.filter_app, !length_app. lia.
Qed.

Lemma run_accounted l : forall s s' acts, service_run l s = Some (s', acts) -> accounted s s' acts.
Proof.
  induction l as [|i l IH]; intros s s' acts; cbn [service_run]; [intros [= <- <-]; unfold accounted; cbn; lia|].
  destruct (service_step i s) as [[s1 a]|] eqn:E1; [|done]. destruct (service_run l s1) as [[s2 b]|] eqn:E2; [|done].
  intros [= <- <-]. eapply accounted_app; [by eapply step_accounted|by apply IH].
Qed.

(** The daemon keeps its connection in order: whatever the system calls return, in any
    order, it has exactly one descriptor open while it is connected and none while it
    waits, and every connection restores each of the two settings once. *)
Theorem connection_accounted l s acts : service_run l (Service None (Dstate ∅)) = Some (s, acts) ->
  (opened acts = closed acts + connected s)%nat
  /\ restored "procfs.linux" acts = opened acts /\ restored "procfs.linux_version" acts = opened acts.
Proof. intros E. apply run_accounted in E. unfold accounted in E. cbn [connected sv_fd] in E. lia. Qed.

(** ** Recovery *)
Definition refused (i : input) : Prop :=
  match i with Connect so io co => so < 0 \/ io < 0 \/ co < 0 | _ => False end.

Lemma refused_waits i d : refused i -> service_step i (Service None d) = Some (Service None d, [Slept]).
Proof.
  destruct i as [so io co|e|n q]; [|done..]. intros Hr. cbn [service_step sv_fd]. unfold connect_ctl.
  destruct (Z.ltb_spec so 0); [done|]. destruct (Z.ltb_spec io 0); [done|]. destruct (Z.ltb_spec co 0); [done|]. cbn in Hr. lia.
Qed.

Lemma waits_then fails : forall d rest, Forall refused fails ->
  service_run (fails ++ rest) (Service None d)
  = (fun x => (fst x, repeat Slept (length fails) ++ snd x)%list) <$> service_run rest (Service None d).
Proof.
  induction fails as [|i fails IH]; intros d rest Hf; [cbn; by destruct (service_run rest _) as [[]|]|].
  apply Forall_cons in Hf as [Hi Hf]. cbn [app service_run]. rewrite (refused_waits i d Hi), (IH d rest Hf).
  by destruct (service_run rest _) as [[s a]|].
Qed.

(** A sysctl that appears within the first fifty attempts. *)
Definition appears (set : nat -> Z) : Prop :=
  exists k, (k < 50)%nat /\ (forall i, (i < k)%nat -> set i = ENOENT) /\ set k = 0.

Lemma apply_appears file clamp01 set : appears set ->
  fst (apply_persisted_int file clamp01 set)
  = match file with Some (Some v) => Some (if clamp01 then if v =? 0 then 0 else 1 else v) | _ => None end.
Proof.
  intros (k & Hk & Hn & H0). pose proof (setting_restored file clamp01 set) as Hs. destruct file as [[v|]|]; [|by rewrite Hs..].
  by rewrite (proj1 Hs k Hk Hn H0).
Qed.

(** C31. The service comes back: after an error on its socket (the extension was unloaded)
    and any number of failed attempts, the first successful connection writes the saved
    settings back, if their sysctls appear within the fifty attempts: procfs.linux as
    0 or 1, procfs.linux_version as it was saved, and nothing for a setting that was not
    saved; and the next request is answered on the new descriptor. *)
Theorem service_recovers fd d e fails so io co q error payload d' :
  e <> EINTR -> Forall refused fails -> 0 <= so -> 0 <= io -> 0 <= co ->
  appears (set_oid "procfs.linux") -> appears (set_oid "procfs.linux_version") ->
  q_magic q = PROCFS_CTL_MAGIC -> serve H pad argmax malloc_ok built elsewhere q d = Some (error, payload, d') ->
  service_run (RecvError e :: fails ++ [Connect so io co; Recv REQ_SIZE q]) (Service (Some fd) d)
  = Some (Service (Some so) d',
      [Closed fd] ++ repeat Slept (length fails)
      ++ [Opened so;
          Restored "procfs.linux" (match linux_conf with Some (Some v) => Some (if v =? 0 then 0 else 1) | _ => None end);
          Restored "procfs.linux_version" (match version_conf with Some (Some v) => Some v | _ => None end);
          Sent so (mk_reply (q_seq q) error payload)])%list.
Proof.
  intros He Hf Hso Hio Hco H1 H2 Hm Es. cbn [service_run service_step sv_fd sv_data]. destruct (Z.eqb_spec e EINTR); [done|].
  rewrite waits_then by done. cbn [service_run service_step sv_fd sv_data]. unfold connect_ctl.
  destruct (Z.ltb_spec so 0); [lia|]. destruct (Z.ltb_spec io 0); [lia|]. destruct (Z.ltb_spec co 0); [lia|]. cbn [fst].
  destruct (Z.leb_spec 0 so); [|lia]. cbn [service_run service_step sv_fd sv_data]. unfold daemon_turn. rewrite Hm, Es. change (negb (REQ_SIZE <? REQ_SIZE)) with true.
  rewrite Z.eqb_refl. cbn [andb fmap option_fmap option_map fst snd]. unfold apply_persisted_linux_mode. by rewrite !apply_appears by done.
Qed.

(** The end of the stream is not an error here: when recv returns 0, which is less than
    a request, the daemon asks again, and never connects to an extension that was
    loaded anew. *)
Theorem eof_never_reconnects fd d k q : service_run (repeat (Recv 0 q) k) (Service (Some fd) d) = Some (Service (Some fd) d, []).
Proof. induction k as [|k IH]; [done|]. cbn [repeat service_run service_step sv_fd sv_data]. cbn. by rewrite IH. Qed.
End Loop.

(** ** Keeping /proc mounted *)
(** The file systems mounted on /proc, the top one first. *)
Definition mounts : Type := list string.
Definition ROOT_FS : string := "apfs".           (* what is there without a mount *)

(** One tick of the mount thread: whether the flag is there, what stat says of /proc,
    whether statfs answers, and the result of mount. *)
Record tick := Tick { t_armed : bool; t_is_dir : option bool; t_statfs : bool; t_mount : Z }.

(** statfs reports the top of the stack. *)
Definition mount_tick (t : tick) (st : mounts) : mounts :=
  let fstypename := if t_statfs t then Some (default ROOT_FS (head st)) else None in
  if procfsd_try_mount (t_armed t) (t_is_dir t) fstypename then if t_mount t =? 0 then "procfs"%string :: st else st else st.









(** A statfs that fails counts as not mounted: the next tick mounts procfs on procfs. *)
Theorem failed_statfs_stacks st t : t_armed t = true -> t_is_dir t = Some true -> t_statfs t = false -> t_mount t = 0 ->
  mount_tick t ("procfs"%string :: st) = "procfs"%string :: "procfs"%string :: st.
Proof. intros Ha Hd Hs Hm. unfold mount_tick, procfsd_try_mount. by rewrite Ha, Hd, Hs, Hm. Qed.


Lemma failed_statfs_stacks_witness : mount_tick (Tick true (Some true) false 0) ["procfs"%string] = ["procfs"%string; "procfs"%string].
Proof. apply (failed_statfs_stacks [] (Tick true (Some true) false 0)); reflexivity. Defined.

(** A request of an unknown type is answered with EINVAL. *)
Definition quiet_host : host := Host (fun _ => None) (fun _ _ => (0, 0, [])) (fun _ _ _ _ => (0, 0, [])) 16384.
Definition odd_request : procfs_ctl_req := CtlReq PROCFS_CTL_MAGIC 7 999 1 0 EmptyString.

Lemma service_recovers_witness :
  service_run quiet_host (fun _ => []) 262144 true (fun _ => None) (fun _ => None) (Some (Some 5)) None (fun _ _ => 0)
    [RecvError 57; Connect (-1) 0 0; Connect 4 (-1) 0; Connect 6 0 0; Recv REQ_SIZE odd_request] (Service (Some 3) (Dstate ∅))
  = Some (Service (Some 6) (Dstate ∅),
      [Closed 3; Slept; Slept; Opened 6; Restored "procfs.linux" (Some 1); Restored "procfs.linux_version" None; Sent 6 (mk_reply 7 EINVAL [])]).
Proof.
  refine (service_recovers quiet_host (fun _ => []) 262144 true (fun _ => None) (fun _ => None) (Some (Some 5)) None (fun _ _ => 0)
    3 (Dstate ∅) 57 [Connect (-1) 0 0; Connect 4 (-1) 0] 6 0 0 odd_request EINVAL [] (Dstate ∅) _ _ _ _ _ _ _ eq_refl _); try lia; [discriminate| |exists 0%nat; split; [lia|]; split; [lia|done]..|].
  - repeat constructor; cbn; lia.
  - unfold serve. cbn [q_type odd_request]. rewrite bool_decide_false; [reflexivity|]. unfold blob_types. rewrite list_elem_of_In. cbn. lia.
Defined.

Lemma connection_accounted_witness :
  opened [Slept; Opened 6; Restored "procfs.linux" None; Restored "procfs.linux_version" None; Closed 6] = 1%nat.
Proof.
  exact (proj1 (connection_accounted quiet_host (fun _ => []) 262144 true (fun _ => None) (fun _ => None) None None (fun _ _ => 0)
    [Connect (-1) 0 0; Connect 6 0 0; RecvError 57] (Service None (Dstate ∅)) _ eq_refl)).
Defined.
